(* ===== verification/_CoqProject ===== *)
-Q . S2P
Prelude.v
Decimal.v
Chrono.v
Ids.v
Domain.v
Plan.v
Presets.v
Account.v
Violation.v
EventStore.v
Pack.v
RuleApi.v
DrawdownRules.v
TargetRules.v
TimeRules.v
LimitRules.v
PatternRules.v
Registry.v
Decision.v
State.v
Pipeline.v
Risk.v
Hashing.v
Idempotency.v
Pure.v
Metrics.v
Json.v
AuditLog.v
Api.v
Values.v
Text.v
Evaluator.v
Notify.v
Cli.v
Settings.v
Http.v
Server.v
Samples.v
PipelineSamples.v
ApiSamples.v
PresetFacts.v
RuleTotality.v
DecisionFacts.v
DrawdownFacts.v
RuleFacts.v
IdsFacts.v
ConfigFacts.v
RegistryFacts.v
EstimatedFacts.v
StateFacts.v
PayoutFacts.v
Lifecycle.v
RolloverFacts.v
ZoneFacts.v
PipelineFacts.v
CounterFacts.v
RiskFacts.v
LivenessFacts.v
CauseFacts.v
TickCauses.v
OrderCauses.v
PeriodicCauses.v
StoreFacts.v
IdempotencyFacts.v
PureFacts.v
CacheFacts.v
HandlerSamples.v
HttpSamples.v
CliSamples.v
ApiFacts.v
HandlerFacts.v
HintFacts.v
OwnershipFacts.v
RequestCauses.v
HttpFacts.v
SettingsFacts.v
ServerFacts.v
CliFacts.v
EngineFacts.v
