(* ===== verification/Prelude.v ===== *)
(** * Prop-firm challenge engine: a verification library

    The program (a Rust crate, sources under src/) evaluates trading accounts
    against the rules of a challenge plan.  An event (a tick, a fill, an
    order, a day rollover, an override, a payout, ...) is applied to an
    account; the rules of a registry are evaluated on the resulting context;
    their reports are folded into one decision; the decision moves the
    account through its lifecycle and emits domain events.  Around this core
    stand the presets of the firms, an event store with replay, risk metrics,
    a pure entry point with an input hash and a registry cache, HTTP
    handlers with an idempotency store, the router and server that carry
    them, and a command line; the handlers are stateless in the account,
    which comes with the request.  This library is a shallow embedding of all
    of it, executable on concrete inputs, with the theorems that make it
    correct.

    ** Conventions

    - Fallible code is in [outcome]: [Ret], [Err] (the crate's error enum,
      message texts being the format templates), [Panic] (unwrap on None,
      index out of range, decimal overflow, division by zero) and [OutOfFuel]
      (only the catch-up loop of the rollover takes fuel).  [let!] is its
      bind.
    - A method [m] of a type [T] is [T_m]; a field [f] carries the prefix of
      its record ([acc_], [plan_], [ctx_], [pos_], ...).  A method that
      consumes and returns its receiver is a function on records.
    - [u32] counters are integers that wrap, as in a release build.
    - Third-party crates are classes of operations with their documented
      behaviour as laws: [DecimalOps]/[DecimalLaws] for rust_decimal,
      [ChronoOps]/[ChronoLaws] for chrono and chrono-tz, [JsonOps] for the
      numbers read out of a pack entry's JSON, [Sha256Ops],
      [HashOps]/[HashLaws] and [UuidOps]/[UuidLaws] for digests, byte
      encodings and UUID texts, [TimeText] and [SerdeOps]/[SerdeLaws] for the
      texts of times, requests and responses, [DecimalText], [TzText], [JsonText] and [CliText] for the
      texts the command line and the notifier print, [TowerOps]/[TowerLaws]
      and [WireOps]/[WireLaws] for axum, the tower layers and the JSON
      extractor, [FigmentOps]/[FigmentLaws] for the layers of the settings,
      [TlsOps] and [OtelOps] for certificates and exporters.  The laws that
      theorems use have a concrete instance satisfying them, on which the
      witnesses run.
    - Readings of the wall clock and random identifiers are arguments
      ([Fresh] for one rule evaluation, [Env] for one call of [process]); the
      notifier and the event store are functions in the [Pipeline] record.
      [ApiEnv] holds what one request draws from its surroundings; what
      requests share (the registry cache, the idempotency store) and the log
      of metrics and audit lines they leave is the state of the monad [api],
      whose values are a response or a status with a message, and whose bind
      is [let?].  A layer or the whole router is a [Service], from a request
      and that state to a response and the state after it.  A command that
      fails with a text is [cli] or [anyhow], with bind [let^].

    ** Files

    Foundations:
    - Prelude: errors, the outcome monad, machine integers, record update,
      the tactics [monad_inv] and friends.
    - Decimal, Chrono: the two interfaces, their laws, consequences, instances.
    - Ids: [RuleId::named] with SipHash-1-3 (core/ids.rs).

    Model:
    - Domain: core/types.rs, order.rs, trade.rs, tick.rs, position.rs,
      instrument.rs.
    - Plan: config/plan.rs and the payout policy of payout.rs.
    - Presets: config/presets.rs.
    - Account: core/account.rs.
    - Violation: core/violation.rs, core/events.rs, liquidation.rs,
      override_engine.rs.
    - EventStore: events/store.rs.
    - Pack: rulepack.rs, rules/params.rs.
    - RuleApi: config/rule_config.rs, equity_input.rs, rules/context.rs,
      rules/traits.rs (the trait is the record [Rule]).
    - DrawdownRules, TargetRules, TimeRules, LimitRules, PatternRules: all
      evaluators of rules/evaluators/.
    - Registry: rules/registry.rs.
    - Decision: engine/decision.rs.
    - State: engine/state.rs and quoting and recording in payout.rs.
    - Pipeline: engine/pipeline.rs, snapshot.rs; [process] is
      [process_with_loaded_account], split into the stages of its body, with
      one definition per event.
    - Evaluator: engine/evaluator.rs, the pipeline's constructor.
    - Risk: risk/*.rs, reporting/report.rs.
    - Hashing: sha256_helper.rs and what [std::hash] writes for each type.
    - Idempotency: api/idempotency.rs.
    - Pure: pure.rs, registry_cache.rs, the content hash of rulepack.rs.
    - Metrics, AuditLog, Json: api/metrics.rs, api/audit_log.rs and the JSON
      values the sources build.
    - Api: api/handlers.rs, api/dto.rs, the error bodies of
      api/middleware.rs, [TenantId::named] of tenant.rs.
    - Values, Text: the operators, parsers and texts of core/types.rs,
      core/ids.rs and tenant.rs, the other Display texts, the summary line of
      reporting/report.rs, the JSON of a pack, the serialised timezone.
    - Notify: notifications/*.rs, the class [Notifier] and the log notifier.
    - Cli: bin/cli.rs, the arguments, the loop over lines, one line, the demo.
    - Settings: settings.rs.
    - Http: api/routes.rs, the routes, the stack of layers and the service
      they make.
    - Server: api/server.rs, api/otel.rs, api/shutdown.rs, bin/server.rs and
      the panic hook of api/middleware.rs.

    Theorems:
    - DecisionFacts: the decision is the highest category reported, does not
      depend on report order, terminates exactly when a rule does; ties go to
      the last report.
    - DrawdownFacts, RuleFacts: the verdict of the drawdown, target and
      window rules on every branch, over the rationals; where the maximum
      drawdown really warns; the division by zero of the daily rule.
    - RuleTotality, RegistryFacts: every evaluator settles; the registry
      refines a list of rules; the default registry evaluates every context;
      the plan registry reports what the full one reports; packs load
      completely or are refused.
    - EstimatedFacts: estimated equity never fails an account.
    - StateFacts, PayoutFacts, RolloverFacts: exact booking of fills,
      overrides as inverses of breaches, when a payout is accepted and what
      its watermark does, days counted once, and termination of the catch-up
      rollover on the event's day.
    - Lifecycle: [process] refines a step relation on the account's status;
      by induction a breach is final without an override and payouts are
      unreachable.
    - PipelineFacts: tick guards, positions after a fill, well-formedness of
      the position list, the peak balance, promotion, liquidation, and the
      events of a failure.
    - ConfigFacts, IdsFacts: validation of plans and packs, round trips of
      the enumerations' texts, rule identifiers.
    - CounterFacts: the day counters keep their type, and active days never
      outnumber the days.
    - ZoneFacts: where the day of a named time zone starts; a clock that goes
      back splits a trading day; a reset hour that is not one instant panics.
    - LivenessFacts: a fresh broker tick, and an event the rules only look at,
      is always processed to the end on an ordinary account.
    - CauseFacts, TickCauses, OrderCauses, PeriodicCauses, RequestCauses: from
      verdicts to the account's failure, and back.  A tick, a submitted order,
      the end of a day and a question on demand fail an account exactly for
      the causes listed, stated over the rationals without the code; a fill
      fails none; a request of the bridge is answered, with the causes of a
      tick.
    - PresetFacts: every preset builds, is valid and within the bounds of the
      numeric theorems.
    - StoreFacts: the store refines one stream with a filter; replay recovers
      the money of a trading log, but not its status.
    - RiskFacts: the one-pass maximum drawdown is the largest fall; exposure
      is the sum of the positions; two profit factors; the drift of the value
      at risk.
    - IdempotencyFacts: the store is bounded, executes a key at most once and
      isolates tenants.
    - PureFacts: the pure function agrees with the pipeline; the cache gives
      a plan the registry of another; the input hash does not decide the
      verdict.
    - CacheFacts: the encodings of the cache key are prefix-free, so that a
      cached registry has the rules of the plan, but for three whose settings
      the key leaves out.
    - ApiFacts, HandlerFacts: an estimated request fails no account for a
      loss; who a rejection blames; retries under a key; what an override
      needs.
    - HintFacts: the floor hints against the rules they announce.
    - OwnershipFacts: in every state of the server, responses are about the
      caller's own account, replayed ones included.
    - HttpFacts: every answer is counted once with its method and status;
      request ids are echoed and never made; oversized bodies are refused;
      every route reaches its handler; what an evaluation leaves in the
      metrics.
    - SettingsFacts: where a setting comes from, over the merged layers as
      trees, and when a layer that puts a plain value in the place of a
      section keeps the settings from loading.
    - ServerFacts: the server serves as its TLS settings say and never gives
      up client certificates; panics are traced whatever the settings say;
      which settings are ignored; a failed signal listener stops the server.
    - CliFacts: what the arguments select; one answer per request line; the
      REPL agrees with the evaluate endpoint on estimated requests and
      ignores the equity of a bridge tick.
    - EngineFacts: the evaluator's tick methods are the pure function; every
      violation reaches the notifier once and in order; the hash of a pack
      does not cover the failure policy.
    - Samples, PipelineSamples, ApiSamples, HandlerSamples, HttpSamples,
      CliSamples: the concrete data of the witnesses.

    ** Bounds and fuel

    Decimal arithmetic is exact only while results fit 96 bits and 28
    decimals.  The numeric theorems assume [Fits k s]: an integer of magnitude
    at most [10^k], divided by [10^s].  Amounts are [Fits 15 4] or, for sums
    of days, [Fits 17 4] (a hundred billion, or ten trillion, in hundredths of
    a cent), percentages [Fits 6 6], quantities [Fits 12 4], prices
    [Fits 10 5], at most a thousand open positions: with these every
    intermediate result of the rules is representable.  The theorem on orders
    also takes a leverage that divides a thousand, so that margins are exact;
    the bridge sends cents, at most [10^13] of them.  The rollover loop needs
    one unit of fuel per day between the account's day and the event's;
    [auto_rollover_catches_up] proves that number sufficient, on UTC days
    (those of every preset) and within the range of chrono's calendar
    ([ts_near]).

    ** Not modelled

    Sockets, tasks and the exporter of the metrics (asynchronous I/O); the
    OpenAPI document, which a derive macro generates; SHA-256 itself and
    serialisation (parameters); the derived Debug texts of nested records;
    the descriptions of the rules, which nothing reads; module declarations.
    Texts of error messages are templates, but arithmetic inside a message is
    kept, since it can panic.  Text is taken as ASCII where it is trimmed or
    changed in case.

    ** Open

    When the rules on which the pipeline fails no account warn (consistency,
    copied trades, grids, scalping) is modelled and executable but has no
    theorem of its own; the causes of a failure on an order or
    a period are stated for UTC days; of the risk metrics the ratios and
    returns have no theorems. *)

From stdpp Require Export base decidable option list gmap strings.
From Stdlib Require Export ZArith Lia.

#[export] Set Default Goal Selector "!".

Create HintDb engine.

(** ** Errors (src/core/mod.rs)

    The crate-level error type.  Payload strings are the format templates of
    the source, without the interpolated values. *)

Inductive Error : Type :=
| InvalidConfig (msg : string)
| RuleNotApplicable (rule ctx : string)
| NumericConversion (msg : string)
| NotFound (msg : string)
| Persistence (msg : string)
| Serialization (msg : string)
| InvalidState (msg : string)
| RuleEval (msg : string)
| StateConflict (msg : string) (expected found : Z)
| TickRejected (msg : string)
| MissingMetric (msg : string).

Definition invalid_config (msg : string) : Error := InvalidConfig msg.
Definition invalid_state (msg : string) : Error := InvalidState msg.
Definition not_found (msg : string) : Error := NotFound msg.

#[global] Instance Error_eq_dec : EqDecision Error.
Proof. solve_decision. Defined.

(** ** Outcomes

    A Rust function that returns [Result<A, Error>] and may also panic (a
    [Decimal] operator that overflows, an [expect] that fails) is a function
    into [outcome A].  [OutOfFuel] is the value of a loop whose fuel ran out;
    it is no behaviour of the code, and the loops have theorems that give
    enough fuel. *)

Inductive outcome (A : Type) : Type :=
| Ret (a : A)
| Err (e : Error)
| Panic
| OutOfFuel.
Arguments Ret {A} a.
Arguments Err {A} e.
Arguments Panic {A}.
Arguments OutOfFuel {A}.

Definition obind {A B} (m : outcome A) (f : A → outcome B) : outcome B :=
  match m with
  | Ret a => f a
  | Err e => Err e
  | Panic => Panic
  | OutOfFuel => OutOfFuel
  end.

(** [unwrap]/[expect], and the arithmetic operators that panic. *)
Definition unwrap {A} (o : option A) : outcome A :=
  match o with Some a => Ret a | None => Panic end.

(** [ok_or_else]. *)
Definition ok_or {A} (e : Error) (o : option A) : outcome A :=
  match o with Some a => Ret a | None => Err e end.

(** [Result::map_err]. *)
Definition map_err {A} (f : Error → Error) (m : outcome A) : outcome A :=
  match m with Err e => Err (f e) | _ => m end.

Definition is_panic {A} (m : outcome A) : bool :=
  match m with Panic => true | _ => false end.

Definition is_ret {A} (m : outcome A) : bool :=
  match m with Ret _ => true | _ => false end.

Declare Scope outcome_scope.
Delimit Scope outcome_scope with outcome.
Notation "'let!' x ':=' m 'in' k" := (obind m (fun x => k))
  (at level 10, x pattern, m at level 200, k at level 200,
   format "'[v' 'let!'  x  ':='  m  'in' '/' k ']'") : outcome_scope.
Open Scope outcome_scope.

(** Iteration in an order-preserving, short-circuiting loop. *)
Fixpoint foldM {A S} (f : S → A → outcome S) (s : S) (l : list A) : outcome S :=
  match l with
  | [] => Ret s
  | a :: l' => let! s' := f s a in foldM f s' l'
  end.

Fixpoint mapO {A B} (f : A → outcome B) (l : list A) : outcome (list B) :=
  match l with
  | [] => Ret []
  | a :: l' => let! b := f a in let! bs := mapO f l' in Ret (b :: bs)
  end.

Fixpoint filterO {A} (f : A → outcome bool) (l : list A) : outcome (list A) :=
  match l with
  | [] => Ret []
  | a :: l' =>
      let! b := f a in
      let! r := filterO f l' in
      Ret (if b then a :: r else r)
  end.

(** [Iterator::any]: short-circuits on the first [true]. *)
Fixpoint anyO {A} (f : A → outcome bool) (l : list A) : outcome bool :=
  match l with
  | [] => Ret false
  | a :: l' => let! b := f a in if b then Ret true else anyO f l'
  end.

(** ** Functional record update

    [r <| field := v |>] rebuilds the record [r] with one field replaced, as
    a Rust assignment [r.field = v] does. *)

Class Settable (R : Type) := settable_eta : R → R.
Class Setter {R E : Type} (getter : R → E) := set_field : (E → E) → R → R.
Arguments set_field {R E} getter {_} _ _.

Ltac solve_setter :=
  match goal with
  | |- @Setter ?R ?E ?getter =>
      let i := constr:(_ : Settable R) in
      let et := eval hnf in (@settable_eta R i) in
      exact (fun (f : E → E) (r : R) =>
        ltac:(let b := eval cbv beta delta [settable_eta] in (et r) in
              let p := eval pattern (getter r) in b in
              match p with
              | ?g _ => let b' := eval cbv beta in (g (f (getter r))) in exact b'
              end))
  end.
#[global] Hint Extern 1 (Setter _) => solve_setter : typeclass_instances.

Declare Scope record_scope.
Delimit Scope record_scope with record.
Notation "r <| f := v |>" := (set_field f (fun _ => v) r)
  (at level 1, left associativity, f at level 9, v at level 200,
   format "r  <| f  :=  v |>") : record_scope.
Open Scope record_scope.

(** ** Machine integers *)

Definition u32_max : Z := 2 ^ 32 - 1.
Definition u32_modulus : Z := 2 ^ 32.

(** [x + 1] on [u32] in a release build (no overflow checks): wraps. *)
Definition u32_succ (x : Z) : Z := (x + 1) mod u32_modulus.

(** [as] casts: to [usize]/[u64], to [u32], and from [u64] to [i64]. *)
Definition as_usize (x : Z) : Z := (x mod 2 ^ 64)%Z.
Definition as_u32 (x : Z) : Z := (x mod u32_modulus)%Z.
Definition u64_as_i64 (x : Z) : Z := (if x <? 2 ^ 63 then x else x - 2 ^ 64)%Z.

Definition is_u32 (x : Z) : Prop := (0 ≤ x < u32_modulus)%Z.

(** ** Lemmas on outcomes *)

Section Outcome.
Context {A B C : Type}.

Lemma bind_Ret_inv (m : outcome A) (f : A → outcome B) b :
  obind m f = Ret b → ∃ a, m = Ret a ∧ f a = Ret b.
Proof. destruct m; naive_solver. Qed.

Lemma bind_Err_inv (m : outcome A) (f : A → outcome B) e :
  obind m f = Err e → m = Err e ∨ ∃ a, m = Ret a ∧ f a = Err e.
Proof. destruct m; naive_solver. Qed.

Lemma bind_assoc (m : outcome A) (f : A → outcome B) (g : B → outcome C) :
  obind (obind m f) g = obind m (fun a => obind (f a) g).
Proof. by destruct m. Qed.

Lemma unwrap_Ret_inv (o : option A) a : unwrap o = Ret a → o = Some a.
Proof. destruct o; naive_solver. Qed.

Lemma unwrap_not_Err (o : option A) e : unwrap o ≠ Err e.
Proof. by destruct o. Qed.

Lemma map_err_Ret_inv f (m : outcome A) a : map_err f m = Ret a → m = Ret a.
Proof. destruct m; naive_solver. Qed.

Lemma ok_or_Ret_inv e (o : option A) a : ok_or e o = Ret a → o = Some a.
Proof. destruct o; naive_solver. Qed.

End Outcome.

(** ** Computations that settle

    [settles m]: [m] is a behaviour of the code (a result, an error or a
    panic), not an exhausted loop. *)

Definition settles {A} (m : outcome A) : Prop := m ≠ OutOfFuel.

Lemma settles_Ret {A} (a : A) : settles (Ret a).
Proof. done. Qed.

Lemma settles_Err {A} e : settles (@Err A e).
Proof. done. Qed.

Lemma settles_bind {A B} (m : outcome A) (f : A → outcome B) :
  settles m → (∀ a, settles (f a)) → settles (obind m f).
Proof. unfold settles. destruct m; naive_solver. Qed.

Lemma settles_unwrap {A} (o : option A) : settles (unwrap o).
Proof. by destruct o. Qed.

Lemma settles_ok_or {A} e (o : option A) : settles (ok_or e o).
Proof. by destruct o. Qed.

Lemma settles_map_err {A} f (m : outcome A) : settles m → settles (map_err f m).
Proof. by destruct m. Qed.

Lemma settles_foldM {A B} (f : B → A → outcome B) l s :
  (∀ s a, settles (f s a)) → settles (foldM f s l).
Proof.
  intros Hf. revert s. induction l as [|a l IH]; intros s; simpl; [done|].
  apply settles_bind; auto.
Qed.

Lemma settles_mapO {A B} (f : A → outcome B) l : (∀ a, settles (f a)) → settles (mapO f l).
Proof. intros Hf. induction l; simpl; [done|]. repeat (apply settles_bind; auto; intros). done. Qed.

Lemma settles_filterO {A} (f : A → outcome bool) l : (∀ a, settles (f a)) → settles (filterO f l).
Proof. intros Hf. induction l; simpl; [done|]. repeat (apply settles_bind; auto; intros). done. Qed.

(** A loop that skips elements is the loop over the others. *)
Lemma foldM_filter {A S} (skip : A → bool) (f : S → A → outcome S) l s :
  foldM (fun s a => if skip a then Ret s else f s a) s l
  = foldM f s (List.filter (fun a => negb (skip a)) l).
Proof.
  revert s. induction l as [|a l IH]; intros s; simpl; [done|].
  destruct (skip a); simpl; [done|]. destruct (f s a); simpl; auto.
Qed.

(** ** Tactics

    [monad_inv] decomposes hypotheses that say a computation returned. *)

Ltac monad_step :=
  match goal with
  | H : obind _ _ = Ret _ |- _ =>
      apply bind_Ret_inv in H as (? & ? & H)
  | H : unwrap _ = Ret _ |- _ => apply unwrap_Ret_inv in H
  | H : ok_or _ _ = Ret _ |- _ => apply ok_or_Ret_inv in H
  | H : map_err _ _ = Ret _ |- _ => apply map_err_Ret_inv in H
  | H : Ret _ = Ret _ |- _ => injection H as H
  | H : Err _ = Ret _ |- _ => discriminate H
  | H : Panic = Ret _ |- _ => discriminate H
  | H : OutOfFuel = Ret _ |- _ => discriminate H
  | H : Ret _ = Err _ |- _ => discriminate H
  | H : Ret _ = Panic |- _ => discriminate H
  | H : unwrap _ = Err _ |- _ => by destruct (unwrap_not_Err _ _ H)
  end.
Ltac monad_inv := repeat (monad_step; simplify_eq/=).

(** Case analysis on the scrutinee of a [match] or [if] of a hypothesis or of
    the goal, keeping the equation. *)
Ltac case_hyp H :=
  match type of H with
  | context [match ?x with _ => _ end] =>
      lazymatch x with
      | context [match _ with _ => _ end] => fail
      | _ => destruct x eqn:?; simplify_eq/=
      end
  end.
Ltac case_goal :=
  match goal with
  | |- context [match ?x with _ => _ end] =>
      lazymatch x with
      | context [match _ with _ => _ end] => fail
      | _ => destruct x eqn:?; simplify_eq/=
      end
  end.

(** Proves [settles] of a computation built from the combinators. *)
Ltac settle_step :=
  match goal with
  | |- settles (Ret _) => apply settles_Ret
  | |- settles (Err _) => apply settles_Err
  | |- settles (unwrap _) => apply settles_unwrap
  | |- settles (ok_or _ _) => apply settles_ok_or
  | |- settles (map_err _ _) => apply settles_map_err
  | |- settles (obind _ _) => apply settles_bind; [|intros ?]
  | |- settles (foldM _ _ _) => apply settles_foldM; intros ? ?
  | |- settles (mapO _ _) => apply settles_mapO; intros ?
  | |- settles (filterO _ _) => apply settles_filterO; intros ?
  | |- settles (match ?x with _ => _ end) => destruct x
  | |- settles (let '_ := ?x in _) => destruct x
  end.
Ltac settle := repeat first [settle_step | progress auto with engine nocore
                            | progress autounfold with engine | progress cbn beta zeta].

(** ** Lemmas on lists *)

Section Lists.
Context {A : Type}.

Lemma existsb_filter_nil (p : A → bool) l :
  existsb p l = false ↔ List.filter p l = [].
Proof.
  induction l as [|a l IH]; simpl; [done|].
  destruct (p a); simpl; [naive_solver|done].
Qed.

Lemma existsb_Permutation (p : A → bool) l l' :
  l ≡ₚ l' → existsb p l = existsb p l'.
Proof.
  induction 1 as [| |x y l|]; simpl; try congruence.
  by destruct (p x), (p y).
Qed.

Lemma list_filter_Permutation (p : A → bool) l l' :
  l ≡ₚ l' → List.filter p l ≡ₚ List.filter p l'.
Proof.
  induction 1 as [|x l l' ? IH|x y l|]; simpl; [done| | |by etrans].
  - destruct (p x); [by apply perm_skip|done].
  - destruct (p x), (p y); try done. apply perm_swap.
Qed.

Lemma filter_all_kept (p : A → bool) l : (∀ x, x ∈ l → p x = true) → List.filter p l = l.
Proof.
  induction l as [|a l IH]; simpl; [done|]. intros Hp.
  rewrite (Hp a) by left. rewrite IH; [done|]. intros x Hx. apply Hp. by right.
Qed.

Lemma filter_NoDup_fmap {B} (f : A → B) (p : A → bool) l :
  NoDup (f <$> l) → NoDup (f <$> List.filter p l).
Proof.
  induction l as [|a l IH]; simpl; [done|]. intros [Ha Hl]%NoDup_cons.
  destruct (p a); simpl; [|by apply IH]. apply NoDup_cons. split; [|by apply IH].
  intros (x & Ex & Hx)%list_elem_of_fmap. apply Ha. rewrite Ex. apply list_elem_of_fmap_2.
  apply list_elem_of_In, filter_In in Hx as [? _]. by apply list_elem_of_In.
Qed.

End Lists.

(** ** Lemmas on machine integers *)

Lemma u32_succ_range x : is_u32 (u32_succ x).
Proof. apply Z.mod_pos_bound. reflexivity. Qed.

Lemma u32_succ_small x : (0 ≤ x < u32_max)%Z → u32_succ x = (x + 1)%Z.
Proof.
  unfold u32_succ, u32_max, u32_modulus. intros. rewrite Z.mod_small; lia.
Qed.

#[export] Hint Resolve u32_succ_range : engine.
