(* ===== verification/Decimal.v ===== *)
(** * The decimal crate as a parameter

    All money of the engine is [rust_decimal::Decimal]: a 96-bit integer
    scaled by a power of ten between 0 and 28.  The crate is third-party, so
    it is a class of operations ([DecimalOps]) with the documented behaviour
    the engine relies on ([DecimalLaws]): comparison is comparison of the
    denoted rationals, an operator whose exact result is representable
    returns exactly it, a product or quotient in range returns some value, a
    quotient is rounded by less than one unit, and division by zero panics
    ([None]).  [Fits k s d] says that [d]
    has at most [k] digits and [s] decimals; the closure lemmas discharge
    representability.  [QDecimal] is a concrete instance that satisfies the
    laws, used by the witnesses. *)

From Stdlib Require Export QArith Qabs Qminmax Lqa Qfield.
From S2P Require Import Prelude.
#[local] Close Scope Q_scope.
#[local] Open Scope Z_scope.

(** ** Operations *)

Class DecimalOps := {
  Decimal : Type;
  dval : Decimal → Q;
  (** [Decimal::new(m, s)] and the [dec!] literals: [m / 10^s]. *)
  dec_new : Z → nat → Decimal;
  (** The arithmetic operators; [None] is a panic. *)
  dec_add : Decimal → Decimal → option Decimal;
  dec_sub : Decimal → Decimal → option Decimal;
  dec_mul : Decimal → Decimal → option Decimal;
  dec_div : Decimal → Decimal → option Decimal;
  dec_neg : Decimal → Decimal;
  dec_abs : Decimal → Decimal;
  dec_max : Decimal → Decimal → Decimal;
  dec_min : Decimal → Decimal → Decimal;
  dec_cmp : Decimal → Decimal → comparison;
  dec_is_sign_negative : Decimal → bool;
  (** [MathematicalOps::sqrt]. *)
  dec_sqrt : Decimal → option Decimal;
  (** [ToPrimitive::to_i64], which [TryFrom] into [i64] uses, and [TryFrom]
      into [u32] and [u64]. *)
  dec_to_i64 : Decimal → option Z;
  dec_to_u32 : Decimal → option Z;
  dec_to_u64 : Decimal → option Z;
}.

(** [10^n], and the rational of a mantissa and a scale. *)
Definition ten_to (n : nat) : Z := 10 ^ Z.of_nat n.

Definition scaled (m : Z) (s : nat) : Q := (inject_Z m / inject_Z (ten_to s))%Q.

(** A rational that a [Decimal] can hold exactly. *)
Definition representable (q : Q) : Prop :=
  ∃ m s, Z.abs m < 2 ^ 96 ∧ (s ≤ 28)%nat ∧ (q == scaled m s)%Q.

(** The integer part, toward zero. *)
Definition q_trunc (q : Q) : Z := Z.quot (Qnum q) (Zpos (Qden q)).

(** Results below this magnitude never overflow (they may be rounded). *)
Definition in_range (q : Q) : Prop := (Qabs q <= inject_Z (2 ^ 95))%Q.

Definition dec_zero `{DecimalOps} : Decimal := dec_new 0 0.
Definition dec_one `{DecimalOps} : Decimal := dec_new 1 0.

Definition dec_ltb `{DecimalOps} (a b : Decimal) : bool :=
  match dec_cmp a b with Lt => true | _ => false end.
Definition dec_leb `{DecimalOps} (a b : Decimal) : bool :=
  match dec_cmp a b with Gt => false | _ => true end.
Definition dec_eqb `{DecimalOps} (a b : Decimal) : bool :=
  match dec_cmp a b with Eq => true | _ => false end.
Definition dec_gtb `{DecimalOps} (a b : Decimal) : bool := dec_ltb b a.
Definition dec_geb `{DecimalOps} (a b : Decimal) : bool := dec_leb b a.
Definition dec_is_zero `{DecimalOps} (a : Decimal) : bool := dec_eqb a dec_zero.
Definition dec_is_sign_positive `{DecimalOps} (a : Decimal) : bool :=
  negb (dec_is_sign_negative a).

(** The operators in the outcome monad. *)
Definition dadd `{DecimalOps} (a b : Decimal) : outcome Decimal := unwrap (dec_add a b).
Definition dsub `{DecimalOps} (a b : Decimal) : outcome Decimal := unwrap (dec_sub a b).
Definition dmul `{DecimalOps} (a b : Decimal) : outcome Decimal := unwrap (dec_mul a b).
Definition ddiv `{DecimalOps} (a b : Decimal) : outcome Decimal := unwrap (dec_div a b).

(** [Iterator::sum] of decimals: a left fold from zero. *)
Definition dsum `{DecimalOps} (l : list Decimal) : outcome Decimal :=
  foldM dadd dec_zero l.

(** ** Laws *)

Class DecimalLaws (D : DecimalOps) : Prop := {
  dec_cmp_spec a b : dec_cmp a b = (dval a ?= dval b)%Q;
  dec_new_spec m s :
    Z.abs m < 2 ^ 96 → (s ≤ 28)%nat → (dval (dec_new m s) == scaled m s)%Q;
  dec_add_exact a b :
    representable (dval a + dval b) →
    ∃ c, dec_add a b = Some c ∧ (dval c == dval a + dval b)%Q;
  dec_sub_exact a b :
    representable (dval a - dval b) →
    ∃ c, dec_sub a b = Some c ∧ (dval c == dval a - dval b)%Q;
  dec_mul_exact a b :
    representable (dval a * dval b) →
    ∃ c, dec_mul a b = Some c ∧ (dval c == dval a * dval b)%Q;
  dec_div_exact a b :
    ¬ (dval b == 0)%Q → representable (dval a / dval b) →
    ∃ c, dec_div a b = Some c ∧ (dval c == dval a / dval b)%Q;
  dec_div_total a b :
    ¬ (dval b == 0)%Q → in_range (dval a / dval b) → is_Some (dec_div a b);
  dec_div_close a b c :
    dec_div a b = Some c → (Qabs (dval c) <= Qabs (dval a / dval b) + 1)%Q;
  dec_mul_total a b : in_range (dval a * dval b) → is_Some (dec_mul a b);
  dec_div_zero a b : (dval b == 0)%Q → dec_div a b = None;
  dec_neg_spec a : (dval (dec_neg a) == - dval a)%Q;
  dec_abs_spec a : (dval (dec_abs a) == Qabs (dval a))%Q;
  dec_max_spec a b :
    (dval a <= dval b)%Q ∧ dec_max a b = b ∨ (dval b <= dval a)%Q ∧ dec_max a b = a;
  dec_min_spec a b :
    (dval a <= dval b)%Q ∧ dec_min a b = a ∨ (dval b <= dval a)%Q ∧ dec_min a b = b;
  dec_sign_spec a :
    ¬ (dval a == 0)%Q → (dec_is_sign_negative a = true ↔ (dval a < 0)%Q);
  dec_to_i64_trunc a :
    Z.abs (q_trunc (dval a)) < 2 ^ 63 → dec_to_i64 a = Some (q_trunc (dval a));
}.

(** ** Lemmas *)

Lemma ten_to_pos n : 0 < ten_to n.
Proof. unfold ten_to. apply Z.pow_pos_nonneg; lia. Qed.

Lemma ten_to_nonzero n : ¬ (inject_Z (ten_to n) == 0)%Q.
Proof.
  pose proof (ten_to_pos n). unfold Qeq. simpl. lia.
Qed.

Lemma ten_to_add m n : ten_to (m + n) = ten_to m * ten_to n.
Proof. unfold ten_to. rewrite Nat2Z.inj_add, Z.pow_add_r; lia. Qed.

Lemma ten_to_le m n : (m ≤ n)%nat → ten_to m ≤ ten_to n.
Proof. intros. apply Z.pow_le_mono_r; lia. Qed.

Lemma ten_to_28 : ten_to 28 < 2 ^ 96.
Proof. reflexivity. Qed.

(** The integer part depends on the value only, and is not larger. *)
#[global] Instance q_trunc_proper : Proper (Qeq ==> eq) q_trunc.
Proof.
  intros [m p] [n q] E. unfold Qeq in E. cbn in E. unfold q_trunc. cbn.
  rewrite <- (Z.quot_mul_cancel_r m (Zpos p) (Zpos q)), <- (Z.quot_mul_cancel_r n (Zpos q) (Zpos p)) by lia.
  rewrite E. by rewrite (Z.mul_comm (Zpos q) (Zpos p)).
Qed.

Lemma q_trunc_bound q b : (Qabs q <= inject_Z b)%Q → Z.abs (q_trunc q) ≤ b.
Proof.
  destruct q as [m p]. unfold Qle, q_trunc. cbn. intros H.
  rewrite <- Z.quot_abs by lia. cbn. rewrite Z.quot_div_nonneg by lia.
  apply Z.div_le_upper_bound; lia.
Qed.

Section Comparisons.
Context `{DL : DecimalLaws}.

Lemma dec_ltb_spec a b : dec_ltb a b = true ↔ (dval a < dval b)%Q.
Proof.
  unfold dec_ltb. rewrite dec_cmp_spec, Qlt_alt.
  destruct (dval a ?= dval b)%Q; naive_solver.
Qed.

Lemma dec_leb_spec a b : dec_leb a b = true ↔ (dval a <= dval b)%Q.
Proof.
  unfold dec_leb. rewrite dec_cmp_spec, Qle_alt.
  destruct (dval a ?= dval b)%Q; naive_solver.
Qed.

Lemma dec_eqb_spec a b : dec_eqb a b = true ↔ (dval a == dval b)%Q.
Proof.
  unfold dec_eqb. rewrite dec_cmp_spec, Qeq_alt.
  destruct (dval a ?= dval b)%Q; naive_solver.
Qed.

Lemma dec_ltb_false a b : dec_ltb a b = false ↔ (dval b <= dval a)%Q.
Proof.
  rewrite <- not_true_iff_false, dec_ltb_spec. split; [apply Qnot_lt_le|].
  intros H H'. apply (Qlt_not_le _ _ H' H).
Qed.

Lemma dec_leb_false a b : dec_leb a b = false ↔ (dval b < dval a)%Q.
Proof.
  rewrite <- not_true_iff_false, dec_leb_spec. split; [apply Qnot_le_lt|].
  intros H H'. apply (Qlt_not_le _ _ H H').
Qed.

Lemma dec_eqb_false a b : dec_eqb a b = false ↔ ¬ (dval a == dval b)%Q.
Proof. by rewrite <- not_true_iff_false, dec_eqb_spec. Qed.

Lemma dval_new_int m : Z.abs m < 2 ^ 96 → (dval (dec_new m 0) == inject_Z m)%Q.
Proof.
  intros. rewrite dec_new_spec by (done || lia). unfold scaled, Qeq. simpl. lia.
Qed.

Lemma dval_zero : (dval dec_zero == 0)%Q.
Proof. by apply dval_new_int. Qed.

Lemma dval_one : (dval dec_one == 1)%Q.
Proof. by apply dval_new_int. Qed.

Lemma dec_is_zero_spec a : dec_is_zero a = true ↔ (dval a == 0)%Q.
Proof. unfold dec_is_zero. by rewrite dec_eqb_spec, dval_zero. Qed.

Lemma dec_is_zero_false a : dec_is_zero a = false ↔ ¬ (dval a == 0)%Q.
Proof. by rewrite <- not_true_iff_false, dec_is_zero_spec. Qed.

Lemma dval_max a b : (dval (dec_max a b) == Qmax (dval a) (dval b))%Q.
Proof.
  destruct (dec_max_spec a b) as [[? ->]|[? ->]].
  - by rewrite Q.max_r.
  - by rewrite Q.max_l.
Qed.

Lemma dval_min a b : (dval (dec_min a b) == Qmin (dval a) (dval b))%Q.
Proof.
  destruct (dec_min_spec a b) as [[? ->]|[? ->]].
  - by rewrite Q.min_l.
  - by rewrite Q.min_r.
Qed.

Lemma dec_max_cases a b : dec_max a b = a ∨ dec_max a b = b.
Proof. destruct (dec_max_spec a b) as [[? ->]|[? ->]]; auto. Qed.

Lemma dec_max_lub_l a b : (dval a <= dval (dec_max a b))%Q.
Proof. rewrite dval_max. apply Q.le_max_l. Qed.

Lemma dec_max_lub_r a b : (dval b <= dval (dec_max a b))%Q.
Proof. rewrite dval_max. apply Q.le_max_r. Qed.

End Comparisons.

(** Reads every comparison of a context as an inequality over [Q]. *)
Ltac dec_bool :=
  unfold dec_gtb, dec_geb in *;
  repeat match goal with
  | H : dec_ltb _ _ = true |- _ => rewrite dec_ltb_spec in H
  | H : dec_ltb _ _ = false |- _ => rewrite dec_ltb_false in H
  | H : dec_leb _ _ = true |- _ => rewrite dec_leb_spec in H
  | H : dec_leb _ _ = false |- _ => rewrite dec_leb_false in H
  | H : dec_is_zero _ = true |- _ => rewrite dec_is_zero_spec in H
  | H : dec_is_zero _ = false |- _ => rewrite dec_is_zero_false in H
  | H : dec_eqb _ _ = true |- _ => rewrite dec_eqb_spec in H
  | H : dec_eqb _ _ = false |- _ => rewrite dec_eqb_false in H
  | H : context [dval dec_zero] |- _ => setoid_rewrite dval_zero in H
  | H : context [dval dec_one] |- _ => setoid_rewrite dval_one in H
  | |- context [dval dec_zero] => setoid_rewrite dval_zero
  | |- context [dval dec_one] => setoid_rewrite dval_one
  end.

(** ** Digits and decimals

    [Fits k s d]: the value of [d] is an integer of at most [k] digits over
    [10^s]. *)

Definition Fits `{DecimalOps} (k s : nat) (d : Decimal) : Prop :=
  ∃ m, Z.abs m ≤ ten_to k ∧ (dval d == scaled m s)%Q.

Lemma scaled_add m n s : (scaled m s + scaled n s == scaled (m + n) s)%Q.
Proof.
  unfold scaled. rewrite inject_Z_plus. field. apply ten_to_nonzero.
Qed.

Lemma scaled_sub m n s : (scaled m s - scaled n s == scaled (m - n) s)%Q.
Proof.
  unfold scaled, Z.sub. rewrite inject_Z_plus, inject_Z_opp. field.
  apply ten_to_nonzero.
Qed.

Lemma scaled_mul m n s t : (scaled m s * scaled n t == scaled (m * n) (s + t))%Q.
Proof.
  unfold scaled. rewrite ten_to_add, !inject_Z_mult. field.
  split; apply ten_to_nonzero.
Qed.

Lemma scaled_weaken m s t : (scaled m s == scaled (m * ten_to t) (s + t))%Q.
Proof.
  unfold scaled. rewrite ten_to_add, !inject_Z_mult. field.
  split; apply ten_to_nonzero.
Qed.

Lemma scaled_abs m s : (Qabs (scaled m s) <= inject_Z (Z.abs m))%Q.
Proof.
  unfold scaled. pose proof (ten_to_pos s) as Hs.
  unfold Qdiv. rewrite Qabs_Qmult, Qabs_Qinv.
  replace (Qabs (inject_Z m)) with (inject_Z (Z.abs m)) by done.
  rewrite (Qabs_pos (inject_Z (ten_to s))) by (unfold Qle; simpl; lia).
  apply Qle_shift_div_r; unfold Qlt, Qle; simpl; [lia|nia].
Qed.

(** A hundred times a number of at most [k] digits, [s] of them decimals. *)
Lemma scaled_cents_bound m k s :
  Z.abs m ≤ ten_to k → (k ≤ s + 16)%nat → (Qabs 100 * Qabs (scaled m s) <= inject_Z (ten_to 18))%Q.
Proof.
  intros Hm Hk. change (Qabs 100) with (inject_Z (ten_to 2)). pose proof (ten_to_pos s) as Hs.
  assert (Hb : ten_to 2 * Z.abs m ≤ ten_to 18 * ten_to s).
  { rewrite <- ten_to_add. apply (Z.le_trans _ (ten_to (2 + k))); [|apply ten_to_le; lia].
    rewrite ten_to_add. apply Z.mul_le_mono_nonneg_l; [done|lia]. }
  unfold scaled, Qdiv. rewrite Qabs_Qmult, Qabs_Qinv.
  replace (Qabs (inject_Z m)) with (inject_Z (Z.abs m)) by done.
  rewrite (Qabs_pos (inject_Z (ten_to s))) by (unfold Qle; simpl; lia).
  rewrite Qmult_assoc, <- inject_Z_mult.
  apply Qle_shift_div_r; [by rewrite <- (Zlt_Qlt 0)|]. by rewrite <- inject_Z_mult, <- Zle_Qle.
Qed.

Lemma Qabs_0_iff_aux q : (Qabs q == 0)%Q → (q == 0)%Q.
Proof.
  intros E. pose proof (Qle_Qabs q). pose proof (Qle_Qabs (- q)) as H2.
  rewrite Qabs_opp in H2. apply Qle_antisym; lra.
Qed.

Lemma scaled_representable m k s :
  Z.abs m ≤ ten_to k → (k ≤ 28)%nat → (s ≤ 28)%nat → representable (scaled m s).
Proof.
  intros Hm Hk Hs. exists m, s. split; [|done].
  pose proof (ten_to_le _ _ Hk). pose proof ten_to_28. lia.
Qed.

Lemma representable_proper q q' : (q == q')%Q → representable q → representable q'.
Proof. intros E (m & s & ? & ? & ?). exists m, s. by rewrite <- E. Qed.

Section FitsLemmas.
Context `{DL : DecimalLaws}.

Lemma Fits_weaken k s k' t d :
  Fits k s d → (k + t ≤ k')%nat → Fits k' (s + t) d.
Proof.
  intros (m & Hm & E) Hk. exists (m * ten_to t). split.
  - pose proof (ten_to_pos t). pose proof (ten_to_le _ _ Hk) as Hle.
    rewrite ten_to_add in Hle. rewrite Z.abs_mul, (Z.abs_eq (ten_to t)) by lia. nia.
  - by rewrite E, <- scaled_weaken.
Qed.

Lemma Fits_proper k s d d' : (dval d == dval d')%Q → Fits k s d → Fits k s d'.
Proof. intros E (m & ? & E'). exists m. by rewrite <- E. Qed.

Lemma Fits_new m k s :
  Z.abs m ≤ ten_to k → (k ≤ 28)%nat → (s ≤ 28)%nat → Fits k s (dec_new m s).
Proof.
  intros Hm Hk Hs. exists m. split; [done|]. apply dec_new_spec; [|done].
  pose proof (ten_to_le _ _ Hk). pose proof ten_to_28. lia.
Qed.

Lemma ten_to_double k x y :
  Z.abs x ≤ ten_to k → Z.abs y ≤ ten_to k →
  Z.abs (x + y) ≤ ten_to (S k) ∧ Z.abs (x - y) ≤ ten_to (S k).
Proof.
  intros. replace (ten_to (S k)) with (10 * ten_to k); [lia|].
  unfold ten_to. rewrite Nat2Z.inj_succ, Z.pow_succ_r; lia.
Qed.

Lemma Fits_add k s a b :
  Fits k s a → Fits k s b → (k < 28)%nat → (s ≤ 28)%nat →
  ∃ c, dec_add a b = Some c ∧ (dval c == dval a + dval b)%Q ∧ Fits (S k) s c.
Proof.
  intros (m & Hm & Ea) (n & Hn & Eb) Hk Hs.
  pose proof (ten_to_double k m n Hm Hn) as [Hadd _].
  assert (E : (scaled (m + n) s == dval a + dval b)%Q) by by rewrite Ea, Eb, scaled_add.
  destruct (dec_add_exact a b) as (c & Hc & Ec).
  { eapply representable_proper, scaled_representable; eauto. }
  exists c. split_and!; [done..|]. exists (m + n). by rewrite Ec, E.
Qed.

Lemma Fits_sub k s a b :
  Fits k s a → Fits k s b → (k < 28)%nat → (s ≤ 28)%nat →
  ∃ c, dec_sub a b = Some c ∧ (dval c == dval a - dval b)%Q ∧ Fits (S k) s c.
Proof.
  intros (m & Hm & Ea) (n & Hn & Eb) Hk Hs.
  pose proof (ten_to_double k m n Hm Hn) as [_ Hsub].
  assert (E : (scaled (m - n) s == dval a - dval b)%Q) by by rewrite Ea, Eb, scaled_sub.
  destruct (dec_sub_exact a b) as (c & Hc & Ec).
  { eapply representable_proper, scaled_representable; eauto. }
  exists c. split_and!; [done..|]. exists (m - n). by rewrite Ec, E.
Qed.

Lemma Fits_mul k s l t a b :
  Fits k s a → Fits l t b → (k + l ≤ 28)%nat → (s + t ≤ 28)%nat →
  ∃ c, dec_mul a b = Some c ∧ (dval c == dval a * dval b)%Q ∧ Fits (k + l) (s + t) c.
Proof.
  intros (m & Hm & Ea) (n & Hn & Eb) Hk Hs.
  assert (Hmul : Z.abs (m * n) ≤ ten_to (k + l)).
  { rewrite ten_to_add, Z.abs_mul. apply Z.mul_le_mono_nonneg; lia. }
  assert (E : (scaled (m * n) (s + t) == dval a * dval b)%Q)
    by by rewrite Ea, Eb, scaled_mul.
  destruct (dec_mul_exact a b) as (c & Hc & Ec).
  { eapply representable_proper, scaled_representable; eauto. }
  exists c. split_and!; [done..|]. exists (m * n). by rewrite Ec, E.
Qed.

Lemma Fits_max k s a b : Fits k s a → Fits k s b → Fits k s (dec_max a b).
Proof. intros. destruct (dec_max_cases a b) as [-> | ->]; done. Qed.

Lemma Fits_min k s a b : Fits k s a → Fits k s b → Fits k s (dec_min a b).
Proof. intros. destruct (dec_min_spec a b) as [[_ ->]|[_ ->]]; done. Qed.

Lemma Fits_zero k s : (s ≤ 28)%nat → Fits k s dec_zero.
Proof.
  intros. exists 0. split; [pose proof (ten_to_pos k); lia|].
  rewrite dval_zero. unfold scaled, Qdiv. by rewrite Qmult_0_l.
Qed.

Lemma Fits_neg k s a : Fits k s a → Fits k s (dec_neg a).
Proof.
  intros (m & Hm & E). exists (- m). split; [lia|].
  rewrite dec_neg_spec, E. unfold scaled. rewrite inject_Z_opp. field.
  apply ten_to_nonzero.
Qed.

(** Operands of different sizes, aligned to [K] digits and [S] decimals. *)
Lemma Fits_align k s K S' d :
  Fits k s d → (s ≤ S')%nat → (k + (S' - s) ≤ K)%nat → Fits K S' d.
Proof.
  intros Hd Hs Hk. replace S' with (s + (S' - s))%nat by lia. by eapply Fits_weaken.
Qed.

Lemma dadd_fits K S' k s k' s' a b :
  Fits k s a → Fits k' s' b →
  (s ≤ S' ∧ s' ≤ S' ∧ S' ≤ 28 ∧ k + (S' - s) ≤ K ∧ k' + (S' - s') ≤ K ∧ K < 28)%nat →
  ∃ c, dadd a b = Ret c ∧ (dval c == dval a + dval b)%Q ∧ Fits (S K) S' c.
Proof.
  intros Ha Hb (? & ? & ? & ? & ? & ?).
  destruct (Fits_add K S' a b) as (c & Hc & ? & ?); try done; try by eapply Fits_align.
  exists c. unfold dadd. by rewrite Hc.
Qed.

Lemma dsub_fits K S' k s k' s' a b :
  Fits k s a → Fits k' s' b →
  (s ≤ S' ∧ s' ≤ S' ∧ S' ≤ 28 ∧ k + (S' - s) ≤ K ∧ k' + (S' - s') ≤ K ∧ K < 28)%nat →
  ∃ c, dsub a b = Ret c ∧ (dval c == dval a - dval b)%Q ∧ Fits (S K) S' c.
Proof.
  intros Ha Hb (? & ? & ? & ? & ? & ?).
  destruct (Fits_sub K S' a b) as (c & Hc & ? & ?); try done; try by eapply Fits_align.
  exists c. unfold dsub. by rewrite Hc.
Qed.

Lemma dmul_fits k s k' s' a b :
  Fits k s a → Fits k' s' b → (k + k' ≤ 28 ∧ s + s' ≤ 28)%nat →
  ∃ c, dmul a b = Ret c ∧ (dval c == dval a * dval b)%Q ∧ Fits (k + k') (s + s') c.
Proof.
  intros Ha Hb (? & ?). destruct (Fits_mul k s k' s' a b) as (c & Hc & ? & ?); try done.
  exists c. unfold dmul. by rewrite Hc.
Qed.

Lemma Fits_abs_le k s d :
  Fits k s d → (Qabs (dval d) * inject_Z (ten_to s) <= inject_Z (ten_to k))%Q.
Proof.
  intros (m & Hm & E). rewrite E. unfold scaled, Qdiv. rewrite Qabs_Qmult, Qabs_Qinv.
  rewrite (Qabs_pos (inject_Z (ten_to s))) by (pose proof (ten_to_pos s); unfold Qle; simpl; lia).
  rewrite <- Qmult_assoc, (Qmult_comm (/ _)), Qmult_inv_r by apply ten_to_nonzero.
  rewrite Qmult_1_r. unfold Qle. simpl. lia.
Qed.

(** A non-zero value of [s] decimals is at least [10^-s] in magnitude. *)
Lemma Fits_abs_ge k s d :
  Fits k s d → ¬ (dval d == 0)%Q → (1 <= Qabs (dval d) * inject_Z (ten_to s))%Q.
Proof.
  intros (m & Hm & E) Hnz.
  assert (m ≠ 0) as Hm0.
  { intros ->. apply Hnz. rewrite E. unfold scaled, Qdiv. apply Qmult_0_l. }
  rewrite E. unfold scaled, Qdiv. rewrite Qabs_Qmult, Qabs_Qinv.
  rewrite (Qabs_pos (inject_Z (ten_to s))) by (pose proof (ten_to_pos s); unfold Qle; simpl; lia).
  rewrite <- Qmult_assoc, (Qmult_comm (/ _)), Qmult_inv_r by apply ten_to_nonzero.
  rewrite Qmult_1_r. unfold Qle. simpl. lia.
Qed.

Lemma Qabs_nonzero_pos q : ¬ (q == 0)%Q → (0 < Qabs q)%Q.
Proof.
  intros Hnz. destruct (Qlt_le_dec 0 (Qabs q)) as [|Hle]; [done|].
  exfalso. apply Hnz, Qabs_0_iff_aux. apply Qle_antisym; [done|apply Qabs_nonneg].
Qed.

Lemma ten_to_Qpos n : (0 < inject_Z (ten_to n))%Q.
Proof. pose proof (ten_to_pos n). unfold Qlt. simpl. lia. Qed.

Lemma Fits_quotient_bound n k s l t a b :
  Fits k s a → Fits l t b → ¬ (dval b == 0)%Q → (k + t ≤ n + s)%nat →
  (Qabs (dval a / dval b) <= inject_Z (ten_to n))%Q.
Proof.
  intros Ha Hb Hnz Hn. pose proof (Fits_abs_le _ _ _ Ha) as HA.
  pose proof (Fits_abs_ge _ _ _ Hb Hnz) as HB.
  unfold Qdiv. rewrite Qabs_Qmult, Qabs_Qinv.
  pose proof (Qabs_nonzero_pos _ Hnz) as HP.
  apply Qle_shift_div_r; [done|].
  pose proof (ten_to_Qpos s) as Hs. pose proof (ten_to_Qpos t) as Ht. pose proof (ten_to_Qpos n) as Hn'.
  assert (HN : (inject_Z (ten_to k) * inject_Z (ten_to t) <= inject_Z (ten_to n) * inject_Z (ten_to s))%Q).
  { rewrite <- !inject_Z_mult, <- !ten_to_add, <- Zle_Qle. by apply ten_to_le. }
  assert (HK : (Qabs (dval a) * inject_Z (ten_to s) * inject_Z (ten_to t)
                <= inject_Z (ten_to n) * inject_Z (ten_to s))%Q).
  { eapply Qle_trans; [|exact HN]. apply Qmult_le_r; [done|exact HA]. }
  apply (Qmult_le_r _ _ (inject_Z (ten_to s) * inject_Z (ten_to t))).
  { by apply Qmult_lt_0_compat. }
  rewrite Qmult_assoc. eapply Qle_trans; [exact HK|].
  assert (E : (inject_Z (ten_to n) * Qabs (dval b) * (inject_Z (ten_to s) * inject_Z (ten_to t))
    == Qabs (dval b) * inject_Z (ten_to t) * (inject_Z (ten_to n) * inject_Z (ten_to s)))%Q) by ring.
  rewrite E.
  rewrite <- (Qmult_1_l (inject_Z (ten_to n) * inject_Z (ten_to s))) at 1.
  apply Qmult_le_r; [by apply Qmult_lt_0_compat|exact HB].
Qed.

Lemma ten_to_in_range n : (n ≤ 27)%nat → (inject_Z (ten_to n) + 1 <= inject_Z (2 ^ 95))%Q.
Proof.
  intros Hn. pose proof (ten_to_le _ _ Hn).
  change 1%Q with (inject_Z 1). rewrite <- inject_Z_plus, <- Zle_Qle.
  assert (ten_to 27 + 1 ≤ 2 ^ 95) by (vm_compute; discriminate). lia.
Qed.

Lemma ddiv_fits n k s l t a b :
  Fits k s a → Fits l t b → ¬ (dval b == 0)%Q → (k + t ≤ n + s)%nat → (n ≤ 27)%nat →
  ∃ c, ddiv a b = Ret c ∧ (Qabs (dval c) <= inject_Z (ten_to n) + 1)%Q.
Proof.
  intros Ha Hb Hnz Hk Hn. pose proof (Fits_quotient_bound n _ _ _ _ _ _ Ha Hb Hnz Hk) as HQ.
  destruct (dec_div_total a b) as [c Hc]; [done| |].
  { unfold in_range. pose proof (ten_to_in_range _ Hn). lra. }
  exists c. unfold ddiv. rewrite Hc. split; [done|].
  pose proof (dec_div_close _ _ _ Hc). lra.
Qed.

(** A percentage for a message: [c * 100] never overflows for a quotient [c]
    bounded as above. *)
Lemma dmul_100_total n c :
  (Qabs (dval c) <= inject_Z (ten_to n) + 1)%Q → (n ≤ 26)%nat →
  ∃ r, dmul c (dec_new 100 0) = Ret r.
Proof.
  intros Hc Hn. destruct (dec_mul_total c (dec_new 100 0)) as [r Hr].
  - unfold in_range. rewrite Qabs_Qmult, dval_new_int by done.
    pose proof (ten_to_le _ _ Hn) as Hle. rewrite Zle_Qle in Hle.
    assert ((inject_Z (ten_to 26) + 1) * 100 <= inject_Z (2 ^ 95))%Q by (vm_compute; discriminate).
    change (Qabs (inject_Z 100)) with 100%Q. lra.
  - exists r. unfold dmul. by rewrite Hr.
Qed.

End FitsLemmas.

(** ** A concrete instance

    Unrounded rationals in lowest terms that overflow from [2^96] on. *)

Definition q_bounded (q : Q) : option Q :=
  if Qle_bool (inject_Z (2 ^ 96)) (Qabs q) then None else Some (Qred q).

Definition q_to_int (lo hi : Z) (q : Q) : option Z :=
  let z := q_trunc q in if (lo <=? z) && (z <=? hi) then Some z else None.

Definition QDecimal : DecimalOps := {|
  Decimal := Q;
  dval q := q;
  dec_new m s := Qred (scaled m s);
  dec_add a b := q_bounded (a + b);
  dec_sub a b := q_bounded (a - b);
  dec_mul a b := q_bounded (a * b);
  dec_div a b := if Qeq_bool b 0 then None else q_bounded (a / b);
  dec_neg a := Qopp a;
  dec_abs a := Qabs a;
  dec_max a b := if Qle_bool a b then b else a;
  dec_min a b := if Qle_bool a b then a else b;
  dec_cmp a b := Qcompare a b;
  dec_is_sign_negative a := Qnum a <? 0;
  dec_sqrt a :=
    if Qnum a <? 0 then None
    else Some (Qred (scaled (Z.sqrt (q_trunc (a * inject_Z (ten_to 20)))) 10));
  dec_to_i64 := q_to_int (- 2 ^ 63) (2 ^ 63 - 1);
  dec_to_u32 := q_to_int 0 (2 ^ 32 - 1);
  dec_to_u64 := q_to_int 0 (2 ^ 64 - 1);
|}%Q.

Lemma q_bounded_some q :
  (Qabs q < inject_Z (2 ^ 96))%Q → q_bounded q = Some (Qred q).
Proof.
  unfold q_bounded. intros H.
  destruct (Qle_bool _ _) eqn:E; [|done].
  apply Qle_bool_iff in E. by apply Qlt_not_le in H.
Qed.

Lemma representable_bounded q : representable q → (Qabs q < inject_Z (2 ^ 96))%Q.
Proof.
  intros (m & s & Hm & _ & ->). eapply Qle_lt_trans; [apply scaled_abs|].
  by rewrite <- Zlt_Qlt.
Qed.

Lemma representable_some q :
  representable q → ∃ c, q_bounded q = Some c ∧ (c == q)%Q.
Proof.
  intros H. exists (Qred q). split; [|apply Qred_correct].
  by apply q_bounded_some, representable_bounded.
Qed.

#[global] Instance QDecimal_laws : DecimalLaws QDecimal.
Proof.
  split; simpl; intros.
  - done.
  - apply Qred_correct.
  - by apply representable_some.
  - by apply representable_some.
  - by apply representable_some.
  - destruct (Qeq_bool b 0) eqn:E; [by apply Qeq_bool_iff in E|].
    by apply representable_some.
  - destruct (Qeq_bool b 0) eqn:E; [by apply Qeq_bool_iff in E|].
    rewrite q_bounded_some; [done|]. eapply Qle_lt_trans; [done|]. reflexivity.
  - destruct (Qeq_bool b 0); [done|]. unfold q_bounded in *.
    destruct (Qle_bool _ _); simplify_eq. rewrite (Qabs_wd _ _ (Qred_correct (a / b))).
    rewrite <- (Qplus_0_r (Qabs (a / b))) at 1. by apply Qplus_le_r.
  - rewrite q_bounded_some; [done|]. eapply Qle_lt_trans; [done|]. reflexivity.
  - by rewrite (proj2 (Qeq_bool_iff b 0)).
  - done.
  - done.
  - destruct (Qle_bool a b) eqn:E; [left; by apply Qle_bool_iff in E|right].
    split; [|done]. apply Qlt_le_weak, Qnot_le_lt. rewrite <- Qle_bool_iff. congruence.
  - destruct (Qle_bool a b) eqn:E; [left; by apply Qle_bool_iff in E|right].
    split; [|done]. apply Qlt_le_weak, Qnot_le_lt. rewrite <- Qle_bool_iff. congruence.
  - rewrite Z.ltb_lt. unfold Qlt. simpl. lia.
  - unfold q_to_int. cbv zeta.
    assert ((- 2 ^ 63 <=? q_trunc a) && (q_trunc a <=? 2 ^ 63 - 1) = true) as -> by lia. done.
Qed.
