(* ===== verification/Chrono.v ===== *)
(** * The calendar crate as a parameter

    [chrono] and [chrono-tz] are third-party.  [ChronoOps] lists the types
    and functions the engine calls; [ChronoLaws] states their documented
    behaviour on an integer time line: instants and durations are
    nanoseconds, a UTC date is the floor of an instant by the day, [and_utc]
    of a date and an hour is the instant at that hour.  A named time zone is
    only assumed to map a local time that exists once to an instant later
    than every instant of an earlier local date.  [ZChrono] is a concrete
    instance with fixed-offset zones. *)

From S2P Require Import Prelude.
#[local] Open Scope Z_scope.

Inductive Weekday : Type := Mon | Tue | Wed | Thu | Fri | Sat | Sun.

#[global] Instance Weekday_eq_dec : EqDecision Weekday.
Proof. solve_decision. Defined.

Definition num_days_from_monday (w : Weekday) : Z :=
  match w with
  | Mon => 0 | Tue => 1 | Wed => 2 | Thu => 3 | Fri => 4 | Sat => 5 | Sun => 6
  end.

Definition weekday_of_index (n : Z) : Weekday :=
  if n =? 0 then Mon else if n =? 1 then Tue else if n =? 2 then Wed
  else if n =? 3 then Thu else if n =? 4 then Fri else if n =? 5 then Sat else Sun.

(** ** Operations *)

Class ChronoOps := {
  (** [DateTime<Utc>], [Duration], [NaiveDate], [NaiveDateTime], [Tz]. *)
  Timestamp : Type;
  Duration : Type;
  NaiveDate : Type;
  NaiveDateTime : Type;
  Tz : Type;
  ts_nanos : Timestamp → Z;
  dur_nanos : Duration → Z;
  date_day : NaiveDate → Z;
  (** [Duration::days] and the like panic out of range. *)
  dur_days : Z → option Duration;
  dur_minutes : Z → option Duration;
  dur_seconds : Z → option Duration;
  num_days : Duration → Z;
  num_minutes : Duration → Z;
  num_seconds : Duration → Z;
  (** [ts + d], [ts - d] (panic on overflow) and [ts - ts']. *)
  ts_add : Timestamp → Duration → option Timestamp;
  ts_sub : Timestamp → Duration → option Timestamp;
  ts_since : Timestamp → Timestamp → Duration;
  ts_hour : Timestamp → Z;
  ts_weekday : Timestamp → Weekday;
  date_naive : Timestamp → NaiveDate;
  succ_opt : NaiveDate → option NaiveDate;
  and_hms_opt : NaiveDate → Z → Z → Z → option NaiveDateTime;
  ndt_date : NaiveDateTime → NaiveDate;
  and_utc : NaiveDateTime → Timestamp;
  (** [with_timezone(&tz).date_naive()], [.hour()], and
      [and_local_timezone(tz)] ([None]: no single such instant). *)
  tz_date_naive : Tz → Timestamp → NaiveDate;
  tz_hour : Tz → Timestamp → Z;
  and_local_timezone : Tz → NaiveDateTime → option Timestamp;
}.

Definition ns_second : Z := 10 ^ 9.
Definition ns_minute : Z := 60 * ns_second.
Definition ns_hour : Z := 3600 * ns_second.
Definition ns_day : Z := 86400 * ns_second.

(** Instants that [DateTime<Utc>] is documented to hold (about 250,000 years
    around the epoch), in nanoseconds and in days. *)
Definition ts_range (n : Z) : Prop := Z.abs n ≤ 79 * 10 ^ 20.
Definition day_range (d : Z) : Prop := Z.abs d ≤ 91000000.

Definition ts_ltb `{ChronoOps} (a b : Timestamp) : bool := ts_nanos a <? ts_nanos b.
Definition ts_leb `{ChronoOps} (a b : Timestamp) : bool := ts_nanos a <=? ts_nanos b.
Definition ts_gtb `{ChronoOps} (a b : Timestamp) : bool := ts_ltb b a.
Definition ts_geb `{ChronoOps} (a b : Timestamp) : bool := ts_leb b a.
Definition dur_ltb `{ChronoOps} (a b : Duration) : bool := dur_nanos a <? dur_nanos b.
Definition dur_leb `{ChronoOps} (a b : Duration) : bool := dur_nanos a <=? dur_nanos b.

(** ** Laws *)

Class ChronoLaws (C : ChronoOps) : Prop := {
  dur_days_spec n :
    Z.abs n ≤ 10 ^ 11 → ∃ d, dur_days n = Some d ∧ dur_nanos d = n * ns_day;
  dur_minutes_spec n :
    Z.abs n ≤ 10 ^ 14 → ∃ d, dur_minutes n = Some d ∧ dur_nanos d = n * ns_minute;
  dur_seconds_spec n :
    Z.abs n ≤ 9 * 10 ^ 15 → ∃ d, dur_seconds n = Some d ∧ dur_nanos d = n * ns_second;
  num_days_spec d : num_days d = Z.quot (dur_nanos d) ns_day;
  num_minutes_spec d : num_minutes d = Z.quot (dur_nanos d) ns_minute;
  num_seconds_spec d : num_seconds d = Z.quot (dur_nanos d) ns_second;
  ts_add_spec t d t' : ts_add t d = Some t' → ts_nanos t' = ts_nanos t + dur_nanos d;
  ts_sub_spec t d t' : ts_sub t d = Some t' → ts_nanos t' = ts_nanos t - dur_nanos d;
  ts_add_total t d : ts_range (ts_nanos t + dur_nanos d) → is_Some (ts_add t d);
  ts_sub_total t d : ts_range (ts_nanos t - dur_nanos d) → is_Some (ts_sub t d);
  ts_since_spec a b : dur_nanos (ts_since a b) = ts_nanos a - ts_nanos b;
  ts_hour_spec t : ts_hour t = (ts_nanos t mod ns_day) / ns_hour;
  ts_weekday_spec t :
    ts_weekday t = weekday_of_index ((ts_nanos t / ns_day + 3) mod 7);
  date_naive_spec t : date_day (date_naive t) = ts_nanos t / ns_day;
  succ_opt_spec d d' : succ_opt d = Some d' → date_day d' = date_day d + 1;
  succ_opt_total d : day_range (date_day d) → is_Some (succ_opt d);
  and_hms_opt_spec d h m s :
    0 ≤ h < 24 → 0 ≤ m < 60 → 0 ≤ s < 60 →
    ∃ dt, and_hms_opt d h m s = Some dt ∧ ndt_date dt = d
        ∧ ts_nanos (and_utc dt)
          = date_day d * ns_day + h * ns_hour + m * ns_minute + s * ns_second;
  and_hms_opt_invalid d h m s : 24 ≤ h → and_hms_opt d h m s = None;
  and_local_timezone_later tz dt t u :
    and_local_timezone tz dt = Some t →
    date_day (tz_date_naive tz u) < date_day (ndt_date dt) →
    ts_nanos u < ts_nanos t;
}.

(** ** Lemmas *)

Section ChronoLemmas.
Context `{CL : ChronoLaws}.

Lemma ts_ltb_spec a b : ts_ltb a b = true ↔ ts_nanos a < ts_nanos b.
Proof. apply Z.ltb_lt. Qed.

Lemma ts_leb_spec a b : ts_leb a b = true ↔ ts_nanos a ≤ ts_nanos b.
Proof. apply Z.leb_le. Qed.

Lemma ts_ltb_false a b : ts_ltb a b = false ↔ ts_nanos b ≤ ts_nanos a.
Proof. apply Z.ltb_ge. Qed.

Lemma ts_leb_false a b : ts_leb a b = false ↔ ts_nanos b < ts_nanos a.
Proof. apply Z.leb_gt. Qed.

End ChronoLemmas.

Ltac ts_bool :=
  unfold ts_gtb, ts_geb in *;
  repeat match goal with
  | H : ts_ltb _ _ = true |- _ => rewrite ts_ltb_spec in H
  | H : ts_ltb _ _ = false |- _ => rewrite ts_ltb_false in H
  | H : ts_leb _ _ = true |- _ => rewrite ts_leb_spec in H
  | H : ts_leb _ _ = false |- _ => rewrite ts_leb_false in H
  end.

(** ** A concrete instance: nanoseconds, zones with one change of the clock *)

(** A zone: its offset from UTC before and after the change. *)
Record Zone := mkZone { zn_before : Z; zn_change : Z; zn_after : Z }.

Definition zone_local (z : Zone) (t : Z) : Z :=
  t + (if t <? zn_change z then zn_before z else zn_after z).

(** The single instant at a local time; none when the clock skips it or
    shows it twice. *)
Definition zone_instant (z : Zone) (local : Z) : option Z :=
  match local - zn_before z <? zn_change z, zn_change z <=? local - zn_after z with
  | true, false => Some (local - zn_before z)
  | false, true => Some (local - zn_after z)
  | _, _ => None
  end.

Definition z_in (bound n : Z) : option Z := if Z.abs n <=? bound then Some n else None.

Definition z_scale (bound unit n : Z) : option Z :=
  if Z.abs n <=? bound then Some (n * unit) else None.

Definition ZChrono : ChronoOps := {|
  Timestamp := Z;
  Duration := Z;
  NaiveDate := Z;
  NaiveDateTime := Z * Z;
  Tz := Zone;
  ts_nanos t := t;
  dur_nanos d := d;
  date_day d := d;
  dur_days := z_scale (10 ^ 11) ns_day;
  dur_minutes := z_scale (10 ^ 14) ns_minute;
  dur_seconds := z_scale (9 * 10 ^ 15) ns_second;
  num_days d := Z.quot d ns_day;
  num_minutes d := Z.quot d ns_minute;
  num_seconds d := Z.quot d ns_second;
  ts_add t d := z_in (79 * 10 ^ 20) (t + d);
  ts_sub t d := z_in (79 * 10 ^ 20) (t - d);
  ts_since a b := a - b;
  ts_hour t := (t mod ns_day) / ns_hour;
  ts_weekday t := weekday_of_index ((t / ns_day + 3) mod 7);
  date_naive t := t / ns_day;
  succ_opt d := if d <=? 91000000 then Some (d + 1) else None;
  and_hms_opt d h m s :=
    if (0 <=? h) && (h <? 24) && (0 <=? m) && (m <? 60) && (0 <=? s) && (s <? 60)
    then Some (d, h * ns_hour + m * ns_minute + s * ns_second) else None;
  ndt_date dt := dt.1;
  and_utc dt := dt.1 * ns_day + dt.2;
  tz_date_naive z t := zone_local z t / ns_day;
  tz_hour z t := (zone_local z t mod ns_day) / ns_hour;
  and_local_timezone z dt :=
    if (0 <=? dt.2) && (dt.2 <? ns_day) then zone_instant z (dt.1 * ns_day + dt.2) else None;
|}.

Lemma z_in_some b n m : z_in b n = Some m → m = n.
Proof. unfold z_in. case_match; naive_solver. Qed.

Lemma z_in_total b n : Z.abs n ≤ b → is_Some (z_in b n).
Proof. unfold z_in. intros ->%Z.leb_le. done. Qed.

Lemma z_scale_spec b u n : Z.abs n ≤ b → ∃ d, z_scale b u n = Some d ∧ d = n * u.
Proof. unfold z_scale. intros ->%Z.leb_le. eauto. Qed.

#[global] Instance ZChrono_laws : ChronoLaws ZChrono.
Proof.
  split; try done; try (by intros *; apply z_in_some);
    try (by intros *; apply z_in_total); try (by intros *; apply z_scale_spec).
  - simpl. intros d d'. case_match; naive_solver.
  - simpl. unfold day_range. intros d Hd.
    destruct (d <=? 91000000) eqn:E; [done|]. apply Z.leb_gt in E. lia.
  - simpl. intros d h m s Hh Hm Hs.
    replace (_ && _ && _ && _ && _ && _) with true;
      [eexists; split; [reflexivity|]; split; [done|]; simpl; lia|].
    symmetry. rewrite !andb_true_iff, !Z.leb_le, !Z.ltb_lt. lia.
  - simpl. intros d h m s Hh.
    replace (h <? 24) with false; [|symmetry; apply Z.ltb_ge; lia].
    by rewrite andb_false_r.
  - intros tz [d n] t u. cbn -[Z.mul]. intros H Hu.
    destruct (0 <=? n) eqn:E1, (n <? ns_day) eqn:E2; simplify_eq/=.
    apply Z.leb_le in E1. apply Z.ltb_lt in E2.
    assert (Hlt : zone_local tz u < d * ns_day + n).
    { assert (¬ d * ns_day ≤ zone_local tz u); [|lia]. intros Hle.
      pose proof (Z.div_le_lower_bound (zone_local tz u) ns_day d) as Hd.
      unfold ns_day, ns_second in *. lia. }
    revert H Hlt. unfold zone_instant, zone_local.
    repeat case_match; intros; simplify_eq; lia.
Qed.
