(* ===== verification/Ids.v ===== *)
(** * Identifiers (src/core/ids.rs)

    Every identifier is a UUID newtype; here a 128-bit integer.
    [RuleId::named] derives a stable identifier from a rule's name with the
    standard library's [DefaultHasher] (SipHash-1-3 with zero keys), written
    out on 64-bit words. *)

From S2P Require Import Prelude.
From Stdlib Require Import Ascii.
#[local] Open Scope Z_scope.

(** ** UUIDs *)

Abbreviation Uuid := Z (only parsing).
Abbreviation AccountId := Z (only parsing).
Abbreviation OrderId := Z (only parsing).
Abbreviation TradeId := Z (only parsing).
Abbreviation PositionId := Z (only parsing).
Abbreviation RuleId := Z (only parsing).
Abbreviation ChallengeId := Z (only parsing).
Abbreviation ViolationId := Z (only parsing).
Abbreviation TenantId := Z (only parsing).

(** ** SipHash-1-3 *)

Module Sip.

Definition w64 (x : Z) : Z := x mod 2 ^ 64.

Definition add64 (x y : Z) : Z := w64 (x + y).

Definition rotl64 (x : Z) (k : Z) : Z :=
  Z.lor (w64 (Z.shiftl x k)) (Z.shiftr x (64 - k)).

Record state := mkState { v0 : Z; v1 : Z; v2 : Z; v3 : Z }.

Definition round (s : state) : state :=
  let v0 := add64 s.(v0) s.(v1) in
  let v2 := add64 s.(v2) s.(v3) in
  let v1 := Z.lxor (rotl64 s.(v1) 13) v0 in
  let v3 := Z.lxor (rotl64 s.(v3) 16) v2 in
  let v0 := rotl64 v0 32 in
  let v2 := add64 v2 v1 in
  let v0 := add64 v0 v3 in
  let v1 := Z.lxor (rotl64 v1 17) v2 in
  let v3 := Z.lxor (rotl64 v3 21) v0 in
  let v2 := rotl64 v2 32 in
  mkState v0 v1 v2 v3.

Definition init : state :=
  mkState 0x736f6d6570736575 0x646f72616e646f6d 0x6c7967656e657261 0x7465646279746573.

Definition absorb (s : state) (m : Z) : state :=
  let s := round (mkState s.(v0) s.(v1) s.(v2) (Z.lxor s.(v3) m)) in
  mkState (Z.lxor s.(v0) m) s.(v1) s.(v2) s.(v3).

(** Little-endian word of a byte list. *)
Fixpoint le_word (bs : list Z) : Z :=
  match bs with
  | [] => 0
  | b :: bs' => Z.lor b (Z.shiftl (le_word bs') 8)
  end.

(** Absorbs eight bytes at a time; the last word carries the length. *)
Fixpoint absorb_bytes (len : Z) (bs : list Z) (s : state) : state :=
  match bs with
  | b0 :: b1 :: b2 :: b3 :: b4 :: b5 :: b6 :: b7 :: rest =>
      absorb_bytes len rest (absorb s (le_word [b0; b1; b2; b3; b4; b5; b6; b7]))
  | tail => absorb s (Z.lor (Z.shiftl (len mod 256) 56) (le_word tail))
  end.

Definition finish (s : state) : Z :=
  let s := mkState s.(v0) s.(v1) (Z.lxor s.(v2) 0xff) s.(v3) in
  let s := round (round (round s)) in
  Z.lxor (Z.lxor s.(v0) s.(v1)) (Z.lxor s.(v2) s.(v3)).

Definition hash_bytes (bs : list Z) : Z :=
  finish (absorb_bytes (Z.of_nat (length bs)) bs init).

End Sip.

Fixpoint string_bytes (s : string) : list Z :=
  match s with
  | EmptyString => []
  | String c s' => Z.of_N (N_of_ascii c) :: string_bytes s'
  end.

(** [<str as Hash>::hash] writes the bytes and a terminating [0xff]. *)
Definition default_hash (s : string) : Z :=
  Sip.hash_bytes (string_bytes s ++ [0xff]).

(** ** [RuleId::named] *)

(** [u64::to_be_bytes]: the [n]-th of 8 bytes, most significant first. *)
Definition be_byte (bits : Z) (n : Z) : Z := Z.land (Z.shiftr bits (56 - 8 * n)) 0xff.

Definition to_be_bytes (bits : Z) : list Z :=
  be_byte bits <$> [0; 1; 2; 3; 4; 5; 6; 7].

(** [Uuid::from_bytes]: the big-endian 128-bit integer. *)
Definition uuid_from_bytes (arr : list Z) : Uuid :=
  fold_left (fun acc b => acc * 256 + b) arr 0.

Definition uuid_of_hash (bits : Z) : Uuid :=
  let arr := to_be_bytes bits ++ to_be_bytes bits in
  let arr := alter (fun b => Z.lor (Z.land b 0x0f) 0x50) 6%nat arr in
  let arr := alter (fun b => Z.lor (Z.land b 0x3f) 0x80) 8%nat arr in
  uuid_from_bytes arr.

Definition RuleId_named (name : string) : RuleId := uuid_of_hash (default_hash name).
