(* ===== verification/Domain.v ===== *)
(** * Domain values: orders, trades, positions, quotes, instruments

    src/core/types.rs, order.rs, trade.rs, position.rs, tick.rs and
    instrument.rs.  The newtypes [Money], [Price], [Quantity], [Lots] and
    [Pct] wrap one [Decimal] and are transparent here.  A field [f] of a
    struct is [<prefix>_f]: [ord_] orders, [tr_] trades, [pos_] positions,
    [q_] quotes, [tick_] ticks, [ins_] instruments. *)

From S2P Require Import Prelude.
From S2P Require Import Decimal.
From S2P Require Import Chrono.
From S2P Require Import Ids.
From Stdlib Require Import Ascii.
#[local] Open Scope Z_scope.

Abbreviation Money := Decimal (only parsing).
Abbreviation Price := Decimal (only parsing).
Abbreviation Quantity := Decimal (only parsing).
Abbreviation Lots := Decimal (only parsing).
Abbreviation Pct := Decimal (only parsing).
Abbreviation Symbol := string (only parsing).

(** [str::to_uppercase] and [to_ascii_lowercase] on ASCII text. *)
Definition ascii_upper (c : ascii) : ascii :=
  let n := nat_of_ascii c in
  if (97 <=? n)%nat && (n <=? 122)%nat then ascii_of_nat (n - 32) else c.
Definition ascii_lower (c : ascii) : ascii :=
  let n := nat_of_ascii c in
  if (65 <=? n)%nat && (n <=? 90)%nat then ascii_of_nat (n + 32) else c.

Fixpoint string_map (f : ascii → ascii) (s : string) : string :=
  match s with
  | EmptyString => EmptyString
  | String c s' => String (f c) (string_map f s')
  end.

Definition to_uppercase : string → string := string_map ascii_upper.
Definition to_ascii_lowercase : string → string := string_map ascii_lower.

(** [str::trim().is_empty()] on ASCII text: only white space. *)
Definition is_whitespace (c : ascii) : bool :=
  let n := nat_of_ascii c in
  ((9 <=? n)%nat && (n <=? 13)%nat) || (n =? 32)%nat.

Fixpoint trim_is_empty (s : string) : bool :=
  match s with
  | EmptyString => true
  | String c s' => is_whitespace c && trim_is_empty s'
  end.

Definition Symbol_new (s : string) : Symbol := to_uppercase s.

Section Types.
Context `{DecimalOps}.

Definition Money_is_negative (m : Money) : bool := dec_is_sign_negative m.

Definition Quantity_is_positive (q : Quantity) : bool :=
  dec_is_sign_positive q && negb (dec_is_zero q).

(** [Pct::of]. *)
Definition Pct_of (p : Pct) (m : Money) : outcome Money := dmul p m.

End Types.

(** ** Orders *)

Inductive OrderSide : Type := Buy | Sell.

Definition OrderSide_opposite (s : OrderSide) : OrderSide :=
  match s with Buy => Sell | Sell => Buy end.

Inductive TimeInForce : Type := Gtc | Ioc | Fok | DayOrder.

Inductive OrderStatus : Type :=
| OsPending | OsAccepted | OsPartiallyFilled | OsFilled | OsCancelled | OsRejected
| OsExpired.

Definition OrderStatus_is_terminal (s : OrderStatus) : bool :=
  match s with
  | OsFilled | OsCancelled | OsRejected | OsExpired => true
  | _ => false
  end.

#[global] Instance OrderSide_eq_dec : EqDecision OrderSide.
Proof. solve_decision. Defined.
#[global] Instance OrderStatus_eq_dec : EqDecision OrderStatus.
Proof. solve_decision. Defined.

Section Orders.
Context `{DecimalOps} `{ChronoOps}.

Definition OrderSide_sign (s : OrderSide) : Decimal :=
  match s with Buy => dec_new 1 0 | Sell => dec_new (-1) 0 end.

Inductive OrderType : Type :=
| Market
| Limit (price : Price)
| Stop (stop : Price)
| StopLimit (stop limit : Price).

Inductive OrderKind : Type :=
| OkOpen
| OkClose (position_id : PositionId) (partial_quantity : option Quantity)
| OkReverse.

Record Order := mkOrder {
  ord_id : OrderId;
  ord_account_id : AccountId;
  ord_symbol : Symbol;
  ord_side : OrderSide;
  ord_kind : OrderKind;
  ord_order_type : OrderType;
  ord_quantity : Quantity;
  ord_tif : TimeInForce;
  ord_stop_loss : option Price;
  ord_take_profit : option Price;
  ord_comment : option string;
  ord_submitted_at : Timestamp;
  ord_status : OrderStatus;
  ord_filled_quantity : Quantity;
  ord_avg_fill_price : option Price;
}.

#[global] Instance Order_settable : Settable Order := fun r =>
  mkOrder (ord_id r) (ord_account_id r) (ord_symbol r) (ord_side r) (ord_kind r)
    (ord_order_type r) (ord_quantity r) (ord_tif r) (ord_stop_loss r)
    (ord_take_profit r) (ord_comment r) (ord_submitted_at r) (ord_status r)
    (ord_filled_quantity r) (ord_avg_fill_price r).

(** [Order::market_open]; [id] stands for the fresh random identifier. *)
Definition Order_market_open (id : OrderId) (account_id : AccountId) (symbol : Symbol)
    (side : OrderSide) (quantity : Quantity) (stop_loss take_profit : option Price)
    (submitted_at : Timestamp) : Order :=
  mkOrder id account_id symbol side OkOpen Market quantity Ioc stop_loss take_profit
    None submitted_at OsPending dec_zero None.

Definition Order_market_close (id : OrderId) (account_id : AccountId)
    (position_id : PositionId) (partial_quantity : option Quantity)
    (submitted_at : Timestamp) : Order :=
  mkOrder id account_id (Symbol_new "UNKNOWN") Buy (OkClose position_id partial_quantity)
    Market (default dec_zero partial_quantity) Ioc None None
    None submitted_at OsPending dec_zero None.

Definition OrderKind_is_open (k : OrderKind) : bool :=
  match k with OkOpen => true | _ => false end.

Definition Order_requires_sl (o : Order) : bool :=
  negb (bool_decide (is_Some (ord_stop_loss o))) && OrderKind_is_open (ord_kind o).

Definition Order_requires_tp (o : Order) : bool :=
  negb (bool_decide (is_Some (ord_take_profit o))) && OrderKind_is_open (ord_kind o).

Definition Order_accepted (o : Order) : outcome Order :=
  if decide (ord_status o ≠ OsPending) then
    Err (InvalidState "order {} is not pending (status = {:?})")
  else Ret (o <| ord_status := OsAccepted |>).

Definition Order_rejected (o : Order) (reason : string) : outcome Order :=
  if OrderStatus_is_terminal (ord_status o) then
    Err (InvalidState "order {} already terminal ({:?})")
  else
    let comment :=
      match ord_comment o with
      | Some c => (c +:+ " | rejected: " +:+ reason)%string
      | None => ("rejected: " +:+ reason)%string
      end in
    Ret (o <| ord_status := OsRejected |> <| ord_comment := Some comment |>).

End Orders.

(** ** Trades *)

Inductive TradeSide : Type := Entry | Exit | Reverse.

#[global] Instance TradeSide_eq_dec : EqDecision TradeSide.
Proof. solve_decision. Defined.

Section Trades.
Context `{DecimalOps} `{ChronoOps}.

Record TradeExit := mkTradeExit {
  ex_position_id : PositionId;
  ex_realized_pnl : Money;
  ex_closed_quantity : Quantity;
  ex_entry_price : Price;
  ex_exit_price : Price;
}.

Record Trade := mkTrade {
  tr_id : TradeId;
  tr_order_id : OrderId;
  tr_account_id : AccountId;
  tr_symbol : Symbol;
  tr_side : OrderSide;
  tr_trade_side : TradeSide;
  tr_price : Price;
  tr_quantity : Quantity;
  tr_commission : Money;
  tr_swap : Money;
  tr_executed_at : Timestamp;
  tr_exit_info : option TradeExit;
  tr_comment : option string;
}.

#[global] Instance Trade_settable : Settable Trade := fun r =>
  mkTrade (tr_id r) (tr_order_id r) (tr_account_id r) (tr_symbol r) (tr_side r)
    (tr_trade_side r) (tr_price r) (tr_quantity r) (tr_commission r) (tr_swap r)
    (tr_executed_at r) (tr_exit_info r) (tr_comment r).

Definition Trade_new (id : TradeId) (order_id : OrderId) (account_id : AccountId)
    (symbol : Symbol) (side : OrderSide) (trade_side : TradeSide) (price : Price)
    (quantity : Quantity) (commission : Money) (executed_at : Timestamp) : Trade :=
  mkTrade id order_id account_id symbol side trade_side price quantity commission
    dec_zero executed_at None None.

Definition Trade_net_pnl (t : Trade) : outcome Money :=
  let gross := match tr_exit_info t with Some e => ex_realized_pnl e | None => dec_zero end in
  let! x := dsub gross (tr_commission t) in
  dsub x (tr_swap t).

End Trades.

(** ** Quotes and ticks *)

Section Ticks.
Context `{DecimalOps} `{ChronoOps}.

Record Quote := mkQuote { q_bid : Price; q_ask : Price; q_ts : Timestamp }.

Definition Quote_mid (q : Quote) : outcome Price :=
  let! s := dadd (q_bid q) (q_ask q) in ddiv s (dec_new 2 0).

Definition Quote_spread (q : Quote) : outcome Price := dsub (q_ask q) (q_bid q).

Record Tick := mkTick {
  tick_symbol : Symbol;
  tick_quote : Quote;
  tick_last : option Price;
  tick_bid_volume : option Decimal;
  tick_ask_volume : option Decimal;
}.

Definition Tick_new (symbol : Symbol) (quote : Quote) : Tick :=
  mkTick symbol quote None None None.

End Ticks.

(** ** Positions *)

Inductive PositionSide : Type := Long | Short.

Definition PositionSide_from_order (s : OrderSide) : PositionSide :=
  match s with Buy => Long | Sell => Short end.

Inductive PositionStatus : Type := PsOpen | PsClosed | PsLiquidated.

#[global] Instance PositionSide_eq_dec : EqDecision PositionSide.
Proof. solve_decision. Defined.
#[global] Instance PositionStatus_eq_dec : EqDecision PositionStatus.
Proof. solve_decision. Defined.

Section Positions.
Context `{DecimalOps} `{ChronoOps}.

Definition PositionSide_sign (s : PositionSide) : Decimal :=
  match s with Long => dec_new 1 0 | Short => dec_new (-1) 0 end.

Record Position := mkPosition {
  pos_id : PositionId;
  pos_account_id : AccountId;
  pos_symbol : Symbol;
  pos_side : PositionSide;
  pos_opened_at : Timestamp;
  pos_closed_at : option Timestamp;
  pos_status : PositionStatus;
  pos_avg_entry_price : Price;
  pos_opened_quantity : Quantity;
  pos_open_quantity : Quantity;
  pos_realized_pnl : Money;
  pos_commission : Money;
  pos_swap : Money;
  pos_stop_loss : option Price;
  pos_take_profit : option Price;
  pos_magic : option Z;
  pos_comment : option string;
}.

#[global] Instance Position_settable : Settable Position := fun r =>
  mkPosition (pos_id r) (pos_account_id r) (pos_symbol r) (pos_side r)
    (pos_opened_at r) (pos_closed_at r) (pos_status r) (pos_avg_entry_price r)
    (pos_opened_quantity r) (pos_open_quantity r) (pos_realized_pnl r)
    (pos_commission r) (pos_swap r) (pos_stop_loss r) (pos_take_profit r)
    (pos_magic r) (pos_comment r).

Definition Position_open (id : PositionId) (account_id : AccountId) (symbol : Symbol)
    (side : PositionSide) (entry_price : Price) (quantity : Quantity)
    (opened_at : Timestamp) (commission : Money) (stop_loss take_profit : option Price)
    (magic : option Z) (comment : option string) : Position :=
  mkPosition id account_id symbol side opened_at None PsOpen entry_price quantity
    quantity dec_zero commission dec_zero stop_loss take_profit magic comment.

Definition Position_is_open (p : Position) : bool :=
  bool_decide (pos_status p = PsOpen) && Quantity_is_positive (pos_open_quantity p).

Definition unrealized_pnl (entry current : Price) (qty : Quantity)
    (side : PositionSide) : outcome Money :=
  let! diff :=
    match side with
    | Long => dsub current entry
    | Short => dsub entry current
    end in
  dmul diff qty.

Definition Position_unrealized_pnl (p : Position) (quote : Quote) : outcome Money :=
  if negb (Position_is_open p) then Ret dec_zero
  else
    let price := match pos_side p with Long => q_bid quote | Short => q_ask quote end in
    unrealized_pnl (pos_avg_entry_price p) price (pos_open_quantity p) (pos_side p).

Definition exposure (price : Price) (qty : Quantity) (side : PositionSide) : outcome Money :=
  let signed := match side with Long => qty | Short => dec_neg qty end in
  dmul price signed.

End Positions.

(** ** Instruments *)

Section Instruments.
Context `{DecimalOps}.

Record InstrumentSpec := mkInstrumentSpec {
  ins_symbol : Symbol;
  ins_contract_size : Decimal;
  ins_digits : Z;
  ins_pip_size : Decimal;
  ins_is_lowcap : bool;
}.

Definition InstrumentSpec_fx (symbol : string) : InstrumentSpec :=
  mkInstrumentSpec (Symbol_new symbol) (dec_new 100000 0) 5 (dec_new 1 4) false.

Definition InstrumentSpec_fx_jpy (symbol : string) : InstrumentSpec :=
  mkInstrumentSpec (Symbol_new symbol) (dec_new 100000 0) 3 (dec_new 1 2) false.

Definition InstrumentSpec_cfd (symbol : string) : InstrumentSpec :=
  mkInstrumentSpec (Symbol_new symbol) (dec_new 1 0) 2 (dec_new 1 2) false.

Definition InstrumentSpec_default : InstrumentSpec :=
  mkInstrumentSpec (Symbol_new "<default>") (dec_new 1 0) 5 (dec_new 1 4) false.

Definition InstrumentSpec_units_to_lots (s : InstrumentSpec) (units : Quantity) : outcome Lots :=
  ddiv units (ins_contract_size s).

Definition InstrumentSpec_lots_to_units (s : InstrumentSpec) (lots : Lots) : outcome Quantity :=
  dmul lots (ins_contract_size s).

Definition InstrumentSpec_notional (s : InstrumentSpec) (lots : Lots) (price : Price)
    : outcome Money :=
  let! x := dmul lots (ins_contract_size s) in dmul x price.

(** The registry: a map from upper-cased symbols. *)
Definition InstrumentRegistry : Type := gmap string InstrumentSpec.

Definition InstrumentRegistry_new : InstrumentRegistry := ∅.

Definition InstrumentRegistry_register (r : InstrumentRegistry) (spec : InstrumentSpec)
    : InstrumentRegistry :=
  <[to_uppercase (ins_symbol spec) := spec]> r.

Definition InstrumentRegistry_get (r : InstrumentRegistry) (symbol : Symbol)
    : InstrumentSpec :=
  default InstrumentSpec_default (r !! symbol).

Definition InstrumentRegistry_validate (spec : InstrumentSpec) : outcome unit :=
  if dec_leb (ins_contract_size spec) dec_zero then
    Err (InvalidConfig "instrument {}: contract_size must be positive")
  else if dec_ltb (ins_pip_size spec) dec_zero then
    Err (InvalidConfig "instrument {}: pip_size cannot be negative")
  else Ret tt.

End Instruments.
