(* ===== verification/Plan.v ===== *)
(** * Challenge plans (src/config/plan.rs) and payout policies (src/payout.rs)

    The immutable specification of an evaluation program: targets, limits,
    toggles and the trading-day calendar.  Fields are prefixed [plan_]. *)

From S2P Require Import Prelude.
From S2P Require Import Decimal.
From S2P Require Import Chrono.
From S2P Require Import Ids.
From S2P Require Import Domain.
#[local] Open Scope Z_scope.

Inductive ChallengePhase : Type := Phase1 | Phase2 | FundedPhase.

Inductive LossReference : Type := Static | Trailing | EodTrailing | IntradayTrail.

Inductive DailyLossType : Type :=
| DltNone | DltPctInitial | DltPctPriorDay | DltTrailingIntradayHigh.

Inductive ConsistencyType : Type :=
| CtNone | CtBestDayPctOfTotal | CtBestDayPctOfPositiveDays.

#[global] Instance ChallengePhase_eq_dec : EqDecision ChallengePhase.
Proof. solve_decision. Defined.
#[global] Instance LossReference_eq_dec : EqDecision LossReference.
Proof. solve_decision. Defined.
#[global] Instance DailyLossType_eq_dec : EqDecision DailyLossType.
Proof. solve_decision. Defined.
#[global] Instance ConsistencyType_eq_dec : EqDecision ConsistencyType.
Proof. solve_decision. Defined.

(** ** Display and parsing of the enumerations *)

Definition LossReference_display (m : LossReference) : string :=
  match m with
  | Static => "static"
  | Trailing => "trailing"
  | EodTrailing => "eod_trailing"
  | IntradayTrail => "intraday_trail"
  end.

Definition str_in (s : string) (l : list string) : bool := bool_decide (s ∈ l).

Definition LossReference_from_str (s : string) : outcome LossReference :=
  let s := to_ascii_lowercase s in
  if str_in s ["static"] then Ret Static
  else if str_in s ["trailing"] then Ret Trailing
  else if str_in s ["eod_trailing"; "eodtrailing"; "eod-trailing"] then Ret EodTrailing
  else if str_in s ["intraday_trail"; "intradaytrail"; "intraday-trail"] then Ret IntradayTrail
  else Err (InvalidConfig "unknown loss reference '{other}' (expected 'static', 'trailing', 'eod_trailing', or 'intraday_trail')").

Definition DailyLossType_display (m : DailyLossType) : string :=
  match m with
  | DltNone => "none"
  | DltPctInitial => "pct_initial"
  | DltPctPriorDay => "pct_prior_day"
  | DltTrailingIntradayHigh => "trailing_intraday_high"
  end.

Definition DailyLossType_from_str (s : string) : outcome DailyLossType :=
  let s := to_ascii_lowercase s in
  if str_in s ["none"] then Ret DltNone
  else if str_in s ["pct_initial"; "pctinitial"] then Ret DltPctInitial
  else if str_in s ["pct_prior_day"; "pctpriorday"; "pct_prior"] then Ret DltPctPriorDay
  else if str_in s ["trailing_intraday_high"; "trailingintradayhigh"] then Ret DltTrailingIntradayHigh
  else Err (InvalidConfig "unknown daily loss type '{other}' (expected 'none', 'pct_initial', 'pct_prior_day', or 'trailing_intraday_high')").

Definition ConsistencyType_display (m : ConsistencyType) : string :=
  match m with
  | CtNone => "none"
  | CtBestDayPctOfTotal => "best_day_pct_of_total"
  | CtBestDayPctOfPositiveDays => "best_day_pct_of_positive_days"
  end.

Definition ConsistencyType_from_str (s : string) : outcome ConsistencyType :=
  let s := to_ascii_lowercase s in
  if str_in s ["none"] then Ret CtNone
  else if str_in s ["best_day_pct_of_total"] then Ret CtBestDayPctOfTotal
  else if str_in s ["best_day_pct_of_positive_days"] then Ret CtBestDayPctOfPositiveDays
  else Err (InvalidConfig "unknown consistency type '{other}' (expected 'none', 'best_day_pct_of_total', or 'best_day_pct_of_positive_days')").

Record PlanMeta := mkPlanMeta {
  meta_firm_name : string;
  meta_program_name : string;
  meta_version : string;
  meta_currency : string;
  meta_description : string;
}.

Definition PlanMeta_default : PlanMeta :=
  mkPlanMeta "Generic Prop Firm" "Standard Evaluation" "1.0.0" "USD" "".

(** ** Payout policies *)

Inductive PayoutCycle : Type := OnDemandCycle | BiWeekly | Monthly.

Section Plan.
Context `{DecimalOps} `{ChronoOps}.

(** [PayoutCycle::min_gap]; [Duration::days] may panic. *)
Definition PayoutCycle_min_gap (c : PayoutCycle) : outcome (option Duration) :=
  match c with
  | OnDemandCycle => Ret None
  | BiWeekly => let! d := unwrap (dur_days 14) in Ret (Some d)
  | Monthly => let! d := unwrap (dur_days 30) in Ret (Some d)
  end.

Record SplitTier := mkSplitTier { tier_trader_share : Decimal }.

Record QualifyingDaysConfig := mkQualifyingDaysConfig {
  qd_min_days : Z;
  qd_min_pnl_per_day : Money;
}.

Record PayoutConfig := mkPayoutConfig {
  pc_minimum_payout : Money;
  pc_cycle : PayoutCycle;
  pc_tiers : list SplitTier;
  pc_qualifying_days : option QualifyingDaysConfig;
}.

Definition PayoutConfig_default : PayoutConfig :=
  mkPayoutConfig (dec_new 100 0) OnDemandCycle
    [mkSplitTier (dec_new 80 2); mkSplitTier (dec_new 90 2); mkSplitTier (dec_new 100 2)]
    None.

(** [PayoutConfig::trader_share_for].  The index is in range when the tiers
    are not empty, so the [default] is never taken. *)
Definition PayoutConfig_trader_share_for (c : PayoutConfig) (payout_count : Z) : Decimal :=
  match pc_tiers c with
  | [] => dec_zero
  | tiers =>
      let idx := Nat.min (Z.to_nat payout_count) (length tiers - 1) in
      default dec_zero (tier_trader_share <$> tiers !! idx)
  end.

(** ** The plan *)

Record ChallengePlan := mkPlan {
  plan_id : ChallengeId;
  plan_phase : ChallengePhase;
  plan_meta : PlanMeta;
  plan_initial_balance_money : Money;
  plan_profit_target_pct : Pct;
  plan_max_daily_drawdown_pct : Pct;
  plan_max_total_drawdown_pct : Pct;
  plan_max_loss_reference : LossReference;
  plan_drawdown_on_balance : bool;
  plan_trailing_drawdown_enabled : bool;
  plan_trailing_drawdown_pct : Pct;
  plan_min_trading_days : Z;
  plan_time_limit_days : option Z;
  plan_max_position_lots : option Decimal;
  plan_max_total_lots : option Decimal;
  plan_max_open_positions : option Z;
  plan_max_daily_trades : option Z;
  plan_news_trading_allowed : bool;
  plan_overnight_holding_allowed : bool;
  plan_weekend_holding_allowed : bool;
  plan_hedging_allowed : bool;
  plan_grid_trading_allowed : bool;
  plan_require_stop_loss : bool;
  plan_require_take_profit : bool;
  plan_consistency_pct : option Pct;
  plan_cooldown_seconds : Z;
  plan_copy_trading_allowed : bool;
  plan_refundable : bool;
  plan_leverage : Z;
  plan_trading_hours : option (Z * Z);
  plan_timezone : option Tz;
  plan_day_reset_time : Z;
  plan_effective_at : Timestamp;
  plan_per_trade_max_loss_pct : option Pct;
  plan_per_trade_max_loss_money : option Money;
  plan_hft_ban_enabled : bool;
  plan_hft_min_round_trip_seconds : Z;
  plan_inactivity_days : option Z;
  plan_refund_fee_amount : Money;
  plan_daily_loss_type : DailyLossType;
  plan_daily_loss_soft : bool;
  plan_consistency_type : ConsistencyType;
  plan_eod_trail_locks_at_start : bool;
  plan_min_profitable_days : option Z;
  plan_cross_account_hedging_prohibited : bool;
  plan_lowcap_exposure_limit_pct : option Pct;
  plan_consistency_applies_on_funded_stage : bool;
  plan_qualifying_day_threshold_pct : option Pct;
  plan_qualifying_day_pnl_band_pct : option Pct;
  plan_payout_config : option PayoutConfig;
}.

#[global] Instance ChallengePlan_settable : Settable ChallengePlan := fun r =>
  mkPlan (plan_id r) (plan_phase r) (plan_meta r) (plan_initial_balance_money r)
    (plan_profit_target_pct r) (plan_max_daily_drawdown_pct r)
    (plan_max_total_drawdown_pct r) (plan_max_loss_reference r)
    (plan_drawdown_on_balance r) (plan_trailing_drawdown_enabled r)
    (plan_trailing_drawdown_pct r) (plan_min_trading_days r) (plan_time_limit_days r)
    (plan_max_position_lots r) (plan_max_total_lots r) (plan_max_open_positions r)
    (plan_max_daily_trades r) (plan_news_trading_allowed r)
    (plan_overnight_holding_allowed r) (plan_weekend_holding_allowed r)
    (plan_hedging_allowed r) (plan_grid_trading_allowed r) (plan_require_stop_loss r)
    (plan_require_take_profit r) (plan_consistency_pct r) (plan_cooldown_seconds r)
    (plan_copy_trading_allowed r) (plan_refundable r) (plan_leverage r)
    (plan_trading_hours r) (plan_timezone r) (plan_day_reset_time r) (plan_effective_at
    r) (plan_per_trade_max_loss_pct r) (plan_per_trade_max_loss_money r)
    (plan_hft_ban_enabled r) (plan_hft_min_round_trip_seconds r) (plan_inactivity_days
    r) (plan_refund_fee_amount r) (plan_daily_loss_type r) (plan_daily_loss_soft r)
    (plan_consistency_type r) (plan_eod_trail_locks_at_start r)
    (plan_min_profitable_days r) (plan_cross_account_hedging_prohibited r)
    (plan_lowcap_exposure_limit_pct r) (plan_consistency_applies_on_funded_stage r)
    (plan_qualifying_day_threshold_pct r) (plan_qualifying_day_pnl_band_pct r)
    (plan_payout_config r).

(** [id] and [now] stand for the fresh identifier and [Utc::now()]. *)
Definition ChallengePlan_default (id : ChallengeId) (now : Timestamp) : ChallengePlan := {|
  plan_id := id;
  plan_phase := Phase1;
  plan_meta := PlanMeta_default;
  plan_initial_balance_money := dec_new 10000 0;
  plan_profit_target_pct := dec_new 8 2;
  plan_max_daily_drawdown_pct := dec_new 5 2;
  plan_max_total_drawdown_pct := dec_new 10 2;
  plan_max_loss_reference := Trailing;
  plan_drawdown_on_balance := false;
  plan_trailing_drawdown_enabled := false;
  plan_trailing_drawdown_pct := dec_zero;
  plan_min_trading_days := 3;
  plan_time_limit_days := Some 30;
  plan_max_position_lots := Some (dec_new 5 0);
  plan_max_total_lots := Some (dec_new 30 0);
  plan_max_open_positions := Some 20;
  plan_max_daily_trades := Some 50;
  plan_news_trading_allowed := false;
  plan_overnight_holding_allowed := true;
  plan_weekend_holding_allowed := false;
  plan_hedging_allowed := true;
  plan_grid_trading_allowed := true;
  plan_require_stop_loss := false;
  plan_require_take_profit := false;
  plan_consistency_pct := Some (dec_new 50 2);
  plan_cooldown_seconds := 0;
  plan_copy_trading_allowed := false;
  plan_refundable := true;
  plan_leverage := 100;
  plan_trading_hours := None;
  plan_timezone := None;
  plan_day_reset_time := 0;
  plan_effective_at := now;
  plan_per_trade_max_loss_pct := None;
  plan_per_trade_max_loss_money := None;
  plan_hft_ban_enabled := false;
  plan_hft_min_round_trip_seconds := 60;
  plan_inactivity_days := None;
  plan_refund_fee_amount := dec_zero;
  plan_daily_loss_type := DltPctPriorDay;
  plan_daily_loss_soft := false;
  plan_consistency_type := CtBestDayPctOfPositiveDays;
  plan_eod_trail_locks_at_start := false;
  plan_min_profitable_days := None;
  plan_cross_account_hedging_prohibited := false;
  plan_lowcap_exposure_limit_pct := None;
  plan_consistency_applies_on_funded_stage := false;
  plan_qualifying_day_threshold_pct := None;
  plan_qualifying_day_pnl_band_pct := None;
  plan_payout_config := Some PayoutConfig_default;
|}.

Definition ChallengePlan_initial_balance (p : ChallengePlan) : Money := plan_initial_balance_money p.

Definition dec_outside_unit (d : Decimal) : bool :=
  dec_ltb d dec_zero || dec_gtb d (dec_new 1 0).

Definition ChallengePlan_validate (p : ChallengePlan) : outcome unit :=
  if dec_leb (plan_initial_balance_money p) dec_zero then
    Err (InvalidConfig "initial_balance must be positive")
  else if dec_ltb (plan_profit_target_pct p) dec_zero then
    Err (InvalidConfig "profit_target_pct must be non-negative")
  else if dec_outside_unit (plan_max_daily_drawdown_pct p) then
    Err (InvalidConfig "max_daily_drawdown_pct must be in [0, 1]")
  else if dec_outside_unit (plan_max_total_drawdown_pct p) then
    Err (InvalidConfig "max_total_drawdown_pct must be in [0, 1]")
  else if match plan_consistency_pct p with
          | Some c => dec_outside_unit c
          | None => false
          end then
    Err (InvalidConfig "consistency_pct must be in [0, 1]")
  else if match plan_trading_hours p with
          | Some (s, e) => (24 <? s) || (24 <? e)
          | None => false
          end then
    Err (InvalidConfig "trading_hours must be in [0, 24]")
  else Ret tt.

Definition ChallengePlan_with_balance (p : ChallengePlan) (balance : Money) : ChallengePlan :=
  p <| plan_initial_balance_money := balance |>.
Definition ChallengePlan_with_phase (p : ChallengePlan) (phase : ChallengePhase) : ChallengePlan :=
  p <| plan_phase := phase |>.
Definition ChallengePlan_with_trailing_dd (p : ChallengePlan) (pct : Pct) : ChallengePlan :=
  p <| plan_trailing_drawdown_enabled := true |> <| plan_trailing_drawdown_pct := pct |>.
Definition ChallengePlan_with_hft_ban (p : ChallengePlan) (secs : Z) : ChallengePlan :=
  p <| plan_hft_ban_enabled := true |> <| plan_hft_min_round_trip_seconds := secs |>.

Definition ChallengePlan_profit_target (p : ChallengePlan) : Pct := plan_profit_target_pct p.
Definition ChallengePlan_with_profit_target (p : ChallengePlan) (pct : Pct) : ChallengePlan :=
  p <| plan_profit_target_pct := pct |>.
Definition ChallengePlan_with_daily_dd (p : ChallengePlan) (pct : Pct) : ChallengePlan :=
  p <| plan_max_daily_drawdown_pct := pct |>.
Definition ChallengePlan_with_total_dd (p : ChallengePlan) (pct : Pct) : ChallengePlan :=
  p <| plan_max_total_drawdown_pct := pct |>.
Definition ChallengePlan_with_loss_reference (p : ChallengePlan) (mode : LossReference)
    : ChallengePlan := p <| plan_max_loss_reference := mode |>.
Definition ChallengePlan_with_min_days (p : ChallengePlan) (days : Z) : ChallengePlan :=
  p <| plan_min_trading_days := days |>.
Definition ChallengePlan_with_time_limit_days (p : ChallengePlan) (days : Z) : ChallengePlan :=
  p <| plan_time_limit_days := Some days |>.
Definition ChallengePlan_with_consistency (p : ChallengePlan) (pct : Pct) : ChallengePlan :=
  p <| plan_consistency_pct := Some pct |>.
Definition ChallengePlan_with_per_trade_max_loss_pct (p : ChallengePlan) (pct : Pct)
    : ChallengePlan := p <| plan_per_trade_max_loss_pct := Some pct |>.
Definition ChallengePlan_with_inactivity_days (p : ChallengePlan) (days : Z) : ChallengePlan :=
  p <| plan_inactivity_days := Some days |>.
Definition ChallengePlan_rule_id (name : string) : RuleId := RuleId_named name.

(** ** The trading-day calendar *)

Definition ChallengePlan_trading_day_start (p : ChallengePlan) (now : Timestamp)
    : outcome Timestamp :=
  let reset_hour := plan_day_reset_time p in
  let! reset_today :=
    match plan_timezone p with
    | Some tz =>
        let! dt := unwrap (and_hms_opt (tz_date_naive tz now) reset_hour 0 0) in
        unwrap (and_local_timezone tz dt)
    | None =>
        let! dt := unwrap (and_hms_opt (date_naive now) reset_hour 0 0) in
        Ret (and_utc dt)
    end in
  if ts_geb now reset_today then Ret reset_today
  else
    let! day := unwrap (dur_days 1) in
    unwrap (ts_sub reset_today day).

Definition ChallengePlan_next_trading_day_start (p : ChallengePlan) (current_start : Timestamp)
    : outcome Timestamp :=
  let reset_hour := plan_day_reset_time p in
  match plan_timezone p with
  | Some tz =>
      let! next_date := unwrap (succ_opt (tz_date_naive tz current_start)) in
      let! next_day := unwrap (and_hms_opt next_date reset_hour 0 0) in
      unwrap (and_local_timezone tz next_day)
  | None =>
      let! next_date := unwrap (succ_opt (date_naive current_start)) in
      let! next_day := unwrap (and_hms_opt next_date reset_hour 0 0) in
      Ret (and_utc next_day)
  end.

End Plan.

(** ** Lemmas on the calendar of UTC plans *)

(** The last day boundary (the reset hour [h]) at or before the instant [n],
    and the first boundary on a later calendar day. *)
Definition day_floor (h n : Z) : Z := (n - h * ns_hour) / ns_day * ns_day + h * ns_hour.
Definition day_next (h n : Z) : Z := (n / ns_day + 1) * ns_day + h * ns_hour.

(** Instants far enough from the end of the representable range. *)
Definition ts_near (n : Z) : Prop := Z.abs n ≤ 78 * 10 ^ 20.

Lemma day_floor_bounds h n : day_floor h n ≤ n < day_floor h n + ns_day.
Proof.
  unfold day_floor. pose proof (Z.mod_pos_bound (n - h * ns_hour) ns_day eq_refl).
  pose proof (Z.div_mod (n - h * ns_hour) ns_day). unfold ns_day in *. lia.
Qed.

Lemma day_floor_unique h n k :
  k * ns_day + h * ns_hour ≤ n < (k + 1) * ns_day + h * ns_hour →
  day_floor h n = k * ns_day + h * ns_hour.
Proof.
  intros. unfold day_floor. f_equal. f_equal.
  symmetry. apply (Z.div_unique _ _ _ (n - h * ns_hour - ns_day * k)); lia.
Qed.

Lemma day_next_bounds h n : 0 ≤ h < 24 → n < day_next h n < n + 2 * ns_day.
Proof.
  intros. unfold day_next. pose proof (Z.mod_pos_bound n ns_day eq_refl).
  pose proof (Z.div_mod n ns_day). unfold ns_day, ns_hour, ns_second in *. lia.
Qed.

Lemma day_floor_next h n : 0 ≤ h < 24 → day_floor h (day_next h n) = day_next h n.
Proof.
  intros. unfold day_next. apply day_floor_unique. unfold ns_day, ns_second. lia.
Qed.

Lemma day_floor_idem h n : day_floor h (day_floor h n) = day_floor h n.
Proof.
  unfold day_floor at 2 3. apply day_floor_unique. unfold ns_day, ns_second. lia.
Qed.

Lemma day_floor_mono h n m : n ≤ m → day_floor h n ≤ day_floor h m.
Proof.
  intros. unfold day_floor.
  assert ((n - h * ns_hour) / ns_day ≤ (m - h * ns_hour) / ns_day)
    by (apply Z.div_le_mono; unfold ns_day, ns_second; lia).
  unfold ns_day, ns_second in *. lia.
Qed.

Section Calendar.
Context `{DecimalOps} `{CL : ChronoLaws}.
Variable p : ChallengePlan.
Hypothesis Hutc : plan_timezone p = None.
Hypothesis Hhour : 0 ≤ plan_day_reset_time p < 24.

Lemma trading_day_start_utc now :
  ts_near (ts_nanos now) →
  ∃ r, ChallengePlan_trading_day_start p now = Ret r
     ∧ ts_nanos r = day_floor (plan_day_reset_time p) (ts_nanos now).
Proof using CL Hutc Hhour.
  intros Hn. unfold ChallengePlan_trading_day_start. rewrite Hutc.
  destruct (and_hms_opt_spec (date_naive now) (plan_day_reset_time p) 0 0)
    as (dt & -> & _ & Hdt); [lia..|]. simpl.
  rewrite date_naive_spec in Hdt.
  pose proof (Z.mod_pos_bound (ts_nanos now) ns_day eq_refl).
  pose proof (Z.div_mod (ts_nanos now) ns_day).
  destruct (ts_geb now (and_utc dt)) eqn:E; ts_bool.
  - eexists. split; [done|]. rewrite Hdt. symmetry. rewrite Z.mul_0_l, !Z.add_0_r in *.
    apply day_floor_unique. unfold ns_day, ns_hour, ns_second in *. lia.
  - destruct (dur_days_spec 1) as (d & -> & Hd); [lia|]. simpl.
    destruct (ts_sub_total (and_utc dt) d) as [r Hr].
    { unfold ts_range, ts_near in *. unfold ns_day, ns_hour, ns_second in *. lia. }
    rewrite Hr. eexists. split; [done|]. apply ts_sub_spec in Hr. rewrite Hr, Hd, Hdt.
    rewrite (day_floor_unique _ _ (ts_nanos now / ns_day - 1));
      unfold ns_day, ns_hour, ns_second in *; lia.
Qed.

Lemma next_trading_day_start_utc t :
  ts_near (ts_nanos t) →
  ∃ r, ChallengePlan_next_trading_day_start p t = Ret r
     ∧ ts_nanos r = day_next (plan_day_reset_time p) (ts_nanos t).
Proof using CL Hutc Hhour.
  intros Hn. unfold ChallengePlan_next_trading_day_start. rewrite Hutc.
  destruct (succ_opt_total (date_naive t)) as [nd Hnd].
  { unfold day_range, ts_near in *. rewrite date_naive_spec.
    pose proof (Z.mod_pos_bound (ts_nanos t) ns_day eq_refl).
    pose proof (Z.div_mod (ts_nanos t) ns_day). unfold ns_day, ns_second in *. lia. }
  rewrite Hnd. simpl. apply succ_opt_spec in Hnd. rewrite date_naive_spec in Hnd.
  destruct (and_hms_opt_spec nd (plan_day_reset_time p) 0 0) as (dt & -> & _ & Hdt);
    [lia..|]. simpl.
  eexists. split; [done|]. rewrite Hdt, Hnd. unfold day_next. lia.
Qed.

End Calendar.

(** ** Round trips of the enumerations *)

Lemma LossReference_roundtrip_aux m : LossReference_from_str (LossReference_display m) = Ret m.
Proof. by destruct m. Qed.
