(* ===== verification/Presets.v ===== *)
(** * Preset plans (src/config/presets.rs)

    One definition per factory.  Each starts from [base_plan] or from another
    preset, overwrites fields and ends in [validate().unwrap()]: an invalid
    plan would panic.  The fresh plan identifier and [Utc::now()] are
    arguments. *)

From S2P Require Import Prelude.
From S2P Require Import Decimal.
From S2P Require Import Chrono.
From S2P Require Import Ids.
From S2P Require Import Domain.
From S2P Require Import Plan.
#[local] Open Scope Z_scope.

#[global] Instance PlanMeta_settable : Settable PlanMeta := fun r =>
  mkPlanMeta (meta_firm_name r) (meta_program_name r) (meta_version r) (meta_currency r)
    (meta_description r).

Section Presets.
Context `{DecimalOps} `{ChronoOps}.

(** [p.validate().unwrap(); p] *)
Definition validated (p : ChallengePlan) : outcome ChallengePlan :=
  match ChallengePlan_validate p with
  | Ret _ => Ret p
  | Err _ => Panic
  | Panic => Panic
  | OutOfFuel => OutOfFuel
  end.

Definition base_plan (firm program : string) (balance : Money) (id : ChallengeId)
    (now : Timestamp) : ChallengePlan :=
  (ChallengePlan_default id now)
    <| plan_meta := mkPlanMeta firm program "1.0.0" "USD"
                      (firm +:+ " " +:+ program +:+ " evaluation program") |>
    <| plan_initial_balance_money := balance |>
    <| plan_effective_at := now |>.

Definition custom (name : string) (balance : Money) (id : ChallengeId) (now : Timestamp)
    : ChallengePlan :=
  base_plan "Custom" name balance id now.

Definition ftmo_phase1 (id : ChallengeId) (now : Timestamp)
    : outcome ChallengePlan :=
  let p := base_plan "FTMO" "Challenge" (dec_new 10000 0) id now in
  validated (p <| plan_phase := Phase1 |> <| plan_profit_target_pct := dec_new 10 2 |>
    <| plan_max_daily_drawdown_pct := dec_new 5 2 |>
    <| plan_max_total_drawdown_pct := dec_new 10 2 |>
    <| plan_daily_loss_type := DltPctInitial |> <| plan_max_loss_reference := Static |>
    <| plan_drawdown_on_balance := false |> <| plan_min_trading_days := 4 |>
    <| plan_time_limit_days := Some 30 |> <| plan_news_trading_allowed := true |>
    <| plan_overnight_holding_allowed := true |> <| plan_weekend_holding_allowed := false |>
    <| plan_hedging_allowed := true |> <| plan_grid_trading_allowed := true |>
    <| plan_require_stop_loss := true |> <| plan_consistency_pct := Some (dec_new 40 2) |>
    <| plan_leverage := 100 |>).

Definition ftmo_phase2 (id : ChallengeId) (now : Timestamp)
    : outcome ChallengePlan :=
  let! p := ftmo_phase1 id now in
  validated (p <| plan_phase := Phase2 |>
    <| plan_meta := (plan_meta p) <| meta_program_name := "Verification" |> |>
    <| plan_profit_target_pct := dec_new 5 2 |> <| plan_time_limit_days := Some 60 |>).

Definition ftmo_funded (id : ChallengeId) (now : Timestamp)
    : outcome ChallengePlan :=
  let! p := ftmo_phase2 id now in
  validated (p <| plan_phase := FundedPhase |>
    <| plan_meta := (plan_meta p) <| meta_program_name := "Funded" |> |>
    <| plan_profit_target_pct := dec_zero |> <| plan_time_limit_days := None |>
    <| plan_max_loss_reference := Trailing |> <| plan_trailing_drawdown_enabled := true |>
    <| plan_trailing_drawdown_pct := dec_new 10 2 |>
    <| plan_consistency_pct := Some (dec_new 40 2) |>).

Definition myforexfunds_phase1 (id : ChallengeId) (now : Timestamp)
    : outcome ChallengePlan :=
  let p := base_plan "MyForexFunds" "Challenge" (dec_new 50000 0) id now in
  validated (p <| plan_phase := Phase1 |> <| plan_profit_target_pct := dec_new 8 2 |>
    <| plan_max_daily_drawdown_pct := dec_new 5 2 |>
    <| plan_max_total_drawdown_pct := dec_new 10 2 |> <| plan_max_loss_reference := Static |>
    <| plan_min_trading_days := 0 |> <| plan_time_limit_days := None |>
    <| plan_news_trading_allowed := true |> <| plan_overnight_holding_allowed := true |>
    <| plan_weekend_holding_allowed := true |> <| plan_hedging_allowed := true |>
    <| plan_require_stop_loss := false |> <| plan_consistency_pct := None |>
    <| plan_leverage := 500 |>).

Definition thefundedtrader_phase1 (id : ChallengeId) (now : Timestamp)
    : outcome ChallengePlan :=
  let p := base_plan "The Funded Trader" "Challenge" (dec_new 100000 0) id now in
  validated (p <| plan_phase := Phase1 |> <| plan_profit_target_pct := dec_new 10 2 |>
    <| plan_max_daily_drawdown_pct := dec_new 5 2 |>
    <| plan_max_total_drawdown_pct := dec_new 10 2 |> <| plan_max_loss_reference := Static |>
    <| plan_min_trading_days := 0 |> <| plan_time_limit_days := None |>
    <| plan_news_trading_allowed := false |> <| plan_overnight_holding_allowed := false |>
    <| plan_weekend_holding_allowed := false |> <| plan_hedging_allowed := false |>
    <| plan_require_stop_loss := true |> <| plan_consistency_pct := None |>
    <| plan_leverage := 100 |>).

Definition surgetrader_plan (id : ChallengeId) (now : Timestamp)
    : outcome ChallengePlan :=
  let p := base_plan "SurgeTrader" "One-Step" (dec_new 25000 0) id now in
  validated (p <| plan_phase := Phase1 |> <| plan_profit_target_pct := dec_new 10 2 |>
    <| plan_max_daily_drawdown_pct := dec_new 3 2 |>
    <| plan_max_total_drawdown_pct := dec_new 5 2 |> <| plan_max_loss_reference := Static |>
    <| plan_min_trading_days := 0 |> <| plan_time_limit_days := None |>
    <| plan_news_trading_allowed := true |> <| plan_overnight_holding_allowed := true |>
    <| plan_weekend_holding_allowed := true |> <| plan_hedging_allowed := true |>
    <| plan_require_stop_loss := false |> <| plan_consistency_pct := None |>
    <| plan_leverage := 30 |>).

Definition ftmo_1step (id : ChallengeId) (now : Timestamp)
    : outcome ChallengePlan :=
  let p := base_plan "FTMO" "1-Step Challenge" (dec_new 10000 0) id now in
  validated (p <| plan_phase := Phase1 |> <| plan_profit_target_pct := dec_new 10 2 |>
    <| plan_max_daily_drawdown_pct := dec_new 3 2 |>
    <| plan_max_total_drawdown_pct := dec_new 10 2 |>
    <| plan_daily_loss_type := DltPctInitial |> <| plan_max_loss_reference := EodTrailing |>
    <| plan_drawdown_on_balance := false |> <| plan_min_trading_days := 0 |>
    <| plan_time_limit_days := None |> <| plan_inactivity_days := Some 30 |>
    <| plan_news_trading_allowed := true |> <| plan_overnight_holding_allowed := true |>
    <| plan_weekend_holding_allowed := false |> <| plan_hedging_allowed := true |>
    <| plan_grid_trading_allowed := true |> <| plan_require_stop_loss := true |>
    <| plan_consistency_pct := Some (dec_new 50 2) |>
    <| plan_consistency_type := CtBestDayPctOfPositiveDays |> <| plan_leverage := 100 |>).

Definition ftmo_instant_funding (id : ChallengeId) (now : Timestamp)
    : outcome ChallengePlan :=
  let p := base_plan "FTMO" "Instant Funding" (dec_new 10000 0) id now in
  validated (p <| plan_phase := FundedPhase |> <| plan_profit_target_pct := dec_new 5 2 |>
    <| plan_max_daily_drawdown_pct := dec_new 5 2 |>
    <| plan_max_total_drawdown_pct := dec_new 10 2 |> <| plan_max_loss_reference := Trailing |>
    <| plan_trailing_drawdown_enabled := true |>
    <| plan_trailing_drawdown_pct := dec_new 10 2 |> <| plan_drawdown_on_balance := false |>
    <| plan_min_trading_days := 0 |> <| plan_time_limit_days := None |>
    <| plan_news_trading_allowed := true |> <| plan_overnight_holding_allowed := true |>
    <| plan_weekend_holding_allowed := false |> <| plan_hedging_allowed := true |>
    <| plan_grid_trading_allowed := false |> <| plan_require_stop_loss := true |>
    <| plan_consistency_pct := Some (dec_new 40 2) |> <| plan_leverage := 100 |>).

Definition fundednext_1step (id : ChallengeId) (now : Timestamp)
    : outcome ChallengePlan :=
  let p := base_plan "FundedNext" "1-Step" (dec_new 50000 0) id now in
  validated (p <| plan_phase := Phase1 |> <| plan_profit_target_pct := dec_new 8 2 |>
    <| plan_max_daily_drawdown_pct := dec_new 5 2 |>
    <| plan_max_total_drawdown_pct := dec_new 10 2 |>
    <| plan_max_loss_reference := EodTrailing |> <| plan_min_trading_days := 0 |>
    <| plan_time_limit_days := None |> <| plan_inactivity_days := Some 30 |>
    <| plan_news_trading_allowed := true |> <| plan_overnight_holding_allowed := true |>
    <| plan_weekend_holding_allowed := true |> <| plan_hedging_allowed := true |>
    <| plan_require_stop_loss := false |> <| plan_consistency_pct := None |>
    <| plan_leverage := 100 |>).

Definition topstep_futures (id : ChallengeId) (now : Timestamp)
    : outcome ChallengePlan :=
  let p := base_plan "Topstep" "Trading Combine" (dec_new 50000 0) id now in
  validated (p <| plan_phase := Phase1 |> <| plan_profit_target_pct := dec_new 6 2 |>
    <| plan_max_daily_drawdown_pct := dec_zero |> <| plan_daily_loss_type := DltNone |>
    <| plan_max_total_drawdown_pct := dec_new 10 2 |>
    <| plan_max_loss_reference := EodTrailing |> <| plan_eod_trail_locks_at_start := true |>
    <| plan_per_trade_max_loss_pct := Some (dec_new 2 2) |> <| plan_min_trading_days := 5 |>
    <| plan_time_limit_days := None |> <| plan_inactivity_days := Some 30 |>
    <| plan_news_trading_allowed := true |> <| plan_overnight_holding_allowed := true |>
    <| plan_weekend_holding_allowed := true |> <| plan_hedging_allowed := false |>
    <| plan_require_stop_loss := true |> <| plan_consistency_pct := None |>
    <| plan_leverage := 1 |>).

Definition topstep_100k_combine (id : ChallengeId) (now : Timestamp)
    : outcome ChallengePlan :=
  let! p := topstep_futures id now in
  validated (p
    <| plan_meta := (plan_meta p) <| meta_program_name := "100K Trading Combine" |> |>
    <| plan_initial_balance_money := dec_new 100000 0 |>
    <| plan_max_total_drawdown_pct := dec_new 3 2 |>).

Definition topstep_150k_combine (id : ChallengeId) (now : Timestamp)
    : outcome ChallengePlan :=
  let! p := topstep_100k_combine id now in
  validated (p
    <| plan_meta := (plan_meta p) <| meta_program_name := "150K Trading Combine" |> |>
    <| plan_initial_balance_money := dec_new 150000 0 |>).

Definition fundingpips_1step (id : ChallengeId) (now : Timestamp)
    : outcome ChallengePlan :=
  let p := base_plan "FundingPips" "1 Step" (dec_new 50000 0) id now in
  validated (p <| plan_phase := Phase1 |> <| plan_profit_target_pct := dec_new 10 2 |>
    <| plan_max_daily_drawdown_pct := dec_new 3 2 |>
    <| plan_max_total_drawdown_pct := dec_new 6 2 |>
    <| plan_daily_loss_type := DltPctPriorDay |> <| plan_max_loss_reference := Static |>
    <| plan_min_trading_days := 3 |> <| plan_time_limit_days := None |>
    <| plan_consistency_pct := None |> <| plan_consistency_type := CtNone |>
    <| plan_leverage := 100 |>).

Definition fundingpips_2step_standard_phase1 (id : ChallengeId) (now : Timestamp)
    : outcome ChallengePlan :=
  let p := base_plan "FundingPips" "2 Step Standard - Phase 1" (dec_new 50000 0) id now in
  validated (p <| plan_phase := Phase1 |> <| plan_profit_target_pct := dec_new 8 2 |>
    <| plan_max_daily_drawdown_pct := dec_new 5 2 |>
    <| plan_max_total_drawdown_pct := dec_new 10 2 |>
    <| plan_daily_loss_type := DltPctPriorDay |> <| plan_max_loss_reference := Static |>
    <| plan_min_trading_days := 3 |> <| plan_consistency_pct := None |>
    <| plan_consistency_type := CtNone |> <| plan_leverage := 100 |>).

Definition fundingpips_2step_standard_phase2 (id : ChallengeId) (now : Timestamp)
    : outcome ChallengePlan :=
  let! p := fundingpips_2step_standard_phase1 id now in
  validated (p <| plan_phase := Phase2 |>
    <| plan_meta := (plan_meta p) <| meta_program_name := "2 Step Standard - Phase 2" |> |>
    <| plan_profit_target_pct := dec_new 5 2 |>).

Definition fundingpips_2step_flex_phase1 (id : ChallengeId) (now : Timestamp)
    : outcome ChallengePlan :=
  let p := base_plan "FundingPips" "2 Step Flex - Phase 1" (dec_new 50000 0) id now in
  validated (p <| plan_phase := Phase1 |> <| plan_profit_target_pct := dec_new 10 2 |>
    <| plan_max_daily_drawdown_pct := dec_new 4 2 |>
    <| plan_max_total_drawdown_pct := dec_new 12 2 |>
    <| plan_daily_loss_type := DltPctPriorDay |> <| plan_max_loss_reference := Static |>
    <| plan_min_trading_days := 0 |> <| plan_consistency_pct := None |>
    <| plan_consistency_type := CtNone |> <| plan_leverage := 100 |>).

Definition fundingpips_2step_flex_phase2 (id : ChallengeId) (now : Timestamp)
    : outcome ChallengePlan :=
  let! p := fundingpips_2step_flex_phase1 id now in
  validated (p <| plan_phase := Phase2 |>
    <| plan_meta := (plan_meta p) <| meta_program_name := "2 Step Flex - Phase 2" |> |>
    <| plan_profit_target_pct := dec_new 6 2 |>).

Definition fundingpips_2step_pro_phase1 (id : ChallengeId) (now : Timestamp)
    : outcome ChallengePlan :=
  let p := base_plan "FundingPips" "2 Step Pro - Phase 1" (dec_new 50000 0) id now in
  validated (p <| plan_phase := Phase1 |> <| plan_profit_target_pct := dec_new 6 2 |>
    <| plan_max_daily_drawdown_pct := dec_new 3 2 |>
    <| plan_max_total_drawdown_pct := dec_new 6 2 |>
    <| plan_daily_loss_type := DltPctPriorDay |> <| plan_max_loss_reference := Static |>
    <| plan_min_trading_days := 1 |> <| plan_consistency_pct := None |>
    <| plan_consistency_type := CtNone |> <| plan_leverage := 100 |>).

Definition fundingpips_2step_pro_phase2 (id : ChallengeId) (now : Timestamp)
    : outcome ChallengePlan :=
  let! p := fundingpips_2step_pro_phase1 id now in
  validated (p <| plan_phase := Phase2 |>
    <| plan_meta := (plan_meta p) <| meta_program_name := "2 Step Pro - Phase 2" |> |>).

Definition fundingpips_zero (id : ChallengeId) (now : Timestamp)
    : outcome ChallengePlan :=
  let p := base_plan "FundingPips" "Zero" (dec_new 50000 0) id now in
  validated (p <| plan_phase := FundedPhase |> <| plan_profit_target_pct := dec_zero |>
    <| plan_max_daily_drawdown_pct := dec_new 3 2 |>
    <| plan_max_total_drawdown_pct := dec_new 5 2 |>
    <| plan_daily_loss_type := DltPctPriorDay |> <| plan_max_loss_reference := IntradayTrail |>
    <| plan_eod_trail_locks_at_start := true |> <| plan_min_profitable_days := Some 7 |>
    <| plan_consistency_pct := Some (dec_new 15 2) |>
    <| plan_consistency_type := CtBestDayPctOfTotal |> <| plan_min_trading_days := 0 |>
    <| plan_time_limit_days := None |> <| plan_leverage := 100 |>).

Definition the5ers_1step (id : ChallengeId) (now : Timestamp)
    : outcome ChallengePlan :=
  let p := base_plan "The5%ers" "1-Step" (dec_new 100000 0) id now in
  validated (p <| plan_phase := Phase1 |> <| plan_profit_target_pct := dec_new 10 2 |>
    <| plan_max_daily_drawdown_pct := dec_new 3 2 |>
    <| plan_max_total_drawdown_pct := dec_new 6 2 |>
    <| plan_daily_loss_type := DltPctPriorDay |> <| plan_max_loss_reference := Static |>
    <| plan_min_trading_days := 0 |> <| plan_consistency_pct := Some (dec_new 50 2) |>
    <| plan_consistency_type := CtBestDayPctOfTotal |>
    <| plan_consistency_applies_on_funded_stage := true |> <| plan_leverage := 100 |>).

Definition the5ers_2step_phase1 (id : ChallengeId) (now : Timestamp)
    : outcome ChallengePlan :=
  let p := base_plan "The5%ers" "2-Step (8/5) - Phase 1" (dec_new 100000 0) id now in
  validated (p <| plan_phase := Phase1 |> <| plan_profit_target_pct := dec_new 8 2 |>
    <| plan_max_daily_drawdown_pct := dec_new 3 2 |>
    <| plan_max_total_drawdown_pct := dec_new 10 2 |>
    <| plan_daily_loss_type := DltPctPriorDay |> <| plan_max_loss_reference := Static |>
    <| plan_min_trading_days := 1 |> <| plan_consistency_pct := None |>
    <| plan_consistency_type := CtNone |> <| plan_leverage := 100 |>).

Definition the5ers_2step_phase2 (id : ChallengeId) (now : Timestamp)
    : outcome ChallengePlan :=
  let! p := the5ers_2step_phase1 id now in
  validated (p <| plan_phase := Phase2 |>
    <| plan_meta := (plan_meta p) <| meta_program_name := "2-Step (8/5) - Phase 2" |> |>
    <| plan_profit_target_pct := dec_new 5 2 |>).

Definition breakout_1step_classic (id : ChallengeId) (now : Timestamp)
    : outcome ChallengePlan :=
  let p := base_plan "Breakout" "1-Step Classic" (dec_new 50000 0) id now in
  validated (p <| plan_phase := Phase1 |> <| plan_profit_target_pct := dec_new 10 2 |>
    <| plan_max_daily_drawdown_pct := dec_new 3 2 |>
    <| plan_max_total_drawdown_pct := dec_new 6 2 |>
    <| plan_daily_loss_type := DltPctPriorDay |> <| plan_max_loss_reference := Static |>
    <| plan_consistency_pct := None |> <| plan_consistency_type := CtNone |>
    <| plan_leverage := 100 |>).

Definition breakout_1step_pro (id : ChallengeId) (now : Timestamp)
    : outcome ChallengePlan :=
  let p := base_plan "Breakout" "1-Step Pro" (dec_new 50000 0) id now in
  validated (p <| plan_phase := Phase1 |> <| plan_profit_target_pct := dec_new 12 2 |>
    <| plan_max_daily_drawdown_pct := dec_new 3 2 |>
    <| plan_max_total_drawdown_pct := dec_new 5 2 |>
    <| plan_daily_loss_type := DltPctPriorDay |> <| plan_max_loss_reference := Static |>
    <| plan_consistency_pct := None |> <| plan_consistency_type := CtNone |>
    <| plan_leverage := 100 |>).

Definition breakout_1step_turbo (id : ChallengeId) (now : Timestamp)
    : outcome ChallengePlan :=
  let p := base_plan "Breakout" "1-Step Turbo" (dec_new 50000 0) id now in
  validated (p <| plan_phase := Phase1 |> <| plan_profit_target_pct := dec_new 9 2 |>
    <| plan_max_daily_drawdown_pct := dec_new 3 2 |>
    <| plan_max_total_drawdown_pct := dec_new 3 2 |>
    <| plan_daily_loss_type := DltPctPriorDay |> <| plan_max_loss_reference := Static |>
    <| plan_consistency_pct := None |> <| plan_consistency_type := CtNone |>
    <| plan_leverage := 100 |>).

Definition breakout_2step_phase1 (id : ChallengeId) (now : Timestamp)
    : outcome ChallengePlan :=
  let p := base_plan "Breakout" "2-Step - Phase 1" (dec_new 50000 0) id now in
  validated (p <| plan_phase := Phase1 |> <| plan_profit_target_pct := dec_new 5 2 |>
    <| plan_max_daily_drawdown_pct := dec_new 5 2 |>
    <| plan_max_total_drawdown_pct := dec_new 8 2 |>
    <| plan_daily_loss_type := DltPctPriorDay |> <| plan_max_loss_reference := IntradayTrail |>
    <| plan_eod_trail_locks_at_start := true |> <| plan_consistency_pct := None |>
    <| plan_consistency_type := CtNone |> <| plan_leverage := 100 |>).

Definition breakout_2step_phase2 (id : ChallengeId) (now : Timestamp)
    : outcome ChallengePlan :=
  let! p := breakout_2step_phase1 id now in
  validated (p <| plan_phase := Phase2 |>
    <| plan_meta := (plan_meta p) <| meta_program_name := "2-Step - Phase 2" |> |>
    <| plan_profit_target_pct := dec_new 10 2 |>).

Definition hyrotrader_1step_standard (id : ChallengeId) (now : Timestamp)
    : outcome ChallengePlan :=
  let p := base_plan "HyroTrader" "1-Step Standard" (dec_new 50000 0) id now in
  validated (p <| plan_phase := Phase1 |> <| plan_profit_target_pct := dec_new 10 2 |>
    <| plan_max_daily_drawdown_pct := dec_new 4 2 |>
    <| plan_max_total_drawdown_pct := dec_new 6 2 |>
    <| plan_daily_loss_type := DltTrailingIntradayHigh |>
    <| plan_max_loss_reference := Static |> <| plan_min_trading_days := 5 |>
    <| plan_consistency_pct := Some (dec_new 40 2) |>
    <| plan_consistency_type := CtBestDayPctOfPositiveDays |>
    <| plan_per_trade_max_loss_pct := Some (dec_new 3 2) |>
    <| plan_grid_trading_allowed := false |> <| plan_hedging_allowed := false |>
    <| plan_cross_account_hedging_prohibited := true |>
    <| plan_lowcap_exposure_limit_pct := Some (dec_new 5 2) |> <| plan_leverage := 100 |>).

Definition hyrotrader_1step_swing (id : ChallengeId) (now : Timestamp)
    : outcome ChallengePlan :=
  let! p := hyrotrader_1step_standard id now in
  validated (p <| plan_meta := (plan_meta p) <| meta_program_name := "1-Step Swing" |> |>
    <| plan_daily_loss_type := DltPctPriorDay |>).

Definition hyrotrader_2step_standard_phase1 (id : ChallengeId) (now : Timestamp)
    : outcome ChallengePlan :=
  let p := base_plan "HyroTrader" "2-Step Standard - Phase 1" (dec_new 50000 0) id now in
  validated (p <| plan_phase := Phase1 |> <| plan_profit_target_pct := dec_new 10 2 |>
    <| plan_max_daily_drawdown_pct := dec_new 5 2 |>
    <| plan_max_total_drawdown_pct := dec_new 10 2 |>
    <| plan_daily_loss_type := DltTrailingIntradayHigh |>
    <| plan_max_loss_reference := Static |> <| plan_min_trading_days := 5 |>
    <| plan_consistency_pct := Some (dec_new 40 2) |>
    <| plan_consistency_type := CtBestDayPctOfPositiveDays |>
    <| plan_per_trade_max_loss_pct := Some (dec_new 3 2) |>
    <| plan_grid_trading_allowed := false |> <| plan_hedging_allowed := false |>
    <| plan_cross_account_hedging_prohibited := true |>
    <| plan_lowcap_exposure_limit_pct := Some (dec_new 5 2) |> <| plan_leverage := 100 |>).

Definition hyrotrader_2step_standard_phase2 (id : ChallengeId) (now : Timestamp)
    : outcome ChallengePlan :=
  let! p := hyrotrader_2step_standard_phase1 id now in
  validated (p <| plan_phase := Phase2 |>
    <| plan_meta := (plan_meta p) <| meta_program_name := "2-Step Standard - Phase 2" |> |>
    <| plan_profit_target_pct := dec_new 5 2 |>).

Definition hyrotrader_2step_swing_phase1 (id : ChallengeId) (now : Timestamp)
    : outcome ChallengePlan :=
  let! p := hyrotrader_2step_standard_phase1 id now in
  validated (p
    <| plan_meta := (plan_meta p) <| meta_program_name := "2-Step Swing - Phase 1" |> |>
    <| plan_daily_loss_type := DltPctPriorDay |>).

Definition hyrotrader_2step_swing_phase2 (id : ChallengeId) (now : Timestamp)
    : outcome ChallengePlan :=
  let! p := hyrotrader_2step_swing_phase1 id now in
  validated (p <| plan_phase := Phase2 |>
    <| plan_meta := (plan_meta p) <| meta_program_name := "2-Step Swing - Phase 2" |> |>
    <| plan_profit_target_pct := dec_new 5 2 |>).

Definition bitfunded_2step_phase1 (id : ChallengeId) (now : Timestamp)
    : outcome ChallengePlan :=
  let p := base_plan "Bitfunded" "2-Step - Phase 1" (dec_new 50000 0) id now in
  validated (p <| plan_phase := Phase1 |> <| plan_profit_target_pct := dec_new 8 2 |>
    <| plan_max_daily_drawdown_pct := dec_new 5 2 |>
    <| plan_max_total_drawdown_pct := dec_new 10 2 |>
    <| plan_daily_loss_type := DltPctInitial |> <| plan_max_loss_reference := Static |>
    <| plan_consistency_pct := None |> <| plan_consistency_type := CtNone |>
    <| plan_leverage := 100 |>).

Definition bitfunded_2step_phase2 (id : ChallengeId) (now : Timestamp)
    : outcome ChallengePlan :=
  let! p := bitfunded_2step_phase1 id now in
  validated (p <| plan_phase := Phase2 |>
    <| plan_meta := (plan_meta p) <| meta_program_name := "2-Step - Phase 2" |> |>
    <| plan_profit_target_pct := dec_new 5 2 |> <| plan_max_total_drawdown_pct := dec_new 8 2 |>).

Definition bitfunded_1step (id : ChallengeId) (now : Timestamp)
    : outcome ChallengePlan :=
  let p := base_plan "Bitfunded" "1-Step" (dec_new 50000 0) id now in
  validated (p <| plan_phase := Phase1 |> <| plan_profit_target_pct := dec_new 10 2 |>
    <| plan_max_daily_drawdown_pct := dec_new 4 2 |>
    <| plan_max_total_drawdown_pct := dec_new 6 2 |> <| plan_daily_loss_type := DltPctInitial |>
    <| plan_max_loss_reference := Static |> <| plan_consistency_pct := None |>
    <| plan_consistency_type := CtNone |> <| plan_leverage := 100 |>).

Definition bitfunded_instant (id : ChallengeId) (now : Timestamp)
    : outcome ChallengePlan :=
  let p := base_plan "Bitfunded" "Instant" (dec_new 5000 0) id now in
  validated (p <| plan_phase := FundedPhase |> <| plan_profit_target_pct := dec_zero |>
    <| plan_max_daily_drawdown_pct := dec_new 3 2 |>
    <| plan_max_total_drawdown_pct := dec_new 6 2 |> <| plan_daily_loss_type := DltPctInitial |>
    <| plan_max_loss_reference := Static |> <| plan_consistency_pct := None |>
    <| plan_consistency_type := CtNone |> <| plan_leverage := 100 |>).

Definition apex_eod_trail (id : ChallengeId) (now : Timestamp) (account_size : Money)
    : outcome ChallengePlan :=
  let p := base_plan "Apex Trader Funding" "EOD Trail Evaluation" account_size id now in
  validated (p <| plan_phase := Phase1 |> <| plan_profit_target_pct := dec_new 6 2 |>
    <| plan_max_daily_drawdown_pct := dec_new 2 2 |> <| plan_daily_loss_type := DltPctInitial |>
    <| plan_daily_loss_soft := true |> <| plan_max_total_drawdown_pct := dec_new 4 2 |>
    <| plan_max_loss_reference := EodTrailing |> <| plan_min_trading_days := 0 |>
    <| plan_time_limit_days := Some 30 |> <| plan_consistency_pct := None |>
    <| plan_consistency_type := CtNone |> <| plan_leverage := 1 |>).

Definition apex_intraday_trail (id : ChallengeId) (now : Timestamp) (account_size : Money)
    : outcome ChallengePlan :=
  let p := base_plan "Apex Trader Funding" "Intraday Trail Evaluation" account_size id now in
  validated (p <| plan_phase := Phase1 |> <| plan_profit_target_pct := dec_new 6 2 |>
    <| plan_max_daily_drawdown_pct := dec_zero |> <| plan_daily_loss_type := DltNone |>
    <| plan_max_total_drawdown_pct := dec_new 4 2 |>
    <| plan_max_loss_reference := IntradayTrail |> <| plan_min_trading_days := 0 |>
    <| plan_time_limit_days := Some 30 |> <| plan_consistency_pct := None |>
    <| plan_consistency_type := CtNone |> <| plan_leverage := 1 |>).

End Presets.
