(* ===== verification/Account.v ===== *)
(** * The account aggregate (src/core/account.rs)

    The account record, its lifecycle statuses, the derived drawdown and
    target amounts and the snapshot.  Fields are prefixed [acc_]; statuses
    [St]; account types [At]. *)

From S2P Require Import Prelude.
From S2P Require Import Decimal.
From S2P Require Import Chrono.
From S2P Require Import Ids.
From S2P Require Import Domain.
From S2P Require Import Plan.
#[local] Open Scope Z_scope.

Inductive AccountType : Type := AtPhase1 | AtPhase2 | AtFunded | AtDemo.

Inductive AccountStatus : Type :=
| StPending | StActive | StTargetHitPending | StPassed | StFailed | StFunded
| StPayoutPending | StClosed | StEmergencyStopped.

Inductive EvaluationMode : Type := EmEvaluate | EmSkip.

#[global] Instance AccountType_eq_dec : EqDecision AccountType.
Proof. solve_decision. Defined.
#[global] Instance AccountStatus_eq_dec : EqDecision AccountStatus.
Proof. solve_decision. Defined.

Definition AccountStatus_is_active (s : AccountStatus) : bool :=
  match s with
  | StActive | StFunded | StTargetHitPending => true
  | _ => false
  end.

Definition AccountStatus_is_terminal (s : AccountStatus) : bool :=
  match s with
  | StPassed | StFailed | StClosed | StEmergencyStopped => true
  | _ => false
  end.

Definition AccountStatus_is_breach_terminal (s : AccountStatus) : bool :=
  match s with
  | StFailed | StEmergencyStopped => true
  | _ => false
  end.

Definition AccountStatus_evaluation_mode (s : AccountStatus) : EvaluationMode :=
  match s with
  | StActive | StFunded | StTargetHitPending | StPayoutPending => EmEvaluate
  | StPending | StPassed | StFailed | StClosed | StEmergencyStopped => EmSkip
  end.

Section Account.
Context `{DecimalOps} `{ChronoOps}.

Record Account := mkAccount {
  acc_id : AccountId;
  acc_account_type : AccountType;
  acc_status : AccountStatus;
  acc_challenge_id : option ChallengeId;
  acc_plan : ChallengePlan;
  acc_tenant_id : TenantId;
  acc_initial_balance : Money;
  acc_balance : Money;
  acc_equity : Money;
  acc_estimated_equity : Money;
  acc_estimated_balance : Money;
  acc_peak_equity : Money;
  acc_peak_balance : Money;
  acc_started_at : option Timestamp;
  acc_deadline : option Timestamp;
  acc_day_start_balance : Money;
  acc_trading_day_index : Z;
  acc_active_trading_days : Z;
  acc_day_counted_today : bool;
  acc_today_realized_pnl : Money;
  acc_total_realized_pnl : Money;
  acc_total_commissions : Money;
  acc_total_swaps : Money;
  acc_largest_day_profit : Money;
  acc_largest_day_loss : Money;
  acc_sum_positive_days_profit : Money;
  acc_day_start_equity : Money;
  acc_intraday_peak_equity : Money;
  acc_profitable_days_count : Z;
  acc_qualifying_trading_days_count : Z;
  acc_current_trading_day_start : option Timestamp;
  acc_target_reached_at : option Timestamp;
  acc_target_reached_on_day : option Z;
  acc_version : Z;
  acc_last_tick_ts : option Timestamp;
  acc_last_trade_at : option Timestamp;
  acc_payout_count : Z;
  acc_balance_at_last_payout : Money;
  acc_last_payout_at : option Timestamp;
  acc_refund_used : bool;
  acc_status_before_breach : option AccountStatus;
  acc_open_positions : list Position;
  acc_today_trades : list Trade;
}.

#[global] Instance Account_settable : Settable Account := fun r =>
  mkAccount (acc_id r) (acc_account_type r) (acc_status r) (acc_challenge_id r)
    (acc_plan r) (acc_tenant_id r) (acc_initial_balance r) (acc_balance r) (acc_equity
    r) (acc_estimated_equity r) (acc_estimated_balance r) (acc_peak_equity r)
    (acc_peak_balance r) (acc_started_at r) (acc_deadline r) (acc_day_start_balance r)
    (acc_trading_day_index r) (acc_active_trading_days r) (acc_day_counted_today r)
    (acc_today_realized_pnl r) (acc_total_realized_pnl r) (acc_total_commissions r)
    (acc_total_swaps r) (acc_largest_day_profit r) (acc_largest_day_loss r)
    (acc_sum_positive_days_profit r) (acc_day_start_equity r) (acc_intraday_peak_equity
    r) (acc_profitable_days_count r) (acc_qualifying_trading_days_count r)
    (acc_current_trading_day_start r) (acc_target_reached_at r)
    (acc_target_reached_on_day r) (acc_version r) (acc_last_tick_ts r)
    (acc_last_trade_at r) (acc_payout_count r) (acc_balance_at_last_payout r)
    (acc_last_payout_at r) (acc_refund_used r) (acc_status_before_breach r)
    (acc_open_positions r) (acc_today_trades r).

(** [tenant] stands for the fresh random tenant identifier. *)
Definition Account_new (id : AccountId) (tenant : TenantId) (plan : ChallengePlan) : Account :=
  let initial := ChallengePlan_initial_balance plan in {|
    acc_id := id;
    acc_account_type := match plan_phase plan with
                      | Phase1 => AtPhase1
                      | Phase2 => AtPhase2
                      | FundedPhase => AtFunded
                      end;
    acc_status := StPending;
    acc_challenge_id := Some (plan_id plan);
    acc_plan := plan;
    acc_tenant_id := tenant;
    acc_initial_balance := initial;
    acc_balance := initial;
    acc_equity := initial;
    acc_estimated_equity := initial;
    acc_estimated_balance := initial;
    acc_peak_equity := initial;
    acc_peak_balance := initial;
    acc_started_at := None;
    acc_deadline := None;
    acc_day_start_balance := initial;
    acc_trading_day_index := 0;
    acc_active_trading_days := 0;
    acc_day_counted_today := false;
    acc_today_realized_pnl := dec_zero;
    acc_total_realized_pnl := dec_zero;
    acc_total_commissions := dec_zero;
    acc_total_swaps := dec_zero;
    acc_largest_day_profit := dec_zero;
    acc_largest_day_loss := dec_zero;
    acc_sum_positive_days_profit := dec_zero;
    acc_day_start_equity := initial;
    acc_intraday_peak_equity := initial;
    acc_profitable_days_count := 0;
    acc_qualifying_trading_days_count := 0;
    acc_current_trading_day_start := None;
    acc_target_reached_at := None;
    acc_target_reached_on_day := None;
    acc_version := 0;
    acc_last_tick_ts := None;
    acc_last_trade_at := None;
    acc_payout_count := 0;
    acc_balance_at_last_payout := initial;
    acc_last_payout_at := None;
    acc_refund_used := false;
    acc_status_before_breach := None;
    acc_open_positions := [];
    acc_today_trades := [];
  |}.

Definition Account_with_tenant (a : Account) (tenant_id : TenantId) : Account :=
  a <| acc_tenant_id := tenant_id |>.

Definition Account_start (a : Account) (at_ : Timestamp) : outcome Account :=
  if decide (acc_status a ≠ StPending) then
    Err (InvalidState "account {} is not pending (status = {:?})")
  else
    let a := a <| acc_status := StActive |> <| acc_started_at := Some at_ |> in
    let! day := ChallengePlan_trading_day_start (acc_plan a) at_ in
    let a := a <| acc_current_trading_day_start := Some day |> in
    match plan_time_limit_days (acc_plan a) with
    | Some days =>
        let! d := unwrap (dur_days days) in
        let! deadline := unwrap (ts_add at_ d) in
        Ret (a <| acc_deadline := Some deadline |>)
    | None => Ret a
    end.

(** ** Derived amounts *)

Definition Account_daily_dd_limit (a : Account) : outcome Money :=
  let day_start :=
    if plan_drawdown_on_balance (acc_plan a) then acc_day_start_balance a
    else acc_day_start_equity a in
  dmul (plan_max_daily_drawdown_pct (acc_plan a)) day_start.

Definition Account_max_dd_limit_static (a : Account) : outcome Money :=
  dmul (plan_max_total_drawdown_pct (acc_plan a)) (acc_initial_balance a).

Definition Account_max_dd_limit_trailing (a : Account) : outcome Money :=
  dmul (plan_max_total_drawdown_pct (acc_plan a)) (acc_peak_balance a).

Definition Account_max_dd_limit_eod_trailing (a : Account) : outcome Money :=
  dmul (plan_max_total_drawdown_pct (acc_plan a)) (acc_day_start_balance a).

Definition Account_max_dd_limit (a : Account) : outcome Money :=
  match plan_max_loss_reference (acc_plan a) with
  | Static => Account_max_dd_limit_static a
  | Trailing => Account_max_dd_limit_trailing a
  | EodTrailing => Account_max_dd_limit_eod_trailing a
  | IntradayTrail =>
      let peak :=
        if plan_drawdown_on_balance (acc_plan a) then acc_peak_balance a
        else acc_peak_equity a in
      dmul (plan_max_total_drawdown_pct (acc_plan a)) peak
  end.

Definition Account_total_drawdown (a : Account) : outcome Money :=
  let reference :=
    match plan_max_loss_reference (acc_plan a) with
    | Static => acc_initial_balance a
    | Trailing => acc_peak_balance a
    | EodTrailing => acc_day_start_balance a
    | IntradayTrail =>
        if plan_drawdown_on_balance (acc_plan a) then acc_peak_balance a
        else acc_peak_equity a
    end in
  let current :=
    if plan_drawdown_on_balance (acc_plan a) then acc_balance a else acc_equity a in
  let! d := dsub reference current in
  Ret (dec_max d dec_zero).

Definition Account_balance_drawdown (a : Account) : outcome Money :=
  let! d := dsub (acc_peak_balance a) (acc_balance a) in Ret (dec_max d dec_zero).

Definition Account_profit_target (a : Account) : outcome Money :=
  dmul (plan_profit_target_pct (acc_plan a)) (acc_initial_balance a).

Definition Account_equity_drawdown (a : Account) : outcome Money :=
  let! d := dsub (acc_peak_equity a) (acc_equity a) in Ret (dec_max d dec_zero).

Definition Account_daily_drawdown (a : Account) : outcome Money :=
  let '(day_start, current) :=
    if plan_drawdown_on_balance (acc_plan a) then (acc_day_start_balance a, acc_balance a)
    else (acc_day_start_equity a, acc_equity a) in
  let! d := dsub day_start current in
  Ret (dec_max d dec_zero).

Definition Account_net_profit (a : Account) : outcome Money :=
  dsub (acc_balance a) (acc_initial_balance a).

Definition Account_reached_profit_target (a : Account) : outcome bool :=
  let! np := Account_net_profit a in
  let! t := Account_profit_target a in
  Ret (dec_geb np t).

Definition Account_daily_dd_utilization (a : Account) : outcome Pct :=
  let! limit := Account_daily_dd_limit a in
  if dec_is_zero limit then Ret dec_zero
  else let! dd := Account_daily_drawdown a in ddiv dd limit.

Definition Account_max_dd_utilization (a : Account) : outcome Pct :=
  let! limit := Account_max_dd_limit a in
  if dec_is_zero limit then Ret dec_zero
  else let! dd := Account_total_drawdown a in ddiv dd limit.

Definition Account_target_pending (a : Account) : bool :=
  bool_decide (is_Some (acc_target_reached_at a)).

Definition Account_target_fully_satisfied (a : Account) : bool :=
  bool_decide (is_Some (acc_target_reached_at a))
  && (plan_min_trading_days (acc_plan a) <=? acc_active_trading_days a).

(** ** Snapshots *)

Record AccountSnapshot := mkAccountSnapshot {
  as_id : AccountId;
  as_account_type : AccountType;
  as_status : AccountStatus;
  as_initial_balance : Money;
  as_balance : Money;
  as_equity : Money;
  as_estimated_equity : Money;
  as_estimated_balance : Money;
  as_peak_equity : Money;
  as_peak_balance : Money;
  as_day_start_balance : Money;
  as_net_profit : Money;
  as_daily_drawdown : Money;
  as_total_drawdown : Money;
  as_daily_dd_utilization : Pct;
  as_max_dd_utilization : Pct;
  as_profit_target : Money;
  as_profit_target_utilization : Pct;
  as_active_trading_days : Z;
  as_trading_day_index : Z;
  as_started_at : option Timestamp;
  as_deadline : option Timestamp;
  as_challenge_id : option ChallengeId;
  as_target_reached_at : option Timestamp;
  as_max_loss_reference : LossReference;
  as_version : Z;
  as_tenant_id : TenantId;
}.

Definition AccountSnapshot_from (a : Account) : outcome AccountSnapshot :=
  let! np := Account_net_profit a in
  let! dd := Account_daily_drawdown a in
  let! td := Account_total_drawdown a in
  let! ddu := Account_daily_dd_utilization a in
  let! mdu := Account_max_dd_utilization a in
  let! pt := Account_profit_target a in
  let! t := Account_profit_target a in
  let! ptu :=
    if dec_is_zero t then Ret dec_zero
    else let! np' := Account_net_profit a in ddiv (dec_max np' dec_zero) t in
  Ret {|
    as_id := acc_id a;
    as_account_type := acc_account_type a;
    as_status := acc_status a;
    as_initial_balance := acc_initial_balance a;
    as_balance := acc_balance a;
    as_equity := acc_equity a;
    as_estimated_equity := acc_estimated_equity a;
    as_estimated_balance := acc_estimated_balance a;
    as_peak_equity := acc_peak_equity a;
    as_peak_balance := acc_peak_balance a;
    as_day_start_balance := acc_day_start_balance a;
    as_net_profit := np;
    as_daily_drawdown := dd;
    as_total_drawdown := td;
    as_daily_dd_utilization := ddu;
    as_max_dd_utilization := mdu;
    as_profit_target := pt;
    as_profit_target_utilization := ptu;
    as_active_trading_days := acc_active_trading_days a;
    as_trading_day_index := acc_trading_day_index a;
    as_started_at := acc_started_at a;
    as_deadline := acc_deadline a;
    as_challenge_id := acc_challenge_id a;
    as_target_reached_at := acc_target_reached_at a;
    as_max_loss_reference := plan_max_loss_reference (acc_plan a);
    as_version := acc_version a;
    as_tenant_id := acc_tenant_id a;
  |}.

End Account.
