(* ===== verification/Violation.v ===== *)
(** * Violations, liquidation instructions, overrides and domain events

    src/core/violation.rs, src/liquidation.rs, src/override_engine.rs and
    src/core/events.rs.  Message texts are the format templates of the
    source.  Random identifiers come in as arguments; the identifiers of
    domain events and of liquidation instructions, which nothing reads, are
    left out. *)

From S2P Require Import Prelude.
From S2P Require Import Decimal.
From S2P Require Import Chrono.
From S2P Require Import Ids.
From S2P Require Import Domain.
From S2P Require Import Plan.
From S2P Require Import Account.
#[local] Open Scope Z_scope.

(** ** Violations *)

Inductive ViolationSeverity : Type := SevInfo | SevWarning | SevHard | SevLiquidate.

Inductive ViolationKind : Type :=
| VkDailyDrawdown | VkMaxDrawdown | VkTrailingDrawdown | VkProfitTargetMissed
| VkMinTradingDays | VkMinProfitableDays | VkConsistency | VkNewsTrading
| VkOvernightHolding | VkWeekendHolding | VkMaxPositionSize | VkMaxLotSize
| VkMaxOpenPositions | VkMaxDailyTrades | VkTimeLimit | VkCooldown | VkHedging
| VkGridTrading | VkCopyTrading | VkMissingStopLoss | VkMissingTakeProfit
| VkCrossAccountHedging | VkLowcapExposure | VkCustom.

#[global] Instance ViolationSeverity_eq_dec : EqDecision ViolationSeverity.
Proof. solve_decision. Defined.
#[global] Instance ViolationKind_eq_dec : EqDecision ViolationKind.
Proof. solve_decision. Defined.

(** The derived [Ord]: declaration order. *)
Definition severity_rank (s : ViolationSeverity) : Z :=
  match s with SevInfo => 0 | SevWarning => 1 | SevHard => 2 | SevLiquidate => 3 end.

Definition severity_geb (a b : ViolationSeverity) : bool :=
  severity_rank b <=? severity_rank a.

Definition ViolationKind_display (k : ViolationKind) : string :=
  match k with
  | VkDailyDrawdown => "daily_drawdown"
  | VkMaxDrawdown => "max_drawdown"
  | VkTrailingDrawdown => "trailing_drawdown"
  | VkProfitTargetMissed => "profit_target_missed"
  | VkMinTradingDays => "min_trading_days"
  | VkMinProfitableDays => "min_profitable_days"
  | VkConsistency => "consistency"
  | VkNewsTrading => "news_trading"
  | VkOvernightHolding => "overnight_holding"
  | VkWeekendHolding => "weekend_holding"
  | VkMaxPositionSize => "max_position_size"
  | VkMaxLotSize => "max_lot_size"
  | VkMaxOpenPositions => "max_open_positions"
  | VkMaxDailyTrades => "max_daily_trades"
  | VkTimeLimit => "time_limit"
  | VkCooldown => "cooldown"
  | VkHedging => "hedging"
  | VkGridTrading => "grid_trading"
  | VkCopyTrading => "copy_trading"
  | VkMissingStopLoss => "missing_stop_loss"
  | VkMissingTakeProfit => "missing_take_profit"
  | VkCrossAccountHedging => "cross_account_hedging"
  | VkLowcapExposure => "lowcap_exposure"
  | VkCustom => "custom"
  end.

Section Violation.
Context `{DecimalOps} `{ChronoOps}.

Record Violation := mkViolation {
  vio_id : ViolationId;
  vio_account_id : AccountId;
  vio_tenant_id : TenantId;
  vio_rule_id : RuleId;
  vio_rule_name : string;
  vio_kind : ViolationKind;
  vio_severity : ViolationSeverity;
  vio_message : string;
  vio_occurred_at : Timestamp;
  vio_breach_value : option Money;
  vio_threshold_value : option Money;
  vio_utilization : option Decimal;
}.

#[global] Instance Violation_settable : Settable Violation := fun r =>
  mkViolation (vio_id r) (vio_account_id r) (vio_tenant_id r) (vio_rule_id r)
    (vio_rule_name r) (vio_kind r) (vio_severity r) (vio_message r)
    (vio_occurred_at r) (vio_breach_value r) (vio_threshold_value r)
    (vio_utilization r).

(** [id] and [tenant] stand for the two random identifiers. *)
Definition Violation_new (id : ViolationId) (tenant : TenantId) (account_id : AccountId)
    (rule_id : RuleId) (rule_name : string) (kind : ViolationKind)
    (severity : ViolationSeverity) (message : string) (occurred_at : Timestamp) : Violation :=
  mkViolation id account_id tenant rule_id rule_name kind severity message occurred_at
    None None None.

Definition Violation_with_tenant (v : Violation) (tenant_id : TenantId) : Violation :=
  v <| vio_tenant_id := tenant_id |>.

Definition Violation_with_breach (v : Violation) (breach threshold : Money) : outcome Violation :=
  let v := v <| vio_breach_value := Some breach |>
             <| vio_threshold_value := Some threshold |> in
  if negb (dec_is_zero threshold) then
    let! u := ddiv breach threshold in
    Ret (v <| vio_utilization := Some u |>)
  else Ret v.

Definition Violation_is_terminating (v : Violation) : bool :=
  match vio_severity v with SevHard | SevLiquidate => true | _ => false end.

Definition Violation_validate (v : Violation) : outcome unit :=
  if decide (vio_rule_name v = "") then
    Err (InvalidState "violation rule_name cannot be empty")
  else
    match vio_utilization v with
    | Some util =>
        if dec_ltb util dec_zero then
          Err (InvalidState "violation utilization cannot be negative")
        else Ret tt
    | None => Ret tt
    end.

(** ** Liquidation *)

Record LiquidationPosition := mkLiquidationPosition {
  lp_position_id : PositionId;
  lp_symbol : Symbol;
  lp_side : PositionSide;
  lp_open_quantity : Quantity;
  lp_avg_entry_price : Price;
}.

Definition LiquidationPosition_from_position (p : Position) : LiquidationPosition :=
  mkLiquidationPosition (pos_id p) (pos_symbol p) (pos_side p) (pos_open_quantity p)
    (pos_avg_entry_price p).

Inductive LiquidationReason : Type :=
| RuleBreach (k : ViolationKind)
| EmergencyStopReason
| Manual.

Record LiquidationInstruction := mkLiquidationInstruction {
  li_account_id : AccountId;
  li_tenant_id : TenantId;
  li_positions : list LiquidationPosition;
  li_reason : LiquidationReason;
  li_triggered_by_violation_id : option ViolationId;
  li_estimated_notional : Money;
  li_issued_at : Timestamp;
  li_actor_id : string;
}.

(** Notional of one position under the fresh, empty registry the
    constructor builds. *)
Definition liquidation_notional (p : LiquidationPosition) : outcome Decimal :=
  let spec := InstrumentRegistry_get InstrumentRegistry_new (lp_symbol p) in
  let! lots := InstrumentSpec_units_to_lots spec (lp_open_quantity p) in
  let! n := InstrumentSpec_notional spec lots (lp_avg_entry_price p) in
  Ret (dec_abs n).

Definition LiquidationInstruction_new (account_id : AccountId) (tenant_id : TenantId)
    (positions : list Position) (reason : LiquidationReason)
    (triggered_by_violation_id : option ViolationId) (actor_id : string)
    (issued_at : Timestamp) : outcome LiquidationInstruction :=
  let liq_positions :=
    LiquidationPosition_from_position <$> List.filter Position_is_open positions in
  let! est := foldM (fun acc p => let! n := liquidation_notional p in dadd acc n)
                dec_zero liq_positions in
  Ret {| li_account_id := account_id;
         li_tenant_id := tenant_id;
         li_positions := liq_positions;
         li_reason := reason;
         li_triggered_by_violation_id := triggered_by_violation_id;
         li_estimated_notional := est;
         li_issued_at := issued_at;
         li_actor_id := actor_id |}.

Definition LiquidationInstruction_is_empty (i : LiquidationInstruction) : bool :=
  match li_positions i with [] => true | _ => false end.

Definition LiquidationInstruction_len (i : LiquidationInstruction) : nat :=
  length (li_positions i).

(** ** Overrides *)

Record Override := mkOverride {
  ov_id : ViolationId;
  ov_account_id : AccountId;
  ov_clears_violation_id : ViolationId;
  ov_reason : string;
  ov_actor_id : string;
  ov_at : Timestamp;
}.

(** [fresh_id] is [OverrideId::new()]. *)
Definition Override_new (fresh_id : ViolationId) (account_id : AccountId)
    (clears_violation_id : ViolationId) (reason actor_id : string) (at_ : Timestamp) : Override :=
  mkOverride fresh_id account_id clears_violation_id reason actor_id at_.

Definition Override_validate (o : Override) : outcome unit :=
  if trim_is_empty (ov_reason o) then
    Err (InvalidState "override reason cannot be empty — must explain why the breach is a false positive")
  else if trim_is_empty (ov_actor_id o) then
    Err (InvalidState "override actor_id cannot be empty — must identify the responsible human")
  else Ret tt.

(** ** Domain events *)

Inductive DomainEventKind : Type :=
| EvAccountStarted (plan : ChallengePlan)
| EvAccountStatusChanged (from to : AccountStatus)
| EvAccountSnapshotted (snapshot : AccountSnapshot)
| EvOrderEvent (order_id : OrderId) (new_status : OrderStatus)
| EvTradeFilled (trade : Trade)
| EvPositionOpened (position_id : PositionId) (symbol : Symbol) (side : PositionSide)
    (qty : Quantity)
| EvPositionClosed (position_id : PositionId) (realized_pnl : Money)
| EvTickEvaluated (equity : Money)
| EvDayRollover (new_day_index : Z) (day_start : Money)
| EvRuleViolated (violation : Violation)
| EvPlanUpgraded (from_phase to_phase : ChallengePhase)
| EvPayoutRequested (profit_basis amount : Money)
| EvPayoutApproved (amount fee_refund : Money)
| EvLiquidationRequested (instruction : LiquidationInstruction)
| EvOverrideCleared (clears_violation_id : ViolationId) (reason actor_id : string)
    (at_ : Timestamp).

Record DomainEvent := mkDomainEvent {
  de_account_id : AccountId;
  de_kind : DomainEventKind;
  de_occurred_at : Timestamp;
}.

Definition DomainEvent_new (account_id : AccountId) (kind : DomainEventKind)
    (occurred_at : Timestamp) : DomainEvent :=
  mkDomainEvent account_id kind occurred_at.

End Violation.
