(* ===== verification/EventStore.v ===== *)
(** * The event store (src/events/store.rs)

    An append-only log of domain events per account, and the fold that
    rebuilds an account from its log.  The lock and the asynchronous trait
    add nothing to the in-memory implementation, which never fails. *)

From S2P Require Import Prelude.
From S2P Require Import Decimal.
From S2P Require Import Chrono.
From S2P Require Import Ids.
From S2P Require Import Domain.
From S2P Require Import Plan.
From S2P Require Import Account.
From S2P Require Import Violation.
#[local] Open Scope Z_scope.

Section EventStore.
Context `{DecimalOps} `{ChronoOps}.

Record InMemoryEventStore := mkEventStore { es_events : gmap AccountId (list DomainEvent) }.

Definition InMemoryEventStore_new : InMemoryEventStore := mkEventStore ∅.

Definition InMemoryEventStore_append (s : InMemoryEventStore) (ev : DomainEvent)
    : InMemoryEventStore :=
  mkEventStore (<[de_account_id ev := default [] (es_events s !! de_account_id ev) ++ [ev]]>
                  (es_events s)).

Definition InMemoryEventStore_all (s : InMemoryEventStore) (id : AccountId) : list DomainEvent :=
  default [] (es_events s !! id).

Definition InMemoryEventStore_recent (s : InMemoryEventStore) (id : AccountId) (n : nat)
    : list DomainEvent :=
  let all := InMemoryEventStore_all s id in
  let len := length all in
  if (n <? len)%nat then drop (len - n) all else all.

(** ** Replay *)

Definition account_type_of_phase (phase : ChallengePhase) : AccountType :=
  match phase with Phase1 => AtPhase1 | Phase2 => AtPhase2 | FundedPhase => AtFunded end.

(** The status a recorded violation replays to. *)
Definition violation_terminal (k : ViolationKind) : option AccountStatus :=
  match k with
  | VkDailyDrawdown | VkMaxDrawdown | VkTrailingDrawdown => Some StFailed
  | VkProfitTargetMissed => Some StPassed
  | _ => None
  end.

Definition replay_position_opened (id : AccountId) (acc : Account) (position_id : PositionId)
    (symbol : Symbol) (side : PositionSide) (qty : Quantity) (now : Timestamp) : Account :=
  if existsb (fun p => bool_decide (pos_id p = position_id)) (acc_open_positions acc) then acc
  else
    acc <| acc_open_positions := acc_open_positions acc ++
      [{| pos_id := position_id;
          pos_account_id := id;
          pos_symbol := symbol;
          pos_side := side;
          pos_opened_at := now;
          pos_closed_at := None;
          pos_status := PsOpen;
          pos_avg_entry_price := dec_zero;
          pos_opened_quantity := qty;
          pos_open_quantity := qty;
          pos_realized_pnl := dec_zero;
          pos_commission := dec_zero;
          pos_swap := dec_zero;
          pos_stop_loss := None;
          pos_take_profit := None;
          pos_magic := None;
          pos_comment := None |}] |>.

(** Updates the first position with the identifier. *)
Fixpoint replay_close (ps : list Position) (position_id : PositionId) (realized_pnl : Money)
    (at_ : Timestamp) : list Position :=
  match ps with
  | [] => []
  | p :: ps' =>
      if bool_decide (pos_id p = position_id) then
        p <| pos_status := PsClosed |> <| pos_closed_at := Some at_ |>
          <| pos_realized_pnl := realized_pnl |> <| pos_open_quantity := dec_zero |> :: ps'
      else p :: replay_close ps' position_id realized_pnl at_
  end.

(** One event of the log. *)
Definition replay_event (id : AccountId) (acc : Account) (ev : DomainEvent) : outcome Account :=
  match de_kind ev with
  | EvAccountStarted _ => Account_start acc (de_occurred_at ev)
  | EvAccountStatusChanged _ to => Ret (acc <| acc_status := to |>)
  | EvTradeFilled trade =>
      let! net := Trade_net_pnl trade in
      let! balance := dadd (acc_balance acc) net in
      let acc := acc <| acc_balance := balance |> in
      let! total := dadd (acc_total_realized_pnl acc) net in
      let acc := acc <| acc_total_realized_pnl := total |> in
      Ret (if dec_gtb (acc_balance acc) (acc_peak_balance acc)
           then acc <| acc_peak_balance := acc_balance acc |> else acc)
  | EvDayRollover new_day_index day_start =>
      let acc := if negb (dec_is_zero (acc_today_realized_pnl acc))
                 then acc <| acc_active_trading_days := u32_succ (acc_active_trading_days acc) |>
                 else acc in
      Ret (acc <| acc_trading_day_index := new_day_index |>
               <| acc_day_start_balance := day_start |>
               <| acc_today_realized_pnl := dec_zero |>)
  | EvTickEvaluated equity =>
      let acc := acc <| acc_equity := equity |> in
      Ret (if dec_gtb equity (acc_peak_equity acc)
           then acc <| acc_peak_equity := equity |> else acc)
  | EvAccountSnapshotted s =>
      Ret (acc <| acc_status := as_status s |>
               <| acc_balance := as_balance s |>
               <| acc_equity := as_equity s |>
               <| acc_peak_equity := as_peak_equity s |>
               <| acc_peak_balance := as_peak_balance s |>
               <| acc_day_start_balance := as_day_start_balance s |>
               <| acc_active_trading_days := as_active_trading_days s |>
               <| acc_trading_day_index := as_trading_day_index s |>
               <| acc_target_reached_at := as_target_reached_at s |>
               <| acc_version := as_version s |>)
  | EvOrderEvent _ _ => Ret acc
  | EvPositionOpened position_id symbol side qty =>
      Ret (replay_position_opened id acc position_id symbol side qty (de_occurred_at ev))
  | EvPositionClosed position_id realized_pnl =>
      Ret (acc <| acc_open_positions :=
             replay_close (acc_open_positions acc) position_id realized_pnl (de_occurred_at ev) |>)
  | EvRuleViolated violation =>
      Ret (match violation_terminal (vio_kind violation) with
           | Some status => acc <| acc_status := status |>
           | None => acc
           end)
  | EvPlanUpgraded _ to_phase =>
      Ret (acc <| acc_account_type := account_type_of_phase to_phase |>)
  | EvPayoutRequested _ _ => Ret (acc <| acc_status := StPayoutPending |>)
  | EvPayoutApproved amount fee_refund =>
      let! balance := dsub (acc_balance acc) amount in
      let acc := acc <| acc_balance := balance |> in
      let acc := acc <| acc_balance_at_last_payout := acc_balance acc |>
                     <| acc_last_payout_at := Some (de_occurred_at ev) |>
                     <| acc_payout_count := u32_succ (acc_payout_count acc) |> in
      let acc := if dec_gtb fee_refund dec_zero then acc <| acc_refund_used := true |> else acc in
      Ret (acc <| acc_status := StFunded |>)
  | EvLiquidationRequested _ => Ret (acc <| acc_status := StClosed |>)
  | EvOverrideCleared _ _ _ _ => Ret (acc <| acc_status := StActive |>)
  end.

(** [tenant] stands for the tenant [Account::new] draws. *)
Definition InMemoryEventStore_replay (s : InMemoryEventStore) (tenant : TenantId) (id : AccountId)
    : outcome Account :=
  let events := InMemoryEventStore_all s id in
  let! acc :=
    match events with
    | ev :: _ =>
        match de_kind ev with
        | EvAccountStarted plan => Ret (Account_new id tenant plan)
        | _ => Err (NotFound "no AccountStarted event for account {id}")
        end
    | [] => Err (NotFound "no AccountStarted event for account {id}")
    end in
  foldM (replay_event id) acc events.

End EventStore.
