(* ===== verification/Pack.v ===== *)
(** * Rule packs and rule parameters (src/rulepack.rs, src/rules/params.rs)

    Rule packs are versioned data; [RuleParams] is what one pack entry hands
    to a rule, and its [effective_*] methods interpret the entry's value
    through its unit.  JSON parsing of [params_json] is the third-party
    [serde_json]: a class parameter. *)

From S2P Require Import Prelude.
From S2P Require Import Decimal.
From S2P Require Import Chrono.
From S2P Require Import Ids.
From S2P Require Import Domain.
From S2P Require Import Plan.
From S2P Require Import Account.
#[local] Open Scope Z_scope.

Inductive PackLifecycle : Type := PlDraft | PlActive | PlSuperseded.

Inductive RuleBasis : Type := RbStatic | RbTrailing | RbEodTrailing | RbIntradayTrail.

Inductive RuleUnit : Type := UPercent | UMoney.

Definition PackLifecycle_display (l : PackLifecycle) : string :=
  match l with PlDraft => "draft" | PlActive => "active" | PlSuperseded => "superseded" end.

Definition PackLifecycle_from_str (s : string) : outcome PackLifecycle :=
  let s := to_ascii_lowercase s in
  if str_in s ["draft"] then Ret PlDraft
  else if str_in s ["active"] then Ret PlActive
  else if str_in s ["superseded"] then Ret PlSuperseded
  else Err (InvalidConfig "unknown pack lifecycle '{other}' (expected draft/active/superseded)").

Definition RuleBasis_display (b : RuleBasis) : string :=
  match b with
  | RbStatic => "static"
  | RbTrailing => "trailing"
  | RbEodTrailing => "eod_trailing"
  | RbIntradayTrail => "intraday_trail"
  end.

Definition RuleBasis_from_str (s : string) : outcome RuleBasis :=
  let s := to_ascii_lowercase s in
  if str_in s ["static"] then Ret RbStatic
  else if str_in s ["trailing"] then Ret RbTrailing
  else if str_in s ["eod_trailing"; "eodtrailing"; "eod-trailing"] then Ret RbEodTrailing
  else if str_in s ["intraday_trail"; "intradaytrail"; "intraday-trail"] then Ret RbIntradayTrail
  else Err (InvalidConfig "unknown rule basis '{other}' (expected static/trailing/eod_trailing/intraday_trail)").

Definition RuleUnit_display (u : RuleUnit) : string :=
  match u with UPercent => "percent" | UMoney => "money" end.

Definition RuleUnit_from_str (s : string) : outcome RuleUnit :=
  let s := to_ascii_lowercase s in
  if str_in s ["percent"] then Ret UPercent
  else if str_in s ["money"] then Ret UMoney
  else Err (InvalidConfig "unknown rule unit '{other}' (expected percent/money)").

(** [serde_json]: looks a key up in a JSON text, as a decimal or as a [u64]. *)
Class JsonOps `{DecimalOps} := {
  json_get_decimal : string → string → option Decimal;
  json_get_u64 : string → string → option Z;
}.

Section Pack.
Context `{DecimalOps} `{ChronoOps}.

Record RuleEntry := mkRuleEntry {
  re_id : string;
  re_kind : string;
  re_basis : RuleBasis;
  re_unit : RuleUnit;
  re_value : Decimal;
  re_tolerance_cents : option Z;
  re_early_warning_pct : option Decimal;
  re_priority : Z;
  re_enabled : bool;
  re_params_json : string;
  re_severity : option string;
  re_failure_policy : option string;
}.

#[global] Instance RuleEntry_settable : Settable RuleEntry := fun r =>
  mkRuleEntry (re_id r) (re_kind r) (re_basis r) (re_unit r) (re_value r)
    (re_tolerance_cents r) (re_early_warning_pct r) (re_priority r) (re_enabled r)
    (re_params_json r) (re_severity r) (re_failure_policy r).

Definition RuleEntry_new (id kind : string) (value : Decimal) : RuleEntry :=
  mkRuleEntry id kind RbStatic UPercent value (Some 1) (Some (dec_new 8 1)) 100 true "{}"
    None None.

Record RulePack := mkRulePack {
  rp_id : string;
  rp_version : Z;
  rp_tenant_id : TenantId;
  rp_lifecycle : PackLifecycle;
  rp_effective_from : Timestamp;
  rp_superseded_by : option string;
  rp_description : string;
  rp_rules : list RuleEntry;
  rp_initial_balance : Money;
  rp_leverage : Z;
  rp_profit_target_pct : Pct;
}.

(** The duplicate check of [RulePack::validate]: a loop over the entries with
    a hash set of the identifiers seen. *)
Fixpoint pack_ids_fresh (seen : gset string) (rules : list RuleEntry) : bool :=
  match rules with
  | [] => true
  | r :: rules' =>
      if bool_decide (re_id r ∈ seen) then false
      else pack_ids_fresh ({[re_id r]} ∪ seen) rules'
  end.

Definition RulePack_validate (p : RulePack) : outcome unit :=
  if decide (rp_id p = "") then Err (InvalidConfig "pack id cannot be empty")
  else if decide (length (rp_rules p) = 0%nat) then Err (InvalidConfig "pack {} has no rules")
  else if negb (pack_ids_fresh ∅ (rp_rules p)) then
    Err (InvalidConfig "pack {} has duplicate rule id '{}'")
  else Ret tt.

Definition RulePack_get (p : RulePack) (id : string) : option RuleEntry :=
  List.find (fun r => bool_decide (re_id r = id)) (rp_rules p).

Definition RulePack_rule_id_for (kind : string) : RuleId := RuleId_named kind.

(** [now] stands for [Utc::now()], [id_text] for the formatted account id. *)
Definition RulePack_synthetic_from_plan (id_text : string) (tenant_id : TenantId)
    (plan : ChallengePlan) (now : Timestamp) : RulePack :=
  {| rp_id := ("plan-" +:+ id_text)%string;
     rp_version := 1;
     rp_tenant_id := tenant_id;
     rp_lifecycle := PlActive;
     rp_effective_from := now;
     rp_superseded_by := None;
     rp_description := "Synthetic pack derived from account plan";
     rp_rules := [];
     rp_initial_balance := ChallengePlan_initial_balance plan;
     rp_leverage := plan_leverage plan;
     rp_profit_target_pct := plan_profit_target_pct plan |}.

(** ** Parameters *)

Record RuleParams := mkRuleParams {
  prm_value : option Decimal;
  prm_unit : option RuleUnit;
  prm_basis : option LossReference;
  prm_tolerance_cents : option Z;
  prm_priority : option Z;
  prm_early_warning_pct : option Decimal;
  prm_enabled : bool;
  prm_params_json : string;
  prm_severity : option string;
  prm_failure_policy : option string;
}.

Definition RuleParams_from_entry (e : RuleEntry) : RuleParams :=
  {| prm_value := Some (re_value e);
     prm_unit := Some (re_unit e);
     prm_basis :=
       match re_basis e with
       | RbStatic => Some Static
       | RbTrailing => Some Trailing
       | RbEodTrailing => Some EodTrailing
       | RbIntradayTrail => Some IntradayTrail
       end;
     prm_tolerance_cents := re_tolerance_cents e;
     prm_priority := Some (re_priority e);
     prm_early_warning_pct := re_early_warning_pct e;
     prm_enabled := re_enabled e;
     prm_params_json := re_params_json e;
     prm_severity := re_severity e;
     prm_failure_policy := re_failure_policy e |}.

Definition RuleParams_value (p : RuleParams) : option Decimal := prm_value p.
Definition RuleParams_unit (p : RuleParams) : option RuleUnit := prm_unit p.
Definition RuleParams_basis (p : RuleParams) : option LossReference := prm_basis p.
Definition RuleParams_tolerance_cents (p : RuleParams) : option Z := prm_tolerance_cents p.
Definition RuleParams_priority (p : RuleParams) : option Z := prm_priority p.
Definition RuleParams_early_warning_pct (p : RuleParams) : option Decimal := prm_early_warning_pct p.

(** What a limit may be measured against. *)
Record LimitContext := mkLimitContext {
  lc_initial_balance : Money;
  lc_balance : Money;
  lc_order_quantity : option Quantity;
}.

Definition LimitContext_from_account (account : Account) : LimitContext :=
  mkLimitContext (acc_initial_balance account) (acc_balance account) None.

Definition RuleParams_effective_money (p : RuleParams) (reference : Money)
    : outcome (option Money) :=
  match prm_value p with
  | None => Ret None
  | Some v =>
      match prm_unit p with
      | Some UPercent => let! m := dmul v reference in Ret (Some m)
      | Some UMoney => Ret (Some v)
      | None => let! m := dmul v reference in Ret (Some m)
      end
  end.

Definition RuleParams_effective_pct (p : RuleParams) (reference : Money) : outcome Decimal :=
  match prm_value p with
  | None => Err (InvalidConfig "{unit_context}: no pack value present — caller must fall back to plan")
  | Some v =>
      match prm_unit p with
      | Some UPercent | None => Ret v
      | Some UMoney =>
          if dec_is_zero reference then
            Err (InvalidConfig "{unit_context}: money-unit value {v} cannot be normalized against a zero reference")
          else ddiv v reference
      end
  end.

Definition RuleParams_effective_count (p : RuleParams) : outcome Decimal :=
  match prm_value p with
  | None => Err (InvalidConfig "{unit_context}: no pack value present — caller must fall back to plan")
  | Some v => Ret v
  end.

Context `{!JsonOps}.

Definition RuleParams_json_decimal (p : RuleParams) (key : string) : option Decimal :=
  json_get_decimal (prm_params_json p) key.

End Pack.

(** ** Lemmas *)

Section PackLemmas.
Context `{DecimalOps} `{ChronoOps}.

Lemma pack_ids_fresh_spec seen rules :
  pack_ids_fresh seen rules = true ↔
  NoDup (re_id <$> rules) ∧ ∀ r, r ∈ rules → re_id r ∉ seen.
Proof.
  revert seen. induction rules as [|r rules IH]; intros seen; simpl.
  { split; [intros _; split; [constructor|set_solver]|done]. }
  rewrite NoDup_cons. case_bool_decide as Hin.
  - split; [done|]. intros [_ Hf]. destruct (Hf r); set_solver.
  - rewrite IH. set_solver.
Qed.

End PackLemmas.
