(* ===== verification/RuleApi.v ===== *)
(** * The rule interface

    src/config/rule_config.rs, src/equity_input.rs, src/rules/context.rs and
    src/rules/traits.rs: the per-plan rule configuration, the tagged equity
    input, the context every rule reads, verdicts and reports, and the [Rule]
    trait as a record of operations.  A rule evaluation receives its fresh
    identifier and its reading of the wall clock as a [Fresh] value. *)

From S2P Require Import Prelude.
From S2P Require Import Decimal.
From S2P Require Import Chrono.
From S2P Require Import Ids.
From S2P Require Import Domain.
From S2P Require Import Plan.
From S2P Require Import Account.
From S2P Require Import Violation.
From S2P Require Import Pack.
#[local] Open Scope Z_scope.

Inductive RuleContextKind : Type :=
| OnOrderSubmit | OnTradeFill | OnTick | OnDayRollover | OnEndOfDay | OnDemand.

Inductive EvaluationScope : Type := PreTrade | PostTrade | ScTick | Periodic | ScDemand.

#[global] Instance RuleContextKind_eq_dec : EqDecision RuleContextKind.
Proof. solve_decision. Defined.
#[global] Instance EvaluationScope_eq_dec : EqDecision EvaluationScope.
Proof. solve_decision. Defined.

Definition RuleContextKind_display (k : RuleContextKind) : string :=
  match k with
  | OnOrderSubmit => "on_order_submit"
  | OnTradeFill => "on_trade_fill"
  | OnTick => "on_tick"
  | OnDayRollover => "on_day_rollover"
  | OnEndOfDay => "on_end_of_day"
  | OnDemand => "on_demand"
  end.

Section RuleApi.
Context `{DecimalOps} `{ChronoOps}.

(** ** Rule configuration *)

Record DailyDrawdownConfig := mkDailyDrawdownConfig { ddc_pct : Pct; ddc_on_balance : bool }.
Record MaxDrawdownConfig := mkMaxDrawdownConfig { mdc_pct : Pct; mdc_on_balance : bool }.
Record TrailingDrawdownConfig :=
  mkTrailingDrawdownConfig { tdc_pct : Pct; tdc_start_at_pct : Pct }.
Record ProfitTargetConfig := mkProfitTargetConfig { ptc_pct : Pct }.
Record MinTradingDaysConfig := mkMinTradingDaysConfig { mtc_days : Z }.
Record ConsistencyConfig := mkConsistencyConfig { cc_max_day_profit_share : Pct }.
Record NewsTradingConfig :=
  mkNewsTradingConfig { ntc_window_minutes : Z; ntc_allow_closes : bool }.
Record OvernightConfig :=
  mkOvernightConfig { oc_forbidden_from_hour : Z; oc_forbidden_to_hour : Z }.
Record WeekendConfig :=
  mkWeekendConfig { wc_forbidden_from_hour : Z; wc_weekend_starts_hour : Z }.
Record MaxPositionSizeConfig := mkMaxPositionSizeConfig { mps_max_lots_per_order : Decimal }.
Record MaxOpenPositionsConfig := mkMaxOpenPositionsConfig { mop_max_count : Z }.
Record MaxDailyTradesConfig := mkMaxDailyTradesConfig { mdt_max_count : Z }.
Record TimeLimitConfig := mkTimeLimitConfig { tlc_days : Z }.
Record CooldownConfig := mkCooldownConfig { cdc_seconds_between_trades : Z }.
Record HedgingConfig := mkHedgingConfig { hc_allowed : bool }.
Record GridTradingConfig :=
  mkGridTradingConfig { gtc_allowed : bool; gtc_min_grid_spacing_pips : Z }.
Record CopyTradingConfig := mkCopyTradingConfig { ctc_allowed : bool }.
Record StopLossRequiredConfig :=
  mkStopLossRequiredConfig { slc_required : bool; slc_min_distance_pips : option Z }.
Record TakeProfitRequiredConfig := mkTakeProfitRequiredConfig { tpc_required : bool }.

Record RuleConfig := mkRuleConfig {
  rc_daily_drawdown : option DailyDrawdownConfig;
  rc_max_drawdown : option MaxDrawdownConfig;
  rc_trailing_drawdown : option TrailingDrawdownConfig;
  rc_profit_target : option ProfitTargetConfig;
  rc_min_trading_days : option MinTradingDaysConfig;
  rc_consistency : option ConsistencyConfig;
  rc_news_trading : option NewsTradingConfig;
  rc_overnight_holding : option OvernightConfig;
  rc_weekend_holding : option WeekendConfig;
  rc_max_position_size : option MaxPositionSizeConfig;
  rc_max_open_positions : option MaxOpenPositionsConfig;
  rc_max_daily_trades : option MaxDailyTradesConfig;
  rc_time_limit : option TimeLimitConfig;
  rc_cooldown : option CooldownConfig;
  rc_hedging : option HedgingConfig;
  rc_grid_trading : option GridTradingConfig;
  rc_copy_trading : option CopyTradingConfig;
  rc_sl_required : option StopLossRequiredConfig;
  rc_tp_required : option TakeProfitRequiredConfig;
}.

Definition RuleConfig_empty : RuleConfig :=
  mkRuleConfig None None None None None None None None None None None None None None
    None None None None None.

Definition RuleConfig_from_plan (plan : ChallengePlan) : RuleConfig := {|
  rc_daily_drawdown :=
    Some (mkDailyDrawdownConfig (plan_max_daily_drawdown_pct plan) (plan_drawdown_on_balance plan));
  rc_max_drawdown :=
    Some (mkMaxDrawdownConfig (plan_max_total_drawdown_pct plan) (plan_drawdown_on_balance plan));
  rc_trailing_drawdown :=
    if plan_trailing_drawdown_enabled plan
    then Some (mkTrailingDrawdownConfig (plan_trailing_drawdown_pct plan) (dec_new 0 0))
    else None;
  rc_profit_target := Some (mkProfitTargetConfig (plan_profit_target_pct plan));
  rc_min_trading_days := Some (mkMinTradingDaysConfig (plan_min_trading_days plan));
  rc_consistency := mkConsistencyConfig <$> plan_consistency_pct plan;
  rc_news_trading := Some (mkNewsTradingConfig 2 true);
  rc_overnight_holding := Some (mkOvernightConfig 22 7);
  rc_weekend_holding := Some (mkWeekendConfig 21 21);
  rc_max_position_size := mkMaxPositionSizeConfig <$> plan_max_position_lots plan;
  rc_max_open_positions := mkMaxOpenPositionsConfig <$> plan_max_open_positions plan;
  rc_max_daily_trades := mkMaxDailyTradesConfig <$> plan_max_daily_trades plan;
  rc_time_limit := mkTimeLimitConfig <$> plan_time_limit_days plan;
  rc_cooldown :=
    if 0 <? plan_cooldown_seconds plan
    then Some (mkCooldownConfig (plan_cooldown_seconds plan)) else None;
  rc_hedging := Some (mkHedgingConfig (plan_hedging_allowed plan));
  rc_grid_trading := Some (mkGridTradingConfig (plan_grid_trading_allowed plan) 50);
  rc_copy_trading := Some (mkCopyTradingConfig (plan_copy_trading_allowed plan));
  rc_sl_required := Some (mkStopLossRequiredConfig (plan_require_stop_loss plan) None);
  rc_tp_required := Some (mkTakeProfitRequiredConfig (plan_require_take_profit plan));
|}.

(** ** Equity input *)

Inductive EquityInput : Type :=
| BrokerReported (equity balance : Money)
| Estimated (equity balance : Money).

Definition EquityInput_equity (e : EquityInput) : Money :=
  match e with BrokerReported eq _ | Estimated eq _ => eq end.

Definition EquityInput_balance (e : EquityInput) : Money :=
  match e with BrokerReported _ b | Estimated _ b => b end.

Definition EquityInput_is_broker_reported (e : EquityInput) : bool :=
  match e with BrokerReported _ _ => true | Estimated _ _ => false end.

Definition EquityInput_broker_equity (e : EquityInput) : option Money :=
  match e with BrokerReported eq _ => Some eq | Estimated _ _ => None end.

Definition EquityInput_default : EquityInput := Estimated dec_zero dec_zero.

(** ** Rule context *)

Record RuleContext := mkRuleContext {
  ctx_account : Account;
  ctx_open_positions : list Position;
  ctx_today_trades : list Trade;
  ctx_pending_order : option Order;
  ctx_latest_trade : option Trade;
  ctx_latest_tick : option Tick;
  ctx_recent_events : list DomainEvent;
  ctx_cross_reference_trades : list Trade;
  ctx_instruments : InstrumentRegistry;
  ctx_server_time : Timestamp;
  ctx_kind : RuleContextKind;
  ctx_rule_config : RuleConfig;
  ctx_equity_input : EquityInput;
}.

#[global] Instance RuleContext_settable : Settable RuleContext := fun r =>
  mkRuleContext (ctx_account r) (ctx_open_positions r) (ctx_today_trades r)
    (ctx_pending_order r) (ctx_latest_trade r) (ctx_latest_tick r)
    (ctx_recent_events r) (ctx_cross_reference_trades r) (ctx_instruments r)
    (ctx_server_time r) (ctx_kind r) (ctx_rule_config r) (ctx_equity_input r).

(** [now] stands for [ServerTime::now()]. *)
Definition RuleContext_new (account : Account) (now : Timestamp) : RuleContext :=
  mkRuleContext account [] [] None None None [] [] InstrumentRegistry_new now OnDemand
    RuleConfig_empty EquityInput_default.

Definition RuleContext_equity_is_broker_reported (c : RuleContext) : bool :=
  EquityInput_is_broker_reported (ctx_equity_input c).

Definition RuleContext_with_broker_equity (c : RuleContext) (equity balance : Money) : RuleContext :=
  c <| ctx_equity_input := BrokerReported equity balance |>.

Definition RuleContext_with_estimated_equity (c : RuleContext) (equity balance : Money) : RuleContext :=
  c <| ctx_equity_input := Estimated equity balance |>.

Definition RuleContext_for_open_order (account : Account) (order : Order) (now : Timestamp)
    : RuleContext :=
  (RuleContext_new account now) <| ctx_pending_order := Some order |>
    <| ctx_kind := OnOrderSubmit |>
    <| ctx_rule_config := RuleConfig_from_plan (acc_plan account) |>.

Definition RuleContext_for_trade_fill (account : Account) (trade : Trade) (now : Timestamp)
    : RuleContext :=
  (RuleContext_new account now) <| ctx_latest_trade := Some trade |>
    <| ctx_kind := OnTradeFill |>
    <| ctx_rule_config := RuleConfig_from_plan (acc_plan account) |>.

Definition RuleContext_for_tick (account : Account) (tick : Tick) (now : Timestamp) : RuleContext :=
  (RuleContext_new account now) <| ctx_latest_tick := Some tick |>
    <| ctx_kind := OnTick |>
    <| ctx_rule_config := RuleConfig_from_plan (acc_plan account) |>.

Definition RuleContext_for_day_rollover (account : Account) (now : Timestamp) : RuleContext :=
  (RuleContext_new account now) <| ctx_kind := OnDayRollover |>
    <| ctx_rule_config := RuleConfig_from_plan (acc_plan account) |>.

Definition RuleContext_is_pre_trade (c : RuleContext) : bool :=
  bool_decide (ctx_kind c = OnOrderSubmit).

Definition RuleContext_is_on_tick (c : RuleContext) : bool :=
  bool_decide (ctx_kind c = OnTick).

Definition RuleContext_open_position_count (c : RuleContext) : nat :=
  length (List.filter Position_is_open (ctx_open_positions c)).

Definition RuleContext_total_open_lots (c : RuleContext) : outcome Lots :=
  dsum (pos_open_quantity <$> List.filter Position_is_open (ctx_open_positions c)).

Definition RuleContext_today_trade_count (c : RuleContext) : nat := length (ctx_today_trades c).

(** [Err] carries the static text; [None] here. *)
Definition RuleContext_require_broker_equity (c : RuleContext) : option Money :=
  EquityInput_broker_equity (ctx_equity_input c).

Definition RuleContext_require_started (c : RuleContext) : bool :=
  bool_decide (is_Some (acc_started_at (ctx_account c))).

(** ** Verdicts and reports *)

Inductive RuleVerdict : Type :=
| VPass
| VWarn (v : Violation)
| VFail (v : Violation)
| VSoftFail (v : Violation)
| VLiquidate (v : Violation)
| VTargetHit (v : Violation)
| VEmergency (v : Violation)
| VEarlyWarning (v : Violation)
| VGapFlagged (v : Violation)
| VSkip.

Definition RuleVerdict_is_pass (r : RuleVerdict) : bool :=
  match r with VPass => true | _ => false end.
Definition RuleVerdict_is_fail (r : RuleVerdict) : bool :=
  match r with VFail _ => true | _ => false end.
Definition RuleVerdict_is_liquidate (r : RuleVerdict) : bool :=
  match r with VLiquidate _ => true | _ => false end.
Definition RuleVerdict_is_target_hit (r : RuleVerdict) : bool :=
  match r with VTargetHit _ => true | _ => false end.
Definition RuleVerdict_is_emergency (r : RuleVerdict) : bool :=
  match r with VEmergency _ => true | _ => false end.
Definition RuleVerdict_is_early_warning (r : RuleVerdict) : bool :=
  match r with VEarlyWarning _ => true | _ => false end.
Definition RuleVerdict_is_gap_flagged (r : RuleVerdict) : bool :=
  match r with VGapFlagged _ => true | _ => false end.
Definition RuleVerdict_is_soft_fail (r : RuleVerdict) : bool :=
  match r with VSoftFail _ => true | _ => false end.

Definition RuleVerdict_is_terminating (r : RuleVerdict) : bool :=
  match r with VFail _ | VLiquidate _ | VEmergency _ => true | _ => false end.

Definition RuleVerdict_violation (r : RuleVerdict) : option Violation :=
  match r with
  | VWarn v | VFail v | VSoftFail v | VLiquidate v | VTargetHit v | VEmergency v
  | VEarlyWarning v | VGapFlagged v => Some v
  | VPass | VSkip => None
  end.

Definition RuleVerdict_severity (r : RuleVerdict) : option ViolationSeverity :=
  vio_severity <$> RuleVerdict_violation r.

Record RuleReport := mkRuleReport {
  rr_rule_id : RuleId;
  rr_rule_name : string;
  rr_verdict : RuleVerdict;
  rr_scope : EvaluationScope;
  rr_priority : Z;
  rr_evaluated_at : Timestamp;
  rr_metadata : list (string * string);
}.

#[global] Instance RuleReport_settable : Settable RuleReport := fun r =>
  mkRuleReport (rr_rule_id r) (rr_rule_name r) (rr_verdict r) (rr_scope r)
    (rr_priority r) (rr_evaluated_at r) (rr_metadata r).

Definition RuleReport_new_at (rule_id : RuleId) (rule_name : string) (verdict : RuleVerdict)
    (scope : EvaluationScope) (at_ : Timestamp) : RuleReport :=
  mkRuleReport rule_id rule_name verdict scope 100 at_ [].

(** [RuleReport::new]; [now] is its reading of the clock. *)
Definition RuleReport_new (now : Timestamp) (rule_id : RuleId) (rule_name : string)
    (verdict : RuleVerdict) (scope : EvaluationScope) : RuleReport :=
  mkRuleReport rule_id rule_name verdict scope 100 now [].

Definition RuleReport_with_priority (r : RuleReport) (p : Z) : RuleReport :=
  r <| rr_priority := p |>.

Definition RuleReport_with_metadata (r : RuleReport) (key value : string) : RuleReport :=
  r <| rr_metadata := rr_metadata r ++ [(key, value)] |>.

(** ** The Rule trait *)

(** What a call to [evaluate] draws from its environment: the random
    identifier of the violation it builds and its reading of [Utc::now()]. *)
Record Fresh := mkFresh { fr_uuid : Uuid; fr_now : Timestamp }.

Record Rule := mkRule {
  rule_id : RuleId;
  rule_name : string;
  rule_kind : ViolationKind;
  rule_scope : EvaluationScope;
  rule_severity : ViolationSeverity;
  rule_priority : Z;
  rule_tolerance_cents : Z;
  rule_params : option RuleParams;
  rule_is_enabled : RuleContext → outcome bool;
  rule_evaluate : Fresh → RuleContext → outcome RuleVerdict;
}.

(** The identity part of a rule, which violations carry. *)
Record RuleHeader := mkRuleHeader {
  rh_key : string;
  rh_name : string;
  rh_kind : ViolationKind;
}.

(** [ViolationBuilder::build_violation]; every rule's [id] is
    [RuleId::named] of a constant key. *)
Definition build_violation (h : RuleHeader) (fr : Fresh) (ctx : RuleContext)
    (severity : ViolationSeverity) (message : string) : Violation :=
  Violation_with_tenant
    (Violation_new (fr_uuid fr) 0 (acc_id (ctx_account ctx)) (RuleId_named (rh_key h))
       (rh_name h) (rh_kind h) severity message (ctx_server_time ctx))
    (acc_tenant_id (ctx_account ctx)).

(** [ViolationBuilder::tolerance_money]. *)
Definition tolerance_money (cents : Z) : outcome Money :=
  if cents =? 0 then Ret dec_zero
  else ddiv (dec_new cents 0) (dec_new 100 0).

(** Shapes the evaluators share.  [params.as_ref().and_then(f).unwrap_or(d)]: *)
Definition params_or {A} (params : option RuleParams) (f : RuleParams → option A) (d : A) : A :=
  default d (p ← params; f p).

(** The [is_enabled] of a rule that a pack entry enables by carrying a value,
    and a plan by [flag]. *)
Definition enabled_by_value (params : option RuleParams) (flag : bool) : bool :=
  match params with
  | Some p => if negb (prm_enabled p) then false else bool_decide (is_Some (prm_value p))
  | None => flag
  end.

(** The [is_enabled] of a prohibition: the entry only enables it when the plan
    does not allow the behaviour. *)
Definition enabled_unless_allowed (params : option RuleParams) (allowed : bool) : bool :=
  match params with
  | Some p => prm_enabled p && negb allowed
  | None => negb allowed
  end.

(** The [effective_days]/[effective_max] of the rules whose limit is a [u32]
    count: the entry's value, else the plan's. *)
Definition effective_u32 (params : option RuleParams) (err : string) (plan : option Z)
    : outcome (option Z) :=
  match params with
  | Some p =>
      if negb (prm_enabled p) then Ret None
      else match prm_value p with
           | None => Ret None
           | Some v => let! n := ok_or (InvalidConfig err) (dec_to_u32 v) in Ret (Some n)
           end
  | None => Ret plan
  end.

(** The [effective_max_lots] of the rules whose limit is a quantity. *)
Definition effective_value (params : option RuleParams) (plan : option Decimal)
    : option Decimal :=
  match params with
  | Some p => if negb (prm_enabled p) then None else prm_value p
  | None => plan
  end.

End RuleApi.
