(* ===== verification/DrawdownRules.v ===== *)
(** * Drawdown rules

    src/rules/evaluators/daily_drawdown.rs, max_drawdown.rs and
    trailing_drawdown.rs.  Message texts are templates; arithmetic inside a
    message is kept where it can panic. *)

From S2P Require Import Prelude.
From S2P Require Import Decimal.
From S2P Require Import Chrono.
From S2P Require Import Ids.
From S2P Require Import Domain.
From S2P Require Import Plan.
From S2P Require Import Account.
From S2P Require Import Violation.
From S2P Require Import Pack.
From S2P Require Import RuleApi.
#[local] Open Scope Z_scope.

Definition msg_not_started : string :=
  "account has not been started; cannot evaluate drawdown/target rules".
Definition msg_estimated : string :=
  "equity is estimated; broker-reported equity required for terminating verdicts".

Section DrawdownRules.
Context `{DecimalOps} `{ChronoOps}.

(** ** Daily drawdown *)

Definition DailyDrawdownRule_header : RuleHeader :=
  mkRuleHeader "daily_drawdown" "Daily Drawdown" VkDailyDrawdown.

Definition DailyDrawdownRule_effective_pct (params : option RuleParams) (ctx : RuleContext)
    : Decimal :=
  params_or params prm_value (plan_max_daily_drawdown_pct (acc_plan (ctx_account ctx))).

Definition DailyDrawdownRule_is_enabled (params : option RuleParams) (ctx : RuleContext)
    : outcome bool :=
  match params with
  | Some p =>
      if negb (prm_enabled p) then Ret false
      else Ret (dec_gtb (DailyDrawdownRule_effective_pct params ctx) dec_zero)
  | None => Ret (dec_gtb (DailyDrawdownRule_effective_pct params ctx) dec_zero)
  end.

Definition DailyDrawdownRule_tolerance_cents (params : option RuleParams) : Z :=
  params_or params prm_tolerance_cents 1.

(** The reference and the drawdown of each loss type; [None] for
    [DailyLossType::None]. *)
Definition DailyDrawdownRule_reference (a : Account) : outcome (option (Money * Money)) :=
  let on_balance := plan_drawdown_on_balance (acc_plan a) in
  let current := if on_balance then acc_balance a else acc_equity a in
  let day_start := if on_balance then acc_day_start_balance a else acc_day_start_equity a in
  match plan_daily_loss_type (acc_plan a) with
  | DltNone => Ret None
  | DltPctInitial =>
      let! d := dsub day_start current in
      Ret (Some (acc_initial_balance a, dec_max d (dec_new 0 0)))
  | DltPctPriorDay =>
      let! d := dsub day_start current in
      Ret (Some (day_start, dec_max d (dec_new 0 0)))
  | DltTrailingIntradayHigh =>
      let peak := if on_balance then acc_peak_balance a else acc_intraday_peak_equity a in
      let! d := dsub peak current in
      Ret (Some (peak, dec_max d (dec_new 0 0)))
  end.

Definition DailyDrawdownRule_evaluate (params : option RuleParams) (fr : Fresh)
    (ctx : RuleContext) : outcome RuleVerdict :=
  let h := DailyDrawdownRule_header in
  let a := ctx_account ctx in
  let plan_pct := DailyDrawdownRule_effective_pct params ctx in
  if dec_leb plan_pct dec_zero then Ret VPass
  else if negb (RuleContext_require_started ctx) then
    Ret (VGapFlagged (build_violation h fr ctx SevInfo msg_not_started))
  else
    match RuleContext_require_broker_equity ctx with
    | None => Ret (VGapFlagged (build_violation h fr ctx SevInfo msg_estimated))
    | Some _ =>
        let! r := DailyDrawdownRule_reference a in
        match r with
        | None => Ret VPass
        | Some (reference, dd) =>
            let! limit := dmul plan_pct reference in
            let! tolerance := tolerance_money (DailyDrawdownRule_tolerance_cents params) in
            let! bound := dadd limit tolerance in
            if dec_gtb dd bound then
              let soft := plan_daily_loss_soft (acc_plan a) in
              let! _ := dmul plan_pct (dec_new 100 0) in
              let v := build_violation h fr ctx (if soft then SevWarning else SevLiquidate)
                         "Daily drawdown breach ({loss_type}): {dd} > {limit}+{tolerance} ({}%)" in
              let! v := Violation_with_breach v dd limit in
              Ret (if soft then VEarlyWarning v else VLiquidate v)
            else
              let warn_pct := params_or params prm_early_warning_pct (dec_new 8 1) in
              let! warn_threshold := dmul limit warn_pct in
              if dec_geb dd warn_threshold then
                let! ratio := ddiv dd limit in
                let! _ := dmul ratio (dec_new 100 0) in
                let v := build_violation h fr ctx SevWarning
                           "Daily drawdown ({loss_type}) at {}/{}/{} ({}%)" in
                let! v := Violation_with_breach v dd limit in
                Ret (VEarlyWarning v)
              else Ret VPass
        end
    end.

Definition DailyDrawdownRule (params : option RuleParams) : Rule := {|
  rule_id := RuleId_named "daily_drawdown";
  rule_name := "Daily Drawdown";
  rule_kind := VkDailyDrawdown;
  rule_scope := ScTick;
  rule_severity := SevHard;
  rule_priority := params_or params prm_priority 900;
  rule_tolerance_cents := DailyDrawdownRule_tolerance_cents params;
  rule_params := params;
  rule_is_enabled := DailyDrawdownRule_is_enabled params;
  rule_evaluate := DailyDrawdownRule_evaluate params;
|}.

(** ** Maximum drawdown *)

Definition MaxDrawdownRule_header : RuleHeader :=
  mkRuleHeader "max_drawdown" "Maximum Drawdown" VkMaxDrawdown.

Definition MaxDrawdownRule_effective_basis (params : option RuleParams) (ctx : RuleContext)
    : LossReference :=
  params_or params prm_basis (plan_max_loss_reference (acc_plan (ctx_account ctx))).

Definition MaxDrawdownRule_effective_pct (params : option RuleParams) (ctx : RuleContext)
    : outcome Decimal :=
  let a := ctx_account ctx in
  let plan_pct := plan_max_total_drawdown_pct (acc_plan a) in
  match params with
  | Some p =>
      match prm_value p with
      | Some v =>
          match prm_unit p with
          | Some UMoney =>
              let reference :=
                match MaxDrawdownRule_effective_basis params ctx with
                | Static => acc_initial_balance a
                | Trailing => acc_peak_balance a
                | EodTrailing => acc_day_start_balance a
                | IntradayTrail =>
                    if plan_drawdown_on_balance (acc_plan a) then acc_peak_balance a
                    else acc_peak_equity a
                end in
              if dec_is_zero reference then Ret v else ddiv v reference
          | _ => Ret v
          end
      | None => Ret plan_pct
      end
  | None => Ret plan_pct
  end.

Definition MaxDrawdownRule_is_enabled (params : option RuleParams) (ctx : RuleContext)
    : outcome bool :=
  match params with
  | Some p =>
      if negb (prm_enabled p) then Ret false
      else let! pct := MaxDrawdownRule_effective_pct params ctx in
           Ret (dec_gtb pct (dec_new 0 0))
  | None => let! pct := MaxDrawdownRule_effective_pct params ctx in
            Ret (dec_gtb pct (dec_new 0 0))
  end.

Definition MaxDrawdownRule_tolerance_cents (params : option RuleParams) : Z :=
  params_or params prm_tolerance_cents 1.

(** The floor and the reference of each basis. *)
Definition MaxDrawdownRule_floor (a : Account) (basis : LossReference) (plan_pct : Decimal)
    : outcome (Money * Money) :=
  match basis with
  | Static =>
      let! b := dmul plan_pct (acc_initial_balance a) in
      let! floor := dsub (acc_initial_balance a) b in
      Ret (floor, acc_initial_balance a)
  | Trailing =>
      let! b := dmul plan_pct (acc_peak_balance a) in
      let! floor := dsub (acc_peak_balance a) b in
      Ret (floor, acc_peak_balance a)
  | EodTrailing =>
      let! buffer := dmul plan_pct (acc_initial_balance a) in
      let! unlocked_floor := dsub (acc_day_start_balance a) buffer in
      let floor :=
        if plan_eod_trail_locks_at_start (acc_plan a)
        then dec_min unlocked_floor (acc_initial_balance a) else unlocked_floor in
      Ret (floor, acc_day_start_balance a)
  | IntradayTrail =>
      let peak :=
        if plan_drawdown_on_balance (acc_plan a) then acc_peak_balance a
        else acc_peak_equity a in
      let! b := dmul plan_pct peak in
      let! floor := dsub peak b in
      Ret (floor, peak)
  end.

Definition MaxDrawdownRule_evaluate (params : option RuleParams) (fr : Fresh)
    (ctx : RuleContext) : outcome RuleVerdict :=
  let h := MaxDrawdownRule_header in
  let a := ctx_account ctx in
  let! plan_pct := MaxDrawdownRule_effective_pct params ctx in
  if dec_leb plan_pct (dec_new 0 0) then Ret VPass
  else if negb (RuleContext_require_started ctx) then
    Ret (VGapFlagged (build_violation h fr ctx SevInfo msg_not_started))
  else
    match RuleContext_require_broker_equity ctx with
    | None => Ret (VGapFlagged (build_violation h fr ctx SevInfo msg_estimated))
    | Some equity =>
        let basis := MaxDrawdownRule_effective_basis params ctx in
        let current :=
          if plan_drawdown_on_balance (acc_plan a) then acc_balance a else equity in
        let! (floor, reference) := MaxDrawdownRule_floor a basis plan_pct in
        let! d := dsub reference current in
        let dd := dec_max d (dec_new 0 0) in
        let! l := dsub reference floor in
        let limit_dollars := dec_max l (dec_new 0 0) in
        let! tolerance := tolerance_money (MaxDrawdownRule_tolerance_cents params) in
        let! bound := dsub floor tolerance in
        if dec_ltb current bound then
          let! _ := dmul plan_pct (dec_new 100 0) in
          let v := build_violation h fr ctx SevLiquidate
                     "Maximum drawdown breach ({basis:?} mode): current {current} < floor {floor}-tol {tolerance} ({}%)" in
          let! v := Violation_with_breach v dd limit_dollars in
          Ret (VLiquidate v)
        else
          let warn_pct := params_or params prm_early_warning_pct (dec_new 8 1) in
          let! w := dmul limit_dollars warn_pct in
          let! warn := dadd floor w in
          if dec_leb current warn then
            let! ratio := ddiv dd (dec_max limit_dollars (dec_new 1 0)) in
            let! _ := dmul ratio (dec_new 100 0) in
            let v := build_violation h fr ctx SevWarning
                       "Maximum drawdown at {dd}/{limit_dollars} ({}%) [{basis:?}]" in
            let! v := Violation_with_breach v dd limit_dollars in
            Ret (VEarlyWarning v)
          else Ret VPass
    end.

Definition MaxDrawdownRule (params : option RuleParams) : Rule := {|
  rule_id := RuleId_named "max_drawdown";
  rule_name := "Maximum Drawdown";
  rule_kind := VkMaxDrawdown;
  rule_scope := ScTick;
  rule_severity := SevHard;
  rule_priority := params_or params prm_priority 1000;
  rule_tolerance_cents := MaxDrawdownRule_tolerance_cents params;
  rule_params := params;
  rule_is_enabled := MaxDrawdownRule_is_enabled params;
  rule_evaluate := MaxDrawdownRule_evaluate params;
|}.

(** ** Trailing drawdown *)

Definition TrailingDrawdownRule_header : RuleHeader :=
  mkRuleHeader "trailing_drawdown" "Trailing Drawdown" VkTrailingDrawdown.

Definition TrailingDrawdownRule_effective_trail_money (params : option RuleParams)
    (ctx : RuleContext) : outcome (option Money) :=
  let a := ctx_account ctx in
  match params with
  | Some p =>
      if negb (prm_enabled p) then Ret None
      else match prm_value p with
           | None => Ret None
           | Some v =>
               match prm_unit p with
               | Some UMoney => Ret (Some v)
               | _ => let! m := dmul v (acc_peak_equity a) in Ret (Some m)
               end
           end
  | None =>
      if negb (plan_trailing_drawdown_enabled (acc_plan a)) then Ret None
      else let! m := dmul (plan_trailing_drawdown_pct (acc_plan a)) (acc_peak_equity a) in
           Ret (Some m)
  end.

Definition TrailingDrawdownRule_is_enabled (params : option RuleParams) (ctx : RuleContext)
    : outcome bool :=
  match params with
  | Some p =>
      if negb (prm_enabled p) then Ret false
      else Ret (bool_decide (is_Some (prm_value p)))
  | None =>
      let plan := acc_plan (ctx_account ctx) in
      Ret (plan_trailing_drawdown_enabled plan
           && dec_gtb (plan_trailing_drawdown_pct plan) (dec_new 0 0))
  end.

Definition TrailingDrawdownRule_evaluate (params : option RuleParams) (fr : Fresh)
    (ctx : RuleContext) : outcome RuleVerdict :=
  let h := TrailingDrawdownRule_header in
  let! trail := TrailingDrawdownRule_effective_trail_money params ctx in
  match trail with
  | None => Ret VPass
  | Some trail_amount =>
      if negb (RuleContext_require_started ctx) then
        Ret (VGapFlagged (build_violation h fr ctx SevInfo msg_not_started))
      else
        match RuleContext_require_broker_equity ctx with
        | None => Ret (VGapFlagged (build_violation h fr ctx SevInfo msg_estimated))
        | Some equity =>
            let peak := acc_peak_equity (ctx_account ctx) in
            let! floor := dsub peak trail_amount in
            if dec_ltb equity floor then
              let! breach := dsub floor equity in
              let v := build_violation h fr ctx SevLiquidate
                         "Trailing drawdown breach: equity {equity} below floor {floor} (trail={trail_amount})" in
              let! v := Violation_with_breach v breach trail_amount in
              Ret (VLiquidate v)
            else
              let! w := dmul trail_amount (dec_new 2 1) in
              let! warn_floor := dadd floor w in
              if dec_ltb equity warn_floor then
                let v := build_violation h fr ctx SevWarning
                           "Equity approaching trailing drawdown floor: {equity} vs floor {floor}" in
                let! d := dsub warn_floor equity in
                let! v := Violation_with_breach v d trail_amount in
                Ret (VEarlyWarning v)
              else Ret VPass
        end
  end.

Definition TrailingDrawdownRule (params : option RuleParams) : Rule := {|
  rule_id := RuleId_named "trailing_drawdown";
  rule_name := "Trailing Drawdown";
  rule_kind := VkTrailingDrawdown;
  rule_scope := ScTick;
  rule_severity := SevHard;
  rule_priority := 100;
  rule_tolerance_cents := 1;
  rule_params := params;
  rule_is_enabled := TrailingDrawdownRule_is_enabled params;
  rule_evaluate := TrailingDrawdownRule_evaluate params;
|}.

(** Deprecated in the source in favour of [Account::total_drawdown]. *)
Definition peak_drawdown (current peak : Money) : outcome Money :=
  let! d := dsub peak current in Ret (dec_max d (dec_new 0 0)).

End DrawdownRules.
