(* ===== verification/TargetRules.v ===== *)
(** * Progress rules

    src/rules/evaluators/profit_target.rs, min_trading_days.rs,
    min_profitable_days.rs and consistency.rs. *)

From S2P Require Import Prelude.
From S2P Require Import Decimal.
From S2P Require Import Chrono.
From S2P Require Import Ids.
From S2P Require Import Domain.
From S2P Require Import Plan.
From S2P Require Import Account.
From S2P Require Import Violation.
From S2P Require Import Pack.
From S2P Require Import RuleApi.
#[local] Open Scope Z_scope.

Section TargetRules.
Context `{DecimalOps} `{ChronoOps}.

(** ** Profit target *)

Definition ProfitTargetRule_header : RuleHeader :=
  mkRuleHeader "profit_target" "Profit Target" VkProfitTargetMissed.

Definition ProfitTargetRule_is_enabled (params : option RuleParams) (ctx : RuleContext)
    : outcome bool :=
  match params with
  | Some p => Ret (prm_enabled p)
  | None => Ret (dec_gtb (plan_profit_target_pct (acc_plan (ctx_account ctx))) (dec_new 0 0))
  end.

(** The target amount; [None] when the entry is disabled. *)
Definition ProfitTargetRule_target (params : option RuleParams) (a : Account)
    : outcome (option Money) :=
  match params with
  | Some p =>
      if negb (prm_enabled p) then Ret None
      else match prm_value p with
           | Some v =>
               match prm_unit p with
               | Some UMoney => Ret (Some v)
               | _ => let! t := dmul v (acc_initial_balance a) in Ret (Some t)
               end
           | None => let! t := Account_profit_target a in Ret (Some t)
           end
  | None => let! t := Account_profit_target a in Ret (Some t)
  end.

Definition ProfitTargetRule_evaluate (params : option RuleParams) (fr : Fresh)
    (ctx : RuleContext) : outcome RuleVerdict :=
  let h := ProfitTargetRule_header in
  let a := ctx_account ctx in
  let! t := ProfitTargetRule_target params a in
  match t with
  | None => Ret VPass
  | Some target =>
      if dec_leb target (dec_new 0 0) then Ret VPass
      else
        let! net := Account_net_profit a in
        match acc_target_reached_at a with
        | None =>
            if dec_geb net target then
              let v := build_violation h fr ctx SevInfo
                         "Profit target reached: net {net} >= target {target} — pending min trading days" in
              let! v := Violation_with_breach v (dec_max net (dec_new 0 0)) target in
              Ret (VTargetHit v)
            else
              match acc_deadline a with
              | Some deadline =>
                  if ts_gtb (ctx_server_time ctx) deadline then
                    let v := build_violation h fr ctx SevHard
                               "Time limit expired without reaching profit target: net {net} < target {target}" in
                    let! v := Violation_with_breach v target target in
                    Ret (VFail v)
                  else Ret VPass
              | None => Ret VPass
              end
        | Some _ => Ret VPass
        end
  end.

Definition ProfitTargetRule (params : option RuleParams) : Rule := {|
  rule_id := RuleId_named "profit_target";
  rule_name := "Profit Target";
  rule_kind := VkProfitTargetMissed;
  rule_scope := ScTick;
  rule_severity := SevInfo;
  rule_priority := 100;
  rule_tolerance_cents := 1;
  rule_params := params;
  rule_is_enabled := ProfitTargetRule_is_enabled params;
  rule_evaluate := ProfitTargetRule_evaluate params;
|}.

(** ** Minimum trading days *)

Definition MinTradingDaysRule_header : RuleHeader :=
  mkRuleHeader "min_trading_days" "Minimum Trading Days" VkMinTradingDays.

Definition MinTradingDaysRule_effective_days (params : option RuleParams) (ctx : RuleContext)
    : outcome (option Z) :=
  effective_u32 params "min_trading_days: pack value {v} is not a valid day count"
    (Some (plan_min_trading_days (acc_plan (ctx_account ctx)))).

Definition MinTradingDaysRule_is_enabled (params : option RuleParams) (ctx : RuleContext)
    : outcome bool :=
  Ret (enabled_by_value params (0 <? plan_min_trading_days (acc_plan (ctx_account ctx)))).

Definition MinTradingDaysRule_actual (a : Account) : Z :=
  if bool_decide (is_Some (plan_qualifying_day_threshold_pct (acc_plan a)))
     || bool_decide (is_Some (plan_qualifying_day_pnl_band_pct (acc_plan a)))
  then acc_qualifying_trading_days_count a else acc_active_trading_days a.

(** The verdict both day-count rules give for [actual] of [required] days. *)
Definition day_count_verdict (h : RuleHeader) (fr : Fresh) (ctx : RuleContext)
    (actual required : Z) (msg_fail msg_warn : string) : RuleVerdict :=
  if required =? 0 then VPass
  else if required <=? actual then VPass
  else
    let warn := VWarn (build_violation h fr ctx SevWarning msg_warn) in
    match acc_deadline (ctx_account ctx) with
    | Some deadline =>
        if ts_gtb (ctx_server_time ctx) deadline && (actual <? required)
        then VFail (build_violation h fr ctx SevHard msg_fail) else warn
    | None => warn
    end.

Definition MinTradingDaysRule_evaluate (params : option RuleParams) (fr : Fresh)
    (ctx : RuleContext) : outcome RuleVerdict :=
  let! r := map_err (fun _ => RuleEval "min_trading_days: {e}")
              (MinTradingDaysRule_effective_days params ctx) in
  match r with
  | None => Ret VPass
  | Some required =>
      Ret (day_count_verdict MinTradingDaysRule_header fr ctx
             (MinTradingDaysRule_actual (ctx_account ctx)) required
             "Deadline reached with only {actual}/{required} active trading days"
             "Active trading days {actual}/{required} – phase not yet complete")
  end.

Definition MinTradingDaysRule (params : option RuleParams) : Rule := {|
  rule_id := RuleId_named "min_trading_days";
  rule_name := "Minimum Trading Days";
  rule_kind := VkMinTradingDays;
  rule_scope := Periodic;
  rule_severity := SevWarning;
  rule_priority := 100;
  rule_tolerance_cents := 1;
  rule_params := params;
  rule_is_enabled := MinTradingDaysRule_is_enabled params;
  rule_evaluate := MinTradingDaysRule_evaluate params;
|}.

(** ** Minimum profitable days *)

Definition MinProfitableDaysRule_header : RuleHeader :=
  mkRuleHeader "min_profitable_days" "Minimum Profitable Trading Days" VkMinProfitableDays.

Definition MinProfitableDaysRule_effective_days (params : option RuleParams) (ctx : RuleContext)
    : outcome (option Z) :=
  effective_u32 params "min_profitable_days: pack value {v} is not a valid day count"
    (plan_min_profitable_days (acc_plan (ctx_account ctx))).

Definition MinProfitableDaysRule_is_enabled (params : option RuleParams) (ctx : RuleContext)
    : outcome bool :=
  Ret (enabled_by_value params
         (bool_decide (is_Some (plan_min_profitable_days (acc_plan (ctx_account ctx)))))).

Definition MinProfitableDaysRule_evaluate (params : option RuleParams) (fr : Fresh)
    (ctx : RuleContext) : outcome RuleVerdict :=
  let! r := map_err (fun _ => RuleEval "min_profitable_days: {e}")
              (MinProfitableDaysRule_effective_days params ctx) in
  match r with
  | None => Ret VPass
  | Some required =>
      Ret (day_count_verdict MinProfitableDaysRule_header fr ctx
             (acc_profitable_days_count (ctx_account ctx)) required
             "Deadline reached with only {actual}/{required} profitable trading days"
             "Profitable trading days {actual}/{required} – phase not yet complete")
  end.

Definition MinProfitableDaysRule (params : option RuleParams) : Rule := {|
  rule_id := RuleId_named "min_profitable_days";
  rule_name := "Minimum Profitable Trading Days";
  rule_kind := VkMinProfitableDays;
  rule_scope := Periodic;
  rule_severity := SevWarning;
  rule_priority := 100;
  rule_tolerance_cents := 1;
  rule_params := params;
  rule_is_enabled := MinProfitableDaysRule_is_enabled params;
  rule_evaluate := MinProfitableDaysRule_evaluate params;
|}.

(** ** Consistency *)

Definition ConsistencyRule_header : RuleHeader :=
  mkRuleHeader "consistency" "Consistency" VkConsistency.

Definition ConsistencyRule_effective_cap (params : option RuleParams) (ctx : RuleContext)
    : outcome (option Decimal) :=
  match params with
  | Some p =>
      if negb (prm_enabled p) then Ret None
      else match prm_value p with
           | None => Ret None
           | Some _ =>
               let denom := acc_sum_positive_days_profit (ctx_account ctx) in
               if dec_is_zero denom then Ret None
               else let! pct := RuleParams_effective_pct p denom in Ret (Some pct)
           end
  | None => Ret (plan_consistency_pct (acc_plan (ctx_account ctx)))
  end.

Definition ConsistencyRule_effective_severity (params : option RuleParams) : ViolationSeverity :=
  match params with
  | Some p =>
      match prm_severity p with
      | Some s => if str_in s ["hard"; "liquidate"] then SevHard else SevWarning
      | None => SevWarning
      end
  | None => SevWarning
  end.

Definition ConsistencyRule_is_enabled (params : option RuleParams) (ctx : RuleContext)
    : outcome bool :=
  let plan := acc_plan (ctx_account ctx) in
  Ret (enabled_by_value params
         (if bool_decide (plan_phase plan = FundedPhase)
             && negb (plan_consistency_applies_on_funded_stage plan)
          then false else bool_decide (is_Some (plan_consistency_pct plan)))).

Definition ConsistencyRule_evaluate (params : option RuleParams) (fr : Fresh)
    (ctx : RuleContext) : outcome RuleVerdict :=
  let h := ConsistencyRule_header in
  let a := ctx_account ctx in
  let check (total_profit : Money) :=
    let! cap_raw := map_err (fun _ => RuleEval "consistency: {e}")
                      (ConsistencyRule_effective_cap params ctx) in
    match cap_raw with
    | None => Ret VPass
    | Some cap_pct =>
        if dec_leb total_profit (dec_new 0 0) then Ret VPass
        else
          let largest_day := acc_largest_day_profit a in
          if dec_leb largest_day (dec_new 0 0) then Ret VPass
          else
            let! cap := dmul cap_pct total_profit in
            if dec_gtb largest_day cap then
              let! _ := dmul cap_pct (dec_new 100 0) in
              let v := build_violation h fr ctx SevWarning
                         "Largest single-day profit {largest_day} exceeds {}% of {} ({cap})" in
              let! v := Violation_with_breach v largest_day cap in
              Ret (VWarn v)
            else Ret VPass
    end in
  match plan_consistency_type (acc_plan a) with
  | CtNone => Ret VPass
  | CtBestDayPctOfTotal => check (acc_total_realized_pnl a)
  | CtBestDayPctOfPositiveDays => check (acc_sum_positive_days_profit a)
  end.

Definition ConsistencyRule (params : option RuleParams) : Rule := {|
  rule_id := RuleId_named "consistency";
  rule_name := "Consistency";
  rule_kind := VkConsistency;
  rule_scope := Periodic;
  rule_severity := ConsistencyRule_effective_severity params;
  rule_priority := 100;
  rule_tolerance_cents := 1;
  rule_params := params;
  rule_is_enabled := ConsistencyRule_is_enabled params;
  rule_evaluate := ConsistencyRule_evaluate params;
|}.

End TargetRules.
