(* ===== verification/TimeRules.v ===== *)
(** * Time rules

    src/rules/evaluators/time_limit.rs, inactivity.rs, overnight_holding.rs,
    weekend_holding.rs, news_trading.rs, cooldown.rs and the trading-hours
    rule of plan_caps.rs.  The one floating-point comparison of the engine
    (the 90% warning of the time limit) is computed on IEEE-754 binary64
    with the Standard Library's [SpecFloat]. *)

From S2P Require Import Prelude.
From S2P Require Import Decimal.
From S2P Require Import Chrono.
From S2P Require Import Ids.
From S2P Require Import Domain.
From S2P Require Import Plan.
From S2P Require Import Account.
From S2P Require Import Violation.
From S2P Require Import Pack.
From S2P Require Import RuleApi.
#[local] Open Scope Z_scope.
From Stdlib Require Import SpecFloat.

(** ** Binary64 arithmetic of the time limit *)

(** [i64 as f64]: round to nearest. *)
Definition f64_of_int (z : Z) : spec_float := binary_normalize 53 1024 z 0 false.

(** The literal [0.9]: the double nearest to it. *)
Definition f64_0_9 : spec_float := S754_finite false 8106479329266893 (-53).

Definition f64_div (x y : spec_float) : spec_float := SFdiv 53 1024 x y.

(** [elapsed as f64 / total as f64 > 0.9]. *)
Definition elapsed_over_90_percent (elapsed total : Z) : bool :=
  SFltb f64_0_9 (f64_div (f64_of_int elapsed) (f64_of_int (Z.max total 1))).

Section TimeRules.
Context `{DecimalOps} `{ChronoOps}.

(** ** Time limit *)

Definition TimeLimitRule_header : RuleHeader :=
  mkRuleHeader "time_limit" "Time Limit" VkTimeLimit.

(** [start + Duration::days(n)]. *)
Definition ts_plus_days (t : Timestamp) (n : Z) : outcome Timestamp :=
  let! d := unwrap (dur_days n) in unwrap (ts_add t d).

(** The deadline of the account or of the plan. *)
Definition TimeLimitRule_plan_deadline (a : Account) : outcome (option Timestamp) :=
  match acc_deadline a with
  | Some deadline => Ret (Some deadline)
  | None =>
      match plan_time_limit_days (acc_plan a) with
      | None => Ret None
      | Some days =>
          let! start := ok_or (InvalidState "time_limit: plan has a time limit but the account was never started (no started_at) — cannot derive a deadline")
                          (acc_started_at a) in
          let! deadline := ts_plus_days start days in
          Ret (Some deadline)
      end
  end.

Definition TimeLimitRule_effective_deadline (params : option RuleParams) (fr : Fresh)
    (ctx : RuleContext) : outcome (option Timestamp) :=
  let a := ctx_account ctx in
  match params with
  | Some p =>
      if negb (prm_enabled p) then Ret None
      else match prm_value p with
           | Some days =>
               let! days_i64 := ok_or (InvalidConfig "time_limit: pack value is not a valid day count")
                                  (dec_to_i64 days) in
               let start := default (fr_now fr) (acc_started_at a) in
               let! deadline := ts_plus_days start days_i64 in
               Ret (Some deadline)
           | None => TimeLimitRule_plan_deadline a
           end
  | None => TimeLimitRule_plan_deadline a
  end.

Definition TimeLimitRule_is_enabled (params : option RuleParams) (ctx : RuleContext)
    : outcome bool :=
  match params with
  | Some p => Ret (prm_enabled p)
  | None =>
      let a := ctx_account ctx in
      Ret (bool_decide (is_Some (plan_time_limit_days (acc_plan a)))
           || bool_decide (is_Some (acc_deadline a)))
  end.

Definition TimeLimitRule_evaluate (params : option RuleParams) (fr : Fresh)
    (ctx : RuleContext) : outcome RuleVerdict :=
  let h := TimeLimitRule_header in
  let! d := TimeLimitRule_effective_deadline params fr ctx in
  match d with
  | None => Ret VPass
  | Some deadline =>
      let now := ctx_server_time ctx in
      if ts_gtb now deadline then
        Ret (VFail (build_violation h fr ctx SevHard
                      "Account time limit exceeded: deadline was {deadline}"))
      else
        match acc_started_at (ctx_account ctx) with
        | Some start =>
            let total := ts_since deadline start in
            let elapsed := ts_since now start in
            if elapsed_over_90_percent (num_seconds elapsed) (num_seconds total) then
              Ret (VWarn (build_violation h fr ctx SevWarning
                            "Time limit approaching: deadline {deadline}"))
            else Ret VPass
        | None => Ret VPass
        end
  end.

Definition TimeLimitRule (params : option RuleParams) : Rule := {|
  rule_id := RuleId_named "time_limit";
  rule_name := "Time Limit";
  rule_kind := VkTimeLimit;
  rule_scope := ScTick;
  rule_severity := SevHard;
  rule_priority := 100;
  rule_tolerance_cents := 1;
  rule_params := params;
  rule_is_enabled := TimeLimitRule_is_enabled params;
  rule_evaluate := TimeLimitRule_evaluate params;
|}.

(** ** Inactivity *)

Definition InactivityRule_header : RuleHeader :=
  mkRuleHeader "inactivity" "Inactivity Termination" VkCustom.

Definition InactivityRule_effective_days (params : option RuleParams) (ctx : RuleContext)
    : outcome (option Z) :=
  match params with
  | Some p =>
      let! v := RuleParams_effective_count p in
      let! days := ok_or (InvalidConfig "inactivity: pack value {v} is not a valid day count")
                     (dec_to_u32 v) in
      Ret (Some days)
  | None => Ret (plan_inactivity_days (acc_plan (ctx_account ctx)))
  end.

Definition InactivityRule_is_enabled (params : option RuleParams) (ctx : RuleContext)
    : outcome bool :=
  match params with
  | Some p => Ret (prm_enabled p)
  | None => Ret (bool_decide (is_Some (plan_inactivity_days (acc_plan (ctx_account ctx)))))
  end.

Definition InactivityRule_evaluate (params : option RuleParams) (fr : Fresh)
    (ctx : RuleContext) : outcome RuleVerdict :=
  let h := InactivityRule_header in
  let a := ctx_account ctx in
  let! d := InactivityRule_effective_days params ctx in
  match d with
  | None => Ret VPass
  | Some days =>
      if days =? 0 then Ret VPass
      else
        match acc_last_trade_at a with
        | None =>
            match acc_started_at a with
            | None => Ret VPass
            | Some started =>
                let idle := ts_since (ctx_server_time ctx) started in
                if days <=? num_days idle then
                  Ret (VFail (build_violation h fr ctx SevHard
                                "Account never traded for {days} days since start (inactivity termination)"))
                else Ret VPass
            end
        | Some last_activity =>
            let idle := ts_since (ctx_server_time ctx) last_activity in
            if days <=? num_days idle then
              Ret (VFail (build_violation h fr ctx SevHard
                            "No trading activity for {idle_days} days (limit {days}) — inactivity termination"))
            else if Z.max 0 (days - 1) <=? num_days idle then
              Ret (VWarn (build_violation h fr ctx SevWarning
                            "Inactivity warning: {idle_days} days without a trade (termination at {days})"))
            else Ret VPass
        end
  end.

Definition InactivityRule (params : option RuleParams) : Rule := {|
  rule_id := RuleId_named "inactivity";
  rule_name := "Inactivity Termination";
  rule_kind := VkCustom;
  rule_scope := Periodic;
  rule_severity := SevHard;
  rule_priority := params_or params prm_priority 500;
  rule_tolerance_cents := 0;
  rule_params := params;
  rule_is_enabled := InactivityRule_is_enabled params;
  rule_evaluate := InactivityRule_evaluate params;
|}.

(** ** Overnight holding *)

Definition OvernightHoldingRule_header : RuleHeader :=
  mkRuleHeader "overnight_holding" "Overnight Holding" VkOvernightHolding.

Definition OvernightHoldingRule_is_enabled (params : option RuleParams) (ctx : RuleContext)
    : outcome bool :=
  Ret (enabled_unless_allowed params (plan_overnight_holding_allowed (acc_plan (ctx_account ctx)))).

(** Whether [hour] lies in the window [from .. to), which wraps midnight when
    [to <= from]. *)
Definition overnight_in_forbidden (from to hour : Z) : bool :=
  if from <? to then (from <=? hour) && (hour <? to)
  else (from <=? hour) || (hour <? to).

Definition OvernightHoldingRule_evaluate (params : option RuleParams) (fr : Fresh)
    (ctx : RuleContext) : outcome RuleVerdict :=
  let h := OvernightHoldingRule_header in
  if plan_overnight_holding_allowed (acc_plan (ctx_account ctx)) then Ret VPass
  else
    match rc_overnight_holding (ctx_rule_config ctx) with
    | None => Ret VPass
    | Some cfg =>
        let hour := ts_hour (ctx_server_time ctx) in
        if negb (overnight_in_forbidden (oc_forbidden_from_hour cfg)
                   (oc_forbidden_to_hour cfg) hour) then Ret VPass
        else
          let has_open := match ctx_open_positions ctx with [] => false | _ => true end in
          let pending := bool_decide (is_Some (ctx_pending_order ctx)) in
          if negb has_open && negb pending then Ret VPass
          else if pending then
            Ret (VFail (build_violation h fr ctx SevHard
                          "Opening a position during forbidden overnight hours ({}:00–{}:00)"))
          else
            Ret (VWarn (build_violation h fr ctx SevWarning
                          "Position held during forbidden overnight hours ({}:00–{}:00)"))
    end.

Definition OvernightHoldingRule (params : option RuleParams) : Rule := {|
  rule_id := RuleId_named "overnight_holding";
  rule_name := "Overnight Holding";
  rule_kind := VkOvernightHolding;
  rule_scope := ScTick;
  rule_severity := SevHard;
  rule_priority := 100;
  rule_tolerance_cents := 1;
  rule_params := params;
  rule_is_enabled := OvernightHoldingRule_is_enabled params;
  rule_evaluate := OvernightHoldingRule_evaluate params;
|}.

(** ** Weekend holding *)

Definition WeekendHoldingRule_header : RuleHeader :=
  mkRuleHeader "weekend_holding" "Weekend Holding" VkWeekendHolding.

Definition WeekendHoldingRule_is_enabled (params : option RuleParams) (ctx : RuleContext)
    : outcome bool :=
  Ret (enabled_unless_allowed params (plan_weekend_holding_allowed (acc_plan (ctx_account ctx)))).

Definition in_weekend_window (cfg : WeekendConfig) (now : Timestamp) : bool :=
  match ts_weekday now with
  | Fri => wc_forbidden_from_hour cfg <=? ts_hour now
  | Sat | Sun => true
  | _ => false
  end.

Definition WeekendHoldingRule_evaluate (params : option RuleParams) (fr : Fresh)
    (ctx : RuleContext) : outcome RuleVerdict :=
  let h := WeekendHoldingRule_header in
  if plan_weekend_holding_allowed (acc_plan (ctx_account ctx)) then Ret VPass
  else
    match rc_weekend_holding (ctx_rule_config ctx) with
    | None => Ret VPass
    | Some cfg =>
        if negb (in_weekend_window cfg (ctx_server_time ctx)) then Ret VPass
        else
          match ctx_pending_order ctx with
          | Some _ =>
              Ret (VFail (build_violation h fr ctx SevHard
                            "Order submitted during weekend hold window"))
          | None =>
              match ctx_open_positions ctx with
              | [] => Ret VPass
              | _ => Ret (VWarn (build_violation h fr ctx SevWarning
                                   "Open positions held during weekend window"))
              end
          end
    end.

Definition WeekendHoldingRule (params : option RuleParams) : Rule := {|
  rule_id := RuleId_named "weekend_holding";
  rule_name := "Weekend Holding";
  rule_kind := VkWeekendHolding;
  rule_scope := ScTick;
  rule_severity := SevHard;
  rule_priority := 100;
  rule_tolerance_cents := 1;
  rule_params := params;
  rule_is_enabled := WeekendHoldingRule_is_enabled params;
  rule_evaluate := WeekendHoldingRule_evaluate params;
|}.

(** ** News trading *)

Record NewsEvent := mkNewsEvent {
  ne_name : string;
  ne_weekday : Weekday;
  ne_hour : Z;
  ne_minute : Z;
}.

Definition builtin_events : list NewsEvent :=
  [ mkNewsEvent "NFP" Fri 12 30;
    mkNewsEvent "CPI" Wed 12 30;
    mkNewsEvent "FOMC" Wed 18 0;
    mkNewsEvent "ECB Rate" Thu 11 45;
    mkNewsEvent "BOE Rate" Thu 11 0 ].

(** The instant of [e] in the week that starts on the day of [ts].  [None]
    when the clock time is invalid (the early return of the caller). *)
Definition news_event_instant (ts : Timestamp) (e : NewsEvent) : outcome (option Timestamp) :=
  let event_offset := num_days_from_monday (ne_weekday e) in
  let today_offset := num_days_from_monday (ts_weekday ts) in
  let day_diff := (event_offset - today_offset) mod 7 in
  let! event_day := ts_plus_days ts day_diff in
  match and_hms_opt (date_naive event_day) (ne_hour e) (ne_minute e) 0 with
  | None => Ret None
  | Some dt => Ret (Some (and_utc dt))
  end.

Fixpoint find_news_event (ts : Timestamp) (window_minutes : Z) (events : list NewsEvent)
    : outcome (option NewsEvent) :=
  match events with
  | [] => Ret None
  | e :: events' =>
      let! t := news_event_instant ts e in
      match t with
      | None => Ret None
      | Some event_utc =>
          let delta := Z.abs (num_minutes (ts_since ts event_utc)) in
          if delta <=? window_minutes then Ret (Some e)
          else find_news_event ts window_minutes events'
      end
  end.

Definition within_news_window (ts : Timestamp) (window_minutes : Z)
    : outcome (option NewsEvent) :=
  find_news_event ts window_minutes builtin_events.

Definition NewsTradingRule_header : RuleHeader :=
  mkRuleHeader "news_trading" "News Trading" VkNewsTrading.

Definition NewsTradingRule_is_enabled (params : option RuleParams) (ctx : RuleContext)
    : outcome bool :=
  Ret (enabled_unless_allowed params (plan_news_trading_allowed (acc_plan (ctx_account ctx)))).

Definition NewsTradingRule_evaluate (params : option RuleParams) (fr : Fresh)
    (ctx : RuleContext) : outcome RuleVerdict :=
  let h := NewsTradingRule_header in
  if plan_news_trading_allowed (acc_plan (ctx_account ctx)) then Ret VPass
  else
    match ctx_pending_order ctx with
    | None => Ret VPass
    | Some order =>
        let window :=
          match rc_news_trading (ctx_rule_config ctx) with
          | Some c => ntc_window_minutes c
          | None => 2
          end in
        let! e := within_news_window (ord_submitted_at order) window in
        match e with
        | Some _ =>
            Ret (VFail (build_violation h fr ctx SevHard
                          "Order submitted within {}min of {} news event"))
        | None => Ret VPass
        end
    end.

Definition NewsTradingRule (params : option RuleParams) : Rule := {|
  rule_id := RuleId_named "news_trading";
  rule_name := "News Trading";
  rule_kind := VkNewsTrading;
  rule_scope := PreTrade;
  rule_severity := SevHard;
  rule_priority := 100;
  rule_tolerance_cents := 1;
  rule_params := params;
  rule_is_enabled := NewsTradingRule_is_enabled params;
  rule_evaluate := NewsTradingRule_evaluate params;
|}.

(** ** Cooldown *)

Definition CooldownRule_header : RuleHeader :=
  mkRuleHeader "cooldown" "Cooldown" VkCooldown.

Definition CooldownRule_effective_seconds (params : option RuleParams) (ctx : RuleContext)
    : outcome Z :=
  match params with
  | Some p =>
      match prm_enabled p, prm_value p with
      | true, Some v =>
          ok_or (InvalidConfig "cooldown: pack value {v} is not a valid seconds count")
            (dec_to_u64 v)
      | _, _ => Ret 0
      end
  | None => Ret (plan_cooldown_seconds (acc_plan (ctx_account ctx)))
  end.

Definition CooldownRule_is_enabled (params : option RuleParams) (ctx : RuleContext)
    : outcome bool :=
  Ret (enabled_by_value params (0 <? plan_cooldown_seconds (acc_plan (ctx_account ctx)))).

Definition CooldownRule_evaluate (params : option RuleParams) (fr : Fresh)
    (ctx : RuleContext) : outcome RuleVerdict :=
  let h := CooldownRule_header in
  let! cooldown := map_err (fun _ => RuleEval "cooldown: {e}")
                     (CooldownRule_effective_seconds params ctx) in
  if cooldown =? 0 then Ret VPass
  else
    match ctx_pending_order ctx, last (ctx_today_trades ctx) with
    | Some order, Some last_trade =>
        let elapsed := num_seconds (ts_since (ord_submitted_at order) (tr_executed_at last_trade)) in
        if elapsed <? u64_as_i64 cooldown then
          Ret (VWarn (build_violation h fr ctx SevWarning
                        "Cooldown violated: only {elapsed}s since last trade (need {cooldown}s); {remaining}s remaining"))
        else Ret VPass
    | _, _ => Ret VPass
    end.

Definition CooldownRule (params : option RuleParams) : Rule := {|
  rule_id := RuleId_named "cooldown";
  rule_name := "Cooldown";
  rule_kind := VkCooldown;
  rule_scope := PreTrade;
  rule_severity := SevWarning;
  rule_priority := 100;
  rule_tolerance_cents := 1;
  rule_params := params;
  rule_is_enabled := CooldownRule_is_enabled params;
  rule_evaluate := CooldownRule_evaluate params;
|}.

(** ** Trading hours (plan_caps.rs) *)

Definition TradingHoursRule_header : RuleHeader :=
  mkRuleHeader "trading_hours" "Trading Hours" VkCustom.

Definition TradingHoursRule_is_enabled (ctx : RuleContext) : outcome bool :=
  Ret (bool_decide (is_Some (plan_trading_hours (acc_plan (ctx_account ctx))))).

Definition trading_hours_in_window (start_hour end_hour local_hour : Z) : bool :=
  if start_hour <=? end_hour
  then (start_hour <=? local_hour) && (local_hour <? end_hour)
  else (start_hour <=? local_hour) || (local_hour <? end_hour).

Definition TradingHoursRule_evaluate (fr : Fresh) (ctx : RuleContext) : outcome RuleVerdict :=
  let plan := acc_plan (ctx_account ctx) in
  match plan_trading_hours plan, ctx_pending_order ctx with
  | Some (start_hour, end_hour), Some order =>
      let local_hour :=
        match plan_timezone plan with
        | Some tz => tz_hour tz (ord_submitted_at order)
        | None => ts_hour (ord_submitted_at order)
        end in
      if negb (trading_hours_in_window start_hour end_hour local_hour) then
        Ret (VFail (build_violation TradingHoursRule_header fr ctx SevHard
                      "Order submitted at local hour {local_hour}, outside allowed window {start_hour:02}:00-{end_hour:02}:00"))
      else Ret VPass
  | _, _ => Ret VPass
  end.

Definition TradingHoursRule : Rule := {|
  rule_id := RuleId_named "trading_hours";
  rule_name := "Trading Hours";
  rule_kind := VkCustom;
  rule_scope := PreTrade;
  rule_severity := SevHard;
  rule_priority := 100;
  rule_tolerance_cents := 1;
  rule_params := None;
  rule_is_enabled := TradingHoursRule_is_enabled;
  rule_evaluate := TradingHoursRule_evaluate;
|}.

End TimeRules.
