(* ===== verification/LimitRules.v ===== *)
(** * Size and exposure rules

    src/rules/evaluators/max_position_size.rs, max_open_positions.rs,
    max_daily_trades.rs, per_trade_max_loss.rs, lowcap_exposure.rs and the
    total-lots and margin rules of plan_caps.rs.  Counts cast to [u32] wrap,
    as in a release build. *)

From S2P Require Import Prelude.
From S2P Require Import Decimal.
From S2P Require Import Chrono.
From S2P Require Import Ids.
From S2P Require Import Domain.
From S2P Require Import Plan.
From S2P Require Import Account.
From S2P Require Import Violation.
From S2P Require Import Pack.
From S2P Require Import RuleApi.
#[local] Open Scope Z_scope.

Section LimitRules.
Context `{DecimalOps} `{ChronoOps}.

(** ** Maximum position size *)

Definition MaxPositionSizeRule_header : RuleHeader :=
  mkRuleHeader "max_position_size" "Max Position Size" VkMaxPositionSize.

Definition MaxPositionSizeRule_effective_max_lots (params : option RuleParams)
    (ctx : RuleContext) : option Decimal :=
  effective_value params (plan_max_position_lots (acc_plan (ctx_account ctx))).

Definition MaxPositionSizeRule_is_enabled (params : option RuleParams) (ctx : RuleContext)
    : outcome bool :=
  Ret (enabled_by_value params
         (bool_decide (is_Some (plan_max_position_lots (acc_plan (ctx_account ctx)))))).

Definition MaxPositionSizeRule_evaluate (params : option RuleParams) (fr : Fresh)
    (ctx : RuleContext) : outcome RuleVerdict :=
  let h := MaxPositionSizeRule_header in
  match MaxPositionSizeRule_effective_max_lots params ctx, ctx_pending_order ctx with
  | Some max_lots, Some order =>
      let spec := InstrumentRegistry_get (ctx_instruments ctx) (ord_symbol order) in
      let! order_lots := InstrumentSpec_units_to_lots spec (ord_quantity order) in
      if dec_gtb order_lots max_lots then
        Ret (VFail (build_violation h fr ctx SevHard
                      "Order size {} units ({} lots) exceeds per-order limit {} lots"))
      else
        let! warn := dmul max_lots (dec_new 8 1) in
        if dec_gtb order_lots warn then
          Ret (VWarn (build_violation h fr ctx SevWarning
                        "Order lot size {order_lots} approaching limit {max_lots}"))
        else Ret VPass
  | _, _ => Ret VPass
  end.

Definition MaxPositionSizeRule (params : option RuleParams) : Rule := {|
  rule_id := RuleId_named "max_position_size";
  rule_name := "Max Position Size";
  rule_kind := VkMaxPositionSize;
  rule_scope := PreTrade;
  rule_severity := SevHard;
  rule_priority := 100;
  rule_tolerance_cents := 1;
  rule_params := params;
  rule_is_enabled := MaxPositionSizeRule_is_enabled params;
  rule_evaluate := MaxPositionSizeRule_evaluate params;
|}.

(** ** Counts: open positions and daily trades *)

Definition OrderKind_is_close (k : OrderKind) : bool :=
  match k with OkClose _ _ => true | _ => false end.

(** The shared body: opening one more than [count] must not exceed [max]. *)
Definition count_cap_verdict (h : RuleHeader) (fr : Fresh) (ctx : RuleContext)
    (count max : Z) (msg : string) : RuleVerdict :=
  match ctx_pending_order ctx with
  | Some order =>
      if OrderKind_is_close (ord_kind order) then VPass
      else if max <? u32_succ count then VFail (build_violation h fr ctx SevHard msg)
      else VPass
  | None => VPass
  end.

Definition MaxOpenPositionsRule_header : RuleHeader :=
  mkRuleHeader "max_open_positions" "Max Open Positions" VkMaxOpenPositions.

Definition MaxOpenPositionsRule_effective_max (params : option RuleParams) (ctx : RuleContext)
    : outcome (option Z) :=
  effective_u32 params "max_open_positions: pack value {v} is not a valid count"
    (plan_max_open_positions (acc_plan (ctx_account ctx))).

Definition MaxOpenPositionsRule_is_enabled (params : option RuleParams) (ctx : RuleContext)
    : outcome bool :=
  Ret (enabled_by_value params
         (bool_decide (is_Some (plan_max_open_positions (acc_plan (ctx_account ctx)))))).

Definition MaxOpenPositionsRule_evaluate (params : option RuleParams) (fr : Fresh)
    (ctx : RuleContext) : outcome RuleVerdict :=
  let! r := map_err (fun _ => RuleEval "max_open_positions: {e}")
              (MaxOpenPositionsRule_effective_max params ctx) in
  match r with
  | None => Ret VPass
  | Some max =>
      let open := as_u32 (Z.of_nat (length (List.filter Position_is_open (ctx_open_positions ctx)))) in
      Ret (count_cap_verdict MaxOpenPositionsRule_header fr ctx open max
             "Open positions {open}+1 would exceed limit {max}")
  end.

Definition MaxOpenPositionsRule (params : option RuleParams) : Rule := {|
  rule_id := RuleId_named "max_open_positions";
  rule_name := "Max Open Positions";
  rule_kind := VkMaxOpenPositions;
  rule_scope := PreTrade;
  rule_severity := SevHard;
  rule_priority := 100;
  rule_tolerance_cents := 1;
  rule_params := params;
  rule_is_enabled := MaxOpenPositionsRule_is_enabled params;
  rule_evaluate := MaxOpenPositionsRule_evaluate params;
|}.

Definition MaxDailyTradesRule_header : RuleHeader :=
  mkRuleHeader "max_daily_trades" "Max Daily Trades" VkMaxDailyTrades.

Definition MaxDailyTradesRule_effective_max (params : option RuleParams) (ctx : RuleContext)
    : outcome (option Z) :=
  effective_u32 params "max_daily_trades: pack value {v} is not a valid count"
    (plan_max_daily_trades (acc_plan (ctx_account ctx))).

Definition MaxDailyTradesRule_is_enabled (params : option RuleParams) (ctx : RuleContext)
    : outcome bool :=
  Ret (enabled_by_value params
         (bool_decide (is_Some (plan_max_daily_trades (acc_plan (ctx_account ctx)))))).

Definition MaxDailyTradesRule_evaluate (params : option RuleParams) (fr : Fresh)
    (ctx : RuleContext) : outcome RuleVerdict :=
  let! r := map_err (fun _ => RuleEval "max_daily_trades: {e}")
              (MaxDailyTradesRule_effective_max params ctx) in
  match r with
  | None => Ret VPass
  | Some max =>
      let today := as_u32 (Z.of_nat (length (ctx_today_trades ctx))) in
      Ret (count_cap_verdict MaxDailyTradesRule_header fr ctx today max
             "Daily trade count {today}+1 would exceed limit {max}")
  end.

Definition MaxDailyTradesRule (params : option RuleParams) : Rule := {|
  rule_id := RuleId_named "max_daily_trades";
  rule_name := "Max Daily Trades";
  rule_kind := VkMaxDailyTrades;
  rule_scope := PreTrade;
  rule_severity := SevHard;
  rule_priority := 100;
  rule_tolerance_cents := 1;
  rule_params := params;
  rule_is_enabled := MaxDailyTradesRule_is_enabled params;
  rule_evaluate := MaxDailyTradesRule_evaluate params;
|}.

(** ** Per-trade maximum loss *)

Definition PerTradeMaxLossRule_header : RuleHeader :=
  mkRuleHeader "per_trade_max_loss" "Per-Trade Max Loss" VkCustom.

Definition PerTradeMaxLossRule_effective_limit_money (params : option RuleParams)
    (ctx : RuleContext) : outcome (option Money) :=
  let a := ctx_account ctx in
  match params with
  | Some p =>
      match prm_unit p with
      | Some UMoney => Ret (Some (default dec_zero (prm_value p)))
      | _ => RuleParams_effective_money p (acc_balance a)
      end
  | None =>
      let! pct_limit :=
        match plan_per_trade_max_loss_pct (acc_plan a) with
        | Some pct => let! m := dmul pct (acc_balance a) in Ret (Some m)
        | None => Ret None
        end in
      Ret (match pct_limit, plan_per_trade_max_loss_money (acc_plan a) with
           | Some x, Some y => Some (dec_min x y)
           | Some x, None => Some x
           | None, Some y => Some y
           | None, None => None
           end)
  end.

Definition PerTradeMaxLossRule_tolerance_cents (params : option RuleParams) : Z :=
  params_or params prm_tolerance_cents 1.

Definition PerTradeMaxLossRule_is_enabled (params : option RuleParams) (ctx : RuleContext)
    : outcome bool :=
  let plan := acc_plan (ctx_account ctx) in
  Ret (enabled_by_value params
         (bool_decide (is_Some (plan_per_trade_max_loss_pct plan))
          || bool_decide (is_Some (plan_per_trade_max_loss_money plan)))).

Definition PerTradeMaxLossRule_evaluate (params : option RuleParams) (fr : Fresh)
    (ctx : RuleContext) : outcome RuleVerdict :=
  let h := PerTradeMaxLossRule_header in
  match ctx_latest_trade ctx with
  | None => Ret VPass
  | Some trade =>
      if negb (bool_decide (tr_trade_side trade = Exit)) then Ret VPass
      else
        match tr_exit_info trade with
        | None => Ret VPass
        | Some exit_info =>
            let loss := ex_realized_pnl exit_info in
            if dec_geb loss (dec_new 0 0) then Ret VPass
            else
              let! m := PerTradeMaxLossRule_effective_limit_money params ctx in
              match m with
              | None => Ret VPass
              | Some max_loss =>
                  let loss_abs := dec_abs loss in
                  let! tol := tolerance_money (PerTradeMaxLossRule_tolerance_cents params) in
                  let! bound := dadd max_loss tol in
                  if dec_gtb loss_abs bound then
                    let msg := "Per-trade max loss breach: trade lost {loss_abs} > max {max_loss}" in
                    Ret (if RuleContext_equity_is_broker_reported ctx
                         then VLiquidate (build_violation h fr ctx SevLiquidate msg)
                         else VWarn (build_violation h fr ctx SevWarning msg))
                  else
                    let! warn_threshold := dmul max_loss (dec_new 8 1) in
                    if dec_geb loss_abs warn_threshold then
                      Ret (VEarlyWarning (build_violation h fr ctx SevWarning
                             "Per-trade loss approaching limit: {loss_abs}/{max_loss}"))
                    else Ret VPass
              end
        end
  end.

Definition PerTradeMaxLossRule (params : option RuleParams) : Rule := {|
  rule_id := RuleId_named "per_trade_max_loss";
  rule_name := "Per-Trade Max Loss";
  rule_kind := VkCustom;
  rule_scope := PostTrade;
  rule_severity := SevHard;
  rule_priority := params_or params prm_priority 800;
  rule_tolerance_cents := PerTradeMaxLossRule_tolerance_cents params;
  rule_params := params;
  rule_is_enabled := PerTradeMaxLossRule_is_enabled params;
  rule_evaluate := PerTradeMaxLossRule_evaluate params;
|}.

(** ** Low-capitalisation exposure *)

Definition LowcapExposureRule_header : RuleHeader :=
  mkRuleHeader "lowcap_exposure" "Low-Capitalisation Asset Exposure" VkLowcapExposure.

Definition LowcapExposureRule_is_enabled (params : option RuleParams) (ctx : RuleContext)
    : outcome bool :=
  let set := bool_decide (is_Some (plan_lowcap_exposure_limit_pct (acc_plan (ctx_account ctx)))) in
  match params with
  | Some p => Ret (if negb (prm_enabled p) then false else set)
  | None => Ret set
  end.

(** The notional of the open low-cap positions of the account. *)
Definition LowcapExposureRule_notional (ctx : RuleContext) : outcome Decimal :=
  foldM (fun acc pos =>
           let spec := InstrumentRegistry_get (ctx_instruments ctx) (pos_symbol pos) in
           if ins_is_lowcap spec then
             let! x := dmul (pos_opened_quantity pos) (ins_contract_size spec) in
             let! notional := dmul x (pos_avg_entry_price pos) in
             dadd acc notional
           else Ret acc)
    (dec_new 0 0) (acc_open_positions (ctx_account ctx)).

Definition LowcapExposureRule_evaluate (params : option RuleParams) (fr : Fresh)
    (ctx : RuleContext) : outcome RuleVerdict :=
  let a := ctx_account ctx in
  match plan_lowcap_exposure_limit_pct (acc_plan a) with
  | None => Ret VPass
  | Some limit_pct =>
      let! lowcap_notional := LowcapExposureRule_notional ctx in
      let balance := acc_balance a in
      if dec_leb balance (dec_new 0 0) then Ret VPass
      else
        let! limit_dollars := dmul limit_pct balance in
        if dec_gtb lowcap_notional limit_dollars then
          let! _ := dmul limit_pct (dec_new 100 0) in
          Ret (VWarn (build_violation LowcapExposureRule_header fr ctx SevWarning
                 "Low-cap exposure ${lowcap_notional:.2} exceeds {}% of balance ${balance:.2} (cap ${limit_dollars:.2})"))
        else Ret VPass
  end.

Definition LowcapExposureRule (params : option RuleParams) : Rule := {|
  rule_id := RuleId_named "lowcap_exposure";
  rule_name := "Low-Capitalisation Asset Exposure";
  rule_kind := VkLowcapExposure;
  rule_scope := ScTick;
  rule_severity := SevWarning;
  rule_priority := 100;
  rule_tolerance_cents := 1;
  rule_params := params;
  rule_is_enabled := LowcapExposureRule_is_enabled params;
  rule_evaluate := LowcapExposureRule_evaluate params;
|}.

(** ** Total lots (plan_caps.rs) *)

Definition MaxTotalLotsRule_header : RuleHeader :=
  mkRuleHeader "max_total_lots" "Max Total Lots" VkMaxLotSize.

Definition MaxTotalLotsRule_effective_max_lots (params : option RuleParams)
    (ctx : RuleContext) : option Decimal :=
  effective_value params (plan_max_total_lots (acc_plan (ctx_account ctx))).

Definition MaxTotalLotsRule_is_enabled (params : option RuleParams) (ctx : RuleContext)
    : outcome bool :=
  match params with
  | Some p => Ret (prm_enabled p && bool_decide (is_Some (prm_value p)))
  | None => Ret (bool_decide (is_Some (plan_max_total_lots (acc_plan (ctx_account ctx)))))
  end.

Definition lots_of (ctx : RuleContext) (symbol : Symbol) (units : Quantity) : outcome Lots :=
  InstrumentSpec_units_to_lots (InstrumentRegistry_get (ctx_instruments ctx) symbol) units.

(** Open positions across all symbols plus the pending order, in lots. *)
Definition MaxTotalLotsRule_total (ctx : RuleContext) : outcome Lots :=
  let! open := foldM (fun acc p =>
                        let! l := lots_of ctx (pos_symbol p) (pos_open_quantity p) in
                        dadd acc l)
                 dec_zero (List.filter Position_is_open (ctx_open_positions ctx)) in
  match ctx_pending_order ctx with
  | Some o => let! l := lots_of ctx (ord_symbol o) (ord_quantity o) in dadd open l
  | None => Ret open
  end.

Definition MaxTotalLotsRule_evaluate (params : option RuleParams) (fr : Fresh)
    (ctx : RuleContext) : outcome RuleVerdict :=
  match MaxTotalLotsRule_effective_max_lots params ctx with
  | None => Ret VPass
  | Some max_lots =>
      let! total_lots := MaxTotalLotsRule_total ctx in
      if dec_gtb total_lots max_lots then
        Ret (VFail (build_violation MaxTotalLotsRule_header fr ctx SevHard
                      "Total exposure {} lots exceeds account limit {} lots"))
      else Ret VPass
  end.

Definition MaxTotalLotsRule (params : option RuleParams) : Rule := {|
  rule_id := RuleId_named "max_total_lots";
  rule_name := "Max Total Lots";
  rule_kind := VkMaxLotSize;
  rule_scope := PreTrade;
  rule_severity := SevHard;
  rule_priority := 100;
  rule_tolerance_cents := 1;
  rule_params := params;
  rule_is_enabled := MaxTotalLotsRule_is_enabled params;
  rule_evaluate := MaxTotalLotsRule_evaluate params;
|}.

(** ** Margin (plan_caps.rs) *)

Definition MarginRule_header : RuleHeader :=
  mkRuleHeader "margin" "Margin" VkCustom.

Definition MarginRule_is_enabled (ctx : RuleContext) : outcome bool := Ret true.

(** Notional of [units] at [price], divided by the plan's leverage. *)
Definition margin_of (ctx : RuleContext) (symbol : Symbol) (units : Quantity) (price : Price)
    : outcome Decimal :=
  let spec := InstrumentRegistry_get (ctx_instruments ctx) symbol in
  let! lots := InstrumentSpec_units_to_lots spec units in
  let! notional := InstrumentSpec_notional spec lots price in
  ddiv notional (dec_new (plan_leverage (acc_plan (ctx_account ctx))) 0).

Definition MarginRule_free_margin (ctx : RuleContext) : outcome Decimal :=
  let! used := foldM (fun used p =>
                        let! m := margin_of ctx (pos_symbol p) (pos_open_quantity p)
                                    (pos_avg_entry_price p) in
                        dadd used m)
                 dec_zero (List.filter Position_is_open (ctx_open_positions ctx)) in
  dsub (acc_equity (ctx_account ctx)) used.

Definition MarginRule_price (order : Order) : option Price :=
  match ord_avg_fill_price order with
  | Some p => Some p
  | None => match ord_order_type order with Limit price => Some price | _ => None end
  end.

Definition MarginRule_evaluate (fr : Fresh) (ctx : RuleContext) : outcome RuleVerdict :=
  match ctx_pending_order ctx with
  | None => Ret VPass
  | Some order =>
      if dec_leb (ord_quantity order) dec_zero then Ret VPass
      else
        match MarginRule_price order with
        | None => Ret VPass
        | Some price =>
            let! required_margin := margin_of ctx (ord_symbol order) (ord_quantity order) price in
            let! free := MarginRule_free_margin ctx in
            if dec_gtb required_margin free then
              Ret (VFail (build_violation MarginRule_header fr ctx SevHard
                     "Insufficient margin: order requires {required_margin} (notional {notional} at 1:{leverage}), free margin {free}"))
            else Ret VPass
        end
  end.

Definition MarginRule : Rule := {|
  rule_id := RuleId_named "margin";
  rule_name := "Margin";
  rule_kind := VkCustom;
  rule_scope := PreTrade;
  rule_severity := SevHard;
  rule_priority := 100;
  rule_tolerance_cents := 1;
  rule_params := None;
  rule_is_enabled := MarginRule_is_enabled;
  rule_evaluate := MarginRule_evaluate;
|}.

End LimitRules.
