(* ===== verification/PatternRules.v ===== *)
(** * Order-shape and trading-pattern rules

    src/rules/evaluators/hedging.rs, sl_required.rs, tp_required.rs,
    cross_account_hedging.rs, copy_trading.rs, hft_scalping.rs and
    grid_trading.rs. *)

From S2P Require Import Prelude.
From S2P Require Import Decimal.
From S2P Require Import Chrono.
From S2P Require Import Ids.
From S2P Require Import Domain.
From S2P Require Import Plan.
From S2P Require Import Account.
From S2P Require Import Violation.
From S2P Require Import Pack.
From S2P Require Import RuleApi.
#[local] Open Scope Z_scope.

Section PatternRules.
Context `{DecimalOps} `{!JsonOps} `{ChronoOps}.

(** ** Hedging *)

Definition HedgingRule_header : RuleHeader :=
  mkRuleHeader "hedging" "Hedging" VkHedging.

Definition HedgingRule_is_enabled (params : option RuleParams) (ctx : RuleContext)
    : outcome bool :=
  Ret (enabled_unless_allowed params (plan_hedging_allowed (acc_plan (ctx_account ctx)))).

Definition opposes (order : Order) (p : Position) : bool :=
  Position_is_open p
  && bool_decide (pos_symbol p = ord_symbol order)
  && negb (bool_decide (pos_side p = PositionSide_from_order (ord_side order))).

Definition HedgingRule_evaluate (params : option RuleParams) (fr : Fresh)
    (ctx : RuleContext) : outcome RuleVerdict :=
  if plan_hedging_allowed (acc_plan (ctx_account ctx)) then Ret VPass
  else
    match ctx_pending_order ctx with
    | None => Ret VPass
    | Some order =>
        if negb (OrderKind_is_open (ord_kind order)) then Ret VPass
        else if existsb (opposes order) (ctx_open_positions ctx) then
          Ret (VFail (build_violation HedgingRule_header fr ctx SevHard
                        "Hedging detected: opposing position exists on {}"))
        else Ret VPass
    end.

Definition HedgingRule (params : option RuleParams) : Rule := {|
  rule_id := RuleId_named "hedging";
  rule_name := "Hedging";
  rule_kind := VkHedging;
  rule_scope := PreTrade;
  rule_severity := SevHard;
  rule_priority := 100;
  rule_tolerance_cents := 1;
  rule_params := params;
  rule_is_enabled := HedgingRule_is_enabled params;
  rule_evaluate := HedgingRule_evaluate params;
|}.

(** ** Stop loss and take profit *)

Definition StopLossRequiredRule_header : RuleHeader :=
  mkRuleHeader "sl_required" "Stop-Loss Required" VkMissingStopLoss.

Definition StopLossRequiredRule_is_enabled (params : option RuleParams) (ctx : RuleContext)
    : outcome bool :=
  match params with
  | Some p => Ret (prm_enabled p)
  | None => Ret (plan_require_stop_loss (acc_plan (ctx_account ctx)))
  end.

Definition StopLossRequiredRule_evaluate (params : option RuleParams) (fr : Fresh)
    (ctx : RuleContext) : outcome RuleVerdict :=
  if negb (plan_require_stop_loss (acc_plan (ctx_account ctx))) then Ret VPass
  else
    match ctx_pending_order ctx with
    | None => Ret VPass
    | Some order =>
        if negb (OrderKind_is_open (ord_kind order)) then Ret VPass
        else
          match ord_stop_loss order with
          | None => Ret (VFail (build_violation StopLossRequiredRule_header fr ctx SevHard
                                  "Stop-loss not set on opening order"))
          | Some _ => Ret VPass
          end
    end.

Definition StopLossRequiredRule (params : option RuleParams) : Rule := {|
  rule_id := RuleId_named "sl_required";
  rule_name := "Stop-Loss Required";
  rule_kind := VkMissingStopLoss;
  rule_scope := PreTrade;
  rule_severity := SevHard;
  rule_priority := 100;
  rule_tolerance_cents := 1;
  rule_params := params;
  rule_is_enabled := StopLossRequiredRule_is_enabled params;
  rule_evaluate := StopLossRequiredRule_evaluate params;
|}.

Definition TakeProfitRequiredRule_header : RuleHeader :=
  mkRuleHeader "tp_required" "Take-Profit Required" VkMissingTakeProfit.

Definition TakeProfitRequiredRule_is_enabled (params : option RuleParams) (ctx : RuleContext)
    : outcome bool :=
  match params with
  | Some p => Ret (prm_enabled p)
  | None => Ret (plan_require_take_profit (acc_plan (ctx_account ctx)))
  end.

Definition TakeProfitRequiredRule_evaluate (params : option RuleParams) (fr : Fresh)
    (ctx : RuleContext) : outcome RuleVerdict :=
  if negb (plan_require_take_profit (acc_plan (ctx_account ctx))) then Ret VPass
  else
    match ctx_pending_order ctx with
    | None => Ret VPass
    | Some order =>
        if negb (OrderKind_is_open (ord_kind order)) then Ret VPass
        else
          match ord_take_profit order with
          | None => Ret (VWarn (build_violation TakeProfitRequiredRule_header fr ctx SevWarning
                                  "Take-profit not set on opening order"))
          | Some _ => Ret VPass
          end
    end.

Definition TakeProfitRequiredRule (params : option RuleParams) : Rule := {|
  rule_id := RuleId_named "tp_required";
  rule_name := "Take-Profit Required";
  rule_kind := VkMissingTakeProfit;
  rule_scope := PreTrade;
  rule_severity := SevWarning;
  rule_priority := 100;
  rule_tolerance_cents := 1;
  rule_params := params;
  rule_is_enabled := TakeProfitRequiredRule_is_enabled params;
  rule_evaluate := TakeProfitRequiredRule_evaluate params;
|}.

(** ** Cross-account hedging *)

Definition CrossAccountHedgingRule_header : RuleHeader :=
  mkRuleHeader "cross_account_hedging" "Cross-Account Hedging" VkCrossAccountHedging.

Definition CrossAccountHedgingRule_is_enabled (params : option RuleParams) (ctx : RuleContext)
    : outcome bool :=
  let flag := plan_cross_account_hedging_prohibited (acc_plan (ctx_account ctx)) in
  match params with
  | Some p => Ret (if negb (prm_enabled p) then false else flag)
  | None => Ret flag
  end.

Definition hedged_by (pos : Position) (ref_trade : Trade) : bool :=
  bool_decide (pos_symbol pos = tr_symbol ref_trade)
  && negb (bool_decide (pos_side pos = PositionSide_from_order (tr_side ref_trade))).

Definition hedged_symbols (ctx : RuleContext) : list string :=
  pos_symbol <$> List.filter (fun pos => existsb (hedged_by pos) (ctx_cross_reference_trades ctx))
                   (acc_open_positions (ctx_account ctx)).

Definition CrossAccountHedgingRule_evaluate (params : option RuleParams) (fr : Fresh)
    (ctx : RuleContext) : outcome RuleVerdict :=
  match hedged_symbols ctx with
  | [] => Ret VPass
  | _ => Ret (VWarn (build_violation CrossAccountHedgingRule_header fr ctx SevWarning
           "Cross-account hedging detected on {} symbol(s): {} (open position on this account hedged by opposing fill on a sibling account under the same tenant)"))
  end.

Definition CrossAccountHedgingRule (params : option RuleParams) : Rule := {|
  rule_id := RuleId_named "cross_account_hedging";
  rule_name := "Cross-Account Hedging";
  rule_kind := VkCrossAccountHedging;
  rule_scope := ScTick;
  rule_severity := SevWarning;
  rule_priority := 100;
  rule_tolerance_cents := 1;
  rule_params := params;
  rule_is_enabled := CrossAccountHedgingRule_is_enabled params;
  rule_evaluate := CrossAccountHedgingRule_evaluate params;
|}.

(** ** Copy trading *)

Definition CopyTradingRule_header : RuleHeader :=
  mkRuleHeader "copy_trading" "Copy Trading" VkCopyTrading.

Definition CopyTradingRule_effective_fail_threshold (params : option RuleParams) : outcome Z :=
  match params with
  | Some p =>
      let! n := RuleParams_effective_count p in
      let! v := ok_or (InvalidConfig "copy_trading: pack value is not a valid trade count")
                  (dec_to_i64 n) in
      Ret (as_usize v)
  | None => Ret 3
  end.

Definition CopyTradingRule_effective_window_seconds (params : option RuleParams) : Z :=
  default 5 (p ← params; d ← RuleParams_json_decimal p "window_seconds"; dec_to_i64 d).

Definition CopyTradingRule_is_enabled (params : option RuleParams) (ctx : RuleContext)
    : outcome bool :=
  Ret (enabled_unless_allowed params (plan_copy_trading_allowed (acc_plan (ctx_account ctx)))).

(** Whether the fill [reference] of another account matches [trade]. *)
Definition copy_trading_hit (trade : Trade) (window_seconds : Z) (reference : Trade)
    : outcome bool :=
  if bool_decide (tr_account_id reference = tr_account_id trade) then Ret false
  else if negb (bool_decide (tr_symbol reference = tr_symbol trade)) then Ret false
  else if negb (bool_decide (tr_side reference = tr_side trade)) then Ret false
  else if window_seconds <?
            Z.abs (num_seconds (ts_since (tr_executed_at reference) (tr_executed_at trade)))
  then Ret false
  else
    let! low := dsub dec_one (dec_new 10 2) in
    let! lower := dmul (tr_quantity reference) low in
    let! high := dadd dec_one (dec_new 10 2) in
    let! upper := dmul (tr_quantity reference) high in
    Ret (dec_geb (tr_quantity trade) lower && dec_leb (tr_quantity trade) upper).

Definition CopyTradingRule_evaluate (params : option RuleParams) (fr : Fresh)
    (ctx : RuleContext) : outcome RuleVerdict :=
  let h := CopyTradingRule_header in
  if plan_copy_trading_allowed (acc_plan (ctx_account ctx)) then Ret VPass
  else
    let! fail_threshold := CopyTradingRule_effective_fail_threshold params in
    let window_seconds := CopyTradingRule_effective_window_seconds params in
    match ctx_latest_trade ctx with
    | None => Ret VPass
    | Some trade =>
        let! matches := filterO (copy_trading_hit trade window_seconds)
                          (ctx_cross_reference_trades ctx) in
        let hits := Z.of_nat (length matches) in
        if fail_threshold <=? hits then
          Ret (VFail (build_violation h fr ctx SevHard
                 "Copy-trading pattern detected: {hits} correlated trades from other accounts within {window_seconds}s window"))
        else if 1 <=? hits then
          Ret (VWarn (build_violation h fr ctx SevWarning
                 "Suspicious trade correlation: {hits} reference trades from other accounts within {window_seconds}s window"))
        else Ret VPass
    end.

Definition CopyTradingRule (params : option RuleParams) : Rule := {|
  rule_id := RuleId_named "copy_trading";
  rule_name := "Copy Trading";
  rule_kind := VkCopyTrading;
  rule_scope := PostTrade;
  rule_severity := SevHard;
  rule_priority := 100;
  rule_tolerance_cents := 1;
  rule_params := params;
  rule_is_enabled := CopyTradingRule_is_enabled params;
  rule_evaluate := CopyTradingRule_evaluate params;
|}.

(** ** High-frequency trading and scalping *)

Definition HftScalpingRule_header : RuleHeader :=
  mkRuleHeader "hft_scalping" "HFT / Scalping" VkCustom.

Definition HftScalpingRule_effective_min_round_trip_seconds (params : option RuleParams)
    (ctx : RuleContext) : Z :=
  let secs := plan_hft_min_round_trip_seconds (acc_plan (ctx_account ctx)) in
  let fallback := if secs <? 2 ^ 63 then secs else 60 in
  default fallback (p ← params; v ← prm_value p; dec_to_i64 v).

Definition HftScalpingRule_effective_max_closes_per_minute (params : option RuleParams) : Z :=
  match params with
  | Some p =>
      match json_get_u64 (prm_params_json p) "max_closes_per_minute" with
      | Some n => as_u32 n
      | None => 10
      end
  | None => 10
  end.

Definition HftScalpingRule_is_enabled (params : option RuleParams) (ctx : RuleContext)
    : outcome bool :=
  match params with
  | Some p => Ret (prm_enabled p)
  | None => Ret (plan_hft_ban_enabled (acc_plan (ctx_account ctx)))
  end.

Definition in_time_window (from to : Timestamp) (t : Trade) : bool :=
  ts_geb (tr_executed_at t) from && ts_leb (tr_executed_at t) to.

(** The entries on the symbol of [trade] in the round-trip window before it. *)
Definition fast_round_trips (ctx : RuleContext) (trade : Trade) (from : Timestamp) : list Trade :=
  List.filter (fun t => bool_decide (tr_symbol t = tr_symbol trade)
                        && in_time_window from (tr_executed_at trade) t
                        && bool_decide (tr_trade_side t = Entry))
    (ctx_today_trades ctx).

Definition recent_closes (ctx : RuleContext) (trade : Trade) (from : Timestamp) : list Trade :=
  List.filter (fun t => in_time_window from (tr_executed_at trade) t
                        && bool_decide (tr_trade_side t = Exit))
    (ctx_today_trades ctx).

Definition HftScalpingRule_evaluate (params : option RuleParams) (fr : Fresh)
    (ctx : RuleContext) : outcome RuleVerdict :=
  let h := HftScalpingRule_header in
  match ctx_latest_trade ctx with
  | None => Ret VPass
  | Some trade =>
      let min_round_trip := HftScalpingRule_effective_min_round_trip_seconds params ctx in
      let max_closes := HftScalpingRule_effective_max_closes_per_minute params in
      let now := tr_executed_at trade in
      let! fast :=
        if bool_decide (tr_trade_side trade = Exit) then
          let! d := unwrap (dur_seconds min_round_trip) in
          let! window_start := unwrap (ts_sub now d) in
          Ret (as_u32 (Z.of_nat (length (fast_round_trips ctx trade window_start))))
        else Ret 0 in
      if 0 <? fast then
        Ret (VWarn (build_violation h fr ctx SevWarning
               "HFT pattern: round-trip on {} faster than {}s ({} entries in window)"))
      else
        let! d := unwrap (dur_minutes 1) in
        let! window_start := unwrap (ts_sub now d) in
        let closes := as_u32 (Z.of_nat (length (recent_closes ctx trade window_start))) in
        if max_closes <? closes then
          Ret (VWarn (build_violation h fr ctx SevWarning
                 "Scalping pattern: {recent_closes} closes in the last minute (cap {max_closes})"))
        else Ret VPass
  end.

Definition HftScalpingRule (params : option RuleParams) : Rule := {|
  rule_id := RuleId_named "hft_scalping";
  rule_name := "HFT / Scalping";
  rule_kind := VkCustom;
  rule_scope := PostTrade;
  rule_severity := SevWarning;
  rule_priority := params_or params prm_priority 100;
  rule_tolerance_cents := params_or params prm_tolerance_cents 0;
  rule_params := params;
  rule_is_enabled := HftScalpingRule_is_enabled params;
  rule_evaluate := HftScalpingRule_evaluate params;
|}.

(** ** Grid and martingale *)

Definition GridTradingRule_header : RuleHeader :=
  mkRuleHeader "grid_trading" "Grid Trading" VkGridTrading.

Definition GridTradingRule_effective_min_entries (params : option RuleParams) : outcome Z :=
  match params with
  | Some p =>
      let! n := RuleParams_effective_count p in
      let! v := ok_or (InvalidConfig "grid_trading: pack value is not a valid entry count")
                  (dec_to_i64 n) in
      Ret (as_usize v)
  | None => Ret 3
  end.

Definition GridTradingRule_knob (params : option RuleParams) (key : string) (d : Decimal)
    : Decimal :=
  default d (p ← params; RuleParams_json_decimal p key).

Definition GridTradingRule_effective_cv_threshold (params : option RuleParams) : Decimal :=
  GridTradingRule_knob params "cv_threshold" (dec_new 5 2).

Definition GridTradingRule_effective_max_window_minutes (params : option RuleParams) : Z :=
  default 120 (dec_to_i64 (GridTradingRule_knob params "max_window_minutes" (dec_new 120 0))).

Definition GridTradingRule_effective_escalation_losses (params : option RuleParams) : Z :=
  match dec_to_i64 (GridTradingRule_knob params "escalation_losses" (dec_new 2 0)) with
  | Some v => Z.max v 1
  | None => 2
  end.

Definition GridTradingRule_effective_escalation_multiplier (params : option RuleParams) : Decimal :=
  GridTradingRule_knob params "escalation_multiplier" (dec_new 15 1).

Definition GridTradingRule_effective_severity (params : option RuleParams) : ViolationSeverity :=
  match params with
  | Some p =>
      let from_json :=
        v ← RuleParams_json_decimal p "severity_hard";
        Some (if dec_geb v (dec_new 1 0) then "hard" else "warning")%string in
      let sev :=
        match to_ascii_lowercase <$> prm_severity p with
        | Some s => if negb (bool_decide (s = ""%string)) then Some s else from_json
        | None => from_json
        end in
      if bool_decide (sev = Some "hard"%string) then SevHard else SevWarning
  | None => SevWarning
  end.

(** [sort_by_key(|t| t.executed_at)]: a stable insertion sort. *)
Fixpoint insert_by_time (t : Trade) (l : list Trade) : list Trade :=
  match l with
  | [] => [t]
  | u :: l' =>
      if ts_ltb (tr_executed_at t) (tr_executed_at u) then t :: l
      else u :: insert_by_time t l'
  end.

Definition sort_by_time (l : list Trade) : list Trade :=
  fold_left (fun acc t => insert_by_time t acc) l [].

(** [prices.windows(2).map(|w| (w[1] - w[0]).abs())]. *)
Fixpoint price_gaps (prices : list Decimal) : outcome (list Decimal) :=
  match prices with
  | a :: ((b :: _) as rest) =>
      let! d := dsub b a in
      let! gs := price_gaps rest in
      Ret (dec_abs d :: gs)
  | _ => Ret []
  end.

Definition dmean (l : list Decimal) : outcome Decimal :=
  let! s := dsum l in ddiv s (dec_new (Z.of_nat (length l)) 0).

(** The last [n] elements, in order. *)
Definition last_n {A} (n : nat) (l : list A) : list A := drop (length l - n) l.

Definition GridTradingRule_detect_grid (params : option RuleParams) (ctx : RuleContext)
    (symbol : Symbol) (min_entries : Z) : outcome (option (list Decimal)) :=
  let cv_threshold := GridTradingRule_effective_cv_threshold params in
  let now := ctx_server_time ctx in
  let! window := unwrap (dur_minutes (GridTradingRule_effective_max_window_minutes params)) in
  let entries :=
    sort_by_time
      (List.filter (fun t => bool_decide (tr_symbol t = symbol)
                             && bool_decide (tr_trade_side t = Entry)
                             && dur_leb (ts_since now (tr_executed_at t)) window)
         (ctx_today_trades ctx)) in
  if Z.of_nat (length entries) <? min_entries then Ret None
  else
    let! gaps := price_gaps (tr_price <$> last_n 5 entries) in
    match gaps with
    | [] => Ret None
    | _ =>
        let! mean := dmean gaps in
        if dec_is_zero mean then Ret None
        else
          let! squares := mapO (fun g => let! d := dsub g mean in dmul d d) gaps in
          let! var := dmean squares in
          let std := default (dec_new 0 0) (dec_sqrt var) in
          let! cv := ddiv std mean in
          Ret (if dec_ltb cv cv_threshold then Some gaps else None)
    end.

(** The quantities of the run of losing exits that ends [exits_rev], newest
    first. *)
Fixpoint losing_run (exits_rev : list Trade) : outcome (list Decimal) :=
  match exits_rev with
  | [] => Ret []
  | t :: rest =>
      let! net := Trade_net_pnl t in
      if dec_ltb net dec_zero then
        let! more := losing_run rest in Ret (tr_quantity t :: more)
      else Ret []
  end.

Definition GridTradingRule_detect_escalation (params : option RuleParams) (ctx : RuleContext)
    (symbol : Symbol) : outcome bool :=
  let need_losses := GridTradingRule_effective_escalation_losses params in
  let multiplier := GridTradingRule_effective_escalation_multiplier params in
  let of_symbol side := List.filter (fun t => bool_decide (tr_symbol t = symbol)
                                              && bool_decide (tr_trade_side t = side))
                          (ctx_today_trades ctx) in
  let! loss_sizes := losing_run (rev (sort_by_time (of_symbol Exit))) in
  if Z.of_nat (length loss_sizes) <? need_losses then Ret false
  else
    match last loss_sizes with
    | None => Ret false
    | Some first_loss_size =>
        let newest_entry_size :=
          fold_left dec_max (tr_quantity <$> of_symbol Entry) dec_zero in
        let! bound := dmul first_loss_size multiplier in
        if dec_geb newest_entry_size bound then
          let! _ := ddiv newest_entry_size (dec_max first_loss_size (dec_new 1 4)) in
          Ret true
        else Ret false
    end.

Definition GridTradingRule_is_enabled (params : option RuleParams) (ctx : RuleContext)
    : outcome bool :=
  Ret (enabled_unless_allowed params (plan_grid_trading_allowed (acc_plan (ctx_account ctx)))).

Definition GridTradingRule_evaluate (params : option RuleParams) (fr : Fresh)
    (ctx : RuleContext) : outcome RuleVerdict :=
  let h := GridTradingRule_header in
  if plan_grid_trading_allowed (acc_plan (ctx_account ctx)) then Ret VPass
  else
    let! min_entries := GridTradingRule_effective_min_entries params in
    match ctx_pending_order ctx with
    | None => Ret VPass
    | Some order =>
        let symbol := ord_symbol order in
        let sev := GridTradingRule_effective_severity params in
        let! grid := GridTradingRule_detect_grid params ctx symbol min_entries in
        match grid with
        | Some gaps =>
            let! _ := dmean gaps in
            Ret (VWarn (build_violation h fr ctx sev
                   "Potential grid trading detected on {symbol}: uniform entry spacing over {} entries (CV={cv}, mean gap {mean})"))
        | None =>
            let! esc := GridTradingRule_detect_escalation params ctx symbol in
            if esc then
              Ret (VWarn (build_violation h fr ctx sev
                     "Martingale pattern detected on {symbol}: {losses} consecutive losses followed by an escalated entry ({ratio:.2}× the first loss size)"))
            else Ret VPass
        end
    end.

Definition GridTradingRule (params : option RuleParams) : Rule := {|
  rule_id := RuleId_named "grid_trading";
  rule_name := "Grid Trading";
  rule_kind := VkGridTrading;
  rule_scope := PreTrade;
  rule_severity := GridTradingRule_effective_severity params;
  rule_priority := 100;
  rule_tolerance_cents := 1;
  rule_params := params;
  rule_is_enabled := GridTradingRule_is_enabled params;
  rule_evaluate := GridTradingRule_evaluate params;
|}.

End PatternRules.
