(* ===== verification/Registry.v ===== *)
(** * The rule registry (src/rules/registry.rs)

    The registry keeps the rules in a vector with an index map from rule
    identifiers; indexing a vector out of range panics.  [evaluate] runs the
    enabled and applicable rules in order and catches their panics. *)

From S2P Require Import Prelude.
From S2P Require Import Decimal.
From S2P Require Import Chrono.
From S2P Require Import Ids.
From S2P Require Import Domain.
From S2P Require Import Plan.
From S2P Require Import Account.
From S2P Require Import Violation.
From S2P Require Import Pack.
From S2P Require Import RuleApi.
#[local] Open Scope Z_scope.
From S2P Require Import DrawdownRules.
From S2P Require Import TargetRules.
From S2P Require Import TimeRules.
From S2P Require Import LimitRules.
From S2P Require Import PatternRules.

Section Registry.
Context `{DecimalOps} `{!JsonOps} `{ChronoOps}.

(** ** The rule library *)

(** [from_entry] of each rule: the rule of an entry of a pack.  The trading
    hours and margin rules take no parameters. *)

Definition DailyDrawdownRule_from_entry (e : RuleEntry) : Rule := DailyDrawdownRule (Some (RuleParams_from_entry e)).
Definition MaxDrawdownRule_from_entry (e : RuleEntry) : Rule := MaxDrawdownRule (Some (RuleParams_from_entry e)).
Definition TrailingDrawdownRule_from_entry (e : RuleEntry) : Rule := TrailingDrawdownRule (Some (RuleParams_from_entry e)).
Definition ProfitTargetRule_from_entry (e : RuleEntry) : Rule := ProfitTargetRule (Some (RuleParams_from_entry e)).
Definition MinTradingDaysRule_from_entry (e : RuleEntry) : Rule := MinTradingDaysRule (Some (RuleParams_from_entry e)).
Definition ConsistencyRule_from_entry (e : RuleEntry) : Rule := ConsistencyRule (Some (RuleParams_from_entry e)).
Definition NewsTradingRule_from_entry (e : RuleEntry) : Rule := NewsTradingRule (Some (RuleParams_from_entry e)).
Definition OvernightHoldingRule_from_entry (e : RuleEntry) : Rule := OvernightHoldingRule (Some (RuleParams_from_entry e)).
Definition WeekendHoldingRule_from_entry (e : RuleEntry) : Rule := WeekendHoldingRule (Some (RuleParams_from_entry e)).
Definition MaxPositionSizeRule_from_entry (e : RuleEntry) : Rule := MaxPositionSizeRule (Some (RuleParams_from_entry e)).
Definition MaxOpenPositionsRule_from_entry (e : RuleEntry) : Rule := MaxOpenPositionsRule (Some (RuleParams_from_entry e)).
Definition MaxDailyTradesRule_from_entry (e : RuleEntry) : Rule := MaxDailyTradesRule (Some (RuleParams_from_entry e)).
Definition TimeLimitRule_from_entry (e : RuleEntry) : Rule := TimeLimitRule (Some (RuleParams_from_entry e)).
Definition CooldownRule_from_entry (e : RuleEntry) : Rule := CooldownRule (Some (RuleParams_from_entry e)).
Definition HedgingRule_from_entry (e : RuleEntry) : Rule := HedgingRule (Some (RuleParams_from_entry e)).
Definition GridTradingRule_from_entry (e : RuleEntry) : Rule := GridTradingRule (Some (RuleParams_from_entry e)).
Definition CopyTradingRule_from_entry (e : RuleEntry) : Rule := CopyTradingRule (Some (RuleParams_from_entry e)).
Definition StopLossRequiredRule_from_entry (e : RuleEntry) : Rule := StopLossRequiredRule (Some (RuleParams_from_entry e)).
Definition TakeProfitRequiredRule_from_entry (e : RuleEntry) : Rule := TakeProfitRequiredRule (Some (RuleParams_from_entry e)).
Definition HftScalpingRule_from_entry (e : RuleEntry) : Rule := HftScalpingRule (Some (RuleParams_from_entry e)).
Definition PerTradeMaxLossRule_from_entry (e : RuleEntry) : Rule := PerTradeMaxLossRule (Some (RuleParams_from_entry e)).
Definition InactivityRule_from_entry (e : RuleEntry) : Rule := InactivityRule (Some (RuleParams_from_entry e)).
Definition MaxTotalLotsRule_from_entry (e : RuleEntry) : Rule := MaxTotalLotsRule (Some (RuleParams_from_entry e)).
Definition TradingHoursRule_from_entry (_ : RuleEntry) : Rule := TradingHoursRule.
Definition MarginRule_from_entry (_ : RuleEntry) : Rule := MarginRule.
Definition MinProfitableDaysRule_from_entry (e : RuleEntry) : Rule := MinProfitableDaysRule (Some (RuleParams_from_entry e)).
Definition CrossAccountHedgingRule_from_entry (e : RuleEntry) : Rule := CrossAccountHedgingRule (Some (RuleParams_from_entry e)).
Definition LowcapExposureRule_from_entry (e : RuleEntry) : Rule := LowcapExposureRule (Some (RuleParams_from_entry e)).

(** A factory builds the rule of an entry; the standard ones never fail. *)
Definition RuleFactory : Type := RuleEntry → outcome Rule.

Definition default_factory_for_kind (kind : string) : option RuleFactory :=
  if bool_decide (kind = "daily_drawdown"%string) then Some (fun e => Ret (DailyDrawdownRule_from_entry e))
  else if bool_decide (kind = "max_drawdown"%string) then Some (fun e => Ret (MaxDrawdownRule_from_entry e))
  else if bool_decide (kind = "trailing_drawdown"%string) then Some (fun e => Ret (TrailingDrawdownRule_from_entry e))
  else if bool_decide (kind = "profit_target"%string) then Some (fun e => Ret (ProfitTargetRule_from_entry e))
  else if bool_decide (kind = "min_trading_days"%string) then Some (fun e => Ret (MinTradingDaysRule_from_entry e))
  else if bool_decide (kind = "consistency"%string) then Some (fun e => Ret (ConsistencyRule_from_entry e))
  else if bool_decide (kind = "news_trading"%string) then Some (fun e => Ret (NewsTradingRule_from_entry e))
  else if bool_decide (kind = "overnight_holding"%string) then Some (fun e => Ret (OvernightHoldingRule_from_entry e))
  else if bool_decide (kind = "weekend_holding"%string) then Some (fun e => Ret (WeekendHoldingRule_from_entry e))
  else if bool_decide (kind = "max_position_size"%string) then Some (fun e => Ret (MaxPositionSizeRule_from_entry e))
  else if bool_decide (kind = "max_open_positions"%string) then Some (fun e => Ret (MaxOpenPositionsRule_from_entry e))
  else if bool_decide (kind = "max_daily_trades"%string) then Some (fun e => Ret (MaxDailyTradesRule_from_entry e))
  else if bool_decide (kind = "time_limit"%string) then Some (fun e => Ret (TimeLimitRule_from_entry e))
  else if bool_decide (kind = "cooldown"%string) then Some (fun e => Ret (CooldownRule_from_entry e))
  else if bool_decide (kind = "hedging"%string) then Some (fun e => Ret (HedgingRule_from_entry e))
  else if bool_decide (kind = "grid_trading"%string) then Some (fun e => Ret (GridTradingRule_from_entry e))
  else if bool_decide (kind = "copy_trading"%string) then Some (fun e => Ret (CopyTradingRule_from_entry e))
  else if bool_decide (kind = "sl_required"%string) then Some (fun e => Ret (StopLossRequiredRule_from_entry e))
  else if bool_decide (kind = "tp_required"%string) then Some (fun e => Ret (TakeProfitRequiredRule_from_entry e))
  else if bool_decide (kind = "hft_scalping"%string) then Some (fun e => Ret (HftScalpingRule_from_entry e))
  else if bool_decide (kind = "per_trade_max_loss"%string) then Some (fun e => Ret (PerTradeMaxLossRule_from_entry e))
  else if bool_decide (kind = "inactivity"%string) then Some (fun e => Ret (InactivityRule_from_entry e))
  else if bool_decide (kind = "max_total_lots"%string) then Some (fun e => Ret (MaxTotalLotsRule_from_entry e))
  else if bool_decide (kind = "trading_hours"%string) then Some (fun e => Ret (TradingHoursRule_from_entry e))
  else if bool_decide (kind = "margin"%string) then Some (fun e => Ret (MarginRule_from_entry e))
  else None.

(** The factories of a list of kinds, or one error naming every kind without
    one. *)
Definition default_factories_for_kinds (kind_names : list string)
    : outcome (list (string * RuleFactory)) :=
  let out := omap (fun k => pair k <$> default_factory_for_kind k) kind_names in
  let unsupported :=
    List.filter (fun k => negb (bool_decide (is_Some (default_factory_for_kind k)))) kind_names in
  match unsupported with
  | [] => Ret out
  | _ :: _ =>
      Err (InvalidConfig ("rule pack references unsupported rule kind(s): "
             +:+ String.concat ", " unsupported
             +:+ " — these rules would NOT be enforced; fix the pack or upgrade the engine"))
  end.

Definition default_rules : list Rule :=
  [ DailyDrawdownRule None; MaxDrawdownRule None; TrailingDrawdownRule None;
    ProfitTargetRule None; MinTradingDaysRule None; MinProfitableDaysRule None;
    ConsistencyRule None; NewsTradingRule None; OvernightHoldingRule None;
    WeekendHoldingRule None; MaxPositionSizeRule None; MaxOpenPositionsRule None;
    MaxDailyTradesRule None; TimeLimitRule None; CooldownRule None; HedgingRule None;
    GridTradingRule None; CopyTradingRule None; StopLossRequiredRule None;
    TakeProfitRequiredRule None; HftScalpingRule None; PerTradeMaxLossRule None;
    InactivityRule None; MaxTotalLotsRule None; TradingHoursRule; MarginRule;
    CrossAccountHedgingRule None; LowcapExposureRule None ].

(** ** The registry *)

Record RuleRegistry := mkRuleRegistry {
  reg_rules : list Rule;
  reg_by_id : gmap Z nat;
}.

Definition RuleRegistry_empty : RuleRegistry := mkRuleRegistry [] ∅.

(** [v[i] = x] and [v[i]]: panic out of range. *)
Definition vec_set {A} (i : nat) (x : A) (l : list A) : outcome (list A) :=
  if decide (i < length l)%nat then Ret (<[i := x]> l) else Panic.
Definition vec_get {A} (i : nat) (l : list A) : outcome A := unwrap (l !! i).

Definition RuleRegistry_register (r : RuleRegistry) (rule : Rule) : outcome RuleRegistry :=
  let id := rule_id rule in
  match reg_by_id r !! id with
  | Some idx =>
      let! rules := vec_set idx rule (reg_rules r) in
      Ret (mkRuleRegistry rules (reg_by_id r))
  | None =>
      let idx := length (reg_rules r) in
      Ret (mkRuleRegistry (reg_rules r ++ [rule]) (<[id := idx]> (reg_by_id r)))
  end.

(** The reindexing loop: [by_id.insert(r.id(), i)] for each rule. *)
Fixpoint reindex_from (i : nat) (rules : list Rule) (m : gmap Z nat) : gmap Z nat :=
  match rules with
  | [] => m
  | r :: rules' => reindex_from (S i) rules' (<[rule_id r := i]> m)
  end.

Definition RuleRegistry_unregister (r : RuleRegistry) (id : RuleId) : outcome RuleRegistry :=
  match reg_by_id r !! id with
  | Some idx =>
      if decide (idx < length (reg_rules r))%nat then
        let rules := delete idx (reg_rules r) in
        Ret (mkRuleRegistry rules (reindex_from 0 rules ∅))
      else Panic
  | None => Ret r
  end.

Definition RuleRegistry_with_default_rules : outcome RuleRegistry :=
  foldM RuleRegistry_register RuleRegistry_empty default_rules.

(** Whether the plan drops an opt-in rule ([continue] in the source). *)
Definition plan_drops (plan : ChallengePlan) (id : RuleId) : bool :=
  let named k := bool_decide (id = RuleId_named k) in
  let unset {A} (o : option A) := negb (bool_decide (is_Some o)) in
  (named "hft_scalping"%string && negb (plan_hft_ban_enabled plan))
  || (named "per_trade_max_loss"%string && unset (plan_per_trade_max_loss_pct plan)
      && unset (plan_per_trade_max_loss_money plan))
  || (named "inactivity"%string && unset (plan_inactivity_days plan))
  || (named "min_profitable_days"%string && unset (plan_min_profitable_days plan))
  || (named "cross_account_hedging"%string && negb (plan_cross_account_hedging_prohibited plan))
  || (named "lowcap_exposure"%string && unset (plan_lowcap_exposure_limit_pct plan))
  || (named "hedging"%string && plan_hedging_allowed plan)
  || (named "grid_trading"%string && plan_grid_trading_allowed plan)
  || (named "copy_trading"%string && plan_copy_trading_allowed plan)
  || (named "news_trading"%string && plan_news_trading_allowed plan)
  || (named "cooldown"%string && (plan_cooldown_seconds plan =? 0)).

Definition RuleRegistry_with_default_rules_for_plan (plan : ChallengePlan)
    : outcome RuleRegistry :=
  foldM (fun r rule =>
           if plan_drops plan (rule_id rule) then Ret r else RuleRegistry_register r rule)
    RuleRegistry_empty default_rules.

Definition RuleRegistry_build_from_pack (pack : RulePack) : outcome RuleRegistry :=
  foldM (fun r entry =>
           if negb (re_enabled entry) then Ret r
           else
             let! factory := ok_or (InvalidConfig "rule pack {} references unsupported rule kind '{}' — the rule would silently not be enforced")
                               (default_factory_for_kind (re_kind entry)) in
             let! rule := factory entry in
             RuleRegistry_register r rule)
    RuleRegistry_empty (rp_rules pack).

Definition RuleRegistry_get (r : RuleRegistry) (id : RuleId) : outcome (option Rule) :=
  match reg_by_id r !! id with
  | Some i => let! rule := vec_get i (reg_rules r) in Ret (Some rule)
  | None => Ret None
  end.

Definition RuleRegistry_all (r : RuleRegistry) : list Rule := reg_rules r.

Definition scope_of_kind (kind : RuleContextKind) : EvaluationScope :=
  match kind with
  | OnOrderSubmit => PreTrade
  | OnTradeFill => PostTrade
  | OnTick => ScTick
  | OnDayRollover | OnEndOfDay => Periodic
  | OnDemand => ScDemand
  end.

Definition RuleRegistry_applicable (r : RuleRegistry) (kind : RuleContextKind) : list Rule :=
  let scope := scope_of_kind kind in
  List.filter (fun rule => bool_decide (rule_scope rule = scope)
                           || bool_decide (rule_scope rule = ScDemand)) (reg_rules r).

(** ** Evaluation *)

(** The applicability test of the evaluation loop. *)
Definition scope_applicable (kind : RuleContextKind) (scope : EvaluationScope) : bool :=
  match kind with
  | OnDemand => true
  | _ => bool_decide (scope = scope_of_kind kind) || bool_decide (scope = ScDemand)
  end.

Definition RuleRegistry_failure_verdict (rule : Rule) (base : Violation) : RuleVerdict :=
  let policy := params_or (rule_params rule) prm_failure_policy "warn"%string in
  if bool_decide (policy = "soft_fail"%string) then VSoftFail base
  else if bool_decide (policy = "fail"%string) then VFail base
  else if bool_decide (policy = "gap_flagged"%string) then VGapFlagged base
  else VWarn base.

Definition failure_violation (fr : Fresh) (ctx : RuleContext) (rule : Rule) (msg : string)
    : Violation :=
  Violation_with_tenant
    (Violation_new (fr_uuid fr) 0 (acc_id (ctx_account ctx)) (rule_id rule) (rule_name rule)
       (rule_kind rule) SevWarning msg (ctx_server_time ctx))
    (acc_tenant_id (ctx_account ctx)).

(** One rule's verdict: its own, or the failure policy's when it errs or
    panics ([catch_unwind]). *)
Definition rule_verdict (fr : Fresh) (ctx : RuleContext) (rule : Rule) : outcome RuleVerdict :=
  match rule_evaluate rule fr ctx with
  | Ret v => Ret v
  | Err e =>
      Ret (RuleRegistry_failure_verdict rule
             (failure_violation fr ctx rule "rule evaluation error: {e}"))
  | Panic =>
      Ret (RuleRegistry_failure_verdict rule
             (failure_violation fr ctx rule
                "rule panicked (caught by registry, process preserved): {panic_msg}"))
  | OutOfFuel => OutOfFuel
  end.

Definition rule_report (now : Timestamp) (ctx : RuleContext) (rule : Rule) (v : RuleVerdict)
    : RuleReport :=
  RuleReport_with_metadata
    (RuleReport_with_priority
       (RuleReport_new_at (rule_id rule) (rule_name rule) v (rule_scope rule) now)
       (rule_priority rule))
    "kind" (RuleContextKind_display (ctx_kind ctx)).

(** The evaluation loop over the rules from position [i]; [fresh i] is what
    the [i]-th evaluation draws. *)
Fixpoint evaluate_rules (fresh : nat → Fresh) (now : Timestamp) (ctx : RuleContext)
    (i : nat) (rules : list Rule) : outcome (list RuleReport) :=
  match rules with
  | [] => Ret []
  | rule :: rules' =>
      let! enabled := rule_is_enabled rule ctx in
      if negb enabled then evaluate_rules fresh now ctx (S i) rules'
      else if negb (scope_applicable (ctx_kind ctx) (rule_scope rule)) then
        evaluate_rules fresh now ctx (S i) rules'
      else
        let! v := rule_verdict (fresh i) ctx rule in
        let! reports := evaluate_rules fresh now ctx (S i) rules' in
        Ret (rule_report now ctx rule v :: reports)
  end.

Definition RuleRegistry_evaluate (fresh : nat → Fresh) (now : Timestamp) (r : RuleRegistry)
    (ctx : RuleContext) : outcome (list RuleReport) :=
  evaluate_rules fresh now ctx 0 (reg_rules r).

End Registry.
