(* ===== verification/Decision.v ===== *)
(** * Decisions (src/engine/decision.rs)

    [Decision::from_reports] sorts the verdicts of an evaluation into
    categories and picks the winner of the highest one.  The lemmas relate
    the sequence of early returns to the rank of a category. *)

From S2P Require Import Prelude.
From S2P Require Import Decimal.
From S2P Require Import Chrono.
From S2P Require Import Ids.
From S2P Require Import Domain.
From S2P Require Import Plan.
From S2P Require Import Account.
From S2P Require Import Violation.
From S2P Require Import Pack.
From S2P Require Import RuleApi.
#[local] Open Scope Z_scope.

Inductive DecisionKind : Type :=
| DkPass | DkWarn | DkEarlyWarning | DkTargetHit | DkFail | DkSoftFail | DkGapFlagged
| DkLiquidate | DkEmergency.

#[global] Instance DecisionKind_eq_dec : EqDecision DecisionKind.
Proof. solve_decision. Defined.

Definition DecisionKind_is_pass (k : DecisionKind) : bool :=
  match k with DkPass => true | _ => false end.
Definition DecisionKind_is_warn (k : DecisionKind) : bool :=
  match k with DkWarn => true | _ => false end.
Definition DecisionKind_is_early_warning (k : DecisionKind) : bool :=
  match k with DkEarlyWarning => true | _ => false end.
Definition DecisionKind_is_fail (k : DecisionKind) : bool :=
  match k with DkFail => true | _ => false end.
Definition DecisionKind_is_gap_flagged (k : DecisionKind) : bool :=
  match k with DkGapFlagged => true | _ => false end.
Definition DecisionKind_is_liquidate (k : DecisionKind) : bool :=
  match k with DkLiquidate => true | _ => false end.
Definition DecisionKind_is_emergency (k : DecisionKind) : bool :=
  match k with DkEmergency => true | _ => false end.
Definition DecisionKind_is_soft_fail (k : DecisionKind) : bool :=
  match k with DkSoftFail => true | _ => false end.
Definition DecisionKind_is_target_hit (k : DecisionKind) : bool :=
  match k with DkTargetHit => true | _ => false end.
Definition DecisionKind_is_terminating (k : DecisionKind) : bool :=
  match k with DkFail | DkLiquidate | DkEmergency => true | _ => false end.

(** [DecisionKind::intrinsic_weight]. *)
Definition DecisionKind_intrinsic_weight (k : DecisionKind) : Z :=
  match k with
  | DkEmergency => 10000
  | DkLiquidate => 1000
  | DkFail => 900
  | DkSoftFail => 850
  | DkGapFlagged => 800
  | DkTargetHit => 100
  | DkEarlyWarning => 50
  | DkWarn => 40
  | DkPass => 0
  end.

Section Decision.
Context `{DecimalOps} `{ChronoOps}.

Inductive DecisionReason : Type :=
| AllRulesPassed
| Warnings (vs : list Violation)
| EarlyWarnings (vs : list Violation)
| TargetHitReached (v : Violation)
| HardViolation (v : Violation)
| SoftFailReached (v : Violation)
| LiquidationRequested (v : Violation)
| EmergencyStopReached (v : Violation)
| GapFlaggedReached (v : Violation).

Record Decision := mkDecision {
  dec_kind : DecisionKind;
  dec_reason : DecisionReason;
  dec_winning_priority : Z;
  dec_all_violations : list Violation;
}.

(** The vectors the loop over the reports fills. *)
Record Buckets := mkBuckets {
  bk_all : list Violation;
  bk_emergencies : list (Z * Violation);
  bk_liquidates : list (Z * Violation);
  bk_fails : list (Z * Violation);
  bk_soft_fails : list (Z * Violation);
  bk_target_hits : list (Z * Violation);
  bk_early_warnings : list (Z * Violation);
  bk_gap_flagged : list (Z * Violation);
  bk_warnings : list (Z * Violation);
}.

#[global] Instance Buckets_settable : Settable Buckets := fun r =>
  mkBuckets (bk_all r) (bk_emergencies r) (bk_liquidates r) (bk_fails r)
    (bk_soft_fails r) (bk_target_hits r) (bk_early_warnings r) (bk_gap_flagged r)
    (bk_warnings r).

Definition Buckets_empty : Buckets := mkBuckets [] [] [] [] [] [] [] [] [].

Definition bucket_step (b : Buckets) (r : RuleReport) : Buckets :=
  let prio := rr_priority r in
  let push v := b <| bk_all := bk_all b ++ [v] |> in
  match rr_verdict r with
  | VEmergency v => (push v) <| bk_emergencies := bk_emergencies b ++ [(prio, v)] |>
  | VLiquidate v => (push v) <| bk_liquidates := bk_liquidates b ++ [(prio, v)] |>
  | VFail v => (push v) <| bk_fails := bk_fails b ++ [(prio, v)] |>
  | VSoftFail v => (push v) <| bk_soft_fails := bk_soft_fails b ++ [(prio, v)] |>
  | VTargetHit v => (push v) <| bk_target_hits := bk_target_hits b ++ [(prio, v)] |>
  | VEarlyWarning v => (push v) <| bk_early_warnings := bk_early_warnings b ++ [(prio, v)] |>
  | VGapFlagged v => (push v) <| bk_gap_flagged := bk_gap_flagged b ++ [(prio, v)] |>
  | VWarn v => (push v) <| bk_warnings := bk_warnings b ++ [(prio, v)] |>
  | VPass | VSkip => b
  end.

(** [list.iter().max_by(|a, b| a.0.cmp(&b.0))]: the last of the maxima. *)
Definition max_by_step (best x : Z * Violation) : Z * Violation :=
  if x.1 <? best.1 then best else x.

Definition pick_winner (l : list (Z * Violation)) : option (Z * Violation) :=
  match l with
  | [] => None
  | x :: l' => Some (fold_left max_by_step l' x)
  end.

Definition Decision_from_reports (reports : list RuleReport) : Decision :=
  let b := fold_left bucket_step reports Buckets_empty in
  let all := bk_all b in
  match pick_winner (bk_emergencies b) with
  | Some (p, v) => mkDecision DkEmergency (EmergencyStopReached v) p all
  | None =>
  match pick_winner (bk_liquidates b) with
  | Some (p, v) => mkDecision DkLiquidate (LiquidationRequested v) p all
  | None =>
  match pick_winner (bk_fails b) with
  | Some (p, v) => mkDecision DkFail (HardViolation v) p all
  | None =>
  match pick_winner (bk_soft_fails b) with
  | Some (p, v) => mkDecision DkSoftFail (SoftFailReached v) p all
  | None =>
  match pick_winner (bk_gap_flagged b) with
  | Some (p, v) => mkDecision DkGapFlagged (GapFlaggedReached v) p all
  | None =>
  match pick_winner (bk_target_hits b) with
  | Some (p, v) => mkDecision DkTargetHit (TargetHitReached v) p all
  | None =>
  match pick_winner (bk_early_warnings b) with
  | Some (p, _) => mkDecision DkEarlyWarning (EarlyWarnings (snd <$> bk_early_warnings b)) p all
  | None =>
  match pick_winner (bk_warnings b) with
  | Some (p, _) => mkDecision DkWarn (Warnings (snd <$> bk_warnings b)) p all
  | None => mkDecision DkPass AllRulesPassed 0 all
  end end end end end end end end.

Definition Decision_default : Decision := mkDecision DkPass AllRulesPassed 0 [].

Definition Decision_is_pass (d : Decision) : bool := DecisionKind_is_pass (dec_kind d).
Definition Decision_is_target_hit (d : Decision) : bool := DecisionKind_is_target_hit (dec_kind d).
Definition Decision_violations (d : Decision) : list Violation := dec_all_violations d.
Definition Decision_is_terminating (d : Decision) : bool := DecisionKind_is_terminating (dec_kind d).

Definition Decision_account_status_target (d : Decision) : option AccountStatus :=
  match dec_kind d with
  | DkFail | DkLiquidate => Some StFailed
  | DkEmergency => Some StEmergencyStopped
  | _ => None
  end.

Definition severity_max (a b : ViolationSeverity) : ViolationSeverity :=
  if severity_rank b <? severity_rank a then a else b.

Definition Decision_max_severity (d : Decision) : option ViolationSeverity :=
  match vio_severity <$> dec_all_violations d with
  | [] => None
  | s :: l => Some (fold_left severity_max l s)
  end.

(** ** Categories: the specification of the choice *)

(** The category of a verdict and the violation it carries. *)
Definition verdict_kind (v : RuleVerdict) : DecisionKind :=
  match v with
  | VPass | VSkip => DkPass
  | VWarn _ => DkWarn
  | VFail _ => DkFail
  | VSoftFail _ => DkSoftFail
  | VLiquidate _ => DkLiquidate
  | VTargetHit _ => DkTargetHit
  | VEmergency _ => DkEmergency
  | VEarlyWarning _ => DkEarlyWarning
  | VGapFlagged _ => DkGapFlagged
  end.

(** The entries of category [k], in report order. *)
Definition entries_of (k : DecisionKind) (reports : list RuleReport) : list (Z * Violation) :=
  omap (fun r => v ← RuleVerdict_violation (rr_verdict r);
                 if bool_decide (verdict_kind (rr_verdict r) = k)
                 then Some (rr_priority r, v) else None) reports.

(** The categories, highest first. *)
Definition kind_order : list DecisionKind :=
  [DkEmergency; DkLiquidate; DkFail; DkSoftFail; DkGapFlagged; DkTargetHit;
   DkEarlyWarning; DkWarn].

(** The abstract choice: the first category with an entry. *)
Fixpoint first_category (ks : list DecisionKind) (reports : list RuleReport)
    : option (DecisionKind * (Z * Violation)) :=
  match ks with
  | [] => None
  | k :: ks' =>
      match pick_winner (entries_of k reports) with
      | Some w => Some (k, w)
      | None => first_category ks' reports
      end
  end.

Definition all_violations_of (reports : list RuleReport) : list Violation :=
  omap (fun r => RuleVerdict_violation (rr_verdict r)) reports.

(** ** Lemmas *)

Lemma omap_snoc {A B} (f : A → option B) l x :
  omap f (l ++ [x]) = omap f l ++ omap f [x].
Proof. apply omap_app. Qed.

Lemma buckets_spec reports :
  fold_left bucket_step reports Buckets_empty =
  mkBuckets (all_violations_of reports)
    (entries_of DkEmergency reports) (entries_of DkLiquidate reports)
    (entries_of DkFail reports) (entries_of DkSoftFail reports)
    (entries_of DkTargetHit reports) (entries_of DkEarlyWarning reports)
    (entries_of DkGapFlagged reports) (entries_of DkWarn reports).
Proof.
  induction reports as [|r reports IH] using rev_ind; [done|].
  rewrite fold_left_app, IH. unfold entries_of, all_violations_of. rewrite !omap_app.
  simpl. unfold bucket_step. destruct (rr_verdict r); simpl; by rewrite ?app_nil_r.
Qed.

Lemma from_reports_spec reports :
  dec_all_violations (Decision_from_reports reports) = all_violations_of reports ∧
  match first_category kind_order reports with
  | Some (k, (p, v)) =>
      dec_kind (Decision_from_reports reports) = k ∧
      dec_winning_priority (Decision_from_reports reports) = p
  | None =>
      dec_kind (Decision_from_reports reports) = DkPass ∧
      dec_winning_priority (Decision_from_reports reports) = 0
  end.
Proof.
  unfold Decision_from_reports, kind_order. rewrite buckets_spec. simpl.
  repeat match goal with
  | |- context [pick_winner ?l] => destruct (pick_winner l) as [[??]|]; [done|]
  end. done.
Qed.

Lemma pick_winner_None l : pick_winner l = None ↔ l = [].
Proof. by destruct l. Qed.

Lemma max_by_fold_spec l x :
  fold_left max_by_step l x ∈ x :: l ∧ ∀ y, y ∈ x :: l → y.1 ≤ (fold_left max_by_step l x).1.
Proof.
  revert x. induction l as [|z l IH]; intros x; simpl.
  { split; [set_solver|]. intros y ->%list_elem_of_singleton. done. }
  destruct (IH (max_by_step x z)) as [Hin Hmax]. split.
  - apply elem_of_cons in Hin as [->|Hin]; [|set_solver].
    unfold max_by_step. destruct (z.1 <? x.1); set_solver.
  - assert (x.1 ≤ (max_by_step x z).1 ∧ z.1 ≤ (max_by_step x z).1) as [Hx Hz].
    { unfold max_by_step. destruct (z.1 <? x.1) eqn:E; lia. }
    assert ((max_by_step x z).1 ≤ (fold_left max_by_step l (max_by_step x z)).1) as Hm
      by (apply Hmax; set_solver).
    intros y [->|[->|Hy]%elem_of_cons]%elem_of_cons; [lia|lia|]. apply Hmax. set_solver.
Qed.

Lemma pick_winner_spec l w :
  pick_winner l = Some w → w ∈ l ∧ ∀ y, y ∈ l → y.1 ≤ w.1.
Proof. destruct l as [|x l]; intros; simplify_eq/=. apply max_by_fold_spec. Qed.

Lemma entries_of_elem k reports p v :
  (p, v) ∈ entries_of k reports ↔
  ∃ r, r ∈ reports ∧ rr_priority r = p
     ∧ RuleVerdict_violation (rr_verdict r) = Some v ∧ verdict_kind (rr_verdict r) = k.
Proof.
  unfold entries_of. rewrite list_elem_of_omap. split.
  - intros (r & Hr & E). exists r. destruct (RuleVerdict_violation _); simplify_eq/=.
    case_bool_decide; naive_solver.
  - intros (r & Hr & <- & Hv & Hk). exists r. split; [done|]. rewrite Hv. simpl.
    by rewrite bool_decide_true.
Qed.

End Decision.
