(* ===== verification/State.v ===== *)
(** * State transitions (src/engine/state.rs) and payouts (src/payout.rs)

    [AccountState] wraps one [Account] and is transparent here.  Each method
    that consumes and returns the state is a function on accounts; those that
    compute with decimals or dates return an [outcome].  [u32] counters wrap,
    as in a release build. *)

From S2P Require Import Prelude.
From S2P Require Import Decimal.
From S2P Require Import Chrono.
From S2P Require Import Ids.
From S2P Require Import Domain.
From S2P Require Import Plan.
From S2P Require Import Account.
From S2P Require Import Violation.
From S2P Require Import Pack.
From S2P Require Import RuleApi.
#[local] Open Scope Z_scope.

Section State.
Context `{DecimalOps} `{ChronoOps}.

(** ** Balance and equity *)

Definition raise_peak_balance (a : Account) : Account :=
  if dec_gtb (acc_balance a) (acc_peak_balance a)
  then a <| acc_peak_balance := acc_balance a |> else a.

Definition AccountState_apply_realized_pnl (a : Account) (pnl commission swap : Money)
    (at_ : Timestamp) : outcome Account :=
  let! x := dsub pnl commission in
  let! net := dsub x swap in
  let! balance := dadd (acc_balance a) net in
  let a := a <| acc_balance := balance |> in
  let a := a <| acc_equity := acc_balance a |> in
  let a := raise_peak_balance a in
  let! today := dadd (acc_today_realized_pnl a) net in
  let a := a <| acc_today_realized_pnl := today |> in
  let! total := dadd (acc_total_realized_pnl a) net in
  let a := a <| acc_total_realized_pnl := total |> in
  let! commissions := dadd (acc_total_commissions a) commission in
  let a := a <| acc_total_commissions := commissions |> in
  let! swaps := dadd (acc_total_swaps a) swap in
  let a := a <| acc_total_swaps := swaps |> in
  Ret (a <| acc_last_trade_at := Some at_ |>).

Definition AccountState_update_equity (a : Account) (equity : Money) : Account :=
  let a := a <| acc_equity := equity |> in
  let a := if dec_gtb equity (acc_peak_equity a)
           then a <| acc_peak_equity := equity |> else a in
  if dec_gtb equity (acc_intraday_peak_equity a)
  then a <| acc_intraday_peak_equity := equity |> else a.

Definition AccountState_set_estimated_equity (a : Account) (equity balance : Money) : Account :=
  a <| acc_estimated_equity := equity |> <| acc_estimated_balance := balance |>.

Definition AccountState_update_balance (a : Account) (balance : Money) : Account :=
  raise_peak_balance (a <| acc_balance := balance |>).

(** ** Trading days *)

(** One threshold of a qualifying day: [abs_pnl >= pct * initial], true when
    the plan does not set it. *)
Definition qualifying_threshold_ok (threshold : option Pct) (initial abs_pnl : Decimal)
    : outcome bool :=
  match threshold with
  | Some t => let! x := dmul t initial in Ret (dec_geb abs_pnl x)
  | None => Ret true
  end.

(** The bookkeeping of a finished day that had trades. *)
Definition freeze_day (a : Account) : outcome Account :=
  let today_net := acc_today_realized_pnl a in
  let a := if dec_gtb today_net (acc_largest_day_profit a)
           then a <| acc_largest_day_profit := today_net |> else a in
  let a := if dec_ltb today_net (acc_largest_day_loss a)
           then a <| acc_largest_day_loss := today_net |> else a in
  let! a :=
    if dec_gtb today_net dec_zero then
      let! s := dadd (acc_sum_positive_days_profit a) today_net in
      Ret (a <| acc_sum_positive_days_profit := s |>
             <| acc_profitable_days_count := u32_succ (acc_profitable_days_count a) |>)
    else Ret a in
  let plan := acc_plan a in
  let! a :=
    if bool_decide (is_Some (plan_qualifying_day_threshold_pct plan))
       || bool_decide (is_Some (plan_qualifying_day_pnl_band_pct plan)) then
      let initial := acc_initial_balance a in
      let abs_pnl := dec_abs today_net in
      let! notional_ok :=
        qualifying_threshold_ok (plan_qualifying_day_threshold_pct plan) initial abs_pnl in
      let! band_ok :=
        qualifying_threshold_ok (plan_qualifying_day_pnl_band_pct plan) initial abs_pnl in
      Ret (if notional_ok && band_ok
           then a <| acc_qualifying_trading_days_count
                       := u32_succ (acc_qualifying_trading_days_count a) |>
           else a)
    else Ret a in
  Ret (if negb (acc_day_counted_today a)
       then a <| acc_active_trading_days := u32_succ (acc_active_trading_days a) |> else a).

(** The reset at the boundary. *)
Definition reset_day (a : Account) : Account :=
  a <| acc_trading_day_index := u32_succ (acc_trading_day_index a) |>
    <| acc_day_start_balance := acc_balance a |>
    <| acc_day_start_equity := acc_equity a |>
    <| acc_intraday_peak_equity := acc_equity a |>
    <| acc_today_realized_pnl := dec_zero |>
    <| acc_today_trades := [] |>
    <| acc_day_counted_today := false |>.

(** [now] stands for the reading of the wall clock in the [None] branch. *)
Definition AccountState_rollover_day (now : Timestamp) (a : Account) (had_trades_today : bool)
    (target_ts : option Timestamp) : outcome Account :=
  let! a := if had_trades_today then freeze_day a else Ret a in
  let a := reset_day a in
  let! start :=
    match target_ts with
    | Some ts => ChallengePlan_trading_day_start (acc_plan a) ts
    | None =>
        let! current :=
          match acc_current_trading_day_start a with
          | Some c => Ret c
          | None => ChallengePlan_trading_day_start (acc_plan a) now
          end in
        ChallengePlan_next_trading_day_start (acc_plan a) current
    end in
  Ret (a <| acc_current_trading_day_start := Some start |>).

Definition AccountState_rollover_day_single (now : Timestamp) (a : Account)
    (had_trades_today : bool) : outcome Account :=
  AccountState_rollover_day now a had_trades_today None.

Definition AccountState_mark_active_trading_day (a : Account) : Account :=
  if negb (acc_day_counted_today a) then
    a <| acc_active_trading_days := u32_succ (acc_active_trading_days a) |>
      <| acc_day_counted_today := true |>
  else a.

(** ** Lifecycle *)

Definition AccountState_upgrade_phase (a : Account) (to : ChallengePhase) : outcome Account :=
  match plan_phase (acc_plan a), to with
  | Phase1, Phase2 | Phase2, FundedPhase =>
      Ret (a <| acc_plan := ChallengePlan_with_phase (acc_plan a) to |>
             <| acc_account_type := match to with
                                    | Phase1 => AtPhase1
                                    | Phase2 => AtPhase2
                                    | FundedPhase => AtFunded
                                    end |>)
  | _, _ => Err (InvalidState "invalid phase transition: {from:?} -> {to:?}")
  end.

Definition AccountState_mark_target_reached (a : Account) (at_ : Timestamp) : Account :=
  match acc_target_reached_at a with
  | None =>
      let a := a <| acc_target_reached_at := Some at_ |>
                 <| acc_target_reached_on_day := Some (acc_trading_day_index a) |> in
      if bool_decide (acc_status a = StActive)
      then a <| acc_status := StTargetHitPending |> else a
  | Some _ => a
  end.

Definition AccountState_emergency_stop (a : Account) : Account :=
  let a := match acc_status_before_breach a with
           | None => a <| acc_status_before_breach := Some (acc_status a) |>
           | Some _ => a
           end in
  a <| acc_status := StEmergencyStopped |>.

Definition AccountState_clear_breach (a : Account) : outcome Account :=
  match acc_status a with
  | StFailed | StEmergencyStopped =>
      let fallback :=
        if bool_decide (acc_account_type a = AtFunded) then StFunded else StActive in
      Ret (a <| acc_status := default fallback (acc_status_before_breach a) |>
             <| acc_status_before_breach := None |>)
  | _ => Err (InvalidState "cannot clear breach from status {other:?} — only Failed/EmergencyStopped are clearable")
  end.

Definition AccountState_terminate (a : Account) (status : AccountStatus) : Account :=
  a <| acc_status := status |>.

Definition AccountState_mark_payout_pending (a : Account) : outcome Account :=
  match acc_status a with
  | StFunded => Ret (a <| acc_status := StPayoutPending |>)
  | StPayoutPending => Ret a
  | _ => Err (InvalidState "cannot request a payout from status {other:?} — only funded accounts can be paid")
  end.

Record StateDelta := mkStateDelta {
  sd_balance : Money;
  sd_equity : Money;
  sd_peak_balance : Money;
  sd_peak_equity : Money;
  sd_total_realized : Money;
}.

Definition StateDelta_empty : StateDelta :=
  mkStateDelta dec_zero dec_zero dec_zero dec_zero dec_zero.

Definition AccountState_delta (a : Account) : StateDelta :=
  mkStateDelta (acc_balance a) (acc_equity a) (acc_peak_balance a) (acc_peak_equity a)
    (acc_total_realized_pnl a).

(** ** Estimation *)

Definition equity_after_tick (balance : Money) (positions : list Position) (quote : Quote)
    : outcome Money :=
  let! unreal := foldM (fun acc p => let! x := Position_unrealized_pnl p quote in dadd acc x)
                   dec_zero (List.filter Position_is_open positions) in
  dadd balance unreal.

(** ** Payouts *)

Inductive PayoutError : Type :=
| BelowMinimum (minimum : Money)
| CycleNotReached (next_allowed_at : Timestamp)
| NoProfit.

Record Payout := mkPayout {
  po_id : ViolationId;
  po_account_id : AccountId;
  po_profit_basis : Money;
  po_trader_share : Decimal;
  po_fee_refund : Money;
  po_amount : Money;
  po_requested_at : Timestamp;
  po_approved_at : option Timestamp;
}.

Record PayoutQuote := mkPayoutQuote {
  pq_profit_basis : Money;
  pq_trader_share : Decimal;
  pq_fee_refund : Money;
  pq_amount : Money;
  pq_rejected : option PayoutError;
}.

(** The cycle check of [quote_payout]. *)
Definition payout_cycle_check (config : PayoutConfig) (last_payout_at : option Timestamp)
    (now : Timestamp) : outcome (option PayoutError) :=
  let! gap := PayoutCycle_min_gap (pc_cycle config) in
  match gap, last_payout_at with
  | Some gap, Some last =>
      let! next_allowed := unwrap (ts_add last gap) in
      Ret (if ts_ltb now next_allowed then Some (CycleNotReached next_allowed) else None)
  | _, _ => Ret None
  end.

Definition quote_payout (account : Account) (config : PayoutConfig)
    (last_payout_at : option Timestamp) (balance_at_last_payout : option Money)
    (refund_used : bool) (now : Timestamp) : outcome PayoutQuote :=
  let reference := default (acc_initial_balance account) balance_at_last_payout in
  let! d := dsub (acc_balance account) reference in
  let profit_basis := dec_max d dec_zero in
  let trader_share := PayoutConfig_trader_share_for config (acc_payout_count account) in
  let fee_refund :=
    if (acc_payout_count account =? 0) && negb refund_used
    then plan_refund_fee_amount (acc_plan account) else dec_zero in
  let! x := dmul profit_basis trader_share in
  let! amount := dadd x fee_refund in
  let! rejected :=
    if dec_leb profit_basis dec_zero then Ret (Some NoProfit)
    else if dec_ltb amount (pc_minimum_payout config) then
      Ret (Some (BelowMinimum (pc_minimum_payout config)))
    else payout_cycle_check config last_payout_at now in
  Ret (mkPayoutQuote profit_basis trader_share fee_refund amount rejected).

(** [saturating_add(1)] on [u32]. *)
Definition u32_saturating_succ (x : Z) : Z := Z.min (x + 1) u32_max.

Definition record_payout (account : Account) (amount fee_refund : Money) (at_ : Timestamp)
    : outcome Account :=
  if negb (bool_decide (acc_status account = StFunded))
     && negb (bool_decide (acc_status account = StPayoutPending)) then
    Err (InvalidState "payouts are only available to funded accounts (status = {:?})")
  else
    let a := account <| acc_payout_count := u32_saturating_succ (acc_payout_count account) |>
                     <| acc_balance_at_last_payout := acc_balance account |>
                     <| acc_last_payout_at := Some at_ |> in
    let! x := dsub (acc_balance a) amount in
    let! balance := dadd x fee_refund in
    let a := a <| acc_balance := balance |> in
    Ret (if bool_decide (acc_status a = StPayoutPending)
         then a <| acc_status := StFunded |> else a).

End State.
