(* ===== verification/Pipeline.v ===== *)
(** * The pipeline (src/engine/pipeline.rs, evaluator.rs, snapshot.rs)

    [process] applies one event to an account: automatic day rollover, the
    event's own transition, evaluation of the rules on the resulting
    context, and the transition the decision asks for.  Every reading of the
    wall clock is a separate component of [Env]; the event store and the
    notifier are the two collaborators of the pipeline record. *)

From S2P Require Import Prelude.
From S2P Require Import Decimal.
From S2P Require Import Chrono.
From S2P Require Import Ids.
From S2P Require Import Domain.
From S2P Require Import Plan.
From S2P Require Import Account.
From S2P Require Import Violation.
From S2P Require Import Pack.
From S2P Require Import RuleApi.
#[local] Open Scope Z_scope.
From S2P Require Import DrawdownRules.
From S2P Require Import Registry.
From S2P Require Import Decision.
From S2P Require Import State.

Definition STALE_TICK_THRESHOLD_MINUTES : Z := 10.

Section Pipeline.
Context `{DecimalOps} `{!JsonOps} `{ChronoOps}.

(** ** Evaluator and snapshot *)

Record EvaluationResult := mkEvaluationResult {
  er_reports : list RuleReport;
  er_decision : Decision;
}.

Definition EvaluationResult_passed (r : EvaluationResult) : bool :=
  Decision_is_pass (er_decision r).

Definition EvaluationResult_failed (r : EvaluationResult) : bool :=
  Decision_is_terminating (er_decision r).

Definition EvaluationResult_violations (r : EvaluationResult) : list Violation :=
  omap (fun rep => RuleVerdict_violation (rr_verdict rep)) (er_reports r).

(** [Evaluator::evaluate]; the evaluator is its registry. *)
Definition Evaluator_evaluate (fresh : nat → Fresh) (now : Timestamp) (registry : RuleRegistry)
    (ctx : RuleContext) : outcome EvaluationResult :=
  let! reports := RuleRegistry_evaluate fresh now registry ctx in
  Ret (mkEvaluationResult reports (Decision_from_reports reports)).

Record Snapshot := mkSnapshot {
  snap_account_id : AccountId;
  snap_at : Timestamp;
  snap_account : AccountSnapshot;
  snap_decision : Decision;
}.

Definition Snapshot_new (account : Account) (decision : Decision) (now : Timestamp)
    : outcome Snapshot :=
  let! snap := AccountSnapshot_from account in
  Ret (mkSnapshot (acc_id account) now snap decision).

(** ** Events *)

Inductive PipelineEvent : Type :=
| PeAccountStarted (at_ : Timestamp)
| PeOrderSubmitted (order : Order)
| PeTradeFilled (trade : Trade)
| PeTick (tick : Tick) (broker_equity broker_balance : Money)
| PeTickEstimated (tick : Tick)
| PeDayRollover (had_trades_today : bool)
| PeEndOfDay
| PeOnDemand
| PeEmergencyStop (reason actor_id : string) (at_ : Timestamp)
| PeOverrideBreach (override_record : Override)
| PePayoutRequest
| PePayoutApprove.

(** [now] is the reading of the wall clock for the events without a time. *)
Definition PipelineEvent_event_timestamp (ev : PipelineEvent) (now : Timestamp) : Timestamp :=
  match ev with
  | PeAccountStarted at_ => at_
  | PeOrderSubmitted order => ord_submitted_at order
  | PeTradeFilled trade => tr_executed_at trade
  | PeTick tick _ _ => q_ts (tick_quote tick)
  | PeTickEstimated tick => q_ts (tick_quote tick)
  | PeDayRollover _ => now
  | PeEndOfDay => now
  | PeOnDemand => now
  | PeEmergencyStop _ _ at_ => at_
  | PeOverrideBreach o => ov_at o
  | PePayoutRequest | PePayoutApprove => now
  end.

(** What one call of [process] draws from its surroundings: readings of the
    wall clock by call site, the evaluations' fresh values, and the identifier
    of a position it opens. *)
Record Env := mkEnv {
  env_now_process : Timestamp;
  env_now_apply : Timestamp;
  env_now_stale : Timestamp;
  env_now_rollover : Timestamp;
  env_now_rollover_event : Timestamp;
  env_now_payout : Timestamp;
  env_now_context : Timestamp;
  env_now_reports : Timestamp;
  env_now_decision_event : Timestamp;
  env_now_snapshot : Timestamp;
  env_fresh : nat → Fresh;
  env_position_id : PositionId;
}.

Record AppliedEvent := mkAppliedEvent {
  ae_state : Account;
  ae_ctx_kind : RuleContextKind;
  ae_open_positions : list Position;
  ae_today_trades : list Trade;
  ae_recent_events : list DomainEvent;
  ae_trade_fill : option (Trade * Position);
  ae_events : list DomainEvent;
}.

Record PipelineResult := mkPipelineResult {
  pr_snapshot : Snapshot;
  pr_events : list DomainEvent;
  pr_result : EvaluationResult;
  pr_account : Account;
}.

Definition PipelineResult_passed (r : PipelineResult) : bool :=
  EvaluationResult_passed (pr_result r).
Definition PipelineResult_failed (r : PipelineResult) : bool :=
  EvaluationResult_failed (pr_result r).

Record Pipeline := mkPipeline {
  pl_registry : RuleRegistry;
  pl_notify_violation : Violation → outcome unit;
  pl_recent : AccountId → Z → outcome (list DomainEvent);
}.

(** ** Applying a decision *)

Definition next_phase_for (phase : ChallengePhase) : ChallengePhase :=
  match phase with
  | Phase1 => Phase2
  | Phase2 => FundedPhase
  | FundedPhase => Phase1
  end.

(** The account after a promotion to the next phase. *)
Definition reset_for_phase (a : Account) : Account :=
  a <| acc_status := StActive |>
    <| acc_target_reached_at := None |>
    <| acc_target_reached_on_day := None |>
    <| acc_active_trading_days := 0 |>
    <| acc_trading_day_index := 0 |>
    <| acc_day_counted_today := false |>
    <| acc_today_realized_pnl := dec_zero |>
    <| acc_largest_day_profit := dec_zero |>
    <| acc_largest_day_loss := dec_zero |>
    <| acc_sum_positive_days_profit := dec_zero |>
    <| acc_day_start_balance := acc_balance a |>
    <| acc_day_start_equity := acc_equity a |>
    <| acc_current_trading_day_start := None |>
    <| acc_peak_equity := acc_equity a |>
    <| acc_peak_balance := acc_balance a |>.

(** First step: a target hit marks the account. *)
Definition decision_target_step (a : Account) (d : Decision) (server_time : Timestamp)
    : Account * list DomainEvent :=
  if Decision_is_target_hit d then
    (AccountState_mark_target_reached a server_time,
     [DomainEvent_new (acc_id a) (EvAccountStatusChanged (acc_status a) StTargetHitPending)
        server_time])
  else (a, []).

(** Whether a marked account has done its minimum days. *)
Definition promotion_due (a : Account) : bool :=
  bool_decide (is_Some (acc_target_reached_at a))
  && bool_decide (acc_status a = StTargetHitPending)
  && (plan_min_trading_days (acc_plan a) <=? acc_active_trading_days a).

(** Second step: promotion to the next phase. *)
Definition decision_promotion_step (a : Account) (server_time : Timestamp)
    : outcome (Account * list DomainEvent) :=
  if promotion_due a then
    let from_status := acc_status a in
    let from_phase := plan_phase (acc_plan a) in
    let a := a <| acc_status := StPassed |> in
    let e1 := DomainEvent_new (acc_id a) (EvAccountStatusChanged from_status StPassed) server_time in
    let next_phase := next_phase_for from_phase in
    let! a := map_err (fun _ => InvalidState "phase upgrade failed: {e}")
                (AccountState_upgrade_phase a next_phase) in
    let a := reset_for_phase a in
    let e2 := DomainEvent_new (acc_id a) (EvPlanUpgraded from_phase next_phase) server_time in
    Ret (a, [e1; e2])
  else Ret (a, []).

Definition liquidation_reason (d : Decision) : LiquidationReason :=
  match dec_kind d with
  | DkLiquidate =>
      let violation :=
        match List.find (fun v => severity_geb (vio_severity v) SevLiquidate)
                (dec_all_violations d) with
        | Some v => Some v
        | None => head (dec_all_violations d)
        end in
      RuleBreach (match violation with Some v => vio_kind v | None => VkCustom end)
  | DkEmergency => EmergencyStopReason
  | _ => Manual
  end.

(** Third step: a terminating decision sets the status and, for liquidation,
    emits the instruction. *)
Definition decision_terminate_step (a : Account) (d : Decision) (server_time : Timestamp)
    (actor_id : string) : outcome (Account * list DomainEvent) :=
  match Decision_account_status_target d with
  | Some target_status =>
      let from := acc_status a in
      let a := if bool_decide (target_status = StFailed)
                  || bool_decide (target_status = StEmergencyStopped)
               then a <| acc_status_before_breach := Some from |> else a in
      let a := a <| acc_status := target_status |> in
      let e := DomainEvent_new (acc_id a) (EvAccountStatusChanged from target_status) server_time in
      match dec_kind d with
      | DkLiquidate | DkEmergency =>
          let triggered_by := vio_id <$> head (dec_all_violations d) in
          let! instruction :=
            LiquidationInstruction_new (acc_id a) (acc_tenant_id a) (acc_open_positions a)
              (liquidation_reason d) triggered_by actor_id server_time in
          Ret (a, [e; DomainEvent_new (acc_id a) (EvLiquidationRequested instruction) server_time])
      | _ => Ret (a, [e])
      end
  | None => Ret (a, [])
  end.

Definition apply_decision (state : Account) (decision : Decision) (server_time : Timestamp)
    (actor_id : string) : outcome (Account * list DomainEvent) :=
  let '(a, ev1) := decision_target_step state decision server_time in
  let! (a, ev2) := decision_promotion_step a server_time in
  let! (a, ev3) := decision_terminate_step a decision server_time actor_id in
  Ret (a, ev1 ++ ev2 ++ ev3).

(** ** Automatic rollover *)

(** The [while] loop: [first] is [first_rollover]. *)
Fixpoint rollover_loop (fuel : nat) (now : Timestamp) (event_ts event_day_start : Timestamp)
    (first : bool) (a : Account) : outcome Account :=
  if match acc_current_trading_day_start a with
     | Some start => ts_ltb start event_day_start
     | None => true
     end
  then
    match fuel with
    | O => OutOfFuel
    | S fuel' =>
        let had_trades := if first then negb (dec_is_zero (acc_today_realized_pnl a)) else false in
        let! current := unwrap (acc_current_trading_day_start a) in
        let! next_start := ChallengePlan_next_trading_day_start (acc_plan a) current in
        let! a' :=
          if ts_geb next_start event_day_start
          then AccountState_rollover_day now a had_trades (Some event_ts)
          else AccountState_rollover_day now a had_trades (Some next_start) in
        rollover_loop fuel' now event_ts event_day_start false a'
    end
  else Ret a.

Definition is_day_rollover (ev : PipelineEvent) : bool :=
  match ev with PeDayRollover _ => true | _ => false end.

Definition auto_rollover (fuel : nat) (env : Env) (ev : PipelineEvent) (a : Account)
    : outcome (Account * list DomainEvent) :=
  if is_day_rollover ev then Ret (a, [])
  else
    let event_ts := PipelineEvent_event_timestamp ev (env_now_process env) in
    let! event_day_start := ChallengePlan_trading_day_start (acc_plan a) event_ts in
    let! current_day_start :=
      match acc_current_trading_day_start a with
      | Some c => Ret c
      | None => ChallengePlan_trading_day_start (acc_plan a) event_ts
      end in
    if ts_gtb event_day_start current_day_start then
      let! a' := rollover_loop fuel (env_now_rollover env) event_ts event_day_start true a in
      Ret (a', [DomainEvent_new (acc_id a)
                  (EvDayRollover (acc_trading_day_index a') (acc_day_start_balance a')) event_ts])
    else Ret (a, []).

(** ** Applying an event *)

(** The closed position an exit produces. *)
Definition close_position (open_positions : list Position) (trade : Trade)
    (exit_info : TradeExit) : Position :=
  match List.find (fun p => bool_decide (pos_id p = ex_position_id exit_info)) open_positions with
  | Some pos =>
      pos <| pos_status := PsClosed |>
          <| pos_closed_at := Some (tr_executed_at trade) |>
          <| pos_realized_pnl := ex_realized_pnl exit_info |>
          <| pos_open_quantity := dec_zero |>
  | None =>
      {| pos_id := ex_position_id exit_info;
         pos_account_id := tr_account_id trade;
         pos_symbol := tr_symbol trade;
         pos_side := PositionSide_from_order (tr_side trade);
         pos_opened_at := tr_executed_at trade;
         pos_closed_at := Some (tr_executed_at trade);
         pos_status := PsClosed;
         pos_avg_entry_price := ex_entry_price exit_info;
         pos_opened_quantity := ex_closed_quantity exit_info;
         pos_open_quantity := dec_zero;
         pos_realized_pnl := ex_realized_pnl exit_info;
         pos_commission := tr_commission trade;
         pos_swap := tr_swap trade;
         pos_stop_loss := None;
         pos_take_profit := None;
         pos_magic := None;
         pos_comment := tr_comment trade |}
  end.

Definition fill_position (new_id : PositionId) (open_positions : list Position) (trade : Trade)
    : outcome Position :=
  match tr_trade_side trade with
  | Exit =>
      match tr_exit_info trade with
      | Some exit_info => Ret (close_position open_positions trade exit_info)
      | None => Err (Persistence "exit trade missing exit_info")
      end
  | Entry | Reverse =>
      Ret (Position_open new_id (tr_account_id trade) (tr_symbol trade)
             (PositionSide_from_order (tr_side trade)) (tr_price trade) (tr_quantity trade)
             (tr_executed_at trade) (tr_commission trade) None None None (tr_comment trade))
  end.

(** The two guards of a broker tick. *)
Definition tick_guard (now : Timestamp) (a : Account) (tick : Tick) : outcome unit :=
  let ts := q_ts (tick_quote tick) in
  if STALE_TICK_THRESHOLD_MINUTES <? num_minutes (ts_since now ts) then
    Err (TickRejected "tick ts {} is {} minutes old (threshold {}m) — refusing to evaluate stale equity")
  else
    match acc_last_tick_ts a with
    | Some last_ts =>
        if ts_leb ts last_ts then
          Err (TickRejected "tick ts {} is not newer than last-evaluated ts {} — refusing to evaluate out-of-order tick")
        else Ret tt
    | None => Ret tt
    end.

(** The quote both payout events ask for; a rejection is an error. *)
Definition accepted_quote (a : Account) (now : Timestamp) (msg : string) : outcome PayoutQuote :=
  let! config := ok_or (InvalidState "plan has no payout configuration")
                   (plan_payout_config (acc_plan a)) in
  let! quote := quote_payout a config (acc_last_payout_at a) (Some (acc_balance_at_last_payout a))
                  (acc_refund_used a) now in
  match pq_rejected quote with
  | Some _ => Err (InvalidState msg)
  | None => Ret quote
  end.

(** What one event does: the state after it, the context kind it is evaluated
    under, the fill it carries and the events it appends.  One definition per
    arm of the match; [simpl] unfolds them. *)
Notation EventOutcome :=
  (outcome (Account * RuleContextKind * option (Trade * Position) * list DomainEvent)).

Definition apply_account_started (a : Account) (at_ : Timestamp) : EventOutcome :=
  let! new_acc := Account_start a at_ in
  Ret (new_acc, OnDemand, None,
       [DomainEvent_new (acc_id new_acc) (EvAccountStarted (acc_plan a)) at_]).

Definition apply_trade_filled (env : Env) (open_positions : list Position) (a : Account)
    (trade : Trade) : EventOutcome :=
  let pnl := match tr_exit_info trade with
             | Some info => ex_realized_pnl info
             | None => dec_zero
             end in
  let! s := AccountState_apply_realized_pnl a pnl (tr_commission trade) (tr_swap trade)
              (tr_executed_at trade) in
  let s := AccountState_mark_active_trading_day s in
  let! position := fill_position (env_position_id env) open_positions trade in
  Ret (s, OnTradeFill, Some (trade, position),
       [DomainEvent_new (acc_id s) (EvTradeFilled trade) (tr_executed_at trade)]).

Definition apply_tick (env : Env) (a : Account) (tick : Tick)
    (broker_equity broker_balance : Decimal) : EventOutcome :=
  let! _ := tick_guard (env_now_stale env) a tick in
  let s := AccountState_update_balance (AccountState_update_equity a broker_equity)
             broker_balance in
  Ret (s, OnTick, None,
       [DomainEvent_new (acc_id s) (EvTickEvaluated broker_equity) (q_ts (tick_quote tick))]).

Definition apply_tick_estimated (open_positions : list Position) (a : Account) (tick : Tick)
    : EventOutcome :=
  let! equity := equity_after_tick (acc_balance a) open_positions (tick_quote tick) in
  let s := AccountState_set_estimated_equity a equity (acc_balance a) in
  Ret (s, OnTick, None,
       [DomainEvent_new (acc_id s) (EvTickEvaluated equity) (q_ts (tick_quote tick))]).

Definition apply_day_rollover (env : Env) (a : Account) (had_trades_today : bool)
    : EventOutcome :=
  let! s := AccountState_rollover_day (env_now_rollover env) a had_trades_today None in
  Ret (s, OnDayRollover, None,
       [DomainEvent_new (acc_id s)
          (EvDayRollover (acc_trading_day_index s) (acc_day_start_balance s))
          (env_now_rollover_event env)]).

Definition apply_emergency_stop (a : Account) (at_ : Timestamp) : EventOutcome :=
  let s := AccountState_emergency_stop a in
  Ret (s, OnDemand, None,
       [DomainEvent_new (acc_id s) (EvAccountStatusChanged (acc_status a) StEmergencyStopped) at_]).

Definition apply_override_breach (a : Account) (o : Override) : EventOutcome :=
  let! _ := Override_validate o in
  if negb (bool_decide (ov_account_id o = acc_id a)) then
    Err (InvalidState "override account_id {} does not match evaluated account {}")
  else
    let! s := AccountState_clear_breach a in
    Ret (s, OnDemand, None,
         [DomainEvent_new (acc_id s) (EvAccountStatusChanged StFailed StActive) (ov_at o);
          DomainEvent_new (acc_id s)
            (EvOverrideCleared (ov_clears_violation_id o) (ov_reason o) (ov_actor_id o) (ov_at o))
            (ov_at o)]).

Definition apply_payout_request (env : Env) (a : Account) : EventOutcome :=
  let now := env_now_payout env in
  let! quote := accepted_quote a now "payout request rejected: {rejected:?}" in
  let from := acc_status a in
  let! s := AccountState_mark_payout_pending a in
  Ret (s, OnDemand, None,
       DomainEvent_new (acc_id a) (EvPayoutRequested (pq_profit_basis quote) (pq_amount quote)) now
       :: (if negb (bool_decide (from = acc_status s))
           then [DomainEvent_new (acc_id a) (EvAccountStatusChanged from (acc_status s)) now]
           else [])).

Definition apply_payout_approve (env : Env) (a : Account) : EventOutcome :=
  let now := env_now_payout env in
  let! quote := accepted_quote a now "payout approval rejected: {rejected:?}" in
  let! s := record_payout a (pq_amount quote) (pq_fee_refund quote) now in
  let s := s <| acc_refund_used := acc_refund_used s || dec_gtb (pq_fee_refund quote) dec_zero |> in
  Ret (s, OnDemand, None,
       [DomainEvent_new (acc_id a) (EvPayoutApproved (pq_amount quote) (pq_fee_refund quote)) now]).

#[global] Arguments apply_account_started / _ _.
#[global] Arguments apply_trade_filled / _ _ _ _.
#[global] Arguments apply_tick / _ _ _ _ _.
#[global] Arguments apply_tick_estimated / _ _ _.
#[global] Arguments apply_day_rollover / _ _ _.
#[global] Arguments apply_emergency_stop / _ _.
#[global] Arguments apply_override_breach / _ _.
#[global] Arguments apply_payout_request / _ _.
#[global] Arguments apply_payout_approve / _ _.

(** The match on the event. *)
Definition apply_event_state (env : Env) (open_positions : list Position) (a : Account)
    (ev : PipelineEvent) : EventOutcome :=
  match ev with
  | PeAccountStarted at_ => apply_account_started a at_
  | PeOrderSubmitted _ => Ret (a, OnOrderSubmit, None, [])
  | PeTradeFilled trade => apply_trade_filled env open_positions a trade
  | PeTick tick broker_equity broker_balance =>
      apply_tick env a tick broker_equity broker_balance
  | PeTickEstimated tick => apply_tick_estimated open_positions a tick
  | PeDayRollover had_trades_today => apply_day_rollover env a had_trades_today
  | PeEndOfDay => Ret (a, OnEndOfDay, None, [])
  | PeOnDemand => Ret (a, OnDemand, None, [])
  | PeEmergencyStop _ _ at_ => apply_emergency_stop a at_
  | PeOverrideBreach o => apply_override_breach a o
  | PePayoutRequest => apply_payout_request env a
  | PePayoutApprove => apply_payout_approve env a
  end.

Definition apply_event (pl : Pipeline) (env : Env) (a : Account) (ev : PipelineEvent)
    : outcome AppliedEvent :=
  let event_ts := PipelineEvent_event_timestamp ev (env_now_apply env) in
  let! day_start := ChallengePlan_trading_day_start (acc_plan a) event_ts in
  let! recent_events := pl_recent pl (acc_id a) 50 in
  let a := a <| acc_today_trades :=
             List.filter (fun t => ts_geb (tr_executed_at t) day_start) (acc_today_trades a) |> in
  let open_positions := acc_open_positions a in
  let today_trades := acc_today_trades a in
  let! (s, kind, fill, events) := apply_event_state env open_positions a ev in
  Ret {| ae_state := s;
         ae_ctx_kind := kind;
         ae_open_positions := open_positions;
         ae_today_trades := today_trades;
         ae_recent_events := recent_events;
         ae_trade_fill := fill;
         ae_events := events |}.

(** ** Context and result *)

Definition build_context (env : Env) (ap : AppliedEvent) (ev : PipelineEvent) : RuleContext :=
  let account := ae_state ap in
  let ctx := RuleContext_new account (env_now_context env) in
  let ctx := ctx <| ctx_kind := ae_ctx_kind ap |>
                 <| ctx_open_positions := ae_open_positions ap |>
                 <| ctx_today_trades := ae_today_trades ap |>
                 <| ctx_recent_events := ae_recent_events ap |>
                 <| ctx_rule_config := RuleConfig_from_plan (acc_plan account) |> in
  match ev with
  | PeOrderSubmitted order => ctx <| ctx_pending_order := Some order |>
  | PeTradeFilled trade => ctx <| ctx_latest_trade := Some trade |>
  | PeTick tick broker_equity broker_balance =>
      ctx <| ctx_latest_tick := Some tick |>
          <| ctx_equity_input := BrokerReported broker_equity broker_balance |>
  | PeTickEstimated tick =>
      ctx <| ctx_latest_tick := Some tick |>
          <| ctx_equity_input := Estimated (acc_estimated_equity account)
                                   (acc_estimated_balance account) |>
  | _ => ctx
  end.

(** The position and trade lists after a fill. *)
Definition consume_fill (a : Account) (fill : option (Trade * Position)) : Account :=
  match fill with
  | Some (trade, position) =>
      let kept := List.filter (fun p => negb (bool_decide (pos_id p = pos_id position)))
                    (acc_open_positions a) in
      a <| acc_open_positions := if Position_is_open position then kept ++ [position] else kept |>
        <| acc_today_trades := acc_today_trades a ++ [trade] |>
  | None => a
  end.

Definition event_actor (ev : PipelineEvent) : string :=
  match ev with PeEmergencyStop _ actor_id _ => actor_id | _ => "rule_engine" end.

Definition stamp_tick (a : Account) (ev : PipelineEvent) : Account :=
  match ev with
  | PeTick tick _ _ | PeTickEstimated tick =>
      a <| acc_last_tick_ts := Some (q_ts (tick_quote tick)) |>
  | _ => a
  end.

Definition emit_decision_event (account_id : AccountId) (decision : Decision) (now : Timestamp)
    : list DomainEvent :=
  match dec_kind decision with
  | DkFail | DkLiquidate =>
      [DomainEvent_new account_id (EvAccountStatusChanged StActive StFailed) now]
  | _ => []
  end.

Definition process (fuel : nat) (pl : Pipeline) (env : Env) (account : Account)
    (ev : PipelineEvent) : outcome PipelineResult :=
  let account_id := acc_id account in
  let! (a, ev_roll) := auto_rollover fuel env ev account in
  let! applied := apply_event pl env a ev in
  let ctx := build_context env applied ev in
  let! result := Evaluator_evaluate (env_fresh env) (env_now_reports env) (pl_registry pl) ctx in
  let a := consume_fill (ae_state applied) (ae_trade_fill applied) in
  let! (a, ev_dec) := apply_decision a (er_decision result) (ctx_server_time ctx) (event_actor ev) in
  let a := stamp_tick a ev in
  let! snap := Snapshot_new a (er_decision result) (env_now_snapshot env) in
  let ev_final := emit_decision_event account_id (er_decision result) (env_now_decision_event env) in
  let violations := EvaluationResult_violations result in
  let ev_vio := (fun v => DomainEvent_new account_id (EvRuleViolated v) (ctx_server_time ctx))
                  <$> violations in
  let! _ := foldM (fun _ v => pl_notify_violation pl v) tt violations in
  Ret (mkPipelineResult snap (ev_roll ++ ae_events applied ++ ev_dec ++ ev_final ++ ev_vio)
         result a).

End Pipeline.
