(* ===== verification/Risk.v ===== *)
(** * Risk metrics and reports (src/risk/*.rs, src/reporting/report.rs)

    Statistics of an equity curve and of the trades' results, exposure of
    open positions, parametric value at risk, and the performance report.
    All of them are folds over [Decimal]; a panic of the decimal crate is a
    panic here. *)

From S2P Require Import Prelude.
From S2P Require Import Decimal.
From S2P Require Import Chrono.
From S2P Require Import Ids.
From S2P Require Import Domain.
From S2P Require Import Plan.
From S2P Require Import Account.
From S2P Require Import Violation.
From S2P Require Import Pack.
From S2P Require Import RuleApi.
#[local] Open Scope Z_scope.
From S2P Require Import Decision.
From S2P Require Import Pipeline.

(** Two more operations of the decimal crate: [MathematicalOps::exp], which
    panics on overflow, and the constant [Decimal::PI]. *)
Class DecimalMath `{DecimalOps} := {
  dec_exp : Decimal → option Decimal;
  dec_pi : Decimal;
}.

Section Risk.
Context `{DecimalOps} `{ChronoOps}.

(** [Decimal::from] of a [usize] or [u32]. *)
Definition dec_of_len {A} (l : list A) : Decimal := dec_new (Z.of_nat (length l)) 0.

Definition sqrt_or (d x : Decimal) : Decimal := default d (dec_sqrt x).

(** ** Drawdown of a curve (src/risk/drawdown.rs, metrics.rs) *)

(** One sample of the loop: the state is the peak and the largest drawdown. *)
Definition max_drawdown_step (st : Decimal * Decimal) (m : Money) : outcome (Decimal * Decimal) :=
  let '(peak, mdd) := st in
  let peak := if dec_gtb m peak then m else peak in
  let! dd := dsub peak m in
  Ret (peak, if dec_gtb dd mdd then dd else mdd).

Definition max_drawdown (equity : list Money) : outcome Decimal :=
  let! (_, mdd) := foldM max_drawdown_step (dec_zero, dec_zero) equity in Ret mdd.

Definition max_drawdown_pct_step (st : Decimal * Decimal) (m : Money)
    : outcome (Decimal * Decimal) :=
  let '(peak, mdd) := st in
  let peak := if dec_gtb m peak then m else peak in
  if dec_is_zero peak then Ret (peak, mdd)
  else
    let! dd := dsub peak m in
    let! dd_pct := ddiv dd peak in
    Ret (peak, if dec_gtb dd_pct mdd then dd_pct else mdd).

Definition max_drawdown_pct (equity : list Money) : outcome Decimal :=
  let! (_, mdd) := foldM max_drawdown_pct_step (dec_zero, dec_zero) equity in Ret mdd.

(** The loop of [max_drawdown_duration] from index [i]: the peak, the start
    of the current drawdown and the longest so far; [i - 1] is only computed
    once the peak is positive, so from index one on. *)
Fixpoint duration_loop (i : nat) (peak : Decimal) (start : option nat) (longest : Z)
    (equity : list Money) : option nat * Z :=
  match equity with
  | [] => (start, longest)
  | m :: rest =>
      if dec_gtb m peak then
        match start with
        | Some s =>
            let len := as_u32 (Z.of_nat (i - s)) in
            duration_loop (S i) m None (if longest <? len then len else longest) rest
        | None => duration_loop (S i) m None longest rest
        end
      else if bool_decide (start = None) && dec_gtb peak dec_zero
      then duration_loop (S i) peak (Some (i - 1)%nat) longest rest
      else duration_loop (S i) peak start longest rest
  end.

Definition max_drawdown_duration (equity : list Money) : Z :=
  match duration_loop 0 dec_zero None 0 equity with
  | (Some s, longest) =>
      let len := as_u32 (Z.of_nat (length equity - s)) in
      if longest <? len then len else longest
  | (None, longest) => longest
  end.

(** ** Ratios of a curve (src/risk/metrics.rs) *)

(** The loop of [windows(2)] over adjacent samples. *)
Fixpoint returns (equity : list Money) : outcome (list Decimal) :=
  match equity with
  | prev :: ((curr :: _) as rest) =>
      if dec_is_zero prev then returns rest
      else
        let! d := dsub curr prev in
        let! r := ddiv d prev in
        let! rs := returns rest in
        Ret (r :: rs)
  | _ => Ret []
  end.

(** The mean and the population variance both ratios use. *)
Definition mean_of (rets : list Decimal) : outcome Decimal :=
  let! s := dsum rets in ddiv s (dec_of_len rets).

Definition squared_deviation (mean r : Decimal) : outcome Decimal :=
  let! d := dsub r mean in dmul d d.

Definition variance_of (mean : Decimal) (rets : list Decimal) : outcome Decimal :=
  let! ds := mapO (squared_deviation mean) rets in
  let! s := dsum ds in ddiv s (dec_of_len rets).

Definition annualized (mean std : Decimal) : outcome Decimal :=
  if dec_is_zero std then Ret dec_zero
  else
    let! q := ddiv mean std in
    dmul q (sqrt_or (dec_new 1 0) (dec_new 252 0)).

Definition sharpe_ratio (equity : list Money) : outcome Decimal :=
  let! rets := returns equity in
  match rets with
  | [] => Ret dec_zero
  | _ =>
      let! mean := mean_of rets in
      let! var := variance_of mean rets in
      annualized mean (sqrt_or dec_zero var)
  end.

Definition downside_of (r : Decimal) : outcome Decimal :=
  if dec_ltb r dec_zero then dsub r dec_zero else Ret dec_zero.

Definition sortino_ratio (equity : list Money) : outcome Decimal :=
  let! rets := returns equity in
  match rets with
  | [] => Ret dec_zero
  | _ =>
      let! mean := mean_of rets in
      let! downside := mapO downside_of rets in
      if dec_is_zero (dec_of_len downside) then Ret dec_zero
      else
        let! sq := mapO (fun d => dmul d d) downside in
        let! s := dsum sq in
        let! var := ddiv s (dec_of_len downside) in
        annualized mean (sqrt_or dec_zero var)
  end.

Definition calmar_ratio (equity : list Money) : outcome Decimal :=
  let! max_dd := max_drawdown_pct equity in
  if dec_is_zero max_dd then Ret dec_zero
  else if (length equity <? 2)%nat then Ret dec_zero
  else
    let first := default dec_zero (head equity) in
    let last := default dec_zero (last equity) in
    if dec_is_zero first then Ret dec_zero
    else
      let! diff := dsub last first in
      let! total_ret := ddiv diff first in
      let n := dec_of_len equity in
      if dec_is_zero n then Ret dec_zero
      else
        let! per_year := ddiv (dec_new 252 0) n in
        let! annual := dmul total_ret per_year in
        ddiv annual max_dd.

Definition recovery_factor (equity : list Money) : outcome Decimal :=
  if (length equity <? 2)%nat then Ret dec_zero
  else
    let first := default dec_zero (head equity) in
    let last := default dec_zero (last equity) in
    let! profit := dsub last first in
    let! mdd := max_drawdown equity in
    if dec_is_zero mdd then Ret dec_zero else ddiv profit mdd.

(** ** Statistics of trades *)

Definition winning (p : Money) : bool := dec_gtb p dec_zero.
Definition losing (p : Money) : bool := dec_ltb p dec_zero.

Definition profit_factor (trades : list Money) : outcome Decimal :=
  let! gross_profit := dsum (List.filter winning trades) in
  let! gross_loss := dsum (dec_abs <$> List.filter losing trades) in
  if dec_is_zero gross_loss then
    Ret (if dec_is_zero gross_profit then dec_zero else gross_profit)
  else ddiv gross_profit gross_loss.

Definition expectancy (trades : list Money) : outcome Decimal :=
  match trades with
  | [] => Ret dec_zero
  | _ => let! s := dsum trades in ddiv s (dec_of_len trades)
  end.

(** The loop that counts the runs of wins and losses. *)
Fixpoint count_streaks (prev : option bool) (streaks : Z) (trades : list Money) : Z :=
  match trades with
  | [] => streaks
  | t :: rest =>
      let win := winning t in
      let streaks := match prev with
                     | None => u32_succ streaks
                     | Some p2 => if negb (Bool.eqb p2 win) then u32_succ streaks else streaks
                     end in
      count_streaks (Some win) streaks rest
  end.

Definition z_score (trades : list Money) : outcome Decimal :=
  if (length trades <? 10)%nat then Ret dec_zero
  else
    let n := dec_of_len trades in
    let wins := dec_of_len (List.filter winning trades) in
    let! p := ddiv wins n in
    let! q := dsub (dec_new 1 0) p in
    if dec_is_zero p || dec_is_zero q then Ret dec_zero
    else
      let r := dec_new (count_streaks None 0 trades) 0 in
      let! w2 := dmul (dec_new 2 0) wins in
      let! l := dsub n wins in
      let! w2l := dmul w2 l in
      let! e := ddiv w2l n in
      let! expected := dadd e (dec_new 1 0) in
      let! n2 := dmul (dec_new 2 0) n in
      let! n23 := dsub n2 (dec_new 3 0) in
      let! num := dmul w2l n23 in
      let! nn := dmul n n in
      let! n1 := dsub n (dec_new 1 0) in
      let! den := dmul nn n1 in
      let! var_r := ddiv num den in
      let std_r := sqrt_or dec_zero var_r in
      if dec_is_zero std_r then Ret dec_zero
      else let! d := dsub r expected in ddiv d std_r.

(** The eleven results of [trade_stats]. *)
Record TradeStats := mkTradeStats {
  trs_profit_factor : Decimal;
  trs_total : nat;
  trs_wins : nat;
  trs_losses : nat;
  trs_avg_win : Decimal;
  trs_avg_loss : Decimal;
  trs_largest_win : Decimal;
  trs_largest_loss : Decimal;
  trs_expectancy : Decimal;
  trs_win_rate : Decimal;
  trs_z_score : Decimal;
}.

(** [Iterator::max], which keeps the later of equal elements. *)
Definition max_of (l : list Decimal) : option Decimal :=
  match l with
  | [] => None
  | x :: rest => Some (fold_left (fun m y => if dec_gtb m y then m else y) rest x)
  end.

Definition mean_or_zero (sum : Decimal) {A} (l : list A) : outcome Decimal :=
  match l with [] => Ret dec_zero | _ => ddiv sum (dec_of_len l) end.

Definition trade_stats (trades : list Money) : outcome TradeStats :=
  match trades with
  | [] => Ret (mkTradeStats dec_zero 0 0 0 dec_zero dec_zero dec_zero dec_zero dec_zero dec_zero
                 dec_zero)
  | _ =>
      let wins := List.filter winning trades in
      let losses := List.filter losing trades in
      let! gp := dsum wins in
      let! gl := dsum (dec_abs <$> losses) in
      let! pf := if dec_is_zero gl
                 then Ret (if dec_is_zero gp then dec_zero else dec_new 100 0)
                 else ddiv gp gl in
      let! avg_w := mean_or_zero gp wins in
      let! avg_l := mean_or_zero gl losses in
      let lw := default dec_zero (max_of wins) in
      let ll := default dec_zero (max_of (dec_abs <$> losses)) in
      let! win_rate := ddiv (dec_of_len wins) (dec_of_len trades) in
      let! expect := expectancy trades in
      let! zs := z_score trades in
      Ret (mkTradeStats pf (length trades) (length wins) (length losses) avg_w avg_l lw ll
             expect win_rate zs)
  end.

Definition validate (equity : list Money) : outcome unit :=
  match equity with
  | [] => Err (InvalidState "equity curve is empty")
  | _ => if existsb (fun m => dec_ltb m dec_zero) equity
         then Err (InvalidState "equity curve contains negative values")
         else Ret tt
  end.

(** ** The aggregate *)

Record RiskMetrics := mkRiskMetrics {
  rm_sharpe : Decimal;
  rm_sortino : Decimal;
  rm_calmar : Decimal;
  rm_profit_factor : Decimal;
  rm_max_drawdown : Decimal;
  rm_max_drawdown_pct : Decimal;
  rm_expectancy : Decimal;
  rm_win_rate : Decimal;
  rm_total_trades : nat;
  rm_winning_trades : nat;
  rm_losing_trades : nat;
  rm_avg_win : Decimal;
  rm_avg_loss : Decimal;
  rm_largest_win : Decimal;
  rm_largest_loss : Decimal;
  rm_avg_holding_time_minutes : Decimal;
  rm_z_score : Decimal;
  rm_recovery_factor : Decimal;
}.

Definition RiskMetrics_compute (equity_curve trades_pnl : list Money) : outcome RiskMetrics :=
  let! sharpe := sharpe_ratio equity_curve in
  let! sortino := sortino_ratio equity_curve in
  let! max_dd := max_drawdown equity_curve in
  let! max_dd_pct := max_drawdown_pct equity_curve in
  let! calmar := calmar_ratio equity_curve in
  let! st := trade_stats trades_pnl in
  let! recovery := recovery_factor equity_curve in
  Ret {| rm_sharpe := sharpe;
         rm_sortino := sortino;
         rm_calmar := calmar;
         rm_profit_factor := trs_profit_factor st;
         rm_max_drawdown := max_dd;
         rm_max_drawdown_pct := max_dd_pct;
         rm_expectancy := trs_expectancy st;
         rm_win_rate := trs_win_rate st;
         rm_total_trades := trs_total st;
         rm_winning_trades := trs_wins st;
         rm_losing_trades := trs_losses st;
         rm_avg_win := trs_avg_win st;
         rm_avg_loss := trs_avg_loss st;
         rm_largest_win := trs_largest_win st;
         rm_largest_loss := trs_largest_loss st;
         rm_avg_holding_time_minutes := dec_zero;
         rm_z_score := trs_z_score st;
         rm_recovery_factor := recovery |}.

(** ** Exposure (src/risk/exposure.rs) *)

Record Exposure := mkExposure {
  exp_gross : Money;
  exp_net : Money;
  exp_long_count : Z;
  exp_short_count : Z;
  exp_long_volume : Decimal;
  exp_short_volume : Decimal;
  exp_net_volume : Decimal;
  exp_concentration : gmap string Decimal;
}.

Definition Exposure_default : Exposure :=
  mkExposure dec_zero dec_zero 0 0 dec_zero dec_zero dec_zero ∅.

(** The [match] on the side: net exposure, counts and volumes. *)
Definition Exposure_side (e : Exposure) (side : PositionSide) (notional : Decimal) (qty : Quantity)
    : outcome (Money * Z * Z * Decimal * Decimal * Decimal) :=
  match side with
  | Long =>
      let! net := dadd (exp_net e) notional in
      let! lv := dadd (exp_long_volume e) qty in
      let! nv := dadd (exp_net_volume e) qty in
      Ret (net, u32_succ (exp_long_count e), exp_short_count e, lv, exp_short_volume e, nv)
  | Short =>
      let! net := dsub (exp_net e) notional in
      let! sv := dadd (exp_short_volume e) qty in
      let! nv := dsub (exp_net_volume e) qty in
      Ret (net, exp_long_count e, u32_succ (exp_short_count e), exp_long_volume e, sv, nv)
  end.

(** One position of the loop: closed positions and symbols without a quote
    are skipped. *)
Definition Exposure_add (quotes : gmap string Quote) (e : Exposure) (p : Position)
    : outcome Exposure :=
  if negb (Position_is_open p) then Ret e
  else
    match quotes !! pos_symbol p with
    | None => Ret e
    | Some quote =>
        let! price := Quote_mid quote in
        let! notional := dmul price (pos_open_quantity p) in
        let! gross := dadd (exp_gross e) notional in
        let! (net, longs, shorts, lv, sv, nv) :=
          Exposure_side e (pos_side p) notional (pos_open_quantity p) in
        let! share := dadd (default dec_zero (exp_concentration e !! pos_symbol p)) notional in
        Ret (mkExposure gross net longs shorts lv sv nv
               (<[pos_symbol p := share]> (exp_concentration e)))
    end.

Definition Exposure_compute (positions : list Position) (quotes : gmap string Quote)
    : outcome Exposure :=
  foldM (Exposure_add quotes) Exposure_default positions.

(** [max_by] keeps the later of equal elements; [order] is the order in which
    the hash map yields its entries. *)
Definition Exposure_top_symbol (e : Exposure) (order : list (string * Decimal))
    : outcome (option (string * Decimal)) :=
  if dec_is_zero (exp_gross e) then Ret None
  else
    let! shares := mapO (fun '(k, v) => let! s := ddiv v (exp_gross e) in Ret (k, s)) order in
    Ret (match shares with
         | [] => None
         | x :: rest =>
             Some (fold_left (fun m y => if dec_gtb (snd m) (snd y) then m else y) rest x)
         end).

(** ** Value at risk (src/risk/var.rs) *)

Definition near (a b : Decimal) : outcome bool :=
  let! d := dsub a b in Ret (dec_ltb (dec_abs d) (dec_new 1 3)).

Definition var_quantile (confidence : Decimal) : outcome Decimal :=
  let! is95 := near confidence (dec_new 95 2) in
  if is95 then Ret (dec_new 1645 3)
  else
    let! is99 := near confidence (dec_new 99 2) in
    if is99 then Ret (dec_new 2326 3)
    else if dec_geb confidence (dec_new 95 2) && dec_leb confidence (dec_new 99 2) then
      let! num := dsub confidence (dec_new 95 2) in
      let! den := dsub (dec_new 99 2) (dec_new 95 2) in
      let! t := ddiv num den in
      let! span := dsub (dec_new 2326 3) (dec_new 1645 3) in
      let! step := dmul t span in
      dadd (dec_new 1645 3) step
    else Ret (dec_new 2 0).

Definition parametric_var (returns : list Decimal) (confidence : Decimal) (horizon_days : Z)
    : outcome Money :=
  match returns with
  | [] => Ret dec_zero
  | _ =>
      let! mean := mean_of returns in
      let! var := variance_of mean returns in
      let std := sqrt_or dec_zero var in
      if dec_is_zero std then Ret dec_zero
      else
        let! z := var_quantile confidence in
        let horizon_scale := sqrt_or (dec_new 1 0) (dec_new horizon_days 0) in
        let! drift := dmul mean horizon_scale in
        let! zs := dmul z std in
        let! spread := dmul zs horizon_scale in
        let! var_pct := dadd drift spread in
        Ret (dec_abs var_pct)
  end.

Definition es_quantile (confidence : Decimal) : outcome Decimal :=
  let! is95 := near confidence (dec_new 95 2) in
  if is95 then Ret (dec_new 1645 3)
  else
    let! is99 := near confidence (dec_new 99 2) in
    Ret (if is99 then dec_new 2326 3 else dec_new 2 0).

Definition expected_shortfall `{!DecimalMath} (returns : list Decimal) (confidence : Decimal)
    (horizon_days : Z) : outcome Money :=
  match returns with
  | [] => Ret dec_zero
  | _ =>
      let! _ := parametric_var returns confidence horizon_days in
      let! mean := mean_of returns in
      let! var2 := variance_of mean returns in
      let std := sqrt_or dec_zero var2 in
      if dec_is_zero std then Ret dec_zero
      else
        let! z := es_quantile confidence in
        let horizon_scale := sqrt_or (dec_new 1 0) (dec_new horizon_days 0) in
        let! hz := dmul (dec_new (-5) 1) z in
        let! hzz := dmul hz z in
        let! e := unwrap (dec_exp hzz) in
        let! two_pi := dmul (dec_new 2 0) dec_pi in
        let! pdf := ddiv e (sqrt_or (dec_new 1 0) two_pi) in
        let! drift := dmul mean horizon_scale in
        let! sh := dmul std horizon_scale in
        let! shp := dmul sh pdf in
        let! tail := dsub (dec_new 1 0) confidence in
        let! t := ddiv shp tail in
        let! es_pct := dadd drift t in
        Ret (dec_abs es_pct)
  end.

End Risk.

(** ** The performance report (src/reporting/report.rs) *)

Section Report.
Context `{DecimalOps} `{ChronoOps}.

Record PerformanceReport := mkPerformanceReport {
  perf_account : AccountSnapshot;
  perf_risk : RiskMetrics;
  perf_decision : Decision;
  perf_generated_at : Timestamp;
}.

Definition PerformanceReport_new (snapshot : Snapshot) (risk : RiskMetrics) (now : Timestamp)
    : PerformanceReport :=
  mkPerformanceReport (snap_account snapshot) risk (snap_decision snapshot) now.

Definition PerformanceReport_estimated_payout (r : PerformanceReport) (split_pct : Decimal)
    : outcome Money :=
  let net := as_net_profit (perf_account r) in
  if dec_is_sign_negative net then Ret dec_zero else dmul net split_pct.

End Report.
