(* ===== verification/Hashing.v ===== *)
(** * Hashing (src/sha256_helper.rs) and the bytes the standard library feeds
    to a hasher

    [std::hash::Hash] turns a value into the bytes it writes to a hasher; on
    a 64-bit little-endian target these are the encodings below.  SHA-256
    itself (crate [sha2]) and the encodings of decimals, UUIDs and times
    (their crates) are parameters. *)

From S2P Require Import Prelude.
From S2P Require Import Decimal.
From S2P Require Import Chrono.
From S2P Require Import Ids.
From Stdlib Require Import Ascii.
#[local] Open Scope Z_scope.

(** ** Standard encodings *)

(** The [n] low bytes of [x], least significant first. *)
Fixpoint le_bytes (n : nat) (x : Z) : list Z :=
  match n with
  | O => []
  | S n' => Z.land x 0xff :: le_bytes n' (Z.shiftr x 8)
  end.

Definition hash_u8 (x : Z) : list Z := le_bytes 1 x.
Definition hash_u32 (x : Z) : list Z := le_bytes 4 x.
Definition hash_u64 (x : Z) : list Z := le_bytes 8 x.
Definition hash_i64 (x : Z) : list Z := le_bytes 8 x.
Definition hash_bool (b : bool) : list Z := [if b then 1 else 0].
Definition hash_str (s : string) : list Z := string_bytes s ++ [0xff].

(** A derived [Hash] writes the discriminant as an [isize], then the fields. *)
Definition hash_variant (n : Z) : list Z := le_bytes 8 n.

Definition hash_option {A} (f : A → list Z) (o : option A) : list Z :=
  match o with None => hash_variant 0 | Some a => hash_variant 1 ++ f a end.

(** Encodings of third-party types. *)
Class HashOps `{DecimalOps} `{ChronoOps} := {
  hash_decimal : Decimal → list Z;
  hash_uuid : Uuid → list Z;
  hash_timestamp : Timestamp → list Z;
}.

(** ** SHA-256 in hexadecimal *)

Class Sha256Ops := sha256 : list Z → list Z.

(** The bytes written so far, in order. *)
Record Sha256Hasher := mkSha256Hasher { sh_written : list Z }.

Definition Sha256Hasher_new : Sha256Hasher := mkSha256Hasher [].

Definition Sha256Hasher_write (h : Sha256Hasher) (bytes : list Z) : Sha256Hasher :=
  mkSha256Hasher (sh_written h ++ bytes).

Definition Sha256Hasher_finish (h : Sha256Hasher) : Z := 0.

Definition HEX : string := "0123456789abcdef".

Definition hex_digit (n : Z) : ascii := default zero (String.get (Z.to_nat n) HEX).

Definition hex_byte (b : Z) : string :=
  String (hex_digit (Z.shiftr b 4)) (String (hex_digit (Z.land b 0x0f)) EmptyString).

Definition hex_of (bytes : list Z) : string :=
  foldr (fun b s => hex_byte b +:+ s) EmptyString bytes.

Section Sha.
Context `{Sha256Ops}.

Definition finalize_hex (h : Sha256Hasher) : string := "sha256:" +:+ hex_of (sha256 (sh_written h)).

(** [hash_to_hex] of a value that writes [encoded]. *)
Definition hash_to_hex (encoded : list Z) : string :=
  finalize_hex (Sha256Hasher_write Sha256Hasher_new encoded).

Definition hash_bytes_to_hex (bytes : list Z) : string :=
  finalize_hex (Sha256Hasher_write Sha256Hasher_new bytes).

End Sha.

(** ** UUIDs in text (crate [uuid]) *)

Class UuidOps := {
  uuid_display : Uuid → string;
  uuid_parse : string → option Uuid;
}.

Definition no_nul (s : string) : Prop := zero ∉ String.list_ascii_of_string s.

Class UuidLaws (U : UuidOps) : Prop := {
  uuid_parse_display u : 0 ≤ u < 2 ^ 128 → uuid_parse (uuid_display u) = Some u;
  uuid_display_no_nul u : no_nul (uuid_display u);
  uuid_parse_range s u : uuid_parse s = Some u → 0 ≤ u < 2 ^ 128;
}.
