(* ===== verification/Idempotency.v ===== *)
(** * Idempotency keys (src/api/idempotency.rs)

    A bounded store of first responses with a time to live, keyed by tenant,
    endpoint and key.  Instants are nanoseconds of a monotonic clock; each
    reading of it is an argument. *)

From S2P Require Import Prelude.
From S2P Require Import Ids.
From S2P Require Import Hashing.
From Stdlib Require Import Ascii.
#[local] Open Scope Z_scope.

Inductive IdempotencyOutcome : Type :=
| IoFresh
| IoReplay (response : string)
| IoConflict
| IoError.

Record Entry := mkEntry {
  en_body_hash : string;
  en_response : string;
  en_inserted_at : Z;
}.

(** [order] has the oldest key first. *)
Record Inner := mkInner {
  in_entries : gmap string Entry;
  in_order : list string;
}.

Record IdempotencyStore := mkStore {
  is_inner : Inner;
  is_capacity : nat;
  is_ttl : Z;
}.

Definition IdempotencyStore_new (capacity : nat) (ttl : Z) : IdempotencyStore :=
  mkStore (mkInner ∅ []) capacity ttl.

Definition ns_per_second : Z := 1000000000.

Definition IdempotencyStore_with_defaults : IdempotencyStore :=
  IdempotencyStore_new (Z.to_nat 10000) (24 * 60 * 60 * ns_per_second).

Definition IdempotencyStore_with_capacity_ttl (capacity : nat) (ttl : Z) : IdempotencyStore :=
  IdempotencyStore_new capacity ttl.

(** [Vec::retain] of the keys other than [k]. *)
Definition retain_not (k : string) (order : list string) : list string :=
  List.filter (fun o => negb (bool_decide (o = k))) order.

(** [Instant::duration_since] saturates at zero. *)
Definition is_expired (now ttl : Z) (e : Entry) : bool := ttl <? Z.max 0 (now - en_inserted_at e).

Definition remove_key (i : Inner) (k : string) : Inner :=
  mkInner (delete k (in_entries i)) (retain_not k (in_order i)).

Definition prune (now ttl : Z) (i : Inner) : Inner :=
  let expired := fst <$> List.filter (fun ke => is_expired now ttl (snd ke))
                           (map_to_list (in_entries i)) in
  fold_left remove_key expired i.

(** The eviction loop: the front of the order goes while it is too long. *)
Fixpoint evict (capacity : nat) (entries : gmap string Entry) (order : list string) : Inner :=
  match order with
  | k :: rest =>
      if (capacity <? length order)%nat then evict capacity (delete k entries) rest
      else mkInner entries order
  | [] => mkInner entries []
  end.

(** Both writers insert the same way. *)
Definition insert_entry (capacity : nat) (i : Inner) (ckey : string) (e : Entry) : Inner :=
  let order := retain_not ckey (in_order i) ++ [ckey] in
  evict capacity (<[ckey := e]> (in_entries i)) order.

Definition nul : string := String zero EmptyString.

Section Idempotency.
Context `{Sha256Ops} `{UuidOps}.

Definition composite_key (tenant : option TenantId) (endpoint key : string) : string :=
  match tenant with
  | Some t => uuid_display t +:+ nul +:+ endpoint +:+ nul +:+ key
  | None => endpoint +:+ nul +:+ key
  end.

Definition hash_body (body : string) : string := hash_to_hex (hash_str body).

Definition lookup_outcome (i : Inner) (ckey body_hash : string) : IdempotencyOutcome :=
  match in_entries i !! ckey with
  | Some entry =>
      if bool_decide (en_body_hash entry = body_hash) then IoReplay (en_response entry)
      else IoConflict
  | None => IoFresh
  end.

Definition with_inner (s : IdempotencyStore) (i : Inner) : IdempotencyStore :=
  mkStore i (is_capacity s) (is_ttl s).

(** The lookup shared by [check] and [check_now]. *)
Definition check_key (now : Z) (s : IdempotencyStore) (ckey request_body : string)
    : IdempotencyOutcome * IdempotencyStore :=
  let i := prune now (is_ttl s) (is_inner s) in
  (lookup_outcome i ckey (hash_body request_body), with_inner s i).

(** The insertion shared by [remember] and [remember_now]. *)
Definition remember_key (now : Z) (s : IdempotencyStore) (ckey request_body response : string)
    : IdempotencyStore :=
  with_inner s (insert_entry (is_capacity s) (is_inner s) ckey
                  (mkEntry (hash_body request_body) response now)).

Definition check_now (now : Z) (s : IdempotencyStore) (endpoint key request_body : string)
    : IdempotencyOutcome * IdempotencyStore :=
  check_key now s (composite_key None endpoint key) request_body.

Definition remember_now (now : Z) (s : IdempotencyStore) (endpoint key request_body response : string)
    : IdempotencyStore :=
  remember_key now s (composite_key None endpoint key) request_body response.

Definition check (now : Z) (s : IdempotencyStore) (tenant_id : TenantId)
    (endpoint key request_body : string) : IdempotencyOutcome * IdempotencyStore :=
  check_key now s (composite_key (Some tenant_id) endpoint key) request_body.

Definition remember (now : Z) (s : IdempotencyStore) (tenant_id : TenantId)
    (endpoint key request_body response : string) : IdempotencyOutcome * IdempotencyStore :=
  (IoFresh, remember_key now s (composite_key (Some tenant_id) endpoint key) request_body response).

(** The override for the in-memory store: one critical section. *)
Definition check_and_remember (now_prune now_insert : Z) (s : IdempotencyStore)
    (tenant_id : TenantId) (endpoint key request_body response : string)
    : IdempotencyOutcome * IdempotencyStore :=
  let ckey := composite_key (Some tenant_id) endpoint key in
  let body_hash := hash_body request_body in
  let i := prune now_prune (is_ttl s) (is_inner s) in
  match in_entries i !! ckey with
  | Some entry =>
      (if bool_decide (en_body_hash entry = body_hash) then IoReplay (en_response entry)
       else IoConflict, with_inner s i)
  | None =>
      (IoFresh, with_inner s (insert_entry (is_capacity s) i ckey
                               (mkEntry body_hash response now_insert)))
  end.

(** The trait's default implementation. *)
Definition default_check_and_remember (now_prune now_insert : Z) (s : IdempotencyStore)
    (tenant_id : TenantId) (endpoint key request_body response : string)
    : IdempotencyOutcome * IdempotencyStore :=
  match check now_prune s tenant_id endpoint key request_body with
  | (IoFresh, s') => (IoFresh, snd (remember now_insert s' tenant_id endpoint key request_body response))
  | (other, s') => (other, s')
  end.

Definition store_len (now : Z) (s : IdempotencyStore) : nat * IdempotencyStore :=
  let i := prune now (is_ttl s) (is_inner s) in
  (size (in_entries i), with_inner s i).

Definition store_is_empty (now : Z) (s : IdempotencyStore) : bool * IdempotencyStore :=
  let '(n, s') := store_len now s in (bool_decide (n = 0%nat), s').

End Idempotency.
