(* ===== verification/Pure.v ===== *)
(** * Pure evaluation (src/pure.rs), content hashes (src/rulepack.rs) and the
    registry cache (src/rules/registry_cache.rs)

    [evaluate] is the stateless entry point: account, pack, registry, kind,
    time and inputs in, verdict and input hash out.  The hashes are SHA-256
    digests of the bytes the fields write, in the order of the source; the
    cache key is a SipHash of the plan's fields. *)

From S2P Require Import Prelude.
From S2P Require Import Decimal.
From S2P Require Import Chrono.
From S2P Require Import Ids.
From S2P Require Import Domain.
From S2P Require Import Plan.
From S2P Require Import Account.
From S2P Require Import Violation.
From S2P Require Import Pack.
From S2P Require Import RuleApi.
#[local] Open Scope Z_scope.
From S2P Require Import Registry.
From S2P Require Import Decision.
From S2P Require Import Pipeline.
From S2P Require Import Hashing.

(** ** Discriminants *)

Definition ChallengePhase_variant (p : ChallengePhase) : Z :=
  match p with Phase1 => 0 | Phase2 => 1 | FundedPhase => 2 end.

Definition LossReference_variant (r : LossReference) : Z :=
  match r with Static => 0 | Trailing => 1 | EodTrailing => 2 | IntradayTrail => 3 end.

Definition AccountType_variant (t : AccountType) : Z :=
  match t with AtPhase1 => 0 | AtPhase2 => 1 | AtFunded => 2 | AtDemo => 3 end.

Definition AccountStatus_variant (s : AccountStatus) : Z :=
  match s with
  | StPending => 0
  | StActive => 1
  | StTargetHitPending => 2
  | StPassed => 3
  | StFailed => 4
  | StFunded => 5
  | StPayoutPending => 6
  | StClosed => 7
  | StEmergencyStopped => 8
  end.

Definition RuleBasis_variant (b : RuleBasis) : Z :=
  match b with RbStatic => 0 | RbTrailing => 1 | RbEodTrailing => 2 | RbIntradayTrail => 3 end.

Definition RuleUnit_variant (u : RuleUnit) : Z := match u with UPercent => 0 | UMoney => 1 end.

Definition PositionSide_variant (s : PositionSide) : Z := match s with Long => 0 | Short => 1 end.

Definition OrderSide_variant (s : OrderSide) : Z := match s with Buy => 0 | Sell => 1 end.

(** ** Provenance of equity *)

Inductive EquitySource : Type := SrcBrokerReported | SrcEstimated.

Definition EquitySource_default : EquitySource := SrcEstimated.

Definition EquitySource_variant (s : EquitySource) : Z :=
  match s with SrcBrokerReported => 0 | SrcEstimated => 1 end.

Definition EquitySource_parse (s : string) : outcome EquitySource :=
  let s := to_ascii_lowercase s in
  if str_in s ["broker_reported"; "broker"] then Ret SrcBrokerReported
  else if str_in s ["estimated"; "estimate"] then Ret SrcEstimated
  else Err (InvalidConfig "unknown equity_source '{other}' (expected broker_reported | estimated)").

Section Pure.
Context `{HO : HashOps} `{!JsonOps}.

(** ** The plan's bytes *)

(** The fields both hashes write first, in this order. *)
Definition plan_bytes (p : ChallengePlan) : list Z :=
  hash_decimal (plan_initial_balance_money p)
  ++ hash_decimal (plan_profit_target_pct p)
  ++ hash_decimal (plan_max_daily_drawdown_pct p)
  ++ hash_decimal (plan_max_total_drawdown_pct p)
  ++ hash_variant (LossReference_variant (plan_max_loss_reference p))
  ++ hash_bool (plan_drawdown_on_balance p)
  ++ hash_bool (plan_trailing_drawdown_enabled p)
  ++ hash_decimal (plan_trailing_drawdown_pct p)
  ++ hash_u32 (plan_min_trading_days p)
  ++ hash_option hash_u32 (plan_time_limit_days p)
  ++ hash_u8 (plan_day_reset_time p)
  ++ hash_option hash_decimal (plan_max_position_lots p)
  ++ hash_option hash_decimal (plan_max_total_lots p)
  ++ hash_option hash_u32 (plan_max_open_positions p)
  ++ hash_option hash_u32 (plan_max_daily_trades p)
  ++ hash_bool (plan_news_trading_allowed p)
  ++ hash_bool (plan_overnight_holding_allowed p)
  ++ hash_bool (plan_weekend_holding_allowed p)
  ++ hash_bool (plan_hedging_allowed p)
  ++ hash_bool (plan_grid_trading_allowed p)
  ++ hash_bool (plan_copy_trading_allowed p)
  ++ hash_bool (plan_require_stop_loss p)
  ++ hash_bool (plan_require_take_profit p)
  ++ hash_option hash_decimal (plan_consistency_pct p)
  ++ hash_u64 (plan_cooldown_seconds p)
  ++ hash_u32 (plan_leverage p)
  ++ hash_option (fun '(a, b) => hash_u8 a ++ hash_u8 b) (plan_trading_hours p)
  ++ hash_option hash_decimal (plan_per_trade_max_loss_pct p)
  ++ hash_option hash_decimal (plan_per_trade_max_loss_money p)
  ++ hash_bool (plan_hft_ban_enabled p)
  ++ hash_u64 (plan_hft_min_round_trip_seconds p)
  ++ hash_option hash_u32 (plan_inactivity_days p)
  ++ hash_variant (ChallengePhase_variant (plan_phase p))
  ++ hash_bool (bool_decide (is_Some (plan_timezone p))).

Definition hash_plan_into (h : Sha256Hasher) (p : ChallengePlan) : Sha256Hasher :=
  Sha256Hasher_write h
    (plan_bytes p ++ hash_bool (plan_refundable p) ++ hash_decimal (plan_refund_fee_amount p)
     ++ hash_bool (bool_decide (is_Some (plan_payout_config p)))).

(** ** The registry cache *)

Definition plan_cache_key (p : ChallengePlan) : Z :=
  Sip.hash_bytes
    (plan_bytes p ++ hash_bool (bool_decide (is_Some (plan_payout_config p)))
     ++ hash_bool (plan_refundable p) ++ hash_decimal (plan_refund_fee_amount p)).

(** The process-wide cache is threaded through. *)
Definition get_or_build (cache : gmap Z RuleRegistry) (plan : ChallengePlan)
    : outcome (RuleRegistry * gmap Z RuleRegistry) :=
  match cache !! plan_cache_key plan with
  | Some registry => Ret (registry, cache)
  | None =>
      let! registry := RuleRegistry_with_default_rules_for_plan plan in
      Ret (registry, <[plan_cache_key plan := registry]> cache)
  end.

(** ** Content hash of a pack *)

Definition RuleEntry_bytes (r : RuleEntry) : list Z :=
  hash_str (re_id r)
  ++ hash_str (re_kind r)
  ++ hash_variant (RuleBasis_variant (re_basis r))
  ++ hash_variant (RuleUnit_variant (re_unit r))
  ++ hash_decimal (re_value r)
  ++ hash_u32 (re_priority r)
  ++ hash_bool (re_enabled r)
  ++ hash_option hash_i64 (re_tolerance_cents r)
  ++ hash_option hash_decimal (re_early_warning_pct r)
  ++ hash_str (re_params_json r).

Definition RulePack_content_hash `{Sha256Ops} (p : RulePack) : string :=
  finalize_hex (Sha256Hasher_write Sha256Hasher_new
    (hash_str (rp_id p) ++ hash_u32 (rp_version p) ++ hash_uuid (rp_tenant_id p)
     ++ (rp_rules p ≫= RuleEntry_bytes)
     ++ hash_decimal (rp_initial_balance p) ++ hash_u32 (rp_leverage p)
     ++ hash_decimal (rp_profit_target_pct p))).

(** ** The input hash *)

Definition account_bytes (a : Account) : list Z :=
  hash_uuid (acc_id a)
  ++ hash_uuid (acc_tenant_id a)
  ++ hash_variant (AccountType_variant (acc_account_type a))
  ++ hash_decimal (acc_balance a)
  ++ hash_decimal (acc_equity a)
  ++ hash_decimal (acc_estimated_equity a)
  ++ hash_decimal (acc_estimated_balance a)
  ++ hash_decimal (acc_peak_balance a)
  ++ hash_decimal (acc_peak_equity a)
  ++ hash_decimal (acc_day_start_balance a)
  ++ hash_decimal (acc_day_start_equity a)
  ++ hash_decimal (acc_total_realized_pnl a)
  ++ hash_decimal (acc_today_realized_pnl a)
  ++ hash_decimal (acc_total_commissions a)
  ++ hash_decimal (acc_total_swaps a)
  ++ hash_decimal (acc_largest_day_profit a)
  ++ hash_decimal (acc_largest_day_loss a)
  ++ hash_decimal (acc_sum_positive_days_profit a)
  ++ hash_u32 (acc_active_trading_days a)
  ++ hash_u32 (acc_trading_day_index a)
  ++ hash_bool (acc_day_counted_today a)
  ++ hash_option hash_timestamp (acc_target_reached_at a)
  ++ hash_option hash_u32 (acc_target_reached_on_day a)
  ++ hash_variant (AccountStatus_variant (acc_status a))
  ++ hash_u64 (acc_version a)
  ++ hash_option hash_timestamp (acc_last_tick_ts a)
  ++ hash_option hash_timestamp (acc_last_trade_at a).

Definition position_bytes (p : Position) : list Z :=
  hash_uuid (pos_id p) ++ hash_str (pos_symbol p)
  ++ hash_variant (PositionSide_variant (pos_side p))
  ++ hash_decimal (pos_open_quantity p) ++ hash_decimal (pos_avg_entry_price p).

Definition trade_bytes (t : Trade) : list Z :=
  hash_uuid (tr_id t) ++ hash_str (tr_symbol t)
  ++ hash_variant (OrderSide_variant (tr_side t))
  ++ hash_decimal (tr_price t) ++ hash_decimal (tr_quantity t) ++ hash_timestamp (tr_executed_at t).

Definition reference_trade_bytes (t : Trade) : list Z :=
  hash_uuid (tr_id t) ++ hash_uuid (tr_account_id t) ++ hash_str (tr_symbol t)
  ++ hash_decimal (tr_price t) ++ hash_decimal (tr_quantity t).

Definition pending_order_bytes (o : Order) : list Z :=
  hash_uuid (ord_id o) ++ hash_str (ord_symbol o)
  ++ hash_variant (OrderSide_variant (ord_side o))
  ++ hash_decimal (ord_quantity o) ++ hash_timestamp (ord_submitted_at o).

Definition latest_trade_bytes (t : Trade) : list Z :=
  hash_uuid (tr_id t) ++ hash_timestamp (tr_executed_at t).

Definition latest_tick_bytes (t : Tick) : list Z :=
  hash_str (tick_symbol t) ++ hash_decimal (q_bid (tick_quote t))
  ++ hash_decimal (q_ask (tick_quote t)) ++ hash_timestamp (q_ts (tick_quote t)).

(** [if let Some(x)]: an absent value writes nothing. *)
Definition if_some {A} (f : A → list Z) (o : option A) : list Z :=
  match o with Some x => f x | None => [] end.

Definition compute_input_hash `{Sha256Ops} (account : Account) (pack : RulePack)
    (ctx_kind : RuleContextKind) (server_time : Timestamp) (open_positions : list Position)
    (today_trades : list Trade) (pending_order : option Order) (latest_trade : option Trade)
    (latest_tick : option Tick) (cross_reference_trades : list Trade)
    (equity_source : EquitySource) : string :=
  let h := Sha256Hasher_write Sha256Hasher_new (account_bytes account) in
  let h := hash_plan_into h (acc_plan account) in
  let h := Sha256Hasher_write h (hash_str (RulePack_content_hash pack)) in
  let h := Sha256Hasher_write h (hash_timestamp server_time) in
  let h := Sha256Hasher_write h (hash_str (RuleContextKind_display ctx_kind)) in
  let h := Sha256Hasher_write h (open_positions ≫= position_bytes) in
  let h := Sha256Hasher_write h (today_trades ≫= trade_bytes) in
  let h := Sha256Hasher_write h (cross_reference_trades ≫= reference_trade_bytes) in
  let h := Sha256Hasher_write h (hash_variant (EquitySource_variant equity_source)) in
  let h := Sha256Hasher_write h (if_some pending_order_bytes pending_order) in
  let h := Sha256Hasher_write h (if_some latest_trade_bytes latest_trade) in
  let h := Sha256Hasher_write h (if_some latest_tick_bytes latest_tick) in
  finalize_hex h.

(** ** Evaluation *)

Record EvaluateInputs := mkEvaluateInputs {
  ei_open_positions : list Position;
  ei_today_trades : list Trade;
  ei_recent_events : list DomainEvent;
  ei_cross_reference_trades : list Trade;
  ei_pending_order : option Order;
  ei_latest_trade : option Trade;
  ei_latest_tick : option Tick;
  ei_equity_source : EquitySource;
}.

#[global] Instance EvaluateInputs_settable : Settable EvaluateInputs := fun r =>
  mkEvaluateInputs (ei_open_positions r) (ei_today_trades r) (ei_recent_events r)
    (ei_cross_reference_trades r) (ei_pending_order r) (ei_latest_trade r) (ei_latest_tick r)
    (ei_equity_source r).

Definition EvaluateInputs_default : EvaluateInputs :=
  mkEvaluateInputs [] [] [] [] None None None EquitySource_default.

Definition EvaluateInputs_for_tick (open_positions : list Position) (today_trades : list Trade)
    (latest_tick : Tick) : EvaluateInputs :=
  EvaluateInputs_default <| ei_open_positions := open_positions |>
    <| ei_today_trades := today_trades |> <| ei_latest_tick := Some latest_tick |>.

Definition EvaluateInputs_with_equity_source (i : EvaluateInputs) (src : EquitySource)
    : EvaluateInputs := i <| ei_equity_source := src |>.

Definition EvaluateInputs_with_cross_reference_trades (i : EvaluateInputs) (trades : list Trade)
    : EvaluateInputs := i <| ei_cross_reference_trades := trades |>.

Record PureVerdict := mkPureVerdict {
  pv_decision : Decision;
  pv_reports : list RuleReport;
  pv_input_hash : string;
  pv_pack_version : Z;
  pv_pack_id : string;
}.

Definition PureVerdict_is_terminating (v : PureVerdict) : bool :=
  Decision_is_terminating (pv_decision v).

Definition EvaluationResult_from (v : PureVerdict) : EvaluationResult :=
  mkEvaluationResult (pv_reports v) (pv_decision v).

(** The context of a pure evaluation; [now] is the reading [RuleContext::new]
    makes before the server time replaces it. *)
Definition pure_context (account : Account) (kind : RuleContextKind) (now server_time : Timestamp)
    (inputs : EvaluateInputs) : RuleContext :=
  let ctx := RuleContext_new account now in
  let ctx := ctx <| ctx_kind := kind |>
                 <| ctx_open_positions := ei_open_positions inputs |>
                 <| ctx_today_trades := ei_today_trades inputs |>
                 <| ctx_recent_events := ei_recent_events inputs |>
                 <| ctx_cross_reference_trades := ei_cross_reference_trades inputs |>
                 <| ctx_rule_config := RuleConfig_from_plan (acc_plan account) |>
                 <| ctx_server_time := server_time |> in
  let ctx := match ei_equity_source inputs with
             | SrcBrokerReported =>
                 RuleContext_with_broker_equity ctx (acc_equity account) (acc_balance account)
             | SrcEstimated =>
                 RuleContext_with_estimated_equity ctx (acc_equity account) (acc_balance account)
             end in
  let ctx := match ei_pending_order inputs with
             | Some o => ctx <| ctx_pending_order := Some o |> | None => ctx end in
  let ctx := match ei_latest_trade inputs with
             | Some t => ctx <| ctx_latest_trade := Some t |> | None => ctx end in
  match ei_latest_tick inputs with
  | Some t => ctx <| ctx_latest_tick := Some t |>
  | None => ctx
  end.

(** [fresh] and [now_reports] are what the registry draws for its reports. *)
Definition evaluate `{Sha256Ops} (fresh : nat → Fresh) (now now_reports : Timestamp)
    (account : Account) (pack : RulePack) (registry : RuleRegistry) (kind : RuleContextKind)
    (server_time : Timestamp) (inputs : EvaluateInputs) : outcome PureVerdict :=
  let ctx := pure_context account kind now server_time inputs in
  let input_hash :=
    compute_input_hash account pack kind server_time (ei_open_positions inputs)
      (ei_today_trades inputs) (ei_pending_order inputs) (ei_latest_trade inputs)
      (ei_latest_tick inputs) (ei_cross_reference_trades inputs) (ei_equity_source inputs) in
  let! reports := RuleRegistry_evaluate fresh now_reports registry ctx in
  Ret {| pv_decision := Decision_from_reports reports;
         pv_reports := reports;
         pv_input_hash := input_hash;
         pv_pack_version := rp_version pack;
         pv_pack_id := rp_id pack |}.

End Pure.
