(* ===== verification/Metrics.v ===== *)
(** * Metrics (src/api/metrics.rs)

    The functions of the file call the [metrics] crate, which hands each call
    to a recorder.  A call is a value here, and what a handler records is the
    list of its calls in order; [counter_total] is the figure a recorder that
    adds up the increments shows for a name and its labels. *)

From S2P Require Import Prelude.
From stdpp Require Import pretty.
#[local] Open Scope Z_scope.

Definition Label : Type := string * string.

Inductive MetricOp : Type :=
| CounterIncrement (name : string) (labels : list Label) (by_ : Z)
| HistogramRecord (name : string) (labels : list Label) (nanos : Z).

#[global] Instance MetricOp_eq_dec : EqDecision MetricOp.
Proof. solve_decision. Defined.

Definition record_http_response (method : string) (status : Z) : MetricOp :=
  CounterIncrement "propfirm_http_requests_total"
    [("method"%string, method); ("status"%string, pretty status)] 1.

Definition record_decision (decision_kind : string) : MetricOp :=
  CounterIncrement "propfirm_evaluate_decisions_total" [("kind"%string, decision_kind)] 1.

Definition record_idempotency_outcome (outcome : string) : MetricOp :=
  CounterIncrement "propfirm_idempotency_outcomes_total" [("outcome"%string, outcome)] 1.

Definition record_error (endpoint kind : string) : MetricOp :=
  CounterIncrement "propfirm_errors_total"
    [("endpoint"%string, endpoint); ("kind"%string, kind)] 1.

(** ** Latency

    [start] and the reading at the drop are nanoseconds of the monotonic
    clock; the histogram gets their difference, in seconds in the source. *)
Record LatencyScope := mkLatencyScope {
  ls_endpoint : string;
  ls_start : Z;
}.

Definition LatencyScope_start (endpoint : string) (now : Z) : LatencyScope :=
  mkLatencyScope endpoint now.

Definition LatencyScope_drop (scope : LatencyScope) (now : Z) : MetricOp :=
  HistogramRecord "propfirm_request_duration_seconds"
    [("endpoint"%string, ls_endpoint scope)] (now - ls_start scope).

(** ** The worker's metrics *)

Module worker.

Definition record_message_consumed (consumer : string) : MetricOp :=
  CounterIncrement "propfirm_event_bus_messages_consumed_total" [("consumer"%string, consumer)] 1.

Definition record_message_produced : MetricOp :=
  CounterIncrement "propfirm_event_bus_messages_produced_total" [] 1.

Definition record_message_claimed : MetricOp :=
  CounterIncrement "propfirm_event_bus_messages_claimed_total" [] 1.

Definition record_message_acked : MetricOp :=
  CounterIncrement "propfirm_event_bus_messages_acked_total" [] 1.

Definition latency_scope (now : Z) : LatencyScope := LatencyScope_start "event_bus_worker" now.

Definition worker_record_error (kind : string) : MetricOp :=
  CounterIncrement "propfirm_event_bus_errors_total" [("kind"%string, kind)] 1.

Definition worker_record_idempotency_outcome (outcome : string) : MetricOp :=
  CounterIncrement "propfirm_event_bus_idempotency_outcomes_total" [("outcome"%string, outcome)] 1.

End worker.

(** ** Reading the recorder *)

(** The increments of the counter [name] whose labels satisfy [P]. *)
Definition counter_where (P : list Label → bool) (name : string) (ops : list MetricOp) : Z :=
  foldr (fun op n => match op with
    | CounterIncrement m ls k => if bool_decide (m = name) && P ls then k + n else n
    | HistogramRecord _ _ _ => n
    end) 0 ops.

Definition counter_total (name : string) (labels : list Label) : list MetricOp → Z :=
  counter_where (fun ls => bool_decide (ls = labels)) name.

Definition counter_sum (name : string) : list MetricOp → Z := counter_where (fun _ => true) name.

Lemma counter_where_app P name ops ops' :
  counter_where P name (ops ++ ops') = counter_where P name ops + counter_where P name ops'.
Proof.
  unfold counter_where. induction ops as [|[m ls k|m ls k] ops IH]; simpl; [done| |exact IH].
  case_match; lia.
Qed.
