(* ===== verification/Json.v ===== *)
(** * JSON values

    The values of [serde_json] that the sources build with [json!]; an
    object is the list of its fields in the order of the source. *)

From S2P Require Import Prelude.
From S2P Require Import Decimal.
#[local] Open Scope Z_scope.

Inductive Json `{DecimalOps} : Type :=
| JNull
| JBool (b : bool)
| JInt (n : Z)
| JDec (d : Decimal)
| JStr (s : string)
| JArr (l : list Json)
| JObj (fields : list (string * Json)).

(** [Option<T>] serialises to the value or null. *)
Definition json_opt `{DecimalOps} {A} (f : A → Json) (o : option A) : Json :=
  match o with Some a => f a | None => JNull end.

(** The first field of an object with the name. *)
Definition json_field `{DecimalOps} (name : string) (j : Json) : option Json :=
  match j with
  | JObj fields => snd <$> List.find (fun f => bool_decide (fst f = name)) fields
  | _ => None
  end.
