(* ===== verification/AuditLog.v ===== *)
(** * Audit entries (src/api/audit_log.rs)

    The builder of an audit record and one function per audited action.
    Finishing an entry writes nothing to a store: it leaves one debug line
    that carries the action alone.  [now] is the reading of the monotonic
    clock when the entry is started. *)

From S2P Require Import Prelude.
From S2P Require Import Decimal.
From S2P Require Import Chrono.
From S2P Require Import Ids.
From S2P Require Import Hashing.
From S2P Require Import Json.
#[local] Open Scope Z_scope.

Section Audit.
Context `{DecimalOps} `{ChronoOps} `{!UuidOps}.

Record AuditEntry := mkAuditEntry {
  aud_actor_id : string;
  aud_action : string;
  aud_tenant_id : option TenantId;
  aud_account_id : option AccountId;
  aud_resource_kind : option string;
  aud_resource_id : option string;
  aud_request_hash : option string;
  aud_metadata : Json;
  aud_started_at : Z;
}.

#[export] Instance AuditEntry_settable : Settable AuditEntry := fun e =>
  mkAuditEntry (aud_actor_id e) (aud_action e) (aud_tenant_id e) (aud_account_id e)
    (aud_resource_kind e) (aud_resource_id e) (aud_request_hash e) (aud_metadata e)
    (aud_started_at e).

Definition AuditEntry_start (now : Z) (action actor_id : string) : AuditEntry :=
  mkAuditEntry actor_id action None None None None None JNull now.

Definition AuditEntry_with_tenant (e : AuditEntry) (tenant : TenantId) : AuditEntry :=
  e <| aud_tenant_id := Some tenant |>.

Definition AuditEntry_with_account (e : AuditEntry) (account : AccountId) : AuditEntry :=
  e <| aud_account_id := Some account |>.

Definition AuditEntry_with_resource (e : AuditEntry) (kind id : string) : AuditEntry :=
  e <| aud_resource_kind := Some kind |> <| aud_resource_id := Some id |>.

Definition AuditEntry_with_request_hash (e : AuditEntry) (hash : string) : AuditEntry :=
  e <| aud_request_hash := Some hash |>.

Definition AuditEntry_with_metadata (e : AuditEntry) (metadata : Json) : AuditEntry :=
  e <| aud_metadata := metadata |>.

(** The debug line of [finish]; correlation and status are not used. *)
Definition AuditEntry_finish (e : AuditEntry) (correlation_id : option Uuid) (response_status : Z)
    : string := aud_action e.

(** The entry of an action on an account. *)
Definition audit_account (now : Z) (action actor_id : string) (tenant : TenantId)
    (account : AccountId) : AuditEntry :=
  AuditEntry_with_account (AuditEntry_with_tenant (AuditEntry_start now action actor_id) tenant)
    account.

Definition audit_override_breach (now : Z) (actor_id : string) (tenant : TenantId)
    (account : AccountId) (clears_violation : ViolationId) (reason : string) : AuditEntry :=
  AuditEntry_with_metadata
    (AuditEntry_with_resource (audit_account now "override_breach" actor_id tenant account)
       "violation" (uuid_display clears_violation))
    (JObj [("reason"%string, JStr reason);
           ("clears_violation_id"%string, JStr (uuid_display clears_violation))]).

Definition audit_emergency_stop (now : Z) (actor_id : string) (tenant : TenantId)
    (account : AccountId) (reason : string) : AuditEntry :=
  AuditEntry_with_metadata (audit_account now "emergency_stop" actor_id tenant account)
    (JObj [("reason"%string, JStr reason)]).

Definition audit_manual_run (now : Z) (actor_id : string) (tenant : TenantId) (account : AccountId)
    : AuditEntry := audit_account now "manual_run" actor_id tenant account.

Definition audit_evaluate (now : Z) (tenant : TenantId) (account : AccountId)
    (decision_kind input_hash : string) : AuditEntry :=
  AuditEntry_with_metadata
    (AuditEntry_with_request_hash (audit_account now "evaluate" "evaluate_internal" tenant account)
       input_hash)
    (JObj [("decision_kind"%string, JStr decision_kind); ("input_hash"%string, JStr input_hash)]).

Definition audit_evaluate_order (now : Z) (tenant : TenantId) (account : AccountId)
    (symbol side decision : string) : AuditEntry :=
  AuditEntry_with_metadata
    (AuditEntry_with_resource (audit_account now "evaluate_order" "evaluate_order" tenant account)
       "order" (symbol +:+ ":" +:+ side))
    (JObj [("symbol"%string, JStr symbol); ("side"%string, JStr side);
           ("decision"%string, JStr decision)]).

Definition audit_breach_report (now : Z) (tenant : TenantId) (account : AccountId)
    (violation_count cleared_count : Z) : AuditEntry :=
  AuditEntry_with_metadata (audit_account now "breach_report" "breach_report" tenant account)
    (JObj [("violation_count"%string, JInt violation_count);
           ("cleared_count"%string, JInt cleared_count)]).

Definition audit_worker_evaluate (now : Z) (consumer_name : string) (tenant : TenantId)
    (account : AccountId) (decision_kind request_id input_hash : string) : AuditEntry :=
  AuditEntry_with_metadata
    (AuditEntry_with_resource
       (AuditEntry_with_request_hash
          (audit_account now "worker_evaluate" consumer_name tenant account) input_hash)
       "request" request_id)
    (JObj [("consumer"%string, JStr consumer_name); ("decision_kind"%string, JStr decision_kind);
           ("request_id"%string, JStr request_id); ("input_hash"%string, JStr input_hash)]).

Definition audit_worker_error (now : Z) (consumer_name : string) (tenant_id : option TenantId)
    (account_id : option AccountId) (request_id error_kind error_msg : string) : AuditEntry :=
  let entry :=
    AuditEntry_with_metadata
      (AuditEntry_with_resource (AuditEntry_start now "worker_error" consumer_name)
         "request" request_id)
      (JObj [("consumer"%string, JStr consumer_name); ("request_id"%string, JStr request_id);
             ("error_kind"%string, JStr error_kind); ("error_msg"%string, JStr error_msg)]) in
  let entry := match tenant_id with Some t => AuditEntry_with_tenant entry t | None => entry end in
  match account_id with Some a => AuditEntry_with_account entry a | None => entry end.

(** The filters of a query and a row of the former table; the query itself
    is gone from the source. *)
Record AuditQuery := mkAuditQuery {
  auq_tenant_id : option TenantId;
  auq_account_id : option AccountId;
  auq_action : option string;
  auq_since : option string;
  auq_limit : Z;
}.

Record AuditEntryRow := mkAuditEntryRow {
  aur_id : Z;
  aur_occurred_at : Timestamp;
  aur_correlation_id : option Uuid;
  aur_actor_id : option string;
  aur_action : string;
  aur_tenant_id : option Uuid;
  aur_account_id : option Uuid;
  aur_resource_kind : option string;
  aur_resource_id : option string;
  aur_request_hash : option string;
  aur_response_status : option Z;
  aur_latency_ms : option Z;
  aur_metadata : Json;
}.

End Audit.
