(* ===== verification/Api.v ===== *)
(** * HTTP handlers (src/api/handlers.rs, src/api/dto.rs, src/api/middleware.rs)

    The handlers are stateless in the account: it comes with the request and
    goes back with the response.  What they share is the process-wide
    registry cache and the idempotency store of the evaluate endpoint, the
    state of the monad [api].  A response is a value or a status code with a
    message (the format template of the source).  The state also holds the log
    of what the handlers record: the calls of the metrics crate and the lines
    audit entries leave.  Request parsing and serialisation (serde), time
    formats (chrono) and UUID parsing are parameters; tracing spans are left
    out. *)

From S2P Require Import Prelude.
From S2P Require Import Decimal.
From S2P Require Import Chrono.
From S2P Require Import Ids.
From S2P Require Import Domain.
From S2P Require Import Plan.
From S2P Require Import Account.
From S2P Require Import Violation.
From S2P Require Import Pack.
From S2P Require Import RuleApi.
#[local] Open Scope Z_scope.
From S2P Require Import Registry.
From S2P Require Import Decision.
From S2P Require Import Pipeline.
From S2P Require Import EventStore.
From S2P Require Import Hashing.
From S2P Require Import Pure.
From S2P Require Import Idempotency.
From S2P Require Import Metrics.
From S2P Require Import Json.
From S2P Require Import AuditLog.

(** ** Debug and display texts *)

Definition Error_display (e : Error) : string :=
  match e with
  | InvalidConfig m => "invalid configuration: " +:+ m
  | RuleNotApplicable r c => "rule " +:+ r +:+ " not applicable to context kind " +:+ c
  | NumericConversion m => "numeric conversion error: " +:+ m
  | NotFound m => "entity not found: " +:+ m
  | Persistence m => "persistence error: " +:+ m
  | Serialization m => "serialization error: " +:+ m
  | InvalidState m => "invalid state: " +:+ m
  | RuleEval m => "rule evaluation error: " +:+ m
  | StateConflict m _ _ => "state conflict on " +:+ m +:+ ": expected version {1}, found {2}"
  | TickRejected m => "tick rejected: " +:+ m
  | MissingMetric m => "missing metric: " +:+ m
  end.

Definition DecisionKind_debug (k : DecisionKind) : string :=
  match k with
  | DkPass => "Pass"
  | DkWarn => "Warn"
  | DkEarlyWarning => "EarlyWarning"
  | DkTargetHit => "TargetHit"
  | DkFail => "Fail"
  | DkSoftFail => "SoftFail"
  | DkGapFlagged => "GapFlagged"
  | DkLiquidate => "Liquidate"
  | DkEmergency => "Emergency"
  end.

Definition AccountStatus_debug (s : AccountStatus) : string :=
  match s with
  | StPending => "Pending"
  | StActive => "Active"
  | StTargetHitPending => "TargetHitPending"
  | StPassed => "Passed"
  | StFailed => "Failed"
  | StFunded => "Funded"
  | StPayoutPending => "PayoutPending"
  | StClosed => "Closed"
  | StEmergencyStopped => "EmergencyStopped"
  end.

Definition ViolationSeverity_debug (s : ViolationSeverity) : string :=
  match s with
  | SevInfo => "Info" | SevWarning => "Warning" | SevHard => "Hard" | SevLiquidate => "Liquidate"
  end.

Definition ViolationKind_debug (k : ViolationKind) : string :=
  match k with
  | VkDailyDrawdown => "DailyDrawdown"
  | VkMaxDrawdown => "MaxDrawdown"
  | VkTrailingDrawdown => "TrailingDrawdown"
  | VkProfitTargetMissed => "ProfitTargetMissed"
  | VkMinTradingDays => "MinTradingDays"
  | VkMinProfitableDays => "MinProfitableDays"
  | VkConsistency => "Consistency"
  | VkNewsTrading => "NewsTrading"
  | VkOvernightHolding => "OvernightHolding"
  | VkWeekendHolding => "WeekendHolding"
  | VkMaxPositionSize => "MaxPositionSize"
  | VkMaxLotSize => "MaxLotSize"
  | VkMaxOpenPositions => "MaxOpenPositions"
  | VkMaxDailyTrades => "MaxDailyTrades"
  | VkTimeLimit => "TimeLimit"
  | VkCooldown => "Cooldown"
  | VkHedging => "Hedging"
  | VkGridTrading => "GridTrading"
  | VkCopyTrading => "CopyTrading"
  | VkMissingStopLoss => "MissingStopLoss"
  | VkMissingTakeProfit => "MissingTakeProfit"
  | VkCrossAccountHedging => "CrossAccountHedging"
  | VkLowcapExposure => "LowcapExposure"
  | VkCustom => "Custom"
  end.

(** ** Status codes *)

Definition BAD_REQUEST : Z := 400.
Definition FORBIDDEN : Z := 403.
Definition CONFLICT : Z := 409.
Definition UNPROCESSABLE_ENTITY : Z := 422.
Definition INTERNAL_SERVER_ERROR : Z := 500.

Definition HttpError : Type := Z * string.

Definition NOT_FOUND : Z := 404.

(** The JSON body of an error (src/api/middleware.rs), with its status. *)
Record ErrorResponse := mkErrorResponse {
  erp_status : Z;
  erp_error : string;
  erp_message : string;
}.

Definition Error_into_response (e : Error) : ErrorResponse :=
  match e with
  | InvalidConfig msg => mkErrorResponse BAD_REQUEST "invalid_config" msg
  | InvalidState msg => mkErrorResponse BAD_REQUEST "invalid_state" msg
  | NotFound msg => mkErrorResponse NOT_FOUND "not_found" msg
  | RuleNotApplicable rule kind =>
      mkErrorResponse BAD_REQUEST "rule_not_applicable"
        ("rule " +:+ rule +:+ " not applicable to context kind " +:+ kind)
  | StateConflict what _ _ =>
      mkErrorResponse CONFLICT "state_conflict"
        ("state conflict on " +:+ what +:+ ": expected version {1}, found {2}")
  | TickRejected msg => mkErrorResponse UNPROCESSABLE_ENTITY "tick_rejected" msg
  | NumericConversion msg => mkErrorResponse BAD_REQUEST "numeric_conversion" msg
  | Persistence _ =>
      mkErrorResponse INTERNAL_SERVER_ERROR "persistence_error" "internal persistence failure"
  | Serialization _ =>
      mkErrorResponse INTERNAL_SERVER_ERROR "serialization_error" "internal serialization failure"
  | RuleEval _ =>
      mkErrorResponse INTERNAL_SERVER_ERROR "rule_eval_error" "internal rule evaluation failure"
  | MissingMetric msg => mkErrorResponse INTERNAL_SERVER_ERROR "missing_metric" msg
  end.

Record ApiError := mkApiError { ape_status : Z; ape_message : string }.

Definition ApiError_from (e : HttpError) : ApiError := mkApiError (fst e) (snd e).

Definition status_to_kind (status : Z) : string :=
  if status =? 400 then "bad_request"
  else if status =? 401 then "unauthorized"
  else if status =? 403 then "forbidden"
  else if status =? 404 then "not_found"
  else if status =? 409 then "conflict"
  else if status =? 413 then "payload_too_large"
  else if status =? 422 then "unprocessable_entity"
  else if status =? 429 then "too_many_requests"
  else if (500 <=? status) && (status <=? 599) then "internal_error"
  else "error".

Definition ApiError_into_response (e : ApiError) : ErrorResponse :=
  mkErrorResponse (ape_status e) (status_to_kind (ape_status e)) (ape_message e).

(** Time formats of the crate [chrono]. *)
Class TimeText `{ChronoOps} := {
  to_rfc3339 : Timestamp → string;
  from_timestamp_millis : Z → option Timestamp;
}.

(** [TenantId::named] (src/tenant.rs) derives an identifier as
    [RuleId::named] does. *)
Definition TenantId_named (name : string) : TenantId := uuid_of_hash (default_hash name).

(** The header map: the text value of a header, if it has one. *)
Definition HeaderMap : Type := string → option string.

Section Dto.
Context `{DecimalOps} `{ChronoOps} `{UuidOps}.

(** ** Wire shapes *)

Record PositionDto := mkPositionDto {
  pd_position_id : string;
  pd_symbol : string;
  pd_side : string;
  pd_open_quantity : Decimal;
  pd_avg_entry_price : Decimal;
  pd_opened_at : Timestamp;
}.

Definition position_side_of (side : string) : PositionSide + string :=
  let side := to_ascii_lowercase side in
  if str_in side ["long"; "buy"] then inl Long
  else if str_in side ["short"; "sell"] then inl Short
  else inr "invalid position side '{other}'".

Definition PositionDto_into_domain (d : PositionDto) (account_id : AccountId) : Position + string :=
  match position_side_of (pd_side d) with
  | inr e => inr e
  | inl side =>
      match uuid_parse (pd_position_id d) with
      | None => inr "invalid position_id: {e}"
      | Some position_id =>
          inl {| pos_id := position_id;
                 pos_account_id := account_id;
                 pos_symbol := Symbol_new (pd_symbol d);
                 pos_side := side;
                 pos_opened_at := pd_opened_at d;
                 pos_closed_at := None;
                 pos_status := PsOpen;
                 pos_avg_entry_price := pd_avg_entry_price d;
                 pos_opened_quantity := pd_open_quantity d;
                 pos_open_quantity := pd_open_quantity d;
                 pos_realized_pnl := dec_zero;
                 pos_commission := dec_zero;
                 pos_swap := dec_zero;
                 pos_stop_loss := None;
                 pos_take_profit := None;
                 pos_magic := None;
                 pos_comment := None |}
      end
  end.

Record TradeDto := mkTradeDto {
  td_symbol : string;
  td_side : string;
  td_trade_side : string;
  td_price : Decimal;
  td_quantity : Decimal;
  td_executed_at : Timestamp;
  td_realized_pnl : option Decimal;
}.

(** The random identifiers one conversion of a trade draws. *)
Record TradeIds := mkTradeIds { ti_trade : TradeId; ti_order : OrderId; ti_position : PositionId }.

Definition order_side_of (side : string) : OrderSide + string :=
  let side := to_ascii_lowercase side in
  if str_in side ["buy"; "long"] then inl Buy
  else if str_in side ["sell"; "short"] then inl Sell
  else inr "invalid trade side '{other}'".

Definition trade_side_of (side : string) : TradeSide + string :=
  let side := to_ascii_lowercase side in
  if str_in side ["entry"; "open"] then inl Domain.Entry
  else if str_in side ["exit"; "close"] then inl Exit
  else inr "invalid trade_side '{other}'".

Definition TradeDto_into_domain (ids : TradeIds) (d : TradeDto) (account_id : AccountId)
    : Trade + string :=
  match order_side_of (td_side d) with
  | inr e => inr e
  | inl side =>
      match trade_side_of (td_trade_side d) with
      | inr e => inr e
      | inl trade_side =>
          let t := Trade_new (ti_trade ids) (ti_order ids) account_id (Symbol_new (td_symbol d)) side
                     trade_side (td_price d) (td_quantity d) dec_zero (td_executed_at d) in
          inl (if bool_decide (trade_side = Exit) then
                 t <| tr_exit_info := Some (mkTradeExit (ti_position ids)
                        (default dec_zero (td_realized_pnl d)) (td_quantity d) (td_price d)
                        (td_price d)) |>
               else t)
      end
  end.

Record BridgeTickPositionDto := mkBridgeTickPositionDto {
  bp_position_id : string;
  bp_symbol : string;
  bp_side : string;
  bp_open_quantity : Decimal;
  bp_avg_entry_price : Decimal;
  bp_opened_at : Timestamp;
  bp_closed_at : option Timestamp;
  bp_status : option string;
  bp_realized_pnl : option Decimal;
  bp_commission : option Decimal;
  bp_swap : option Decimal;
}.

Definition bridge_status_of (status : option string) : PositionStatus :=
  match to_ascii_lowercase <$> status with
  | Some s => if str_in s ["closed"] then PsClosed
              else if str_in s ["liquidated"] then PsLiquidated else PsOpen
  | None => PsOpen
  end.

Definition BridgeTickPositionDto_into_domain (d : BridgeTickPositionDto) (account_id : AccountId)
    : Position + string :=
  match position_side_of (bp_side d) with
  | inr e => inr e
  | inl side =>
      let status := bridge_status_of (bp_status d) in
      match uuid_parse (bp_position_id d) with
      | None => inr "invalid position_id: {e}"
      | Some position_id =>
          inl {| pos_id := position_id;
                 pos_account_id := account_id;
                 pos_symbol := Symbol_new (bp_symbol d);
                 pos_side := side;
                 pos_opened_at := bp_opened_at d;
                 pos_closed_at := bp_closed_at d;
                 pos_status := status;
                 pos_avg_entry_price := bp_avg_entry_price d;
                 pos_opened_quantity := bp_open_quantity d;
                 pos_open_quantity := bp_open_quantity d;
                 pos_realized_pnl := default dec_zero (bp_realized_pnl d);
                 pos_commission := default dec_zero (bp_commission d);
                 pos_swap := default dec_zero (bp_swap d);
                 pos_stop_loss := None;
                 pos_take_profit := None;
                 pos_magic := None;
                 pos_comment := None |}
      end
  end.

Record BridgeTickPayload := mkBridgeTickPayload {
  bt_equity_cents : Z;
  bt_balance_cents : Z;
  bt_margin_cents : Z;
  bt_free_margin_cents : Z;
  bt_leverage : Z;
  bt_positions : list BridgeTickPositionDto;
  bt_deals_count : Z;
  bt_last_deal_ticket : option string;
  bt_broker_time : Z;
  bt_trigger : option string;
  bt_source : option string;
  bt_stream_seq : option Z;
  bt_equity_low_cents : option Z;
  bt_equity_high_cents : option Z;
}.

Record BridgeTickV1 := mkBridgeTickV1 {
  bt_type : string;
  bt_version : Z;
  bt_tenant_id : string;
  bt_occurred_at : Z;
  bt_payload : BridgeTickPayload;
}.

Record InternalEvaluateRequest := mkInternalEvaluateRequest {
  ir_account_id : string;
  ir_account_state : option Account;
  ir_rule_pack : option RulePack;
  ir_bridge_tick : option BridgeTickV1;
  ir_tick : option Tick;
  ir_equity_source : option string;
  ir_open_positions : option (list PositionDto);
  ir_today_trades : option (list TradeDto);
  ir_cross_reference_trades : option (list TradeDto);
}.

Record FloorHints := mkFloorHints {
  fh_floor_daily_cents : option Z;
  fh_floor_total_cents : option Z;
  fh_target_equity_cents : option Z;
  fh_floors_version : Z;
}.

Record InternalEvaluateResponse := mkInternalEvaluateResponse {
  is_evaluated : bool;
  is_decision_kind : string;
  is_winning_priority : Z;
  is_input_hash : string;
  is_pack_version : Z;
  is_pack_id : string;
  is_violations : list string;
  is_violation_details : list Violation;
  is_account_state : Account;
  is_hints : option FloorHints;
}.

Record OverrideRequest := mkOverrideRequest {
  or_account_id : string;
  or_account_state : option Account;
  or_clears_violation_id : string;
  or_violation : Violation;
  or_reason : string;
  or_actor_id : string;
}.

Record OverrideResponse := mkOverrideResponse {
  os_override_id : string;
  os_cleared_at : string;
  os_account_state : Account;
}.

Record ManualRunRequest := mkManualRunRequest {
  mr_account_id : string;
  mr_account_state : option Account;
}.

Record ManualRunResponse := mkManualRunResponse {
  ms_decision_kind : string;
  ms_passed : bool;
  ms_violations : list string;
  ms_violation_details : list Violation;
  ms_account_state : Account;
}.

Record EmergencyStopRequest := mkEmergencyStopRequest {
  er_account_id : string;
  er_account_state : option Account;
  er_reason : string;
  er_actor_id : string;
}.

Record EmergencyStopResponse := mkEmergencyStopResponse {
  est_decision_kind : string;
  est_stopped_at : string;
  est_account_state : Account;
}.

Record OverrideSummary := mkOverrideSummary {
  osm_override_id : string;
  osm_clears_violation_id : string;
  osm_reason : string;
  osm_actor_id : string;
  osm_at : string;
}.

Record ViolationSummary := mkViolationSummary {
  vs_rule_name : string;
  vs_kind : string;
  vs_severity : string;
  vs_message : string;
  vs_occurred_at : string;
  vs_cleared : bool;
}.

Record BreachReportRequest := mkBreachReportRequest {
  br_account_id : string;
  br_account_state : option Account;
  br_violations : list Violation;
  br_overrides : list OverrideSummary;
}.

Record BreachReportResponse := mkBreachReportResponse {
  bs_account_id : string;
  bs_account_status : string;
  bs_violations : list ViolationSummary;
  bs_current_violations : list ViolationSummary;
}.

Record EvaluateOrderRequest := mkEvaluateOrderRequest {
  eo_account_id : string;
  eo_account_state : option Account;
  eo_symbol : string;
  eo_side : string;
  eo_quantity : Decimal;
  eo_order_type : string;
  eo_price : option Decimal;
  eo_stop_loss : option Decimal;
  eo_take_profit : option Decimal;
}.

Record EvaluateOrderResponse := mkEvaluateOrderResponse {
  eos_decision : string;
  eos_passed : bool;
  eos_violations : list string;
  eos_violation_details : list Violation;
  eos_account_state : Account;
}.

Record AccountSnapshotDto := mkAccountSnapshotDto {
  asd_balance : Money;
  asd_equity : Money;
  asd_net_profit : Money;
  asd_daily_drawdown : Money;
  asd_total_drawdown : Money;
  asd_daily_dd_utilization : Pct;
  asd_max_dd_utilization : Pct;
  asd_profit_target_utilization : Pct;
  asd_active_trading_days : Z;
  asd_trading_day_index : Z;
}.

Definition AccountSnapshotDto_from (s : AccountSnapshot) : AccountSnapshotDto :=
  mkAccountSnapshotDto (as_balance s) (as_equity s) (as_net_profit s) (as_daily_drawdown s)
    (as_total_drawdown s) (as_daily_dd_utilization s) (as_max_dd_utilization s)
    (as_profit_target_utilization s) (as_active_trading_days s) (as_trading_day_index s).

Record AuditLogQuery := mkAuditLogQuery {
  aq_tenant_id : option TenantId;
  aq_account_id : option AccountId;
  aq_action : option string;
  aq_since : option string;
  aq_limit : option Z;
}.

Record RuleEntryDto := mkRuleEntryDto {
  red_id : string;
  red_kind : string;
  red_basis : string;
  red_unit : string;
  red_value : Decimal;
  red_tolerance_cents : option Z;
  red_early_warning_pct : option Decimal;
  red_priority : Z;
  red_enabled : bool;
  red_params_json : option string;
  red_severity : option string;
  red_failure_policy : option string;
}.

Record CreateRulePackRequest := mkCreateRulePackRequest {
  crp_id : string;
  crp_version : Z;
  crp_tenant_id : string;
  crp_description : string;
  crp_rules : list RuleEntryDto;
  crp_initial_balance : Money;
  crp_leverage : Z;
  crp_profit_target_pct : Pct;
}.

Record RulePackResponse := mkRulePackResponse {
  rpr_id : string;
  rpr_version : Z;
  rpr_lifecycle : string;
  rpr_content_hash : string;
}.

(** Shapes the account endpoints of src/api/dto.rs declare. *)
Record CreateAccountRequest := mkCreateAccountRequest {
  ca_account_id : string;
  ca_tenant_id : string;
  ca_plan_id : string;
  ca_initial_balance : option Money;
}.

Record CreateAccountResponse := mkCreateAccountResponse {
  cs_account_id : string;
  cs_tenant_id : string;
  cs_status : string;
}.

End Dto.

(** ** The handler monad

    A state monad over what the requests share, whose value is a result or an
    HTTP error. *)

Section Monad.
Context `{DecimalOps} `{ChronoOps} `{!JsonOps}.

(** What a handler leaves behind besides its response. *)
Inductive Telemetry : Type :=
| TmMetric (op : MetricOp)
| TmAudit (action : string).

Record ApiState := mkApiState {
  sv_cache : gmap Z RuleRegistry;
  sv_idempotency : IdempotencyStore;
  sv_log : list Telemetry;
}.

Definition api (A : Type) : Type := ApiState → outcome ((A + HttpError) * ApiState).

Definition api_ok {A} (a : A) : api A := fun c => Ret (inl a, c).

Definition api_reject {A} (status : Z) (msg : string) : api A := fun c => Ret (inr (status, msg), c).

Definition api_bind {A B} (m : api A) (f : A → api B) : api B := fun c =>
  let! (r, c') := m c in
  match r with inl a => f a c' | inr e => Ret (inr e, c') end.

(** [map_err(|e| (status, e.to_string()))?]. *)
Definition api_of {A} (status : Z) (m : outcome A) : api A := fun c =>
  match m with
  | Ret a => Ret (inl a, c)
  | Err e => Ret (inr (status, Error_display e), c)
  | Panic => Panic
  | OutOfFuel => OutOfFuel
  end.

(** [ok_or((status, msg))?]. *)
Definition api_some {A} (status : Z) (msg : string) (o : option A) : api A :=
  match o with Some a => api_ok a | None => api_reject status msg end.

(** A computation that only may panic. *)
Definition api_run {A} (m : outcome A) : api A := fun c => let! a := m in Ret (inl a, c).

Definition api_when (b : bool) (status : Z) (msg : string) : api unit :=
  if b then api_reject status msg else api_ok tt.

Definition api_registry `{!HashOps} (plan : ChallengePlan) : api RuleRegistry := fun c =>
  let! (r, cache) := get_or_build (sv_cache c) plan in
  Ret (inl r, mkApiState cache (sv_idempotency c) (sv_log c)).

(** One entry of the log. *)
Definition api_log (e : Telemetry) : api unit := fun c =>
  Ret (inl tt, mkApiState (sv_cache c) (sv_idempotency c) (sv_log c ++ [e])).

Definition api_metric (op : MetricOp) : api unit := api_log (TmMetric op).

(** A guard whose rejection is counted first. *)
Definition api_guard (b : bool) (endpoint kind : string) (status : Z) (msg : string) : api unit :=
  if b then api_bind (api_metric (record_error endpoint kind)) (fun _ => api_reject status msg)
  else api_ok tt.

(** A handler under a latency scope: the scope is dropped when the handler
    returns, with a response or a rejection. *)
Definition api_timed {A} (endpoint : string) (start stop : Z) (m : api A) : api A := fun c =>
  let scope := LatencyScope_start endpoint start in
  let! (r, c') := m c in
  Ret (r, mkApiState (sv_cache c') (sv_idempotency c')
            (sv_log c' ++ [TmMetric (LatencyScope_drop scope stop)])).

(** A list of conversions: the first error wins, otherwise all values. *)
Definition api_all {A} (rs : list (A + string)) : api (list A) :=
  let errors := omap (fun r => match r with inr e => Some e | inl _ => None end) rs in
  match head errors with
  | Some first => api_reject BAD_REQUEST first
  | None => api_ok (omap (fun r => match r with inl a => Some a | inr _ => None end) rs)
  end.

End Monad.

Declare Scope api_scope.
Notation "'let?' x ':=' m 'in' k" := (api_bind m (fun x => k))
  (at level 10, x pattern, m at level 200, k at level 200,
   format "'[v' 'let?'  x  ':='  m  'in' '/' k ']'") : api_scope.
#[local] Open Scope api_scope.

Section Handlers.
Context `{HO : HashOps} `{!JsonOps} `{!Sha256Ops} `{!UuidOps} `{!TimeText}.

(** What a request draws from its surroundings: readings of the wall clock
    by call site, random identifiers, the surroundings of the pipeline, the
    readings of the monotonic clock, and the text serde gives the request. *)
Record ApiEnv := mkApiEnv {
  he_now : Timestamp;
  he_now_pack : Timestamp;
  he_now_stale : Timestamp;
  he_now_context : Timestamp;
  he_now_reports : Timestamp;
  he_fresh : nat → Fresh;
  he_trade_ids : nat → TradeIds;
  he_cross_trade_ids : nat → TradeIds;
  he_cross_account_id : AccountId;
  he_order_id : OrderId;
  he_override_id : ViolationId;
  he_fuel : nat;
  he_pipeline : Env;
  he_start : Z;
  he_now_audit : Z;
  he_stop : Z;
  he_body : option string;
}.

(** ** Shared checks *)

Definition extract_tenant_id (headers : HeaderMap) : api TenantId :=
  let? text := api_some BAD_REQUEST "missing X-Tenant-Id header" (headers "X-Tenant-Id") in
  api_some BAD_REQUEST "{uuid error}" (uuid_parse text).

Definition parse_account_id (text : string) : api AccountId :=
  api_some BAD_REQUEST "{uuid error}" (uuid_parse text).

Definition validate_account_state (acc : Account) (account_id : AccountId) (tenant_id : TenantId)
    : api unit :=
  let? _ := api_when (negb (bool_decide (acc_id acc = account_id))) BAD_REQUEST
              "account_state.id {} does not match account_id {}" in
  api_when (negb (bool_decide (acc_tenant_id acc = tenant_id))) FORBIDDEN
    "account_state.tenant_id {} does not match authenticated tenant {}".

Definition health : string := "ok".
Definition ready : api string := api_ok "ready".

(** The pipeline every other endpoint builds: the cached registry of the
    plan, a notifier that only logs, and an empty event store. *)
Definition request_pipeline (registry : RuleRegistry) : Pipeline :=
  mkPipeline registry (fun _ => Ret tt)
    (fun id n => Ret (InMemoryEventStore_recent InMemoryEventStore_new id (Z.to_nat n))).

Definition run_pipeline (env : ApiEnv) (acc : Account) (ev : PipelineEvent) : api PipelineResult :=
  let? registry := api_registry (acc_plan acc) in
  api_of INTERNAL_SERVER_ERROR
    (process (he_fuel env) (request_pipeline registry) (he_pipeline env) acc ev).

(** The hash of the request for the audit entry. *)
Definition body_hash (env : ApiEnv) : string := hash_body (default EmptyString (he_body env)).

Definition api_audit (entry : AuditEntry) (status : Z) : api unit :=
  api_log (TmAudit (AuditEntry_finish entry None status)).

(** The audited operations finish their entry whether or not the pipeline
    succeeds, and count a failure. *)
Definition run_audited (env : ApiEnv) (endpoint : string) (audit : AuditEntry) (acc : Account)
    (ev : PipelineEvent) : api PipelineResult :=
  let audit := AuditEntry_with_request_hash audit (body_hash env) in
  let? registry := api_registry (acc_plan acc) in
  match process (he_fuel env) (request_pipeline registry) (he_pipeline env) acc ev with
  | Ret r => let? _ := api_audit audit 200 in api_ok r
  | Err e =>
      let? _ := api_audit audit 500 in
      let? _ := api_metric (record_error endpoint "internal_error") in
      api_reject INTERNAL_SERVER_ERROR (Error_display e)
  | Panic => fun _ => Panic
  | OutOfFuel => fun _ => OutOfFuel
  end.

(** ** [POST /internal/v1/evaluate] *)

(** The provenance of the equity and the envelope, if there is one. *)
Definition request_source (req : InternalEvaluateRequest) : api (EquitySource * option BridgeTickV1) :=
  match ir_bridge_tick req with
  | Some bt => api_ok (SrcBrokerReported, Some bt)
  | None =>
      match ir_equity_source req with
      | None => api_ok (SrcEstimated, None)
      | Some s =>
          if bool_decide (s = "estimated"%string) then api_ok (SrcEstimated, None)
          else let? src := api_of BAD_REQUEST (EquitySource_parse s) in api_ok (src, None)
      end
  end.

Definition not_evaluated (acc : Account) : InternalEvaluateResponse :=
  mkInternalEvaluateResponse false "NotEvaluated" 0 "" 0 "" [] [] acc None.

(** Conversion of the trades of a request, with the identifiers they draw. *)
Definition trades_of (ids : nat → TradeIds) (account_id : AccountId) (dtos : option (list TradeDto))
    : api (list Trade) :=
  api_all (imap (fun i d => TradeDto_into_domain (ids i) d account_id) (default [] dtos)).

(** Trades of other accounts; the source filters out the account's own. *)
Definition cross_trades_of (env : ApiEnv) (account_id : AccountId) (req : InternalEvaluateRequest)
    : api (list Trade) :=
  let? ts := trades_of (he_cross_trade_ids env) (he_cross_account_id env)
               (ir_cross_reference_trades req) in
  api_ok (List.filter (fun t => negb (bool_decide (tr_account_id t = account_id))) ts).

Definition cents_to_decimal (cents : Z) : outcome Money := ddiv (dec_new cents 0) (dec_new 100 0).

(** The account, positions, trades, server time and tick to evaluate. *)
Definition request_inputs (env : ApiEnv) (account_id : AccountId) (acc : Account)
    (req : InternalEvaluateRequest) (bridge_tick : option BridgeTickV1)
    : api (Account * list Position * list Trade * Timestamp * option Tick) :=
  match bridge_tick with
  | Some bt =>
      let payload := bt_payload bt in
      let? equity := api_run (cents_to_decimal (bt_equity_cents payload)) in
      let? balance := api_run (cents_to_decimal (bt_balance_cents payload)) in
      let acc := acc <| acc_equity := equity |> <| acc_balance := balance |> in
      let? positions := api_all ((fun p => BridgeTickPositionDto_into_domain p account_id)
                                   <$> bt_positions payload) in
      let? trades := trades_of (he_trade_ids env) account_id (ir_today_trades req) in
      let? server_time := api_some BAD_REQUEST "invalid broker_time"
                            (from_timestamp_millis (bt_broker_time payload)) in
      api_ok (acc, positions, trades, server_time, None)
  | None =>
      let? tick := api_some BAD_REQUEST "tick is required when bridge_tick is absent"
                     (ir_tick req) in
      let? positions := api_all ((fun p => PositionDto_into_domain p account_id)
                                   <$> default [] (ir_open_positions req)) in
      let? trades := trades_of (he_trade_ids env) account_id (ir_today_trades req) in
      api_ok (acc, positions, trades, q_ts (tick_quote tick), Some tick)
  end.

(** Broker-reported amounts raise the peaks. *)
Definition raise_peaks (src : EquitySource) (acc : Account) : Account :=
  match src with
  | SrcBrokerReported =>
      let acc := if dec_gtb (acc_equity acc) (acc_peak_equity acc)
                 then acc <| acc_peak_equity := acc_equity acc |> else acc in
      if dec_gtb (acc_balance acc) (acc_peak_balance acc)
      then acc <| acc_peak_balance := acc_balance acc |> else acc
  | SrcEstimated => acc
  end.

(** *** Floor hints *)

Definition to_cents (m : Money) : outcome Z :=
  let! cents := dmul m (dec_new 100 0) in Ret (default 0 (dec_to_i64 cents)).

Definition floor_daily_hint (acc : Account) : outcome (option Z) :=
  let plan := acc_plan acc in
  if negb (plan_drawdown_on_balance plan)
     && negb (bool_decide (plan_daily_loss_type plan = DltNone))
     && dec_gtb (plan_max_daily_drawdown_pct plan) dec_zero
  then
    let reference :=
      match plan_daily_loss_type plan with
      | DltNone => dec_zero
      | DltPctInitial => acc_initial_balance acc
      | DltPctPriorDay =>
          if plan_drawdown_on_balance plan then acc_day_start_balance acc
          else acc_day_start_equity acc
      | DltTrailingIntradayHigh => acc_intraday_peak_equity acc
      end in
    let! limit := dmul (plan_max_daily_drawdown_pct plan) reference in
    let! floor := dsub reference limit in
    let! cents := to_cents floor in
    Ret (Some cents)
  else Ret None.

Definition total_floor (acc : Account) : outcome Decimal :=
  let pct := plan_max_total_drawdown_pct (acc_plan acc) in
  let! buffer := dmul pct (acc_initial_balance acc) in
  match plan_max_loss_reference (acc_plan acc) with
  | Static => dsub (acc_initial_balance acc) buffer
  | Trailing => let! b := dmul pct (acc_peak_balance acc) in dsub (acc_peak_balance acc) b
  | EodTrailing =>
      let! unlocked := dsub (acc_day_start_balance acc) buffer in
      Ret (if plan_eod_trail_locks_at_start (acc_plan acc)
           then dec_min unlocked (acc_initial_balance acc) else unlocked)
  | IntradayTrail => let! b := dmul pct (acc_peak_equity acc) in dsub (acc_peak_equity acc) b
  end.

Definition floor_total_hint (acc : Account) : outcome (option Z) :=
  if negb (plan_drawdown_on_balance (acc_plan acc))
     && dec_gtb (plan_max_total_drawdown_pct (acc_plan acc)) dec_zero
  then let! floor := total_floor acc in let! cents := to_cents floor in Ret (Some cents)
  else Ret None.

Definition target_hint (acc : Account) : outcome (option Z) :=
  if dec_gtb (plan_profit_target_pct (acc_plan acc)) dec_zero then
    let! gain := dmul (plan_profit_target_pct (acc_plan acc)) (acc_initial_balance acc) in
    let! target := dadd (acc_initial_balance acc) gain in
    let! cents := to_cents target in
    Ret (Some cents)
  else Ret None.

(** The early [return None] of a plan without a daily loss type sits behind
    the guard that excludes it. *)
Definition compute_floor_hints (acc : Account) : outcome (option FloorHints) :=
  let! daily := floor_daily_hint acc in
  let! total := floor_total_hint acc in
  let! target := target_hint acc in
  match daily, total, target with
  | None, None, None => Ret None
  | _, _, _ => Ret (Some (mkFloorHints daily total target (acc_version acc)))
  end.

(** *** The evaluation *)

Definition stale_threshold_secs : Z := 10 * 60.

(** The last steps: the verdict, its effect on the account, the response. *)
Definition evaluate_response (env : ApiEnv) (acc : Account) (pack : RulePack)
    (registry : RuleRegistry) (positions : list Position) (trades : list Trade)
    (server_time : Timestamp) (latest_tick : option Tick)
    (cross_reference_trades : list Trade) (equity_source : EquitySource)
    : api InternalEvaluateResponse :=
  let inputs := EvaluateInputs_default <| ei_open_positions := positions |>
                  <| ei_today_trades := trades |> <| ei_latest_tick := latest_tick |>
                  <| ei_cross_reference_trades := cross_reference_trades |>
                  <| ei_equity_source := equity_source |> in
  let? verdict := api_of INTERNAL_SERVER_ERROR
    (evaluate (he_fresh env) (he_now_context env) (he_now_reports env) acc pack registry OnTick
       server_time inputs) in
  let? (new_state, _) := api_of INTERNAL_SERVER_ERROR
    (apply_decision acc (pv_decision verdict) server_time "evaluate_internal") in
  let? hints := api_run (compute_floor_hints new_state) in
  api_ok {| is_evaluated := true;
            is_decision_kind := DecisionKind_debug (dec_kind (pv_decision verdict));
            is_winning_priority := dec_winning_priority (pv_decision verdict);
            is_input_hash := pv_input_hash verdict;
            is_pack_version := pv_pack_version verdict;
            is_pack_id := pv_pack_id verdict;
            is_violations := vio_message <$> dec_all_violations (pv_decision verdict);
            is_violation_details := dec_all_violations (pv_decision verdict);
            is_account_state := new_state;
            is_hints := hints |}.

#[global] Arguments evaluate_response / _ _ _ _ _ _ _ _ _ _.

Definition evaluate_internal_impl (env : ApiEnv) (tenant_id : TenantId)
    (req : InternalEvaluateRequest) : api InternalEvaluateResponse :=
  let? account_id := parse_account_id (ir_account_id req) in
  let? (equity_source, bridge_tick) := request_source req in
  let? acc := api_some BAD_REQUEST "account_state is required for stateless evaluation"
                (ir_account_state req) in
  let? _ := validate_account_state acc account_id tenant_id in
  match AccountStatus_evaluation_mode (acc_status acc) with
  | EmSkip => api_ok (not_evaluated acc)
  | EmEvaluate =>
      let? _ := api_when (bool_decide (is_Some (ir_rule_pack req))) BAD_REQUEST
                  "rule_pack is no longer accepted; evaluation uses the account's bound plan" in
      let pack := RulePack_synthetic_from_plan (uuid_display account_id) tenant_id (acc_plan acc)
                    (he_now_pack env) in
      let? registry := api_registry (acc_plan acc) in
      let? cross_reference_trades := cross_trades_of env account_id req in
      let? (acc, positions, trades, server_time, latest_tick) :=
        request_inputs env account_id acc req bridge_tick in
      let? _ := api_when (stale_threshold_secs <? num_seconds (ts_since (he_now_stale env) server_time))
                  UNPROCESSABLE_ENTITY
                  "tick rejected: server_time is {} seconds old (threshold: {}s)" in
      let acc := raise_peaks equity_source acc in
      evaluate_response env acc pack registry positions trades server_time latest_tick
        cross_reference_trades equity_source
  end.

(** The texts of a request and of a response (crate [serde_json]). *)
Class SerdeOps := {
  request_to_string : InternalEvaluateRequest → option string;
  response_to_string : InternalEvaluateResponse → option string;
  response_from_str : string → option InternalEvaluateResponse;
}.

(** [check_and_remember] on the server's store; the two instants are the
    readings of the monotonic clock. *)
Definition api_idempotent (now_prune now_insert : Z) (tenant_id : TenantId)
    (endpoint key body response : string) : api IdempotencyOutcome := fun c =>
  let '(o, store) := check_and_remember now_prune now_insert (sv_idempotency c) tenant_id endpoint
                       key body response in
  Ret (inl o, mkApiState (sv_cache c) store (sv_log c)).

(** The response of a request that may carry a key. *)
Definition evaluate_keyed `{!SerdeOps} (env : ApiEnv) (now_prune now_insert : Z)
    (headers : HeaderMap) (tenant_id : TenantId) (req : InternalEvaluateRequest)
    : api InternalEvaluateResponse :=
  match headers "Idempotency-Key" with
  | Some key =>
      let? body := api_some BAD_REQUEST "{serde error}" (request_to_string req) in
      let? response := evaluate_internal_impl env tenant_id req in
      let? response_str := api_some INTERNAL_SERVER_ERROR "{serde error}"
                             (response_to_string response) in
      let? outcome := api_idempotent now_prune now_insert tenant_id "POST /internal/v1/evaluate" key
                        body response_str in
      match outcome with
      | IoReplay cached =>
          let? _ := api_metric (record_idempotency_outcome "replay") in
          api_some INTERNAL_SERVER_ERROR "{serde error}" (response_from_str cached)
      | IoConflict =>
          let? _ := api_metric (record_idempotency_outcome "conflict") in
          let? _ := api_metric (record_error "/internal/v1/evaluate" "idempotency_conflict") in
          api_reject CONFLICT "Idempotency-Key was already used with a different request body"
      | IoFresh =>
          let? _ := api_metric (record_idempotency_outcome "fresh") in api_ok response
      | IoError =>
          let? _ := api_metric (record_idempotency_outcome "error") in api_ok response
      end
  | None => evaluate_internal_impl env tenant_id req
  end.

Definition evaluate_internal `{!SerdeOps} (env : ApiEnv) (now_prune now_insert : Z)
    (headers : HeaderMap) (req : InternalEvaluateRequest) : api InternalEvaluateResponse :=
  api_timed "/internal/v1/evaluate" (he_start env) (he_stop env) (
  let? tenant_id := extract_tenant_id headers in
  let? response := evaluate_keyed env now_prune now_insert headers tenant_id req in
  let? _ := api_metric (record_decision (is_decision_kind response)) in
  let decision_lower := to_ascii_lowercase (is_decision_kind response) in
  let? _ := if negb (bool_decide (decision_lower = "pass"%string)) then
              api_audit (audit_evaluate (he_now_audit env) tenant_id
                           (acc_id (is_account_state response)) (is_decision_kind response)
                           (is_input_hash response)) 200
            else api_ok tt in
  api_ok response).

(** ** The other endpoints *)

Definition override_breach (env : ApiEnv) (headers : HeaderMap) (req : OverrideRequest)
    : api OverrideResponse :=
  api_timed "/internal/v1/override" (he_start env) (he_stop env) (
  let? tenant_id := extract_tenant_id headers in
  let? account_id := parse_account_id (or_account_id req) in
  let? clears_violation_id := api_some BAD_REQUEST "{uuid error}"
                                (uuid_parse (or_clears_violation_id req)) in
  let? acc := api_some BAD_REQUEST "account_state is required for stateless override"
                (or_account_state req) in
  let? _ := validate_account_state acc account_id tenant_id in
  let? _ := api_guard (negb (AccountStatus_is_breach_terminal (acc_status acc))) "/internal/v1/override" "invalid_status"
              BAD_REQUEST
              "account {} is in status {:?}; override is only valid from Failed/EmergencyStopped" in
  let v := or_violation req in
  let? _ := api_guard (negb (bool_decide (vio_id v = clears_violation_id))) "/internal/v1/override" "violation_id_mismatch"
              BAD_REQUEST
              "violation.id {} does not match clears_violation_id {}" in
  let? _ := api_guard (negb (bool_decide (vio_account_id v = account_id))) "/internal/v1/override" "violation_account_mismatch"
              BAD_REQUEST
              "violation.account_id {} does not match request account_id {}" in
  let? _ := api_guard (negb (bool_decide (vio_tenant_id v = tenant_id))) "/internal/v1/override" "tenant_mismatch"
              FORBIDDEN
              "violation.tenant_id {} does not match request tenant {}" in
  let? _ := api_of BAD_REQUEST (Violation_validate v) in
  let? _ := api_guard (negb (Violation_is_terminating v)) "/internal/v1/override" "non_terminating_violation"
              BAD_REQUEST
              "override is only valid for terminating violations" in
  let override_record := Override_new (he_override_id env) account_id clears_violation_id
                           (or_reason req) (or_actor_id req) (he_now env) in
  let audit := audit_override_breach (he_now_audit env) (or_actor_id req) tenant_id account_id
                 clears_violation_id (or_reason req) in
  let? result := run_audited env "/internal/v1/override" audit acc
                   (PeOverrideBreach override_record) in
  api_ok (mkOverrideResponse (uuid_display (ov_id override_record))
            (to_rfc3339 (ov_at override_record)) (pr_account result))).

Definition manual_run (env : ApiEnv) (headers : HeaderMap) (req : ManualRunRequest)
    : api ManualRunResponse :=
  api_timed "/internal/v1/manual-run" (he_start env) (he_stop env) (
  let? tenant_id := extract_tenant_id headers in
  let? account_id := parse_account_id (mr_account_id req) in
  let? acc := api_some BAD_REQUEST "account_state is required for stateless evaluation"
                (mr_account_state req) in
  let? _ := validate_account_state acc account_id tenant_id in
  match AccountStatus_evaluation_mode (acc_status acc) with
  | EmSkip => api_ok (mkManualRunResponse "NotEvaluated" false [] [] acc)
  | EmEvaluate =>
      let audit := audit_manual_run (he_now_audit env) "manual_run" tenant_id account_id in
      let? result := run_audited env "/internal/v1/manual-run" audit acc PeOnDemand in
      api_ok {| ms_decision_kind := DecisionKind_debug (dec_kind (snap_decision (pr_snapshot result)));
                ms_passed := PipelineResult_passed result;
                ms_violations := vio_message <$> EvaluationResult_violations (pr_result result);
                ms_violation_details := dec_all_violations (er_decision (pr_result result));
                ms_account_state := pr_account result |}
  end).

(** [he_now] is the one reading of the branch taken. *)
Definition emergency_stop (env : ApiEnv) (headers : HeaderMap) (req : EmergencyStopRequest)
    : api EmergencyStopResponse :=
  api_timed "/internal/v1/emergency-stop" (he_start env) (he_stop env) (
  let? tenant_id := extract_tenant_id headers in
  let? account_id := parse_account_id (er_account_id req) in
  let? acc := api_some BAD_REQUEST "account_state is required for stateless evaluation"
                (er_account_state req) in
  let? _ := validate_account_state acc account_id tenant_id in
  if bool_decide (acc_status acc = StEmergencyStopped) then
    api_ok (mkEmergencyStopResponse "Emergency" (to_rfc3339 (he_now env)) acc)
  else
    match AccountStatus_evaluation_mode (acc_status acc) with
    | EmSkip => api_ok (mkEmergencyStopResponse "NotEvaluated" (to_rfc3339 (he_now env)) acc)
    | EmEvaluate =>
        let audit := audit_emergency_stop (he_now_audit env) (er_actor_id req) tenant_id account_id
                       (er_reason req) in
        let at_ := he_now env in
        let? result := run_audited env "/internal/v1/emergency-stop" audit acc
                         (PeEmergencyStop (er_reason req) (er_actor_id req) at_) in
        api_ok (mkEmergencyStopResponse
                  (DecisionKind_debug (dec_kind (snap_decision (pr_snapshot result))))
                  (to_rfc3339 at_) (pr_account result))
    end).

Definition violation_summary (cleared : bool) (v : Violation) : ViolationSummary :=
  {| vs_rule_name := vio_rule_name v;
     vs_kind := ViolationKind_debug (vio_kind v);
     vs_severity := ViolationSeverity_debug (vio_severity v);
     vs_message := vio_message v;
     vs_occurred_at := to_rfc3339 (vio_occurred_at v);
     vs_cleared := cleared |}.

(** [fallback] is what [ViolationId::default] draws for an identifier that
    does not parse, by position. *)
Definition breach_report (env : ApiEnv) (fallback : nat → ViolationId) (headers : HeaderMap)
    (req : BreachReportRequest) : api BreachReportResponse :=
  api_timed "/internal/v1/breach-report" (he_start env) (he_stop env) (
  let? tenant_id := extract_tenant_id headers in
  let? account_id := parse_account_id (br_account_id req) in
  let? acc := api_some BAD_REQUEST "account_state is required for breach report"
                (br_account_state req) in
  let? _ := validate_account_state acc account_id tenant_id in
  let? _ := api_when (existsb (fun v => negb (bool_decide (vio_tenant_id v = tenant_id)))
                        (br_violations req)) FORBIDDEN
              "violation.tenant_id {} does not match request tenant {}" in
  let cleared : gset ViolationId :=
    list_to_set (imap (fun i o => default (fallback i) (uuid_parse (osm_clears_violation_id o)))
                   (br_overrides req)) in
  let violations := (fun v => violation_summary (bool_decide (vio_id v ∈ cleared)) v)
                      <$> br_violations req in
  let audit := AuditEntry_with_request_hash
                 (audit_breach_report (he_now_audit env) tenant_id account_id
                    (Z.of_nat (length violations)) (Z.of_nat (size cleared))) (body_hash env) in
  let? result := run_pipeline env acc PeOnDemand in
  let current := violation_summary false <$> EvaluationResult_violations (pr_result result) in
  let? _ := api_audit audit 200 in
  api_ok (mkBreachReportResponse (br_account_id req)
            (AccountStatus_debug (acc_status (pr_account result))) violations current)).

Definition order_type_of (order_type : string) (price : option Decimal) : OrderType :=
  if bool_decide (order_type = "market"%string) then Market
  else if bool_decide (order_type = "limit"%string) then Limit (default dec_zero price)
  else Market.

Definition evaluate_order (env : ApiEnv) (headers : HeaderMap) (req : EvaluateOrderRequest)
    : api EvaluateOrderResponse :=
  api_timed "/v1/evaluate-order" (he_start env) (he_stop env) (
  let? tenant_id := extract_tenant_id headers in
  let? account_id := parse_account_id (eo_account_id req) in
  let? acc := api_some BAD_REQUEST "account_state is required for stateless evaluation"
                (eo_account_state req) in
  let? _ := validate_account_state acc account_id tenant_id in
  match AccountStatus_evaluation_mode (acc_status acc) with
  | EmSkip => api_ok (mkEvaluateOrderResponse "NotEvaluated" false [] [] acc)
  | EmEvaluate =>
      let? side :=
        if bool_decide (eo_side req = "buy"%string) then api_ok Buy
        else if bool_decide (eo_side req = "sell"%string) then api_ok Sell
        else api_reject BAD_REQUEST "invalid side {other}" in
      let order := {| ord_id := he_order_id env;
                      ord_account_id := account_id;
                      ord_symbol := Symbol_new (eo_symbol req);
                      ord_side := side;
                      ord_kind := OkOpen;
                      ord_order_type := order_type_of (eo_order_type req) (eo_price req);
                      ord_quantity := eo_quantity req;
                      ord_tif := Ioc;
                      ord_stop_loss := eo_stop_loss req;
                      ord_take_profit := eo_take_profit req;
                      ord_comment := None;
                      ord_submitted_at := he_now env;
                      ord_status := OsPending;
                      ord_filled_quantity := dec_zero;
                      ord_avg_fill_price := None |} in
      let? result := run_pipeline env acc (PeOrderSubmitted order) in
      let decision_kind := DecisionKind_debug (dec_kind (snap_decision (pr_snapshot result))) in
      let audit := AuditEntry_with_request_hash
                     (audit_evaluate_order (he_now_audit env) tenant_id account_id (eo_symbol req)
                        (eo_side req) decision_kind) (body_hash env) in
      let? _ := api_audit audit 200 in
      api_ok {| eos_decision := decision_kind;
                eos_passed := PipelineResult_passed result;
                eos_violations :=
                  (fun v => ViolationKind_display (vio_kind v) +:+ ": " +:+ vio_message v)
                    <$> EvaluationResult_violations (pr_result result);
                eos_violation_details := dec_all_violations (er_decision (pr_result result));
                eos_account_state := pr_account result |}
  end).

(** [GET /internal/v1/audit-log]: the entries are always empty. *)
Definition audit_log (env : ApiEnv) (headers : HeaderMap) (q : AuditLogQuery)
    : api (list AuditEntryRow * Z) :=
  api_timed "/internal/v1/audit-log" (he_start env) (he_stop env) (
  let tenant_from_header := headers "X-Tenant-Id" ≫= uuid_parse in
  let? tenant_id :=
    match aq_tenant_id q with
    | Some t =>
        match tenant_from_header with
        | Some h => let? _ := api_guard (negb (bool_decide (h = t)))
                                "/internal/v1/audit-log" "tenant_mismatch" FORBIDDEN
                                "query tenant_id does not match X-Tenant-Id header" in
                    api_ok (Some t)
        | None => api_ok (Some t)
        end
    | None => api_ok tenant_from_header
    end in
  let? _ := api_guard (negb (bool_decide (is_Some tenant_id))
                       && negb (bool_decide (is_Some (aq_account_id q))))
              "/internal/v1/audit-log" "missing_tenant_or_account" BAD_REQUEST
              "at least one of tenant_id or account_id is required" in
  api_ok ([], 0)).

Definition RuleEntryDto_into_domain (r : RuleEntryDto) : api RuleEntry :=
  let? basis := api_of BAD_REQUEST (RuleBasis_from_str (red_basis r)) in
  let? unit := api_of BAD_REQUEST (RuleUnit_from_str (red_unit r)) in
  api_ok {| re_id := red_id r;
            re_kind := red_kind r;
            re_basis := basis;
            re_unit := unit;
            re_value := red_value r;
            re_tolerance_cents := red_tolerance_cents r;
            re_early_warning_pct := red_early_warning_pct r;
            re_priority := red_priority r;
            re_enabled := red_enabled r;
            re_params_json := default "{}"%string (red_params_json r);
            re_severity := red_severity r;
            re_failure_policy := red_failure_policy r |}.

Fixpoint api_map {A B} (f : A → api B) (l : list A) : api (list B) :=
  match l with
  | [] => api_ok []
  | x :: l' => let? y := f x in let? ys := api_map f l' in api_ok (y :: ys)
  end.

Definition validate_rule_pack (env : ApiEnv) (req : CreateRulePackRequest) : api RulePackResponse :=
  let? rules := api_map RuleEntryDto_into_domain (crp_rules req) in
  let pack := {| rp_id := crp_id req;
                 rp_version := crp_version req;
                 rp_tenant_id := TenantId_named "validation";
                 rp_lifecycle := PlDraft;
                 rp_effective_from := he_now env;
                 rp_superseded_by := None;
                 rp_description := crp_description req;
                 rp_rules := rules;
                 rp_initial_balance := crp_initial_balance req;
                 rp_leverage := crp_leverage req;
                 rp_profit_target_pct := crp_profit_target_pct req |} in
  let? _ := api_of BAD_REQUEST (RulePack_validate pack) in
  api_ok (mkRulePackResponse (rp_id pack) (rp_version pack)
            (PackLifecycle_display (rp_lifecycle pack)) (RulePack_content_hash pack)).

End Handlers.
