(* ===== verification/Values.v ===== *)
(** * The newtypes of the domain and their texts (src/core/types.rs, ids.rs,
    src/tenant.rs)

    [Money], [Price], [Quantity], [Lots] and [Pct] wrap one decimal and are
    transparent in this development ([Domain]); here are their operators,
    constructors, parsers and [Display] texts, one definition per method.  An
    [AddAssign] or [SubAssign] returns the new value of the place it writes.
    An identifier is a UUID; the macro [id_newtype!] gives each the same
    constructor, parser and text.

    The text of a decimal and of a float are the third-party crate's and the
    standard library's: class [DecimalText]. *)

From S2P Require Import Prelude.
From S2P Require Import Decimal.
From S2P Require Import Chrono.
From S2P Require Import Ids.
From S2P Require Import Domain.
From S2P Require Import Hashing.
From S2P Require Import Api.
From stdpp Require Import pretty.
#[local] Open Scope Z_scope.

(** ** The texts of decimals and floats *)

Class DecimalText `{DecimalOps} := {
  (** [Display] and [FromStr] of [rust_decimal::Decimal]. *)
  dec_display : Decimal → string;
  dec_from_str : string → option Decimal;
  (** [{:.n}]: the text with [n] decimals. *)
  dec_display_prec : nat → Decimal → string;
  (** A 64-bit float and its [to_string]. *)
  f64 : Type;
  f64_display : f64 → string;
}.

Section Values.
Context `{DecimalOps} `{!DecimalText}.

(** ** Money *)

Definition Money_ZERO : Money := dec_zero.
Definition Money_new (v : Decimal) : Money := v.
Definition Money_parse_money (s : string) : outcome Money :=
  match dec_from_str s with
  | Some v => Ret (Money_new v)
  | None => Err (NumericConversion "{decimal error}")
  end.
Definition Money_raw (m : Money) : Decimal := m.
Definition Money_abs (m : Money) : Money := dec_abs m.
Definition Money_max (m other : Money) : Money := dec_max m other.
Definition Money_min (m other : Money) : Money := dec_min m other.
Definition Money_display (m : Money) : string := dec_display m.
Definition Money_add (m rhs : Money) : outcome Money := dadd m rhs.
Definition Money_sub (m rhs : Money) : outcome Money := dsub m rhs.
Definition Money_add_assign (m rhs : Money) : outcome Money := dadd m rhs.
Definition Money_sub_assign (m rhs : Money) : outcome Money := dsub m rhs.

(** ** Price *)

Definition Price_ZERO : Price := dec_zero.
Definition Price_new (v : Decimal) : Price := v.
Definition Price_raw (p : Price) : Decimal := p.
Definition Price_display (p : Price) : string := dec_display p.

(** ** Quantity *)

Definition Quantity_ZERO : Quantity := dec_zero.
Definition Quantity_new (v : Decimal) : Quantity := v.
Definition Quantity_raw (q : Quantity) : Decimal := q.
Definition Quantity_display (q : Quantity) : string := dec_display q.
Definition Quantity_add (q rhs : Quantity) : outcome Quantity := dadd q rhs.
Definition Quantity_sub (q rhs : Quantity) : outcome Quantity := dsub q rhs.
Definition Quantity_add_assign (q rhs : Quantity) : outcome Quantity := dadd q rhs.
Definition Quantity_sub_assign (q rhs : Quantity) : outcome Quantity := dsub q rhs.
Definition Quantity_sum (iter : list Quantity) : outcome Quantity :=
  foldM Quantity_add Quantity_ZERO iter.

(** ** Lots *)

Definition Lots_ZERO : Lots := dec_zero.
Definition Lots_new (v : Decimal) : Lots := v.
Definition Lots_raw (l : Lots) : Decimal := l.
Definition Lots_display (l : Lots) : string := dec_display l.
Definition Lots_add (l rhs : Lots) : outcome Lots := dadd l rhs.
Definition Lots_sub (l rhs : Lots) : outcome Lots := dsub l rhs.
Definition Lots_add_assign (l rhs : Lots) : outcome Lots := dadd l rhs.
Definition Lots_sub_assign (l rhs : Lots) : outcome Lots := dsub l rhs.
Definition Lots_sum (iter : list Lots) : outcome Lots := foldM Lots_add Lots_ZERO iter.

(** ** Pct: a fraction, 0.05 is 5 percent *)

Definition Pct_ZERO : Pct := dec_zero.
Definition Pct_new (v : Decimal) : Pct := v.
Definition Pct_from_pct (v : f64) : Pct := default dec_zero (dec_from_str (f64_display v)).
Definition Pct_raw (p : Pct) : Decimal := p.
Definition Pct_as_percent (p : Pct) : outcome Decimal := dmul p (dec_new 100 0).
Definition Pct_display (p : Pct) : outcome string :=
  let! v := dmul p (dec_new 100 0) in Ret (dec_display v +:+ "%").
Definition Pct_from_decimal (v : Decimal) : Pct := v.
Definition Pct_from_f64 (v : f64) : Pct :=
  let d := default dec_zero (dec_from_str (f64_display v)) in Pct_new d.

End Values.

(** ** Symbol, Leverage, ServerTime *)

Definition Symbol_as_str (s : Symbol) : string := s.
Definition Symbol_display (s : Symbol) : string := s.
Definition Symbol_from_str (s : string) : Symbol := Symbol_new s.
Definition Symbol_from_string (s : string) : Symbol := Symbol_new s.

Definition Leverage_ONE : Z := 1.
Definition Leverage_new (v : Z) : Z := v.
Definition Leverage_raw (l : Z) : Z := l.
Definition Leverage_display (l : Z) : string := "1:" +:+ pretty l.

Section Time.
Context `{ChronoOps} `{!TimeText}.

(** [now] is the reading of the wall clock. *)
Definition ServerTime_now (now : Timestamp) : Timestamp := now.
Definition ServerTime_at (ts : Timestamp) : Timestamp := ts.
Definition ServerTime_ts (t : Timestamp) : Timestamp := t.
Definition ServerTime_display (t : Timestamp) : string := to_rfc3339 t.

End Time.

(** ** Identifiers

    The nine types the macro declares, and [TenantId], are one definition
    each: they differ in their name only.  [fresh] is [Uuid::new_v4()]. *)

Section IdText.
Context `{!UuidOps}.

Definition Id_new (fresh : Uuid) : Uuid := fresh.
Definition Id_from_uuid (u : Uuid) : Uuid := u.
Definition Id_raw (id : Uuid) : Uuid := id.
Definition Id_default (fresh : Uuid) : Uuid := Id_new fresh.
Definition Id_display (id : Uuid) : string := uuid_display id.
Definition Id_from_str (s : string) : option Uuid := Id_from_uuid <$> uuid_parse s.
Definition Id_serialize (id : Uuid) : string := uuid_display id.
Definition Id_deserialize (s : string) : option Uuid := Id_from_uuid <$> uuid_parse s.

Definition TenantId_new (fresh : Uuid) : TenantId := fresh.
Definition TenantId_from_uuid (u : Uuid) : TenantId := u.
Definition TenantId_raw (id : TenantId) : Uuid := id.
Definition TenantId_default (fresh : Uuid) : TenantId := TenantId_new fresh.
Definition TenantId_display (id : TenantId) : string := uuid_display id.
Definition TenantId_from_str (s : string) : option TenantId :=
  TenantId_from_uuid <$> uuid_parse s.

End IdText.
