(* ===== verification/Text.v ===== *)
(** * Texts of the domain's enumerations, reports and packs

    The remaining [Display] implementations (src/core/account.rs, order.rs,
    violation.rs, src/config/plan.rs, src/liquidation.rs, equity_input.rs),
    the summary line of a report (src/reporting/report.rs), the JSON of a
    rule pack (src/rulepack.rs, [to_json]) and the serialised form of a
    plan's timezone (src/config/plan.rs). *)

From S2P Require Import Prelude.
From S2P Require Import Decimal.
From S2P Require Import Chrono.
From S2P Require Import Ids.
From S2P Require Import Domain.
From S2P Require Import Plan.
From S2P Require Import Account.
From S2P Require Import Violation.
From S2P Require Import Pack.
From S2P Require Import RuleApi.
From S2P Require Import Decision.
From S2P Require Import Pipeline.
From S2P Require Import Risk.
From S2P Require Import Hashing.
From S2P Require Import Pure.
From S2P Require Import Json.
From S2P Require Import Api.
From S2P Require Import Values.
From stdpp Require Import pretty.
#[local] Open Scope Z_scope.

(** ** Enumerations *)

Definition ChallengePhase_display (p : ChallengePhase) : string :=
  match p with Phase1 => "phase1" | Phase2 => "phase2" | FundedPhase => "funded" end.

Definition AccountType_display (t : AccountType) : string :=
  match t with
  | AtPhase1 => "phase1"
  | AtPhase2 => "phase2"
  | AtFunded => "funded"
  | AtDemo => "demo"
  end.

Definition OrderSide_display (s : OrderSide) : string :=
  match s with Buy => "buy" | Sell => "sell" end.

Definition ViolationSeverity_display (s : ViolationSeverity) : string :=
  match s with
  | SevInfo => "info"
  | SevWarning => "warning"
  | SevHard => "hard"
  | SevLiquidate => "liquidate"
  end.

Definition LiquidationReason_display (r : LiquidationReason) : string :=
  match r with
  | RuleBreach k => "rule_breach:" +:+ ViolationKind_display k
  | EmergencyStopReason => "emergency_stop"
  | Manual => "manual"
  end.

(** ** Timezones

    The crate [chrono-tz]: the IANA name of a zone and its parser, with the
    documented round trip. *)

Class TzText `{ChronoOps} := {
  tz_name : Tz → string;
  tz_parse : string → option Tz;
}.

Class TzTextLaws `{ChronoOps} (T : TzText) : Prop := {
  tz_parse_name z : tz_parse (tz_name z) = Some z;
}.

Section Texts.
Context `{DecimalOps} `{ChronoOps} `{!DecimalText}.

Definition EquityInput_display (e : EquityInput) : string :=
  match e with
  | BrokerReported equity balance =>
      "broker(equity=" +:+ Money_display equity +:+ ", balance=" +:+ Money_display balance +:+ ")"
  | Estimated equity balance =>
      "estimated(equity=" +:+ Money_display equity +:+ ", balance=" +:+ Money_display balance +:+ ")"
  end.

(** The [Debug] text of the registry shows the number of its specs. *)
Definition InstrumentRegistry_debug (r : InstrumentRegistry) : string :=
  "InstrumentRegistry { specs: " +:+ pretty (Z.of_nat (size r)) +:+ " }".

(** [PerformanceReport::summary_line]. *)
Definition PerformanceReport_summary_line (r : PerformanceReport) : outcome string :=
  let a := perf_account r in
  let profit := as_net_profit a in
  let dd := as_total_drawdown a in
  let! max_dd := dmul (as_max_dd_utilization a) (dec_new 100 0) in
  let! target := dmul (as_profit_target_utilization a) (dec_new 100 0) in
  Ret ("balance=" +:+ Money_display (as_balance a)
       +:+ " equity=" +:+ Money_display (as_equity a)
       +:+ " net_pnl=" +:+ Money_display profit
       +:+ " dd=" +:+ Money_display dd +:+ "/" +:+ Money_display (as_initial_balance a)
       +:+ " (" +:+ dec_display_prec 2 max_dd
       +:+ "%) profit_target=" +:+ dec_display_prec 2 target
       +:+ "% decision=" +:+ DecisionKind_debug (dec_kind (perf_decision r)))%string.

(** The field of a serialised plan that holds its timezone. *)
Definition serialize_timezone `{!TzText} (tz : option Tz) : Json :=
  match tz with Some tz => JStr (tz_name tz) | None => JNull end.

Definition deserialize_timezone `{!TzText} (j : Json) : option (option Tz) :=
  match j with
  | JStr name => Some <$> tz_parse name
  | JNull => Some None
  | _ => None
  end.

(** ** The JSON of a pack *)

(** [serde_json::to_string_pretty]; [None] is its error. *)
Class JsonText := { json_to_string_pretty : Json → option string }.

Definition rule_entry_json (r : RuleEntry) : Json :=
  JObj [ ("id", JStr (re_id r));
         ("kind", JStr (re_kind r));
         ("basis", JStr (RuleBasis_display (re_basis r)));
         ("unit", JStr (RuleUnit_display (re_unit r)));
         ("value", JDec (re_value r));
         ("tolerance_cents", json_opt JInt (re_tolerance_cents r));
         ("early_warning_pct", json_opt JDec (re_early_warning_pct r));
         ("priority", JInt (re_priority r));
         ("enabled", JBool (re_enabled r));
         ("params", JStr (re_params_json r)) ]%string.

Context `{!HashOps} `{!Sha256Ops} `{!UuidOps} `{!TimeText} `{!JsonText}.

Definition rule_pack_json (p : RulePack) : Json :=
  JObj [ ("id", JStr (rp_id p));
         ("version", JInt (rp_version p));
         ("tenant_id", JStr (TenantId_display (rp_tenant_id p)));
         ("lifecycle", JStr (PackLifecycle_display (rp_lifecycle p)));
         ("effective_from", JStr (to_rfc3339 (rp_effective_from p)));
         ("superseded_by", json_opt JStr (rp_superseded_by p));
         ("description", JStr (rp_description p));
         ("initial_balance", JDec (rp_initial_balance p));
         ("leverage", JInt (rp_leverage p));
         ("profit_target_pct", JDec (rp_profit_target_pct p));
         ("rules", JArr (rule_entry_json <$> rp_rules p));
         ("content_hash", JStr (RulePack_content_hash p)) ]%string.

Definition RulePack_to_json (p : RulePack) : outcome string :=
  match json_to_string_pretty (rule_pack_json p) with
  | Some text => Ret text
  | None => Err (Serialization "{serde error}")
  end.

End Texts.
