(* ===== verification/Evaluator.v ===== *)
(** * The evaluator (src/engine/evaluator.rs)

    An evaluator is a registry and the identifier it was made with; its
    convenience methods build the context of one kind of event and evaluate
    it.  [fresh] and [now_reports] are what the registry draws for its
    reports, [now] is the reading of the clock of [RuleContext::new].  Also
    here: the evaluation-only constructors of src/rules/context.rs and the
    pipeline's constructor. *)

From S2P Require Import Prelude.
From S2P Require Import Decimal.
From S2P Require Import Chrono.
From S2P Require Import Ids.
From S2P Require Import Domain.
From S2P Require Import Plan.
From S2P Require Import Account.
From S2P Require Import Violation.
From S2P Require Import EventStore.
From S2P Require Import Pack.
From S2P Require Import RuleApi.
From S2P Require Import Registry.
From S2P Require Import Pipeline.
#[local] Open Scope Z_scope.

Section Evaluator.
Context `{DecimalOps} `{!JsonOps} `{ChronoOps}.

Record Evaluator := mkEvaluator {
  el_registry : RuleRegistry;
  el_account_id : AccountId;
}.

(** [fresh_id] is [AccountId::new()]. *)
Definition Evaluator_new (fresh_id : AccountId) (plan : ChallengePlan) : outcome Evaluator :=
  let! registry := RuleRegistry_with_default_rules_for_plan plan in
  Ret (mkEvaluator registry fresh_id).

Definition Evaluator_with_registry (fresh_id : AccountId) (registry : RuleRegistry) : Evaluator :=
  mkEvaluator registry fresh_id.

Definition Evaluator_for_account (e : Evaluator) (id : AccountId) : Evaluator :=
  mkEvaluator (el_registry e) id.

Section Evaluate.
Variables (fresh : nat → Fresh) (now_reports : Timestamp).

Definition Evaluator_evaluate_ctx (e : Evaluator) (ctx : RuleContext) : outcome EvaluationResult :=
  Evaluator_evaluate fresh now_reports (el_registry e) ctx.

(** The three lists every event-driven context carries. *)
Definition with_history (ctx : RuleContext) (open_positions : list Position)
    (today_trades : list Trade) (recent_events : list DomainEvent) : RuleContext :=
  ctx <| ctx_open_positions := open_positions |>
      <| ctx_today_trades := today_trades |>
      <| ctx_recent_events := recent_events |>.

Definition Evaluator_evaluate_order (e : Evaluator) (now : Timestamp) (account : Account)
    (order : Order) (open_positions : list Position) (today_trades : list Trade)
    (recent_events : list DomainEvent) : outcome EvaluationResult :=
  let ctx := RuleContext_for_open_order account order now in
  Evaluator_evaluate_ctx e (with_history ctx open_positions today_trades recent_events).

Definition Evaluator_evaluate_trade (e : Evaluator) (now : Timestamp) (account : Account)
    (trade : Trade) (open_positions : list Position) (today_trades : list Trade)
    (recent_events : list DomainEvent) : outcome EvaluationResult :=
  let ctx := RuleContext_for_trade_fill account trade now in
  Evaluator_evaluate_ctx e (with_history ctx open_positions today_trades recent_events).

Definition Evaluator_evaluate_tick (e : Evaluator) (now : Timestamp) (account : Account)
    (tick : Tick) (open_positions : list Position) (today_trades : list Trade)
    (recent_events : list DomainEvent) : outcome EvaluationResult :=
  let ctx := RuleContext_for_tick account tick now in
  let ctx := with_history ctx open_positions today_trades recent_events in
  let ctx := RuleContext_with_broker_equity ctx (acc_equity account) (acc_balance account) in
  Evaluator_evaluate_ctx e ctx.

Definition Evaluator_evaluate_tick_estimated (e : Evaluator) (now : Timestamp)
    (account : Account) (tick : Tick) (open_positions : list Position)
    (today_trades : list Trade) (recent_events : list DomainEvent) : outcome EvaluationResult :=
  let ctx := RuleContext_for_tick account tick now in
  let ctx := with_history ctx open_positions today_trades recent_events in
  let ctx := RuleContext_with_estimated_equity ctx (acc_equity account) (acc_balance account) in
  Evaluator_evaluate_ctx e ctx.

Definition Evaluator_evaluate_day_rollover (e : Evaluator) (now : Timestamp) (account : Account)
    : outcome EvaluationResult :=
  Evaluator_evaluate_ctx e (RuleContext_for_day_rollover account now).

End Evaluate.

(** ** Violation events

    The identifier of an event and of the event that caused it, which
    nothing in the engine reads back: an envelope around the event. *)

Record EventEnvelope := mkEventEnvelope {
  ee_id : Uuid;
  ee_event : DomainEvent;
  ee_causation_id : option Uuid;
}.

Definition DomainEvent_with_causation (e : EventEnvelope) (parent : Uuid) : EventEnvelope :=
  mkEventEnvelope (ee_id e) (ee_event e) (Some parent).

Definition make_violation_event (fresh_id : Uuid) (account_id : AccountId)
    (violation : Violation) (causation : option Uuid) : EventEnvelope :=
  let ev := mkEventEnvelope fresh_id
              (DomainEvent_new account_id (EvRuleViolated violation) (vio_occurred_at violation))
              None in
  match causation with
  | Some c => DomainEvent_with_causation ev c
  | None => ev
  end.

(** ** The pipeline's constructor

    The event store of a new pipeline is empty and nothing appends to it, so
    [recent] answers from an empty store. *)
Definition Pipeline_new (evaluator : Evaluator) (notify_violation : Violation → outcome unit)
    : Pipeline :=
  mkPipeline (el_registry evaluator) notify_violation
    (fun id n => Ret (InMemoryEventStore_recent InMemoryEventStore_new id (Z.to_nat n))).

(** ** Contexts without an event *)

(** [Account::default_for_tests]: an account on the default plan; the
    identifiers are fresh. *)
Definition default_for_tests (fresh_id tenant plan_id : Uuid) (now : Timestamp) : Account :=
  Account_new fresh_id tenant (ChallengePlan_default plan_id now).

Definition RuleContext_at (fresh_id tenant plan_id : Uuid) (now server_time : Timestamp)
    : RuleContext :=
  (RuleContext_new (default_for_tests fresh_id tenant plan_id now) now)
    <| ctx_server_time := server_time |>.

End Evaluator.

Definition context_label (kind : RuleContextKind) : string :=
  match kind with
  | OnOrderSubmit => "order_submit"
  | OnTradeFill => "trade_fill"
  | OnTick => "tick"
  | OnDayRollover => "day_rollover"
  | OnEndOfDay => "end_of_day"
  | OnDemand => "on_demand"
  end.
