(* ===== verification/Notify.v ===== *)
(** * Notifications (src/notifications/traits.rs, log.rs)

    The trait [Notifier] is a class over the notifier's state.  The log
    notifier keeps a buffer of lines behind a lock; its clones share the
    buffer, so the buffer is the state.  [process_notified] is the pipeline
    with the notifier's state threaded through: the source notifies the
    violations one by one after the events are built, and stops at the first
    notification that fails. *)

From S2P Require Import Prelude.
From S2P Require Import Decimal.
From S2P Require Import Chrono.
From S2P Require Import Ids.
From S2P Require Import Domain.
From S2P Require Import Plan.
From S2P Require Import Account.
From S2P Require Import Violation.
From S2P Require Import Pack.
From S2P Require Import RuleApi.
From S2P Require Import Pipeline.
From S2P Require Import Hashing.
From S2P Require Import Api.
From S2P Require Import Values.
From S2P Require Import Text.
#[local] Open Scope Z_scope.

Section Notify.
Context `{DecimalOps} `{!JsonOps} `{ChronoOps}.

(** [now] is the reading of the clock an account event is stamped with. *)
Class Notifier (S : Type) := {
  notify_violation : S → Violation → outcome S;
  notify_account_event : S → Timestamp → AccountId → string → string → outcome S;
}.

(** The pipeline with a notifier: the violations reach it in order, once the
    result is complete. *)
Definition process_notified {N : Type} `{!Notifier N} (fuel : nat) (pl : Pipeline) (env : Env)
    (notifier : N) (account : Account) (ev : PipelineEvent) : outcome (PipelineResult * N) :=
  let! result := process fuel (mkPipeline (pl_registry pl) (fun _ => Ret tt) (pl_recent pl))
                   env account ev in
  let! notifier := foldM notify_violation notifier (EvaluationResult_violations (pr_result result)) in
  Ret (result, notifier).

(** ** The log notifier *)

Context `{!DecimalText} `{!UuidOps} `{!TimeText}.

Record LogNotifier := mkLogNotifier { ln_buf : list string }.

Definition LogNotifier_new : LogNotifier := mkLogNotifier [].

(** Takes the lines out, leaving the buffer empty. *)
Definition LogNotifier_drain (n : LogNotifier) : list string * LogNotifier :=
  (ln_buf n, mkLogNotifier []).

Definition LogNotifier_snapshot (n : LogNotifier) : list string := ln_buf n.

Definition violation_line (v : Violation) : string :=
  "[" +:+ to_rfc3339 (vio_occurred_at v) +:+ "] account=" +:+ Id_display (vio_account_id v)
  +:+ " rule=" +:+ vio_rule_name v
  +:+ " kind=" +:+ ViolationKind_display (vio_kind v)
  +:+ " severity=" +:+ ViolationSeverity_display (vio_severity v)
  +:+ " msg=" +:+ vio_message v
  +:+ match vio_breach_value v with
      | Some breach =>
          " breach=" +:+ Money_display breach
          +:+ " threshold=" +:+ Money_display (default Money_ZERO (vio_threshold_value v))
      | None => ""
      end.

Definition account_event_line (now : Timestamp) (account_id : AccountId) (kind msg : string)
    : string :=
  "[" +:+ to_rfc3339 now +:+ "] account=" +:+ Id_display account_id +:+ " kind=" +:+ kind
  +:+ " msg=" +:+ msg.

Definition LogNotifier_notify_violation (n : LogNotifier) (v : Violation) : outcome LogNotifier :=
  Ret (mkLogNotifier (ln_buf n ++ [violation_line v])).

Definition LogNotifier_notify_account_event (n : LogNotifier) (now : Timestamp)
    (account_id : AccountId) (kind msg : string) : outcome LogNotifier :=
  Ret (mkLogNotifier (ln_buf n ++ [account_event_line now account_id kind msg])).

#[global] Instance LogNotifier_Notifier : Notifier LogNotifier := {
  notify_violation := LogNotifier_notify_violation;
  notify_account_event := LogNotifier_notify_account_event;
}.

End Notify.
