(* ===== verification/Cli.v ===== *)
(** * The command line (src/bin/cli.rs)

    Two modes.  Without a subcommand the built-in demo runs three events
    through a pipeline and computes risk metrics; [repl] reads one evaluate
    request per line, evaluates it and prints the verdict.

    A command that can fail is [cli A]: [inr] is the text of an
    [anyhow::Error].  The parser of a request and the derived [Debug] text of
    a verdict are parameters ([CliText]); the clock and the random
    identifiers a line draws are [ReplEnv].  Lines are what [read_line]
    returns; [None] is a read that failed. *)

From stdpp Require Import pretty.
From Stdlib Require Import Ascii.
From S2P Require Import Prelude.
From S2P Require Import Decimal.
From S2P Require Import Chrono.
From S2P Require Import Ids.
From S2P Require Import Domain.
From S2P Require Import Plan.
From S2P Require Import Presets.
From S2P Require Import Account.
From S2P Require Import Violation.
From S2P Require Import Pack.
From S2P Require Import RuleApi.
From S2P Require Import Registry.
From S2P Require Import Decision.
From S2P Require Import Pipeline.
From S2P Require Import Risk.
From S2P Require Import Hashing.
From S2P Require Import Pure.
From S2P Require Import Json.
From S2P Require Import Api.
From S2P Require Import Values.
From S2P Require Import Text.
From S2P Require Import Evaluator.
From S2P Require Import Notify.
#[local] Open Scope Z_scope.

(** ** Failing commands *)

Definition cli (A : Type) : Type := outcome (A + string).

Definition cli_ok {A} (a : A) : cli A := Ret (inl a).
Definition cli_fail {A} (msg : string) : cli A := Ret (inr msg).
Definition cli_bind {A B} (m : cli A) (f : A → cli B) : cli B :=
  let! r := m in
  match r with inl a => f a | inr msg => Ret (inr msg) end.

(** [?] on an engine result, on a computation that can only panic, on an
    option and on a converted value. *)
Definition cli_of {A} (m : outcome A) : cli A :=
  match m with
  | Ret a => cli_ok a
  | Err e => cli_fail (Error_display e)
  | Panic => Panic
  | OutOfFuel => OutOfFuel
  end.
Definition cli_some {A} (msg : string) (o : option A) : cli A :=
  match o with Some a => cli_ok a | None => cli_fail msg end.
Definition cli_sum {A} (r : A + string) : cli A :=
  match r with inl a => cli_ok a | inr e => cli_fail e end.

(** A loop that converts and pushes, stopping at the first failure. *)
Fixpoint cli_all {A} (rs : list (A + string)) : cli (list A) :=
  match rs with
  | [] => cli_ok []
  | r :: rs' => cli_bind (cli_sum r) (fun a => cli_bind (cli_all rs') (fun l => cli_ok (a :: l)))
  end.

Declare Scope cli_scope.
Notation "'let^' x ':=' m 'in' k" := (cli_bind m (fun x => k))
  (at level 10, x pattern, m at level 200, k at level 200,
   format "'[v' 'let^'  x  ':='  m  'in' '/' k ']'") : cli_scope.
#[local] Open Scope cli_scope.

(** ** Arguments *)

Inductive Mode : Type := MDemo | MRepl (args : list string).

(** [args] is the whole argument vector, the program's name first. *)
Definition main_mode (args : list string) : Mode :=
  match args with
  | _ :: sub :: rest => if bool_decide (sub = "repl"%string) then MRepl rest else MDemo
  | _ => MDemo
  end.

Definition repl_json_mode (args : list string) : bool :=
  existsb (fun a => str_in a ["--json"; "-j"]) args.

Inductive ReplSource : Type := RsStdin | RsFile (path : string).

(** The element after the first ["-f"]: [args.get(idx + 1)]. *)
Fixpoint after_f (args : list string) : option (option string) :=
  match args with
  | [] => None
  | a :: rest => if bool_decide (a = "-f"%string) then Some (head rest) else after_f rest
  end.

Definition repl_path (args : list string) : option string :=
  match args !! 1%nat with
  | Some path =>
      Some (if bool_decide (path = "-f"%string) then default "-" (args !! 2%nat)
            else if str_in path ["--json"; "-j"] then
              match after_f args with
              | Some next => default "-" next
              | None => "stdin-marker"
              end
            else path)%string
  | None => None
  end.

Definition repl_source (args : list string) : ReplSource :=
  match repl_path args with
  | Some path => if str_in path ["stdin-marker"; "-"] then RsStdin else RsFile path
  | None => RsStdin
  end.

(** ** The loop over the lines *)

(** [str::trim] on ASCII text. *)
Fixpoint trim_start (s : string) : string :=
  match s with
  | EmptyString => EmptyString
  | String c s' => if is_whitespace c then trim_start s' else s
  end.

Fixpoint trim_end (s : string) : string :=
  match s with
  | EmptyString => EmptyString
  | String c s' =>
      match trim_end s' with
      | EmptyString => if is_whitespace c then EmptyString else String c EmptyString
      | t => String c t
      end
  end.

Definition trim (s : string) : string := trim_end (trim_start s).

Definition is_comment (trimmed : string) : bool :=
  String.prefix "#" trimmed || String.prefix "//" trimmed.

(** One print: a verdict on the standard output, an error on the error
    stream. *)
Inductive Printed : Type := OnStdout (text : string) | OnStderr (text : string).

Definition newline : string := String (ascii_of_nat 10) EmptyString.
Definition dquote : string := String (ascii_of_nat 34) EmptyString.

Definition error_line (json_mode : bool) (line_no : nat) (e : string) : string :=
  let n := pretty (Z.of_nat line_no) in
  (if json_mode then
     "{" +:+ dquote +:+ "error" +:+ dquote +:+ ":" +:+ dquote +:+ "line " +:+ n +:+ ": " +:+ e
     +:+ dquote +:+ "}"
   else "line " +:+ n +:+ ": ERROR — " +:+ e +:+ newline)%string.

(** The loop from line [line_no]; a failed read ends it with an error. *)
Fixpoint repl_loop (process : nat → string → cli string) (json_mode : bool) (line_no : nat)
    (input : list (option string)) : cli (list Printed) :=
  match input with
  | [] => cli_ok []
  | None :: _ => cli_fail "{io error}"
  | Some line :: rest =>
      let trimmed := trim line in
      if bool_decide (trimmed = ""%string) then cli_ok []
      else if is_comment trimmed then repl_loop process json_mode (S line_no) rest
      else
        let! r := process line_no trimmed in
        let printed := match r with
                       | inl output => OnStdout output
                       | inr e => OnStderr (error_line json_mode line_no e)
                       end in
        let^ more := repl_loop process json_mode (S line_no) rest in
        cli_ok (printed :: more)
  end.

(** [{:<n}]: padded on the right to [n] characters. *)
Fixpoint pad_right (n : nat) (s : string) : string :=
  match n, s with
  | O, _ => s
  | S n', EmptyString => String " " (pad_right n' EmptyString)
  | S n', String c s' => String c (pad_right n' s')
  end.

(** ** One line *)

Section Cli.
Context `{HO : HashOps} `{!JsonOps} `{!Sha256Ops} `{!UuidOps} `{!TimeText} `{!DecimalText}
  `{!JsonText} `{!DecimalMath}.

Class CliText := {
  (** [serde_json::from_str] of a request. *)
  parse_request : string → option InternalEvaluateRequest;
  (** The derived [Debug] text of a verdict. *)
  verdict_debug : RuleVerdict → string;
}.
Context `{!CliText}.

(** What the evaluation of one line draws from its surroundings. *)
Record ReplEnv := mkReplEnv {
  re_now : Timestamp;
  re_now_pack : Timestamp;
  re_now_context : Timestamp;
  re_now_reports : Timestamp;
  re_fresh : nat → Fresh;
  re_trade_ids : nat → TradeIds;
}.

Definition nil_uuid_text : string := "00000000-0000-0000-0000-000000000000".

Definition repl_tenant (req : InternalEvaluateRequest) : cli TenantId :=
  cli_some "invalid tenant_id: {e}"
    (TenantId_from_str
       (default nil_uuid_text ((fun a => TenantId_display (acc_tenant_id a))
                                 <$> ir_account_state req))).

Definition repl_equity_source (req : InternalEvaluateRequest) : cli EquitySource :=
  match ir_bridge_tick req with
  | Some _ => cli_ok SrcBrokerReported
  | None =>
      match ir_equity_source req with
      | None => cli_ok SrcEstimated
      | Some s =>
          if bool_decide (s = "estimated"%string) then cli_ok SrcEstimated
          else match EquitySource_parse s with
               | Ret src => cli_ok src
               | Err e => cli_fail ("invalid equity_source: " +:+ Error_display e)
               | Panic => Panic
               | OutOfFuel => OutOfFuel
               end
      end
  end.

Definition repl_server_time (env : ReplEnv) (req : InternalEvaluateRequest) : cli Timestamp :=
  match ir_bridge_tick req with
  | Some bt => cli_some "invalid broker_time" (from_timestamp_millis (bt_broker_time (bt_payload bt)))
  | None =>
      match ir_tick req with
      | Some tick => cli_ok (q_ts (tick_quote tick))
      | None => cli_ok (re_now env)
      end
  end.

Definition repl_inputs (positions : list Position) (trades : list Trade)
    (latest_tick : option Tick) (equity_source : EquitySource) : EvaluateInputs :=
  match latest_tick with
  | Some tick =>
      EvaluateInputs_with_equity_source (EvaluateInputs_for_tick positions trades tick) equity_source
  | None =>
      EvaluateInputs_default <| ei_open_positions := positions |>
        <| ei_today_trades := trades |> <| ei_equity_source := equity_source |>
  end.

(** The verdict on a request and the account it leaves. *)
Definition repl_verdict (env : ReplEnv) (req : InternalEvaluateRequest)
    : cli (PureVerdict * Account) :=
  let^ account_id := cli_some "invalid account_id: {e}" (uuid_parse (ir_account_id req)) in
  let^ tenant_id := repl_tenant req in
  let^ acc := cli_some "account_state is required" (ir_account_state req) in
  let^ equity_source := repl_equity_source req in
  let pack := RulePack_synthetic_from_plan (uuid_display account_id) tenant_id (acc_plan acc)
                (re_now_pack env) in
  let^ registry := cli_of (RuleRegistry_with_default_rules_for_plan (acc_plan acc)) in
  let^ positions := cli_all ((fun p => PositionDto_into_domain p account_id)
                               <$> default [] (ir_open_positions req)) in
  let^ trades := cli_all (imap (fun i d => TradeDto_into_domain (re_trade_ids env i) d account_id)
                            (default [] (ir_today_trades req))) in
  let^ server_time := repl_server_time env req in
  let^ verdict := cli_of
    (evaluate (re_fresh env) (re_now_context env) (re_now_reports env) acc pack registry OnTick
       server_time (repl_inputs positions trades (ir_tick req) equity_source)) in
  let^ (new_state, _) := cli_of (apply_decision acc (pv_decision verdict) server_time "repl") in
  cli_ok (verdict, new_state).

(** ** What a line prints *)

Definition report_json (r : RuleReport) : Json :=
  JObj [ ("rule_name", JStr (rr_rule_name r));
         ("verdict", JStr (verdict_debug (rr_verdict r)));
         ("priority", JInt (rr_priority r)) ]%string.

Definition verdict_json (verdict : PureVerdict) (acc : Account) : outcome Json :=
  let! dd := Account_daily_drawdown acc in
  Ret (JObj
    [ ("decision_kind", JStr (DecisionKind_debug (dec_kind (pv_decision verdict))));
      ("winning_priority", JInt (dec_winning_priority (pv_decision verdict)));
      ("input_hash", JStr (pv_input_hash verdict));
      ("pack_id", JStr (pv_pack_id verdict));
      ("pack_version", JInt (pv_pack_version verdict));
      ("reports", JArr (report_json <$> pv_reports verdict));
      ("account_state",
       JObj [ ("status", JStr (AccountStatus_debug (acc_status acc)));
              ("balance", JStr (Money_display (acc_balance acc)));
              ("equity", JStr (Money_display (acc_equity acc)));
              ("peak_balance", JStr (Money_display (acc_peak_balance acc)));
              ("daily_drawdown", JStr (Money_display dd)) ]) ]%string).

(** A row of the table: label, padded value, tail. *)
Definition row (label : string) (width : nat) (value tail : string) : string :=
  "│ " +:+ label +:+ pad_right width value +:+ tail.

Definition report_row (r : RuleReport) : string :=
  "│ " +:+ pad_right 25 (rr_rule_name r) +:+ " → " +:+ pad_right 20 (verdict_debug (rr_verdict r))
  +:+ " (prio=" +:+ pad_right 4 (pretty (rr_priority r)) +:+ ") │".

Definition verdict_table (verdict : PureVerdict) (acc : Account) : outcome (list string) :=
  let! dd := Account_daily_drawdown acc in
  let d := pv_decision verdict in
  let tail := "            │"%string in
  let tail' := "                │"%string in
  Ret (["┌─ verdict ─────────────────────────────────────────────┐";
        row "decision_kind:     " 30 (DecisionKind_debug (dec_kind d)) tail;
        row "winning_priority:  " 30 (pretty (dec_winning_priority d)) tail;
        row "input_hash:        " 0 (pv_input_hash verdict) "  │";
        row "pack_id:           " 30 (pv_pack_id verdict) tail;
        row "pack_version:      " 30 (pretty (pv_pack_version verdict)) tail;
        "├─ per-rule verdicts ─────────────────────────────────┤"]%string
       ++ (report_row <$> pv_reports verdict)
       ++ ["├─ account state (post-eval) ───────────────────────┤";
           row "status:        " 0 (AccountStatus_debug (acc_status acc))
             "                                 │";
           row "balance:       " 30 (Money_display (acc_balance acc)) tail';
           row "equity:        " 30 (Money_display (acc_equity acc)) tail';
           row "peak_balance:  " 30 (Money_display (acc_peak_balance acc)) tail';
           row "daily_drawdown: " 29 (Money_display dd) tail';
           "└────────────────────────────────────────────────────┘"]%string).

Definition process_one_repl_line (env : ReplEnv) (json : string) (json_mode : bool) : cli string :=
  let^ req := cli_some "failed to parse JSON: {e}" (parse_request json) in
  let^ (verdict, acc) := repl_verdict env req in
  if json_mode then
    let^ j := cli_of (verdict_json verdict acc) in
    cli_some "{serde error}" (json_to_string_pretty j)
  else
    let^ lines := cli_of (verdict_table verdict acc) in
    cli_ok (String.concat newline lines).

(** [open_file] yields the lines of a file, or [None] when it cannot be
    opened; the banner goes to the error stream unless the mode is JSON. *)
Definition run_repl (envs : nat → ReplEnv) (stdin : list (option string))
    (open_file : string → option (list (option string))) (args : list string)
    : cli (list Printed) :=
  let json_mode := repl_json_mode args in
  let^ input := match repl_source args with
                | RsStdin => cli_ok stdin
                | RsFile path =>
                    cli_some ("failed to open input file " +:+ path +:+ ": {e}") (open_file path)
                end in
  let banner := if json_mode then [] else
    OnStderr <$> ["propfirm-cli repl — type a JSON request body per line, then Enter.";
                  "Each line is one `/internal/v1/evaluate` request.";
                  "Use --json / -j for JSON output (pipe to jq).";
                  "Press Ctrl+D (or empty line + Enter) to exit." +:+ newline]%string in
  let^ printed := repl_loop (fun n line => process_one_repl_line (envs n) line json_mode) json_mode
                    1 input in
  cli_ok (banner ++ printed).

(** ** The demo *)

(** What the demo draws: identifiers, the reading of the clock, and the
    surroundings of its three pipeline runs. *)
Record DemoEnv := mkDemoEnv {
  dm_plan_id : ChallengeId;
  dm_account_id : AccountId;
  dm_tenant : TenantId;
  dm_evaluator_id : AccountId;
  dm_order_id : OrderId;
  dm_now_plan : Timestamp;
  dm_now : Timestamp;
  dm_fuel : nat;
  dm_started : Env;
  dm_order : Env;
  dm_tick : Env;
}.

Definition demo_order (env : DemoEnv) : Order := {|
  ord_id := dm_order_id env;
  ord_account_id := dm_account_id env;
  ord_symbol := Symbol_new "EURUSD";
  ord_side := Buy;
  ord_kind := OkOpen;
  ord_order_type := Market;
  ord_quantity := dec_new 1 0;
  ord_tif := Ioc;
  ord_stop_loss := Some (dec_new 105 2);
  ord_take_profit := Some (dec_new 110 2);
  ord_comment := Some "demo"%string;
  ord_submitted_at := dm_now env;
  ord_status := OsPending;
  ord_filled_quantity := Quantity_ZERO;
  ord_avg_fill_price := None;
|}.

Definition demo_tick (env : DemoEnv) : Tick :=
  Tick_new (Symbol_new "EURUSD") (mkQuote (dec_new 10850 4) (dec_new 10852 4) (dm_now env)).

Definition option_u32_debug (o : option Z) : string :=
  match o with Some n => "Some(" +:+ pretty n +:+ ")" | None => "None" end.

(** The lines printed before the pipeline runs. *)
Definition demo_header (account : Account) (plan : ChallengePlan) : outcome (list string) :=
  let! target := Pct_display (plan_profit_target_pct plan) in
  let! daily := Pct_display (plan_max_daily_drawdown_pct plan) in
  let! total := Pct_display (plan_max_total_drawdown_pct plan) in
  Ret ["=== Prop Firm Engine – CLI Demo ===";
       "Account: id=" +:+ Id_display (acc_id account)
       +:+ " type=" +:+ AccountType_display (acc_account_type account)
       +:+ " phase=" +:+ ChallengePhase_display (plan_phase plan)
       +:+ " initial=" +:+ Money_display (acc_initial_balance account);
       "Plan: profit_target=" +:+ target +:+ " daily_dd=" +:+ daily +:+ " max_dd=" +:+ total
       +:+ " min_days=" +:+ pretty (plan_min_trading_days plan)
       +:+ " time_limit_days=" +:+ option_u32_debug (plan_time_limit_days plan)]%string.

Definition demo_risk_line : outcome string :=
  let! risk := RiskMetrics_compute
                 [dec_new 10000 0; dec_new 10200 0; dec_new 10150 0; dec_new 10300 0]
                 [dec_new 100 0; dec_new (-50) 0; dec_new 150 0] in
  let! rate := dmul (rm_win_rate risk) (dec_new 100 0) in
  Ret ("[Risk] sharpe=" +:+ dec_display_prec 4 (rm_sharpe risk)
       +:+ " sortino=" +:+ dec_display_prec 4 (rm_sortino risk)
       +:+ " max_dd=" +:+ dec_display_prec 4 (rm_max_drawdown risk)
       +:+ " profit_factor=" +:+ dec_display_prec 4 (rm_profit_factor risk)
       +:+ " win_rate=" +:+ dec_display_prec 2 rate +:+ "%")%string.

Definition decision_text (r : PipelineResult) : string :=
  DecisionKind_debug (dec_kind (snap_decision (pr_snapshot r))).

(** Every run starts from the account as it was created. *)
Definition run_demo (env : DemoEnv) : outcome (list string) :=
  let! plan := ftmo_phase1 (dm_plan_id env) (dm_now_plan env) in
  let account := Account_new (dm_account_id env) (dm_tenant env) plan in
  let! header := demo_header account plan in
  let! evaluator := Evaluator_new (dm_evaluator_id env) plan in
  let pipeline := Pipeline_new evaluator (fun _ => Ret tt) in
  let notifier := LogNotifier_new in
  let! (started, notifier) :=
    process_notified (dm_fuel env) pipeline (dm_started env) notifier account
      (PeAccountStarted (dm_now env)) in
  let! (ordered, notifier) :=
    process_notified (dm_fuel env) pipeline (dm_order env) notifier account
      (PeOrderSubmitted (demo_order env)) in
  let! (ticked, _) :=
    process_notified (dm_fuel env) pipeline (dm_tick env) notifier account
      (PeTick (demo_tick env) (dec_new 10200 0) (dec_new 10000 0)) in
  let! limit := Account_daily_dd_limit account in
  let! risk := demo_risk_line in
  let snap := snap_account (pr_snapshot ticked) in
  Ret (header
       ++ ["[Started] decision=" +:+ decision_text started
           +:+ " events=" +:+ pretty (Z.of_nat (length (pr_events started)));
           "[Order] decision=" +:+ decision_text ordered
           +:+ " passed=" +:+ (if EvaluationResult_passed (pr_result ordered) then "true" else "false")
           +:+ " violations="
           +:+ pretty (Z.of_nat (length (EvaluationResult_violations (pr_result ordered))));
           "[Tick] equity=" +:+ Money_display (as_equity snap)
           +:+ " balance=" +:+ Money_display (as_balance snap)
           +:+ " daily_dd=" +:+ Money_display (as_daily_drawdown snap)
           +:+ "/" +:+ Money_display limit;
           risk;
           "Done. Engine worked end-to-end. ✓"]%string).

(** [main]. *)
Definition cli_main (demo : DemoEnv) (envs : nat → ReplEnv) (stdin : list (option string))
    (open_file : string → option (list (option string))) (args : list string)
    : cli (list Printed) :=
  match main_mode args with
  | MRepl rest => run_repl envs stdin open_file rest
  | MDemo => let^ lines := cli_of (run_demo demo) in cli_ok (OnStdout <$> lines)
  end.

End Cli.
