(* ===== verification/Settings.v ===== *)
(** * Service settings (src/settings.rs)

    The settings records with their defaults and the layers [Settings::load]
    merges.  The figment crate reads each layer into a dictionary of values,
    which may be dictionaries themselves. *)

From S2P Require Import Prelude.
From Stdlib Require Import Floats.SpecFloat Ascii.
#[local] Open Scope Z_scope.

(** ** The records *)

Record TlsSettings := mkTlsSettings {
  tls_enabled : bool;
  tls_cert_path : string;
  tls_key_path : string;
  tls_client_ca_path : option string;
}.

Definition TlsSettings_default : TlsSettings :=
  mkTlsSettings false "/etc/propfirm/tls/cert.pem" "/etc/propfirm/tls/key.pem" None.

Record ServerSettings := mkServerSettings {
  ss_bind_addr : string;
  ss_max_body_bytes : Z;
  ss_request_timeout_secs : Z;
  ss_shutdown_timeout_secs : Z;
  ss_tls : TlsSettings;
}.

Definition ServerSettings_default : ServerSettings :=
  mkServerSettings "0.0.0.0:8080" (2 * 1024 * 1024) 30 30 TlsSettings_default.

Record OtlpSettings := mkOtlpSettings {
  otlp_endpoint : string;
  otlp_protocol : string;
  otlp_service_name : string;
  otlp_stdout : bool;
  otlp_sample_ratio : spec_float;
}.

(** The binary64 number 1.0. *)
Definition f64_one : spec_float := S754_finite false 4503599627370496 (-52).

Definition OtlpSettings_default : OtlpSettings :=
  mkOtlpSettings "" "grpc" "propfirm-engine" false f64_one.

Record ObservabilitySettings := mkObservabilitySettings {
  obs_log_filter : string;
  obs_log_format : string;
  obs_metrics_enabled : bool;
  obs_metrics_path : string;
  obs_panic_hook : bool;
  obs_otlp : OtlpSettings;
  obs_flame_output_path : string;
}.

Definition ObservabilitySettings_default : ObservabilitySettings :=
  mkObservabilitySettings "info,propfirm=debug" "json" true "/metrics" true OtlpSettings_default "".

Record Settings := mkSettings {
  set_server : ServerSettings;
  set_observability : ObservabilitySettings;
}.

Definition Settings_default : Settings :=
  mkSettings ServerSettings_default ObservabilitySettings_default.

(** [Duration::from_secs], in nanoseconds. *)
Definition Duration_from_secs (secs : Z) : Z := secs * 10 ^ 9.

Definition Settings_request_timeout (s : Settings) : Z :=
  Duration_from_secs (ss_request_timeout_secs (set_server s)).

Definition Settings_shutdown_timeout (s : Settings) : Z :=
  Duration_from_secs (ss_shutdown_timeout_secs (set_server s)).

(** ** Values and dictionaries (crate [figment]) *)

Inductive Value : Type :=
| VlStr (s : string)
| VlChar (c : Ascii.ascii)
| VlInt (n : Z)
| VlBool (b : bool)
| VlFloat (f : spec_float)
| VlEmpty
| VlArray (vs : list Value)
| VlDict (entries : list (string * Value)).

Abbreviation Dict := (list (string * Value)) (only parsing).

Definition entry (d : Dict) (name : string) : option Value :=
  snd <$> List.find (fun e => bool_decide (fst e = name)) d.

(** What the process finds around it: the variable [PROPFIRM_CONFIG] (set in
    the environment or by the .env file), whether the bundled file exists, and
    the figment crate: the dictionaries of TOML files and of the prefixed
    variables ([None] when they do not parse; a missing file is empty), the
    merge of two layers, and what a derived deserialiser makes of an array,
    which it reads by position. *)
Class FigmentOps := {
  env_config_path : option string;
  bundled_exists : bool;
  toml_file : string → option Dict;
  env_prefixed : option Dict;
  fig_merge : Dict → Dict → Dict;
  struct_of_array : ∀ A : Type, list Value → option A;
}.

(** The documented behaviour of [merge]: dictionaries are merged entry by
    entry; any other conflict is resolved in favour of the later layer. *)
Class FigmentLaws (F : FigmentOps) : Prop := {
  fig_merge_entry d d' name :
    entry (fig_merge d d') name
    = match entry d name, entry d' name with
      | Some (VlDict a), Some (VlDict b) => Some (VlDict (fig_merge a b))
      | _, Some v => Some v
      | o, None => o
      end;
}.

(** ** Reading the records out of a dictionary *)

Section Extract.
Context `{FigmentOps}.

(** One field under [serde(default)]: absent gives the default, present and
    of another type is an error. *)
Definition field {A : Type} (d : Dict) (name : string) (dflt : A) (read : Value → option A)
    : option A :=
  match entry d name with
  | Some v => read v
  | None => Some dflt
  end.

(** A character is accepted for a string. *)
Definition read_str (v : Value) : option string :=
  match v with VlStr s => Some s | VlChar c => Some (String c EmptyString) | _ => None end.
Definition read_bool (v : Value) : option bool := match v with VlBool b => Some b | _ => None end.

Definition read_u64 (v : Value) : option Z :=
  match v with
  | VlInt n => if (0 <=? n) && (n <? 2 ^ 64) then Some n else None
  | _ => None
  end.

(** Integers are accepted for floats. *)
Definition read_f64 (v : Value) : option spec_float :=
  match v with
  | VlFloat f => Some f
  | VlInt n => Some (binary_normalize 53 1024 n 0 false)
  | _ => None
  end.

Definition read_opt_str (v : Value) : option (option string) :=
  match v with VlEmpty => Some None | _ => Some <$> read_str v end.

(** A derived structure: from a dictionary or an array. *)
Definition read_struct {A : Type} (read : Dict → option A) (v : Value) : option A :=
  match v with
  | VlDict d => read d
  | VlArray vs => struct_of_array A vs
  | _ => None
  end.

Definition TlsSettings_extract (d : Dict) : option TlsSettings :=
  let dflt := TlsSettings_default in
  enabled ← field d "enabled" (tls_enabled dflt) read_bool;
  cert ← field d "cert_path" (tls_cert_path dflt) read_str;
  key ← field d "key_path" (tls_key_path dflt) read_str;
  ca ← field d "client_ca_path" (tls_client_ca_path dflt) read_opt_str;
  Some (mkTlsSettings enabled cert key ca).

Definition ServerSettings_extract (d : Dict) : option ServerSettings :=
  let dflt := ServerSettings_default in
  addr ← field d "bind_addr" (ss_bind_addr dflt) read_str;
  body ← field d "max_body_bytes" (ss_max_body_bytes dflt) read_u64;
  request ← field d "request_timeout_secs" (ss_request_timeout_secs dflt) read_u64;
  shutdown ← field d "shutdown_timeout_secs" (ss_shutdown_timeout_secs dflt) read_u64;
  tls ← field d "tls" (ss_tls dflt) (read_struct TlsSettings_extract);
  Some (mkServerSettings addr body request shutdown tls).

Definition OtlpSettings_extract (d : Dict) : option OtlpSettings :=
  let dflt := OtlpSettings_default in
  endpoint ← field d "endpoint" (otlp_endpoint dflt) read_str;
  protocol ← field d "protocol" (otlp_protocol dflt) read_str;
  service ← field d "service_name" (otlp_service_name dflt) read_str;
  stdout ← field d "stdout" (otlp_stdout dflt) read_bool;
  ratio ← field d "sample_ratio" (otlp_sample_ratio dflt) read_f64;
  Some (mkOtlpSettings endpoint protocol service stdout ratio).

Definition ObservabilitySettings_extract (d : Dict) : option ObservabilitySettings :=
  let dflt := ObservabilitySettings_default in
  filter ← field d "log_filter" (obs_log_filter dflt) read_str;
  format ← field d "log_format" (obs_log_format dflt) read_str;
  metrics ← field d "metrics_enabled" (obs_metrics_enabled dflt) read_bool;
  path ← field d "metrics_path" (obs_metrics_path dflt) read_str;
  hook ← field d "panic_hook" (obs_panic_hook dflt) read_bool;
  otlp ← field d "otlp" (obs_otlp dflt) (read_struct OtlpSettings_extract);
  flame ← field d "flame_output_path" (obs_flame_output_path dflt) read_str;
  Some (mkObservabilitySettings filter format metrics path hook otlp flame).

Definition Settings_extract (d : Dict) : option Settings :=
  let dflt := Settings_default in
  server ← field d "server" (set_server dflt) (read_struct ServerSettings_extract);
  obs ← field d "observability" (set_observability dflt)
          (read_struct ObservabilitySettings_extract);
  Some (mkSettings server obs).

End Extract.

(** ** The layers *)

(** [DEFAULT_CONFIG_TOML], as it parses. *)
Definition DEFAULT_CONFIG_TOML : Dict :=
  [("server", VlDict
     [("bind_addr", VlStr "0.0.0.0:8080");
      ("max_body_bytes", VlInt 2097152);
      ("request_timeout_secs", VlInt 30);
      ("shutdown_timeout_secs", VlInt 30);
      ("tls", VlDict [("enabled", VlBool false)])]);
   ("observability", VlDict
     [("log_filter", VlStr "info,propfirm=debug");
      ("log_format", VlStr "json");
      ("metrics_enabled", VlBool true);
      ("metrics_path", VlStr "/metrics");
      ("panic_hook", VlBool true);
      ("otlp", VlDict
        [("endpoint", VlStr "");
         ("protocol", VlStr "grpc");
         ("service_name", VlStr "propfirm-engine");
         ("stdout", VlBool false);
         ("sample_ratio", VlFloat f64_one)])])]%string.

Section Load.
Context `{FigmentOps}.

Definition bundled_path : string := "config/propfirm.toml".

(** The defaults under the named file or else the bundled one. *)
Definition file_layers : option Dict :=
  match env_config_path with
  | Some path => fig_merge DEFAULT_CONFIG_TOML <$> toml_file path
  | None =>
      if bundled_exists then fig_merge DEFAULT_CONFIG_TOML <$> toml_file bundled_path
      else Some DEFAULT_CONFIG_TOML
  end.

Definition Settings_load : option Settings :=
  fig ← file_layers;
  env ← env_prefixed;
  Settings_extract (fig_merge fig env).

End Load.
