(* ===== verification/Http.v ===== *)
(** * Routes and layers (src/api/routes.rs)

    The router maps a method and a path to a handler; the layers wrap it, each
    around the ones before.  A service is a function of the request and of the
    state the server keeps: what the handlers share, and the spans that were
    traced.  The axum router and the tower layers are parameters with their
    documented behaviour; the metrics layer is the source's own. *)

From S2P Require Import Prelude.
From S2P Require Import Decimal.
From S2P Require Import Chrono.
From S2P Require Import Ids.
From S2P Require Import Pack.
#[local] Open Scope Z_scope.
From S2P Require Import Pipeline.
From S2P Require Import Hashing.
From S2P Require Import Metrics.
From S2P Require Import Json.
From S2P Require Import AuditLog.
From S2P Require Import Api.
#[local] Open Scope api_scope.

Definition REQUEST_ID_HEADER : string := "x-request-id".
Definition PAYLOAD_TOO_LARGE : Z := 413.
Definition REQUEST_TIMEOUT : Z := 408.
Definition METHOD_NOT_ALLOWED : Z := 405.

(** A body, with or without a declared length, and a body whose reading
    fails on the way. *)
Inductive Body : Type :=
| BdText (declared : bool) (text : string)
| BdCut.

Definition body_length (b : Body) : Z :=
  match b with BdText _ text => Z.of_nat (String.length text) | BdCut => 0 end.

Record HttpRequest := mkHttpRequest {
  hq_method : string;
  hq_uri : string;
  hq_path : string;
  hq_headers : HeaderMap;
  hq_body : Body;
}.

Record HttpResponse := mkHttpResponse {
  hs_status : Z;
  hs_headers : HeaderMap;
  hs_body : string;
}.

Definition with_header (name value : string) (h : HeaderMap) : HeaderMap := fun n =>
  if bool_decide (n = name) then Some value else h n.

Definition set_header (name value : string) (req : HttpRequest) : HttpRequest :=
  mkHttpRequest (hq_method req) (hq_uri req) (hq_path req)
    (with_header name value (hq_headers req)) (hq_body req).

Definition cut_body (req : HttpRequest) : HttpRequest :=
  mkHttpRequest (hq_method req) (hq_uri req) (hq_path req) (hq_headers req) BdCut.

Definition no_headers : HeaderMap := fun _ => None.

(** The fields of the span of a request; the last three start empty. *)
Record Span := mkSpan {
  sp_method : string;
  sp_uri : string;
  sp_request_id : string;
  sp_status : option Z;
  sp_latency_ms : option Z;
  sp_error : option string;
}.

(** ** The handlers by name *)

Inductive Endpoint : Type :=
| EpHealth
| EpReady
| EpEvaluate
| EpOverride
| EpManualRun
| EpEmergencyStop
| EpBreachReport
| EpEvaluateOrder
| EpValidateRulePack
| EpMetrics
| EpOpenapiJson
| EpSwaggerUi.

#[global] Instance Endpoint_eq_dec : EqDecision Endpoint.
Proof. solve_decision. Defined.

Record Route := mkRoute { rt_method : string; rt_path : string; rt_endpoint : Endpoint }.

Definition get_ (path : string) (e : Endpoint) : Route := mkRoute "GET" path e.
Definition post_ (path : string) (e : Endpoint) : Route := mkRoute "POST" path e.

(** [openapi] is the cargo feature. *)
Definition router_routes (openapi : bool) : list Route :=
  [ get_ "/health" EpHealth;
    get_ "/ready" EpReady;
    post_ "/internal/v1/evaluate" EpEvaluate;
    post_ "/internal/v1/override" EpOverride;
    post_ "/internal/v1/manual-run" EpManualRun;
    post_ "/internal/v1/emergency-stop" EpEmergencyStop;
    post_ "/internal/v1/breach-report" EpBreachReport;
    post_ "/v1/evaluate-order" EpEvaluateOrder;
    post_ "/v1/rule-packs/validate" EpValidateRulePack;
    get_ "/metrics" EpMetrics ]
  ++ (if openapi then
        [ get_ "/openapi.json" EpOpenapiJson;
          get_ "/swagger-ui" EpSwaggerUi;
          get_ "/swagger-ui/" EpSwaggerUi ]
      else []).

(** ** Layers *)

Inductive Layer : Type :=
| LySetRequestId (header : string)
| LyTrace
| LyTimeout (status nanos : Z)
| LyCompression
| LyBodyLimit (bytes : Z)
| LyPropagateRequestId (header : string)
| LyHttpMetrics.

(** In the order of the calls of [layer]. *)
Definition router_layers (body_limit_bytes request_timeout : Z) : list Layer :=
  [ LySetRequestId REQUEST_ID_HEADER;
    LyTrace;
    LyTimeout REQUEST_TIMEOUT request_timeout;
    LyCompression;
    LyBodyLimit body_limit_bytes;
    LyPropagateRequestId REQUEST_ID_HEADER;
    LyHttpMetrics ].

(** The span of a request, as [make_span_with], [on_response] and
    [on_failure] fill it. *)
Definition make_span (req : HttpRequest) : Span :=
  mkSpan (hq_method req) (hq_uri req) (default "-"%string (hq_headers req REQUEST_ID_HEADER))
    None None None.

Definition span_on_response (resp : HttpResponse) (latency_ms : Z) (sp : Span) : Span :=
  mkSpan (sp_method sp) (sp_uri sp) (sp_request_id sp) (Some (hs_status resp)) (Some latency_ms)
    (sp_error sp).

Definition span_on_failure (error : string) (sp : Span) : Span :=
  mkSpan (sp_method sp) (sp_uri sp) (sp_request_id sp) (sp_status sp) (sp_latency_ms sp)
    (Some error).

Section Service.
Context `{DecimalOps} `{ChronoOps} `{!JsonOps}.

Record SrvState := mkSrvState {
  srv_api : ApiState;
  srv_spans : list Span;
}.

Definition Service : Type := HttpRequest → SrvState → outcome (HttpResponse * SrvState).

(** axum's dispatch and the tower layers. *)
Class TowerOps := {
  dispatch : list Route → HttpRequest → Endpoint + HttpResponse;
  set_request_id : string → string → Service → Service;
  trace : (HttpRequest → Span) → (HttpResponse → Z → Span → Span) → (string → Span → Span)
          → Service → Service;
  timeout : Z → Z → Service → Service;
  compression : Service → Service;
  body_limit : Z → Service → Service;
  propagate_request_id : string → Service → Service;
}.

(** A response that carries no request id. *)
Definition unnamed (resp : HttpResponse) : Prop := hs_headers resp REQUEST_ID_HEADER = None.

(** The span a traced request ends with, whichever callback ran first. *)
Inductive traced (mk : HttpRequest → Span) (on_response : HttpResponse → Z → Span → Span)
    (on_failure : string → Span → Span) (req : HttpRequest) (resp : HttpResponse) : Span → Prop :=
| traced_ok latency : traced mk on_response on_failure req resp (on_response resp latency (mk req))
| traced_failed_first latency e :
    traced mk on_response on_failure req resp (on_response resp latency (on_failure e (mk req)))
| traced_failed_last latency e :
    traced mk on_response on_failure req resp (on_failure e (on_response resp latency (mk req))).

(** The documented behaviour: routes match by method and path, an unknown
    path is not found and a known path refuses other methods; request ids are
    set where absent and copied to the response; tracing observes; a timeout
    drops the inner future, which either did not start or ran to the end (the
    handlers do not suspend); compression changes the body; a body of declared
    length over the limit is refused before a handler sees it, and another one
    fails to be read beyond the limit. *)
Class TowerLaws (T : TowerOps) : Prop := {
  dispatch_routed routes r req :
    r ∈ routes → NoDup ((fun x => (rt_method x, rt_path x)) <$> routes) →
    hq_method req = rt_method r → hq_path req = rt_path r →
    dispatch routes req = inl (rt_endpoint r);
  dispatch_unknown routes req :
    (∀ r, r ∈ routes → rt_path r ≠ hq_path req) →
    ∃ resp, dispatch routes req = inr resp ∧ hs_status resp = NOT_FOUND;
  dispatch_unnamed routes req resp : dispatch routes req = inr resp → unnamed resp;
  set_request_id_present h id inner req s v :
    hq_headers req h = Some v → set_request_id h id inner req s = inner req s;
  set_request_id_absent h id inner req s :
    hq_headers req h = None → set_request_id h id inner req s = inner (set_header h id req) s;
  trace_observes mk on_response on_failure inner req s :
    ∃ span, (∀ resp, traced mk on_response on_failure req resp (span resp))
      ∧ trace mk on_response on_failure inner req s
        = let! (resp, s') := inner req s in
          Ret (resp, mkSrvState (srv_api s') (srv_spans s' ++ [span resp]));
  timeout_answers status nanos inner req s :
    timeout status nanos inner req s = inner req s
    ∨ ∃ resp s', timeout status nanos inner req s = Ret (resp, s')
        ∧ hs_status resp = status ∧ unnamed resp
        ∧ (s' = s ∨ ∃ resp', inner req s = Ret (resp', s'));
  compression_keeps inner req s :
    ∃ f, (∀ resp, hs_status (f resp) = hs_status resp
            ∧ hs_headers (f resp) REQUEST_ID_HEADER = hs_headers resp REQUEST_ID_HEADER)
      ∧ compression inner req s = let! (resp, s') := inner req s in Ret (f resp, s');
  dispatch_head routes req req' :
    hq_method req = hq_method req' → hq_path req = hq_path req' →
    dispatch routes req = dispatch routes req';
  body_limit_passes bytes inner req s :
    body_length (hq_body req) ≤ bytes ∨ hq_body req = BdCut →
    body_limit bytes inner req s = inner req s;
  body_limit_refuses bytes inner req s text :
    hq_body req = BdText true text → bytes < body_length (hq_body req) →
    ∃ resp s', body_limit bytes inner req s = Ret (resp, s')
      ∧ hs_status resp = PAYLOAD_TOO_LARGE ∧ unnamed resp ∧ s' = s;
  body_limit_cuts bytes inner req s text :
    hq_body req = BdText false text → bytes < body_length (hq_body req) →
    body_limit bytes inner req s = inner (cut_body req) s;
  propagate_copies h inner req s :
    propagate_request_id h inner req s
    = let! (resp, s') := inner req s in
      Ret (match hq_headers req h, hs_headers resp h with
           | Some v, None => mkHttpResponse (hs_status resp) (with_header h v (hs_headers resp))
                               (hs_body resp)
           | _, _ => resp
           end, s');
}.

(** [http_request_metrics]. *)
Definition http_request_metrics (inner : Service) : Service := fun req s =>
  let method := hq_method req in
  let! (resp, s') := inner req s in
  let c := srv_api s' in
  Ret (resp, mkSrvState (mkApiState (sv_cache c) (sv_idempotency c)
                           (sv_log c ++ [TmMetric (record_http_response method (hs_status resp))]))
               (srv_spans s')).

Context `{!TowerOps}.

(** [fresh_id] is what [MakeRequestUuid] draws for the request. *)
Definition apply_layer (fresh_id : string) (l : Layer) (inner : Service) : Service :=
  match l with
  | LySetRequestId header => set_request_id header fresh_id inner
  | LyTrace => trace make_span span_on_response span_on_failure inner
  | LyTimeout status nanos => timeout status nanos inner
  | LyCompression => compression inner
  | LyBodyLimit bytes => body_limit bytes inner
  | LyPropagateRequestId header => propagate_request_id header inner
  | LyHttpMetrics => http_request_metrics inner
  end.

(** Each call of [layer] wraps what was built before. *)
Definition layered (fresh_id : string) (layers : list Layer) (inner : Service) : Service :=
  fold_left (fun svc l => apply_layer fresh_id l svc) layers inner.

End Service.

(** ** Running a handler *)

Section Router.
Context `{HO : HashOps} `{!JsonOps} `{!Sha256Ops} `{!UuidOps} `{!TimeText} `{!SerdeOps}
  `{!TowerOps}.

(** axum's JSON extractor (a request body, or the rejection it answers with),
    serde's texts of the responses, and the prometheus renderer. *)
Class WireOps := {
  decode_evaluate : HttpRequest → InternalEvaluateRequest + HttpResponse;
  decode_override : HttpRequest → OverrideRequest + HttpResponse;
  decode_manual_run : HttpRequest → ManualRunRequest + HttpResponse;
  decode_emergency_stop : HttpRequest → EmergencyStopRequest + HttpResponse;
  decode_breach_report : HttpRequest → BreachReportRequest + HttpResponse;
  decode_evaluate_order : HttpRequest → EvaluateOrderRequest + HttpResponse;
  decode_rule_pack : HttpRequest → CreateRulePackRequest + HttpResponse;
  encode_evaluate : InternalEvaluateResponse → string;
  encode_override : OverrideResponse → string;
  encode_manual_run : ManualRunResponse → string;
  encode_emergency_stop : EmergencyStopResponse → string;
  encode_breach_report : BreachReportResponse → string;
  encode_evaluate_order : EvaluateOrderResponse → string;
  encode_rule_pack : RulePackResponse → string;
  render_metrics : list Telemetry → string;
  openapi_json : string;
  SWAGGER_UI_HTML : string;
}.

(** The extractor's rejections are plain responses, and it rejects a body it
    cannot read to the end. *)
Class WireLaws (W : WireOps) : Prop := {
  evaluate_unnamed req resp : decode_evaluate req = inr resp → unnamed resp;
  evaluate_cut req : hq_body req = BdCut → ∃ resp, decode_evaluate req = inr resp;
  override_unnamed req resp : decode_override req = inr resp → unnamed resp;
  override_cut req : hq_body req = BdCut → ∃ resp, decode_override req = inr resp;
  manual_run_unnamed req resp : decode_manual_run req = inr resp → unnamed resp;
  manual_run_cut req : hq_body req = BdCut → ∃ resp, decode_manual_run req = inr resp;
  emergency_stop_unnamed req resp : decode_emergency_stop req = inr resp → unnamed resp;
  emergency_stop_cut req : hq_body req = BdCut → ∃ resp, decode_emergency_stop req = inr resp;
  breach_report_unnamed req resp : decode_breach_report req = inr resp → unnamed resp;
  breach_report_cut req : hq_body req = BdCut → ∃ resp, decode_breach_report req = inr resp;
  evaluate_order_unnamed req resp : decode_evaluate_order req = inr resp → unnamed resp;
  evaluate_order_cut req : hq_body req = BdCut → ∃ resp, decode_evaluate_order req = inr resp;
  rule_pack_unnamed req resp : decode_rule_pack req = inr resp → unnamed resp;
  rule_pack_cut req : hq_body req = BdCut → ∃ resp, decode_rule_pack req = inr resp;
}.

Context `{!WireOps}.

(** What one request draws from its surroundings. *)
Record SrvEnv := mkSrvEnv {
  sve_api : ApiEnv;
  sve_now_prune : Z;
  sve_now_insert : Z;
  sve_fallback : nat → Uuid;
  sve_request_id : string;
}.

Definition text_response (body : string) : HttpResponse := mkHttpResponse 200 no_headers body.

(** A handler's result: a value with its text, or a status with a message. *)
Definition answer {A} (encode : A → string) (m : api A) : Service := fun _ s =>
  let! (r, c) := m (srv_api s) in
  Ret (match r with
       | inl a => text_response (encode a)
       | inr (status, msg) => mkHttpResponse status no_headers msg
       end, mkSrvState c (srv_spans s)).

(** A handler behind the JSON extractor. *)
Definition extracted {R A} (decode : HttpRequest → R + HttpResponse) (encode : A → string)
    (handler : R → api A) : Service := fun req s =>
  match decode req with
  | inl r => answer encode (handler r) req s
  | inr rejection => Ret (rejection, s)
  end.

Definition metrics_handler : Service := fun _ s =>
  Ret (text_response (render_metrics (sv_log (srv_api s))), s).

Definition serve_endpoint (env : SrvEnv) (e : Endpoint) : Service := fun req =>
  let api_env := sve_api env in
  let headers := hq_headers req in
  match e with
  | EpHealth => fun s => Ret (text_response health, s)
  | EpReady => answer id ready req
  | EpEvaluate =>
      extracted decode_evaluate encode_evaluate
        (evaluate_internal api_env (sve_now_prune env) (sve_now_insert env) headers) req
  | EpOverride => extracted decode_override encode_override (override_breach api_env headers) req
  | EpManualRun => extracted decode_manual_run encode_manual_run (manual_run api_env headers) req
  | EpEmergencyStop =>
      extracted decode_emergency_stop encode_emergency_stop (emergency_stop api_env headers) req
  | EpBreachReport =>
      extracted decode_breach_report encode_breach_report
        (breach_report api_env (sve_fallback env) headers) req
  | EpEvaluateOrder =>
      extracted decode_evaluate_order encode_evaluate_order (evaluate_order api_env headers) req
  | EpValidateRulePack =>
      extracted decode_rule_pack encode_rule_pack (validate_rule_pack api_env) req
  | EpMetrics => metrics_handler req
  | EpOpenapiJson => fun s => Ret (text_response openapi_json, s)
  | EpSwaggerUi => fun s => Ret (text_response SWAGGER_UI_HTML, s)
  end.

(** The routes without the layers. *)
Definition routed (openapi : bool) (env : SrvEnv) : Service := fun req s =>
  match dispatch (router_routes openapi) req with
  | inl e => serve_endpoint env e req s
  | inr rejection => Ret (rejection, s)
  end.

Definition router_with_limits (openapi : bool) (body_limit_bytes request_timeout : Z)
    (env : SrvEnv) : Service :=
  layered (sve_request_id env) (router_layers body_limit_bytes request_timeout)
    (routed openapi env).

Definition router (openapi : bool) (env : SrvEnv) : Service :=
  router_with_limits openapi (2 * 1024 * 1024) (30 * 10 ^ 9) env.

End Router.
