(* ===== verification/Server.v ===== *)
(** * The server process (src/api/server.rs, shutdown.rs, otel.rs,
    src/api/middleware.rs, src/bin/server.rs)

    What the process does before it serves: the state and the limits of the
    router, TLS, tracing, the panic hook, and when it stops.  Files, PEM
    parsing, rustls and the exporters are parameters. *)

From S2P Require Import Prelude.
From S2P Require Import Decimal.
From S2P Require Import Chrono.
From S2P Require Import Pack.
#[local] Open Scope Z_scope.
From S2P Require Import Registry.
From S2P Require Import Pipeline.
From S2P Require Import EventStore.
From S2P Require Import Idempotency.
From S2P Require Import Metrics.
From S2P Require Import Api.
From S2P Require Import Settings.

(** [anyhow::Result]: a value or a message. *)
Definition anyhow (A : Type) : Type := A + string.

Definition anyhow_bind {A B} (m : anyhow A) (f : A → anyhow B) : anyhow B :=
  match m with inl a => f a | inr e => inr e end.

Definition context {A} (msg : string) (o : option A) : anyhow A :=
  match o with Some a => inl a | None => inr msg end.

Declare Scope anyhow_scope.
Notation "'let^' x ':=' m 'in' k" := (anyhow_bind m (fun x => k))
  (at level 10, x pattern, m at level 200, k at level 200,
   format "'[v' 'let^'  x  ':='  m  'in' '/' k ']'") : anyhow_scope.
#[local] Open Scope anyhow_scope.

(** ** The panic hook (src/api/middleware.rs)

    A hook is what one panic makes it print. *)

Inductive PanicLine : Type :=
| PlTraced
| PlStderr.

Definition PanicHook : Type := list PanicLine.

(** The hook a process starts with. *)
Definition default_panic_hook : PanicHook := [PlStderr].

(** The new hook traces the panic and calls the one it replaces. *)
Definition install_panic_hook (previous : PanicHook) : PanicHook := PlTraced :: previous.

(** ** TLS *)

Class TlsOps := {
  fs_read : string → option string;
  pem_certs : string → option (list string);
  pem_private_key : string → option (option string);
  root_store_add : list string → string → option (list string);
  client_verifier : list string → option string;
  server_config : string → list string → string → option string;
  config_from_pem : string → string → option string;
}.

(** A rustls configuration, with the verifier of client certificates it has. *)
Record RustlsConfig := mkRustlsConfig {
  rc_config : string;
  rc_client_verifier : option string;
}.

Section Tls.
Context `{TlsOps}.

Fixpoint add_roots (store : list string) (cas : list string) : option (list string) :=
  match cas with
  | [] => Some store
  | ca :: cas' => store' ← root_store_add store ca; add_roots store' cas'
  end.

Definition load_tls_config (tls : TlsSettings) : anyhow (option RustlsConfig) :=
  if negb (tls_enabled tls) then inl None
  else
    let^ cert := context "TLS cert read failed (path={}): {}" (fs_read (tls_cert_path tls)) in
    let^ key := context "TLS key read failed (path={}): {}" (fs_read (tls_key_path tls)) in
    match tls_client_ca_path tls with
    | Some client_ca_path =>
        let^ certs := context "{pem error}" (pem_certs cert) in
        let^ parsed := context "{pem error}" (pem_private_key key) in
        let^ private_key := context "no private key found in {}" parsed in
        let^ ca_pem := context "mTLS CA read failed (path={}): {}" (fs_read client_ca_path) in
        let^ cas := context "{pem error}" (pem_certs ca_pem) in
        let^ roots := context "{rustls error}" (add_roots [] cas) in
        let^ verifier := context "failed to build mTLS verifier: {e}" (client_verifier roots) in
        let^ config := context "failed to build rustls ServerConfig: {e}"
                         (server_config verifier certs private_key) in
        inl (Some (mkRustlsConfig config (Some verifier)))
    | None =>
        let^ config := context "{tls error}" (config_from_pem cert key) in
        inl (Some (mkRustlsConfig config None))
    end.

End Tls.

(** ** Shutdown (src/api/shutdown.rs)

    A listener completes when its signal arrives, if ever, and at once when it
    cannot be installed: the error is logged and the future ends. *)

Inductive Listener : Type :=
| Listening (arrives : option Z)
| ListenFailed.

Definition listener_completes (l : Listener) : option Z :=
  match l with Listening t => t | ListenFailed => Some 0 end.

(** [tokio::select!] on the two; without Unix the second never completes. *)
Definition await_signal (unix : bool) (ctrl_c sigterm : Listener) : option Z :=
  let sigterm := if unix then listener_completes sigterm else None in
  match listener_completes ctrl_c, sigterm with
  | Some a, Some b => Some (Z.min a b)
  | Some a, None => Some a
  | None, o => o
  end.

(** [drain] is only logged. *)
Definition axum_graceful_shutdown (unix : bool) (ctrl_c sigterm : Listener) (drain : Z) : option Z :=
  await_signal unix ctrl_c sigterm.

(** The instant at which the token is cancelled. *)
Definition shutdown_signal (unix : bool) (ctrl_c sigterm : Listener) (drain : Z) : option Z :=
  await_signal unix ctrl_c sigterm.

(** ** Tracing (src/api/otel.rs) *)

Inductive Exporter : Type :=
| ExStdout
| ExHttp (endpoint : string)
| ExGrpc (endpoint : string).

Inductive TraceLayers : Type :=
| TlOtlp (exporter : Exporter) (service_name : string)
| TlFlame (path : string)
| TlPlain.

Record TracingSetup := mkTracingSetup {
  ts_filter : string;
  ts_pretty : bool;
  ts_layers : TraceLayers;
}.

Class OtelOps := {
  filter_valid : string → bool;
  build_exporter : Exporter → bool;
  flame_file : string → bool;
}.

Section Otel.
Context `{OtelOps}.

(** [otel] and [flame] are the cargo features. The flame layer always prints
    the plain format. *)
Definition init_tracing (otel flame : bool) (s : ObservabilitySettings) : anyhow TracingSetup :=
  let filter := if filter_valid (obs_log_filter s) then obs_log_filter s else "info"%string in
  let is_pretty := bool_decide (obs_log_format s = "pretty"%string) in
  let otlp := obs_otlp s in
  let should_install := negb (bool_decide (otlp_endpoint otlp = ""%string)) || otlp_stdout otlp in
  if otel && should_install then
    let exporter :=
      if otlp_stdout otlp then ExStdout
      else if bool_decide (otlp_protocol otlp = "http"%string) then ExHttp (otlp_endpoint otlp)
      else ExGrpc (otlp_endpoint otlp) in
    if otlp_stdout otlp || build_exporter exporter then
      inl (mkTracingSetup filter is_pretty (TlOtlp exporter (otlp_service_name otlp)))
    else inr "failed to build OTLP exporter: {e}"%string
  else if flame && negb (bool_decide (obs_flame_output_path s = ""%string))
          && flame_file (obs_flame_output_path s) then
    inl (mkTracingSetup filter true (TlFlame (obs_flame_output_path s)))
  else inl (mkTracingSetup filter is_pretty TlPlain).

End Otel.

(** ** The server (src/api/server.rs, src/bin/server.rs) *)

Section Server.
Context `{DecimalOps} `{ChronoOps} `{!JsonOps} `{!TlsOps} `{!OtelOps}.

(** The backends of [ServerState::with_memory_and_handle]; the metrics handle
    is the log of the handlers, and the log notifier starts empty. *)
Record ServerState := mkServerState {
  sst_notifier : list string;
  sst_idempotency : IdempotencyStore;
  sst_event_store : InMemoryEventStore;
}.

Definition ServerState_with_memory : ServerState :=
  mkServerState [] IdempotencyStore_with_defaults InMemoryEventStore_new.

(** [ServerState::pipeline]: all default rules, whatever the plan. *)
Definition ServerState_pipeline (s : ServerState) : outcome Pipeline :=
  let! registry := RuleRegistry_with_default_rules in
  Ret (mkPipeline registry (fun _ => Ret tt)
         (fun id n => Ret (InMemoryEventStore_recent InMemoryEventStore_new id (Z.to_nat n)))).

Definition build_state (settings : Settings) : anyhow ServerState := inl ServerState_with_memory.

(** How the process serves: the address, and the TLS configuration or the
    graceful shutdown of the plain listener. *)
Inductive Serving : Type :=
| ServePlain (addr : string) (drain : Z)
| ServeTls (addr : string) (config : RustlsConfig).

Record Launch := mkLaunch {
  la_state : ServerState;
  la_body_limit : Z;
  la_request_timeout : Z;
  la_serving : Serving;
}.

(** Up to the point where it serves; [parse_addr] is [str::parse] to a socket
    address, which only the TLS branch asks for. The second component is the
    panic hook from then on. *)
Definition run_server (parse_addr : string → bool) (hook : PanicHook) (settings : Settings)
    : anyhow Launch * PanicHook :=
  let addr := ss_bind_addr (set_server settings) in
  let shutdown_timeout := Settings_shutdown_timeout settings in
  let hook := install_panic_hook hook in
  (let^ state := build_state settings in
   let^ tls_config := load_tls_config (ss_tls (set_server settings)) in
   let launch := mkLaunch state (ss_max_body_bytes (set_server settings))
                   (Settings_request_timeout settings) in
   match tls_config with
   | Some tls =>
       if parse_addr addr then inl (launch (ServeTls addr tls))
       else inr "invalid bind_addr '{addr}': {e}"%string
   | None => inl (launch (ServePlain addr shutdown_timeout))
   end, hook).

(** [main] of the server binary, with the settings already loaded. *)
Definition server_main (otel flame : bool) (parse_addr : string → bool) (settings : Settings)
    : anyhow (TracingSetup * Launch) * PanicHook :=
  match init_tracing otel flame (set_observability settings) with
  | inr e => (inr e, default_panic_hook)
  | inl setup =>
      let hook := if obs_panic_hook (set_observability settings)
                  then install_panic_hook default_panic_hook else default_panic_hook in
      let '(launch, hook) := run_server parse_addr hook settings in
      (let^ l := launch in inl (setup, l), hook)
  end.

End Server.
