(* ===== verification/Samples.v ===== *)
(** * Concrete data for the witnesses

    A concrete platform (rational decimals, nanosecond time, an empty JSON
    reader) and small accounts, plans and contexts on it.  Witnesses apply
    the theorems here. *)

From S2P Require Import Prelude.
From S2P Require Import Decimal.
From S2P Require Import Chrono.
From S2P Require Import Ids.
From S2P Require Import Domain.
From S2P Require Import Plan.
From S2P Require Import Account.
From S2P Require Import Violation.
From S2P Require Import Pack.
From S2P Require Import RuleApi.
From S2P Require Import Decision.
#[local] Open Scope Z_scope.

Module Samples.

#[export] Existing Instance QDecimal.
#[export] Existing Instance ZChrono.

#[export] Instance NoJson : JsonOps :=
  {| json_get_decimal _ _ := None; json_get_u64 _ _ := None |}.

(** An amount given as a rational. *)
Definition money (q : Q) : Money := q.

(** Noon of day 20,000 after the epoch. *)
Definition noon : Timestamp := 20000 * ns_day + 12 * ns_hour.

Definition plan : ChallengePlan := ChallengePlan_default 1 noon.

(** An account of the default plan that started at noon. *)
Definition fresh_account : Account := Account_new 7 9 plan.
Definition account : Account :=
  match Account_start fresh_account noon with Ret a => a | _ => fresh_account end.

Definition fresh : Fresh := mkFresh 5 noon.

(** A tick context with broker equity [e]. *)
Definition tick_ctx (a : Account) (e : Money) : RuleContext :=
  (RuleContext_new a noon) <| ctx_kind := OnTick |>
    <| ctx_rule_config := RuleConfig_from_plan (acc_plan a) |>
    <| ctx_equity_input := BrokerReported e (acc_balance a) |>.

Definition violation (id : Z) : Violation :=
  Violation_new id 9 7 (RuleId_named "max_drawdown") "Maximum Drawdown" VkMaxDrawdown
    SevHard "sample" noon.

Definition report (prio : Z) (v : RuleVerdict) : RuleReport :=
  RuleReport_with_priority
    (RuleReport_new_at (RuleId_named "max_drawdown") "Maximum Drawdown" v ScTick noon) prio.

End Samples.
