(* ===== verification/PipelineSamples.v ===== *)
(** * A concrete pipeline for the witnesses

    The default registry on the sample platform, a quiet notifier and an
    empty event store, with the wall clock at noon. *)


From S2P Require Import Prelude.
From S2P Require Import Decimal.
From S2P Require Import Chrono.
From S2P Require Import Ids.
From S2P Require Import Domain.
From S2P Require Import Plan.
From S2P Require Import Account.
From S2P Require Import Violation.
From S2P Require Import Pack.
From S2P Require Import RuleApi.
#[local] Open Scope Z_scope.
From S2P Require Import Registry.
From S2P Require Import Decision.
From S2P Require Import State.
From S2P Require Import Pipeline.
From S2P Require Import Samples.

Module PipelineSamples.
Import Samples.

Definition ret_or {A} (d : A) (m : outcome A) : A := match m with Ret a => a | _ => d end.

Definition registry : RuleRegistry := ret_or RuleRegistry_empty RuleRegistry_with_default_rules.

Definition pl : Pipeline :=
  mkPipeline registry (fun _ => Ret tt) (fun _ _ => Ret []).

(** The surroundings at time [t]. *)
Definition env_at (t : Timestamp) : Env :=
  mkEnv t t t t t t t t t t (fun _ => mkFresh 5 t) 77.

(** One event from [a] at time [t]; [a] itself if it does not succeed. *)
Definition run (a : Account) (ev : PipelineEvent) (t : Timestamp) : Account :=
  match process 40 pl (env_at t) a ev with Ret res => pr_account res | _ => a end.

Definition quote_at (t : Timestamp) : Tick :=
  mkTick "EURUSD" (mkQuote (money 1) (money 1) t) None None None.

(** A purchase of two units, and the sale of one of them. *)
Definition entry : Trade := Trade_new 1 2 7 "EURUSD" Buy Entry (money 1) (money 2) (money 0) noon.
Definition partial_exit : Trade :=
  (Trade_new 3 4 7 "EURUSD" Sell Exit (money 2) (money 1) (money 0) noon)
    <| tr_exit_info := Some (mkTradeExit 77 (money 1) (money 1) (money 1) (money 2)) |>.

(** The account holding the purchased position. *)
Definition invested : Account := run account (PeTradeFilled entry) noon.

End PipelineSamples.
