(* ===== verification/ApiSamples.v ===== *)
(** * Concrete platform functions for the witnesses of the API

    UUIDs written as 128 binary digits, and a digest that is the message
    itself. *)

From S2P Require Import Prelude.
From S2P Require Import Ids.
From S2P Require Import Hashing.
From Stdlib Require Import Ascii.
#[local] Open Scope Z_scope.

Module ApiSamples.

Definition digit_one : ascii := "1".
Definition digit_zero : ascii := "0".

(** The [n] low bits of [u], most significant first. *)
Fixpoint bits (n : nat) (u : Z) : string :=
  match n with
  | O => EmptyString
  | S n' => String (if Z.testbit u (Z.of_nat n') then digit_one else digit_zero) (bits n' u)
  end.

Fixpoint of_bits (acc : Z) (s : string) : option Z :=
  match s with
  | EmptyString => Some acc
  | String c s' =>
      if bool_decide (c = digit_one) then of_bits (2 * acc + 1) s'
      else if bool_decide (c = digit_zero) then of_bits (2 * acc) s' else None
  end.

#[export] Instance BitUuid : UuidOps := {|
  uuid_display := bits 128;
  uuid_parse s := if bool_decide (String.length s = 128%nat) then of_bits 0 s else None;
|}.

Lemma of_bits_bits n acc u :
  of_bits acc (bits n u) = Some (acc * 2 ^ Z.of_nat n + u mod 2 ^ Z.of_nat n).
Proof.
  revert acc. induction n as [|n IH]; intros acc; simpl bits.
  { simpl. rewrite Z.mod_1_r. f_equal. lia. }
  pose proof (Z.pow_pos_nonneg 2 (Z.of_nat n)) as Hp.
  assert (E : u mod 2 ^ Z.of_nat (S n)
    = u mod 2 ^ Z.of_nat n + (if Z.testbit u (Z.of_nat n) then 2 ^ Z.of_nat n else 0)).
  { rewrite Nat2Z.inj_succ, Z.pow_succ_r, Z.mul_comm, Z.rem_mul_r by lia.
    rewrite <- Z.bit0_mod, <- Z.shiftr_div_pow2, Z.shiftr_spec, Z.add_0_l by lia.
    destruct (Z.testbit u (Z.of_nat n)); simpl Z.b2z; lia. }
  rewrite E, Nat2Z.inj_succ, Z.pow_succ_r by lia.
  destruct (Z.testbit u (Z.of_nat n)); simpl; rewrite IH; f_equal; lia.
Qed.

Lemma bits_length n u : String.length (bits n u) = n.
Proof. induction n; simpl; congruence. Qed.

Lemma bits_no_nul n u : no_nul (bits n u).
Proof.
  unfold no_nul. induction n; simpl; [set_solver|].
  rewrite not_elem_of_cons. split; [by destruct (Z.testbit _ _)|done].
Qed.

Lemma of_bits_range s acc u :
  of_bits acc s = Some u → 0 ≤ acc →
  acc * 2 ^ Z.of_nat (String.length s) ≤ u < (acc + 1) * 2 ^ Z.of_nat (String.length s).
Proof.
  revert acc. induction s as [|c s IH]; intros acc E Hacc; cbn [of_bits String.length] in *.
  { injection E as <-. change (2 ^ Z.of_nat 0) with 1. lia. }
  rewrite Nat2Z.inj_succ, Z.pow_succ_r by lia.
  pose proof (Z.pow_pos_nonneg 2 (Z.of_nat (String.length s))).
  case_bool_decide; [|case_bool_decide; [|done]]; apply IH in E; lia.
Qed.

#[export] Instance BitUuid_laws : UuidLaws BitUuid.
Proof.
  split; [intros u|intros u|intros s u].
  - intros Hu. cbn [uuid_parse uuid_display BitUuid].
    rewrite bits_length, bool_decide_true by done. rewrite of_bits_bits.
    change (Z.of_nat 128) with 128. rewrite Z.mod_small by done. done.
  - apply bits_no_nul.
  - cbn [uuid_parse BitUuid]. case_bool_decide as Hl; [|done]. intros E.
    apply of_bits_range in E; [|done]. rewrite Hl in E. change (Z.of_nat 128) with 128 in E. lia.
Qed.

#[export] Instance PlainSha : Sha256Ops := fun bytes => bytes.

Definition endpoint : string := "POST /internal/v1/evaluate".

Lemma endpoint_no_nul : no_nul endpoint.
Proof. unfold no_nul, endpoint. simpl. rewrite !not_elem_of_cons. repeat split; try discriminate. set_solver. Qed.

End ApiSamples.
