(* ===== verification/PresetFacts.v ===== *)
(** * Theorems on the preset plans

    Every preset is built without a panic, and is a plan the theorems of the
    engine apply to. *)

From S2P Require Import Prelude.
From S2P Require Import Decimal.
From S2P Require Import Chrono.
From S2P Require Import Ids.
From S2P Require Import Domain.
From S2P Require Import Plan.
From S2P Require Import Account.
From S2P Require Import RuleApi.
#[local] Open Scope Z_scope.
From S2P Require Import DrawdownRules.
From S2P Require Import Presets.
From S2P Require Import Samples.

Section PresetFacts.
Context `{DL : DecimalLaws} `{ChronoOps}.

(** ** Comparison of literals *)

(** A literal small enough for the crate. *)
Definition lit_ok (m : Z) (s : nat) : bool := (Z.abs m <? 2 ^ 96) && (s <=? 28)%nat.

(** The order of two quotients, by cross multiplication. *)
Lemma scaled_cross m s n t :
  (scaled n t - scaled m s
   == inject_Z (n * ten_to s - m * ten_to t) / inject_Z (ten_to s * ten_to t))%Q.
Proof.
  unfold scaled, Z.sub. rewrite inject_Z_plus, inject_Z_opp, !inject_Z_mult. field.
  split; apply ten_to_nonzero.
Qed.

Lemma lit_gap m s n t :
  lit_ok m s && lit_ok n t = true →
  (dval (dec_new n t) - dval (dec_new m s)
   == inject_Z (n * ten_to s - m * ten_to t) / inject_Z (ten_to s * ten_to t))%Q.
Proof.
  intros [Hm Hn]%andb_true_iff.
  apply andb_true_iff in Hm as [Hm%Z.ltb_lt Hs%Nat.leb_le], Hn as [Hn%Z.ltb_lt Ht%Nat.leb_le].
  rewrite !dec_new_spec by done. apply scaled_cross.
Qed.

Lemma ten_to_prod_pos s t : (0 < inject_Z (ten_to s * ten_to t))%Q.
Proof. rewrite inject_Z_mult. apply Qmult_lt_0_compat; apply ten_to_Qpos. Qed.

Lemma lit_le m s n t :
  lit_ok m s && lit_ok n t && (m * ten_to t <=? n * ten_to s) = true →
  (dval (dec_new m s) <= dval (dec_new n t))%Q.
Proof.
  intros [Hok Hle%Z.leb_le]%andb_true_iff. apply Qle_minus_iff. fold (Qminus (dval (dec_new n t)) (dval (dec_new m s))).
  rewrite (lit_gap _ _ _ _ Hok).
  apply Qle_shift_div_l; [apply ten_to_prod_pos|]. rewrite Qmult_0_l. change 0%Q with (inject_Z 0). rewrite <- Zle_Qle. lia.
Qed.

Lemma lit_lt m s n t :
  lit_ok m s && lit_ok n t && (m * ten_to t <? n * ten_to s) = true →
  (dval (dec_new m s) < dval (dec_new n t))%Q.
Proof.
  intros [Hok Hlt%Z.ltb_lt]%andb_true_iff. apply Qlt_minus_iff. fold (Qminus (dval (dec_new n t)) (dval (dec_new m s))).
  rewrite (lit_gap _ _ _ _ Hok).
  apply Qlt_shift_div_l; [apply ten_to_prod_pos|]. rewrite Qmult_0_l. change 0%Q with (inject_Z 0). rewrite <- Zlt_Qlt. lia.
Qed.

Lemma validated_ok p : ChallengePlan_validate p = Ret tt → validated p = Ret p.
Proof. unfold validated. by intros ->. Qed.

(** ** The presets *)

Definition presets : list (ChallengeId → Timestamp → outcome ChallengePlan) :=
  [ftmo_phase1; ftmo_phase2; ftmo_funded; myforexfunds_phase1; thefundedtrader_phase1;
   surgetrader_plan; ftmo_1step; ftmo_instant_funding; fundednext_1step; topstep_futures;
   topstep_100k_combine; topstep_150k_combine; fundingpips_1step;
   fundingpips_2step_standard_phase1; fundingpips_2step_standard_phase2;
   fundingpips_2step_flex_phase1; fundingpips_2step_flex_phase2;
   fundingpips_2step_pro_phase1; fundingpips_2step_pro_phase2; fundingpips_zero;
   the5ers_1step; the5ers_2step_phase1; the5ers_2step_phase2; breakout_1step_classic;
   breakout_1step_pro; breakout_1step_turbo; breakout_2step_phase1; breakout_2step_phase2;
   hyrotrader_1step_standard; hyrotrader_1step_swing; hyrotrader_2step_standard_phase1;
   hyrotrader_2step_standard_phase2; hyrotrader_2step_swing_phase1;
   hyrotrader_2step_swing_phase2; bitfunded_2step_phase1; bitfunded_2step_phase2;
   bitfunded_1step; bitfunded_instant].

Definition sized_presets : list (ChallengeId → Timestamp → Money → outcome ChallengePlan) :=
  [apex_eod_trail; apex_intraday_trail].

(** A plan the theorems on the rules and on the calendar apply to. *)
Record plan_ready (p : ChallengePlan) : Prop := mkPlanReady {
  pr_valid : ChallengePlan_validate p = Ret tt;
  pr_daily_total :
    (dval (plan_max_daily_drawdown_pct p) <= dval (plan_max_total_drawdown_pct p))%Q;
  pr_total : (0 < dval (plan_max_total_drawdown_pct p))%Q;
  pr_daily_fits : Fits 6 6 (plan_max_daily_drawdown_pct p);
  pr_total_fits : Fits 6 6 (plan_max_total_drawdown_pct p);
  pr_target_fits : Fits 6 6 (plan_profit_target_pct p);
  pr_balance_fits : Fits 15 4 (plan_initial_balance_money p);
  pr_utc : plan_timezone p = None ∧ plan_day_reset_time p = 0;
  pr_leverage : 0 < plan_leverage p;
}.

(** A fraction between the literals zero and one. *)
Definition unit_lit (d : Decimal) : Prop :=
  (dval dec_zero <= dval d)%Q ∧ (dval d <= dval (dec_new 1 0))%Q.

Lemma unit_lit_inside d : unit_lit d → dec_outside_unit d = false.
Proof.
  intros [? ?]. unfold dec_outside_unit, dec_gtb. apply orb_false_iff.
  by split; apply dec_ltb_false.
Qed.

Lemma validate_intro p :
  (dval dec_zero < dval (plan_initial_balance_money p))%Q →
  (dval dec_zero <= dval (plan_profit_target_pct p))%Q →
  unit_lit (plan_max_daily_drawdown_pct p) → unit_lit (plan_max_total_drawdown_pct p) →
  default True (unit_lit <$> plan_consistency_pct p) → plan_trading_hours p = None →
  ChallengePlan_validate p = Ret tt.
Proof.
  intros Hb Ht Hd Hx Hc Hh. unfold ChallengePlan_validate.
  rewrite (proj2 (dec_leb_false _ _) Hb), (proj2 (dec_ltb_false _ _) Ht).
  rewrite (unit_lit_inside _ Hd), (unit_lit_inside _ Hx), Hh.
  destruct (plan_consistency_pct p); simpl in Hc; [by rewrite (unit_lit_inside _ Hc)|done].
Qed.

Lemma Fits_lit m s k t :
  (s ≤ t)%nat ∧ (k ≤ 28)%nat ∧ (t ≤ 28)%nat ∧ Z.abs (m * ten_to (t - s)) ≤ ten_to k →
  lit_ok m s = true → Fits k t (dec_new m s).
Proof.
  intros (Hst & Hk & Ht & Hm) [Ha%Z.ltb_lt Hs%Nat.leb_le]%andb_true_iff.
  exists (m * ten_to (t - s)). split; [done|]. rewrite dec_new_spec by done.
  rewrite (scaled_weaken m s (t - s)). by replace (s + (t - s))%nat with t by lia.
Qed.

Lemma validated_bind {A} p (k : ChallengePlan → outcome A) r :
  ChallengePlan_validate p = Ret tt → k p = Ret r → obind (validated p) k = Ret r.
Proof. intros Hv Hk. by rewrite (validated_ok _ Hv). Qed.

(** Decides a comparison, a bound or a field of a plan made of literals. *)
#[local] Ltac lit_goal :=
  lazymatch goal with
  | H : ?P |- ?P => exact H
  | |- (0 < _)%Q => rewrite <- dval_zero; apply lit_lt; reflexivity
  | |- (_ < _)%Q => apply lit_lt; reflexivity
  | |- (_ <= _)%Q => apply lit_le; reflexivity
  | |- unit_lit _ => split; apply lit_le; reflexivity
  | |- Fits _ _ _ => apply Fits_lit; [split_and!; [lia..|vm_compute; discriminate]|reflexivity]
  | |- True => exact I
  | |- _ ∧ _ => split; reflexivity
  | |- _ => reflexivity
  end.

#[local] Ltac preset_goal :=
  eexists; split;
  [ rewrite ?bind_assoc; repeat (apply validated_bind; [apply validate_intro; cbn; lit_goal|cbn beta]);
    apply validated_ok, validate_intro; cbn; lit_goal
  | split; [apply validate_intro; cbn; lit_goal|cbn; lit_goal..] ].

(** Every preset can be used.  Whatever identifier and time it is built
    with, it is built without a panic and is valid; its daily loss limit does
    not exceed its total limit, which is positive; its balance and percentages
    fit the bounds under which the rules compute exactly; and its days are UTC
    days reset at midnight. *)
Theorem presets_ready id now size
    (Hsize : (dval dec_zero < dval size)%Q) (Hfits : Fits 15 4 size) :
  Forall (fun preset => ∃ p, preset id now = Ret p ∧ plan_ready p)
    (presets ++ ((fun f i n => f i n size) <$> sized_presets)).
Proof.
  unfold presets, sized_presets. cbn [app fmap list_fmap].
  unfold
    apex_intraday_trail, apex_eod_trail, bitfunded_instant, bitfunded_1step,
    bitfunded_2step_phase2, bitfunded_2step_phase1, hyrotrader_2step_swing_phase2,
    hyrotrader_2step_swing_phase1, hyrotrader_2step_standard_phase2,
    hyrotrader_2step_standard_phase1, hyrotrader_1step_swing,
    hyrotrader_1step_standard, breakout_2step_phase2, breakout_2step_phase1,
    breakout_1step_turbo, breakout_1step_pro, breakout_1step_classic,
    the5ers_2step_phase2, the5ers_2step_phase1, the5ers_1step, fundingpips_zero,
    fundingpips_2step_pro_phase2, fundingpips_2step_pro_phase1,
    fundingpips_2step_flex_phase2, fundingpips_2step_flex_phase1,
    fundingpips_2step_standard_phase2, fundingpips_2step_standard_phase1,
    fundingpips_1step, topstep_150k_combine, topstep_100k_combine, topstep_futures,
    fundednext_1step, ftmo_instant_funding, ftmo_1step, surgetrader_plan,
    thefundedtrader_phase1, myforexfunds_phase1, ftmo_funded, ftmo_phase2, ftmo_phase1.
  repeat (apply Forall_cons; split; [preset_goal|]). apply Forall_nil_2.
Qed.

End PresetFacts.

(** ** Witness *)

Import Samples.

Lemma presets_ready_witness :
  ∃ p, ftmo_phase1 1 noon = Ret p ∧ ChallengePlan_validate p = Ret tt.
Proof.
  assert (Hpos : (dval dec_zero < dval (money 50000))%Q) by reflexivity.
  assert (Hfits : Fits 15 4 (money 50000)).
  { exists 500000000. split; [vm_compute; discriminate|reflexivity]. }
  pose proof (presets_ready 1 noon (money 50000) Hpos Hfits) as Hall.
  rewrite Forall_forall in Hall.
  destruct (Hall ftmo_phase1) as (p & Hp & Hready).
  { apply elem_of_app. left. unfold presets. left. }
  exists p. split; [exact Hp|]. exact (pr_valid p Hready).
Defined.
