(* ===== verification/RuleTotality.v ===== *)
(** * Every rule evaluation settles

    No evaluator loops: each returns a verdict, an error or a panic, which
    the registry turns into a report. *)


From S2P Require Import Prelude.
From S2P Require Import Decimal.
From S2P Require Import Chrono.
From S2P Require Import Ids.
From S2P Require Import Domain.
From S2P Require Import Plan.
From S2P Require Import Account.
From S2P Require Import Violation.
From S2P Require Import Pack.
From S2P Require Import RuleApi.
#[local] Open Scope Z_scope.
From S2P Require Import DrawdownRules.
From S2P Require Import TargetRules.
From S2P Require Import TimeRules.
From S2P Require Import LimitRules.
From S2P Require Import PatternRules.
From S2P Require Import Registry.

#[export] Hint Unfold dadd dsub dmul ddiv dsum dmean ts_plus_days margin_of lots_of
  tolerance_money effective_u32 Trade_net_pnl Account_net_profit Account_profit_target
  InstrumentSpec_units_to_lots InstrumentSpec_notional Violation_with_breach
  RuleParams_effective_money RuleParams_effective_pct RuleParams_effective_count
  DailyDrawdownRule_reference MaxDrawdownRule_effective_pct MaxDrawdownRule_floor
  TrailingDrawdownRule_effective_trail_money ProfitTargetRule_target
  MinTradingDaysRule_effective_days MinProfitableDaysRule_effective_days
  ConsistencyRule_effective_cap TimeLimitRule_plan_deadline TimeLimitRule_effective_deadline
  InactivityRule_effective_days CooldownRule_effective_seconds news_event_instant
  within_news_window MaxOpenPositionsRule_effective_max MaxDailyTradesRule_effective_max
  PerTradeMaxLossRule_effective_limit_money LowcapExposureRule_notional MaxTotalLotsRule_total
  MarginRule_free_margin CopyTradingRule_effective_fail_threshold copy_trading_hit
  GridTradingRule_effective_min_entries GridTradingRule_detect_grid
  GridTradingRule_detect_escalation : engine.

#[export] Hint Unfold DailyDrawdownRule_evaluate MaxDrawdownRule_evaluate
  TrailingDrawdownRule_evaluate ProfitTargetRule_evaluate MinTradingDaysRule_evaluate
  MinProfitableDaysRule_evaluate ConsistencyRule_evaluate NewsTradingRule_evaluate
  OvernightHoldingRule_evaluate WeekendHoldingRule_evaluate MaxPositionSizeRule_evaluate
  MaxOpenPositionsRule_evaluate MaxDailyTradesRule_evaluate TimeLimitRule_evaluate
  CooldownRule_evaluate HedgingRule_evaluate GridTradingRule_evaluate CopyTradingRule_evaluate
  StopLossRequiredRule_evaluate TakeProfitRequiredRule_evaluate HftScalpingRule_evaluate
  PerTradeMaxLossRule_evaluate InactivityRule_evaluate MaxTotalLotsRule_evaluate
  TradingHoursRule_evaluate MarginRule_evaluate CrossAccountHedgingRule_evaluate
  LowcapExposureRule_evaluate : engine.

Section RuleTotality.
Context `{DecimalOps} `{!JsonOps} `{ChronoOps}.

Lemma find_news_event_settles ts w events : settles (find_news_event ts w events).
Proof. induction events as [|e events IH]; simpl; settle. Qed.

Lemma price_gaps_settles prices : settles (price_gaps prices).
Proof.
  induction prices as [|a [|b rest] IH]; [by apply settles_Ret..|].
  change (settles (let! d := dsub b a in
                   let! gs := price_gaps (b :: rest) in Ret (dec_abs d :: gs))). settle.
Qed.

Lemma losing_run_settles exits : settles (losing_run exits).
Proof. induction exits as [|t rest IH]; simpl; settle. Qed.

Hint Resolve find_news_event_settles price_gaps_settles losing_run_settles : engine.

(** Every rule of the library, with or without pack parameters. *)
Lemma default_rules_settle rule fr ctx :
  rule ∈ default_rules → settles (rule_evaluate rule fr ctx).
Proof.
  unfold default_rules. intros Hin.
  repeat (apply elem_of_cons in Hin as [->|Hin]; [simpl; settle|]).
  by apply not_elem_of_nil in Hin.
Qed.

Lemma default_rules_enabled rule ctx :
  rule ∈ default_rules → ∃ b, rule_is_enabled rule ctx = Ret b.
Proof.
  unfold default_rules. intros Hin.
  repeat (apply elem_of_cons in Hin as [->|Hin]; [by eexists|]).
  by apply not_elem_of_nil in Hin.
Qed.

Lemma factory_settles kind factory e rule fr ctx :
  default_factory_for_kind kind = Some factory → factory e = Ret rule →
  settles (rule_evaluate rule fr ctx).
Proof.
  unfold default_factory_for_kind. intros E.
  repeat (case_bool_decide; [simplify_eq; intros; simplify_eq; simpl; settle|]). done.
Qed.

End RuleTotality.
