(* ===== verification/DecisionFacts.v ===== *)
(** * Theorems on decisions

    The choice of [Decision::from_reports] is the highest category present;
    its kind and priority do not depend on the order of the reports; it
    terminates the account exactly when some rule does. *)

From S2P Require Import Prelude.
From S2P Require Import Decimal.
From S2P Require Import Chrono.
From S2P Require Import Ids.
From S2P Require Import Domain.
From S2P Require Import Plan.
From S2P Require Import Account.
From S2P Require Import Violation.
From S2P Require Import Pack.
From S2P Require Import RuleApi.
From S2P Require Import Decision.
From S2P Require Import Samples.
#[local] Open Scope Z_scope.

(** The rank of a category: its position in the order of the early returns. *)
Definition kind_rank (k : DecisionKind) : Z :=
  match k with
  | DkEmergency => 8
  | DkLiquidate => 7
  | DkFail => 6
  | DkSoftFail => 5
  | DkGapFlagged => 4
  | DkTargetHit => 3
  | DkEarlyWarning => 2
  | DkWarn => 1
  | DkPass => 0
  end.

Section DecisionFacts.
Context `{DecimalOps} `{ChronoOps}.
Implicit Types reports : list RuleReport.

Definition report_kind (r : RuleReport) : DecisionKind := verdict_kind (rr_verdict r).

Lemma entries_of_nil k reports :
  k ≠ DkPass → entries_of k reports = [] → ∀ r, r ∈ reports → report_kind r ≠ k.
Proof.
  intros Hk He r Hr E. unfold report_kind in E.
  destruct (RuleVerdict_violation (rr_verdict r)) as [v|] eqn:Ev.
  - assert ((rr_priority r, v) ∈ entries_of k reports) as Hin
      by (apply entries_of_elem; eauto).
    rewrite He in Hin. by apply not_elem_of_nil in Hin.
  - destruct (rr_verdict r); simplify_eq/=; done.
Qed.

(** The first category of [ks] with an entry wins, and the ones before it
    have none. *)
Lemma first_category_Some ks reports k p v :
  DkPass ∉ ks →
  first_category ks reports = Some (k, (p, v)) →
  ∃ before after, ks = before ++ k :: after
    ∧ (∀ r, r ∈ reports → report_kind r ∉ before)
    ∧ pick_winner (entries_of k reports) = Some (p, v).
Proof.
  induction ks as [|k' ks IH]; simpl; [done|]. intros Hp.
  destruct (pick_winner (entries_of k' reports)) as [[p' v']|] eqn:E; intros; simplify_eq/=.
  - exists [], ks. split_and!; [done| |done]. set_solver.
  - destruct IH as (before & after & -> & Hb & Hw); [set_solver|done|].
    exists (k' :: before), after. split_and!; [done| |done].
    intros r Hr. apply not_elem_of_cons. split; [|by apply Hb].
    eapply entries_of_nil; [set_solver| |done]. by apply pick_winner_None.
Qed.

Lemma first_category_None ks reports :
  DkPass ∉ ks → first_category ks reports = None → ∀ r, r ∈ reports → report_kind r ∉ ks.
Proof.
  induction ks as [|k' ks IH]; simpl; [set_solver|]. intros Hp.
  destruct (pick_winner (entries_of k' reports)) as [w|] eqn:E; [done|].
  intros Hf r Hr. apply not_elem_of_cons. split; [|apply IH; set_solver].
  eapply entries_of_nil; [set_solver| |done]. by apply pick_winner_None.
Qed.

Lemma kind_order_complete k : k = DkPass ∨ k ∈ kind_order.
Proof. destruct k; unfold kind_order; set_solver. Qed.

Lemma kind_order_sorted before k after :
  kind_order = before ++ k :: after →
  ∀ k', k' ∉ before → kind_rank k' ≤ kind_rank k.
Proof.
  intros E k' Hk'. unfold kind_order in E.
  repeat (destruct before as [|? before]; simplify_eq/=;
          [destruct k'; simpl; try lia; exfalso; apply Hk'; set_solver|]).
  by destruct before.
Qed.

(** What the order of the early returns amounts to. *)
Lemma from_reports_choice reports :
  let d := Decision_from_reports reports in
  (∀ r, r ∈ reports → kind_rank (report_kind r) ≤ kind_rank (dec_kind d)) ∧
  (dec_kind d ≠ DkPass →
   (∃ r, r ∈ reports ∧ report_kind r = dec_kind d ∧ rr_priority r = dec_winning_priority d) ∧
   (∀ r, r ∈ reports → report_kind r = dec_kind d → rr_priority r ≤ dec_winning_priority d)) ∧
  (dec_kind d = DkPass → dec_winning_priority d = 0).
Proof.
  intros d. subst d. destruct (from_reports_spec reports) as [Hall Hspec].
  assert (Hnp : DkPass ∉ kind_order) by (unfold kind_order; set_solver).
  destruct (first_category kind_order reports) as [[k [p v]]|] eqn:E.
  - destruct Hspec as [-> ->].
    apply first_category_Some in E as (before & after & Eo & Hb & Hw); [|done].
    apply pick_winner_spec in Hw as [Hin Hmax].
    split_and!; [intros r Hr; eapply kind_order_sorted; eauto| |].
    2:{ intros ->. destruct Hnp. rewrite Eo. apply elem_of_app. right. left. }
    intros _. split.
    + apply entries_of_elem in Hin as (r & ? & ? & ? & ?). eauto.
    + intros r Hr Hk. destruct (RuleVerdict_violation (rr_verdict r)) as [v'|] eqn:Ev.
      * apply (Hmax (rr_priority r, v')). apply entries_of_elem. eauto.
      * destruct Hnp. rewrite Eo. unfold report_kind in Hk.
        destruct (rr_verdict r); simplify_eq/=; apply elem_of_app; right; left.
  - destruct Hspec as [-> ->].
    pose proof (first_category_None _ _ Hnp E) as Hno.
    split_and!; [|done|done]. intros r Hr.
    destruct (kind_order_complete (report_kind r)) as [->|Hk]; [done|].
    by destruct (Hno r Hr).
Qed.

(** C1: the decision is the highest category that any rule reported, in the
    order the code tests the categories: warning, early warning, target hit,
    gap, soft failure, failure, liquidation, emergency.  No report ranks above
    it; unless everything passed, some report has exactly that category, and
    the winning priority is the greatest priority among the reports of that
    category and is attained by one of them.  All violations are carried along,
    in report order.  The rules' priorities decide within a category only, and
    the order is not the one docs/architecture.md prints (a gap outranks a
    target hit, an early warning a warning): the comments and the document say
    otherwise, which the findings record. *)
Theorem decision_highest_category reports :
  let d := Decision_from_reports reports in
  (∀ r, r ∈ reports → kind_rank (report_kind r) ≤ kind_rank (dec_kind d)) ∧
  (dec_kind d ≠ DkPass →
   (∃ r, r ∈ reports ∧ report_kind r = dec_kind d ∧ rr_priority r = dec_winning_priority d) ∧
   (∀ r, r ∈ reports → report_kind r = dec_kind d → rr_priority r ≤ dec_winning_priority d)) ∧
  dec_all_violations d = omap (fun r => RuleVerdict_violation (rr_verdict r)) reports.
Proof.
  intros d. destruct (from_reports_choice reports) as (? & ? & _).
  destruct (from_reports_spec reports) as [? _]. done.
Qed.

Lemma kind_rank_inj k k' : kind_rank k = kind_rank k' → k = k'.
Proof. by destruct k, k'. Qed.

Lemma dec_kind_attained reports :
  dec_kind (Decision_from_reports reports) ≠ DkPass →
  ∃ r, r ∈ reports ∧ report_kind r = dec_kind (Decision_from_reports reports)
     ∧ rr_priority r = dec_winning_priority (Decision_from_reports reports).
Proof. intros. by apply from_reports_choice. Qed.

Lemma kind_mono reports reports' :
  (∀ r, r ∈ reports → r ∈ reports') →
  kind_rank (dec_kind (Decision_from_reports reports))
  ≤ kind_rank (dec_kind (Decision_from_reports reports')).
Proof.
  intros Hsub. destruct (decide (dec_kind (Decision_from_reports reports) = DkPass)) as [->|Hk].
  - destruct (dec_kind _); simpl; lia.
  - destruct (dec_kind_attained _ Hk) as (r & Hr & <- & _).
    by apply from_reports_choice, Hsub.
Qed.

Lemma priority_mono reports reports' :
  (∀ r, r ∈ reports → r ∈ reports') →
  dec_kind (Decision_from_reports reports) = dec_kind (Decision_from_reports reports') →
  dec_kind (Decision_from_reports reports) ≠ DkPass →
  dec_winning_priority (Decision_from_reports reports)
  ≤ dec_winning_priority (Decision_from_reports reports').
Proof.
  intros Hsub E Hk. destruct (dec_kind_attained _ Hk) as (r & Hr & Hrk & <-).
  eapply from_reports_choice; [congruence|by apply Hsub|congruence].
Qed.

(** Registration order does not matter: lists of reports with the same
    elements give the same kind of decision and the same winning priority. *)
Theorem decision_order_independent reports reports'
    (Hperm : ∀ r, r ∈ reports ↔ r ∈ reports') :
  dec_kind (Decision_from_reports reports) = dec_kind (Decision_from_reports reports') ∧
  dec_winning_priority (Decision_from_reports reports)
  = dec_winning_priority (Decision_from_reports reports').
Proof.
  assert (Hl : ∀ r, r ∈ reports → r ∈ reports') by (intros r; by apply Hperm).
  assert (Hr : ∀ r, r ∈ reports' → r ∈ reports) by (intros r; by apply Hperm).
  assert (Hk : dec_kind (Decision_from_reports reports)
               = dec_kind (Decision_from_reports reports')).
  { apply kind_rank_inj, Z.le_antisymm; by apply kind_mono. }
  split; [done|].
  destruct (decide (dec_kind (Decision_from_reports reports) = DkPass)) as [Hp|Hp].
  - destruct (from_reports_choice reports) as (_ & _ & ->); [|done].
    destruct (from_reports_choice reports') as (_ & _ & ->); congruence.
  - apply Z.le_antisymm; apply priority_mono; congruence || done.
Qed.

Lemma from_reports_terminating reports :
  let d := Decision_from_reports reports in
  Decision_is_terminating d
  = existsb (fun r => RuleVerdict_is_terminating (rr_verdict r)) reports ∧
  Decision_account_status_target d
  = (if existsb (fun r => RuleVerdict_is_emergency (rr_verdict r)) reports
     then Some StEmergencyStopped
     else if existsb (fun r => RuleVerdict_is_terminating (rr_verdict r)) reports
     then Some StFailed else None).
Proof.
  intros d. destruct (from_reports_choice reports) as (Hmax & Hatt & _).
  fold d in Hmax, Hatt.
  assert (Hex : ∀ p : RuleVerdict → bool, ∀ n,
    (∀ v, p v = true ↔ n ≤ kind_rank (verdict_kind v)) → 0 < n →
    existsb (fun r => p (rr_verdict r)) reports = (n <=? kind_rank (dec_kind d))).
  { intros p n Hp Hn. apply eq_true_iff_eq. rewrite existsb_exists, Z.leb_le. split.
    - intros (r & Hr%list_elem_of_In & Hv%Hp). specialize (Hmax r Hr).
      unfold report_kind in Hmax. lia.
    - intros Hle. destruct Hatt as [(r & Hr & Hk & _) _].
      { intros E. rewrite E in Hle. simpl in Hle. lia. }
      exists r. split; [by apply list_elem_of_In|]. apply Hp. unfold report_kind in Hk.
      by rewrite Hk. }
  rewrite (Hex RuleVerdict_is_terminating 6), (Hex RuleVerdict_is_emergency 8);
    [|by intros []; simpl; lia|lia|by intros []; simpl; lia|lia].
  unfold Decision_is_terminating, Decision_account_status_target.
  by destruct (dec_kind d).
Qed.

(** C2: the decision terminates the account exactly when some rule's verdict
    does, and exactly then it names a target status: emergency-stopped when
    some verdict is an emergency, failed otherwise. *)
Theorem decision_terminates_iff reports :
  let d := Decision_from_reports reports in
  Decision_is_terminating d
  = existsb (fun r => RuleVerdict_is_terminating (rr_verdict r)) reports ∧
  Decision_account_status_target d
  = (if existsb (fun r => RuleVerdict_is_emergency (rr_verdict r)) reports
     then Some StEmergencyStopped
     else if existsb (fun r => RuleVerdict_is_terminating (rr_verdict r)) reports
     then Some StFailed else None).
Proof. apply from_reports_terminating. Qed.

(** Within a category ties go to the report seen last: of two hard
    violations with equal priority the second is the reason given. *)
Theorem decision_tie_last_wins r1 r2 v1 v2
    (H1 : rr_verdict r1 = VFail v1) (H2 : rr_verdict r2 = VFail v2)
    (Hp : rr_priority r1 = rr_priority r2) :
  dec_reason (Decision_from_reports [r1; r2]) = HardViolation v2.
Proof.
  unfold Decision_from_reports. rewrite buckets_spec. unfold entries_of. simpl.
  rewrite H1, H2. simpl. unfold max_by_step. simpl. rewrite Hp, Z.ltb_irrefl. done.
Qed.

End DecisionFacts.

(** ** Witnesses *)

Import Samples.

Lemma decision_order_independent_witness :
  dec_winning_priority
    (Decision_from_reports [report 3 (VWarn (violation 1)); report 5 (VFail (violation 2))])
  = dec_winning_priority
      (Decision_from_reports [report 5 (VFail (violation 2)); report 3 (VWarn (violation 1))]).
Proof.
  apply decision_order_independent. intros r. rewrite !elem_of_cons. naive_solver.
Defined.

Lemma decision_tie_last_wins_witness :
  dec_reason (Decision_from_reports [report 9 (VFail (violation 1)); report 9 (VFail (violation 2))])
  = HardViolation (violation 2).
Proof.
  exact (decision_tie_last_wins (report 9 (VFail (violation 1))) (report 9 (VFail (violation 2)))
           (violation 1) (violation 2) eq_refl eq_refl eq_refl).
Defined.
