(* ===== verification/DrawdownFacts.v ===== *)
(** * Theorems on the drawdown rules

    The verdicts of the daily, maximum and trailing drawdown rules over the
    rationals, for amounts of up to fifteen digits with four decimals and
    percentages with six decimals: such inputs never overflow or round, so
    the decimal code computes the textbook floors and limits. *)


From S2P Require Import Prelude.
From S2P Require Import Decimal.
From S2P Require Import Chrono.
From S2P Require Import Ids.
From S2P Require Import Domain.
From S2P Require Import Plan.
From S2P Require Import Account.
From S2P Require Import Violation.
From S2P Require Import Pack.
From S2P Require Import RuleApi.
#[local] Open Scope Z_scope.
From S2P Require Import DrawdownRules.
From S2P Require Import Samples.

Section DrawdownFacts.
Context `{DL : DecimalLaws} `{ChronoOps}.

(** Sizes of the inputs. *)
Abbreviation MoneyFits := (Fits 15 4).
Abbreviation PctFits := (Fits 6 6).

Record AmountsFit (a : Account) : Prop := mkAmountsFit {
  af_initial : MoneyFits (acc_initial_balance a);
  af_balance : MoneyFits (acc_balance a);
  af_equity : MoneyFits (acc_equity a);
  af_peak_balance : MoneyFits (acc_peak_balance a);
  af_peak_equity : MoneyFits (acc_peak_equity a);
  af_intraday : MoneyFits (acc_intraday_peak_equity a);
  af_day_start_balance : MoneyFits (acc_day_start_balance a);
  af_day_start_equity : MoneyFits (acc_day_start_equity a);
}.

(** ** Shared steps *)

Lemma with_breach_total k s l t v b thr :
  Fits k s b → Fits l t thr → (k + t ≤ 27 + s)%nat →
  ∃ v', Violation_with_breach v b thr = Ret v' ∧ vio_severity v' = vio_severity v.
Proof.
  intros Hb Ht Hk. unfold Violation_with_breach.
  destruct (dec_is_zero thr) eqn:E; simpl; [by eexists|].
  dec_bool. destruct (ddiv_fits 27 k s l t b thr) as (c & -> & _); [done..|]. by eexists.
Qed.

Lemma tolerance_spec cents :
  0 ≤ cents < u32_modulus →
  ∃ t, tolerance_money cents = Ret t ∧ (dval t == inject_Z cents / 100)%Q ∧ Fits 10 2 t.
Proof.
  intros Hc. unfold u32_modulus in Hc. unfold tolerance_money.
  destruct (cents =? 0) eqn:E.
  - apply Z.eqb_eq in E. subst. exists dec_zero. split_and!; [done| |by apply Fits_zero; lia].
    by rewrite dval_zero.
  - assert (Hv : (dval (dec_new cents 0) / dval (dec_new 100 0) == scaled cents 2)%Q).
    { rewrite !dval_new_int by lia. reflexivity. }
    destruct (dec_div_exact (dec_new cents 0) (dec_new 100 0)) as (t & Ht & Et).
    + rewrite dval_new_int by lia. discriminate.
    + symmetry in Hv. eapply representable_proper; [exact Hv|].
      apply (scaled_representable _ 10); [|lia..]. change (ten_to 10) with 10000000000. lia.
    + exists t. unfold ddiv. rewrite Ht. split_and!; [done| |].
      * rewrite Et, Hv. reflexivity.
      * exists cents. split; [change (ten_to 10) with 10000000000; lia|]. by rewrite Et.
Qed.

Lemma dec_new_100_fits : Fits 3 0 (dec_new 100 0).
Proof. apply Fits_new; [by vm_compute|lia..]. Qed.

Lemma pct_message pct : PctFits pct → ∃ r, dmul pct (dec_new 100 0) = Ret r.
Proof.
  intros Hp. destruct (dmul_fits _ _ _ _ _ _ Hp dec_new_100_fits) as (r & ? & _); [lia|eauto].
Qed.

Lemma eight_tenths_fits : Fits 4 4 (dec_new 8 1).
Proof. eapply (Fits_align 1 1); [apply Fits_new; [by vm_compute|lia..]|lia..]. Qed.

(** A drawdown [max (reference - current) 0]. *)
Lemma drawdown_spec r c :
  MoneyFits r → MoneyFits c →
  ∃ d, dsub r c = Ret d ∧ Fits 16 4 (dec_max d (dec_new 0 0))
     ∧ (dval (dec_max d (dec_new 0 0)) == Qmax (dval r - dval c) 0)%Q.
Proof.
  intros Hr Hc. destruct (dsub_fits 15 4 _ _ _ _ _ _ Hr Hc) as (d & Hd & Ed & Fd); [lia|].
  exists d. split_and!; [done| |].
  - apply Fits_max; [done|]. by apply Fits_zero; lia.
  - rewrite dval_max, Ed, dval_zero. reflexivity.
Qed.

(** ** Maximum drawdown *)

(** The reference amount of a basis and, over [Q], the equity floor. *)
Definition basis_reference (a : Account) (basis : LossReference) : Money :=
  match basis with
  | Static => acc_initial_balance a
  | Trailing => acc_peak_balance a
  | EodTrailing => acc_day_start_balance a
  | IntradayTrail =>
      if plan_drawdown_on_balance (acc_plan a) then acc_peak_balance a else acc_peak_equity a
  end.

Definition max_floor (a : Account) (basis : LossReference) (pct : Q) : Q :=
  let r := dval (basis_reference a basis) in
  match basis with
  | EodTrailing =>
      let unlocked := r - pct * dval (acc_initial_balance a) in
      if plan_eod_trail_locks_at_start (acc_plan a)
      then Qmin unlocked (dval (acc_initial_balance a)) else unlocked
  | _ => r - pct * r
  end%Q.

Lemma basis_reference_fits a basis : AmountsFit a → MoneyFits (basis_reference a basis).
Proof. intros []. destruct basis; simpl; try case_match; done. Qed.

(** [m - pct * n] as every floor computes it. *)
Lemma floor_step pct m n :
  PctFits pct → MoneyFits m → MoneyFits n →
  ∃ b f, dmul pct n = Ret b ∧ dsub m b = Ret f
    ∧ (dval f == dval m - dval pct * dval n)%Q ∧ Fits 22 10 f.
Proof.
  intros Hp Hm Hn. destruct (dmul_fits _ _ _ _ _ _ Hp Hn) as (b & Hb & Eb & Fb); [lia|].
  destruct (dsub_fits 21 10 _ _ _ _ _ _ Hm Fb) as (f & Hf & Ef & Ff); [simpl; lia|].
  exists b, f. split_and!; [done..| |done]. by rewrite Ef, Eb.
Qed.

Lemma max_floor_spec a basis pct :
  AmountsFit a → PctFits pct →
  ∃ f, MaxDrawdownRule_floor a basis pct = Ret (f, basis_reference a basis)
    ∧ (dval f == max_floor a basis (dval pct))%Q ∧ Fits 22 10 f.
Proof.
  intros Ha Hp. pose proof (basis_reference_fits a basis Ha) as Hr.
  pose proof (af_initial _ Ha) as Hi. unfold max_floor.
  destruct basis; cbn [MaxDrawdownRule_floor];
    [destruct (floor_step pct _ _ Hp Hr Hr) as (b & f & Hb & Hf & Ef & Ff)
    |destruct (floor_step pct _ _ Hp Hr Hr) as (b & f & Hb & Hf & Ef & Ff)
    |destruct (floor_step pct _ _ Hp Hr Hi) as (b & f & Hb & Hf & Ef & Ff)
    |destruct (floor_step pct _ _ Hp Hr Hr) as (b & f & Hb & Hf & Ef & Ff)];
    simpl in *; rewrite Hb; simpl; rewrite Hf; simpl; try by eexists.
  destruct (plan_eod_trail_locks_at_start (acc_plan a)); [|by eexists].
  eexists. split_and!; [done| |].
  - rewrite dval_min. by rewrite Ef.
  - apply Fits_min; [done|]. eapply Fits_align; [done|lia..].
Qed.

(** The utilisation of the warning text: its divisor is at least one. *)
Lemma ratio_message d lim :
  Fits 16 4 d → Fits 23 10 lim →
  ∃ r p, ddiv d (dec_max lim (dec_new 1 0)) = Ret r ∧ dmul r (dec_new 100 0) = Ret p.
Proof.
  intros Hd Hl. assert (H1 : Fits 23 10 (dec_new 1 0)).
  { eapply (Fits_align 1 0); [apply Fits_new; [by vm_compute|lia..]|lia..]. }
  destruct (ddiv_fits 22 16 4 23 10 d (dec_max lim (dec_new 1 0))) as (r & Hr & Hb);
    [done|by apply Fits_max| |lia|lia|].
  - intros E. pose proof (dec_max_lub_r lim (dec_new 1 0)) as Hle.
    change (dec_new 1 0) with dec_one in *. rewrite E, dval_one in Hle. by apply Hle.
  - destruct (dmul_100_total _ _ Hb) as [p ?]; [lia|]. eauto.
Qed.

Lemma max_drawdown_cases params fr ctx equity bal pct cents warn
    (Hpct : MaxDrawdownRule_effective_pct params ctx = Ret pct)
    (Hpos : (0 < dval pct)%Q) (Hfit : PctFits pct)
    (Hamt : AmountsFit (ctx_account ctx)) (Heq : MoneyFits equity)
    (Hstart : RuleContext_require_started ctx = true)
    (Hbroker : ctx_equity_input ctx = BrokerReported equity bal)
    (Hcents : MaxDrawdownRule_tolerance_cents params = cents) (Hcr : 0 ≤ cents < u32_modulus)
    (Hwarn : params_or params prm_early_warning_pct (dec_new 8 1) = warn)
    (Hwf : Fits 4 4 warn) :
  let a := ctx_account ctx in
  let basis := MaxDrawdownRule_effective_basis params ctx in
  let current :=
    dval (if plan_drawdown_on_balance (acc_plan a) then acc_balance a else equity) in
  let floor := max_floor a basis (dval pct) in
  let limit := Qmax (dval (basis_reference a basis) - floor) 0 in
  let tol := (inject_Z cents / 100)%Q in
  ∃ v, MaxDrawdownRule_evaluate params fr ctx = Ret v
    ∧ ((current < floor - tol)%Q → ∃ x, v = VLiquidate x ∧ vio_severity x = SevLiquidate)
    ∧ ((floor - tol <= current)%Q → (current <= floor + limit * dval warn)%Q →
       ∃ x, v = VEarlyWarning x ∧ vio_severity x = SevWarning)
    ∧ ((floor - tol <= current)%Q → (floor + limit * dval warn < current)%Q → v = VPass).
Proof.
  intros a basis current floor limit tol. subst cents warn.
  unfold MaxDrawdownRule_evaluate, RuleContext_require_broker_equity.
  rewrite Hpct, Hstart, Hbroker. fold a basis. simpl.
  assert (dec_leb pct (dec_new 0 0) = false) as ->.
  { apply dec_leb_false. change (dec_new 0 0) with dec_zero. by rewrite dval_zero. }
  destruct (max_floor_spec a basis pct) as (f & -> & Ef & Ff); [done..|]. simpl.
  set (cur := if plan_drawdown_on_balance (acc_plan a) then acc_balance a else equity) in *.
  assert (Hcur : MoneyFits cur) by (subst cur; case_match; [apply Hamt|done]).
  pose proof (basis_reference_fits a basis Hamt) as Hr.
  destruct (drawdown_spec _ _ Hr Hcur) as (d & -> & Fd & _). simpl.
  destruct (dsub_fits 22 10 _ _ _ _ _ _ Hr Ff) as (l & -> & El & Fl); [lia|]. simpl.
  set (lim := dec_max l (dec_new 0 0)) in *.
  assert (Flim : Fits 23 10 lim) by (apply Fits_max; [done|by apply Fits_zero; lia]).
  assert (Elim : (dval lim == limit)%Q).
  { subst lim limit. rewrite dval_max, El, Ef. fold floor.
    change (dec_new 0 0) with dec_zero. by rewrite dval_zero. }
  destruct (tolerance_spec (MaxDrawdownRule_tolerance_cents params)) as (t & -> & Et & Ft); [done|].
  simpl. destruct (dsub_fits 22 10 _ _ _ _ _ _ Ff Ft) as (b & -> & Eb & _); [lia|]. simpl.
  destruct (dec_ltb cur b) eqn:Elt; dec_bool; rewrite Eb, Ef, Et in Elt.
  - destruct (pct_message _ Hfit) as (r & ->). simpl.
    edestruct (with_breach_total 16 4 23 10) as (x & -> & Hx); [done..|lia|]. simpl.
    eexists. split; [done|]. split_and!; [by eauto|..]; intros Hge; exfalso;
      by apply (Qlt_not_le _ _ Elt).
  - destruct (dmul_fits _ _ _ _ _ _ Flim Hwf) as (w & -> & Ew & Fw); [lia|]. simpl.
    destruct (dadd_fits 27 14 _ _ _ _ _ _ Ff Fw) as (wn & -> & Ewn & _); [simpl; lia|]. simpl.
    destruct (dec_leb cur wn) eqn:Ele; dec_bool; rewrite Ewn, Ew, Ef, Elim in Ele.
    + destruct (ratio_message _ _ Fd Flim) as (r & p & -> & Hp). simpl. rewrite Hp. simpl.
      edestruct (with_breach_total 16 4 23 10) as (x & -> & Hx); [done..|lia|]. simpl.
      eexists. split; [done|]. split_and!; intros; [exfalso|by eauto|exfalso].
      * by apply (Qlt_not_le (dval cur) (floor - tol)).
      * by apply (Qlt_not_le (floor + limit * dval (params_or params prm_early_warning_pct (dec_new 8 1))) (dval cur)).
    + eexists. split; [done|]. split_and!; [|intros _ Hle|done]; intros; exfalso.
      * by apply (Qlt_not_le (dval cur) (floor - tol)).
      * by apply (Qlt_not_le _ _ Ele).
Qed.

(** C8: the maximum-drawdown rule on a started account with broker-reported
    equity, for a positive percentage (with none the rule passes).  With
    [current] the balance or the equity as the plan says and [floor] the floor
    of the basis, the rule liquidates exactly below [floor - tolerance], warns
    from there up to [floor + warn * limit], and passes above.  It returns, with
    no overflow and no division by zero, when the account's amounts and the
    reported equity are at most 10^11 with at most four decimals, the
    percentage at most 1 with at most six, the tolerance a u32 of cents and the
    warning fraction at most 1 with at most four decimals. *)
Theorem max_drawdown_verdict params fr ctx equity bal pct cents warn
    (Hpct : MaxDrawdownRule_effective_pct params ctx = Ret pct)
    (Hpos : (0 < dval pct)%Q) (Hfit : PctFits pct)
    (Hamt : AmountsFit (ctx_account ctx)) (Heq : MoneyFits equity)
    (Hstart : RuleContext_require_started ctx = true)
    (Hbroker : ctx_equity_input ctx = BrokerReported equity bal)
    (Hcents : MaxDrawdownRule_tolerance_cents params = cents) (Hcr : 0 ≤ cents < u32_modulus)
    (Hwarn : params_or params prm_early_warning_pct (dec_new 8 1) = warn)
    (Hwf : Fits 4 4 warn) :
  let a := ctx_account ctx in
  let basis := MaxDrawdownRule_effective_basis params ctx in
  let current :=
    dval (if plan_drawdown_on_balance (acc_plan a) then acc_balance a else equity) in
  let floor := max_floor a basis (dval pct) in
  let limit := Qmax (dval (basis_reference a basis) - floor) 0 in
  let tol := (inject_Z cents / 100)%Q in
  ∃ v, MaxDrawdownRule_evaluate params fr ctx = Ret v
    ∧ ((current < floor - tol)%Q → ∃ x, v = VLiquidate x ∧ vio_severity x = SevLiquidate)
    ∧ ((floor - tol <= current)%Q → (current <= floor + limit * dval warn)%Q →
       ∃ x, v = VEarlyWarning x ∧ vio_severity x = SevWarning)
    ∧ ((floor - tol <= current)%Q → (floor + limit * dval warn < current)%Q → v = VPass).
Proof. by eapply max_drawdown_cases. Qed.

(** ** Daily drawdown *)

(** The amount the limit is a percentage of, and the amount the day's loss is
    measured from; [None] when the plan has no daily loss rule. *)
Definition daily_basis (a : Account) : option (Money * Money) :=
  let on_balance := plan_drawdown_on_balance (acc_plan a) in
  let day_start := if on_balance then acc_day_start_balance a else acc_day_start_equity a in
  let peak := if on_balance then acc_peak_balance a else acc_intraday_peak_equity a in
  match plan_daily_loss_type (acc_plan a) with
  | DltNone => None
  | DltPctInitial => Some (acc_initial_balance a, day_start)
  | DltPctPriorDay => Some (day_start, day_start)
  | DltTrailingIntradayHigh => Some (peak, peak)
  end.

Definition daily_current (a : Account) : Money :=
  if plan_drawdown_on_balance (acc_plan a) then acc_balance a else acc_equity a.

Lemma daily_reference_spec a reference base :
  AmountsFit a → daily_basis a = Some (reference, base) →
  MoneyFits reference ∧
  ∃ dd, DailyDrawdownRule_reference a = Ret (Some (reference, dd))
    ∧ (dval dd == Qmax (dval base - dval (daily_current a)) 0)%Q ∧ Fits 16 4 dd.
Proof.
  intros Ha Hb.
  assert (Hc : MoneyFits (daily_current a)) by (unfold daily_current; case_match; apply Ha).
  assert (Hfit : MoneyFits reference ∧ MoneyFits base).
  { unfold daily_basis in Hb. destruct Ha. repeat case_match; simplify_eq; done. }
  destruct Hfit as [Hr Hbase]. split; [done|].
  destruct (drawdown_spec _ _ Hbase Hc) as (d & Hd & Fd & Ed).
  exists (dec_max d (dec_new 0 0)). split_and!; [|done..].
  unfold DailyDrawdownRule_reference, daily_basis, daily_current in *.
  by destruct (plan_daily_loss_type (acc_plan a)), (plan_drawdown_on_balance (acc_plan a));
    simplify_eq/=; rewrite Hd.
Qed.

(** C9: the daily-drawdown rule on a started account with broker-reported
    equity, for a plan with a daily limit, a positive percentage and a positive
    reference.  With [dd] the loss since the day's start (or from the intraday
    high) and [limit] the percentage of the reference, the rule acts exactly
    when [dd] exceeds [limit + tolerance], softly (an early warning) or by
    liquidation as the plan says; up to there it warns from [warn * limit] on
    and passes below.  It returns when the account's amounts are at most 10^11 with
    at most four decimals, the percentage at most 1 with at most six, the
    tolerance a u32 of cents and the warning fraction at most 1 with at most
    four decimals. *)
Theorem daily_drawdown_verdict params fr ctx equity bal reference base cents warn
    (Hpos : (0 < dval (DailyDrawdownRule_effective_pct params ctx))%Q)
    (Hfit : PctFits (DailyDrawdownRule_effective_pct params ctx))
    (Hamt : AmountsFit (ctx_account ctx))
    (Hbasis : daily_basis (ctx_account ctx) = Some (reference, base))
    (Href : (0 < dval reference)%Q)
    (Hstart : RuleContext_require_started ctx = true)
    (Hbroker : ctx_equity_input ctx = BrokerReported equity bal)
    (Hcents : DailyDrawdownRule_tolerance_cents params = cents) (Hcr : 0 ≤ cents < u32_modulus)
    (Hwarn : params_or params prm_early_warning_pct (dec_new 8 1) = warn)
    (Hwf : Fits 4 4 warn) :
  let a := ctx_account ctx in
  let dd := Qmax (dval base - dval (daily_current a)) 0 in
  let limit := (dval (DailyDrawdownRule_effective_pct params ctx) * dval reference)%Q in
  let bound := (limit + inject_Z cents / 100)%Q in
  ∃ v, DailyDrawdownRule_evaluate params fr ctx = Ret v
    ∧ ((bound < dd)%Q →
       ∃ x, v = (if plan_daily_loss_soft (acc_plan a) then VEarlyWarning x else VLiquidate x))
    ∧ ((dd <= bound)%Q → (limit * dval warn <= dd)%Q → ∃ x, v = VEarlyWarning x)
    ∧ ((dd <= bound)%Q → (dd < limit * dval warn)%Q → v = VPass).
Proof.
  intros a dd limit bound. subst cents warn.
  unfold DailyDrawdownRule_evaluate, RuleContext_require_broker_equity.
  rewrite Hstart, Hbroker. fold a. simpl. set (pct := DailyDrawdownRule_effective_pct params ctx) in *.
  assert (dec_leb pct dec_zero = false) as -> by (apply dec_leb_false; by rewrite dval_zero).
  destruct (daily_reference_spec a reference base) as (Hr & d & -> & Ed & Fd); [done..|]. simpl.
  destruct (dmul_fits _ _ _ _ _ _ Hfit Hr) as (lim & -> & El & Fl); [lia|]. simpl.
  destruct (tolerance_spec (DailyDrawdownRule_tolerance_cents params)) as (t & -> & Et & Ft); [done|].
  simpl. destruct (dadd_fits 21 10 _ _ _ _ _ _ Fl Ft) as (b & -> & Eb & _); [simpl; lia|]. simpl.
  destruct (dec_gtb d b) eqn:Egt; dec_bool; rewrite Eb, El, Et, Ed in Egt;
    fold dd limit in Egt; change (limit + _)%Q with bound in Egt.
  - destruct (pct_message _ Hfit) as (r & ->). simpl.
    edestruct (with_breach_total 16 4 21 10) as (x & -> & Hx); [done..|lia|]. simpl.
    eexists. split; [done|]. split_and!; intros; [|by exfalso; apply (Qlt_not_le bound dd)..].
    exists x. by destruct (plan_daily_loss_soft (acc_plan a)).
  - destruct (dmul_fits _ _ _ _ _ _ Fl Hwf) as (w & -> & Ew & _); [simpl; lia|]. simpl.
    destruct (dec_leb w d) eqn:Ege; dec_bool; rewrite Ew, El, Ed in Ege; fold dd limit in Ege.
    + destruct (ddiv_fits 22 16 4 21 10 d lim) as (q & -> & Hq); [done|done| |lia|lia|].
      { rewrite El. intros E. apply Qmult_integral in E as [E|E];
          [rewrite E in Hpos|rewrite E in Href]; by apply Qlt_irrefl in Hpos || apply Qlt_irrefl in Href. }
      simpl. destruct (dmul_100_total _ _ Hq) as (q' & ->); [lia|]. simpl.
      edestruct (with_breach_total 16 4 21 10) as (x & -> & Hx); [done..|lia|]. simpl.
      eexists. split; [done|]. split_and!; intros; [|by eauto|]; exfalso;
        [by apply (Qlt_not_le bound dd)|by apply (Qlt_not_le dd (limit * dval (params_or params prm_early_warning_pct (dec_new 8 1))))].
    + eexists. split; [done|]. split_and!; intros; [exfalso|exfalso|done];
        [by apply (Qlt_not_le bound dd)|by apply (Qlt_not_le dd (limit * dval (params_or params prm_early_warning_pct (dec_new 8 1))))].
Qed.

(** ** Trailing drawdown *)

(** The trailing-drawdown rule on a started account with broker-reported
    equity, with [trail] its trail amount and the floor that far below the
    highest equity seen: it liquidates exactly below the floor, warns in the
    lowest fifth of the trail above it, and passes higher up. *)
Theorem trailing_drawdown_verdict params fr ctx equity bal trail
    (Htrail : TrailingDrawdownRule_effective_trail_money params ctx = Ret (Some trail))
    (Hfit : Fits 21 10 trail) (Hamt : AmountsFit (ctx_account ctx)) (Heq : MoneyFits equity)
    (Hstart : RuleContext_require_started ctx = true)
    (Hbroker : ctx_equity_input ctx = BrokerReported equity bal) :
  let floor := (dval (acc_peak_equity (ctx_account ctx)) - dval trail)%Q in
  let warn := (floor + dval trail * (1 # 5))%Q in
  ∃ v, TrailingDrawdownRule_evaluate params fr ctx = Ret v
    ∧ ((dval equity < floor)%Q → ∃ x, v = VLiquidate x)
    ∧ ((floor <= dval equity)%Q → (dval equity < warn)%Q → ∃ x, v = VEarlyWarning x)
    ∧ ((floor <= dval equity)%Q → (warn <= dval equity)%Q → v = VPass).
Proof.
  intros floor warn. unfold TrailingDrawdownRule_evaluate, RuleContext_require_broker_equity.
  rewrite Htrail, Hstart, Hbroker. simpl.
  destruct (dsub_fits 21 10 _ _ _ _ _ _ (af_peak_equity _ Hamt) Hfit) as (f & -> & Ef & Ff); [lia|].
  simpl. destruct (dec_ltb equity f) eqn:Elt; dec_bool; rewrite Ef in Elt; fold floor in Elt.
  - destruct (dsub_fits 22 10 _ _ _ _ _ _ Ff Heq) as (br & -> & _ & Fb); [lia|]. simpl.
    edestruct (with_breach_total 23 10 21 10) as (x & -> & Hx); [done..|lia|]. simpl.
    eexists. split; [done|]. split_and!; intros; [by eauto|exfalso..];
      by apply (Qlt_not_le (dval equity) floor).
  - assert (F2 : Fits 1 1 (dec_new 2 1)) by (apply Fits_new; [by vm_compute|lia..]).
    destruct (dmul_fits _ _ _ _ _ _ Hfit F2) as (w & -> & Ew & Fw); [lia|]. simpl.
    destruct (dadd_fits 23 11 _ _ _ _ _ _ Ff Fw) as (wf & -> & Ewf & Fwf); [simpl; lia|]. simpl.
    assert (E : (dval wf == warn)%Q).
    { assert (E2 : (dval (dec_new 2 1) == 1 # 5)%Q)
        by (rewrite dec_new_spec by (done || lia); reflexivity).
      rewrite Ewf, Ew, Ef, E2. reflexivity. }
    destruct (dec_ltb equity wf) eqn:Elt2; dec_bool; rewrite E in Elt2.
    + destruct (dsub_fits 24 11 _ _ _ _ _ _ Fwf Heq) as (br & -> & _ & Fb); [lia|]. simpl.
      edestruct (with_breach_total 25 11 21 10) as (x & -> & Hx); [done..|lia|]. simpl.
      eexists. split; [done|]. split_and!; intros; [exfalso|by eauto|exfalso];
        [by apply (Qlt_not_le (dval equity) floor)|by apply (Qlt_not_le (dval equity) warn)].
    + eexists. split; [done|]. split_and!; intros; [exfalso|exfalso|done];
        [by apply (Qlt_not_le (dval equity) floor)|by apply (Qlt_not_le (dval equity) warn)].
Qed.

(** ** Early warnings and degenerate limits *)

(** With the plan's defaults and a static floor, the early warning of the
    maximum-drawdown rule starts when a fifth of the permitted loss is used
    up: any loss of at least [0.2 * pct * initial] that does not breach warns,
    any smaller one passes. *)
Theorem max_drawdown_warns_at_fifth fr ctx equity bal
    (Hbasis : plan_max_loss_reference (acc_plan (ctx_account ctx)) = Static)
    (Hon : plan_drawdown_on_balance (acc_plan (ctx_account ctx)) = false)
    (Hpos : (0 < dval (plan_max_total_drawdown_pct (acc_plan (ctx_account ctx))))%Q)
    (Hfit : PctFits (plan_max_total_drawdown_pct (acc_plan (ctx_account ctx))))
    (Hinit : (0 < dval (acc_initial_balance (ctx_account ctx)))%Q)
    (Hamt : AmountsFit (ctx_account ctx)) (Heq : MoneyFits equity)
    (Hstart : RuleContext_require_started ctx = true)
    (Hbroker : ctx_equity_input ctx = BrokerReported equity bal) :
  let a := ctx_account ctx in
  let limit := (dval (plan_max_total_drawdown_pct (acc_plan a)) * dval (acc_initial_balance a))%Q in
  let loss := (dval (acc_initial_balance a) - dval equity)%Q in
  ∃ v, MaxDrawdownRule_evaluate None fr ctx = Ret v
    ∧ ((loss <= limit)%Q → (limit * (1 # 5) <= loss)%Q → ∃ x, v = VEarlyWarning x)
    ∧ ((loss < limit * (1 # 5))%Q → v = VPass).
Proof.
  intros a limit loss.
  destruct (max_drawdown_cases None fr ctx equity bal
              (plan_max_total_drawdown_pct (acc_plan a)) 1 (dec_new 8 1))
    as (v & Hv & _ & Hwarn & Hpass); try done; [apply eight_tenths_fits|].
  exists v. split; [done|].
  unfold MaxDrawdownRule_effective_basis, params_or in *. simpl in *. fold a in Hwarn, Hpass, Hbasis, Hon.
  rewrite Hbasis, Hon in Hwarn, Hpass. unfold max_floor in *. simpl in *. fold limit in Hwarn, Hpass.
  assert (Hl : (0 < limit)%Q) by by apply Qmult_lt_0_compat.
  assert (E : (Qmax (dval (acc_initial_balance a) - (dval (acc_initial_balance a) - limit)) 0 == limit)%Q).
  { rewrite Q.max_l; lra. }
  assert (E8 : (dval (dec_new 8 1) == 4 # 5)%Q) by (rewrite dec_new_spec by (done || lia); reflexivity).
  rewrite E, E8 in Hwarn, Hpass. subst loss.
  change (inject_Z 1 / 100)%Q with (1 # 100)%Q in *. clearbody limit.
  split; intros.
  - destruct Hwarn as (x & Hx & _); [lra..|eauto].
  - apply Hpass; lra.
Qed.

(** A zero reference is a division by zero: while the loss is within the
    tolerance, the text of the early warning divides by the zero limit and
    the daily-drawdown rule panics. *)
Theorem daily_drawdown_zero_reference_panics fr ctx equity bal reference base
    (Hpos : (0 < dval (DailyDrawdownRule_effective_pct None ctx))%Q)
    (Hfit : PctFits (DailyDrawdownRule_effective_pct None ctx))
    (Hamt : AmountsFit (ctx_account ctx))
    (Hbasis : daily_basis (ctx_account ctx) = Some (reference, base))
    (Href : (dval reference == 0)%Q)
    (Hdd : (dval base <= dval (daily_current (ctx_account ctx)))%Q)
    (Hstart : RuleContext_require_started ctx = true)
    (Hbroker : ctx_equity_input ctx = BrokerReported equity bal) :
  DailyDrawdownRule_evaluate None fr ctx = Panic.
Proof.
  unfold DailyDrawdownRule_evaluate, RuleContext_require_broker_equity.
  rewrite Hstart, Hbroker. simpl. set (pct := DailyDrawdownRule_effective_pct None ctx) in *.
  assert (dec_leb pct dec_zero = false) as -> by (apply dec_leb_false; by rewrite dval_zero).
  destruct (daily_reference_spec _ _ _ Hamt Hbasis) as (Hr & d & -> & Ed & Fd). simpl.
  rewrite Q.max_r in Ed by lra.
  destruct (dmul_fits _ _ _ _ _ _ Hfit Hr) as (lim & -> & El & Fl); [lia|]. simpl.
  rewrite Href, Qmult_0_r in El.
  change (DailyDrawdownRule_tolerance_cents None) with 1.
  destruct (tolerance_spec 1) as (t & -> & Et & Ft); [done|]. simpl.
  destruct (dadd_fits 21 10 _ _ _ _ _ _ Fl Ft) as (b & -> & Eb & _); [simpl; lia|]. simpl.
  assert (dec_ltb b d = false) as E1.
  { apply dec_ltb_false. rewrite Ed, Eb, El, Et. discriminate. }
  unfold dec_gtb. rewrite E1.
  unfold params_or. simpl.
  destruct (dmul_fits _ _ _ _ _ _ Fl eight_tenths_fits) as (w & -> & Ew & _); [simpl; lia|]. simpl.
  assert (dec_leb w d = true) as E2.
  { apply dec_leb_spec. rewrite Ed, Ew, El, Qmult_0_l. apply Qle_refl. }
  unfold dec_geb. rewrite E2. unfold ddiv. by rewrite dec_div_zero.
Qed.

End DrawdownFacts.

(** ** Witnesses *)

Import Samples.

(** Discharges [Fits] goals on concrete rationals: [m] is the mantissa. *)
Ltac q_fits m := exists m; split; [vm_compute; discriminate|vm_compute; reflexivity].

Lemma account_fits : AmountsFit account.
Proof. split; q_fits 100000000. Defined.

Lemma max_drawdown_verdict_witness :
  ∃ x, MaxDrawdownRule_evaluate None fresh (tick_ctx account (8999 # 1)) = Ret (VLiquidate x).
Proof.
  destruct (max_drawdown_verdict None fresh (tick_ctx account (8999 # 1)) (8999 # 1)
              (acc_balance account) (1 # 10) 1 (4 # 5)) as (v & Hv & Hliq & _);
    try reflexivity; [q_fits 100000|apply account_fits|q_fits 89990000|done|q_fits 8000|].
  destruct Hliq as (x & -> & _); [vm_compute; reflexivity|]. by exists x.
Defined.

Lemma daily_drawdown_verdict_witness :
  ∃ x, DailyDrawdownRule_evaluate None fresh
         (tick_ctx (account <| acc_equity := money (9499 # 1) |>) (9499 # 1)) = Ret (VLiquidate x).
Proof.
  destruct (daily_drawdown_verdict None fresh
              (tick_ctx (account <| acc_equity := money (9499 # 1) |>) (9499 # 1)) (9499 # 1)
              (acc_balance account) (10000 # 1) (10000 # 1) 1 (4 # 5)) as (v & Hv & Hliq & _);
    try reflexivity; [q_fits 50000|split; q_fits 100000000 || q_fits 94990000|done|q_fits 8000|].
  destruct Hliq as (x & ->); [vm_compute; reflexivity|]. by exists x.
Defined.

(** An account that trails its peak by five percent. *)
Definition trailing_account : Account :=
  account <| acc_plan := ChallengePlan_with_trailing_dd plan (1 # 20) |>.

Lemma trailing_drawdown_verdict_witness :
  ∃ x, TrailingDrawdownRule_evaluate None fresh (tick_ctx trailing_account (9499 # 1))
       = Ret (VLiquidate x).
Proof.
  destruct (trailing_drawdown_verdict None fresh (tick_ctx trailing_account (9499 # 1))
              (9499 # 1) (acc_balance account) (500 # 1)) as (v & Hv & Hliq & _);
    try reflexivity; [q_fits 5000000000000|split; q_fits 100000000|q_fits 94990000|].
  destruct Hliq as (x & ->); [vm_compute; reflexivity|]. by exists x.
Defined.

(** The account of the default plan with a static floor. *)
Definition static_account : Account :=
  account <| acc_plan := plan <| plan_max_loss_reference := Static |> |>.

Lemma max_drawdown_warns_at_fifth_witness :
  ∃ x, MaxDrawdownRule_evaluate None fresh (tick_ctx static_account (9800 # 1))
       = Ret (VEarlyWarning x).
Proof.
  destruct (max_drawdown_warns_at_fifth fresh (tick_ctx static_account (9800 # 1))
              (9800 # 1) (acc_balance account)) as (v & Hv & Hw & _);
    try reflexivity; [q_fits 100000|split; q_fits 100000000|q_fits 98000000|].
  destruct Hw as (x & ->); [vm_compute; discriminate..|]. by exists x.
Defined.

Definition empty_account : Account :=
  account <| acc_day_start_equity := money 0 |> <| acc_equity := money 0 |>.

Lemma daily_drawdown_zero_reference_panics_witness :
  DailyDrawdownRule_evaluate None fresh (tick_ctx empty_account 0%Q) = Panic.
Proof.
  apply (daily_drawdown_zero_reference_panics fresh (tick_ctx empty_account 0%Q) 0%Q
           (acc_balance account) 0%Q 0%Q); try reflexivity;
    [q_fits 50000|split; q_fits 100000000 || q_fits 0|vm_compute; discriminate].
Defined.
