(* ===== verification/RuleFacts.v ===== *)
(** * Theorems on the target and time rules

    The profit target over the rationals, and the two clock windows as
    intervals on a 24-hour dial. *)


From S2P Require Import Prelude.
From S2P Require Import Decimal.
From S2P Require Import Chrono.
From S2P Require Import Ids.
From S2P Require Import Domain.
From S2P Require Import Plan.
From S2P Require Import Account.
From S2P Require Import Violation.
From S2P Require Import Pack.
From S2P Require Import RuleApi.
#[local] Open Scope Z_scope.
From S2P Require Import DrawdownRules.
From S2P Require Import TargetRules.
From S2P Require Import TimeRules.
From S2P Require Import Samples.
From S2P Require Import DrawdownFacts.

Section RuleFacts.
Context `{DL : DecimalLaws} `{CL : ChronoLaws}.

(** ** Profit target *)

(** The profit-target rule with the plan's target.  Until the target has
    been recorded, it reports a hit exactly when the net profit reaches the
    percentage of the initial balance, fails once the deadline has passed
    without it, and passes otherwise; after that it always passes. *)
Theorem profit_target_verdict fr ctx
    (Hamt : AmountsFit (ctx_account ctx))
    (Hfit : Fits 6 6 (plan_profit_target_pct (acc_plan (ctx_account ctx))))
    (Hpos : (0 < dval (plan_profit_target_pct (acc_plan (ctx_account ctx))))%Q)
    (Hinit : (0 < dval (acc_initial_balance (ctx_account ctx)))%Q) :
  let a := ctx_account ctx in
  let target := (dval (plan_profit_target_pct (acc_plan a)) * dval (acc_initial_balance a))%Q in
  let net := (dval (acc_balance a) - dval (acc_initial_balance a))%Q in
  ∃ v, ProfitTargetRule_evaluate None fr ctx = Ret v ∧
    match acc_target_reached_at a with
    | Some _ => v = VPass
    | None =>
        ((target <= net)%Q → ∃ x, v = VTargetHit x) ∧
        ((net < target)%Q →
         match acc_deadline a with
         | Some d => if ts_nanos d <? ts_nanos (ctx_server_time ctx)
                     then ∃ x, v = VFail x else v = VPass
         | None => v = VPass
         end)
    end.
Proof.
  intros a target net. unfold ProfitTargetRule_evaluate, ProfitTargetRule_target.
  unfold Account_profit_target, Account_net_profit. fold a.
  destruct (dmul_fits _ _ _ _ _ _ Hfit (af_initial _ Hamt)) as (t & Et & Vt & Ft); [lia|].
  fold a in Et, Vt. rewrite Et. simpl.
  assert (Ht : (0 < dval t)%Q) by (rewrite Vt; by apply Qmult_lt_0_compat).
  assert (dec_leb t (dec_new 0 0) = false) as ->.
  { apply dec_leb_false. change (dec_new 0 0) with dec_zero. by rewrite dval_zero. }
  destruct (dsub_fits 15 4 _ _ _ _ _ _ (af_balance _ Hamt) (af_initial _ Hamt)) as (n & En & Vn & Fn); [lia|].
  fold a in En, Vn. rewrite En. simpl.
  destruct (acc_target_reached_at a); [by eexists|].
  unfold dec_geb. destruct (dec_leb t n) eqn:E; dec_bool; rewrite Vt, Vn in E; fold target net in E.
  - edestruct (with_breach_total 16 4 21 10) as (x & -> & _);
      [apply Fits_max; [exact Fn|by apply Fits_zero; lia]|exact Ft|lia|].
    eexists. split; [done|]. split; [by eauto|]. intros Hlt. by apply (Qlt_not_le net target) in Hlt.
  - destruct (acc_deadline a) as [d|].
    + unfold ts_gtb, ts_ltb. destruct (ts_nanos d <? ts_nanos (ctx_server_time ctx)).
      * edestruct (with_breach_total 21 10 21 10) as (x & -> & _); [exact Ft|exact Ft|lia|].
        eexists. split; [done|]. split; [|by eauto]. intros Hle. by apply (Qlt_not_le net target) in E.
      * eexists. split; [done|]. split; [|done]. intros Hle. by apply (Qlt_not_le net target) in E.
    + eexists. split; [done|]. split; [|done]. intros Hle. by apply (Qlt_not_le net target) in E.
Qed.

(** ** Clock windows *)

(** The hour of day of an instant. *)
Definition hour_of (t : Timestamp) : Z := (ts_nanos t mod ns_day) / ns_hour.

Lemma hour_of_range t : 0 ≤ hour_of t < 24.
Proof.
  unfold hour_of. pose proof (Z.mod_pos_bound (ts_nanos t) ns_day eq_refl).
  split; [apply Z.div_pos; [lia|reflexivity]|].
  apply Z.div_lt_upper_bound; [reflexivity|]. unfold ns_day, ns_hour, ns_second in *. lia.
Qed.

(** [h] lies on the dial within [width] hours from [start] on. *)
Definition on_dial (start width h : Z) : bool := (h - start) mod 24 <? width.

Lemma dial_forward s e h :
  0 ≤ s ≤ 24 → 0 ≤ e ≤ 24 → 0 ≤ h < 24 →
  trading_hours_in_window s e h = on_dial s (if s <=? e then e - s else e - s + 24) h.
Proof.
  intros Hs He Hh. unfold trading_hours_in_window, on_dial.
  apply eq_true_iff_eq. destruct (Z.leb_spec s e);
    rewrite ?andb_true_iff, ?orb_true_iff, ?Z.leb_le, !Z.ltb_lt;
    pose proof (Z.mod_pos_bound (h - s) 24 eq_refl);
    pose proof (Z.div_mod (h - s) 24); nia.
Qed.

Lemma dial_overnight s e h :
  0 ≤ s < 24 → 0 ≤ e < 24 → 0 ≤ h < 24 →
  overnight_in_forbidden s e h = on_dial s (if s <? e then e - s else e - s + 24) h.
Proof.
  intros Hs He Hh. unfold overnight_in_forbidden, on_dial.
  apply eq_true_iff_eq. destruct (Z.ltb_spec s e);
    rewrite ?andb_true_iff, ?orb_true_iff, ?Z.leb_le, !Z.ltb_lt;
    pose proof (Z.mod_pos_bound (h - s) 24 eq_refl);
    pose proof (Z.div_mod (h - s) 24); nia.
Qed.

(** Trading hours are an interval on the dial, wrapping past midnight
    when the end is before the start.  On a UTC plan with a window of valid
    hours, an order passes exactly when the hour it was submitted in lies in
    the window, and is a hard violation otherwise. *)
Theorem trading_hours_verdict fr ctx order s e
    (Hwin : plan_trading_hours (acc_plan (ctx_account ctx)) = Some (s, e))
    (Hs : 0 ≤ s ≤ 24) (He : 0 ≤ e ≤ 24)
    (Hutc : plan_timezone (acc_plan (ctx_account ctx)) = None)
    (Hord : ctx_pending_order ctx = Some order) :
  let width := if s <=? e then e - s else e - s + 24 in
  if on_dial s width (hour_of (ord_submitted_at order))
  then TradingHoursRule_evaluate fr ctx = Ret VPass
  else ∃ x, TradingHoursRule_evaluate fr ctx = Ret (VFail x) ∧ vio_severity x = SevHard.
Proof.
  intros width. unfold TradingHoursRule_evaluate. rewrite Hwin, Hord, Hutc, ts_hour_spec.
  fold (hour_of (ord_submitted_at order)).
  rewrite dial_forward by (done || apply hour_of_range). fold width.
  destruct (on_dial _ _ _); simpl; [done|]. by eexists.
Qed.

(** Overnight holding.  When the plan forbids it, the forbidden hours are
    an interval on the dial (the whole day when it is empty); inside it a
    pending order is a hard violation, an open position a warning, and
    anything else passes. *)
Theorem overnight_verdict params fr ctx from to
    (Hplan : plan_overnight_holding_allowed (acc_plan (ctx_account ctx)) = false)
    (Hcfg : rc_overnight_holding (ctx_rule_config ctx) = Some (mkOvernightConfig from to))
    (Hf : 0 ≤ from < 24) (Ht : 0 ≤ to < 24) :
  let width := if from <? to then to - from else to - from + 24 in
  let forbidden := on_dial from width (hour_of (ctx_server_time ctx)) in
  ∃ v, OvernightHoldingRule_evaluate params fr ctx = Ret v
    ∧ (RuleVerdict_is_fail v = true ↔ forbidden = true ∧ is_Some (ctx_pending_order ctx))
    ∧ ((∃ x, v = VWarn x) ↔
       forbidden = true ∧ ctx_pending_order ctx = None ∧ ctx_open_positions ctx ≠ [])
    ∧ (v = VPass ∨ RuleVerdict_is_fail v = true ∨ ∃ x, v = VWarn x).
Proof.
  intros width forbidden. unfold OvernightHoldingRule_evaluate. rewrite Hplan, Hcfg. simpl.
  rewrite ts_hour_spec. fold (hour_of (ctx_server_time ctx)).
  rewrite dial_overnight by (done || apply hour_of_range). fold width forbidden.
  destruct forbidden; simpl.
  - destruct (ctx_pending_order ctx) as [o|], (ctx_open_positions ctx) as [|p ps]; simpl;
      (eexists; split; [reflexivity|]); simpl; split_and!; naive_solver.
  - eexists. split; [reflexivity|]. simpl. split_and!; naive_solver.
Qed.

End RuleFacts.

(** ** Witnesses *)

Import Samples.

(** The sample account with a profit of eight percent. *)
Definition winning_account : Account := account <| acc_balance := money 10800 |>.

Lemma profit_target_verdict_witness :
  ∃ x, ProfitTargetRule_evaluate None fresh (tick_ctx winning_account (money 10800))
       = Ret (VTargetHit x).
Proof.
  destruct (profit_target_verdict fresh (tick_ctx winning_account (money 10800)))
    as (v & Hv & Hm).
  - split; q_fits 100000000 || q_fits 108000000.
  - q_fits 80000.
  - vm_compute. reflexivity.
  - vm_compute. reflexivity.
  - assert (E : acc_target_reached_at (ctx_account (tick_ctx winning_account (money 10800))) = None)
      by reflexivity.
    cbv zeta in Hm. rewrite E in Hm. destruct Hm as [Hit _].
    destruct Hit as [x Hx]; [vm_compute; discriminate|]. exists x. rewrite Hv, Hx. reflexivity.
Defined.

Definition night_order : Order :=
  Order_market_open 1 7 "EURUSD" Buy (money 1) None None noon.

(** An order at noon under trading hours from 22 to 6. *)
Definition night_ctx : RuleContext :=
  RuleContext_for_open_order
    (account <| acc_plan := plan <| plan_trading_hours := Some (22, 6) |>
                                 <| plan_overnight_holding_allowed := false |> |>)
    night_order (noon + 11 * ns_hour).

Lemma trading_hours_verdict_witness :
  ∃ x, TradingHoursRule_evaluate fresh night_ctx = Ret (VFail x) ∧ vio_severity x = SevHard.
Proof.
  pose proof (trading_hours_verdict fresh night_ctx night_order 22 6) as Hv.
  assert (E : on_dial 22 (if 22 <=? 6 then 6 - 22 else 6 - 22 + 24)
                (hour_of (ord_submitted_at night_order)) = false) by (vm_compute; reflexivity).
  cbv zeta in Hv. rewrite E in Hv.
  apply Hv; [reflexivity|lia|lia|reflexivity|reflexivity].
Defined.

(** The same order, evaluated at 23:00. *)
Lemma overnight_verdict_witness :
  ∃ v, OvernightHoldingRule_evaluate None fresh night_ctx = Ret v ∧ RuleVerdict_is_fail v = true.
Proof.
  destruct (overnight_verdict None fresh night_ctx 22 7) as (v & Hv & Hf & _);
    [reflexivity|reflexivity|lia|lia|].
  exists v. split; [exact Hv|]. apply Hf. split; [vm_compute; reflexivity|by eexists].
Defined.
