(* ===== verification/IdsFacts.v ===== *)
(** * Theorems on identifiers

    [RuleId::named] overwrites ten bits of a doubled 64-bit hash; no
    information is lost by it. *)

From S2P Require Import Prelude.
From S2P Require Import Ids.
#[local] Open Scope Z_scope.

(** ** Bytes *)

Definition is_byte (b : Z) : Prop := 0 ≤ b < 256.

Lemma be_byte_range bits n : is_byte (be_byte bits n).
Proof.
  unfold be_byte, is_byte. change 0xff with (Z.ones 8). rewrite Z.land_ones by lia.
  apply Z.mod_pos_bound. reflexivity.
Qed.

Lemma be_byte_testbit bits n j :
  0 ≤ n < 8 → 0 ≤ j < 8 → Z.testbit (be_byte bits n) j = Z.testbit bits (56 - 8 * n + j).
Proof.
  intros Hn Hj. unfold be_byte. change 0xff with (Z.ones 8).
  rewrite Z.land_spec, Z.shiftr_spec, Z.ones_spec_low by lia.
  rewrite andb_true_r. f_equal. lia.
Qed.

(** The eight bytes determine a 64-bit word. *)
Lemma be_bytes_inj x y :
  0 ≤ x < 2 ^ 64 → 0 ≤ y < 2 ^ 64 →
  (∀ n, 0 ≤ n < 8 → be_byte x n = be_byte y n) → x = y.
Proof.
  intros Hx Hy Hb. apply Z.bits_inj'. intros i Hi.
  destruct (Z.lt_ge_cases i 64) as [Hlt|Hge].
  - assert (Hd : i = 56 - 8 * (7 - i / 8) + i mod 8).
    { pose proof (Z.div_mod i 8). lia. }
    pose proof (Z.mod_pos_bound i 8 eq_refl).
    assert (0 ≤ i / 8 < 8) by (split; [apply Z.div_pos|apply Z.div_lt_upper_bound]; lia).
    rewrite Hd, <- !be_byte_testbit by lia. by rewrite Hb by lia.
  - assert (Hz : ∀ z, 0 ≤ z < 2 ^ 64 → Z.testbit z i = false).
    { intros z [Hz0 Hz]. destruct (Z.eq_dec z 0) as [->|Hnz]; [apply Z.bits_0|].
      apply Z.bits_above_log2; [done|]. apply Z.log2_lt_pow2; [lia|].
      pose proof (Z.pow_le_mono_r 2 64 i). lia. }
    by rewrite !Hz.
Qed.

(** A list of bytes is determined by its length and its big-endian value. *)
Lemma uuid_from_bytes_inj l1 l2 :
  length l1 = length l2 → Forall is_byte l1 → Forall is_byte l2 →
  uuid_from_bytes l1 = uuid_from_bytes l2 → l1 = l2.
Proof.
  unfold uuid_from_bytes. revert l2.
  induction l1 as [|x l1 IH] using rev_ind; intros l2 Hlen H1 H2 E.
  { by destruct l2. }
  destruct l2 as [|y l2 _] using rev_ind; [rewrite length_app in Hlen; simpl in Hlen; lia|].
  rewrite !length_app in Hlen. simpl in Hlen.
  apply Forall_app in H1 as [H1 Hx]. apply Forall_app in H2 as [H2 Hy].
  apply Forall_inv in Hx, Hy. unfold is_byte in Hx, Hy.
  rewrite !fold_left_app in E. cbn [fold_left] in E.
  assert (x = y) as -> by lia. f_equal. apply IH; [lia|done..|lia].
Qed.

Lemma lor_land_byte b m k :
  is_byte b → is_byte m → is_byte k → is_byte (Z.lor (Z.land b m) k).
Proof.
  unfold is_byte. intros Hb Hm Hk. change 256 with (2 ^ 8) in *.
  assert (Hbits : ∀ z, 0 ≤ z < 2 ^ 8 → ∀ i, 8 ≤ i → Z.testbit z i = false).
  { intros z [Hz0 Hz] i Hi. destruct (Z.eq_dec z 0) as [->|Hnz]; [apply Z.bits_0|].
    apply Z.bits_above_log2; [done|]. apply Z.log2_lt_pow2; [lia|].
    pose proof (Z.pow_le_mono_r 2 8 i). lia. }
  assert (H0 : 0 ≤ Z.lor (Z.land b m) k).
  { apply Z.lor_nonneg. split; [apply Z.land_nonneg; lia|lia]. }
  split; [done|]. destruct (Z.eq_dec (Z.lor (Z.land b m) k) 0) as [->|Hnz]; [reflexivity|].
  apply Z.log2_lt_pow2; [lia|]. destruct (Z.lt_ge_cases (Z.log2 (Z.lor (Z.land b m) k)) 8) as [|Hge];
    [done|]. exfalso. pose proof (Z.bit_log2 (Z.lor (Z.land b m) k)) as Hl.
  rewrite Z.lor_spec, Z.land_spec, (Hbits b), (Hbits k) in Hl by lia. specialize (Hl ltac:(lia)). done.
Qed.

(** The sixteen bytes of an identifier. *)
Definition uuid_bytes (z : Z) : list Z :=
  [ be_byte z 0; be_byte z 1; be_byte z 2; be_byte z 3; be_byte z 4; be_byte z 5;
    Z.lor (Z.land (be_byte z 6) 0x0f) 0x50; be_byte z 7;
    Z.lor (Z.land (be_byte z 0) 0x3f) 0x80; be_byte z 1; be_byte z 2; be_byte z 3;
    be_byte z 4; be_byte z 5; be_byte z 6; be_byte z 7 ].

Lemma uuid_of_hash_bytes z : uuid_of_hash z = uuid_from_bytes (uuid_bytes z).
Proof. reflexivity. Qed.

#[local] Opaque be_byte.

Lemma uuid_bytes_range z : Forall is_byte (uuid_bytes z).
Proof.
  unfold uuid_bytes. repeat (apply Forall_cons; split;
    [first [apply be_byte_range | apply lor_land_byte; [apply be_byte_range|unfold is_byte; lia..]]|]).
  by apply Forall_nil.
Qed.

Lemma uuid_bytes_inj x y n : uuid_bytes x = uuid_bytes y → 0 ≤ n < 8 → be_byte x n = be_byte y n.
Proof.
  unfold uuid_bytes. intros E Hn. injection E as E0 E1 E2 E3 E4 E5 _ E7 _ _ _ _ _ _ E6 _.
  assert (n = 0 ∨ n = 1 ∨ n = 2 ∨ n = 3 ∨ n = 4 ∨ n = 5 ∨ n = 6 ∨ n = 7) as Hc by lia.
  destruct_or! Hc; subst n; assumption.
Qed.

(** Rule identifiers are as distinct as the hashes they are made of:
    the 64-bit hash can be recovered from the identifier, so two names get
    the same identifier only if their hashes collide. *)
Theorem uuid_of_hash_injective x y
    (Hx : 0 ≤ x < 2 ^ 64) (Hy : 0 ≤ y < 2 ^ 64) (E : uuid_of_hash x = uuid_of_hash y) : x = y.
Proof.
  rewrite !uuid_of_hash_bytes in E.
  apply uuid_from_bytes_inj in E; [|reflexivity|apply uuid_bytes_range..].
  apply be_bytes_inj; [done..|]. intros n Hn. by apply uuid_bytes_inj.
Qed.

(** ** Witness *)

Lemma uuid_of_hash_injective_witness : uuid_of_hash 1 ≠ uuid_of_hash 2.
Proof.
  intros E. assert (H1 : 0 ≤ 1 < 2 ^ 64) by (split; [discriminate|reflexivity]).
  assert (H2 : 0 ≤ 2 < 2 ^ 64) by (split; [discriminate|reflexivity]).
  discriminate (uuid_of_hash_injective 1 2 H1 H2 E).
Defined.
