(* ===== verification/ConfigFacts.v ===== *)
(** * Theorems on configuration

    Validation of plans and rule packs, and the textual forms of the
    enumerations. *)


From S2P Require Import Prelude.
From S2P Require Import Decimal.
From S2P Require Import Chrono.
From S2P Require Import Ids.
From S2P Require Import Domain.
From S2P Require Import Plan.
From S2P Require Import Account.
From S2P Require Import Violation.
From S2P Require Import Pack.
From S2P Require Import RuleApi.
#[local] Open Scope Z_scope.
From S2P Require Import Samples.

Section ConfigFacts.
Context `{DL : DecimalLaws} `{ChronoOps}.

(** A percentage between zero and one. *)
Definition unit_pct (p : Pct) : Prop := (0 <= dval p)%Q ∧ (dval p <= 1)%Q.

Lemma outside_unit_false p : dec_outside_unit p = false ↔ unit_pct p.
Proof.
  unfold dec_outside_unit, unit_pct, dec_gtb. rewrite orb_false_iff, !dec_ltb_false, dval_zero.
  change (dec_new 1 0) with dec_one. by rewrite dval_one.
Qed.

(** Plan validation accepts exactly the plans whose initial balance is
    positive, whose profit target is not negative, whose loss limits and
    consistency cap are percentages between 0 and 1, and whose trading hours
    do not exceed 24; everything else is a configuration error. *)
Theorem plan_validate_iff p :
  let ok := (0 < dval (plan_initial_balance_money p))%Q
    ∧ (0 <= dval (plan_profit_target_pct p))%Q
    ∧ unit_pct (plan_max_daily_drawdown_pct p) ∧ unit_pct (plan_max_total_drawdown_pct p)
    ∧ (∀ c, plan_consistency_pct p = Some c → unit_pct c)
    ∧ (∀ s e, plan_trading_hours p = Some (s, e) → s ≤ 24 ∧ e ≤ 24) in
  (ChallengePlan_validate p = Ret tt ↔ ok)
  ∧ (¬ ok → ∃ msg, ChallengePlan_validate p = Err (InvalidConfig msg)).
Proof.
  intros ok.
  assert (Hcons : match plan_consistency_pct p with Some c => dec_outside_unit c | None => false end
                  = false ↔ ∀ c, plan_consistency_pct p = Some c → unit_pct c).
  { destruct (plan_consistency_pct p) as [c|]; [|naive_solver].
    rewrite outside_unit_false. split; [by intros ? ? [= <-]|]. intros Hc. by apply Hc. }
  assert (Hhours : match plan_trading_hours p with Some (s, e) => (24 <? s) || (24 <? e) | None => false end
                  = false ↔ ∀ s e, plan_trading_hours p = Some (s, e) → s ≤ 24 ∧ e ≤ 24).
  { destruct (plan_trading_hours p) as [[s e]|]; [|naive_solver].
    rewrite orb_false_iff, !Z.ltb_ge. split; [by intros ? ? ? [= <- <-]|]. intros Hh. by apply Hh. }
  pose proof (outside_unit_false (plan_max_daily_drawdown_pct p)) as Hd.
  pose proof (outside_unit_false (plan_max_total_drawdown_pct p)) as Ht.
  assert (Hb : dec_leb (plan_initial_balance_money p) dec_zero = false
               ↔ (0 < dval (plan_initial_balance_money p))%Q) by by rewrite dec_leb_false, dval_zero.
  assert (Hp : dec_ltb (plan_profit_target_pct p) dec_zero = false
               ↔ (0 <= dval (plan_profit_target_pct p))%Q) by by rewrite dec_ltb_false, dval_zero.
  assert (Hok : ok ↔ dec_leb (plan_initial_balance_money p) dec_zero = false
    ∧ dec_ltb (plan_profit_target_pct p) dec_zero = false
    ∧ dec_outside_unit (plan_max_daily_drawdown_pct p) = false
    ∧ dec_outside_unit (plan_max_total_drawdown_pct p) = false
    ∧ match plan_consistency_pct p with Some c => dec_outside_unit c | None => false end = false
    ∧ match plan_trading_hours p with Some (s, e) => (24 <? s) || (24 <? e) | None => false end = false)
    by (unfold ok; tauto).
  rewrite Hok. unfold ChallengePlan_validate. clear.
  repeat match goal with |- context [if ?c then Err _ else _] => destruct c end;
    (split; [split; [done|by intros (? & ? & ? & ? & ? & ?)]|]);
    intros Hn; first [by eexists | by destruct Hn].
Qed.

End ConfigFacts.

Section PackFacts.
Context `{DecimalOps} `{ChronoOps}.

(** A pack validates exactly when it has an identifier, at least one
    rule, and no two entries with the same identifier. *)
Theorem pack_validate_iff p :
  RulePack_validate p = Ret tt ↔
  rp_id p ≠ "" ∧ rp_rules p ≠ [] ∧ NoDup (re_id <$> rp_rules p).
Proof.
  unfold RulePack_validate. case_decide as Hid; [naive_solver|].
  case_decide as Hlen.
  { apply nil_length_inv in Hlen. naive_solver. }
  pose proof (pack_ids_fresh_spec ∅ (rp_rules p)) as Hs.
  destruct (pack_ids_fresh ∅ (rp_rules p)); simpl.
  - split; [|done]. intros _. split_and!; [done|by destruct (rp_rules p)|by apply Hs].
  - split; [done|]. intros (_ & _ & Hnd). assert (false = true); [|done].
    apply Hs. split; [done|]. set_solver.
Qed.

End PackFacts.

(** Every enumeration's text is read back to the same value. *)
Theorem enum_text_roundtrips :
  (∀ m, LossReference_from_str (LossReference_display m) = Ret m)
  ∧ (∀ m, DailyLossType_from_str (DailyLossType_display m) = Ret m)
  ∧ (∀ m, ConsistencyType_from_str (ConsistencyType_display m) = Ret m)
  ∧ (∀ l, PackLifecycle_from_str (PackLifecycle_display l) = Ret l)
  ∧ (∀ b, RuleBasis_from_str (RuleBasis_display b) = Ret b)
  ∧ (∀ u, RuleUnit_from_str (RuleUnit_display u) = Ret u).
Proof. split_and!; by intros []. Qed.

(** ** Witnesses *)

Import Samples.

Lemma plan_validate_iff_witness : ChallengePlan_validate plan = Ret tt.
Proof.
  apply (plan_validate_iff plan). unfold unit_pct.
  split_and!; try (vm_compute; (reflexivity || discriminate)).
  - intros c E. injection E as <-. split; vm_compute; discriminate.
Defined.
