(* ===== verification/RegistryFacts.v ===== *)
(** * Theorems on the rule registry

    The vector-with-index registry refines an ordered list of rules with
    distinct identifiers; the default registry evaluates every context
    without failing; the plan-specific registry reports what the full one
    does; a rule pack with an unsupported kind is refused. *)


From S2P Require Import Prelude.
From S2P Require Import Decimal.
From S2P Require Import Chrono.
From S2P Require Import Ids.
From S2P Require Import Domain.
From S2P Require Import Plan.
From S2P Require Import Account.
From S2P Require Import Violation.
From S2P Require Import Pack.
From S2P Require Import RuleApi.
#[local] Open Scope Z_scope.
From S2P Require Import DrawdownRules.
From S2P Require Import TargetRules.
From S2P Require Import TimeRules.
From S2P Require Import LimitRules.
From S2P Require Import PatternRules.
From S2P Require Import Registry.
From S2P Require Import RuleTotality.
From S2P Require Import Decision.
From S2P Require Import Samples.

(** ** The abstract registry: a list of rules with distinct identifiers *)

Section RegistryFacts.
Context `{DecimalOps} `{!JsonOps} `{ChronoOps}.
Implicit Types rules : list Rule.

Definition has_id (id : RuleId) (rule : Rule) : bool := bool_decide (rule_id rule = id).

Definition spec_register rules (rule : Rule) : list Rule :=
  if existsb (has_id (rule_id rule)) rules
  then (fun x => if has_id (rule_id rule) x then rule else x) <$> rules
  else rules ++ [rule].

Definition spec_unregister rules (id : RuleId) : list Rule :=
  List.filter (fun x => negb (has_id id x)) rules.

Definition spec_get rules (id : RuleId) : option Rule := List.find (has_id id) rules.

(** The index maps exactly the identifiers of the vector to their positions. *)
Definition reg_wf (r : RuleRegistry) : Prop :=
  ∀ id i, reg_by_id r !! id = Some i ↔ ∃ x, reg_rules r !! i = Some x ∧ rule_id x = id.

Lemma reg_wf_empty : reg_wf RuleRegistry_empty.
Proof. intros id i. simpl. rewrite lookup_empty. naive_solver. Qed.

(** Positions determine identifiers and conversely. *)
Lemma reg_wf_inj r i j x y :
  reg_wf r → reg_rules r !! i = Some x → reg_rules r !! j = Some y →
  rule_id x = rule_id y → i = j.
Proof.
  intros Hwf Hx Hy E.
  assert (reg_by_id r !! rule_id x = Some i) as E1 by (apply Hwf; eauto).
  assert (reg_by_id r !! rule_id x = Some j) as E2 by (apply Hwf; eauto). congruence.
Qed.

Lemma has_id_spec id x : has_id id x = true ↔ rule_id x = id.
Proof. unfold has_id. by rewrite bool_decide_eq_true. Qed.

Lemma existsb_has_id id rules :
  existsb (has_id id) rules = true ↔ ∃ i x, rules !! i = Some x ∧ rule_id x = id.
Proof.
  rewrite existsb_exists. setoid_rewrite has_id_spec. setoid_rewrite <- list_elem_of_In.
  setoid_rewrite list_elem_of_lookup. naive_solver.
Qed.

(** Replacing in place is mapping when identifiers are distinct. *)
Lemma insert_is_map rules i x (rule : Rule) :
  rules !! i = Some x → rule_id x = rule_id rule →
  (∀ j y, rules !! j = Some y → rule_id y = rule_id rule → j = i) →
  <[i := rule]> rules = (fun y => if has_id (rule_id rule) y then rule else y) <$> rules.
Proof.
  intros Hi Hx Huniq. apply list_eq. intros j. rewrite list_lookup_fmap.
  destruct (decide (j = i)) as [->|Hne].
  - rewrite list_lookup_insert_eq by by eapply lookup_lt_Some. rewrite Hi. simpl.
    by rewrite (proj2 (has_id_spec _ _) Hx).
  - rewrite list_lookup_insert_ne by done.
    destruct (rules !! j) as [y|] eqn:Hj; simpl; [|done].
    destruct (has_id (rule_id rule) y) eqn:E; [|done].
    apply has_id_spec in E. by destruct Hne; eapply Huniq.
Qed.

Lemma register_refines r rule :
  reg_wf r →
  ∃ r', RuleRegistry_register r rule = Ret r' ∧ reg_wf r'
      ∧ reg_rules r' = spec_register (reg_rules r) rule.
Proof.
  intros Hwf. unfold RuleRegistry_register, spec_register.
  destruct (reg_by_id r !! rule_id rule) as [i|] eqn:E.
  - destruct (proj1 (Hwf _ _) E) as (x & Hx & Hid).
    unfold vec_set. rewrite decide_True by by eapply lookup_lt_Some. simpl.
    rewrite (proj2 (existsb_has_id _ _)) by eauto.
    eexists. split_and!; [done| |].
    + intros id j. simpl. rewrite (Hwf id j). destruct (decide (j = i)) as [->|Hne].
      * rewrite Hx, list_lookup_insert_eq by by eapply lookup_lt_Some. naive_solver.
      * by rewrite list_lookup_insert_ne.
    + simpl. eapply insert_is_map; [done..|]. intros j y Hy Hyid.
      eapply reg_wf_inj; [done|exact Hy|exact Hx|congruence].
  - destruct (existsb (has_id (rule_id rule)) (reg_rules r)) eqn:Ex.
    { apply existsb_has_id in Ex as (i & x & Hx & Hid).
      assert (reg_by_id r !! rule_id rule = Some i) by (apply Hwf; eauto). congruence. }
    eexists. split_and!; [done| |done]. intros id j. simpl.
    destruct (decide (id = rule_id rule)) as [->|Hne].
    + rewrite lookup_insert_eq. split.
      * intros [= <-]. exists rule. by rewrite list_lookup_middle.
      * intros (x & Hx & Hid). apply lookup_snoc_Some in Hx as [[_ Hx]|[-> _]]; [|done].
        assert (reg_by_id r !! rule_id rule = Some j) by (apply Hwf; eauto). congruence.
    + rewrite lookup_insert_ne by done. rewrite (Hwf id j). split; intros (x & Hx & Hid); exists x.
      * split; [|done]. by apply lookup_app_l_Some.
      * apply lookup_snoc_Some in Hx as [[_ Hx]|[-> ->]]; [done|congruence].
Qed.

(** Removing a position is filtering when identifiers are distinct. *)
Lemma delete_is_filter rules i x id :
  rules !! i = Some x → rule_id x = id →
  (∀ j y, rules !! j = Some y → rule_id y = id → j = i) →
  delete i rules = spec_unregister rules id.
Proof.
  revert i. induction rules as [|a rules IH]; [done|]. intros [|i] Hi Hx Huniq; simplify_eq/=.
  - rewrite (proj2 (has_id_spec _ _)) by done. simpl. symmetry. apply filter_all_kept.
    intros y (j & Hj)%list_elem_of_lookup. destruct (has_id (rule_id x) y) eqn:E; [|done].
    apply has_id_spec in E. by specialize (Huniq (S j) y Hj E).
  - destruct (has_id (rule_id x) a) eqn:E.
    + apply has_id_spec in E. by specialize (Huniq 0%nat a eq_refl E).
    + simpl. f_equal. apply IH; [done..|]. intros j y Hj Hy.
      specialize (Huniq (S j) y Hj Hy). lia.
Qed.

Lemma reindex_spec rules k m id i :
  NoDup (rule_id <$> rules) →
  reindex_from k rules m !! id = Some i ↔
  (∃ j x, rules !! j = Some x ∧ rule_id x = id ∧ i = (k + j)%nat)
  ∨ (id ∉ (rule_id <$> rules) ∧ m !! id = Some i).
Proof.
  revert k m. induction rules as [|a rules IH]; intros k m Hnd; simpl.
  { split; [intros; right; split; [set_solver|done]|naive_solver]. }
  apply NoDup_cons in Hnd as [Ha Hnd]. rewrite IH by done.
  rewrite not_elem_of_cons. destruct (decide (id = rule_id a)) as [->|Hne].
  - rewrite lookup_insert_eq. split.
    + intros [(j & x & Hj & Hx & _)|[_ [= <-]]].
      * destruct Ha. rewrite <- Hx. apply list_elem_of_fmap_2, list_elem_of_lookup. eauto.
      * left. exists 0%nat, a. split_and!; [done..|lia].
    + intros [([|j] & x & Hj & Hx & ->)|[[] _]]; [|exfalso|done].
      * right. split; [done|]. f_equal. lia.
      * destruct Ha. rewrite <- Hx. apply list_elem_of_fmap_2, list_elem_of_lookup. eauto.
  - rewrite lookup_insert_ne by done. split.
    + intros [(j & x & Hj & Hx & ->)|[? ?]]; [left|by right].
      exists (S j), x. split_and!; [done..|lia].
    + intros [([|j] & x & Hj & Hx & ->)|[[? ?] ?]]; [simplify_eq/=|left|by right].
      exists j, x. split_and!; [done..|lia].
Qed.

Lemma reg_wf_NoDup r : reg_wf r → NoDup (rule_id <$> reg_rules r).
Proof.
  intros Hwf. apply NoDup_alt. intros i j id.
  rewrite !list_lookup_fmap, !fmap_Some. intros (x & Hx & ->) (y & Hy & Hid).
  by eapply reg_wf_inj.
Qed.

Lemma reindex_wf rules :
  NoDup (rule_id <$> rules) → reg_wf (mkRuleRegistry rules (reindex_from 0 rules ∅)).
Proof.
  intros Hnd id i. simpl. rewrite reindex_spec, lookup_empty by done. split.
  - intros [(j & x & ? & ? & ->)|[_ ?]]; [by eauto|done].
  - intros (x & ? & ?). left. eauto 6.
Qed.

Lemma unregister_refines r id :
  reg_wf r →
  ∃ r', RuleRegistry_unregister r id = Ret r' ∧ reg_wf r'
      ∧ reg_rules r' = spec_unregister (reg_rules r) id.
Proof.
  intros Hwf. unfold RuleRegistry_unregister.
  destruct (reg_by_id r !! id) as [i|] eqn:E.
  - destruct (proj1 (Hwf _ _) E) as (x & Hx & Hid).
    rewrite decide_True by by eapply lookup_lt_Some.
    eexists. split_and!; [done| |simpl].
    + apply reindex_wf. eapply sublist_NoDup; [by apply reg_wf_NoDup|].
      apply fmap_sublist, sublist_delete.
    + eapply delete_is_filter; [done..|]. intros j y Hy Hyid.
      eapply reg_wf_inj; [done|exact Hy|exact Hx|congruence].
  - exists r. split_and!; [done..|]. symmetry. apply filter_all_kept.
    intros y (j & Hj)%list_elem_of_lookup. destruct (has_id id y) eqn:Eh; [|done].
    apply has_id_spec in Eh.
    assert (reg_by_id r !! id = Some j) by (apply Hwf; eauto). congruence.
Qed.

Lemma find_lookup rules id i x :
  NoDup (rule_id <$> rules) → rules !! i = Some x → rule_id x = id →
  spec_get rules id = Some x.
Proof.
  unfold spec_get. revert i. induction rules as [|a rules IH]; [done|].
  intros [|i] [Ha Hnd]%NoDup_cons Hi Hx; simplify_eq/=.
  - by rewrite (proj2 (has_id_spec _ _)).
  - destruct (has_id (rule_id x) a) eqn:E; [|by eapply IH].
    apply has_id_spec in E. destruct Ha. rewrite E.
    apply list_elem_of_fmap_2, list_elem_of_lookup. eauto.
Qed.

Lemma get_refines r id : reg_wf r → RuleRegistry_get r id = Ret (spec_get (reg_rules r) id).
Proof.
  intros Hwf. unfold RuleRegistry_get. destruct (reg_by_id r !! id) as [i|] eqn:E.
  - destruct (proj1 (Hwf _ _) E) as (x & Hx & Hid). unfold vec_get. rewrite Hx. simpl.
    by rewrite (find_lookup _ id i x (reg_wf_NoDup _ Hwf) Hx Hid).
  - destruct (spec_get (reg_rules r) id) as [x|] eqn:Ef; [|done].
    apply find_some in Ef as [Hin%list_elem_of_In Hid%has_id_spec].
    apply list_elem_of_lookup in Hin as [i Hi].
    assert (reg_by_id r !! id = Some i) by (apply Hwf; eauto). congruence.
Qed.

(** Sequences of operations. *)
Inductive RegistryOp : Type :=
| OpRegister (rule : Rule)
| OpUnregister (id : RuleId).

Definition run_op (r : RuleRegistry) (op : RegistryOp) : outcome RuleRegistry :=
  match op with
  | OpRegister rule => RuleRegistry_register r rule
  | OpUnregister id => RuleRegistry_unregister r id
  end.

Definition spec_op rules (op : RegistryOp) : list Rule :=
  match op with
  | OpRegister rule => spec_register rules rule
  | OpUnregister id => spec_unregister rules id
  end.

Lemma ops_refine ops r :
  reg_wf r →
  ∃ r', foldM run_op r ops = Ret r' ∧ reg_wf r' ∧ reg_rules r' = fold_left spec_op ops (reg_rules r).
Proof.
  revert r. induction ops as [|op ops IH]; intros r Hwf; simpl; [by eauto|].
  assert (∃ r1, run_op r op = Ret r1 ∧ reg_wf r1 ∧ reg_rules r1 = spec_op (reg_rules r) op)
    as (r1 & -> & Hwf1 & <-).
  { destruct op; simpl; [by apply register_refines|by apply unregister_refines]. }
  by apply IH.
Qed.

(** C13: the registry refines an ordered list of rules.  Any sequence of
    registrations and removals from the empty registry succeeds (no index is
    ever out of range), leaves exactly the rules the list specification
    leaves, in its order and with distinct identifiers, and every lookup
    returns what a search of that list returns. *)
Theorem registry_refines_list ops :
  ∃ r, foldM run_op RuleRegistry_empty ops = Ret r
    ∧ RuleRegistry_all r = fold_left spec_op ops []
    ∧ NoDup (rule_id <$> RuleRegistry_all r)
    ∧ ∀ id, RuleRegistry_get r id = Ret (spec_get (RuleRegistry_all r) id).
Proof.
  destruct (ops_refine ops RuleRegistry_empty reg_wf_empty) as (r & ? & Hwf & ?).
  exists r. split_and!; [done..|by apply reg_wf_NoDup|]. intros. by apply get_refines.
Qed.

(** ** Evaluation *)

(** The rules a context asks for. *)
Definition selected (ctx : RuleContext) (rule : Rule) : bool :=
  match rule_is_enabled rule ctx with Ret b => b | _ => false end
  && scope_applicable (ctx_kind ctx) (rule_scope rule).

(** A report tells what its rule did: the verdict the rule returned, or the
    verdict of its failure policy when it failed. *)
Definition report_of (fr : Fresh) (ctx : RuleContext) (rule : Rule) (rep : RuleReport) : Prop :=
  rr_rule_id rep = rule_id rule ∧ rr_priority rep = rule_priority rule ∧
  match rule_evaluate rule fr ctx with
  | Ret v => rr_verdict rep = v
  | _ => ∃ base, vio_severity base = SevWarning
           ∧ rr_verdict rep = RuleRegistry_failure_verdict rule base
  end.

Lemma evaluate_rules_total fresh now ctx rules i :
  (∀ rule, rule ∈ rules → ∃ b, rule_is_enabled rule ctx = Ret b) →
  (∀ rule fr, rule ∈ rules → settles (rule_evaluate rule fr ctx)) →
  ∃ reports, evaluate_rules fresh now ctx i rules = Ret reports ∧
    Forall2 (fun rule rep => ∃ n, report_of (fresh n) ctx rule rep)
      (List.filter (selected ctx) rules) reports.
Proof.
  revert i. induction rules as [|rule rules IH]; intros i Hen Hse; simpl; [by eauto|].
  destruct (IH (S i)) as (reports & Hr & HF).
  { intros x Hx. apply Hen. by right. }
  { intros x fr Hx. apply Hse. by right. }
  destruct (Hen rule) as [b Hb]; [left|]. unfold selected at 1. rewrite Hb. simpl.
  destruct b; simpl; [|by eauto].
  destruct (scope_applicable (ctx_kind ctx) (rule_scope rule)); simpl; [|by eauto].
  unfold rule_verdict. rewrite Hr.
  destruct (rule_evaluate rule (fresh i) ctx) as [v|e| |] eqn:Ev; simpl;
    [eexists; split; [done|]; constructor; [exists i; unfold report_of; rewrite Ev|done]..|].
  - done.
  - split_and!; [done..|]. eexists. split; [|done]. done.
  - split_and!; [done..|]. eexists. split; [|done]. done.
  - exfalso. eapply Hse; [|exact Ev]. left.
Qed.

(** Registering rules with distinct identifiers keeps them in order. *)
Lemma spec_register_fresh rules rule :
  rule_id rule ∉ (rule_id <$> rules) → spec_register rules rule = rules ++ [rule].
Proof.
  intros Hn. unfold spec_register. destruct (existsb _ _) eqn:E; [|done].
  apply existsb_has_id in E as (i & x & Hx & Hid). destruct Hn. rewrite <- Hid.
  apply list_elem_of_fmap_2, list_elem_of_lookup. eauto.
Qed.

Lemma register_all rules r :
  reg_wf r → NoDup (rule_id <$> reg_rules r ++ rules) →
  ∃ r', foldM RuleRegistry_register r rules = Ret r' ∧ reg_wf r'
      ∧ reg_rules r' = reg_rules r ++ rules.
Proof.
  revert r. induction rules as [|rule rules IH]; intros r Hwf Hnd; simpl.
  { exists r. by rewrite app_nil_r. }
  destruct (register_refines r rule Hwf) as (r1 & -> & Hwf1 & E). simpl.
  rewrite spec_register_fresh in E.
  - destruct (IH r1) as (r' & ? & ? & Hr'); [done|by rewrite E, <- app_assoc|].
    exists r'. split_and!; [done..|]. by rewrite Hr', E, <- app_assoc.
  - rewrite fmap_app in Hnd. apply NoDup_app in Hnd as (_ & Hd & _).
    intros Hin. apply (Hd _ Hin). left.
Qed.

(** The keys of the default rules. *)
Definition default_keys : list string :=
  [ "daily_drawdown"; "max_drawdown"; "trailing_drawdown"; "profit_target";
    "min_trading_days"; "min_profitable_days"; "consistency"; "news_trading";
    "overnight_holding"; "weekend_holding"; "max_position_size"; "max_open_positions";
    "max_daily_trades"; "time_limit"; "cooldown"; "hedging"; "grid_trading";
    "copy_trading"; "sl_required"; "tp_required"; "hft_scalping"; "per_trade_max_loss";
    "inactivity"; "max_total_lots"; "trading_hours"; "margin"; "cross_account_hedging";
    "lowcap_exposure" ]%string.

(** Their identifiers, which are hashes, do not collide. *)
Lemma default_hashes_NoDup : NoDup (RuleId_named <$> default_keys).
Proof. apply (bool_decide_unpack _). vm_compute. exact I. Qed.

Lemma default_ids_NoDup : NoDup (rule_id <$> default_rules).
Proof. exact default_hashes_NoDup. Qed.

Lemma named_eqb a b :
  a ∈ default_keys → b ∈ default_keys →
  bool_decide (RuleId_named a = RuleId_named b) = bool_decide (a = b).
Proof.
  intros [i Hi]%list_elem_of_lookup [j Hj]%list_elem_of_lookup.
  apply bool_decide_ext. split; [|by intros ->]. intros E.
  pose proof (proj1 (NoDup_alt _) default_hashes_NoDup i j (RuleId_named a)) as Hij.
  rewrite !list_lookup_fmap, Hi, Hj in Hij. cbn [fmap option_fmap option_map] in Hij.
  rewrite <- E in Hij. rewrite (Hij eq_refl eq_refl) in Hi. congruence.
Qed.

Lemma default_registry :
  ∃ r, RuleRegistry_with_default_rules = Ret r ∧ reg_rules r = default_rules.
Proof.
  destruct (register_all default_rules RuleRegistry_empty) as (r & ? & _ & ?);
    [apply reg_wf_empty|apply default_ids_NoDup|]. eauto.
Qed.

Lemma default_rules_params rule : rule ∈ default_rules → rule_params rule = None.
Proof.
  unfold default_rules. intros Hin.
  repeat (apply elem_of_cons in Hin as [->|Hin]; [done|]).
  by apply not_elem_of_nil in Hin.
Qed.

Lemma default_failure_warns rule base :
  rule ∈ default_rules → RuleRegistry_failure_verdict rule base = VWarn base.
Proof.
  intros Hin. unfold RuleRegistry_failure_verdict. rewrite (default_rules_params _ Hin). reflexivity.
Qed.

(** C14: evaluating the default registry never fails.  It is built without
    error and holds every rule of the library; for every context it returns
    one report for each enabled rule of the context's scope, in order; each
    report carries the rule's own verdict, and a rule that errs or panics
    contributes a plain warning without disturbing the others. *)
Theorem default_evaluation_total fresh now ctx :
  ∃ r reports, RuleRegistry_with_default_rules = Ret r ∧ RuleRegistry_all r = default_rules
    ∧ RuleRegistry_evaluate fresh now r ctx = Ret reports
    ∧ Forall2 (fun rule rep => ∃ n, report_of (fresh n) ctx rule rep)
        (List.filter (selected ctx) default_rules) reports
    ∧ ∀ rule base, rule ∈ default_rules → RuleRegistry_failure_verdict rule base = VWarn base.
Proof.
  destruct default_registry as (r & ? & E).
  destruct (evaluate_rules_total fresh now ctx default_rules 0) as (reports & ? & ?).
  - intros. by apply default_rules_enabled.
  - intros. by apply default_rules_settle.
  - exists r, reports. unfold RuleRegistry_evaluate. rewrite E.
    split_and!; [done..|]. exact default_failure_warns.
Qed.

(** ** The registry of a plan *)

#[local] Opaque RuleId_named.

(** [plan_drops] on the key of a default rule, without hashes. *)
Lemma plan_drops_key plan key :
  key ∈ default_keys →
  plan_drops plan (RuleId_named key) = true →
  (key = "hft_scalping" ∧ plan_hft_ban_enabled plan = false)
  ∨ (key = "per_trade_max_loss" ∧ plan_per_trade_max_loss_pct plan = None
     ∧ plan_per_trade_max_loss_money plan = None)
  ∨ (key = "inactivity" ∧ plan_inactivity_days plan = None)
  ∨ (key = "min_profitable_days" ∧ plan_min_profitable_days plan = None)
  ∨ (key = "cross_account_hedging" ∧ plan_cross_account_hedging_prohibited plan = false)
  ∨ (key = "lowcap_exposure" ∧ plan_lowcap_exposure_limit_pct plan = None)
  ∨ (key = "hedging" ∧ plan_hedging_allowed plan = true)
  ∨ (key = "grid_trading" ∧ plan_grid_trading_allowed plan = true)
  ∨ (key = "copy_trading" ∧ plan_copy_trading_allowed plan = true)
  ∨ (key = "news_trading" ∧ plan_news_trading_allowed plan = true)
  ∨ (key = "cooldown" ∧ plan_cooldown_seconds plan = 0).
Proof.
  intros Hk. unfold plan_drops.
  rewrite !named_eqb by (done || (apply (bool_decide_unpack _); vm_compute; exact I)).
  rewrite !orb_true_iff, !andb_true_iff, !negb_true_iff, !bool_decide_eq_true,
    !bool_decide_eq_false, <- !eq_None_not_Some, Z.eqb_eq. tauto.
Qed.

(** A rule the plan drops is one the plan disables. *)
Lemma dropped_disabled rule ctx :
  rule ∈ default_rules → plan_drops (acc_plan (ctx_account ctx)) (rule_id rule) = true →
  rule_is_enabled rule ctx = Ret false.
Proof.
  unfold default_rules. intros Hin.
  repeat (apply elem_of_cons in Hin as [->|Hin];
    [simpl; intros Hd; apply plan_drops_key in Hd;
     [|unfold default_keys; repeat (first [left | right])];
     destruct_or! Hd; destruct_and! Hd; try discriminate;
     unfold MinProfitableDaysRule_is_enabled, NewsTradingRule_is_enabled,
       CooldownRule_is_enabled, HedgingRule_is_enabled, GridTradingRule_is_enabled,
       CopyTradingRule_is_enabled, PerTradeMaxLossRule_is_enabled; simpl;
     repeat match goal with E : ?x = _ |- context [?x] => rewrite E end; reflexivity|]).
  by apply not_elem_of_nil in Hin.
Qed.

(** Disabled rules leave no trace; with the same fresh value for every rule
    the position of a rule does not matter. *)
Lemma evaluate_filter fr now ctx (skip : Rule → bool) rules i j :
  (∀ rule, rule ∈ rules → skip rule = true → rule_is_enabled rule ctx = Ret false) →
  evaluate_rules (fun _ => fr) now ctx i (List.filter (fun r => negb (skip r)) rules)
  = evaluate_rules (fun _ => fr) now ctx j rules.
Proof.
  revert i j. induction rules as [|rule rules IH]; intros i j Hskip; simpl; [done|].
  assert (Hrest : ∀ r, r ∈ rules → skip r = true → rule_is_enabled r ctx = Ret false).
  { intros r Hr. apply Hskip. by right. }
  destruct (skip rule) eqn:E; simpl.
  - rewrite (Hskip rule (list_elem_of_here _ _) E). simpl. by apply IH.
  - by rewrite (IH (S i) (S j)).
Qed.

(** C15: dropping the rules a plan opts out of is an optimisation only.  The
    plan-specific registry is built without error, and for every account on
    that plan it gives the very reports of the full registry (all evaluations
    drawing the same fresh value). *)
Theorem plan_registry_equivalent fr now ctx :
  ∃ r rp, RuleRegistry_with_default_rules = Ret r
    ∧ RuleRegistry_with_default_rules_for_plan (acc_plan (ctx_account ctx)) = Ret rp
    ∧ RuleRegistry_evaluate (fun _ => fr) now rp ctx
      = RuleRegistry_evaluate (fun _ => fr) now r ctx.
Proof.
  destruct default_registry as (r & ? & E). set (plan := acc_plan (ctx_account ctx)).
  set (skip := fun rule => plan_drops plan (rule_id rule)).
  unfold RuleRegistry_with_default_rules_for_plan.
  rewrite (foldM_filter skip RuleRegistry_register).
  destruct (register_all (List.filter (fun a => negb (skip a)) default_rules) RuleRegistry_empty)
    as (rp & ? & _ & Erp); [apply reg_wf_empty|apply filter_NoDup_fmap, default_ids_NoDup|].
  exists r, rp. split; [assumption|]. split; [assumption|].
  unfold RuleRegistry_evaluate. rewrite E, Erp. cbn [app reg_rules RuleRegistry_empty].
  apply evaluate_filter. intros. by apply dropped_disabled.
Qed.

(** ** Rule packs *)

(** The rule of an entry, if its kind is supported; a factory never fails. *)
Definition entry_rule (e : RuleEntry) : option Rule :=
  factory ← default_factory_for_kind (re_kind e);
  match factory e with Ret rule => Some rule | _ => None end.

Lemma factory_never_fails kind factory e :
  default_factory_for_kind kind = Some factory → ∃ rule, factory e = Ret rule.
Proof.
  unfold default_factory_for_kind. intros E.
  repeat (case_bool_decide; [simplify_eq; by eexists|]). done.
Qed.

(** The rules of the enabled entries, in order; [None] when a kind is not
    supported. *)
Fixpoint pack_rules (entries : list RuleEntry) : option (list Rule) :=
  match entries with
  | [] => Some []
  | e :: rest =>
      if re_enabled e then
        rule ← entry_rule e; rules ← pack_rules rest; Some (rule :: rules)
      else pack_rules rest
  end.

Lemma build_entries_spec entries r :
  reg_wf r →
  let res := foldM (fun r entry =>
           if negb (re_enabled entry) then Ret r
           else
             let! factory := ok_or (InvalidConfig "rule pack {} references unsupported rule kind '{}' — the rule would silently not be enforced")
                               (default_factory_for_kind (re_kind entry)) in
             let! rule := factory entry in
             RuleRegistry_register r rule) r entries in
  match pack_rules entries with
  | Some rules => ∃ r', res = Ret r' ∧ reg_wf r' ∧ reg_rules r' = fold_left spec_register rules (reg_rules r)
  | None => ∃ msg, res = Err (InvalidConfig msg)
  end.
Proof.
  revert r. induction entries as [|e entries IH]; intros r Hwf; simpl; [by eauto|].
  destruct (re_enabled e); simpl; [|by apply IH].
  unfold entry_rule.
  destruct (default_factory_for_kind (re_kind e)) as [factory|] eqn:Ef; simpl; [|by eauto].
  destruct (factory_never_fails _ _ e Ef) as (rule & ->). simpl.
  destruct (register_refines r rule Hwf) as (r1 & -> & Hwf1 & E1). simpl.
  specialize (IH r1 Hwf1). destruct (pack_rules entries) as [rules|]; simpl; [|done].
  destruct IH as (r' & ? & ? & Er). exists r'. by rewrite Er, E1.
Qed.

(** Registered identifiers stay registered. *)
Lemma spec_register_ids rules rule id :
  id ∈ (rule_id <$> rules) ∨ id = rule_id rule → id ∈ (rule_id <$> spec_register rules rule).
Proof.
  intros Hid. destruct (existsb (has_id (rule_id rule)) rules) eqn:E.
  - assert (Hsame : rule_id <$> spec_register rules rule = rule_id <$> rules).
    { unfold spec_register. rewrite E, <- list_fmap_compose. apply list_fmap_ext. intros _ x _.
      simpl. destruct (has_id (rule_id rule) x) eqn:Ex; [|done]. by apply has_id_spec in Ex. }
    rewrite Hsame. destruct Hid as [?| ->]; [done|].
    apply existsb_has_id in E as (i & x & Hx & <-).
    apply list_elem_of_fmap_2, list_elem_of_lookup. eauto.
  - unfold spec_register. rewrite E, fmap_app, elem_of_app. simpl.
    rewrite list_elem_of_singleton. tauto.
Qed.

Lemma fold_register_ids rules acc id :
  id ∈ (rule_id <$> acc) ∨ id ∈ (rule_id <$> rules) →
  id ∈ (rule_id <$> fold_left spec_register rules acc).
Proof.
  revert acc. induction rules as [|rule rules IH]; intros acc Hid; simpl in *.
  { destruct Hid as [?|Hid]; [done|]. by apply not_elem_of_nil in Hid. }
  apply IH. rewrite elem_of_cons in Hid.
  destruct Hid as [?|[->|?]]; [left..|by right]; apply spec_register_ids; auto.
Qed.

Lemma spec_get_is_Some rules id :
  id ∈ (rule_id <$> rules) → ∃ rule, spec_get rules id = Some rule ∧ rule_id rule = id.
Proof.
  intros (x & -> & Hx)%list_elem_of_fmap. unfold spec_get.
  destruct (List.find (has_id (rule_id x)) rules) as [y|] eqn:E.
  - exists y. split; [done|]. by apply find_some in E as [_ ?%has_id_spec].
  - eapply find_none in E; [|by apply list_elem_of_In].
    assert (has_id (rule_id x) x = true) by by apply has_id_spec. congruence.
Qed.

(** C36: a rule pack is loaded completely or not at all.  If every enabled
    entry has a supported kind, the registry holds exactly their rules, a
    later entry of the same kind taking the place of an earlier one; if any
    enabled entry has an unsupported kind, loading is a configuration error. *)
Theorem pack_loaded_or_refused pack :
  match pack_rules (rp_rules pack) with
  | Some rules =>
      ∃ r, RuleRegistry_build_from_pack pack = Ret r
         ∧ RuleRegistry_all r = fold_left spec_register rules []
         ∧ ∀ rule, rule ∈ rules →
             ∃ rule', RuleRegistry_get r (rule_id rule) = Ret (Some rule')
                    ∧ rule_id rule' = rule_id rule
  | None => ∃ msg, RuleRegistry_build_from_pack pack = Err (InvalidConfig msg)
  end.
Proof.
  pose proof (build_entries_spec (rp_rules pack) _ reg_wf_empty) as Hb.
  unfold RuleRegistry_build_from_pack. destruct (pack_rules (rp_rules pack)) as [rules|]; [|done].
  destruct Hb as (r & -> & Hwf & E). cbn [reg_rules RuleRegistry_empty] in E. exists r. split_and!; [done..|].
  intros rule Hin. rewrite get_refines by done. rewrite E.
  destruct (spec_get_is_Some (fold_left spec_register rules []) (rule_id rule))
    as (rule' & -> & ?); [|by eauto].
  apply fold_register_ids. right. by apply list_elem_of_fmap_2.
Qed.

End RegistryFacts.
