(* ===== verification/EstimatedFacts.v ===== *)
(** * Estimated equity never fails an account

    On a tick whose equity is only estimated, no rule of the library can
    terminate the account for a loss: the only terminating verdicts are
    those of an expired deadline. *)


From S2P Require Import Prelude.
From S2P Require Import Decimal.
From S2P Require Import Chrono.
From S2P Require Import Ids.
From S2P Require Import Domain.
From S2P Require Import Plan.
From S2P Require Import Account.
From S2P Require Import Violation.
From S2P Require Import Pack.
From S2P Require Import RuleApi.
#[local] Open Scope Z_scope.
From S2P Require Import DrawdownRules.
From S2P Require Import TargetRules.
From S2P Require Import TimeRules.
From S2P Require Import LimitRules.
From S2P Require Import PatternRules.
From S2P Require Import Registry.
From S2P Require Import RuleTotality.
From S2P Require Import Decision.
From S2P Require Import Samples.
From S2P Require Import DecisionFacts.
From S2P Require Import RegistryFacts.

Section EstimatedFacts.
Context `{DecimalOps} `{!JsonOps} `{ChronoOps}.

(** The deadline the account runs under has passed. *)
Definition deadline_passed (ctx : RuleContext) : Prop :=
  ∃ d, TimeLimitRule_plan_deadline (ctx_account ctx) = Ret (Some d)
     ∧ ts_ltb d (ctx_server_time ctx) = true.

(** A verdict is harmless unless the deadline has passed. *)
Definition harmless (ctx : RuleContext) (m : outcome RuleVerdict) : Prop :=
  ∀ v, m = Ret v → RuleVerdict_is_terminating v = true → deadline_passed ctx.

Lemma harmless_bind {A} ctx (m : outcome A) f :
  (∀ a, m = Ret a → harmless ctx (f a)) → harmless ctx (obind m f).
Proof. intros Hf v E. apply bind_Ret_inv in E as (a & Ha & E). by eapply Hf. Qed.

Lemma harmless_Ret ctx v : RuleVerdict_is_terminating v = false → harmless ctx (Ret v).
Proof. intros Hv v' [= <-]. congruence. Qed.

(** Walks through an evaluator, discharging the branches that cannot
    terminate the account. *)
Ltac harmless_step :=
  match goal with
  | |- harmless _ (obind _ _) => apply harmless_bind; intros ? ?
  | |- harmless _ (Ret _) => apply harmless_Ret; reflexivity
  | |- harmless _ (match ?x with _ => _ end) => destruct x eqn:?
  end.
Ltac harmless := repeat harmless_step.

Section OneTick.
Variable ctx : RuleContext.
Variables e b : Money.
Hypothesis Hest : ctx_equity_input ctx = Estimated e b.
Hypothesis Hpending : ctx_pending_order ctx = None.

Lemma daily_harmless fr : harmless ctx (DailyDrawdownRule_evaluate None fr ctx).
Proof.
  unfold DailyDrawdownRule_evaluate, RuleContext_require_broker_equity. rewrite Hest. simpl.
  harmless.
Qed.

Lemma max_harmless fr : harmless ctx (MaxDrawdownRule_evaluate None fr ctx).
Proof.
  unfold MaxDrawdownRule_evaluate, RuleContext_require_broker_equity. rewrite Hest. simpl.
  harmless.
Qed.

Lemma trailing_harmless fr : harmless ctx (TrailingDrawdownRule_evaluate None fr ctx).
Proof.
  unfold TrailingDrawdownRule_evaluate, RuleContext_require_broker_equity. rewrite Hest. simpl.
  harmless.
Qed.

Lemma target_harmless fr : harmless ctx (ProfitTargetRule_evaluate None fr ctx).
Proof.
  unfold ProfitTargetRule_evaluate. harmless. intros v _ _.
  exists t. unfold TimeLimitRule_plan_deadline. by rewrite Heqo1.
Qed.

Lemma time_limit_harmless fr : harmless ctx (TimeLimitRule_evaluate None fr ctx).
Proof.
  unfold TimeLimitRule_evaluate. harmless. intros v _ _. by exists t.
Qed.

Lemma overnight_harmless fr : harmless ctx (OvernightHoldingRule_evaluate None fr ctx).
Proof. unfold OvernightHoldingRule_evaluate. rewrite Hpending. simpl. harmless. Qed.

Lemma weekend_harmless fr : harmless ctx (WeekendHoldingRule_evaluate None fr ctx).
Proof. unfold WeekendHoldingRule_evaluate. rewrite Hpending. harmless. Qed.

Lemma cross_harmless fr : harmless ctx (CrossAccountHedgingRule_evaluate None fr ctx).
Proof. unfold CrossAccountHedgingRule_evaluate. harmless. Qed.

Lemma lowcap_harmless fr : harmless ctx (LowcapExposureRule_evaluate None fr ctx).
Proof. unfold LowcapExposureRule_evaluate. harmless. Qed.

(** The rules that a tick runs. *)
Lemma tick_rules_harmless rule fr :
  rule ∈ default_rules → scope_applicable OnTick (rule_scope rule) = true →
  harmless ctx (rule_evaluate rule fr ctx).
Proof.
  unfold default_rules. intros Hin Hs.
  repeat (apply elem_of_cons in Hin as [->|Hin];
    [first [discriminate Hs
           | simpl; auto using daily_harmless, max_harmless, trailing_harmless, target_harmless,
               time_limit_harmless, overnight_harmless, weekend_harmless, cross_harmless,
               lowcap_harmless]|]).
  by apply not_elem_of_nil in Hin.
Qed.

End OneTick.

(** Any selection of the default rules, on a tick with estimated equity:
    the evaluation succeeds, and a terminating decision needs an expired
    deadline. *)
Lemma estimated_rules_harmless fresh now ctx e b rules :
  (∀ rule, rule ∈ rules → rule ∈ default_rules) →
  ctx_kind ctx = OnTick → ctx_equity_input ctx = Estimated e b → ctx_pending_order ctx = None →
  ∃ reports, evaluate_rules fresh now ctx 0 rules = Ret reports
    ∧ (Decision_is_terminating (Decision_from_reports reports) = true → deadline_passed ctx).
Proof.
  intros Hsub Hkind Hest Hpending.
  destruct (evaluate_rules_total fresh now ctx rules 0) as (reports & Hev & HF);
    [intros; by apply default_rules_enabled, Hsub|intros; by apply default_rules_settle, Hsub|].
  exists reports. split; [exact Hev|]. intros Hterm.
  rewrite (proj1 (from_reports_terminating reports)) in Hterm.
  apply existsb_exists in Hterm as (rep & Hrep%list_elem_of_In & Ht).
  apply list_elem_of_lookup in Hrep as [i Hi].
  destruct (Forall2_lookup_r _ _ _ _ _ HF Hi) as (rule & Hrule & n & _ & _ & Hv).
  apply list_elem_of_lookup_2, list_elem_of_In, filter_In in Hrule as [Hin Hsel].
  apply list_elem_of_In in Hin. apply andb_true_iff in Hsel as [_ Hsel]. rewrite Hkind in Hsel.
  destruct (rule_evaluate rule (fresh n) ctx) as [v|err| |] eqn:Ev.
  { subst v. eapply tick_rules_harmless; eauto. }
  all: destruct Hv as (base & _ & Hv); rewrite Hv, default_failure_warns in Ht by auto;
    discriminate Ht.
Qed.

(** An account never fails on an estimate.  When the default registry is
    evaluated on a tick with estimated equity, a terminating decision implies
    that the account's deadline has passed: no loss limit, exposure rule or
    failing evaluator terminates it. *)
Theorem estimated_tick_never_breaches fresh now ctx e b reports r
    (Hreg : RuleRegistry_with_default_rules = Ret r)
    (Hkind : ctx_kind ctx = OnTick)
    (Hest : ctx_equity_input ctx = Estimated e b)
    (Hpending : ctx_pending_order ctx = None)
    (Heval : RuleRegistry_evaluate fresh now r ctx = Ret reports)
    (Hterm : Decision_is_terminating (Decision_from_reports reports) = true) :
  deadline_passed ctx.
Proof.
  destruct default_registry as (r' & Hr' & Er'). rewrite Hr' in Hreg. injection Hreg as <-.
  destruct (estimated_rules_harmless fresh now ctx e b default_rules) as (reports' & Hev & Hd); auto.
  unfold RuleRegistry_evaluate in Heval. rewrite Er', Hev in Heval. injection Heval as ->. auto.
Qed.

End EstimatedFacts.

(** ** Witness *)

Import Samples.

(** A tick with estimated equity, a day after the thirty-day limit. *)
Definition late_ctx : RuleContext :=
  (tick_ctx account (money 10000)) <| ctx_equity_input := Estimated (money 10000) (money 10000) |>
    <| ctx_server_time := noon + 31 * ns_day |>.

Definition terminates (m : outcome (list RuleReport)) : bool :=
  match m with Ret reports => Decision_is_terminating (Decision_from_reports reports) | _ => false end.

Lemma estimated_tick_never_breaches_witness : deadline_passed late_ctx.
Proof.
  destruct default_registry as (r & Hr & Er).
  assert (Hm : terminates (evaluate_rules (fun _ => fresh) noon late_ctx 0 default_rules) = true)
    by (vm_compute; reflexivity).
  destruct (evaluate_rules (fun _ => fresh) noon late_ctx 0 default_rules) as [reports|?| |] eqn:E;
    [|discriminate Hm..].
  apply (estimated_tick_never_breaches (fun _ => fresh) noon late_ctx (money 10000) (money 10000)
           reports r); [exact Hr|reflexivity..| |exact Hm].
  unfold RuleRegistry_evaluate. by rewrite Er.
Defined.
