(* ===== verification/StateFacts.v ===== *)
(** * Theorems on account state

    Accounting of realised profit, the override round trips, the phases, and
    the rollover of a trading day. *)


From S2P Require Import Prelude.
From S2P Require Import Decimal.
From S2P Require Import Chrono.
From S2P Require Import Ids.
From S2P Require Import Domain.
From S2P Require Import Plan.
From S2P Require Import Account.
From S2P Require Import Violation.
From S2P Require Import Pack.
From S2P Require Import RuleApi.
#[local] Open Scope Z_scope.
From S2P Require Import Registry.
From S2P Require Import Decision.
From S2P Require Import State.
From S2P Require Import Pipeline.
From S2P Require Import Samples.

Section StateFacts.
Context `{DL : DecimalLaws} `{ChronoOps}.
Implicit Types a : Account.

(** ** Realised profit *)

(** C28: booking a fill is exact.  For amounts of up to fifteen digits with
    four decimals the balance, the day's result and the total result all move
    by exactly [pnl - commission - swap]; commissions and swaps accumulate
    separately; the equity is reset to the balance; the peak balance becomes
    the larger of the old peak and the new balance; and the time of the last
    trade is recorded. *)
Theorem realized_pnl_accounting a pnl commission swap at_
    (Hpnl : Fits 15 4 pnl) (Hc : Fits 15 4 commission) (Hs : Fits 15 4 swap)
    (Hbal : Fits 17 4 (acc_balance a)) (Htod : Fits 17 4 (acc_today_realized_pnl a))
    (Htot : Fits 17 4 (acc_total_realized_pnl a))
    (Hcom : Fits 17 4 (acc_total_commissions a)) (Hswp : Fits 17 4 (acc_total_swaps a)) :
  let net := (dval pnl - dval commission - dval swap)%Q in
  ∃ a', AccountState_apply_realized_pnl a pnl commission swap at_ = Ret a'
    ∧ (dval (acc_balance a') == dval (acc_balance a) + net)%Q
    ∧ (dval (acc_today_realized_pnl a') == dval (acc_today_realized_pnl a) + net)%Q
    ∧ (dval (acc_total_realized_pnl a') == dval (acc_total_realized_pnl a) + net)%Q
    ∧ (dval (acc_total_commissions a') == dval (acc_total_commissions a) + dval commission)%Q
    ∧ (dval (acc_total_swaps a') == dval (acc_total_swaps a) + dval swap)%Q
    ∧ acc_equity a' = acc_balance a'
    ∧ (dval (acc_peak_balance a') == Qmax (dval (acc_peak_balance a)) (dval (acc_balance a')))%Q
    ∧ acc_last_trade_at a' = Some at_.
Proof.
  intros net. unfold AccountState_apply_realized_pnl.
  destruct (dsub_fits 15 4 _ _ _ _ _ _ Hpnl Hc) as (x & -> & Ex & Fx); [lia|]. simpl.
  destruct (dsub_fits 16 4 _ _ _ _ _ _ Fx Hs) as (n & -> & En & Fn); [lia|]. simpl.
  assert (E : (dval n == net)%Q) by (rewrite En, Ex; reflexivity).
  destruct (dadd_fits 17 4 _ _ _ _ _ _ Hbal Fn) as (b & -> & Eb & Fb); [lia|]. simpl.
  set (a1 := raise_peak_balance _).
  assert (acc_today_realized_pnl a1 = acc_today_realized_pnl a
    ∧ acc_total_realized_pnl a1 = acc_total_realized_pnl a
    ∧ acc_total_commissions a1 = acc_total_commissions a
    ∧ acc_total_swaps a1 = acc_total_swaps a) as (Ht1 & Ht2 & Ht3 & Ht4)
    by (unfold a1, raise_peak_balance; by case_match).
  rewrite <- Ht1 in Htod. rewrite <- Ht2 in Htot. rewrite <- Ht3 in Hcom. rewrite <- Ht4 in Hswp.
  destruct (dadd_fits 17 4 _ _ _ _ _ _ Htod Fn) as (t & -> & Et & _); [lia|]. simpl.
  destruct (dadd_fits 17 4 _ _ _ _ _ _ Htot Fn) as (u & -> & Eu & _); [lia|]. simpl.
  destruct (dadd_fits 17 4 _ _ _ _ _ _ Hcom Hc) as (v & -> & Ev & _); [lia|]. simpl.
  destruct (dadd_fits 17 4 _ _ _ _ _ _ Hswp Hs) as (w & -> & Ew & _); [lia|]. simpl.
  eexists. split; [done|]. simpl.
  rewrite Et, Eu, Ev, Ew, Ht1, Ht2, Ht3, Ht4, E.
  unfold a1, raise_peak_balance. simpl.
  destruct (dec_gtb b (acc_peak_balance a)) eqn:Eg; dec_bool; simpl;
    split_and!; try done; try (by rewrite Eb, E).
  - rewrite Q.max_r; [done|]. by apply Qlt_le_weak.
  - by rewrite Q.max_l.
Qed.

(** ** Overrides *)

Lemma terminate_clear a d at_ actor st a' evs :
  Decision_account_status_target d = Some st →
  decision_terminate_step a d at_ actor = Ret (a', evs) →
  AccountState_clear_breach a' = Ret (a <| acc_status_before_breach := None |>).
Proof.
  unfold decision_terminate_step. intros Et E. rewrite Et in E.
  assert (Hs : st = StFailed ∨ st = StEmergencyStopped).
  { unfold Decision_account_status_target in Et. destruct (dec_kind d); simplify_eq/=; auto. }
  destruct Hs as [-> | ->]; simpl in E; destruct (dec_kind d); monad_inv; by destruct a.
Qed.

Lemma terminating_not_target d st at_ a :
  Decision_account_status_target d = Some st → decision_target_step a d at_ = (a, []).
Proof.
  unfold Decision_account_status_target, decision_target_step, Decision_is_target_hit.
  by destruct (dec_kind d).
Qed.

(** Applying a terminating decision and then an override. *)
Lemma breach_clear a d at_ actor st a' evs :
  promotion_due a = false → Decision_account_status_target d = Some st →
  apply_decision a d at_ actor = Ret (a', evs) →
  AccountState_clear_breach a' = Ret (a <| acc_status_before_breach := None |>).
Proof.
  intros Hp Ht E. unfold apply_decision in E.
  rewrite (terminating_not_target _ _ _ _ Ht) in E.
  unfold decision_promotion_step in E. rewrite Hp in E. simpl in E.
  apply bind_Ret_inv in E as ([a3 ev3] & E3 & E). monad_inv. by eapply terminate_clear.
Qed.

(** C31: an override undoes a breach.  After a terminating decision on an
    account with no promotion due, clearing the breach gives back the very
    account the decision was applied to, all fields equal (its record of an
    earlier breach apart).  Its status too, so that an account that was, say,
    funded or stopped before does not come back as active, as the comment on
    [clear_breach] has it. *)
Theorem override_undoes_breach a d at_ actor st a' evs
    (Hp : promotion_due a = false)
    (Ht : Decision_account_status_target d = Some st)
    (Hd : apply_decision a d at_ actor = Ret (a', evs)) :
  acc_status a' = st ∧ AccountStatus_is_breach_terminal st = true ∧
  AccountState_clear_breach a' = Ret (a <| acc_status_before_breach := None |>).
Proof.
  assert (AccountState_clear_breach a' = Ret (a <| acc_status_before_breach := None |>)) as Hc
    by by eapply breach_clear.
  split_and!; [| |done].
  - unfold apply_decision in Hd. rewrite (terminating_not_target _ _ _ _ Ht) in Hd.
    unfold decision_promotion_step in Hd. rewrite Hp in Hd. simpl in Hd.
    apply bind_Ret_inv in Hd as ([a3 ev3] & E3 & E). monad_inv.
    unfold decision_terminate_step in E3. rewrite Ht in E3.
    destruct (dec_kind d); monad_inv; done.
  - unfold Decision_account_status_target in Ht. destruct (dec_kind d); simplify_eq/=; done.
Qed.

(** An emergency stop is undone the same way: stopping an account with
    no breach on record and clearing the breach gives back the account. *)
Theorem emergency_stop_clear a (Hb : acc_status_before_breach a = None) :
  AccountState_clear_breach (AccountState_emergency_stop a) = Ret a.
Proof. destruct a. simpl in Hb. by subst. Qed.

(** A rule breach in the call that stops an account hides the status the
    stop had saved: one override then leaves the account emergency-stopped,
    with no breach on record. *)
Theorem stop_then_breach_keeps_stopped a d at_ actor st a' evs
    (Ht : Decision_account_status_target d = Some st)
    (Hd : apply_decision (AccountState_emergency_stop a) d at_ actor = Ret (a', evs)) :
  ∃ a'', AccountState_clear_breach a' = Ret a'' ∧ acc_status a'' = StEmergencyStopped
       ∧ acc_status_before_breach a'' = None.
Proof.
  eexists. split; [eapply breach_clear; [|done..]|].
  - unfold promotion_due, AccountState_emergency_stop.
    destruct (acc_status_before_breach a); simpl; by rewrite andb_false_r.
  - unfold AccountState_emergency_stop. by destruct (acc_status_before_breach a).
Qed.

End StateFacts.

(** ** Witnesses *)

Import Samples.

Lemma realized_pnl_accounting_witness :
  ∃ a', AccountState_apply_realized_pnl account (money 100) (money 2) (money 1) noon = Ret a'
    ∧ (acc_balance a' == 10097)%Q.
Proof.
  destruct (realized_pnl_accounting account (money 100) (money 2) (money 1) noon)
    as (a' & Ha & Hb & _);
    try (exists 0; split; [vm_compute; discriminate|vm_compute; reflexivity]).
  - exists 1000000. split; [vm_compute; discriminate|vm_compute; reflexivity].
  - exists 20000. split; [vm_compute; discriminate|vm_compute; reflexivity].
  - exists 10000. split; [vm_compute; discriminate|vm_compute; reflexivity].
  - exists 100000000. split; [vm_compute; discriminate|vm_compute; reflexivity].
  - exists a'. split; [exact Ha|]. etransitivity; [exact Hb|]. vm_compute. reflexivity.
Defined.

Definition failing : Decision := Decision_from_reports [report 9 (VFail (violation 1))].

(** The account after the failing decision, from [a]. *)
Definition failed_from (a : Account) : Account :=
  match apply_decision a failing noon "rule_engine" with Ret (a', _) => a' | _ => a end.

Lemma override_undoes_breach_witness :
  AccountState_clear_breach (failed_from account)
  = Ret (account <| acc_status_before_breach := None |>).
Proof.
  assert (Hr : is_ret (apply_decision account failing noon "rule_engine") = true)
    by (vm_compute; reflexivity).
  destruct (apply_decision account failing noon "rule_engine") as [[a' evs]|?| |] eqn:E;
    [|discriminate Hr..].
  replace (failed_from account) with a' by (unfold failed_from; by rewrite E).
  exact (proj2 (proj2 (override_undoes_breach account failing noon "rule_engine" StFailed a' evs
           eq_refl eq_refl E))).
Defined.

Lemma emergency_stop_clear_witness :
  AccountState_clear_breach (AccountState_emergency_stop account) = Ret account.
Proof. apply (emergency_stop_clear account). reflexivity. Defined.

Lemma stop_then_breach_keeps_stopped_witness :
  ∃ a'', AccountState_clear_breach (failed_from (AccountState_emergency_stop account)) = Ret a''
       ∧ acc_status a'' = StEmergencyStopped.
Proof.
  assert (Hr : is_ret (apply_decision (AccountState_emergency_stop account) failing noon
                         "rule_engine") = true) by (vm_compute; reflexivity).
  destruct (apply_decision (AccountState_emergency_stop account) failing noon "rule_engine")
    as [[a' evs]|?| |] eqn:E; [|discriminate Hr..].
  replace (failed_from (AccountState_emergency_stop account)) with a'
    by (unfold failed_from; by rewrite E).
  destruct (stop_then_breach_keeps_stopped account failing noon "rule_engine" StFailed a' evs
              eq_refl E) as (a'' & Hc & Hs & _).
  exists a''. split; [exact Hc|exact Hs].
Defined.
