(* ===== verification/PayoutFacts.v ===== *)
(** * Theorems on payouts

    What a quote amounts to and exactly when it is accepted, and how the
    watermark of a payout limits the next one. *)


From S2P Require Import Prelude.
From S2P Require Import Decimal.
From S2P Require Import Chrono.
From S2P Require Import Ids.
From S2P Require Import Domain.
From S2P Require Import Plan.
From S2P Require Import Account.
From S2P Require Import Violation.
From S2P Require Import Pack.
From S2P Require Import RuleApi.
#[local] Open Scope Z_scope.
From S2P Require Import State.
From S2P Require Import Samples.

Section PayoutFacts.
Context `{DL : DecimalLaws} `{CL : ChronoLaws}.
Implicit Types a : Account.

(** The days a cycle requires between payouts. *)
Definition cycle_days (c : PayoutCycle) : option Z :=
  match c with OnDemandCycle => None | BiWeekly => Some 14 | Monthly => Some 30 end.

(** The cycle allows a payout at [now]. *)
Definition cycle_allows (c : PayoutCycle) (last : option Timestamp) (now : Timestamp) : Prop :=
  match cycle_days c, last with
  | Some d, Some l => ts_nanos l + d * ns_day ≤ ts_nanos now
  | _, _ => True
  end.

Lemma cycle_check_spec config last now :
  (∀ l, last = Some l → ts_near (ts_nanos l)) →
  ∃ r, payout_cycle_check config last now = Ret r
     ∧ (r = None ↔ cycle_allows (pc_cycle config) last now).
Proof.
  intros Hl. unfold payout_cycle_check, cycle_allows.
  destruct (pc_cycle config); simpl; [by exists None|..].
  1: destruct (dur_days_spec 14) as (d & -> & Hd); [lia|].
  2: destruct (dur_days_spec 30) as (d & -> & Hd); [lia|].
  all: simpl; destruct last as [l|]; [|by exists None].
  all: destruct (ts_add_total l d) as [t Ht];
    [specialize (Hl l eq_refl); unfold ts_range, ts_near, ns_day, ns_second in *; lia|].
  all: rewrite Ht; simpl; apply ts_add_spec in Ht; rewrite Hd in Ht.
  all: destruct (ts_ltb now t) eqn:E; ts_bool; eexists; (split; [done|]); split; (done || lia).
Qed.

(** The reference of a quote: the watermark, or the initial balance. *)
Definition quote_reference a (balance_at_last_payout : option Money) : Money :=
  default (acc_initial_balance a) balance_at_last_payout.

Definition quote_refund a (refund_used : bool) : Money :=
  if (acc_payout_count a =? 0) && negb refund_used
  then plan_refund_fee_amount (acc_plan a) else dec_zero.

Lemma quote_payout_spec a config last watermark used now :
  Fits 15 4 (acc_balance a) → Fits 15 4 (quote_reference a watermark) →
  Fits 4 4 (PayoutConfig_trader_share_for config (acc_payout_count a)) →
  Fits 15 4 (quote_refund a used) →
  (∀ l, last = Some l → ts_near (ts_nanos l)) →
  let basis := Qmax (dval (acc_balance a) - dval (quote_reference a watermark)) 0 in
  let share := dval (PayoutConfig_trader_share_for config (acc_payout_count a)) in
  let amount := (basis * share + dval (quote_refund a used))%Q in
  ∃ q, quote_payout a config last watermark used now = Ret q
    ∧ (dval (pq_profit_basis q) == basis)%Q ∧ (dval (pq_amount q) == amount)%Q
    ∧ pq_fee_refund q = quote_refund a used
    ∧ (pq_rejected q = None ↔
       (0 < basis)%Q ∧ (dval (pc_minimum_payout config) <= amount)%Q
       ∧ cycle_allows (pc_cycle config) last now)
    ∧ ((basis <= 0)%Q → pq_rejected q = Some NoProfit).
Proof.
  intros Hb Hr Hs Hf Hl basis share amount. unfold quote_payout.
  fold (quote_reference a watermark) (quote_refund a used).
  destruct (dsub_fits 15 4 _ _ _ _ _ _ Hb Hr) as (d & -> & Ed & Fd); [lia|]. simpl.
  assert (Fm : Fits 16 4 (dec_max d dec_zero)) by (apply Fits_max; [done|apply Fits_zero; lia]).
  assert (Em : (dval (dec_max d dec_zero) == basis)%Q)
    by by (rewrite dval_max, Ed, dval_zero).
  destruct (dmul_fits _ _ _ _ _ _ Fm Hs) as (x & -> & Ex & Fx); [lia|]. simpl.
  destruct (dadd_fits 20 8 _ _ _ _ _ _ Fx Hf) as (am & -> & Ea & _); [simpl; lia|]. simpl.
  assert (Eam : (dval am == amount)%Q) by (by rewrite Ea, Ex, Em).
  destruct (dec_leb (dec_max d dec_zero) dec_zero) eqn:E1; dec_bool; rewrite Em in E1; simpl.
  { eexists. split; [done|]. simpl. split_and!; [done..| |done].
    split; [done|]. intros (Hpos & _). by apply (Qlt_not_le 0 basis) in Hpos. }
  destruct (dec_ltb am (pc_minimum_payout config)) eqn:E2; dec_bool; rewrite Eam in E2; simpl.
  { eexists. split; [done|]. simpl. split_and!; [done..| |].
    - split; [done|]. intros (_ & Hmin & _). by apply (Qlt_not_le _ _ E2) in Hmin.
    - intros Hle. by apply (Qlt_not_le 0 basis) in Hle. }
  destruct (cycle_check_spec config last now Hl) as (r & -> & Hr'). simpl.
  eexists. split; [done|]. simpl. split_and!; [done..| |].
  - rewrite Hr'. tauto.
  - intros Hle. by apply (Qlt_not_le 0 basis) in Hle.
Qed.

(** C35: when a payout is accepted.  For a balance, a reference and a refund
    of at most 10^11 with at most four decimals, a share of at most 1 with at
    most four decimals, and a last payout (if any) within the calendar's range,
    the quote returns; its basis is the profit above the watermark, its amount the
    trader's share of the basis plus the fee refund (first payout only), and it
    is accepted exactly when there is a profit, the amount reaches the minimum
    and the cycle's days have passed since the last payout. *)
Theorem payout_quote_accepted_iff a config last watermark used now
    (Hb : Fits 15 4 (acc_balance a)) (Hr : Fits 15 4 (quote_reference a watermark))
    (Hs : Fits 4 4 (PayoutConfig_trader_share_for config (acc_payout_count a)))
    (Hf : Fits 15 4 (quote_refund a used))
    (Hl : ∀ l, last = Some l → ts_near (ts_nanos l)) :
  let basis := Qmax (dval (acc_balance a) - dval (quote_reference a watermark)) 0 in
  let share := dval (PayoutConfig_trader_share_for config (acc_payout_count a)) in
  let amount := (basis * share + dval (quote_refund a used))%Q in
  ∃ q, quote_payout a config last watermark used now = Ret q
    ∧ (dval (pq_profit_basis q) == basis)%Q ∧ (dval (pq_amount q) == amount)%Q
    ∧ (pq_rejected q = None ↔
       (0 < basis)%Q ∧ (dval (pc_minimum_payout config) <= amount)%Q
       ∧ cycle_allows (pc_cycle config) last now).
Proof.
  intros basis share amount.
  destruct (quote_payout_spec a config last watermark used now Hb Hr Hs Hf Hl)
    as (q & ? & ? & ? & _ & ? & _). by exists q.
Qed.

(** The watermark of a payout is the balance before the deduction.
    After a payout of [amount] with refund [refund], and any later change of
    the balance to [b], the next quote's basis is only what [b] exceeds the
    balance before the payout by: a gain of up to [amount - refund] earned
    after the payout is not payable. *)
Theorem payout_watermark a amount refund at_ a' b config last used now
    (Hp : record_payout a amount refund at_ = Ret a')
    (Hbal : Fits 15 4 (acc_balance a)) (Ham : Fits 15 4 amount) (Hre : Fits 15 4 refund)
    (Hb : Fits 15 4 b)
    (Hs : Fits 4 4 (PayoutConfig_trader_share_for config (acc_payout_count a')))
    (Hf : Fits 15 4 (quote_refund a' used))
    (Hl : ∀ l, last = Some l → ts_near (ts_nanos l)) :
  let gain := (dval b - dval (acc_balance a'))%Q in
  ∃ q, quote_payout (a' <| acc_balance := b |>) config last
         (Some (acc_balance_at_last_payout a')) used now = Ret q
    ∧ (dval (pq_profit_basis q) == Qmax (gain - (dval amount - dval refund)) 0)%Q
    ∧ ((gain <= dval amount - dval refund)%Q → pq_rejected q = Some NoProfit).
Proof.
  intros gain. unfold record_payout in Hp.
  destruct (negb _ && negb _); [done|].
  destruct (dsub_fits 15 4 _ _ _ _ _ _ Hbal Ham) as (x & Ex & Vx & Fx); [lia|].
  destruct (dadd_fits 16 4 _ _ _ _ _ _ Fx Hre) as (y & Ey & Vy & _); [lia|].
  simpl in Hp. rewrite Ex in Hp. simpl in Hp. rewrite Ey in Hp. simpl in Hp.
  assert (Hw : acc_balance_at_last_payout a' = acc_balance a ∧ acc_balance a' = y)
    by (injection Hp as <-; by case_bool_decide).
  destruct Hw as [Hw Hy].
  destruct (quote_payout_spec (a' <| acc_balance := b |>) config last
              (Some (acc_balance_at_last_payout a')) used now) as (q & Hq & Hbasis & _ & _ & _ & Hno);
    [done|unfold quote_reference; simpl; by rewrite Hw|done..|].
  simpl in Hbasis, Hno. rewrite Hw in Hbasis, Hno.
  assert (E : (dval b - dval (acc_balance a) == gain - (dval amount - dval refund))%Q).
  { subst gain. rewrite Hy, Vy, Vx. ring. }
  exists q. split_and!; [done|by rewrite Hbasis, E|].
  intros Hle. apply Hno. rewrite E. rewrite Q.max_r; [done|]. lra.
Qed.

End PayoutFacts.

(** ** Witnesses *)

Import Samples.

(** A funded account with a profit of one thousand. *)
Definition funded_account : Account :=
  account <| acc_status := StFunded |> <| acc_balance := money 11000 |>.

Ltac q_fits m := exists m; split; [vm_compute; discriminate|vm_compute; reflexivity].

Lemma payout_quote_accepted_iff_witness :
  ∃ q, quote_payout funded_account PayoutConfig_default None None false noon = Ret q
    ∧ pq_rejected q = None.
Proof.
  destruct (payout_quote_accepted_iff funded_account PayoutConfig_default None None false noon)
    as (q & Hq & _ & _ & Hacc).
  - q_fits 110000000.
  - q_fits 100000000.
  - q_fits 8000.
  - q_fits 0.
  - intros l E. discriminate E.
  - exists q. split; [exact Hq|]. apply Hacc.
    split; [vm_compute; reflexivity|]. split; [vm_compute; discriminate|exact I].
Defined.

(** The account after a payout of eight hundred. *)
Definition paid_account : Account :=
  match record_payout funded_account (money 800) (money 0) noon with
  | Ret a => a | _ => funded_account
  end.

Lemma payout_watermark_witness :
  ∃ q, quote_payout (paid_account <| acc_balance := money 10900 |>) PayoutConfig_default None
         (Some (acc_balance_at_last_payout paid_account)) false noon = Ret q
    ∧ pq_rejected q = Some NoProfit.
Proof.
  destruct (payout_watermark funded_account (money 800) (money 0) noon paid_account (money 10900)
              PayoutConfig_default None false noon) as (q & Hq & _ & Hno).
  - unfold paid_account.
    assert (E : is_ret (record_payout funded_account (money 800) (money 0) noon) = true)
      by (vm_compute; reflexivity).
    destruct (record_payout funded_account (money 800) (money 0) noon);
      [reflexivity|discriminate E..].
  - q_fits 110000000.
  - q_fits 8000000.
  - q_fits 0.
  - q_fits 109000000.
  - q_fits 9000.
  - q_fits 0.
  - intros l E. discriminate E.
  - exists q. split; [exact Hq|]. apply Hno. vm_compute. discriminate.
Defined.
