(* ===== verification/Lifecycle.v ===== *)
(** * The account lifecycle

    What one call of [process] can do to the status of an account, as a step
    relation, and what follows by rule induction: failure is final without an
    override, and payouts are out of reach without one. *)


From S2P Require Import Prelude.
From S2P Require Import Decimal.
From S2P Require Import Chrono.
From S2P Require Import Ids.
From S2P Require Import Domain.
From S2P Require Import Plan.
From S2P Require Import Account.
From S2P Require Import Violation.
From S2P Require Import Pack.
From S2P Require Import RuleApi.
#[local] Open Scope Z_scope.
From S2P Require Import Registry.
From S2P Require Import Decision.
From S2P Require Import State.
From S2P Require Import Pipeline.
From S2P Require Import Samples.
From S2P Require Import PipelineSamples.

(** Case analysis on the condition at the head of a hypothesis. *)
Ltac case_if_in E :=
  match type of E with (if ?c then _ else _) = _ => destruct c eqn:? end.

Section Lifecycle.
Context `{DecimalOps} `{!JsonOps} `{ChronoOps}.
Implicit Types a : Account.

(** ** Day rollover only touches the day's bookkeeping *)

Record same_core (a a' : Account) : Prop := mkSameCore {
  sc_id : acc_id a' = acc_id a;
  sc_type : acc_account_type a' = acc_account_type a;
  sc_status : acc_status a' = acc_status a;
  sc_plan : acc_plan a' = acc_plan a;
  sc_initial : acc_initial_balance a' = acc_initial_balance a;
  sc_balance : acc_balance a' = acc_balance a;
  sc_equity : acc_equity a' = acc_equity a;
  sc_peak_balance : acc_peak_balance a' = acc_peak_balance a;
  sc_peak_equity : acc_peak_equity a' = acc_peak_equity a;
  sc_positions : acc_open_positions a' = acc_open_positions a;
  sc_before : acc_status_before_breach a' = acc_status_before_breach a;
  sc_last_tick : acc_last_tick_ts a' = acc_last_tick_ts a;
  sc_target : acc_target_reached_at a' = acc_target_reached_at a;
  sc_payouts : acc_payout_count a' = acc_payout_count a;
  sc_started : acc_started_at a' = acc_started_at a;
  sc_tenant : acc_tenant_id a' = acc_tenant_id a;
  sc_total : acc_total_realized_pnl a' = acc_total_realized_pnl a;
  sc_deadline : acc_deadline a' = acc_deadline a;
}.

#[global] Instance same_core_refl : Reflexive same_core.
Proof. by intros a. Qed.

#[global] Instance same_core_trans : Transitive same_core.
Proof. intros a b c [] []. split; congruence. Qed.

Lemma freeze_day_core a a' : freeze_day a = Ret a' → same_core a a'.
Proof.
  unfold freeze_day. intros E. monad_inv.
  repeat (case_match; simplify_eq/=; monad_inv); done.
Qed.

Lemma rollover_core now a had target a' :
  AccountState_rollover_day now a had target = Ret a' → same_core a a'.
Proof.
  unfold AccountState_rollover_day. intros E. monad_inv.
  match goal with H : (if had then _ else _) = Ret ?x |- _ =>
    assert (Hx : same_core a x) by (destruct had; [by apply freeze_day_core|by simplify_eq/=])
  end.
  etrans; [exact Hx|done].
Qed.

Lemma rollover_loop_core fuel now ts day first a a' :
  rollover_loop fuel now ts day first a = Ret a' → same_core a a'.
Proof.
  revert first a. induction fuel as [|fuel IH]; intros first a E; simpl in E.
  { case_if_in E; by simplify_eq/=. }
  case_if_in E; [|by simplify_eq/=].
  monad_inv. etrans; [|by eapply IH].
  case_match; by eapply rollover_core.
Qed.

Lemma auto_rollover_core fuel env ev a a' evs :
  auto_rollover fuel env ev a = Ret (a', evs) → same_core a a'.
Proof.
  unfold auto_rollover. intros E. destruct (is_day_rollover ev); [by simplify_eq/=|].
  monad_inv. case_match; monad_inv; [by eapply rollover_loop_core|done].
Qed.

(** ** The lifecycle relation *)

(** Status, status saved at the last breach, account type. *)
Definition Life : Type := AccountStatus * option AccountStatus * AccountType.

Definition life (a : Account) : Life :=
  (acc_status a, acc_status_before_breach a, acc_account_type a).

(** Events that leave the status alone. *)
Definition status_neutral (ev : PipelineEvent) : bool :=
  match ev with
  | PeAccountStarted _ | PeEmergencyStop _ _ _ | PeOverrideBreach _ | PePayoutRequest
  | PePayoutApprove => false
  | _ => true
  end.

Definition payable (s : AccountStatus) : Prop := s = StFunded ∨ s = StPayoutPending.

Inductive life_event : PipelineEvent → Life → Life → Prop :=
| le_start at_ b t : life_event (PeAccountStarted at_) (StPending, b, t) (StActive, b, t)
| le_stop reason actor at_ s b t :
    life_event (PeEmergencyStop reason actor at_) (s, b, t)
      (StEmergencyStopped, Some (default s b), t)
| le_override o s b t :
    AccountStatus_is_breach_terminal s = true →
    life_event (PeOverrideBreach o) (s, b, t)
      (default (if bool_decide (t = AtFunded) then StFunded else StActive) b, None, t)
| le_request s b t : payable s → life_event PePayoutRequest (s, b, t) (StPayoutPending, b, t)
| le_approve s b t : payable s → life_event PePayoutApprove (s, b, t) (StFunded, b, t)
| le_neutral ev l : status_neutral ev = true → life_event ev l l.

(** The transition the decision asks for: none, a target hit, a promotion, a
    termination, or a promotion followed by one. *)
Inductive life_decision : Life → Life → Prop :=
| ld_stay l : life_decision l l
| ld_target b t : life_decision (StActive, b, t) (StTargetHitPending, b, t)
| ld_promote s b t t' :
    s = StActive ∨ s = StTargetHitPending → t' = AtPhase2 ∨ t' = AtFunded →
    life_decision (s, b, t) (StActive, b, t')
| ld_terminate s b t s' :
    AccountStatus_is_breach_terminal s' = true → life_decision (s, b, t) (s', Some s, t)
| ld_promote_terminate b t t' s' :
    t' = AtPhase2 ∨ t' = AtFunded → AccountStatus_is_breach_terminal s' = true →
    life_decision (StTargetHitPending, b, t) (s', Some StActive, t').

Definition life_step (ev : PipelineEvent) (l l' : Life) : Prop :=
  ∃ m, life_event ev l m ∧ life_decision m l'.

Lemma same_core_life a a' : same_core a a' → life a' = life a.
Proof. intros []. unfold life. congruence. Qed.

(** *** Events *)

Lemma le_neutral_eq ev l l' : status_neutral ev = true → l' = l → life_event ev l l'.
Proof. intros ? ->. by apply le_neutral. Qed.

Lemma Account_start_life a at_ a' :
  Account_start a at_ = Ret a' →
  acc_status a = StPending ∧ life a' = (StActive, acc_status_before_breach a, acc_account_type a).
Proof.
  unfold Account_start. intros E. case_decide as Hs; [done|].
  monad_inv. split; [done|]. case_match; monad_inv; done.
Qed.

Lemma apply_realized_pnl_life a pnl c s at_ a' :
  AccountState_apply_realized_pnl a pnl c s at_ = Ret a' → life a' = life a.
Proof.
  unfold AccountState_apply_realized_pnl, raise_peak_balance. intros E. monad_inv.
  by case_match.
Qed.

Lemma record_payout_life a amount refund at_ a' :
  record_payout a amount refund at_ = Ret a' →
  payable (acc_status a)
  ∧ life a' = (StFunded, acc_status_before_breach a, acc_account_type a).
Proof.
  unfold record_payout, payable. intros E.
  case_if_in E; [done|]. monad_inv. unfold life. simpl.
  repeat case_bool_decide; simplify_eq/=; (split; [by auto|]); congruence.
Qed.

Lemma apply_event_state_life env ops a ev s kind fill evs :
  apply_event_state env ops a ev = Ret (s, kind, fill, evs) → life_event ev (life a) (life s).
Proof.
  intros E. destruct ev; simpl in E; monad_inv; try by apply le_neutral.
  - match goal with H : Account_start _ _ = Ret _ |- _ => apply Account_start_life in H as [Hs ->] end.
    unfold life. rewrite Hs. constructor.
  - match goal with H : AccountState_apply_realized_pnl _ _ _ _ _ = Ret _ |- _ =>
      apply apply_realized_pnl_life in H as Hl end.
    apply le_neutral_eq; [done|]. rewrite <- Hl. unfold AccountState_mark_active_trading_day.
    destruct (negb _); reflexivity.
  - apply le_neutral_eq; [done|].
    unfold AccountState_update_balance, AccountState_update_equity, raise_peak_balance.
    by repeat case_match.
  - match goal with H : AccountState_rollover_day _ _ _ _ = Ret _ |- _ =>
      apply rollover_core, same_core_life in H end.
    by apply le_neutral_eq.
  - replace (life (AccountState_emergency_stop a))
      with (StEmergencyStopped, Some (default (acc_status a) (acc_status_before_breach a)),
            acc_account_type a); [constructor|].
    unfold AccountState_emergency_stop. by destruct (acc_status_before_breach a) eqn:Eb;
      unfold life; simpl; rewrite ?Eb.
  - case_if_in E; [done|]. monad_inv.
    match goal with H : AccountState_clear_breach _ = Ret _ |- _ =>
      unfold AccountState_clear_breach in H end.
    unfold life at 1. destruct (acc_status a) eqn:Es; monad_inv; by constructor.
  - match goal with H : AccountState_mark_payout_pending _ = Ret _ |- _ =>
      unfold AccountState_mark_payout_pending in H end.
    unfold life at 1. destruct (acc_status a) eqn:Es; monad_inv; unfold life; simpl; rewrite ?Es;
      constructor; unfold payable; auto.
  - match goal with H : record_payout _ _ _ _ = Ret _ |- _ =>
      apply record_payout_life in H as [? Hl] end.
    unfold life in *. simpl in *. injection Hl as -> -> ->. by constructor.
Qed.

(** *** Decisions *)

Lemma target_step_life a d at_ a' evs :
  decision_target_step a d at_ = (a', evs) →
  life a' = life a ∨ (Decision_account_status_target d = None
    ∧ ∃ b t, life a = (StActive, b, t) ∧ life a' = (StTargetHitPending, b, t)).
Proof.
  unfold decision_target_step, AccountState_mark_target_reached, Decision_is_target_hit,
    Decision_account_status_target. intros E.
  destruct (dec_kind d); simplify_eq/=; try (by left).
  case_match; [by left|]. unfold life. simpl.
  case_bool_decide as Ea; simpl; [right|by left]. rewrite Ea. eauto.
Qed.

Lemma promotion_step_life a at_ a' evs :
  decision_promotion_step a at_ = Ret (a', evs) →
  life a' = life a ∨ (∃ b t t', (t' = AtPhase2 ∨ t' = AtFunded)
    ∧ life a = (StTargetHitPending, b, t) ∧ life a' = (StActive, b, t')).
Proof.
  unfold decision_promotion_step, promotion_due, AccountState_upgrade_phase. intros E.
  case_if_in E; [|by left; monad_inv]. right.
  apply andb_true_iff in Heqb as [Heqb _]. apply andb_true_iff in Heqb as [_ Heqb].
  apply bool_decide_eq_true in Heqb. monad_inv. unfold life. rewrite Heqb.
  destruct (plan_phase (acc_plan a)); simplify_eq/=; eauto 8.
Qed.

Lemma terminate_step_life a d at_ actor a' evs :
  decision_terminate_step a d at_ actor = Ret (a', evs) →
  life a' = life a ∨ (Decision_account_status_target d ≠ None
    ∧ ∃ s b t s', AccountStatus_is_breach_terminal s' = true
        ∧ life a = (s, b, t) ∧ life a' = (s', Some s, t)).
Proof.
  unfold decision_terminate_step. intros E.
  destruct (Decision_account_status_target d) as [s'|] eqn:Et; [right|left; by simplify_eq/=].
  split; [done|].
  assert (Hs : s' = StFailed ∨ s' = StEmergencyStopped).
  { unfold Decision_account_status_target in Et. destruct (dec_kind d); simplify_eq/=; auto. }
  exists (acc_status a), (acc_status_before_breach a), (acc_account_type a), s'.
  destruct Hs as [-> | ->]; simpl in E; destruct (dec_kind d); monad_inv; done.
Qed.

Lemma apply_decision_life a d at_ actor a' evs :
  apply_decision a d at_ actor = Ret (a', evs) → life_decision (life a) (life a').
Proof.
  unfold apply_decision. intros E.
  destruct (decision_target_step a d at_) as [a1 ev1] eqn:E1.
  apply bind_Ret_inv in E as ([a2 ev2] & E2 & E). apply bind_Ret_inv in E as ([a3 ev3] & E3 & E).
  injection E as <- _.
  apply target_step_life in E1. apply promotion_step_life in E2. apply terminate_step_life in E3.
  generalize dependent (life a). generalize dependent (life a1). generalize dependent (life a2).
  generalize dependent (life a3). intros l3 l2 E3 l1 E2 l0 E1.
  destruct E1 as [->|(Hd & b & t & -> & ->)],
    E2 as [->|(b' & t1 & t2 & Ht & E2 & ->)], E3 as [->|(Hz & s & b3 & t3 & s' & Hs & E3 & ->)];
    try done; simplify_eq/=; eauto using ld_stay, ld_target, ld_promote, ld_terminate,
      ld_promote_terminate.
Qed.

(** *** One call of [process] *)

Lemma apply_event_inv pl env a ev ap :
  apply_event pl env a ev = Ret ap →
  ∃ trades kind evs,
    apply_event_state env (acc_open_positions a) (a <| acc_today_trades := trades |>) ev
    = Ret (ae_state ap, kind, ae_trade_fill ap, evs)
    ∧ ae_open_positions ap = acc_open_positions a ∧ ae_today_trades ap = trades
    ∧ ae_ctx_kind ap = kind ∧ ae_events ap = evs.
Proof.
  unfold apply_event. intros E. monad_inv.
  repeat match goal with x : (_ * _)%type |- _ => destruct x end. monad_inv. eauto 10.
Qed.

Record process_run fuel pl env a ev res a1 ap a2 : Prop := mkProcessRun {
  run_roll : ∃ evs, auto_rollover fuel env ev a = Ret (a1, evs);
  run_apply : apply_event pl env a1 ev = Ret ap;
  run_eval : Evaluator_evaluate (env_fresh env) (env_now_reports env) (pl_registry pl)
               (build_context env ap ev) = Ret (pr_result res);
  run_decide : ∃ evs, apply_decision (consume_fill (ae_state ap) (ae_trade_fill ap))
                 (er_decision (pr_result res)) (ctx_server_time (build_context env ap ev))
                 (event_actor ev) = Ret (a2, evs);
  run_final : pr_account res = stamp_tick a2 ev;
}.

Lemma process_inv fuel pl env a ev res :
  process fuel pl env a ev = Ret res → ∃ a1 ap a2, process_run fuel pl env a ev res a1 ap a2.
Proof.
  unfold process. intros E.
  apply bind_Ret_inv in E as ([a1 er] & E1 & E). apply bind_Ret_inv in E as (ap & E2 & E).
  apply bind_Ret_inv in E as (result & E3 & E). apply bind_Ret_inv in E as ([a2 ed] & E4 & E).
  monad_inv. exists a1, ap, a2. split; eauto.
Qed.

Lemma consume_fill_life a fill : life (consume_fill a fill) = life a.
Proof. by destruct fill as [[? ?]|]. Qed.

Lemma stamp_tick_life a ev : life (stamp_tick a ev) = life a.
Proof. by destruct ev. Qed.

Lemma process_life fuel pl env a ev res :
  process fuel pl env a ev = Ret res → life_step ev (life a) (life (pr_account res)).
Proof.
  intros (a1 & ap & a2 & [[evs Hroll] Happly _ [evs' Hdec] ->])%process_inv.
  rewrite stamp_tick_life. apply auto_rollover_core, same_core_life in Hroll.
  apply apply_event_inv in Happly as (trades & kind & evs2 & Hst & _).
  apply apply_event_state_life in Hst. apply apply_decision_life in Hdec.
  rewrite consume_fill_life in Hdec. exists (life (ae_state ap)). split; [|done].
  by rewrite <- Hroll.
Qed.

(** C10: [process] refines the lifecycle relation.  Whatever the rules say,
    the event moves the status only as its kind allows: a start from pending,
    an override from a breach (to the status saved when it was breached, and to
    funded or active when none was saved), an emergency stop from any status, a
    payout from a payable account; and the decision only by a target hit, a
    promotion or a termination, which can be from any status, an emergency stop
    included, and saves the status it left.  The comments describe a narrower
    machine (an override always to active, a stop only from active or pending
    and left only by an override): the findings list where the code differs. *)
Theorem process_refines_lifecycle fuel pl env a ev res
    (Hrun : process fuel pl env a ev = Ret res) :
  life_step ev (life a) (life (pr_account res)).
Proof. by eapply process_life. Qed.

(** ** Reachability without overrides *)

Definition is_override (ev : PipelineEvent) : bool :=
  match ev with PeOverrideBreach _ => true | _ => false end.

Inductive reachable (pl : Pipeline) : Account → Prop :=
| reach_new id tenant plan : reachable pl (Account_new id tenant plan)
| reach_step fuel env a ev res :
    reachable pl a → is_override ev = false →
    process fuel pl env a ev = Ret res → reachable pl (pr_account res).

Lemma life_step_breach ev s b t s' b' t' :
  life_step ev (s, b, t) (s', b', t') → is_override ev = false →
  AccountStatus_is_breach_terminal s = true → AccountStatus_is_breach_terminal s' = true.
Proof.
  intros (m & Hm & Hd) Hev Hs. inversion Hm; subst; try done; inversion Hd; subst; try done;
    unfold payable in *; naive_solver.
Qed.

(** The statuses of accounts that never went through an override. *)
Definition unpaid (l : Life) : Prop :=
  let '(s, b, _) := l in
  s ∈ [StPending; StActive; StTargetHitPending; StFailed; StEmergencyStopped].

Lemma life_step_unpaid ev l l' :
  life_step ev l l' → is_override ev = false → unpaid l → unpaid l'.
Proof.
  intros (m & Hm & Hd) Hev Hl.
  assert (unpaid m) as Hm'.
  { inversion Hm as [| | |? ? ? [-> | ->]|? ? ? [-> | ->]|]; subst; try done; simpl in *; set_solver. }
  inversion Hd as [| |? ? ? ? [-> | ->]| |]; subst; simpl in *; try set_solver;
    destruct s'; simplify_eq/=; set_solver.
Qed.

(** Failure is final without an override: processing any other event on
    a failed or emergency-stopped account leaves it failed or stopped. *)
Theorem breach_is_final fuel pl env a ev res
    (Hbreach : AccountStatus_is_breach_terminal (acc_status a) = true)
    (Hev : is_override ev = false)
    (Hrun : process fuel pl env a ev = Ret res) :
  AccountStatus_is_breach_terminal (acc_status (pr_account res)) = true.
Proof. apply process_life in Hrun. by eapply life_step_breach. Qed.

Lemma reachable_unpaid pl a : reachable pl a → unpaid (life a).
Proof.
  induction 1 as [id tenant plan|fuel env a ev res _ IH Hev Hrun]; [simpl; set_solver|].
  apply process_life in Hrun. by eapply life_step_unpaid.
Qed.

(** C30: without an override no payout is ever made.  An account created by
    [Account_new] and driven by any events but overrides never becomes funded
    or payout-pending, not even after its promotion to the funded phase, so
    requesting or approving a payout never succeeds. *)
Theorem payouts_unreachable pl a (Hreach : reachable pl a) :
  acc_status a ≠ StFunded ∧ acc_status a ≠ StPayoutPending ∧
  ∀ fuel env res, process fuel pl env a PePayoutRequest ≠ Ret res
                ∧ process fuel pl env a PePayoutApprove ≠ Ret res.
Proof.
  apply reachable_unpaid in Hreach. unfold unpaid, life in Hreach.
  assert (Hpay : ¬ payable (acc_status a)).
  { intros [E|E]; rewrite E in Hreach; set_solver. }
  split_and!; [intros E; apply Hpay; by left|intros E; apply Hpay; by right|].
  intros fuel env res.
  split; intros (m & Hm & _)%process_life; inversion Hm; subst; done.
Qed.

End Lifecycle.

(** ** Witnesses *)

Import Samples PipelineSamples.

(** A run that returns, as an equation. *)
Lemma is_ret_inv {A} (m : outcome A) : is_ret m = true → ∃ a, m = Ret a.
Proof. destruct m; simpl; [eauto|discriminate..]. Defined.

Lemma process_refines_lifecycle_witness :
  ∃ res, process 40 pl (env_at noon) fresh_account (PeAccountStarted noon) = Ret res
    ∧ life_step (PeAccountStarted noon) (life fresh_account) (life (pr_account res)).
Proof.
  destruct (is_ret_inv (process 40 pl (env_at noon) fresh_account (PeAccountStarted noon)))
    as [res Hres]; [vm_compute; reflexivity|].
  exists res. split; [exact Hres|].
  exact (process_refines_lifecycle 40 pl (env_at noon) fresh_account (PeAccountStarted noon) res Hres).
Defined.

(** The account after an emergency stop. *)
Definition stopped_account : Account :=
  account <| acc_status := StEmergencyStopped |> <| acc_status_before_breach := Some StActive |>.

Lemma breach_is_final_witness :
  ∃ res, process 40 pl (env_at noon) stopped_account PeOnDemand = Ret res
    ∧ AccountStatus_is_breach_terminal (acc_status (pr_account res)) = true.
Proof.
  destruct (is_ret_inv (process 40 pl (env_at noon) stopped_account PeOnDemand))
    as [res Hres]; [vm_compute; reflexivity|].
  exists res. split; [exact Hres|].
  exact (breach_is_final 40 pl (env_at noon) stopped_account PeOnDemand res eq_refl eq_refl Hres).
Defined.

Lemma payouts_unreachable_witness :
  ∃ res, process 40 pl (env_at noon) fresh_account (PeAccountStarted noon) = Ret res
    ∧ acc_status (pr_account res) ≠ StFunded.
Proof.
  destruct (is_ret_inv (process 40 pl (env_at noon) fresh_account (PeAccountStarted noon)))
    as [res Hres]; [vm_compute; reflexivity|].
  exists res. split; [exact Hres|].
  apply (payouts_unreachable pl (pr_account res)).
  exact (reach_step pl 40 (env_at noon) fresh_account (PeAccountStarted noon) res
           (reach_new pl 7 9 plan) eq_refl Hres).
Defined.
