(* ===== verification/RolloverFacts.v ===== *)
(** * Theorems on trading days

    What closing a day records, that a day is counted once however many
    fills it has, and that the catch-up loop of [process] terminates on the
    day of the event. *)


From S2P Require Import Prelude.
From S2P Require Import Decimal.
From S2P Require Import Chrono.
From S2P Require Import Ids.
From S2P Require Import Domain.
From S2P Require Import Plan.
From S2P Require Import Account.
From S2P Require Import Violation.
From S2P Require Import Pack.
From S2P Require Import RuleApi.
#[local] Open Scope Z_scope.
From S2P Require Import Registry.
From S2P Require Import Decision.
From S2P Require Import State.
From S2P Require Import Pipeline.
From S2P Require Import Samples.
From S2P Require Import PipelineSamples.
From S2P Require Import Lifecycle.

Section RolloverFacts.
Context `{DL : DecimalLaws} `{CL : ChronoLaws} `{!JsonOps}.
Implicit Types a : Account.

(** ** Counting days *)

(** One fill: book it and mark the day. *)
Definition book_fill (a : Account) (f : Money * Money * Money * Timestamp) : outcome Account :=
  let '(pnl, commission, swap, at_) := f in
  let! a' := AccountState_apply_realized_pnl a pnl commission swap at_ in
  Ret (AccountState_mark_active_trading_day a').

(** The number of counted days and whether today is among them. *)
Definition day_count (a : Account) : Z * bool :=
  (acc_active_trading_days a, acc_day_counted_today a).

Lemma book_fill_days a f a' :
  book_fill a f = Ret a' →
  day_count a' = (if acc_day_counted_today a then acc_active_trading_days a
                  else u32_succ (acc_active_trading_days a), true).
Proof.
  destruct f as [[[pnl c] s] at_]. unfold book_fill, AccountState_apply_realized_pnl,
    AccountState_mark_active_trading_day, day_count. intros E. monad_inv.
  match goal with |- context [raise_peak_balance ?x] => set (r := raise_peak_balance x) in * end.
  assert (Hr : acc_active_trading_days r = acc_active_trading_days a
    ∧ acc_day_counted_today r = acc_day_counted_today a)
    by (subst r; unfold raise_peak_balance; by case_match).
  destruct Hr as [<- <-]. by destruct (acc_day_counted_today r) eqn:Ec; simpl; rewrite ?Ec.
Qed.

Lemma book_fills_days l a a' :
  foldM book_fill a l = Ret a' → acc_day_counted_today a = false →
  day_count a' = match l with
                 | [] => day_count a
                 | _ => (u32_succ (acc_active_trading_days a), true)
                 end.
Proof.
  intros E Hc. destruct l as [|f l]; simpl in E; [by simplify_eq/=|].
  monad_inv. match goal with H : book_fill _ _ = Ret ?x |- _ =>
    apply book_fill_days in H as Hx; rename x into a1 end.
  rewrite Hc in Hx. rewrite <- Hx. clear - E Hx.
  assert (Ht : acc_day_counted_today a1 = true) by (unfold day_count in Hx; congruence).
  clear Hx. revert a1 Ht E. induction l as [|g l IH]; intros a1 Ht E; simpl in E; [by simplify_eq/=|].
  monad_inv. match goal with H : book_fill _ _ = Ret ?x |- _ => apply book_fill_days in H as Hx end.
  rewrite Ht in Hx. unfold day_count in Hx at 1. injection Hx as Hx1 Hx2.
  etrans; [by eapply IH|]. unfold day_count. congruence.
Qed.

Lemma freeze_day_count a a' :
  freeze_day a = Ret a' →
  acc_active_trading_days a' = if acc_day_counted_today a then acc_active_trading_days a
                               else u32_succ (acc_active_trading_days a).
Proof.
  unfold freeze_day. intros E. monad_inv.
  repeat (case_match; simplify_eq/=; monad_inv); congruence.
Qed.

(** A trading day counts once.  From a fresh day, any number of fills
    followed by the rollover adds exactly one to the active trading days when
    there was a fill or the rollover says there were trades, and nothing
    otherwise; the next day starts uncounted. *)
Theorem day_counted_once fills now a a1 had target a2
    (Hfresh : acc_day_counted_today a = false)
    (Hfills : foldM book_fill a fills = Ret a1)
    (Hroll : AccountState_rollover_day now a1 had target = Ret a2) :
  acc_active_trading_days a2
  = (if had || negb (bool_decide (fills = [])) then u32_succ (acc_active_trading_days a)
     else acc_active_trading_days a)
  ∧ acc_day_counted_today a2 = false.
Proof.
  apply book_fills_days in Hfills; [|done].
  unfold AccountState_rollover_day in Hroll. monad_inv. split; [|done].
  unfold day_count in Hfills.
  destruct had; simpl in *.
  - match goal with H : freeze_day _ = Ret _ |- _ => apply freeze_day_count in H as -> end.
    destruct fills; injection Hfills as -> ->; [by rewrite Hfresh|done].
  - destruct fills; simplify_eq/=; congruence.
Qed.

(** ** Closing a day *)

(** Sizes of the inputs of the day's bookkeeping. *)
Record DayFits (a : Account) : Prop := mkDayFits {
  df_today : Fits 17 4 (acc_today_realized_pnl a);
  df_sum : Fits 17 4 (acc_sum_positive_days_profit a);
  df_initial : Fits 15 4 (acc_initial_balance a);
  df_threshold : ∀ p, plan_qualifying_day_threshold_pct (acc_plan a) = Some p → Fits 6 6 p;
  df_band : ∀ p, plan_qualifying_day_pnl_band_pct (acc_plan a) = Some p → Fits 6 6 p;
}.

(** Whether the day's result reaches a threshold of the plan, over [Q]. *)
Definition reaches (threshold : option Pct) (a : Account) : bool :=
  match threshold with
  | Some p => Qle_bool (dval p * dval (acc_initial_balance a)) (Qabs (dval (acc_today_realized_pnl a)))
  | None => true
  end.

Definition day_qualifies (a : Account) : bool :=
  let t := plan_qualifying_day_threshold_pct (acc_plan a) in
  let b := plan_qualifying_day_pnl_band_pct (acc_plan a) in
  (bool_decide (is_Some t) || bool_decide (is_Some b)) && reaches t a && reaches b a.

Lemma threshold_reached threshold a :
  (∀ p, threshold = Some p → Fits 6 6 p) → Fits 15 4 (acc_initial_balance a) →
  qualifying_threshold_ok threshold (acc_initial_balance a) (dec_abs (acc_today_realized_pnl a))
  = Ret (reaches threshold a).
Proof.
  intros Ht Hi. destruct threshold as [p|]; simpl; [|done].
  destruct (dmul_fits _ _ _ _ _ _ (Ht p eq_refl) Hi) as (x & -> & Ex & _); [lia|]. simpl. f_equal.
  apply eq_true_iff_eq. unfold dec_geb. rewrite dec_leb_spec, Qle_bool_iff, Ex, dec_abs_spec. done.
Qed.

#[local] Arguments qualifying_threshold_ok : simpl never.

Definition bump (b : bool) (x : Z) : Z := if b then u32_succ x else x.

Lemma freeze_day_spec a :
  DayFits a →
  let today := acc_today_realized_pnl a in
  let profit := dec_gtb today dec_zero in
  ∃ a', freeze_day a = Ret a'
    ∧ same_core a a'
    ∧ acc_largest_day_profit a' = (if dec_gtb today (acc_largest_day_profit a) then today
                                   else acc_largest_day_profit a)
    ∧ acc_largest_day_loss a' = (if dec_ltb today (acc_largest_day_loss a) then today
                                 else acc_largest_day_loss a)
    ∧ (dval (acc_sum_positive_days_profit a')
       == dval (acc_sum_positive_days_profit a) + (if profit then dval today else 0))%Q
    ∧ acc_profitable_days_count a' = bump profit (acc_profitable_days_count a)
    ∧ acc_qualifying_trading_days_count a'
      = bump (day_qualifies a) (acc_qualifying_trading_days_count a)
    ∧ acc_active_trading_days a' = bump (negb (acc_day_counted_today a)) (acc_active_trading_days a)
    ∧ acc_trading_day_index a' = acc_trading_day_index a.
Proof.
  intros [Ht Hs Hi Hth Hb] today profit.
  pose proof (threshold_reached _ a Hth Hi) as Eth. pose proof (threshold_reached _ a Hb Hi) as Eb.
  destruct (dadd_fits 17 4 _ _ _ _ _ _ Hs Ht) as (s & Es & Vs & _); [lia|].
  unfold freeze_day, day_qualifies. fold today profit. fold today in Es, Vs, Eth, Eb.
  destruct (dec_gtb today (acc_largest_day_profit a)); simpl;
    destruct (dec_ltb today (acc_largest_day_loss a)); simpl;
    destruct profit; simpl; rewrite ?Es; simpl; rewrite Eth, Eb; simpl;
    destruct (bool_decide (is_Some (plan_qualifying_day_threshold_pct (acc_plan a)))
              || bool_decide (is_Some (plan_qualifying_day_pnl_band_pct (acc_plan a)))); simpl;
    destruct (reaches (plan_qualifying_day_threshold_pct (acc_plan a)) a
              && reaches (plan_qualifying_day_pnl_band_pct (acc_plan a)) a); simpl;
    destruct (acc_day_counted_today a) eqn:Ec; simpl;
    (eexists; split; [done|]); split_and!; try done; simpl; rewrite ?Vs; ring.
Qed.

(** ** Catching up *)

(** A day has been opened on the state of [a]: its reference amounts are
    today's balance and equity, and its counters are reset. *)
Record day_opened (a a' : Account) : Prop := mkDayOpened {
  do_core : same_core a a';
  do_balance : acc_day_start_balance a' = acc_balance a;
  do_equity : acc_day_start_equity a' = acc_equity a;
  do_peak : acc_intraday_peak_equity a' = acc_equity a;
  do_today : acc_today_realized_pnl a' = dec_zero;
  do_trades : acc_today_trades a' = [];
  do_counted : acc_day_counted_today a' = false;
}.

Lemma day_opened_trans a b c : day_opened a b → day_opened b c → day_opened a c.
Proof.
  intros [Hab _ _ _ _ _ _] [Hbc ? ? ? ? ? ?]. split; try done; [by etrans|..];
    destruct Hab; congruence.
Qed.

(** The plan keeps UTC days that start on the hour [h]. *)
Definition utc_plan (p : ChallengePlan) (h : Z) : Prop :=
  plan_timezone p = None ∧ plan_day_reset_time p = h ∧ 0 ≤ h < 24.

#[local] Arguments reset_day : simpl never.

Lemma reset_day_opened a b start :
  same_core a b → day_opened a ((reset_day b) <| acc_current_trading_day_start := start |>).
Proof. intros []. split; [split|..]; assumption || reflexivity. Qed.

Lemma rollover_day_opens now a had ts r :
  ChallengePlan_trading_day_start (acc_plan a) ts = Ret r → (had = true → DayFits a) →
  ∃ a', AccountState_rollover_day now a had (Some ts) = Ret a'
    ∧ day_opened a a' ∧ acc_trading_day_index a' = u32_succ (acc_trading_day_index a)
    ∧ acc_current_trading_day_start a' = Some r.
Proof.
  intros Hr Hf. unfold AccountState_rollover_day.
  assert (∃ b, (if had then freeze_day a else Ret a) = Ret b ∧ same_core a b
    ∧ acc_trading_day_index b = acc_trading_day_index a) as (b & -> & Hb & Hi).
  { destruct had; [|by exists a]. destruct (freeze_day_spec a) as (b & ? & ? & Hb); [by apply Hf|].
    destruct Hb as (_ & _ & _ & _ & _ & _ & Hi). eauto. }
  cbn [obind]. change (acc_plan (reset_day b)) with (acc_plan b). rewrite (sc_plan _ _ Hb), Hr.
  cbn [obind]. eexists. split; [reflexivity|]. split; [by apply reset_day_opened|].
  split; [|done]. rewrite <- Hi. reflexivity.
Qed.

Lemma rollover_day_utc now a had ts h :
  utc_plan (acc_plan a) h → ts_near (ts_nanos ts) → (had = true → DayFits a) →
  ∃ a' r, AccountState_rollover_day now a had (Some ts) = Ret a'
    ∧ day_opened a a' ∧ acc_trading_day_index a' = u32_succ (acc_trading_day_index a)
    ∧ acc_current_trading_day_start a' = Some r ∧ ts_nanos r = day_floor h (ts_nanos ts).
Proof.
  intros (Hz & <- & Hh) Hn Hf. destruct (trading_day_start_utc (acc_plan a) Hz Hh ts Hn) as (r & Hr & Er).
  destruct (rollover_day_opens now a had ts r Hr Hf) as (a' & ? & ? & ? & ?). by exists a', r.
Qed.

Lemma day_next_aligned h n :
  0 ≤ h < 24 → day_floor h n = n → day_next h n = n + ns_day.
Proof.
  intros Hh Hf. unfold day_floor, day_next in *.
  set (k := (n - h * ns_hour) / ns_day) in *.
  assert (n / ns_day = k) as ->; [|lia].
  symmetry. apply (Z.div_unique _ _ _ (h * ns_hour)); unfold ns_day, ns_hour, ns_second in *; lia.
Qed.

(** The loop from [n] days before the event's day. *)
Lemma rollover_loop_catches_up h ts event_ts event_day n :
  ts_near (ts_nanos event_ts) →
  ts_nanos event_day = day_floor h (ts_nanos event_ts) →
  ∀ fuel first a c,
    utc_plan (acc_plan a) h → acc_current_trading_day_start a = Some c →
    day_floor h (ts_nanos c) = ts_nanos c → ts_near (ts_nanos c) →
    ts_nanos event_day = ts_nanos c + Z.of_nat n * ns_day →
    (n ≤ fuel)%nat → (first = true → DayFits a) → (0 < n)%nat →
    ∃ a' r, rollover_loop fuel ts event_ts event_day first a = Ret a'
      ∧ day_opened a a'
      ∧ acc_trading_day_index a' = Nat.iter n u32_succ (acc_trading_day_index a)
      ∧ acc_current_trading_day_start a' = Some r ∧ ts_nanos r = ts_nanos event_day.
Proof.
  intros Hev Hday. induction n as [|n IH]; intros fuel first a c Hpl Hc Hal Hcn Hdist Hfu Hfi H0; [lia|].
  destruct fuel as [|fuel]; [lia|]. simpl. rewrite Hc.
  assert (Hns : 0 < ns_day) by reflexivity.
  assert (ts_ltb c event_day = true) as -> by (apply ts_ltb_spec; lia). simpl.
  destruct Hpl as (Hz & Hr & Hh).
  destruct (next_trading_day_start_utc (acc_plan a) Hz ltac:(by rewrite Hr) c Hcn)
    as (nx & -> & Hnx). simpl. rewrite Hr, day_next_aligned in Hnx by done.
  pose proof (day_floor_bounds h (ts_nanos event_ts)) as Hb.
  set (had := if first then _ else false).
  assert (Hhad : had = true → DayFits a) by (subst had; destruct first; auto; discriminate).
  destruct n as [|n].
  - assert (ts_geb nx event_day = true) as -> by (apply ts_leb_spec; lia).
    destruct (rollover_day_utc ts a had event_ts h) as (a' & r & -> & Ho & Hi & Hs & Hrn);
      [done..|]. simpl. exists a', r.
    destruct fuel; simpl; rewrite Hs;
      (assert (ts_ltb r event_day = false) as -> by (apply ts_ltb_false; lia));
      split_and!; (done || congruence).
  - assert (ts_geb nx event_day = false) as -> by (apply ts_leb_false; lia).
    destruct (rollover_day_utc ts a had nx h) as (a1 & c1 & -> & Ho & Hi & Hs & Hrn);
      [done|unfold ts_near in *; lia|done|]. simpl.
    rewrite Hnx in Hrn.
    assert (Hfl : day_floor h (ts_nanos c + ns_day) = ts_nanos c + ns_day).
    { rewrite <- (day_next_aligned h) by done. by apply day_floor_next. }
    rewrite Hfl in Hrn.
    destruct (IH fuel false a1 c1) as (a' & r & Hrun & Ho' & Hi' & Hs' & Hr');
      try done; try lia; try congruence.
    + unfold utc_plan. rewrite (sc_plan _ _ (do_core _ _ Ho)). done.
    + unfold ts_near in *. lia.
    + exists a', r. split_and!; [done|by eapply day_opened_trans| |done..].
      rewrite Hi', Hi. rewrite <- Nat.iter_succ_r. done.
Qed.

Lemma iter_u32_succ n x :
  is_u32 x → Nat.iter n u32_succ x = (x + Z.of_nat n) mod u32_modulus.
Proof.
  intros Hx. induction n as [|n IH].
  - unfold is_u32, u32_modulus in *. simpl. rewrite Z.mod_small; lia.
  - rewrite Nat.iter_succ, IH. unfold u32_succ. rewrite Zplus_mod_idemp_l. f_equal. lia.
Qed.

Lemma auto_rollover_runs h fuel env ev a c n
    (Hplan : utc_plan (acc_plan a) h)
    (Hev : is_day_rollover ev = false)
    (Hcur : acc_current_trading_day_start a = Some c)
    (Haligned : day_floor h (ts_nanos c) = ts_nanos c)
    (Hnear : ts_near (ts_nanos c))
    (Hnear' : ts_near (ts_nanos (PipelineEvent_event_timestamp ev (env_now_process env))))
    (Hdist : day_floor h (ts_nanos (PipelineEvent_event_timestamp ev (env_now_process env)))
             = ts_nanos c + Z.of_nat n * ns_day)
    (Hn : (0 < n ≤ fuel)%nat) (Hidx : is_u32 (acc_trading_day_index a)) (Hfits : DayFits a) :
  ∃ a' r e, auto_rollover fuel env ev a = Ret (a', [e])
    ∧ day_opened a a'
    ∧ acc_current_trading_day_start a' = Some r
    ∧ ts_nanos r = ts_nanos c + Z.of_nat n * ns_day
    ∧ acc_trading_day_index a' = (acc_trading_day_index a + Z.of_nat n) mod u32_modulus
    ∧ de_kind e = EvDayRollover (acc_trading_day_index a') (acc_balance a).
Proof.
  unfold auto_rollover. rewrite Hev. set (event_ts := PipelineEvent_event_timestamp _ _) in *.
  destruct Hplan as (Hz & Hr & Hh).
  destruct (trading_day_start_utc (acc_plan a) Hz ltac:(by rewrite Hr) event_ts Hnear')
    as (d & -> & Hd). rewrite Hr in Hd. cbn [obind]. rewrite Hcur. cbn [obind].
  assert (0 < ns_day) by reflexivity.
  assert (ts_gtb d c = true) as -> by (apply ts_ltb_spec; lia).
  destruct (rollover_loop_catches_up h (env_now_rollover env) event_ts d n Hnear' Hd fuel true a c)
    as (a' & r & -> & Ho & Hi & Hs & Hrn); try done; try lia.
  cbn [obind]. exists a', r. eexists. split; [reflexivity|].
  split_and!; [done|done|lia| |].
  - by rewrite Hi, iter_u32_succ.
  - simpl. by rewrite (do_balance _ _ Ho).
Qed.

(** C26: the automatic rollover terminates on the day of the event.  For an
    account on UTC days whose current day started [n > 0] days before the
    event's day, [n] iterations of the loop are enough: the rollover returns,
    the current day is the event's, the day index has advanced by [n] (modulo
    2^32), balance, equity, status and positions are untouched, the day's
    references are today's balance and equity, the day's counters are reset,
    and exactly one rollover event is emitted. *)
Theorem auto_rollover_catches_up h fuel env ev a c n
    (Hplan : utc_plan (acc_plan a) h)
    (Hev : is_day_rollover ev = false)
    (Hcur : acc_current_trading_day_start a = Some c)
    (Haligned : day_floor h (ts_nanos c) = ts_nanos c)
    (Hnear : ts_near (ts_nanos c))
    (Hnear' : ts_near (ts_nanos (PipelineEvent_event_timestamp ev (env_now_process env))))
    (Hdist : day_floor h (ts_nanos (PipelineEvent_event_timestamp ev (env_now_process env)))
             = ts_nanos c + Z.of_nat n * ns_day)
    (Hn : (0 < n ≤ fuel)%nat) (Hidx : is_u32 (acc_trading_day_index a)) (Hfits : DayFits a) :
  ∃ a' r e, auto_rollover fuel env ev a = Ret (a', [e])
    ∧ day_opened a a'
    ∧ acc_current_trading_day_start a' = Some r
    ∧ ts_nanos r = ts_nanos c + Z.of_nat n * ns_day
    ∧ acc_trading_day_index a' = (acc_trading_day_index a + Z.of_nat n) mod u32_modulus
    ∧ de_kind e = EvDayRollover (acc_trading_day_index a') (acc_balance a).
Proof. by eapply auto_rollover_runs. Qed.

End RolloverFacts.

(** ** Witnesses *)

Import Samples PipelineSamples.

Lemma day_counted_once_witness :
  ∃ a1 a2,
    foldM book_fill account [(money 100, money 1, money 0, noon); (money 50, money 1, money 0, noon)]
    = Ret a1
    ∧ AccountState_rollover_day noon a1 true None = Ret a2
    ∧ acc_active_trading_days a2 = 1.
Proof.
  destruct (is_ret_inv (foldM book_fill account
    [(money 100, money 1, money 0, noon); (money 50, money 1, money 0, noon)])) as [a1 E1];
    [vm_compute; reflexivity|].
  assert (E2 : is_ret (let! a1 := foldM book_fill account
    [(money 100, money 1, money 0, noon); (money 50, money 1, money 0, noon)] in
    AccountState_rollover_day noon a1 true None) = true) by (vm_compute; reflexivity).
  rewrite E1 in E2. apply is_ret_inv in E2 as [a2 E2]. cbn [obind] in E2.
  exists a1, a2. split; [exact E1|]. split; [exact E2|].
  destruct (day_counted_once _ noon account a1 true None a2 eq_refl E1 E2) as [Ha _].
  rewrite Ha. reflexivity.
Defined.

(** Three days after the start. *)
Lemma auto_rollover_catches_up_witness :
  ∃ a' e, auto_rollover 3 (env_at (noon + 3 * ns_day)) PeOnDemand account = Ret (a', [e])
    ∧ acc_trading_day_index a' = 3.
Proof.
  destruct (auto_rollover_catches_up 0 3 (env_at (noon + 3 * ns_day)) PeOnDemand account
              (20000 * ns_day) 3) as (a' & r & e & Hrun & _ & _ & _ & Hi & _).
  - split; [reflexivity|]. split; [reflexivity|lia].
  - reflexivity.
  - vm_compute. reflexivity.
  - vm_compute. reflexivity.
  - vm_compute. discriminate.
  - vm_compute. discriminate.
  - vm_compute. reflexivity.
  - lia.
  - vm_compute. split; [discriminate|reflexivity].
  - split.
    + exists 0. split; [vm_compute; discriminate|vm_compute; reflexivity].
    + exists 0. split; [vm_compute; discriminate|vm_compute; reflexivity].
    + exists 100000000. split; [vm_compute; discriminate|vm_compute; reflexivity].
    + intros p E. vm_compute in E. discriminate E.
    + intros p E. vm_compute in E. discriminate E.
  - exists a', e. split; [exact Hrun|]. rewrite Hi. vm_compute. reflexivity.
Defined.
