(* ===== verification/ZoneFacts.v ===== *)
(** * Trading days in a named time zone

    What the rollover does for a plan with a time zone: which instant its day
    starts at, when the clock change opens a second day within one trading
    day, and what a reset hour that the clock skips or shows twice does. *)

From S2P Require Import Prelude.
From S2P Require Import Decimal.
From S2P Require Import Chrono.
From S2P Require Import Ids.
From S2P Require Import Domain.
From S2P Require Import Plan.
From S2P Require Import Account.
From S2P Require Import Violation.
From S2P Require Import Pack.
From S2P Require Import RuleApi.
#[local] Open Scope Z_scope.
From S2P Require Import Registry.
From S2P Require Import Decision.
From S2P Require Import State.
From S2P Require Import Pipeline.
From S2P Require Import Samples.
From S2P Require Import PipelineSamples.
From S2P Require Import Lifecycle.
From S2P Require Import RolloverFacts.

Section ZoneFacts.
Context `{DL : DecimalLaws} `{CL : ChronoLaws} `{!JsonOps}.
Implicit Types (a : Account) (p : ChallengePlan) (tz : Tz).

(** The instant the day of the local date [d] starts at, if there is exactly
    one. *)
Definition local_reset p tz (d : NaiveDate) : option Timestamp :=
  and_hms_opt d (plan_day_reset_time p) 0 0 ≫= and_local_timezone tz.

(** The day of an instant starts at the reset of its local date or, before
    that, twenty-four hours earlier. *)
Lemma zone_day_start p tz now r :
  plan_timezone p = Some tz → local_reset p tz (tz_date_naive tz now) = Some r →
  ts_near (ts_nanos r) →
  ∃ s, ChallengePlan_trading_day_start p now = Ret s
    ∧ ts_nanos s = if ts_geb now r then ts_nanos r else ts_nanos r - ns_day.
Proof.
  intros Hz Hr Hn. unfold ChallengePlan_trading_day_start, local_reset in *. rewrite Hz.
  destruct (and_hms_opt _ _ 0 0) as [dt|]; [|done]. simpl in *. rewrite Hr. cbn [unwrap obind].
  destruct (ts_geb now r); [by exists r|].
  destruct (dur_days_spec 1) as (d & -> & Hd); [lia|]. cbn [unwrap obind].
  destruct (ts_sub_total r d) as [s Hs].
  { unfold ts_range, ts_near, ns_day, ns_second in *. lia. }
  rewrite Hs. exists s. split; [done|]. apply ts_sub_spec in Hs. lia.
Qed.

(** A reset hour that is not one instant of the date stops the computation. *)
Lemma zone_day_start_missing p tz now :
  plan_timezone p = Some tz → local_reset p tz (tz_date_naive tz now) = None →
  ChallengePlan_trading_day_start p now = Panic.
Proof.
  intros Hz Hr. unfold ChallengePlan_trading_day_start, local_reset in *. rewrite Hz.
  destruct (and_hms_opt _ _ 0 0) as [dt|]; [|done]. simpl in *. by rewrite Hr.
Qed.

Lemma zone_next_start p tz c d r :
  plan_timezone p = Some tz → succ_opt (tz_date_naive tz c) = Some d → local_reset p tz d = Some r →
  ChallengePlan_next_trading_day_start p c = Ret r.
Proof.
  intros Hz Hd Hr. unfold ChallengePlan_next_trading_day_start, local_reset in *. rewrite Hz, Hd.
  cbn [unwrap obind]. destruct (and_hms_opt d _ 0 0); [|done]. simpl in *. by rewrite Hr.
Qed.

(** One iteration of the loop, to the day of the event. *)
Lemma rollover_loop_once fuel now event_ts s first a c nx :
  acc_current_trading_day_start a = Some c → ts_nanos c < ts_nanos s →
  ChallengePlan_next_trading_day_start (acc_plan a) c = Ret nx → ts_nanos s ≤ ts_nanos nx →
  ChallengePlan_trading_day_start (acc_plan a) event_ts = Ret s → (0 < fuel)%nat → DayFits a →
  ∃ a', rollover_loop fuel now event_ts s first a = Ret a' ∧ day_opened a a'
    ∧ acc_trading_day_index a' = u32_succ (acc_trading_day_index a)
    ∧ acc_current_trading_day_start a' = Some s.
Proof.
  intros Hc Hlt Hnx Hle Hs Hfu Hf. destruct fuel as [|fuel]; [lia|]. simpl. rewrite Hc.
  apply ts_ltb_spec in Hlt as ->. cbn [unwrap obind]. rewrite Hnx. cbn [obind].
  assert (ts_geb nx s = true) as -> by by apply ts_leb_spec.
  match goal with |- context [AccountState_rollover_day now a ?had _] =>
    destruct (rollover_day_opens now a had event_ts s Hs) as (a' & -> & Ho & Hi & Hc'); [done|] end.
  cbn [obind]. exists a'. split_and!; [|done..].
  destruct fuel; simpl; rewrite Hc'; (assert (ts_ltb s s = false) as -> by (apply ts_ltb_false; lia));
    done.
Qed.

(** A change of the clock splits a trading day.  An account in a named zone,
    with an event on the local date after that of its current day start [c]
    but before the reset [r] of that date, so still on the trading day of
    [c]: the rollover leaves the account alone when the day is at most
    twenty-four hours long, but when the clock has gone back in it, it opens
    a new day, whose references are the present balance and equity. *)
Theorem clock_change_splits_day tz fuel env ev a c r
    (Hzone : plan_timezone (acc_plan a) = Some tz)
    (Hev : is_day_rollover ev = false)
    (Hcur : acc_current_trading_day_start a = Some c)
    (Hdate : succ_opt (tz_date_naive tz c)
             = Some (tz_date_naive tz (PipelineEvent_event_timestamp ev (env_now_process env))))
    (Hreset : local_reset (acc_plan a) tz
                (tz_date_naive tz (PipelineEvent_event_timestamp ev (env_now_process env))) = Some r)
    (Hbefore : ts_nanos (PipelineEvent_event_timestamp ev (env_now_process env)) < ts_nanos r)
    (Hnear : ts_near (ts_nanos r)) (Hfuel : (0 < fuel)%nat) (Hfits : DayFits a) :
  ∃ a' evs, auto_rollover fuel env ev a = Ret (a', evs)
    ∧ (ts_nanos r - ts_nanos c ≤ ns_day → a' = a ∧ evs = [])
    ∧ (ns_day < ts_nanos r - ts_nanos c →
       day_opened a a' ∧ acc_trading_day_index a' = u32_succ (acc_trading_day_index a)
       ∧ ∃ s, acc_current_trading_day_start a' = Some s ∧ ts_nanos s = ts_nanos r - ns_day).
Proof.
  unfold auto_rollover. rewrite Hev. set (t := PipelineEvent_event_timestamp _ _) in *.
  destruct (zone_day_start _ _ _ _ Hzone Hreset Hnear) as (s & Hs & Es).
  assert (ts_geb t r = false) as Eg by (by apply ts_leb_false). rewrite Eg in Es.
  rewrite Hs. cbn [obind]. rewrite Hcur. cbn [obind].
  destruct (ts_gtb s c) eqn:Esc; ts_bool.
  - destruct (rollover_loop_once fuel (env_now_rollover env) t s true a c r)
      as (a' & -> & Ho & Hi & Hc');
      [done|done|by eapply zone_next_start|unfold ns_day, ns_second in *; lia|done..|].
    cbn [obind]. eexists _, _. split; [done|]. split; [intros; lia|]. eauto.
  - eexists _, _. split; [done|]. split; [done|]. intros. lia.
Qed.

(** A reset hour that the clock skips or shows twice on a date stops the
    engine: every event of that local date panics, other than an explicit
    rollover. *)
Theorem missing_reset_panics tz fuel pl env a ev
    (Hzone : plan_timezone (acc_plan a) = Some tz) (Hev : is_day_rollover ev = false)
    (Hreset : local_reset (acc_plan a) tz
                (tz_date_naive tz (PipelineEvent_event_timestamp ev (env_now_process env))) = None) :
  process fuel pl env a ev = Panic.
Proof.
  unfold process, auto_rollover. rewrite Hev. by rewrite (zone_day_start_missing _ tz _ Hzone Hreset).
Qed.

End ZoneFacts.

(** ** Witnesses *)

Import Samples PipelineSamples.

(** Four hours behind UTC, five from 6 a.m. UTC on the second day; the
    trading day starts at five in the afternoon. *)
Definition eastern : Tz := mkZone (-4 * ns_hour) (20001 * ns_day + 6 * ns_hour) (-5 * ns_hour).

Definition evening : Timestamp := 20000 * ns_day + 21 * ns_hour.

Definition eastern_account (hour : Z) : Account :=
  account <| acc_plan := plan <| plan_timezone := Some eastern |> <| plan_day_reset_time := hour |> |>
    <| acc_current_trading_day_start := Some evening |>.

(** The next morning a second day is opened within the first. *)
Lemma clock_change_splits_day_witness :
  ∃ a' evs, auto_rollover 1 (env_at (noon + ns_day)) PeOnDemand (eastern_account 17) = Ret (a', evs)
    ∧ acc_current_trading_day_start a' = Some (evening + ns_hour).
Proof.
  destruct (clock_change_splits_day eastern 1 (env_at (noon + ns_day)) PeOnDemand (eastern_account 17)
    evening (20001 * ns_day + 22 * ns_hour)) as (a' & evs & Hrun & _ & Hsplit).
  - reflexivity.
  - reflexivity.
  - reflexivity.
  - vm_compute. reflexivity.
  - vm_compute. reflexivity.
  - vm_compute. reflexivity.
  - vm_compute. discriminate.
  - lia.
  - split.
    + exists 0. split; [vm_compute; discriminate|vm_compute; reflexivity].
    + exists 0. split; [vm_compute; discriminate|vm_compute; reflexivity].
    + exists 100000000. split; [vm_compute; discriminate|vm_compute; reflexivity].
    + intros p E. vm_compute in E. discriminate E.
    + intros p E. vm_compute in E. discriminate E.
  - destruct Hsplit as (_ & _ & s & Hs & Es); [vm_compute; reflexivity|].
    exists a', evs. split; [exact Hrun|]. rewrite Hs. f_equal. exact Es.
Defined.

(** With the reset at one in the morning, which the clock shows twice that
    day. *)
Lemma missing_reset_panics_witness :
  process 1 pl (env_at (noon + ns_day)) (eastern_account 1) PeOnDemand = Panic.
Proof.
  apply (missing_reset_panics eastern).
  - reflexivity.
  - reflexivity.
  - vm_compute. reflexivity.
Defined.
