(* ===== verification/PipelineFacts.v ===== *)
(** * Theorems on the pipeline

    Guards on ticks, what a fill does to the open positions, two invariants
    of every account the pipeline produces, promotion, liquidation and the
    events of a failure. *)


From S2P Require Import Prelude.
From S2P Require Import Decimal.
From S2P Require Import Chrono.
From S2P Require Import Ids.
From S2P Require Import Domain.
From S2P Require Import Plan.
From S2P Require Import Account.
From S2P Require Import Violation.
From S2P Require Import Pack.
From S2P Require Import RuleApi.
#[local] Open Scope Z_scope.
From S2P Require Import Registry.
From S2P Require Import Decision.
From S2P Require Import State.
From S2P Require Import Pipeline.
From S2P Require Import Samples.
From S2P Require Import PipelineSamples.
From S2P Require Import Lifecycle.

(** Reads off the account of an event from its monadic definition. *)
Ltac event_fields :=
  repeat match goal with
  | H : Account_start _ _ = Ret _ |- _ => unfold Account_start in H; case_decide; [done|]
  | H : AccountState_clear_breach _ = Ret _ |- _ => unfold AccountState_clear_breach in H
  | H : AccountState_mark_payout_pending _ = Ret _ |- _ =>
      unfold AccountState_mark_payout_pending in H
  | H : record_payout _ _ _ _ = Ret _ |- _ => unfold record_payout in H
  | H : AccountState_rollover_day _ _ _ _ = Ret _ |- _ => apply rollover_core in H as []
  end.

Section PipelineFacts.
Context `{DL : DecimalLaws} `{CL : ChronoLaws} `{!JsonOps}.
Implicit Types a : Account.

(** ** What a decision leaves alone *)

Record money_kept (a a' : Account) : Prop := mkMoneyKept {
  mk_balance : acc_balance a' = acc_balance a;
  mk_equity : acc_equity a' = acc_equity a;
  mk_positions : acc_open_positions a' = acc_open_positions a;
  mk_trades : acc_today_trades a' = acc_today_trades a;
  mk_peak : acc_peak_balance a' = acc_peak_balance a ∨ acc_peak_balance a' = acc_balance a;
}.

Lemma money_kept_trans a b c : money_kept a b → money_kept b c → money_kept a c.
Proof. intros [] []. split; try congruence. intuition congruence. Qed.

Lemma target_step_kept a d at_ a' evs :
  decision_target_step a d at_ = (a', evs) → money_kept a a'.
Proof.
  unfold decision_target_step, AccountState_mark_target_reached. intros E.
  repeat (case_match; simplify_eq/=); split; auto.
Qed.

Lemma promotion_step_kept a at_ a' evs :
  decision_promotion_step a at_ = Ret (a', evs) → money_kept a a'.
Proof.
  unfold decision_promotion_step, AccountState_upgrade_phase. intros E.
  case_if_in E; [|monad_inv; split; auto]. monad_inv.
  destruct (plan_phase (acc_plan a)); simplify_eq/=; split; simpl; auto.
Qed.

Lemma terminate_step_kept a d at_ actor a' evs :
  decision_terminate_step a d at_ actor = Ret (a', evs) → money_kept a a'.
Proof.
  unfold decision_terminate_step. intros E.
  destruct (Decision_account_status_target d) as [s|]; [|simplify_eq/=; split; auto].
  destruct (dec_kind d); monad_inv; destruct (bool_decide (s = StFailed) || _); split; auto.
Qed.

Lemma apply_decision_kept a d at_ actor a' evs :
  apply_decision a d at_ actor = Ret (a', evs) → money_kept a a'.
Proof.
  unfold apply_decision. intros E.
  destruct (decision_target_step a d at_) as [a1 ev1] eqn:E1.
  apply bind_Ret_inv in E as ([a2 ev2] & E2 & E). apply bind_Ret_inv in E as ([a3 ev3] & E3 & E).
  injection E as <- _. apply target_step_kept in E1. apply promotion_step_kept in E2.
  apply terminate_step_kept in E3. by eapply money_kept_trans; [|eapply money_kept_trans].
Qed.

Lemma stamp_tick_kept a ev : money_kept a (stamp_tick a ev).
Proof. destruct ev; split; auto. Qed.

(** ** Ticks *)

Lemma num_minutes_le d n : 0 ≤ n → num_minutes d ≤ n → dur_nanos d < (n + 1) * ns_minute.
Proof.
  rewrite num_minutes_spec. intros Hn Hq.
  destruct (Z.le_gt_cases ((n + 1) * ns_minute) (dur_nanos d)) as [Hle|]; [|done].
  apply (Z.quot_le_mono _ _ ns_minute) in Hle; [|reflexivity].
  rewrite Z.quot_mul in Hle by discriminate. lia.
Qed.

Lemma tick_guard_ok now a tick :
  tick_guard now a tick = Ret tt →
  ts_nanos now - ts_nanos (q_ts (tick_quote tick)) < 11 * ns_minute ∧
  ∀ last, acc_last_tick_ts a = Some last → ts_nanos last < ts_nanos (q_ts (tick_quote tick)).
Proof.
  unfold tick_guard. intros E. case_if_in E; [done|].
  apply Z.ltb_ge in Heqb. unfold STALE_TICK_THRESHOLD_MINUTES in Heqb.
  apply num_minutes_le in Heqb; [|lia]. rewrite ts_since_spec in Heqb. split; [lia|].
  intros last Hl. rewrite Hl in E. case_if_in E; [done|]. ts_bool. lia.
Qed.

Lemma tick_state a equity balance :
  let s := AccountState_update_balance (AccountState_update_equity a equity) balance in
  acc_equity s = equity ∧ acc_balance s = balance
  ∧ acc_open_positions s = acc_open_positions a.
Proof.
  unfold AccountState_update_balance, AccountState_update_equity, raise_peak_balance.
  by repeat case_match.
Qed.

(** A broker tick that is processed was fresh and in order.  It is less
    than eleven minutes old by the wall clock and strictly newer than the
    last tick evaluated; afterwards it is the last tick, and the account
    carries the broker's equity and balance. *)
Theorem accepted_tick_fresh fuel pl env a tick equity balance res
    (Hrun : process fuel pl env a (PeTick tick equity balance) = Ret res) :
  let ts := q_ts (tick_quote tick) in
  ts_nanos (env_now_stale env) - ts_nanos ts < 11 * ns_minute
  ∧ (∀ last, acc_last_tick_ts a = Some last → ts_nanos last < ts_nanos ts)
  ∧ acc_last_tick_ts (pr_account res) = Some ts
  ∧ acc_equity (pr_account res) = equity ∧ acc_balance (pr_account res) = balance.
Proof.
  intros ts. apply process_inv in Hrun as (a1 & ap & a2 & [[evs Hroll] Happly _ [evs' Hdec] ->]).
  apply auto_rollover_core in Hroll.
  apply apply_event_inv in Happly as (trades & kind & evs2 & Hst & _).
  simpl in Hst. apply bind_Ret_inv in Hst as ([] & Hg & Hst). injection Hst as Hs _ Hf _.
  apply tick_guard_ok in Hg as [Hfresh Horder]. simpl in Horder.
  rewrite (sc_last_tick _ _ Hroll) in Horder.
  apply apply_decision_kept in Hdec as [Hb He _ _ _]. rewrite <- Hf, <- Hs in Hb, He.
  destruct (tick_state (a1 <| acc_today_trades := trades |>) equity balance) as (Te & Tb & _).
  cbn [consume_fill] in Hb, He.
  split_and!; [done|done|done|..];
    rewrite ?(mk_equity _ _ (stamp_tick_kept _ _)), ?(mk_balance _ _ (stamp_tick_kept _ _));
    congruence.
Qed.

(** An estimated tick moves no money.  Whatever its time (there is no
    guard), processing it leaves balance, equity and positions as they were
    and still becomes the last tick of the account. *)
Theorem estimated_tick_keeps_money fuel pl env a tick res
    (Hrun : process fuel pl env a (PeTickEstimated tick) = Ret res) :
  acc_balance (pr_account res) = acc_balance a ∧ acc_equity (pr_account res) = acc_equity a
  ∧ acc_open_positions (pr_account res) = acc_open_positions a
  ∧ acc_last_tick_ts (pr_account res) = Some (q_ts (tick_quote tick)).
Proof.
  apply process_inv in Hrun as (a1 & ap & a2 & [[evs Hroll] Happly _ [evs' Hdec] ->]).
  apply auto_rollover_core in Hroll as [].
  apply apply_event_inv in Happly as (trades & kind & evs2 & Hst & _).
  simpl in Hst. apply bind_Ret_inv in Hst as (eq & _ & Hst). injection Hst as Hs _ Hf _.
  apply apply_decision_kept in Hdec as [Hb He Hp _ _]. rewrite <- Hf, <- Hs in Hb, He, Hp.
  simpl in *. split_and!; congruence.
Qed.

(** ** Positions *)

(** The open positions after a fill that produced [position]. *)
Definition positions_after (ps : list Position) (position : Position) : list Position :=
  let kept := List.filter (fun p => negb (bool_decide (pos_id p = pos_id position))) ps in
  if Position_is_open position then kept ++ [position] else kept.

Lemma process_fill fuel pl env a trade res :
  process fuel pl env a (PeTradeFilled trade) = Ret res →
  ∃ position, fill_position (env_position_id env) (acc_open_positions a) trade = Ret position
    ∧ acc_open_positions (pr_account res) = positions_after (acc_open_positions a) position.
Proof.
  intros (a1 & ap & a2 & [[evs Hroll] Happly _ [evs' Hdec] ->])%process_inv.
  apply auto_rollover_core in Hroll as Hcore.
  apply apply_event_inv in Happly as (trades & kind & evs2 & Hst & _).
  simpl in Hst. apply bind_Ret_inv in Hst as (s & Hpnl & Hst).
  apply bind_Ret_inv in Hst as (position & Hfill & Hst). injection Hst as Hs _ Hf _.
  apply apply_decision_kept in Hdec as [_ _ Hp _ _]. rewrite <- Hf, <- Hs in Hp.
  assert (Hops : acc_open_positions (AccountState_mark_active_trading_day s) = acc_open_positions a).
  { transitivity (acc_open_positions s).
    { unfold AccountState_mark_active_trading_day. destruct (negb _); reflexivity. }
    rewrite <- (sc_positions _ _ Hcore). unfold AccountState_apply_realized_pnl in Hpnl. monad_inv.
    unfold raise_peak_balance. destruct (dec_gtb _ _); reflexivity. }
  exists position. rewrite (sc_positions _ _ Hcore) in Hfill. split; [done|].
  simpl in *. rewrite Hp, Hops. done.
Qed.

(** What a fill does to the open positions.  An exit removes the
    position it names, whatever quantity it closed, and keeps the others in
    order; an entry or a reversal of a positive quantity appends one new open
    position with the fill's symbol, side, price and quantity. *)
Theorem fill_updates_positions fuel pl env a trade res
    (Hrun : process fuel pl env a (PeTradeFilled trade) = Ret res) :
  let others id := List.filter (fun p => negb (bool_decide (pos_id p = id))) (acc_open_positions a) in
  match tr_trade_side trade with
  | Exit =>
      ∃ info, tr_exit_info trade = Some info
        ∧ acc_open_positions (pr_account res) = others (ex_position_id info)
  | Entry | Reverse =>
      Quantity_is_positive (tr_quantity trade) = true →
      ∃ p, acc_open_positions (pr_account res) = others (env_position_id env) ++ [p]
        ∧ pos_id p = env_position_id env ∧ pos_symbol p = tr_symbol trade
        ∧ pos_side p = PositionSide_from_order (tr_side trade)
        ∧ pos_avg_entry_price p = tr_price trade ∧ pos_open_quantity p = tr_quantity trade
        ∧ Position_is_open p = true
  end.
Proof.
  intros others. apply process_fill in Hrun as (position & Hfill & ->).
  assert (Hopen : ∀ p, fill_position (env_position_id env) (acc_open_positions a) trade = Ret p →
    tr_trade_side trade ≠ Exit → Quantity_is_positive (tr_quantity trade) = true →
    positions_after (acc_open_positions a) p = others (env_position_id env) ++ [p]
    ∧ pos_id p = env_position_id env ∧ pos_symbol p = tr_symbol trade
    ∧ pos_side p = PositionSide_from_order (tr_side trade)
    ∧ pos_avg_entry_price p = tr_price trade ∧ pos_open_quantity p = tr_quantity trade
    ∧ Position_is_open p = true).
  { intros p E Hne Hq. unfold fill_position in E.
    destruct (tr_trade_side trade); [injection E as <-|done|injection E as <-];
      unfold positions_after, Position_is_open; simpl; by rewrite Hq. }
  unfold fill_position in Hfill, Hopen.
  destruct (tr_trade_side trade); [intros; by eexists; apply Hopen| |intros; by eexists; apply Hopen].
  destruct (tr_exit_info trade) as [info|]; [|done]. exists info. split; [done|].
  injection Hfill as <-. unfold positions_after, close_position.
  destruct (List.find _ _) as [p|] eqn:Ef; [|done].
  apply find_some in Ef as [_ Ef%bool_decide_eq_true]. simpl. by rewrite Ef.
Qed.

(** The open positions are open and have distinct identifiers. *)
Definition positions_ok (a : Account) : Prop :=
  NoDup (pos_id <$> acc_open_positions a)
  ∧ Forall (fun p => Position_is_open p = true) (acc_open_positions a).

Lemma positions_after_ok ps position :
  NoDup (pos_id <$> ps) → Forall (fun p => Position_is_open p = true) ps →
  NoDup (pos_id <$> positions_after ps position)
  ∧ Forall (fun p => Position_is_open p = true) (positions_after ps position).
Proof.
  intros Hnd Hop. unfold positions_after.
  set (kept := List.filter _ ps).
  assert (Hk : ∀ p, p ∈ kept → p ∈ ps ∧ pos_id p ≠ pos_id position).
  { intros p Hp. apply list_elem_of_In, filter_In in Hp as [Hin Hne].
    rewrite negb_true_iff, bool_decide_eq_false in Hne. split; [by apply list_elem_of_In|done]. }
  assert (Hknd : NoDup (pos_id <$> kept)) by by apply filter_NoDup_fmap.
  assert (Hkop : Forall (fun p => Position_is_open p = true) kept).
  { apply Forall_forall. intros p [Hp _]%Hk. by eapply Forall_forall in Hop. }
  destruct (Position_is_open position) eqn:Eo; [|done].
  rewrite fmap_app. split; [|by apply Forall_app_2; [|apply Forall_singleton]].
  apply NoDup_app. split_and!; [done| |apply NoDup_singleton].
  intros id (q & -> & Hq)%list_elem_of_fmap. simpl. rewrite list_elem_of_singleton.
  by apply Hk in Hq as [_ ?].
Qed.

Definition is_fill (ev : PipelineEvent) : bool :=
  match ev with PeTradeFilled _ => true | _ => false end.

Lemma event_positions env ops a ev s kind fill evs :
  apply_event_state env ops a ev = Ret (s, kind, fill, evs) → is_fill ev = false →
  acc_open_positions s = acc_open_positions a ∧ fill = None.
Proof.
  intros E Hev. destruct ev; simpl in E; try done; monad_inv; try done.
  - event_fields. monad_inv. case_match; monad_inv; done.
  - split; [|done]. by apply tick_state.
  - event_fields. done.
  - split; [|done]. unfold AccountState_emergency_stop. by destruct (acc_status_before_breach a).
  - case_if_in E; [done|]. monad_inv. event_fields. destruct (acc_status a); monad_inv; done.
  - event_fields. destruct (acc_status a); monad_inv; done.
  - event_fields. match goal with H : (if _ then Err _ else _) = Ret _ |- _ => case_if_in H end; [done|].
    monad_inv. split; [|done]. simpl. by destruct (bool_decide (acc_status a = StPayoutPending)).
Qed.

Lemma process_positions_ok fuel pl env a ev res :
  process fuel pl env a ev = Ret res → positions_ok a → positions_ok (pr_account res).
Proof.
  intros Hrun [Hnd Hop]. unfold positions_ok. destruct (is_fill ev) eqn:Hev.
  - destruct ev; try done. apply process_fill in Hrun as (position & _ & ->).
    by apply positions_after_ok.
  - apply process_inv in Hrun as (a1 & ap & a2 & [[evs Hroll] Happly _ [evs' Hdec] ->]).
    apply auto_rollover_core in Hroll as Hcore.
    apply apply_event_inv in Happly as (trades & kind & evs2 & Hst & _).
    apply event_positions in Hst as [Hp Hf]; [|done].
    apply apply_decision_kept in Hdec as [_ _ Hp' _ _]. rewrite Hf in Hp'.
    rewrite (mk_positions _ _ (stamp_tick_kept a2 ev)).
    cbn [consume_fill] in Hp'. rewrite Hp', Hp. simpl. rewrite (sc_positions _ _ Hcore). done.
Qed.

(** C32: the position list is always well formed: a new account has it, and
    every processed event, whatever identifier its new position draws, keeps
    the open positions open and their identifiers distinct. *)
Theorem positions_well_formed fuel pl env a ev res
    (Hok : positions_ok a) (Hrun : process fuel pl env a ev = Ret res) :
  positions_ok (pr_account res) ∧ ∀ id tenant plan, positions_ok (Account_new id tenant plan).
Proof. split; [by eapply process_positions_ok|]. intros. split; constructor. Qed.

(** ** The peak balance *)

Definition peak_ok (a : Account) : Prop := (dval (acc_balance a) <= dval (acc_peak_balance a))%Q.

Lemma raise_peak_ok a : peak_ok (raise_peak_balance a).
Proof.
  unfold peak_ok, raise_peak_balance.
  destruct (dec_gtb (acc_balance a) (acc_peak_balance a)) eqn:E; simpl; [apply Qle_refl|].
  by dec_bool.
Qed.

Lemma event_peak_ok env ops a ev s kind fill evs :
  apply_event_state env ops a ev = Ret (s, kind, fill, evs) → peak_ok a →
  ¬ payable (acc_status a) → peak_ok s.
Proof.
  intros E Hok Hpay. destruct ev; simpl in E; monad_inv; try done.
  - event_fields. monad_inv. case_match; monad_inv; done.
  - match goal with H : AccountState_apply_realized_pnl _ _ _ _ _ = Ret ?x |- _ =>
      assert (Hx : peak_ok x) end.
    { match goal with H : AccountState_apply_realized_pnl _ _ _ _ _ = Ret _ |- _ =>
        unfold AccountState_apply_realized_pnl in H end. monad_inv.
      match goal with |- context [raise_peak_balance ?y] => exact (raise_peak_ok y) end. }
    unfold AccountState_mark_active_trading_day. destruct (negb _); exact Hx.
  - apply raise_peak_ok.
  - event_fields. unfold peak_ok in *. congruence.
  - unfold AccountState_emergency_stop. by destruct (acc_status_before_breach a).
  - case_if_in E; [done|]. monad_inv. event_fields. destruct (acc_status a); monad_inv; done.
  - event_fields. destruct (acc_status a) eqn:Es; monad_inv; done.
  - match goal with H : record_payout _ _ _ _ = Ret _ |- _ =>
      apply record_payout_life in H as [Hp _] end. done.
Qed.

(** C33: the peak balance is a peak.  In every account reached from a new one
    without overrides, the peak balance is at least the balance. *)
Theorem peak_balance_dominates pl a (Hreach : reachable pl a) :
  (dval (acc_balance a) <= dval (acc_peak_balance a))%Q.
Proof.
  change (peak_ok a). induction Hreach as [id tenant plan|fuel env a ev res Hr IH Hev Hrun].
  { apply Qle_refl. }
  apply reachable_unpaid in Hr.
  apply process_inv in Hrun as (a1 & ap & a2 & [[evs Hroll] Happly _ [evs' Hdec] ->]).
  apply auto_rollover_core in Hroll as Hcore.
  apply apply_event_inv in Happly as (trades & kind & evs2 & Hst & _).
  apply event_peak_ok in Hst.
  - apply apply_decision_kept in Hdec as [Hb _ _ _ Hp].
    assert (Hc : peak_ok (consume_fill (ae_state ap) (ae_trade_fill ap)))
      by by destruct (ae_trade_fill ap) as [[? ?]|].
    assert (Ha2 : peak_ok a2).
    { unfold peak_ok in *. rewrite Hb. destruct Hp as [-> | ->]; [done|apply Qle_refl]. }
    by destruct ev.
  - unfold peak_ok in *. simpl. by rewrite (sc_balance _ _ Hcore), (sc_peak_balance _ _ Hcore).
  - simpl. rewrite (sc_status _ _ Hcore). unfold unpaid, life in Hr.
    intros [E|E]; rewrite E in Hr; set_solver.
Qed.

(** ** Promotion, liquidation and events *)

(** An account without a current day has no day to close: the automatic
    rollover leaves it as it is. *)
Lemma auto_rollover_no_day fuel env ev a r :
  acc_current_trading_day_start a = None →
  auto_rollover fuel env ev a = Ret r → r = (a, []).
Proof.
  unfold auto_rollover. intros Hnone E. rewrite Hnone in E.
  destruct (is_day_rollover ev); [by injection E|].
  destruct (ChallengePlan_trading_day_start _ _) as [d|?| |]; simpl in E; [|discriminate..].
  replace (ts_gtb d d) with false in E by (symmetry; apply Z.ltb_irrefl).
  by injection E.
Qed.

(** What a due promotion does.  From phase 1 to phase 2 and from phase 2
    to the funded phase, the account is active again with the new plan phase
    and account type, its target, days and day results cleared, and its peaks
    and day references at the current balance and equity, which do not
    change; it has no current trading day, and for every event the automatic
    rollover that returns leaves it so.  A funded account that hits its target again has no next phase:
    the promotion is an error. *)
Theorem promotion_outcome a at_ (Hdue : promotion_due a = true) :
  let promoted phase type :=
    ∃ a' evs, decision_promotion_step a at_ = Ret (a', evs)
      ∧ plan_phase (acc_plan a') = phase ∧ acc_account_type a' = type
      ∧ acc_status a' = StActive ∧ acc_target_reached_at a' = None
      ∧ acc_active_trading_days a' = 0 ∧ acc_today_realized_pnl a' = dec_zero
      ∧ acc_balance a' = acc_balance a ∧ acc_equity a' = acc_equity a
      ∧ acc_peak_balance a' = acc_balance a ∧ acc_peak_equity a' = acc_equity a
      ∧ acc_day_start_balance a' = acc_balance a
      ∧ (∀ fuel env ev r, auto_rollover fuel env ev a' = Ret r → r = (a', []))
      ∧ de_kind <$> evs = [EvAccountStatusChanged StTargetHitPending StPassed;
                           EvPlanUpgraded (plan_phase (acc_plan a)) phase] in
  match plan_phase (acc_plan a) with
  | Phase1 => promoted Phase2 AtPhase2
  | Phase2 => promoted FundedPhase AtFunded
  | FundedPhase => ∃ msg, decision_promotion_step a at_ = Err (InvalidState msg)
  end.
Proof.
  intros promoted. subst promoted. unfold decision_promotion_step. rewrite Hdue.
  unfold promotion_due in Hdue. apply andb_true_iff in Hdue as [Hdue _].
  apply andb_true_iff in Hdue as [_ Hs%bool_decide_eq_true].
  unfold AccountState_upgrade_phase. simpl.
  destruct (plan_phase (acc_plan a)) eqn:Ep; simpl; [| |by eexists];
    (eexists _, _; split; [reflexivity|]); rewrite Hs; split_and!;
    try reflexivity; intros *; by apply auto_rollover_no_day.
Qed.

Lemma terminate_emits a d at_ actor a' evs :
  (dec_kind d = DkLiquidate ∨ dec_kind d = DkEmergency) →
  decision_terminate_step a d at_ actor = Ret (a', evs) →
  ∃ i, EvLiquidationRequested i ∈ (de_kind <$> evs)
    ∧ li_account_id i = acc_id a ∧ li_actor_id i = actor
    ∧ li_positions i = LiquidationPosition_from_position
                         <$> List.filter Position_is_open (acc_open_positions a).
Proof.
  unfold decision_terminate_step, Decision_account_status_target. intros Hk E.
  assert (Hi : ∃ b i, acc_open_positions b = acc_open_positions a ∧ acc_id b = acc_id a
    ∧ EvLiquidationRequested i ∈ (de_kind <$> evs)
    ∧ ∃ r t, LiquidationInstruction_new (acc_id b) (acc_tenant_id b) (acc_open_positions b)
               r t actor at_ = Ret i).
  { destruct Hk as [Hk|Hk]; rewrite Hk in E; simpl in E; monad_inv;
      (eexists a, _; split_and!; [reflexivity|reflexivity| |eexists _, _; eassumption]);
      simpl; right; left. }
  destruct Hi as (b & i & Hb & Hid & Hin & r & t & Hnew). exists i. split; [done|].
  unfold LiquidationInstruction_new in Hnew. monad_inv. simpl. by rewrite Hb.
Qed.

(** The first two steps of a terminating decision, a promotion that is due
    included, leave the account's name and positions. *)
Lemma promoted_same a at_ a' evs :
  decision_promotion_step a at_ = Ret (a', evs) →
  acc_id a' = acc_id a ∧ acc_open_positions a' = acc_open_positions a.
Proof.
  unfold decision_promotion_step, AccountState_upgrade_phase. intros E.
  case_if_in E; [|by monad_inv]. monad_inv. by destruct (plan_phase (acc_plan a)); simplify_eq/=.
Qed.

(** C34: a liquidation closes everything.  When a decision that is applied
    liquidates the account or stops it, and the account's positions are well
    formed, an instruction is emitted for this account that lists exactly its
    open positions, in order, whether or not the same decision also promotes
    the account. *)
Theorem liquidation_covers_positions a d at_ actor a' evs
    (Hok : positions_ok a)
    (Hk : dec_kind d = DkLiquidate ∨ dec_kind d = DkEmergency)
    (Hd : apply_decision a d at_ actor = Ret (a', evs)) :
  ∃ i, EvLiquidationRequested i ∈ (de_kind <$> evs) ∧ li_account_id i = acc_id a
    ∧ lp_position_id <$> li_positions i = pos_id <$> acc_open_positions a.
Proof.
  unfold apply_decision in Hd.
  assert (decision_target_step a d at_ = (a, [])) as Ht.
  { unfold decision_target_step, Decision_is_target_hit. by destruct Hk as [-> | ->]. }
  rewrite Ht in Hd. apply bind_Ret_inv in Hd as ([a2 ev2] & E2 & E).
  apply bind_Ret_inv in E as ([a3 ev3] & E3 & E). injection E as _ <-.
  apply promoted_same in E2 as [Ei Ep].
  apply terminate_emits in E3 as (i & Hin & Hid & _ & Hpos); [|done].
  exists i. split_and!; [by rewrite fmap_app, elem_of_app; right|congruence|]. rewrite Hpos, Ep.
  assert (Hall : List.filter Position_is_open (acc_open_positions a) = acc_open_positions a).
  { destruct Hok as [_ Hop]. apply filter_all_kept. by apply Forall_forall. }
  rewrite Hall, <- list_fmap_compose. apply list_fmap_ext. by intros.
Qed.

(** Status changes to [StFailed]. *)
Definition to_failed (e : DomainEvent) : bool :=
  match de_kind e with EvAccountStatusChanged _ StFailed => true | _ => false end.

Lemma terminate_to_failed a d at_ actor a' evs :
  dec_kind d = DkFail → decision_terminate_step a d at_ actor = Ret (a', evs) →
  ∃ e, e ∈ evs ∧ de_kind e = EvAccountStatusChanged (acc_status a) StFailed.
Proof.
  unfold decision_terminate_step, Decision_account_status_target. intros Hk E.
  rewrite Hk in E. simpl in E. monad_inv. eexists. split; [left|reflexivity].
Qed.

(** A failure is announced twice.  When the decision of a call is a
    failure, the events of the call hold two changes to the failed status:
    one from the status the account had, and one that always says the account
    was active. *)
Theorem failure_announced_twice fuel pl env a ev res
    (Hrun : process fuel pl env a ev = Ret res)
    (Hk : dec_kind (er_decision (pr_result res)) = DkFail) :
  ∃ before e1 mid e2 after,
    pr_events res = before ++ e1 :: mid ++ e2 :: after
    ∧ to_failed e1 = true ∧ de_kind e2 = EvAccountStatusChanged StActive StFailed.
Proof.
  unfold process in Hrun.
  apply bind_Ret_inv in Hrun as ([a1 er] & _ & E). apply bind_Ret_inv in E as (ap & _ & E).
  apply bind_Ret_inv in E as (result & _ & E). apply bind_Ret_inv in E as ([a2 ed] & Hd & E).
  apply bind_Ret_inv in E as (snap & _ & E). apply bind_Ret_inv in E as (u & _ & E).
  injection E as <-. simpl in Hk. cbn [pr_events].
  unfold apply_decision in Hd.
  destruct (decision_target_step _ _ _) as [b1 ev1].
  apply bind_Ret_inv in Hd as ([b2 ev2] & _ & E). apply bind_Ret_inv in E as ([b3 ev3] & E3 & E).
  injection E as _ <-. apply terminate_to_failed in E3 as (e1 & He1 & Hk1); [|done].
  apply list_elem_of_split in He1 as (l & r & ->).
  unfold emit_decision_event. rewrite Hk.
  exists (er ++ ae_events ap ++ ev1 ++ ev2 ++ l), e1, r. eexists _, _.
  split; [by rewrite <- ?app_assoc|].
  split; [unfold to_failed; by rewrite Hk1|reflexivity].
Qed.

End PipelineFacts.

(** ** Witnesses *)

Import Samples PipelineSamples.

Lemma accepted_tick_fresh_witness :
  ∃ res, process 40 pl (env_at noon) account (PeTick (quote_at noon) (money 9900) (money 10000)) = Ret res
    ∧ acc_last_tick_ts (pr_account res) = Some noon.
Proof.
  destruct (is_ret_inv (process 40 pl (env_at noon) account
    (PeTick (quote_at noon) (money 9900) (money 10000)))) as [res Hres]; [vm_compute; reflexivity|].
  exists res. split; [exact Hres|].
  exact (proj1 (proj2 (proj2 (accepted_tick_fresh 40 pl (env_at noon) account (quote_at noon)
           (money 9900) (money 10000) res Hres)))).
Defined.

(** An estimated tick one minute older than the last tick. *)
Lemma estimated_tick_keeps_money_witness :
  ∃ res, process 40 pl (env_at noon) (account <| acc_last_tick_ts := Some noon |>)
           (PeTickEstimated (quote_at (noon - ns_minute))) = Ret res
    ∧ acc_last_tick_ts (pr_account res) = Some (noon - ns_minute).
Proof.
  destruct (is_ret_inv (process 40 pl (env_at noon) (account <| acc_last_tick_ts := Some noon |>)
    (PeTickEstimated (quote_at (noon - ns_minute))))) as [res Hres]; [vm_compute; reflexivity|].
  exists res. split; [exact Hres|].
  exact (proj2 (proj2 (proj2 (estimated_tick_keeps_money 40 pl (env_at noon)
           (account <| acc_last_tick_ts := Some noon |>) (quote_at (noon - ns_minute)) res Hres)))).
Defined.

(** Half of the position is sold, and none of it is left open. *)
Lemma fill_updates_positions_witness :
  ∃ res, process 40 pl (env_at noon) invested (PeTradeFilled partial_exit) = Ret res
    ∧ length (acc_open_positions invested) = 1%nat
    ∧ length (acc_open_positions (pr_account res)) = 0%nat.
Proof.
  destruct (is_ret_inv (process 40 pl (env_at noon) invested (PeTradeFilled partial_exit)))
    as [res Hres]; [vm_compute; reflexivity|].
  exists res. split; [exact Hres|]. split; [vm_compute; reflexivity|].
  destruct (fill_updates_positions 40 pl (env_at noon) invested partial_exit res Hres)
    as (info & Hinfo & Hp).
  injection Hinfo as <-. rewrite Hp. vm_compute. reflexivity.
Defined.

Lemma account_positions : acc_open_positions account = [].
Proof. reflexivity. Qed.

Lemma invested_ok : positions_ok invested.
Proof.
  assert (Hok : positions_ok account).
  { unfold positions_ok. rewrite account_positions. split; constructor. }
  unfold invested, run.
  destruct (process 40 pl (env_at noon) account (PeTradeFilled entry)) eqn:E; [|exact Hok..].
  exact (process_positions_ok _ _ _ _ _ _ E Hok).
Qed.

Lemma positions_well_formed_witness :
  ∃ res, process 40 pl (env_at noon) invested (PeTradeFilled partial_exit) = Ret res
    ∧ positions_ok (pr_account res).
Proof.
  destruct (is_ret_inv (process 40 pl (env_at noon) invested (PeTradeFilled partial_exit)))
    as [res Hres]; [vm_compute; reflexivity|].
  exists res. split; [exact Hres|].
  exact (proj1 (positions_well_formed 40 pl (env_at noon) invested (PeTradeFilled partial_exit) res
           invested_ok Hres)).
Defined.

Lemma peak_balance_dominates_witness :
  ∃ res, process 40 pl (env_at noon) fresh_account (PeAccountStarted noon) = Ret res
    ∧ (dval (acc_balance (pr_account res)) <= dval (acc_peak_balance (pr_account res)))%Q.
Proof.
  destruct (is_ret_inv (process 40 pl (env_at noon) fresh_account (PeAccountStarted noon)))
    as [res Hres]; [vm_compute; reflexivity|].
  exists res. split; [exact Hres|].
  exact (peak_balance_dominates pl (pr_account res)
           (reach_step pl 40 (env_at noon) fresh_account (PeAccountStarted noon) res
              (reach_new pl 7 9 plan) eq_refl Hres)).
Defined.

(** An account that has hit its target and done its days. *)
Definition due_account : Account :=
  account <| acc_status := StTargetHitPending |> <| acc_target_reached_at := Some noon |>
          <| acc_active_trading_days := 3 |>.

Lemma promotion_outcome_witness :
  ∃ a' evs, decision_promotion_step due_account noon = Ret (a', evs)
    ∧ plan_phase (acc_plan a') = Phase2.
Proof.
  assert (Hdue : promotion_due due_account = true) by (vm_compute; reflexivity).
  assert (E : plan_phase (acc_plan due_account) = Phase1) by reflexivity.
  pose proof (promotion_outcome due_account noon Hdue) as Hp. cbv zeta in Hp. rewrite E in Hp.
  destruct Hp as (a' & evs & Hs & Hph & _). exists a', evs. split; [exact Hs|exact Hph].
Defined.

Definition liquidating : Decision := Decision_from_reports [report 9 (VLiquidate (violation 1))].

Lemma liquidation_covers_positions_witness :
  ∃ a' evs i, apply_decision invested liquidating noon "rule_engine" = Ret (a', evs)
    ∧ EvLiquidationRequested i ∈ (de_kind <$> evs)
    ∧ lp_position_id <$> li_positions i = pos_id <$> acc_open_positions invested.
Proof.
  destruct (is_ret_inv (apply_decision invested liquidating noon "rule_engine"))
    as [[a' evs] Hd]; [vm_compute; reflexivity|].
  destruct (liquidation_covers_positions invested liquidating noon "rule_engine" a' evs
              invested_ok (or_introl eq_refl) Hd) as (i & Hin & _ & Hpos).
  exists a', evs, i. split; [exact Hd|]. split; [exact Hin|exact Hpos].
Defined.

(** The sample account, processed a day after its time limit. *)
Lemma failure_announced_twice_witness :
  ∃ res before e1 mid e2 after,
    process 40 pl (env_at (noon + 31 * ns_day)) account PeOnDemand = Ret res
    ∧ pr_events res = before ++ e1 :: mid ++ e2 :: after
    ∧ de_kind e2 = EvAccountStatusChanged StActive StFailed.
Proof.
  assert (Hk : match process 40 pl (env_at (noon + 31 * ns_day)) account PeOnDemand with
               | Ret res => dec_kind (er_decision (pr_result res))
               | _ => DkPass
               end = DkFail) by (vm_compute; reflexivity).
  destruct (process 40 pl (env_at (noon + 31 * ns_day)) account PeOnDemand)
    as [res|?| |] eqn:Hres; [|discriminate Hk..].
  destruct (failure_announced_twice 40 pl (env_at (noon + 31 * ns_day)) account PeOnDemand res
              Hres Hk) as (before & e1 & mid & e2 & after & Hev & _ & He2).
  exists res, before, e1, mid, e2, after. split; [reflexivity|]. split; [exact Hev|exact He2].
Defined.
