(* ===== verification/CounterFacts.v ===== *)
(** * Theorems on the day counters

    The counters of an account keep their machine type, and the days counted
    as active never outnumber the days. *)

From S2P Require Import Prelude.
From S2P Require Import Decimal.
From S2P Require Import Chrono.
From S2P Require Import Ids.
From S2P Require Import Domain.
From S2P Require Import Plan.
From S2P Require Import Account.
From S2P Require Import Violation.
From S2P Require Import Pack.
From S2P Require Import RuleApi.
#[local] Open Scope Z_scope.
From S2P Require Import Registry.
From S2P Require Import Decision.
From S2P Require Import State.
From S2P Require Import Pipeline.
From S2P Require Import Samples.
From S2P Require Import PipelineSamples.
From S2P Require Import Lifecycle.
From S2P Require Import RolloverFacts.
From S2P Require Import PipelineFacts.

Section CounterFacts.
Context `{DecimalOps} `{ChronoOps} `{!JsonOps}.
Implicit Types a : Account.

(** The counters are 32-bit, and the active days fit in the days there were:
    the finished ones, and today once it is counted. *)
Record counters_ok a : Prop := mkCountersOk {
  co_index : is_u32 (acc_trading_day_index a);
  co_active : is_u32 (acc_active_trading_days a);
  co_profitable : is_u32 (acc_profitable_days_count a);
  co_qualifying : is_u32 (acc_qualifying_trading_days_count a);
  co_payouts : is_u32 (acc_payout_count a);
  co_days : acc_active_trading_days a
            ≤ acc_trading_day_index a + (if acc_day_counted_today a then 1 else 0);
}.

(** The counters of two accounts agree. *)
Definition same_counters a a' : Prop :=
  acc_trading_day_index a' = acc_trading_day_index a
  ∧ acc_active_trading_days a' = acc_active_trading_days a
  ∧ acc_profitable_days_count a' = acc_profitable_days_count a
  ∧ acc_qualifying_trading_days_count a' = acc_qualifying_trading_days_count a
  ∧ acc_payout_count a' = acc_payout_count a
  ∧ acc_day_counted_today a' = acc_day_counted_today a.

#[export] Instance counters_ok_proper : Proper (same_counters ==> impl) counters_ok.
Proof.
  intros a a' (E1 & E2 & E3 & E4 & E5 & E6) []. split; rewrite ?E1, ?E2, ?E3, ?E4, ?E5, ?E6; done.
Qed.

Lemma new_counters_ok id tenant plan : counters_ok (Account_new id tenant plan).
Proof. split; simpl; unfold is_u32, u32_modulus; lia. Qed.

(** [u32_succ] with room. *)
Lemma u32_succ_room x : is_u32 x → x < u32_max → u32_succ x = x + 1.
Proof. unfold is_u32. intros [? _] ?. by apply u32_succ_small. Qed.

(** What freezing a day does to the counters. *)
Lemma freeze_day_counters a a' :
  counters_ok a → freeze_day a = Ret a' →
  acc_trading_day_index a' = acc_trading_day_index a
  ∧ acc_payout_count a' = acc_payout_count a
  ∧ is_u32 (acc_profitable_days_count a') ∧ is_u32 (acc_qualifying_trading_days_count a')
  ∧ acc_active_trading_days a' = (if acc_day_counted_today a then acc_active_trading_days a
                                  else u32_succ (acc_active_trading_days a)).
Proof.
  intros [_ _ Hp Hq _ _] E. pose proof (freeze_day_count _ _ E) as Hc.
  pose proof (freeze_day_core _ _ E) as Hcore.
  rewrite (sc_payouts _ _ Hcore). split_and!; try done; clear Hc Hcore;
    unfold freeze_day in E; monad_inv;
    repeat (case_match; simplify_eq/=; monad_inv); done || apply u32_succ_range.
Qed.

Lemma rollover_counters now a had target a' :
  counters_ok a → acc_trading_day_index a < u32_max →
  AccountState_rollover_day now a had target = Ret a' →
  counters_ok a' ∧ acc_trading_day_index a' = acc_trading_day_index a + 1.
Proof.
  intros Hok Hroom. unfold AccountState_rollover_day. intros E. monad_inv.
  match goal with H : (if had then _ else _) = Ret ?y |- _ => rename y into x; rename H into Hx end.
  assert (Hi : u32_succ (acc_trading_day_index a) = acc_trading_day_index a + 1)
    by (apply u32_succ_room; [apply Hok|done]).
  assert (Hc : acc_trading_day_index x = acc_trading_day_index a
    ∧ acc_payout_count x = acc_payout_count a
    ∧ is_u32 (acc_profitable_days_count x) ∧ is_u32 (acc_qualifying_trading_days_count x)
    ∧ 0 ≤ acc_active_trading_days x ≤ acc_trading_day_index a + 1).
  { pose proof (co_index _ Hok) as [Hin _]. pose proof (co_active _ Hok) as [Hac _].
    pose proof (co_days _ Hok) as Hd. destruct had.
    - apply freeze_day_counters in Hx as (? & ? & ? & ? & Ha); [|done].
      do 4 (split; [done|]). rewrite Ha.
      destruct (acc_day_counted_today a); [lia|rewrite u32_succ_small; lia].
    - injection Hx as <-. do 2 (split; [done|]). do 2 (split; [apply Hok|]).
      destruct (acc_day_counted_today a); lia. }
  destruct Hc as (Ei & Ep & Hp & Hq & Ha). simpl. rewrite Ei, Hi. split; [|done].
  split; simpl; rewrite ?Ei, ?Hi, ?Ep; try done; try apply Hok;
    unfold is_u32, u32_max, u32_modulus in *; destruct (co_index a Hok); lia.
Qed.

Lemma rollover_loop_counters fuel now ts day first a a' :
  counters_ok a → acc_trading_day_index a + Z.of_nat fuel < u32_max →
  rollover_loop fuel now ts day first a = Ret a' →
  counters_ok a' ∧ acc_trading_day_index a' ≤ acc_trading_day_index a + Z.of_nat fuel.
Proof.
  revert first a. induction fuel as [|fuel IH]; intros first a Hok Hroom E; simpl in E.
  { case_if_in E; simplify_eq/=. split; [done|lia]. }
  case_if_in E; [|simplify_eq/=; split; [done|lia]]. monad_inv.
  match goal with H : (if _ then _ else _) = Ret ?x |- _ =>
    assert (Hx : counters_ok x ∧ acc_trading_day_index x = acc_trading_day_index a + 1)
      by (case_match; eapply rollover_counters; try done; lia) end.
  destruct Hx as [Hx Ei]. apply IH in E as [? ?]; [|done|lia]. split; [done|lia].
Qed.

Lemma auto_rollover_counters fuel env ev a a' evs :
  counters_ok a → acc_trading_day_index a + Z.of_nat fuel < u32_max →
  auto_rollover fuel env ev a = Ret (a', evs) →
  counters_ok a' ∧ acc_trading_day_index a' ≤ acc_trading_day_index a + Z.of_nat fuel.
Proof.
  unfold auto_rollover. intros Hok Hroom E.
  destruct (is_day_rollover ev); [simplify_eq/=; split; [done|lia]|].
  monad_inv. case_match; monad_inv; [by eapply rollover_loop_counters|split; [done|lia]].
Qed.

(** An update that leaves the counters alone. *)
Ltac keep_counters :=
  match goal with
  | Hok : counters_ok ?a |- counters_ok ?b =>
      apply (counters_ok_proper a b); [|exact Hok]; unfold same_counters; repeat case_match; done
  end.

(** A fill counts the day. *)
Lemma mark_day_counters a :
  counters_ok a → acc_trading_day_index a < u32_max →
  counters_ok (AccountState_mark_active_trading_day a).
Proof.
  intros [] ?. unfold AccountState_mark_active_trading_day.
  destruct (acc_day_counted_today a) eqn:E; simpl; [by split; rewrite ?E|].
  unfold is_u32 in *. split; simpl; try done; rewrite ?u32_succ_small by lia;
    unfold is_u32, u32_max, u32_modulus in *; lia.
Qed.

Lemma event_counters env ops a ev s kind fill evs :
  counters_ok a → acc_trading_day_index a < u32_max →
  apply_event_state env ops a ev = Ret (s, kind, fill, evs) → counters_ok s.
Proof.
  intros Hok Hroom E. destruct ev; simpl in E; monad_inv; try done.
  - event_fields. monad_inv. case_match; monad_inv; keep_counters.
  - match goal with H : AccountState_apply_realized_pnl _ _ _ _ _ = Ret ?x |- _ =>
      assert (Hx : same_counters a x) end.
    { unfold AccountState_apply_realized_pnl, raise_peak_balance in *. monad_inv. by case_match. }
    apply mark_day_counters; [by rewrite <- Hx|]. by rewrite (proj1 Hx).
  - unfold AccountState_update_balance, AccountState_update_equity, raise_peak_balance.
    keep_counters.
  - unfold AccountState_set_estimated_equity. keep_counters.
  - match goal with H : AccountState_rollover_day _ _ _ _ = Ret _ |- _ =>
      by apply rollover_counters in H as [? _] end.
  - unfold AccountState_emergency_stop. keep_counters.
  - case_if_in E; [done|]. monad_inv. event_fields. destruct (acc_status a); monad_inv; keep_counters.
  - event_fields. destruct (acc_status a); monad_inv; keep_counters.
  - event_fields. match goal with H : (if _ then Err _ else _) = Ret _ |- _ => case_if_in H end; [done|].
    monad_inv. destruct Hok. unfold u32_saturating_succ, is_u32, u32_max, u32_modulus in *.
    split; simpl; try done; destruct (bool_decide (acc_status a = StPayoutPending)); simpl; try done;
      unfold u32_saturating_succ, is_u32, u32_max, u32_modulus in *; lia.
Qed.

Lemma decision_counters a d at_ actor a' evs :
  counters_ok a → apply_decision a d at_ actor = Ret (a', evs) → counters_ok a'.
Proof.
  unfold apply_decision. intros Hok E.
  destruct (decision_target_step a d at_) as [a1 ev1] eqn:E1.
  apply bind_Ret_inv in E as ([a2 ev2] & E2 & E). apply bind_Ret_inv in E as ([a3 ev3] & E3 & E).
  injection E as <- _.
  assert (Hc1 : counters_ok a1).
  { unfold decision_target_step, AccountState_mark_target_reached in E1.
    destruct (Decision_is_target_hit d); simplify_eq/=; keep_counters. }
  assert (Hc2 : counters_ok a2).
  { unfold decision_promotion_step, AccountState_upgrade_phase in E2.
    case_if_in E2; [|by monad_inv]. monad_inv. destruct Hc1.
    destruct (plan_phase (acc_plan a1)); simplify_eq/=; split; simpl; try done;
      unfold is_u32, u32_modulus in *; lia. }
  unfold decision_terminate_step in E3.
  destruct (Decision_account_status_target d) as [st|]; [|simplify_eq/=; done].
  destruct (dec_kind d); monad_inv; keep_counters.
Qed.

(** C27: the day counters are well typed.  Every processed event keeps the
    counters in 32 bits and the active trading days within the days there
    were, today included once it is counted, as long as the index has room
    for the days the rollover loop may add; a new account has this. *)
Theorem day_counters_typed fuel pl env a ev res
    (Hok : counters_ok a) (Hroom : acc_trading_day_index a + Z.of_nat fuel < u32_max)
    (Hrun : process fuel pl env a ev = Ret res) :
  counters_ok (pr_account res) ∧ ∀ id tenant plan, counters_ok (Account_new id tenant plan).
Proof.
  split; [|exact new_counters_ok].
  apply process_inv in Hrun as (a1 & ap & a2 & [[evs Hroll] Happly _ [evs' Hdec] ->]).
  apply auto_rollover_counters in Hroll as [Hc1 Hi]; [|done..].
  apply apply_event_inv in Happly as (trades & kind & evs2 & Hst & _).
  apply event_counters in Hst; [|keep_counters|simpl; lia].
  apply decision_counters in Hdec.
  - unfold stamp_tick. keep_counters.
  - unfold consume_fill. keep_counters.
Qed.

End CounterFacts.

(** ** Witnesses *)

Import Samples PipelineSamples.

Lemma account_counters_ok : counters_ok account.
Proof. split; vm_compute; first [split; first [discriminate|reflexivity]|discriminate]. Qed.

Lemma day_counters_typed_witness :
  ∃ res, process 40 pl (env_at noon) account (PeTradeFilled entry) = Ret res
    ∧ counters_ok (pr_account res).
Proof.
  destruct (is_ret_inv (process 40 pl (env_at noon) account (PeTradeFilled entry)))
    as [res Hres]; [vm_compute; reflexivity|].
  exists res. split; [exact Hres|].
  refine (proj1 (day_counters_typed 40 pl (env_at noon) account (PeTradeFilled entry) res _ _ Hres)).
  - exact account_counters_ok.
  - vm_compute. reflexivity.
Defined.
