(* ===== verification/RiskFacts.v ===== *)
(** * Theorems on the risk metrics

    The one-pass maximum drawdown against its definition over all pairs of
    samples, the exposure of a book against the sums of its positions, and
    two places where the metrics disagree with what they are named for. *)

From S2P Require Import Prelude.
From S2P Require Import Decimal.
From S2P Require Import Chrono.
From S2P Require Import Ids.
From S2P Require Import Domain.
From S2P Require Import Plan.
From S2P Require Import Account.
From S2P Require Import RuleApi.
#[local] Open Scope Z_scope.
From S2P Require Import DrawdownRules.
From S2P Require Import Risk.
From S2P Require Import Samples.
From S2P Require Import PipelineSamples.
From S2P Require Import DrawdownFacts.

#[local] Abbreviation MoneyFits := (Fits 15 4).

Section RiskFacts.
Context `{DL : DecimalLaws} `{ChronoOps}.

(** ** Maximum drawdown *)

(** A fall from sample [x] to the same or a later sample [y]. *)
Definition falls (curve : list Money) (x y : Money) : Prop :=
  ∃ i j, (i ≤ j)%nat ∧ curve !! i = Some x ∧ curve !! j = Some y.

(** [d] is the largest fall of the curve. *)
Record largest_fall (curve : list Money) (d : Decimal) : Prop := mkLargestFall {
  lf_bound : ∀ x y, falls curve x y → (dval x - dval y <= dval d)%Q;
  lf_reached : ∃ x y, falls curve x y ∧ (dval d == dval x - dval y)%Q;
}.

Lemma falls_snoc curve m x y :
  falls (curve ++ [m]) x y ↔ falls curve x y ∨ (x ∈ curve ++ [m] ∧ y = m).
Proof.
  unfold falls. split.
  - intros (i & j & Hij & Hx & Hy). apply lookup_snoc_Some in Hy as [[Hj Hy]|[-> <-]].
    + left. exists i, j. rewrite lookup_app_l in Hx by lia. done.
    + right. split; [by eapply list_elem_of_lookup_2|done].
  - intros [(i & j & Hij & Hx & Hy)|[[i Hx]%list_elem_of_lookup_1 ->]].
    + exists i, j. by split_and!; [|apply lookup_app_l_Some..].
    + exists i, (length curve). apply lookup_lt_Some in Hx as Hl. rewrite length_app in Hl.
      simpl in Hl. split_and!; [lia|done|].
      by rewrite lookup_app_r, Nat.sub_diag by lia.
Qed.

(** The state of the loop after the samples [pre]. *)
Record scanned (pre : list Money) (peak mdd : Decimal) : Prop := mkScanned {
  sd_fits : MoneyFits peak;
  sd_start : pre = [] → (dval peak == 0)%Q ∧ (dval mdd == 0)%Q;
  sd_above : ∀ x, x ∈ pre → (dval x <= dval peak)%Q;
  sd_peak : pre ≠ [] → ∃ x, x ∈ pre ∧ (dval x == dval peak)%Q;
  sd_fall : pre ≠ [] → largest_fall pre mdd;
}.

Lemma drawdown_step pre peak mdd m :
  scanned pre peak mdd → MoneyFits m → (0 <= dval m)%Q →
  ∃ peak' mdd', max_drawdown_step (peak, mdd) m = Ret (peak', mdd')
    ∧ scanned (pre ++ [m]) peak' mdd'.
Proof.
  intros [Hfit Hstart Habove Hpeak Hfall] Hm Hpos. unfold max_drawdown_step.
  set (peak' := if dec_gtb m peak then m else peak).
  assert (Hp' : MoneyFits peak' ∧ (dval m <= dval peak')%Q ∧ (dval peak <= dval peak')%Q
    ∧ (∃ x, x ∈ pre ++ [m] ∧ (dval x == dval peak')%Q)).
  { subst peak'. destruct (dec_gtb m peak) eqn:E; dec_bool; split_and!; try done; try lra.
    - exists m. split; [set_solver|reflexivity].
    - destruct (decide (pre = [])) as [->|Hne].
      + destruct (Hstart eq_refl) as [H0 _]. exists m. split; [set_solver|].
        apply Qle_antisym; lra.
      + destruct (Hpeak Hne) as (x & Hx & Ex). exists x. split; [set_solver|done]. }
  destruct Hp' as (Hf' & Hmp & Hpp & top & Htop & Etop).
  destruct (dsub_fits 15 4 15 4 15 4 peak' m Hf' Hm) as (dd & -> & Edd & _); [lia|].
  simpl. eexists _, _. split; [reflexivity|].
  set (mdd' := if dec_gtb dd mdd then dd else mdd).
  assert (Hmdd : (dval mdd <= dval mdd')%Q ∧ (dval dd <= dval mdd')%Q).
  { subst mdd'. destruct (dec_gtb dd mdd) eqn:E; dec_bool; split; lra. }
  assert (Hab : ∀ x, x ∈ pre ++ [m] → (dval x <= dval peak')%Q).
  { intros x [Hx| ->%list_elem_of_singleton]%elem_of_app; [|done].
    specialize (Habove x Hx). lra. }
  split; [done|by destruct pre|done|eauto|].
  intros _. split.
  - intros x y [Hxy|[Hx ->]]%falls_snoc.
    + assert (pre ≠ []) as Hne by (destruct Hxy as (? & ? & _ & Hl & _); by destruct pre).
      pose proof (lf_bound _ _ (Hfall Hne) x y Hxy). lra.
    + specialize (Hab x Hx). lra.
  - subst mdd'. destruct (dec_gtb dd mdd) eqn:E; dec_bool.
    + exists top, m. split; [apply falls_snoc; by right|]. lra.
    + destruct (decide (pre = [])) as [->|Hne].
      * exists top, m. split; [apply falls_snoc; by right|].
        destruct (Hstart eq_refl) as [_ H0].
        assert ((dval top <= dval m)%Q) by (apply list_elem_of_singleton in Htop as ->; lra).
        apply Qle_antisym; lra.
      * destruct (lf_reached _ _ (Hfall Hne)) as (x & y & Hxy & Ed).
        exists x, y. split; [apply falls_snoc; by left|done].
Qed.

Lemma drawdown_scan curve pre peak mdd :
  Forall (fun m => MoneyFits m ∧ (0 <= dval m)%Q) curve → scanned pre peak mdd →
  ∃ peak' mdd', foldM max_drawdown_step (peak, mdd) curve = Ret (peak', mdd')
    ∧ scanned (pre ++ curve) peak' mdd'.
Proof.
  intros Hc. revert pre peak mdd. induction Hc as [|m curve [Hm Hpos] _ IH]; intros pre peak mdd Hs.
  - exists peak, mdd. by rewrite app_nil_r.
  - destruct (drawdown_step _ _ _ m Hs Hm Hpos) as (p & d & E & Hs'). cbn [foldM]. rewrite E.
    simpl. destruct (IH _ _ _ Hs') as (p' & d' & -> & Hs2). exists p', d'.
    by rewrite <- app_assoc in Hs2.
Qed.

Lemma validate_inv curve :
  validate curve = Ret tt → curve ≠ [] ∧ ∀ m, m ∈ curve → (0 <= dval m)%Q.
Proof.
  unfold validate. destruct curve as [|m0 curve]; [done|]. intros E. split; [done|].
  destruct (existsb _ _) eqn:Hex; [done|]. intros m Hm. rewrite <- dval_zero.
  apply dec_ltb_false. destruct (dec_ltb m dec_zero) eqn:El; [|done]. symmetry. rewrite <- Hex.
  apply existsb_exists. exists m. split; [by apply list_elem_of_In|done].
Qed.

(** C40: the one-pass maximum drawdown is the largest fall.  On an equity
    curve that passes [validate] and whose samples are amounts of at most
    eleven digits and four decimals, the loop returns a value that no fall
    from a sample to the same or a later one exceeds and that one of them
    reaches. *)
Theorem max_drawdown_is_largest_fall curve
    (Hval : validate curve = Ret tt) (Hfit : Forall MoneyFits curve) :
  ∃ d, max_drawdown curve = Ret d ∧ largest_fall curve d.
Proof.
  apply validate_inv in Hval as [Hne Hpos].
  destruct (drawdown_scan curve [] dec_zero dec_zero) as (p & d & E & Hs).
  - apply Forall_forall. intros m Hm. split; [by eapply Forall_forall in Hfit|auto].
  - split; [apply Fits_zero; lia|by rewrite dval_zero|set_solver|done|done].
  - exists d. unfold max_drawdown. rewrite E. split; [done|]. by apply (sd_fall _ _ _ Hs).
Qed.

(** ** Exposure *)

(** What the loop counts of a position. *)
Record Lot := mkLot {
  lot_symbol : Symbol;
  lot_side : PositionSide;
  lot_notional : Q;
  lot_quantity : Q;
}.

(** Open positions with a quote, valued at the mid price. *)
Definition lot_of (quotes : gmap string Quote) (p : Position) : option Lot :=
  if Position_is_open p then
    quote ← quotes !! pos_symbol p;
    Some (mkLot (pos_symbol p) (pos_side p)
            ((dval (q_bid quote) + dval (q_ask quote)) / 2 * dval (pos_open_quantity p))
            (dval (pos_open_quantity p)))
  else None.

Definition total (f : Lot → Q) (ls : list Lot) : Q := fold_left (fun acc l => acc + f l)%Q ls 0%Q.

Lemma total_snoc f ls l : total f (ls ++ [l]) = (total f ls + f l)%Q.
Proof. unfold total. by rewrite fold_left_app. Qed.

Definition is_long (l : Lot) : bool := match lot_side l with Long => true | Short => false end.
Definition signed (f : Lot → Q) (l : Lot) : Q := if is_long l then f l else - f l.
Definition only (b : bool) (f : Lot → Q) (l : Lot) : Q := if Bool.eqb (is_long l) b then f l else 0%Q.
Definition of_symbol (k : Symbol) (f : Lot → Q) (l : Lot) : Q :=
  if bool_decide (lot_symbol l = k) then f l else 0%Q.
Definition count (b : bool) (ls : list Lot) : Z :=
  Z.of_nat (length (List.filter (fun l => Bool.eqb (is_long l) b) ls)).

(** The figures of [e] are the sums over the lots. *)
Record exposure_sums (e : Exposure) (ls : list Lot) : Prop := mkExposureSums {
  es_gross : (dval (exp_gross e) == total lot_notional ls)%Q;
  es_net : (dval (exp_net e) == total (signed lot_notional) ls)%Q;
  es_longs : exp_long_count e = count true ls;
  es_shorts : exp_short_count e = count false ls;
  es_long_volume : (dval (exp_long_volume e) == total (only true lot_quantity) ls)%Q;
  es_short_volume : (dval (exp_short_volume e) == total (only false lot_quantity) ls)%Q;
  es_net_volume : (dval (exp_net_volume e) == total (signed lot_quantity) ls)%Q;
  es_concentration k :
    (dval (default dec_zero (exp_concentration e !! k)) == total (of_symbol k lot_notional) ls)%Q;
}.

(** At most [n] amounts of [k] digits over [10^s]. *)
Definition Sized (n : nat) (k s : nat) (d : Decimal) : Prop :=
  ∃ m, Z.abs m ≤ Z.of_nat n * ten_to k ∧ (dval d == scaled m s)%Q.

Lemma Sized_mono n k s d : Sized n k s d → Sized (S n) k s d.
Proof. intros (m & Hm & E). exists m. pose proof (ten_to_pos k). split; [nia|done]. Qed.

Lemma sized_bound N n k :
  Z.of_nat n ≤ ten_to N → (N + k ≤ 28)%nat → (Z.of_nat n + 1) * ten_to k < 2 ^ 96.
Proof.
  intros Hn Hk. pose proof (ten_to_le _ _ Hk) as Hle. rewrite ten_to_add in Hle.
  pose proof (ten_to_le k 28 ltac:(lia)). pose proof (ten_to_pos k).
  assert (2 * ten_to 28 < 2 ^ 96) by reflexivity. nia.
Qed.

Lemma dadd_sized N n k s a b :
  Sized n k s a → Fits k s b → Z.of_nat n ≤ ten_to N → (N + k ≤ 28)%nat → (s ≤ 28)%nat →
  ∃ c, dadd a b = Ret c ∧ (dval c == dval a + dval b)%Q ∧ Sized (S n) k s c.
Proof.
  intros (x & Hx & Ea) (y & Hy & Eb) Hn Hk Hs. pose proof (sized_bound N n k Hn Hk).
  assert (E : (scaled (x + y) s == dval a + dval b)%Q) by by rewrite Ea, Eb, scaled_add.
  destruct (dec_add_exact a b) as (c & Hc & Ec).
  { apply (representable_proper _ _ E). exists (x + y), s. split; [lia|done]. }
  exists c. unfold dadd. rewrite Hc. split_and!; [done..|].
  exists (x + y). split; [nia|by rewrite Ec, E].
Qed.

Lemma dsub_sized N n k s a b :
  Sized n k s a → Fits k s b → Z.of_nat n ≤ ten_to N → (N + k ≤ 28)%nat → (s ≤ 28)%nat →
  ∃ c, dsub a b = Ret c ∧ (dval c == dval a - dval b)%Q ∧ Sized (S n) k s c.
Proof.
  intros (x & Hx & Ea) (y & Hy & Eb) Hn Hk Hs. pose proof (sized_bound N n k Hn Hk).
  assert (E : (scaled (x - y) s == dval a - dval b)%Q) by by rewrite Ea, Eb, scaled_sub.
  destruct (dec_sub_exact a b) as (c & Hc & Ec).
  { apply (representable_proper _ _ E). exists (x - y), s. split; [lia|done]. }
  exists c. unfold dsub. rewrite Hc. split_and!; [done..|].
  exists (x - y). split; [nia|by rewrite Ec, E].
Qed.

Lemma Sized_zero k s : (s ≤ 28)%nat → Sized 0 k s dec_zero.
Proof. intros _. exists 0. split; [lia|]. rewrite dval_zero. unfold scaled, Qdiv. by rewrite Qmult_0_l. Qed.

(** The sum of [f] over a list. *)
Definition qsum {A} (f : A → Q) (l : list A) : Q := foldr (fun x acc => f x + acc)%Q 0%Q l.

(** A loop that adds up computed amounts of [k] digits adds exactly, for up
    to [10^N] of them. *)
Lemma foldM_sum {A} (f : A → outcome Decimal) (g : A → Q) N k s l n z :
  (∀ x, x ∈ l → ∃ d, f x = Ret d ∧ (dval d == g x)%Q ∧ Fits k s d) →
  Z.of_nat (n + length l) ≤ ten_to N → (N + k ≤ 28)%nat → (s ≤ 28)%nat → Sized n k s z →
  ∃ r, foldM (fun acc x => let! d := f x in dadd acc d) z l = Ret r
    ∧ (dval r == dval z + qsum g l)%Q ∧ Sized (n + length l) k s r.
Proof.
  intros Hf Hn Hk Hs. revert n z Hn. induction l as [|x l IH]; intros n z Hn Hz; cbn [foldM qsum foldr length].
  { exists z. rewrite Nat.add_0_r. split_and!; [done| |done]. by rewrite Qplus_0_r. }
  cbn [length] in Hn. destruct (Hf x) as (d & -> & Ed & Fd); [left|]. cbn [obind].
  destruct (dadd_sized N n k s z d) as (c & -> & Ec & Hc); [done|done|lia|done|done|]. cbn [obind].
  destruct (IH ltac:(intros y Hy; apply Hf; by right) (S n) c) as (r & -> & Er & Hr); [lia|done|].
  exists r. split_and!; [done| |by rewrite Nat.add_succ_r].
  fold (qsum g l). rewrite Er, Ec, Ed. ring.
Qed.

(** Prices of at most four digits before five decimals, and their mid. *)
Lemma Quote_mid_fits quote :
  Fits 9 5 (q_bid quote) → Fits 9 5 (q_ask quote) →
  ∃ mid, Quote_mid quote = Ret mid
    ∧ (dval mid == (dval (q_bid quote) + dval (q_ask quote)) / 2)%Q ∧ Fits 11 6 mid.
Proof.
  intros Hb Ha. unfold Quote_mid.
  destruct (dadd_fits 9 5 9 5 9 5 _ _ Hb Ha) as (sum & -> & Es & m & Hm & Em); [lia|]. simpl.
  assert (E2 : (dval (dec_new 2 0) == 2)%Q) by by apply dval_new_int.
  assert (Eq : (scaled (m * 5) 6 == dval sum / dval (dec_new 2 0))%Q).
  { rewrite E2, Em. unfold scaled. rewrite inject_Z_mult.
    change (ten_to 6) with (10 * ten_to 5). rewrite inject_Z_mult. field.
    apply ten_to_nonzero. }
  assert (Hm5 : Z.abs (m * 5) ≤ ten_to 11).
  { change (ten_to 11) with (10 * ten_to 10). lia. }
  destruct (dec_div_exact sum (dec_new 2 0)) as (mid & Hmid & Emid).
  { rewrite E2. discriminate. }
  { eapply representable_proper, scaled_representable; [exact Eq|exact Hm5|lia|lia]. }
  exists mid. unfold ddiv. rewrite Hmid. split_and!; [done|by rewrite Emid, Es, E2|].
  exists (m * 5). by rewrite Emid, Eq.
Qed.

(** The sums an exposure keeps, sized. *)
Record exposure_sized (n : nat) (e : Exposure) : Prop := mkExposureSized {
  ez_gross : Sized n 19 10 (exp_gross e);
  ez_net : Sized n 19 10 (exp_net e);
  ez_long : Sized n 8 4 (exp_long_volume e);
  ez_short : Sized n 8 4 (exp_short_volume e);
  ez_volume : Sized n 8 4 (exp_net_volume e);
  ez_concentration k : Sized n 19 10 (default dec_zero (exp_concentration e !! k));
}.

Definition quotes_fit (quotes : gmap string Quote) : Prop :=
  map_Forall (fun _ q => Fits 9 5 (q_bid q) ∧ Fits 9 5 (q_ask q)) quotes.

Lemma count_snoc b ls l :
  count b (ls ++ [l]) = count b ls + (if Bool.eqb (is_long l) b then 1 else 0).
Proof.
  unfold count. rewrite List.filter_app, length_app. simpl.
  destruct (Bool.eqb (is_long l) b); simpl; lia.
Qed.

Lemma count_le b ls : 0 ≤ count b ls ≤ Z.of_nat (length ls).
Proof. unfold count. pose proof (filter_length_le (fun l => Bool.eqb (is_long l) b) ls). lia. Qed.

Lemma count_succ b n ls :
  Z.of_nat n ≤ ten_to 6 → (length ls ≤ n)%nat → u32_succ (count b ls) = count b ls + 1.
Proof.
  intros. pose proof (count_le b ls). apply u32_succ_small. unfold u32_max.
  assert (ten_to 6 < 2 ^ 32 - 1) by reflexivity. lia.
Qed.

(** Unfolds the sums over one more lot of a known side. *)
#[local] Ltac lot_sums :=
  rewrite ?total_snoc, ?count_snoc; unfold signed, only, is_long; cbn [lot_side Bool.eqb].

Lemma side_step ls n e l notional qty :
  exposure_sums e ls → exposure_sized n e → Z.of_nat n ≤ ten_to 6 → (length ls ≤ n)%nat →
  Fits 19 10 notional → Fits 8 4 qty →
  (dval notional == lot_notional l)%Q → (dval qty == lot_quantity l)%Q →
  ∃ net longs shorts lv sv nv,
    Exposure_side e (lot_side l) notional qty = Ret (net, longs, shorts, lv, sv, nv)
    ∧ (Sized (S n) 19 10 net ∧ Sized (S n) 8 4 lv ∧ Sized (S n) 8 4 sv ∧ Sized (S n) 8 4 nv)
    ∧ (dval net == total (signed lot_notional) (ls ++ [l]))%Q
    ∧ longs = count true (ls ++ [l]) ∧ shorts = count false (ls ++ [l])
    ∧ (dval lv == total (only true lot_quantity) (ls ++ [l]))%Q
    ∧ (dval sv == total (only false lot_quantity) (ls ++ [l]))%Q
    ∧ (dval nv == total (signed lot_quantity) (ls ++ [l]))%Q.
Proof.
  intros [_ Enet El Es Elv Esv Env _] [_ Snet Slv Ssv Snv _] Hn Hlen Fn Fq En Eq.
  destruct l as [sym side N Qn]. simpl in *. unfold Exposure_side. destruct side.
  - destruct (dadd_sized 6 n 19 10 _ _ Snet Fn Hn) as (net & -> & E1 & S1); [lia..|].
    destruct (dadd_sized 6 n 8 4 _ _ Slv Fq Hn) as (lv & -> & E2 & S2); [lia..|].
    destruct (dadd_sized 6 n 8 4 _ _ Snv Fq Hn) as (nv & -> & E3 & S3); [lia..|].
    do 6 eexists. split; [reflexivity|]. split; [by split_and!; [|..|apply Sized_mono|]|].
    rewrite E1, E2, E3, Enet, Elv, Esv, Env, En, Eq, El, Es, (count_succ true n) by done.
    lot_sums. split_and!; try reflexivity; [lia|]. simpl. lra.
  - destruct (dsub_sized 6 n 19 10 _ _ Snet Fn Hn) as (net & -> & E1 & S1); [lia..|].
    destruct (dadd_sized 6 n 8 4 _ _ Ssv Fq Hn) as (sv & -> & E2 & S2); [lia..|].
    destruct (dsub_sized 6 n 8 4 _ _ Snv Fq Hn) as (nv & -> & E3 & S3); [lia..|].
    do 6 eexists. split; [reflexivity|]. split; [by split_and!; [|apply Sized_mono|..]|].
    rewrite E1, E2, E3, Enet, Elv, Esv, Env, En, Eq, El, Es, (count_succ false n) by done.
    lot_sums. split_and!; try reflexivity; [lia|]. simpl. lra.
Qed.

Lemma concentration_step ls n e l notional share k :
  exposure_sums e ls → exposure_sized n e → (dval notional == lot_notional l)%Q →
  (dval share == dval (default dec_zero (exp_concentration e !! lot_symbol l)) + dval notional)%Q →
  Sized (S n) 19 10 share →
  let d := default dec_zero (<[lot_symbol l := share]> (exp_concentration e) !! k) in
  Sized (S n) 19 10 d ∧ (dval d == total (of_symbol k lot_notional) (ls ++ [l]))%Q.
Proof.
  intros [_ _ _ _ _ _ _ Ec] [_ _ _ _ _ Sc] En Es Ss d. subst d.
  rewrite total_snoc. unfold of_symbol at 2.
  destruct (decide (lot_symbol l = k)) as [<-|Hne].
  - rewrite lookup_insert_eq, bool_decide_true by done. simpl. split; [done|].
    by rewrite Es, Ec, En.
  - rewrite lookup_insert_ne, bool_decide_false by done. split; [by apply Sized_mono|].
    rewrite Ec. ring.
Qed.

Lemma exposure_step quotes ls n e p :
  quotes_fit quotes → Fits 8 4 (pos_open_quantity p) → Z.of_nat n ≤ ten_to 6 →
  (length ls ≤ n)%nat → exposure_sums e ls → exposure_sized n e →
  ∃ e', Exposure_add quotes e p = Ret e' ∧ exposure_sized (S n) e'
    ∧ exposure_sums e' (ls ++ option_list (lot_of quotes p)).
Proof.
  intros Hquotes Hqty Hn Hlen Hsums Hsized.
  assert (Hskip : exposure_sized (S n) e ∧ exposure_sums e (ls ++ [])).
  { rewrite app_nil_r. split; [|done]. destruct Hsized. split; intros; by apply Sized_mono. }
  unfold Exposure_add, lot_of.
  destruct (Position_is_open p); simpl; [|exists e; by split].
  destruct (quotes !! pos_symbol p) as [quote|] eqn:Eq; simpl; [|exists e; by split]. clear Hskip.
  destruct (Hquotes _ _ Eq) as [Hbid Hask].
  destruct (Quote_mid_fits quote Hbid Hask) as (mid & -> & Emid & Fmid). simpl.
  destruct (dmul_fits _ _ _ _ _ _ Fmid Hqty) as (notional & -> & En & Fn); [lia|]. simpl.
  destruct (dadd_sized 6 n 19 10 _ notional (ez_gross _ _ Hsized) Fn Hn)
    as (gross & -> & Eg & Sg); [lia..|]. simpl.
  destruct (dadd_sized 6 n 19 10 _ notional (ez_concentration _ _ Hsized (pos_symbol p)) Fn Hn)
    as (share & Hshare & Esh & Ssh); [lia..|].
  set (l := mkLot _ _ _ _).
  assert (Enl : (dval notional == lot_notional l)%Q) by by rewrite En, Emid.
  destruct (side_step ls n e l notional (pos_open_quantity p))
    as (net & longs & shorts & lv & sv & nv & Hside & (S1 & S2 & S3 & S4) & E1 & E2 & E3 & E4 & E5 & E6);
    try done.
  cbn [lot_side l] in Hside. rewrite Hside. simpl. rewrite Hshare. simpl.
  pose proof (fun k => concentration_step ls n e l notional share k Hsums Hsized Enl Esh Ssh) as Hc.
  eexists. split; [reflexivity|].
  split; split; simpl; try done; try apply Hc.
  by rewrite Eg, (es_gross _ _ Hsums), Enl, total_snoc.
Qed.

Lemma exposure_scan quotes ps ls n e :
  quotes_fit quotes → Forall (fun p => Fits 8 4 (pos_open_quantity p)) ps →
  Z.of_nat (n + length ps) ≤ ten_to 6 → (length ls ≤ n)%nat →
  exposure_sums e ls → exposure_sized n e →
  ∃ e', foldM (Exposure_add quotes) e ps = Ret e' ∧ exposure_sums e' (ls ++ omap (lot_of quotes) ps).
Proof.
  intros Hq Hps. revert ls n e. induction Hps as [|p ps Hp _ IH]; intros ls n e Hn Hl Hs Hz.
  { exists e. rewrite app_nil_r. by split. }
  destruct (exposure_step quotes ls n e p) as (e1 & E1 & Z1 & S1); try done; [simpl in Hn; lia|].
  cbn [foldM]. rewrite E1. simpl in *.
  destruct (IH (ls ++ option_list (lot_of quotes p)) (S n) e1) as (e2 & E2 & S2); try done; [lia| |].
  { rewrite length_app. destruct (lot_of quotes p); simpl; lia. }
  exists e2. split; [done|]. rewrite <- app_assoc in S2. revert S2.
  by destruct (lot_of quotes p).
Qed.

Lemma signed_le f ls :
  (∀ l, l ∈ ls → 0 <= f l)%Q → (Qabs (total (signed f) ls) <= total f ls)%Q.
Proof.
  intros Hf. induction ls as [|l ls IH] using rev_ind; [done|]. rewrite !total_snoc.
  eapply Qle_trans; [apply Qabs_triangle|].
  apply Qplus_le_compat; [apply IH; intros; apply Hf; set_solver|].
  assert (0 <= f l)%Q by (apply Hf; set_solver).
  unfold signed. destruct (is_long l); [|rewrite Qabs_opp]; (rewrite Qabs_pos by done; apply Qle_refl).
Qed.

(** The exposure of a book is the sum of its positions.  For at most a
    million positions with prices of nine and quantities of eight digits, the
    computation succeeds; gross and net exposure, the volumes, the counts and
    the concentration per symbol are the sums over the open positions that
    have a quote, and the net exposure never exceeds the gross one when no
    position has a negative value. *)
Theorem exposure_is_sum quotes ps
    (Hquotes : quotes_fit quotes)
    (Hps : Forall (fun p => Fits 8 4 (pos_open_quantity p)) ps)
    (Hlen : Z.of_nat (length ps) ≤ ten_to 6) :
  let ls := omap (lot_of quotes) ps in
  ∃ e, Exposure_compute ps quotes = Ret e ∧ exposure_sums e ls
    ∧ ((∀ l, l ∈ ls → 0 <= lot_notional l)%Q →
       (Qabs (dval (exp_net e)) <= dval (exp_gross e))%Q).
Proof.
  intros ls. destruct (exposure_scan quotes ps [] 0 Exposure_default) as (e & E & S); try done.
  - assert (Hz : (dval dec_zero == 0)%Q) by apply dval_zero.
    by split; [exact Hz|exact Hz| | |exact Hz|exact Hz|exact Hz|intros k; simpl;
      rewrite lookup_empty; exact Hz].
  - split; simpl; try (apply Sized_zero; lia). intros k. rewrite lookup_empty. apply Sized_zero. lia.
  - exists e. split_and!; [done|done|]. intros Hpos.
    rewrite (es_net _ _ S), (es_gross _ _ S). by apply signed_le.
Qed.

(** ** Two profit factors *)

(** The standalone profit factor and the one of the aggregate agree unless
    there is a profit and no loss: then the first is the gross profit and the
    second is 100. *)
Lemma profit_factors_differ trades pf st :
  profit_factor trades = Ret pf → trade_stats trades = Ret st →
  ∃ gp gl, dsum (List.filter winning trades) = Ret gp
    ∧ dsum (dec_abs <$> List.filter losing trades) = Ret gl
    ∧ if dec_is_zero gl && negb (dec_is_zero gp)
      then pf = gp ∧ trs_profit_factor st = dec_new 100 0
      else trs_profit_factor st = pf.
Proof.
  unfold profit_factor, trade_stats. intros Ep Es.
  apply bind_Ret_inv in Ep as (gp & Egp & Ep). apply bind_Ret_inv in Ep as (gl & Egl & Ep).
  exists gp, gl. split_and!; [done|done|].
  destruct trades as [|t trades].
  { injection Egp as <-. injection Egl as <-. injection Es as <-. simpl in *.
    destruct (dec_is_zero dec_zero); simpl in *; [by injection Ep as <-|].
    unfold ddiv in Ep. rewrite dec_div_zero in Ep by apply dval_zero. done. }
  rewrite Egp in Es. cbn [obind] in Es. rewrite Egl in Es. cbn [obind] in Es.
  monad_inv. destruct (dec_is_zero gl), (dec_is_zero gp); simplify_eq/=; congruence || done.
Qed.

End RiskFacts.

(** ** Witnesses *)

Import Samples PipelineSamples.

Definition sample_quotes : gmap string Quote := {["EURUSD"%string := mkQuote (money 1) (money 1) noon]}.

Lemma int_fits k s n :
  Z.abs n * ten_to s ≤ ten_to k → Fits k s (money (inject_Z n)).
Proof.
  intros Hn. exists (n * ten_to s). pose proof (ten_to_pos s).
  split; [rewrite Z.abs_mul, (Z.abs_eq (ten_to s)) by lia; done|].
  unfold scaled, money. simpl. rewrite inject_Z_mult. field. apply ten_to_nonzero.
Qed.

(** A book of two long units at the price one. *)
Lemma exposure_is_sum_witness :
  ∃ e, Exposure_compute [Position_open 1 7 "EURUSD" Long (money 1) (money 2) noon (money 0)
                           None None None None] sample_quotes = Ret e
    ∧ (dval (exp_gross e) == 2)%Q.
Proof.
  assert (Hq : quotes_fit sample_quotes).
  { apply map_Forall_singleton. split; apply (int_fits 9 5 1); vm_compute; discriminate. }
  destruct (exposure_is_sum sample_quotes
    [Position_open 1 7 "EURUSD" Long (money 1) (money 2) noon (money 0) None None None None] Hq)
    as (e & He & Hs & _).
  - constructor; [|constructor]. apply (int_fits 8 4 2). vm_compute. discriminate.
  - vm_compute. discriminate.
  - exists e. split; [exact He|]. rewrite (es_gross _ _ Hs). reflexivity.
Defined.

Lemma max_drawdown_is_largest_fall_witness :
  ∃ d, max_drawdown [money 100; money 120; money 90; money 130; money 110] = Ret d
    ∧ largest_fall [money 100; money 120; money 90; money 130; money 110] d.
Proof.
  apply max_drawdown_is_largest_fall; [reflexivity|].
  assert (Hf : ∀ n, Z.abs n ≤ 1000 → MoneyFits (money (inject_Z n))).
  { intros n Hn. apply int_fits. change (ten_to 15) with 1000000000000000.
    change (ten_to 4) with 10000. lia. }
  repeat (apply Forall_cons_2; [apply Hf; lia|]). apply Forall_nil_2.
Defined.

(** ** Value at risk of mirrored series *)

(** A losing series has a smaller value at risk than its winning mirror
    image: the drift enters with the sign of a profit. *)
Lemma var_drift_sign :
  match parametric_var [money (-(3#100)); money (1#100)] (money (95#100)) 1,
        parametric_var [money (3#100); money (-(1#100))] (money (95#100)) 1 with
  | Ret losing_var, Ret winning_var => dec_ltb losing_var winning_var
  | _, _ => false
  end = true.
Proof. vm_compute. reflexivity. Qed.
