(* ===== verification/LivenessFacts.v ===== *)
(** * A fresh tick is always answered

    For accounts of ordinary size, on UTC days, a broker tick that passes the
    two guards is processed to the end: the rollover, the event, every rule,
    the decision and the snapshot all return. *)

From S2P Require Import Prelude.
From S2P Require Import Decimal.
From S2P Require Import Chrono.
From S2P Require Import Ids.
From S2P Require Import Domain.
From S2P Require Import Plan.
From S2P Require Import Account.
From S2P Require Import Violation.
From S2P Require Import Pack.
From S2P Require Import RuleApi.
#[local] Open Scope Z_scope.
From S2P Require Import Registry.
From S2P Require Import Decision.
From S2P Require Import State.
From S2P Require Import Pipeline.
From S2P Require Import Samples.
From S2P Require Import PipelineSamples.
From S2P Require Import RuleTotality.
From S2P Require Import DrawdownFacts.
From S2P Require Import RegistryFacts.
From S2P Require Import Lifecycle.
From S2P Require Import RolloverFacts.
From S2P Require Import PipelineFacts.
From S2P Require Import RiskFacts.

Section LivenessFacts.
Context `{DL : DecimalLaws} `{CL : ChronoLaws} `{!JsonOps}.
Implicit Types a : Account.

Abbreviation MoneyFits := (Fits 15 4).
Abbreviation PctFits := (Fits 6 6).

(** The percentages of a plan that the figures of an account use. *)
Record PlanFits (p : ChallengePlan) : Prop := mkPlanFits {
  pf_daily : PctFits (plan_max_daily_drawdown_pct p);
  pf_total : PctFits (plan_max_total_drawdown_pct p);
  pf_target : PctFits (plan_profit_target_pct p);
}.

(** ** Snapshots *)

(** [0] or [x / y], as every utilisation is computed. *)
Lemma utilization_total x y :
  Fits 16 4 x → Fits 21 10 y → ∃ r, (if dec_is_zero y then Ret dec_zero else ddiv x y) = Ret r.
Proof.
  intros Hx Hy. destruct (dec_is_zero y) eqn:E; [by eexists|]. dec_bool.
  destruct (ddiv_fits 22 16 4 21 10 x y) as (r & ? & _); [done|done|done|lia|lia|]. by exists r.
Qed.

Lemma excess_fits m n :
  MoneyFits m → MoneyFits n → ∃ d, dsub m n = Ret d ∧ Fits 16 4 (dec_max d dec_zero).
Proof. intros Hm Hn. destruct (drawdown_spec m n Hm Hn) as (d & Hd & Fd & _). by exists d. Qed.

Lemma limit_fits p m : PctFits p → MoneyFits m → ∃ l, dmul p m = Ret l ∧ Fits 21 10 l.
Proof. intros Hp Hm. destruct (dmul_fits _ _ _ _ _ _ Hp Hm) as (l & ? & _ & ?); [lia|]. by exists l. Qed.

Lemma snapshot_total a : AmountsFit a → PlanFits (acc_plan a) → ∃ s, AccountSnapshot_from a = Ret s.
Proof.
  intros Ha [Pd Pt Pg]. unfold AccountSnapshot_from.
  destruct (excess_fits _ _ (af_balance _ Ha) (af_initial _ Ha)) as (np & Hnp & Fnp).
  unfold Account_net_profit. rewrite Hnp. cbn [obind].
  assert (Hdd : ∃ d, Account_daily_drawdown a = Ret d ∧ Fits 16 4 d).
  { unfold Account_daily_drawdown. destruct (plan_drawdown_on_balance (acc_plan a)).
    - destruct (excess_fits _ _ (af_day_start_balance _ Ha) (af_balance _ Ha)) as (d & -> & Fd).
      by eexists.
    - destruct (excess_fits _ _ (af_day_start_equity _ Ha) (af_equity _ Ha)) as (d & -> & Fd).
      by eexists. }
  destruct Hdd as (dd & Hdd & Fdd). rewrite Hdd. cbn [obind].
  assert (Href : MoneyFits (basis_reference a (plan_max_loss_reference (acc_plan a))))
    by by apply basis_reference_fits.
  assert (Hcur : MoneyFits (daily_current a)) by (unfold daily_current; case_match; apply Ha).
  destruct (excess_fits _ _ Href Hcur) as (td & Htd & Ftd).
  assert (Account_total_drawdown a = Ret (dec_max td dec_zero)) as Et.
  { unfold Account_total_drawdown, basis_reference, daily_current in *.
    destruct (plan_max_loss_reference (acc_plan a)); by rewrite Htd. }
  rewrite Et. cbn [obind].
  assert (Hds : MoneyFits (if plan_drawdown_on_balance (acc_plan a) then acc_day_start_balance a
    else acc_day_start_equity a)) by (case_match; apply Ha).
  destruct (limit_fits _ _ Pd Hds) as (dl & Hdl & Fdl).
  unfold Account_daily_dd_utilization, Account_daily_dd_limit. rewrite Hdl, Hdd. cbn [obind].
  destruct (utilization_total dd dl Fdd Fdl) as (ddu & ->). cbn [obind].
  destruct (limit_fits _ _ Pt Href) as (ml & Hml & Fml).
  assert (Account_max_dd_limit a = Ret ml) as Em.
  { unfold Account_max_dd_limit, basis_reference in *.
    by destruct (plan_max_loss_reference (acc_plan a)). }
  unfold Account_max_dd_utilization. rewrite Em, Et. cbn [obind].
  destruct (utilization_total _ ml Ftd Fml) as (mdu & ->). cbn [obind].
  destruct (limit_fits _ _ Pg (af_initial _ Ha)) as (pt & Hpt & Fpt).
  unfold Account_profit_target. rewrite Hpt. cbn [obind].
  destruct (utilization_total _ pt Fnp Fpt) as (ptu & ->). cbn [obind]. by eexists.
Qed.

(** ** Liquidation *)

(** Quantities of up to a hundred million units with four decimals, prices of
    up to a hundred thousand with five, at most a thousand positions. *)
Abbreviation QtyFits := (Fits 12 4).
Abbreviation PriceFits := (Fits 10 5).

Definition book_fits (ps : list Position) : Prop :=
  Forall (fun p => QtyFits (pos_open_quantity p) ∧ PriceFits (pos_avg_entry_price p)) ps
  ∧ Z.of_nat (length ps) ≤ ten_to 3.

(** The contract size of the default instrument changes nothing. *)
Lemma div_one k s d : Fits k s d → (k ≤ 28 ∧ s ≤ 28)%nat →
  ∃ c, ddiv d (dec_new 1 0) = Ret c ∧ Fits k s c.
Proof.
  intros Hd Hk. assert (H1 : (dval (dec_new 1 0) == 1)%Q) by apply dval_one.
  assert (E : (dval d / dval (dec_new 1 0) == dval d)%Q) by (rewrite H1; field).
  destruct (dec_div_exact d (dec_new 1 0)) as (c & Hc & Ec).
  - rewrite H1. discriminate.
  - destruct Hd as (m & Hm & Em). symmetry in E. apply (representable_proper _ _ E).
    symmetry in Em. apply (representable_proper _ _ Em).
    apply (scaled_representable _ k); [done|lia..].
  - exists c. unfold ddiv. rewrite Hc. split; [done|]. eapply Fits_proper; [|exact Hd].
    by rewrite Ec, E.
Qed.

Lemma mul_one k s d : Fits k s d → (k < 28 ∧ s ≤ 28)%nat →
  ∃ c, dmul d (dec_new 1 0) = Ret c ∧ Fits k s c.
Proof.
  intros Hd Hk. assert (H1 : Fits 1 0 (dec_new 1 0)) by (apply Fits_new; [by vm_compute|lia..]).
  destruct (dmul_fits _ _ _ _ _ _ Hd H1) as (c & Hc & Ec & _); [lia|].
  exists c. split; [done|]. eapply Fits_proper; [|exact Hd].
  rewrite Ec. change (dec_new 1 0) with dec_one. rewrite dval_one. ring.
Qed.

Lemma Fits_abs k s d : Fits k s d → Fits k s (dec_abs d).
Proof.
  intros (m & Hm & E). exists (Z.abs m). split; [lia|]. rewrite dec_abs_spec, E. unfold scaled, Qdiv.
  rewrite Qabs_Qmult, Qabs_Qinv. rewrite (Qabs_pos (inject_Z (ten_to s))); [reflexivity|].
  pose proof (ten_to_pos s). unfold Qle. simpl. lia.
Qed.

Lemma notional_fits p :
  QtyFits (lp_open_quantity p) → PriceFits (lp_avg_entry_price p) →
  ∃ n, liquidation_notional p = Ret n ∧ Fits 22 9 n.
Proof.
  intros Hq Hp. unfold liquidation_notional.
  change (InstrumentRegistry_get InstrumentRegistry_new (lp_symbol p)) with InstrumentSpec_default.
  unfold InstrumentSpec_units_to_lots, InstrumentSpec_notional.
  cbn [InstrumentSpec_default ins_contract_size].
  destruct (div_one _ _ _ Hq) as (lots & -> & Fl); [lia|]. cbn [obind].
  destruct (mul_one _ _ _ Fl) as (u & -> & Fu); [lia|]. cbn [obind].
  destruct (dmul_fits _ _ _ _ _ _ Fu Hp) as (n & -> & _ & Fn); [lia|]. cbn [obind].
  eexists. split; [done|]. by apply Fits_abs.
Qed.

Lemma liquidation_total id tenant ps reason by_ actor at_ :
  book_fits ps → ∃ i, LiquidationInstruction_new id tenant ps reason by_ actor at_ = Ret i.
Proof.
  intros [Hps Hlen]. unfold LiquidationInstruction_new.
  set (book := LiquidationPosition_from_position <$> List.filter Position_is_open ps).
  destruct (foldM_sum liquidation_notional (fun p => dval (default dec_zero
    match liquidation_notional p with Ret n => Some n | _ => None end)) 3 22 9 book 0 dec_zero)
    as (r & -> & _); [|unfold book; rewrite length_fmap|lia|lia|by apply Sized_zero; lia|by eexists].
  - intros x (p & -> & Hp%list_elem_of_In%filter_In)%list_elem_of_fmap. destruct Hp as [Hp _].
    rewrite Forall_forall in Hps. destruct (Hps p) as [Hq Hpr]; [by apply list_elem_of_In|].
    destruct (notional_fits (LiquidationPosition_from_position p) Hq Hpr) as (n & -> & Fn). by exists n.
  - etrans; [|exact Hlen]. apply inj_le. simpl. apply List.filter_length_le.
Qed.

(** ** The decision *)

(** What the rest of the call needs of an account. *)
Definition ordinary a : Prop :=
  AmountsFit a ∧ PlanFits (acc_plan a) ∧ book_fits (acc_open_positions a).

Lemma decision_total a d at_ actor :
  ordinary a → plan_phase (acc_plan a) ≠ FundedPhase →
  ∃ a' evs, apply_decision a d at_ actor = Ret (a', evs) ∧ ordinary a'.
Proof.
  intros Ha Hph. unfold apply_decision.
  destruct (decision_target_step a d at_) as [a1 ev1] eqn:E1.
  assert (H1 : ordinary a1 ∧ plan_phase (acc_plan a1) ≠ FundedPhase).
  { unfold decision_target_step, AccountState_mark_target_reached in E1.
    destruct Ha as ([] & Hp & Hb). by repeat (case_match; simplify_eq/=). }
  destruct H1 as [H1 Hph1].
  assert (H2 : ∃ a2 ev2, decision_promotion_step a1 at_ = Ret (a2, ev2) ∧ ordinary a2).
  { unfold decision_promotion_step, AccountState_upgrade_phase.
    destruct (promotion_due a1); [|by eexists _, _]. cbn.
    destruct H1 as ([] & [] & Hb). destruct (plan_phase (acc_plan a1)); [..|done];
      (eexists _, _; split; [reflexivity|]); by split_and!. }
  destruct H2 as (a2 & ev2 & -> & H2). cbn [obind]. unfold decision_terminate_step.
  destruct (Decision_account_status_target d) as [st|]; [|by eexists _, _].
  set (a3 := (if _ || _ then _ else a2) <| acc_status := st |>).
  assert (H3 : ordinary a3).
  { subst a3. destruct H2 as ([] & Hp & Hb). by destruct (_ || _). }
  destruct (dec_kind d);
    try (destruct (liquidation_total (acc_id a3) (acc_tenant_id a3) (acc_open_positions a3)
      (liquidation_reason d) (vio_id <$> head (dec_all_violations d)) actor at_) as (i & ->);
      [apply H3|]); by eexists _, _.
Qed.

(** ** The call *)

Lemma tick_state_fits a equity balance :
  ordinary a → MoneyFits equity → MoneyFits balance →
  ordinary (AccountState_update_balance (AccountState_update_equity a equity) balance)
  ∧ acc_plan (AccountState_update_balance (AccountState_update_equity a equity) balance) = acc_plan a.
Proof.
  intros ([] & Hp & Hb) He Hbal.
  unfold AccountState_update_balance, AccountState_update_equity, raise_peak_balance.
  by repeat case_match.
Qed.

Lemma opened_fits a a' : day_opened a a' → ordinary a → ordinary a'.
Proof.
  intros [[] ? ? ? _ _ _] ([] & Hp & Hb). unfold ordinary.
  split_and!; [split|..]; congruence.
Qed.

(** The account [a1] on the event's day, [n] days after the day of [a]. *)
Definition on_day (n : nat) a (a1 : Account) : Prop :=
  match n with O => a1 = a | S _ => day_opened a a1 end.

Lemma on_day_core n a a1 : on_day n a a1 → same_core a a1.
Proof. destruct n; simpl; [by intros ->|by intros []]. Qed.

Lemma on_day_fits n a a1 : on_day n a a1 → ordinary a → ordinary a1.
Proof. destruct n; simpl; [by intros ->|apply opened_fits]. Qed.

Lemma rollover_ready h fuel env ev a c n :
  utc_plan (acc_plan a) h → is_day_rollover ev = false →
  acc_current_trading_day_start a = Some c → day_floor h (ts_nanos c) = ts_nanos c →
  ts_near (ts_nanos c) →
  ts_near (ts_nanos (PipelineEvent_event_timestamp ev (env_now_process env))) →
  day_floor h (ts_nanos (PipelineEvent_event_timestamp ev (env_now_process env)))
    = ts_nanos c + Z.of_nat n * ns_day →
  (n ≤ fuel)%nat → is_u32 (acc_trading_day_index a) → DayFits a →
  ∃ a' evs, auto_rollover fuel env ev a = Ret (a', evs) ∧ on_day n a a'.
Proof.
  intros Hplan Hev Hcur Hal Hnear Hnear' Hdist Hn Hidx Hday. destruct n as [|n].
  - exists a, []. split; [|done]. unfold auto_rollover. rewrite Hev.
    set (event_ts := PipelineEvent_event_timestamp _ _) in *. destruct Hplan as (Hz & Hr & Hh).
    destruct (trading_day_start_utc (acc_plan a) Hz ltac:(by rewrite Hr) event_ts Hnear')
      as (d & -> & Hd). rewrite Hr in Hd. cbn [obind]. rewrite Hcur. cbn [obind].
    replace (ts_gtb d c) with false; [done|]. symmetry. apply not_true_iff_false.
    unfold ts_gtb. rewrite ts_ltb_spec. lia.
  - destruct (auto_rollover_runs h fuel env ev a c (S n)) as (a' & r & e & -> & Ho & _); try done; [lia|].
    by exists a', [e].
Qed.

Lemma evaluator_total env pl ctx :
  (∀ rule, rule ∈ reg_rules (pl_registry pl) → rule ∈ default_rules) →
  ∃ r, Evaluator_evaluate (env_fresh env) (env_now_reports env) (pl_registry pl) ctx = Ret r.
Proof.
  intros Hreg. unfold Evaluator_evaluate, RuleRegistry_evaluate.
  destruct (evaluate_rules_total (env_fresh env) (env_now_reports env) ctx
    (reg_rules (pl_registry pl)) 0) as (reports & -> & _); [| |by eexists].
  - intros rule Hr. by apply default_rules_enabled, Hreg.
  - intros rule fr Hr. by apply default_rules_settle, Hreg.
Qed.

Lemma notify_all pl vs :
  (∀ v, pl_notify_violation pl v = Ret tt) →
  foldM (fun _ v => pl_notify_violation pl v) tt vs = Ret tt.
Proof. intros Hn. induction vs as [|v vs IH]; simpl; [done|]. by rewrite Hn. Qed.

(** From the rollover on: once the event has been applied to an ordinary
    account, the call returns. *)
Lemma process_answers fuel pl env a ev a1 evs1 d s kind fill evs2 :
  auto_rollover fuel env ev a = Ret (a1, evs1) →
  ChallengePlan_trading_day_start (acc_plan a1)
    (PipelineEvent_event_timestamp ev (env_now_apply env)) = Ret d →
  apply_event_state env (acc_open_positions a1)
    (a1 <| acc_today_trades := List.filter (fun t => ts_geb (tr_executed_at t) d)
                                 (acc_today_trades a1) |>) ev = Ret (s, kind, fill, evs2) →
  ordinary (consume_fill s fill) → plan_phase (acc_plan s) ≠ FundedPhase →
  (∀ rule, rule ∈ reg_rules (pl_registry pl) → rule ∈ default_rules) →
  (∀ id k, ∃ evs, pl_recent pl id k = Ret evs) → (∀ v, pl_notify_violation pl v = Ret tt) →
  ∃ res a3, process fuel pl env a ev = Ret res ∧ pr_account res = stamp_tick a3 ev.
Proof.
  intros Hroll Hday Hst Hfits Hphase Hreg Hrecent Hnotify.
  unfold process. rewrite Hroll. cbn [obind]. unfold apply_event. rewrite Hday. cbn [obind].
  destruct (Hrecent (acc_id a1) 50) as (rec & ->). cbn [obind acc_open_positions set_field].
  cbn in Hst |- *. rewrite Hst. cbn [obind]. set (ap := mkAppliedEvent _ _ _ _ _ _ _).
  destruct (evaluator_total env pl (build_context env ap ev) Hreg) as (r & Hr).
  rewrite Hr. cbn [obind ap ae_state ae_trade_fill].
  destruct (decision_total (consume_fill s fill) (er_decision r)
    (ctx_server_time (build_context env ap ev)) (event_actor ev)) as (a3 & evs3 & Hdec & Hfits3);
    [done|by destruct fill as [[? ?]|]|].
  rewrite Hdec. cbn [obind].
  destruct (snapshot_total (stamp_tick a3 ev)) as (snap & Hsnap).
  { destruct Hfits3 as ([] & _). by destruct ev. }
  { destruct Hfits3 as (_ & ? & _). by destruct ev. }
  unfold Snapshot_new. rewrite Hsnap. cbn [obind].
  rewrite (notify_all pl _ Hnotify). cbn [obind]. eexists _, a3. split; reflexivity.
Qed.

(** The guards of a tick that is recent and newer than the last one. *)
Lemma tick_guard_passes now a tick :
  num_minutes (ts_since now (q_ts (tick_quote tick))) ≤ STALE_TICK_THRESHOLD_MINUTES →
  (∀ last, acc_last_tick_ts a = Some last → ts_nanos last < ts_nanos (q_ts (tick_quote tick))) →
  tick_guard now a tick = Ret tt.
Proof.
  intros Hfresh Horder. unfold tick_guard. rewrite (proj2 (Z.ltb_ge _ _) Hfresh).
  destruct (acc_last_tick_ts a) as [last|]; [|done]. specialize (Horder last eq_refl).
  replace (ts_leb _ last) with false; [done|]. symmetry. apply not_true_iff_false.
  rewrite ts_leb_spec. lia.
Qed.

(** A broker tick, from its guards to the result. *)
Lemma tick_answers h fuel pl env a c n tick equity balance
    (Hplan : utc_plan (acc_plan a) h) (Hphase : plan_phase (acc_plan a) ≠ FundedPhase)
    (Hcur : acc_current_trading_day_start a = Some c) (Hal : day_floor h (ts_nanos c) = ts_nanos c)
    (Hnear : ts_near (ts_nanos c)) (Hnear' : ts_near (ts_nanos (q_ts (tick_quote tick))))
    (Hdist : day_floor h (ts_nanos (q_ts (tick_quote tick))) = ts_nanos c + Z.of_nat n * ns_day)
    (Hfuel : (n ≤ fuel)%nat) (Hidx : is_u32 (acc_trading_day_index a)) (Hday : DayFits a)
    (Hfits : ordinary a) (Heq : MoneyFits equity) (Hbal : MoneyFits balance)
    (Hreg : ∀ rule, rule ∈ reg_rules (pl_registry pl) → rule ∈ default_rules)
    (Hrecent : ∀ id k, ∃ evs, pl_recent pl id k = Ret evs)
    (Hnotify : ∀ v, pl_notify_violation pl v = Ret tt)
    (Hfresh : num_minutes (ts_since (env_now_stale env) (q_ts (tick_quote tick)))
              ≤ STALE_TICK_THRESHOLD_MINUTES)
    (Horder : ∀ last, acc_last_tick_ts a = Some last →
                ts_nanos last < ts_nanos (q_ts (tick_quote tick))) :
  ∃ a1 evs res, auto_rollover fuel env (PeTick tick equity balance) a = Ret (a1, evs)
    ∧ on_day n a a1
    ∧ process fuel pl env a (PeTick tick equity balance) = Ret res
    ∧ acc_last_tick_ts (pr_account res) = Some (q_ts (tick_quote tick)).
Proof.
  destruct (rollover_ready h fuel env (PeTick tick equity balance) a c n)
    as (a1 & evs & Hroll & Hon); try done.
  exists a1, evs. pose proof (on_day_core _ _ _ Hon) as Hcore.
  pose proof (on_day_fits _ _ _ Hon Hfits) as Hfits1. destruct Hplan as (Hz & Hr & Hh).
  destruct (trading_day_start_utc (acc_plan a) Hz ltac:(by rewrite Hr) _ Hnear') as (d & Hd & _).
  set (a2 := a1 <| acc_today_trades := List.filter (fun t => ts_geb (tr_executed_at t) d)
                                         (acc_today_trades a1) |>).
  destruct (tick_state_fits a2 equity balance) as [Hfits2 Hp2]; [by destruct Hfits1 as ([] & ?)|done..|].
  edestruct (process_answers fuel pl env a (PeTick tick equity balance) a1 evs d
    (AccountState_update_balance (AccountState_update_equity a2 equity) balance) OnTick None)
    as (res & a3 & Hres & Ha3);
    [exact Hroll|rewrite (sc_plan _ _ Hcore); exact Hd| |exact Hfits2| |done..|].
  - fold a2. cbn. rewrite tick_guard_passes; [reflexivity|done|]. intros last Hl. apply Horder.
    by rewrite <- Hl, <- (sc_last_tick _ _ Hcore).
  - rewrite Hp2. by rewrite <- (sc_plan _ _ Hcore) in Hphase.
  - exists res. split_and!; [done..|]. by rewrite Ha3.
Qed.

(** An event that is only looked at by the rules. *)
Lemma quiet_answers h fuel pl env a c n ev kind
    (Hplan : utc_plan (acc_plan a) h) (Hphase : plan_phase (acc_plan a) ≠ FundedPhase)
    (Hcur : acc_current_trading_day_start a = Some c) (Hal : day_floor h (ts_nanos c) = ts_nanos c)
    (Hnear : ts_near (ts_nanos c))
    (Hev : is_day_rollover ev = false)
    (Hquiet : ∀ ops b, apply_event_state env ops b ev = Ret (b, kind, None, []))
    (Hnear' : ts_near (ts_nanos (PipelineEvent_event_timestamp ev (env_now_process env))))
    (Hnear2 : ts_near (ts_nanos (PipelineEvent_event_timestamp ev (env_now_apply env))))
    (Hdist : day_floor h (ts_nanos (PipelineEvent_event_timestamp ev (env_now_process env)))
             = ts_nanos c + Z.of_nat n * ns_day)
    (Hfuel : (n ≤ fuel)%nat) (Hidx : is_u32 (acc_trading_day_index a)) (Hday : DayFits a)
    (Hfits : ordinary a)
    (Hreg : ∀ rule, rule ∈ reg_rules (pl_registry pl) → rule ∈ default_rules)
    (Hrecent : ∀ id k, ∃ evs, pl_recent pl id k = Ret evs)
    (Hnotify : ∀ v, pl_notify_violation pl v = Ret tt) :
  ∃ a1 evs res, auto_rollover fuel env ev a = Ret (a1, evs) ∧ on_day n a a1
    ∧ process fuel pl env a ev = Ret res.
Proof.
  destruct (rollover_ready h fuel env ev a c n) as (a1 & evs & Hroll & Hon); try done.
  exists a1, evs. pose proof (on_day_core _ _ _ Hon) as Hcore.
  pose proof (on_day_fits _ _ _ Hon Hfits) as Hfits1. destruct Hplan as (Hz & Hr & Hh).
  destruct (trading_day_start_utc (acc_plan a) Hz ltac:(by rewrite Hr) _ Hnear2) as (d & Hd & _).
  edestruct (process_answers fuel pl env a ev a1 evs d) as (res & a3 & Hres & _);
    [done|by rewrite (sc_plan _ _ Hcore)|apply Hquiet| | |done..|by exists res].
  - by destruct Hfits1 as ([] & ?).
  - cbn. by rewrite (sc_plan _ _ Hcore).
Qed.

(** The trades of the event's day: those the account kept from its current
    day, none on a later one. *)
Definition traded_today (h : Z) (n : nat) a (now : Timestamp) : list Trade :=
  match n with
  | O => List.filter (fun t => day_floor h (ts_nanos now) <=? ts_nanos (tr_executed_at t))
           (acc_today_trades a)
  | S _ => []
  end.

Lemma today_trades h pl env a n ev a1 ap :
  utc_plan (acc_plan a) h → on_day n a a1 → apply_event pl env a1 ev = Ret ap →
  ts_near (ts_nanos (PipelineEvent_event_timestamp ev (env_now_apply env))) →
  ae_today_trades ap
  = traded_today h n a (PipelineEvent_event_timestamp ev (env_now_apply env)).
Proof.
  intros (Hz & Hr & Hh) Hon Happly Hnear. unfold apply_event in Happly.
  rewrite (sc_plan _ _ (on_day_core _ _ _ Hon)) in Happly.
  destruct (trading_day_start_utc (acc_plan a) Hz ltac:(by rewrite Hr) _ Hnear) as (d & Hd & Ed).
  rewrite Hd in Happly. rewrite Hr in Ed. clear Hr. monad_inv.
  repeat match goal with x : (_ * _)%type |- _ => destruct x end. monad_inv.
  unfold traded_today. destruct n as [|n]; simpl in Hon.
  - subst a1. apply List.filter_ext. intros t. unfold ts_geb, ts_leb. by rewrite Ed.
  - by rewrite (do_trades _ _ Hon).
Qed.

(** A fresh tick is always answered.  For an account of ordinary size,
    not yet funded, on UTC days, with the default rules and collaborators that
    answer, a broker tick that is at most ten minutes old and newer than the
    last one is processed to the end, whatever the rules find, given one
    iteration of fuel for each day the account is behind; the account
    remembers its time. *)
Theorem fresh_tick_answered h fuel pl env a c n tick equity balance
    (Hplan : utc_plan (acc_plan a) h) (Hphase : plan_phase (acc_plan a) ≠ FundedPhase)
    (Hcur : acc_current_trading_day_start a = Some c) (Hal : day_floor h (ts_nanos c) = ts_nanos c)
    (Hnear : ts_near (ts_nanos c)) (Hnear' : ts_near (ts_nanos (q_ts (tick_quote tick))))
    (Hdist : day_floor h (ts_nanos (q_ts (tick_quote tick))) = ts_nanos c + Z.of_nat n * ns_day)
    (Hfuel : (n ≤ fuel)%nat) (Hidx : is_u32 (acc_trading_day_index a)) (Hday : DayFits a)
    (Hfits : ordinary a) (Heq : MoneyFits equity) (Hbal : MoneyFits balance)
    (Hreg : ∀ rule, rule ∈ reg_rules (pl_registry pl) → rule ∈ default_rules)
    (Hrecent : ∀ id k, ∃ evs, pl_recent pl id k = Ret evs)
    (Hnotify : ∀ v, pl_notify_violation pl v = Ret tt)
    (Hfresh : num_minutes (ts_since (env_now_stale env) (q_ts (tick_quote tick)))
              ≤ STALE_TICK_THRESHOLD_MINUTES)
    (Horder : ∀ last, acc_last_tick_ts a = Some last →
                ts_nanos last < ts_nanos (q_ts (tick_quote tick))) :
  ∃ res, process fuel pl env a (PeTick tick equity balance) = Ret res
    ∧ acc_last_tick_ts (pr_account res) = Some (q_ts (tick_quote tick)).
Proof.
  destruct (tick_answers h fuel pl env a c n tick equity balance)
    as (a1 & evs & res & _ & _ & Hres & Hlast); eauto.
Qed.

End LivenessFacts.

(** ** Witnesses *)

Import Samples PipelineSamples.

Lemma account_day_fits : DayFits account.
Proof.
  split; [q_fits 0|q_fits 0|q_fits 100000000|..]; intros p E; vm_compute in E; discriminate E.
Qed.

Lemma started_positions a at_ a' :
  Account_start a at_ = Ret a' → acc_open_positions a' = acc_open_positions a.
Proof. unfold Account_start. case_decide; [done|]. intros E. monad_inv. case_match; monad_inv; done. Qed.

Lemma account_ordinary : ordinary account.
Proof.
  assert (E : acc_open_positions account = []).
  { unfold account. destruct (Account_start fresh_account noon) as [a|?| |] eqn:E; try reflexivity.
    exact (started_positions fresh_account noon a E). }
  unfold ordinary. rewrite E. split; [exact account_fits|]. split.
  - split; [q_fits 50000|q_fits 100000|q_fits 80000].
  - split; [constructor|vm_compute; discriminate].
Qed.

(** A tick on the day after the account started. *)
Lemma fresh_tick_answered_witness :
  ∃ res, process 1 pl (env_at (noon + ns_day)) account
           (PeTick (quote_at (noon + ns_day)) (money 9400) (money 10000)) = Ret res
    ∧ acc_last_tick_ts (pr_account res) = Some (noon + ns_day).
Proof.
  apply (fresh_tick_answered 0 1 pl (env_at (noon + ns_day)) account (20000 * ns_day) 1
           (quote_at (noon + ns_day)) (money 9400) (money 10000)).
  - split; [reflexivity|]. split; [reflexivity|lia].
  - vm_compute. discriminate.
  - vm_compute. reflexivity.
  - vm_compute. reflexivity.
  - vm_compute. discriminate.
  - vm_compute. discriminate.
  - vm_compute. reflexivity.
  - lia.
  - vm_compute. split; [discriminate|reflexivity].
  - exact account_day_fits.
  - exact account_ordinary.
  - q_fits 94000000.
  - q_fits 100000000.
  - destruct default_registry as (r & Hr & Er). intros rule. cbn [pl_registry pl].
    unfold registry. rewrite Hr. cbn [ret_or]. rewrite Er. exact (fun H => H).
  - intros id k. exists []. reflexivity.
  - intros v. reflexivity.
  - vm_compute. discriminate.
  - intros last E. vm_compute in E. discriminate E.
Defined.
