(* ===== verification/CauseFacts.v ===== *)
(** * From a rule's verdict to the account's failure

    The steps between one evaluator and the account's status, for any
    selection of the default rules: a rule that condemns the account makes
    the decision terminating, a terminating decision has such a rule behind
    it, and the account fails exactly when the decision terminates. *)

From S2P Require Import Prelude.
From S2P Require Import Decimal.
From S2P Require Import Chrono.
From S2P Require Import Ids.
From S2P Require Import Domain.
From S2P Require Import Plan.
From S2P Require Import Account.
From S2P Require Import Violation.
From S2P Require Import Pack.
From S2P Require Import RuleApi.
#[local] Open Scope Z_scope.
From S2P Require Import Registry.
From S2P Require Import Decision.
From S2P Require Import State.
From S2P Require Import Pipeline.
From S2P Require Import RuleTotality.
From S2P Require Import DecisionFacts.
From S2P Require Import RegistryFacts.
From S2P Require Import Lifecycle.
From S2P Require Import PipelineFacts.
From S2P Require Import Samples.
From S2P Require Import PipelineSamples.

(** ** Verdicts of an evaluation *)

Section Verdicts.
Context `{DecimalOps} `{ChronoOps}.

(** Every verdict the evaluation can return satisfies [P]. *)
Definition verdicts (P : RuleVerdict → Prop) (m : outcome RuleVerdict) : Prop :=
  ∀ v, m = Ret v → P v.

(** The evaluation returns a terminating verdict. *)
Definition condemns (m : outcome RuleVerdict) : Prop :=
  ∃ v, m = Ret v ∧ RuleVerdict_is_terminating v = true.

Lemma verdicts_bind {A} P (m : outcome A) f : (∀ a, m = Ret a → verdicts P (f a)) → verdicts P (obind m f).
Proof. intros Hf v E. apply bind_Ret_inv in E as (a & Ha & E). by eapply Hf. Qed.

Lemma condemns_bind {A} (m : outcome A) f : condemns (obind m f) ↔ ∃ a, m = Ret a ∧ condemns (f a).
Proof. unfold condemns. destruct m; naive_solver. Qed.

Lemma verdicts_Ret (P : RuleVerdict → Prop) v : P v → verdicts P (Ret v).
Proof. intros Hv v' [= <-]. done. Qed.

Lemma verdicts_Err P e : verdicts P (Err e).
Proof. by intros v. Qed.

Lemma condemns_Ret v : condemns (Ret v) ↔ RuleVerdict_is_terminating v = true.
Proof. unfold condemns. naive_solver. Qed.

Lemma condemns_VFail v : condemns (Ret (VFail v)).
Proof. by eexists. Qed.

Lemma condemns_VLiquidate v : condemns (Ret (VLiquidate v)).
Proof. by eexists. Qed.

Lemma not_condemns_pass : ¬ condemns (Ret VPass).
Proof. by intros (v & [= <-] & ?). Qed.

Lemma verdicts_spare m :
  verdicts (fun v => RuleVerdict_is_terminating v = false) m → ¬ condemns m.
Proof. intros Hm (v & Ev & Hv). apply Hm in Ev. congruence. Qed.

End Verdicts.

#[export] Hint Resolve condemns_VFail condemns_VLiquidate : engine.

(** Walks through an evaluator; the branches that return a verdict satisfying
    the predicate by computation are closed. *)
Ltac verdicts_step :=
  match goal with
  | |- verdicts _ (obind _ _) => apply verdicts_bind; intros ? ?
  | |- verdicts _ (Ret _) => apply verdicts_Ret; reflexivity
  | |- verdicts _ (Err _) => apply verdicts_Err
  | |- verdicts _ (match ?x with _ => _ end) => destruct x eqn:?
  | |- verdicts _ (Ret (if ?b then _ else _)) => destruct b eqn:?
  end.
Ltac verdicts := repeat verdicts_step.

Section CauseFacts.
Context `{DecimalOps} `{!JsonOps} `{ChronoOps}.
Implicit Types (ctx : RuleContext) (rules : list Rule) (a : Account).

(** The two verdicts with a shared body. *)
Lemma count_cap_calm h fr ctx n m msg :
  RuleVerdict_is_emergency (LimitRules.count_cap_verdict h fr ctx n m msg) = false.
Proof. unfold LimitRules.count_cap_verdict. by repeat case_match. Qed.

Lemma day_count_calm h fr ctx n m f w :
  RuleVerdict_is_emergency (TargetRules.day_count_verdict h fr ctx n m f w) = false.
Proof. unfold TargetRules.day_count_verdict. by repeat case_match. Qed.

(** A rule of the library by its position. *)
Lemma in_default i rule : default_rules !! i = Some rule → rule ∈ default_rules.
Proof. apply list_elem_of_lookup_2. Qed.

(** No rule of the library reports an emergency. *)
Lemma default_rules_calm rule fr ctx :
  rule ∈ default_rules →
  verdicts (fun v => RuleVerdict_is_emergency v = false) (rule_evaluate rule fr ctx).
Proof.
  unfold default_rules. intros Hin.
  repeat (apply elem_of_cons in Hin as [->|Hin];
    [simpl; autounfold with engine; verdicts;
     apply verdicts_Ret; auto using count_cap_calm, day_count_calm|]).
  by apply not_elem_of_nil in Hin.
Qed.

(** ** One evaluation of the registry *)

Section Evaluation.
Variables (fresh : nat → Fresh) (now : Timestamp) (ctx : RuleContext) (rules : list Rule).
Hypothesis Hdefault : ∀ rule, rule ∈ rules → rule ∈ default_rules.

(** The reports of the selected rules, as the registry makes them. *)
Lemma evaluation_reports :
  ∃ reports, evaluate_rules fresh now ctx 0 rules = Ret reports ∧
    Forall2 (fun rule rep => ∃ n, report_of (fresh n) ctx rule rep)
      (List.filter (selected ctx) rules) reports.
Proof.
  apply evaluate_rules_total; intros;
    [by apply default_rules_enabled, Hdefault|by apply default_rules_settle, Hdefault].
Qed.

Lemma in_selected rule :
  rule ∈ List.filter (selected ctx) rules ↔ rule ∈ rules ∧ selected ctx rule = true.
Proof. by rewrite list_elem_of_In, filter_In, list_elem_of_In. Qed.

(** A terminating report is the verdict of its rule: failed evaluations of
    the default rules only warn. *)
Lemma terminating_report rule n rep :
  rule ∈ rules → report_of (fresh n) ctx rule rep →
  RuleVerdict_is_terminating (rr_verdict rep) = true →
  condemns (rule_evaluate rule (fresh n) ctx).
Proof.
  intros Hin (_ & _ & Hv) Ht. destruct (rule_evaluate rule (fresh n) ctx) as [v|e| |].
  { exists v. by subst v. }
  all: destruct Hv as (base & _ & Hv); rewrite Hv, default_failure_warns in Ht by auto;
    discriminate Ht.
Qed.

Lemma calm_report rule n rep :
  rule ∈ rules → report_of (fresh n) ctx rule rep →
  RuleVerdict_is_emergency (rr_verdict rep) = false.
Proof.
  intros Hin (_ & _ & Hv). destruct (rule_evaluate rule (fresh n) ctx) as [v|e| |] eqn:Ev.
  { subst v. eapply default_rules_calm; eauto. }
  all: destruct Hv as (base & _ & ->); by rewrite default_failure_warns by auto.
Qed.

(** The decision of one evaluation: who can make it terminate, who must, and
    the status it then asks for. *)
Record decided (d : Decision) : Prop := mkDecided {
  de_cause : Decision_is_terminating d = true →
    ∃ rule n, rule ∈ rules ∧ selected ctx rule = true ∧ condemns (rule_evaluate rule (fresh n) ctx);
  de_bound : ∀ rule, rule ∈ rules → selected ctx rule = true →
    (∀ fr, condemns (rule_evaluate rule fr ctx)) → Decision_is_terminating d = true;
  de_liquidated : ∀ rule, rule ∈ rules → selected ctx rule = true →
    (∀ fr, ∃ v, rule_evaluate rule fr ctx = Ret (VLiquidate v)) → dec_kind d = DkLiquidate;
  de_status : Decision_account_status_target d
    = if Decision_is_terminating d then Some StFailed else None;
}.

Lemma evaluation_decided :
  ∃ reports, evaluate_rules fresh now ctx 0 rules = Ret reports
    ∧ decided (Decision_from_reports reports).
Proof.
  destruct evaluation_reports as (reports & Hev & HF). exists reports. split; [done|].
  assert (Hr : ∀ rep, rep ∈ reports →
    ∃ rule n, rule ∈ rules ∧ selected ctx rule = true ∧ report_of (fresh n) ctx rule rep).
  { intros rep [i Hi]%list_elem_of_lookup.
    destruct (Forall2_lookup_r _ _ _ _ _ HF Hi) as (rule & Hrule & n & Hn).
    apply list_elem_of_lookup_2, in_selected in Hrule as [? ?]. eauto. }
  assert (Hl : ∀ rule, rule ∈ rules → selected ctx rule = true →
    ∃ rep n, rep ∈ reports ∧ report_of (fresh n) ctx rule rep).
  { intros rule Hin Hsel. assert (Hf : rule ∈ List.filter (selected ctx) rules)
      by by apply in_selected.
    apply list_elem_of_lookup in Hf as [i Hi].
    destruct (Forall2_lookup_l _ _ _ _ _ HF Hi) as (rep & Hrep & n & Hn).
    apply list_elem_of_lookup_2 in Hrep. eauto. }
  destruct (from_reports_terminating reports) as [Eterm Estat].
  assert (Hcalm : existsb (fun r => RuleVerdict_is_emergency (rr_verdict r)) reports = false).
  { apply not_true_iff_false. intros (rep & Hin%list_elem_of_In & He)%existsb_exists.
    destruct (Hr rep Hin) as (rule & n & Hrule & _ & Hrep).
    apply (calm_report rule n) in Hrep; [congruence|done]. }
  split.
  - rewrite Eterm. intros (rep & Hin%list_elem_of_In & Ht)%existsb_exists.
    destruct (Hr rep Hin) as (rule & n & Hrule & Hsel & Hrep).
    exists rule, n. split_and!; [done..|]. by eapply terminating_report.
  - intros rule Hin Hsel Hc. rewrite Eterm. apply existsb_exists.
    destruct (Hl rule Hin Hsel) as (rep & n & Hrep & _ & _ & Hv). exists rep.
    split; [by apply list_elem_of_In|]. destruct (Hc (fresh n)) as (v & Ev & Ht).
    rewrite Ev in Hv. by rewrite Hv.
  - intros rule Hin Hsel Hc. destruct (Hl rule Hin Hsel) as (rep & n & Hrep & _ & _ & Hv).
    destruct (Hc (fresh n)) as (v & Ev). rewrite Ev in Hv.
    destruct (from_reports_choice reports) as (Hmax & Hatt & _).
    specialize (Hmax rep Hrep). unfold report_kind in Hmax. rewrite Hv in Hmax. simpl in Hmax.
    destruct (dec_kind (Decision_from_reports reports)) eqn:Ek; simpl in Hmax; try lia; [done|].
    destruct Hatt as [(rep' & Hin' & Hk & _) _]; [done|].
    destruct (Hr rep' Hin') as (rule' & n' & Hrule' & _ & Hrep').
    apply (calm_report rule' n') in Hrep'; [|done]. unfold report_kind in Hk.
    by destruct (rr_verdict rep').
  - rewrite Eterm, Estat, Hcalm. done.
Qed.

End Evaluation.

(** ** One call of [process] *)

(** A decision fails the account exactly when it terminates. *)
Lemma decision_fails a d at_ actor a' evs :
  apply_decision a d at_ actor = Ret (a', evs) →
  Decision_account_status_target d = (if Decision_is_terminating d then Some StFailed else None) →
  acc_status a ≠ StFailed →
  (acc_status a' = StFailed ↔ Decision_is_terminating d = true).
Proof.
  unfold apply_decision. intros E Hst Ha.
  destruct (decision_target_step a d at_) as [a1 ev1] eqn:E1.
  apply bind_Ret_inv in E as ([a2 ev2] & E2 & E). apply bind_Ret_inv in E as ([a3 ev3] & E3 & E).
  injection E as <- _. unfold decision_terminate_step in E3. rewrite Hst in E3.
  destruct (Decision_is_terminating d) eqn:Et.
  { split; [done|]. intros _. destruct (dec_kind d); monad_inv; done. }
  injection E3 as <- _. split; [|done]. intros Hf. exfalso.
  apply target_step_life in E1. apply promotion_step_life in E2. unfold life in *.
  destruct E1 as [?|(_ & ? & ? & ? & ?)], E2 as [?|(? & ? & ? & _ & ? & ?)]; simplify_eq; congruence.
Qed.

(** A liquidation, whether or not a promotion came first, lists the open
    positions of the account. *)
Lemma liquidation_listed a d at_ actor a' evs :
  apply_decision a d at_ actor = Ret (a', evs) → dec_kind d = DkLiquidate →
  ∃ i, EvLiquidationRequested i ∈ (de_kind <$> evs) ∧ li_account_id i = acc_id a
    ∧ li_positions i = LiquidationPosition_from_position
                         <$> List.filter Position_is_open (acc_open_positions a).
Proof.
  unfold apply_decision. intros E Hk.
  destruct (decision_target_step a d at_) as [a1 ev1] eqn:E1.
  apply bind_Ret_inv in E as ([a2 ev2] & E2 & E). apply bind_Ret_inv in E as ([a3 ev3] & E3 & E).
  injection E as _ <-. apply terminate_emits in E3 as (i & Hin & Hid & _ & Hpos); [|by left].
  unfold decision_target_step, Decision_is_target_hit in E1. rewrite Hk in E1. injection E1 as <- <-.
  apply promoted_same in E2 as [Ei Ep].
  exists i. rewrite Ei in Hid. rewrite Ep in Hpos. split_and!; [|done..].
  rewrite !fmap_app, !elem_of_app. auto.
Qed.

(** What a call that returned did with the rules. *)
Record judged fuel pl env a ev (res : PipelineResult) a1 ap : Prop := mkJudged {
  jd_roll : ∃ evs, auto_rollover fuel env ev a = Ret (a1, evs);
  jd_apply : apply_event pl env a1 ev = Ret ap;
  jd_decided : decided (env_fresh env) (build_context env ap ev) (reg_rules (pl_registry pl))
                 (er_decision (pr_result res));
  jd_failed : acc_status (ae_state ap) ≠ StFailed →
    (acc_status (pr_account res) = StFailed
     ↔ Decision_is_terminating (er_decision (pr_result res)) = true);
  jd_liquidated : dec_kind (er_decision (pr_result res)) = DkLiquidate →
    ∃ i, EvLiquidationRequested i ∈ (de_kind <$> pr_events res)
      ∧ li_account_id i = acc_id (ae_state ap)
      ∧ li_positions i
        = LiquidationPosition_from_position
          <$> List.filter Position_is_open
                (acc_open_positions (consume_fill (ae_state ap) (ae_trade_fill ap)));
}.

Lemma process_judged fuel pl env a ev res :
  process fuel pl env a ev = Ret res →
  (∀ rule, rule ∈ reg_rules (pl_registry pl) → rule ∈ default_rules) →
  ∃ a1 ap, judged fuel pl env a ev res a1 ap.
Proof.
  unfold process. intros E Hreg.
  apply bind_Ret_inv in E as ([a1 er] & E1 & E). apply bind_Ret_inv in E as (ap & E2 & E).
  apply bind_Ret_inv in E as (result & E3 & E). apply bind_Ret_inv in E as ([a2 ed] & E4 & E).
  monad_inv. exists a1, ap.
  unfold Evaluator_evaluate, RuleRegistry_evaluate in E3.
  destruct (evaluation_decided (env_fresh env) (env_now_reports env) (build_context env ap ev)
    (reg_rules (pl_registry pl)) Hreg) as (reports & Hev & Hdec).
  rewrite Hev in E3. monad_inv. split; simpl; [by eauto|done|done| |].
  - intros Hst. pose proof (stamp_tick_life a2 ev) as Hl. unfold life in Hl. injection Hl as -> _ _.
    eapply decision_fails; [exact E4|apply Hdec|].
    pose proof (consume_fill_life (ae_state ap) (ae_trade_fill ap)) as Hc. unfold life in Hc.
    by injection Hc as -> _ _.
  - intros Hk. destruct (liquidation_listed _ _ _ _ _ _ E4 Hk) as (i & Hin & Hid & Hpos).
    exists i. split_and!; [|by destruct (ae_trade_fill ap) as [[? ?]|]|done].
    rewrite !fmap_app, !elem_of_app. auto.
Qed.

End CauseFacts.

(** ** The sample registry *)

Import Samples PipelineSamples.

Lemma registry_default rule : rule ∈ reg_rules registry ↔ rule ∈ default_rules.
Proof.
  destruct default_registry as (r & Hr & Er). unfold registry. rewrite Hr. cbn [ret_or].
  by rewrite Er.
Qed.
