(* ===== verification/TickCauses.v ===== *)
(** * When a tick fails an account

    The causes for which a broker tick fails an account, over the rationals:
    the total loss, the loss of the day, the trail, the deadline.  With the
    default rules there are no others, and each of them is sufficient. *)

From S2P Require Import Prelude.
From S2P Require Import Decimal.
From S2P Require Import Chrono.
From S2P Require Import Ids.
From S2P Require Import Domain.
From S2P Require Import Plan.
From S2P Require Import Account.
From S2P Require Import Violation.
From S2P Require Import Pack.
From S2P Require Import RuleApi.
#[local] Open Scope Z_scope.
From S2P Require Import DrawdownRules.
From S2P Require Import TargetRules.
From S2P Require Import TimeRules.
From S2P Require Import LimitRules.
From S2P Require Import PatternRules.
From S2P Require Import Registry.
From S2P Require Import Decision.
From S2P Require Import State.
From S2P Require Import Pipeline.
From S2P Require Import Samples.
From S2P Require Import PipelineSamples.
From S2P Require Import DrawdownFacts.
From S2P Require Import RegistryFacts.
From S2P Require Import EstimatedFacts.
From S2P Require Import Lifecycle.
From S2P Require Import RolloverFacts.
From S2P Require Import PipelineFacts.
From S2P Require Import LivenessFacts.
From S2P Require Import CauseFacts.

Section TickCauses.
Context `{DL : DecimalLaws} `{CL : ChronoLaws} `{!JsonOps}.
Implicit Types a b : Account.

Abbreviation MoneyFits := (Fits 15 4).
Abbreviation PctFits := (Fits 6 6).

(** ** The causes *)

(** The amount the loss limits look at. *)
Definition watched b (equity : Money) : Money :=
  if plan_drawdown_on_balance (acc_plan b) then acc_balance b else equity.

(** More than a cent below the floor of the plan's basis. *)
Definition total_exceeded b (equity : Money) : Prop :=
  let pct := dval (plan_max_total_drawdown_pct (acc_plan b)) in
  let floor := max_floor b (plan_max_loss_reference (acc_plan b)) pct in
  (0 < pct ∧ dval (watched b equity) < floor - (1 # 100))%Q.

(** More than a cent over the daily limit, on a plan whose limit is hard. *)
Definition daily_exceeded b : Prop :=
  let pct := dval (plan_max_daily_drawdown_pct (acc_plan b)) in
  (0 < pct)%Q ∧ plan_daily_loss_soft (acc_plan b) = false ∧
  ∃ reference base, daily_basis b = Some (reference, base) ∧
    (pct * dval reference + (1 # 100) < Qmax (dval base - dval (daily_current b)) 0)%Q.

(** Below the trail under the highest equity. *)
Definition trail_exceeded b (equity : Money) : Prop :=
  let pct := dval (plan_trailing_drawdown_pct (acc_plan b)) in
  plan_trailing_drawdown_enabled (acc_plan b) = true ∧ (0 < pct)%Q ∧
  (dval equity < dval (acc_peak_equity b) - pct * dval (acc_peak_equity b))%Q.

(** After the account's deadline. *)
Definition expired b (now : Timestamp) : Prop :=
  ∃ d, TimeLimitRule_plan_deadline b = Ret (Some d) ∧ ts_nanos d < ts_nanos now.

Definition loss_exceeded b equity : Prop :=
  total_exceeded b equity ∨ daily_exceeded b ∨ trail_exceeded b equity.

(** ** The rules *)

(** The rules a tick can fail on. *)
Definition tick_rules : list Rule :=
  [MaxDrawdownRule None; DailyDrawdownRule None; TrailingDrawdownRule None; TimeLimitRule None].

Lemma tick_rules_default rule : rule ∈ tick_rules → rule ∈ default_rules.
Proof.
  unfold tick_rules. rewrite !elem_of_cons. intros [->|[->|[->|[->|Hin%elem_of_nil]]]];
    [by apply (in_default 1)|by apply (in_default 0)|by apply (in_default 2)|
     by apply (in_default 13)|done].
Qed.

Lemma dec_new_0_0 : (dval (dec_new 0 0) == 0)%Q.
Proof. change (dec_new 0 0) with dec_zero. apply dval_zero. Qed.

Lemma dec_gtb_zero d : dec_gtb d (dec_new 0 0) = true ↔ (0 < dval d)%Q.
Proof. unfold dec_gtb. rewrite dec_ltb_spec, dec_new_0_0. done. Qed.

Section Rules.
Variables (ctx : RuleContext) (equity bal : Money).
Hypothesis Hbroker : ctx_equity_input ctx = BrokerReported equity bal.
Hypothesis Hstart : RuleContext_require_started ctx = true.
Hypothesis Hamt : AmountsFit (ctx_account ctx).
Hypothesis Heq : MoneyFits equity.
Let b := ctx_account ctx.
Hypothesis Hplan : PlanFits (acc_plan b).
Hypothesis Htrail : PctFits (plan_trailing_drawdown_pct (acc_plan b)).

Lemma total_liquidates fr :
  (total_exceeded b equity → ∃ v, MaxDrawdownRule_evaluate None fr ctx = Ret (VLiquidate v))
  ∧ (condemns (MaxDrawdownRule_evaluate None fr ctx) → total_exceeded b equity).
Proof.
  destruct (Qlt_le_dec 0 (dval (plan_max_total_drawdown_pct (acc_plan b)))) as [Hpos|Hneg].
  - destruct (max_drawdown_cases None fr ctx equity bal (plan_max_total_drawdown_pct (acc_plan b)) 1
      (dec_new 8 1)) as (v & Hv & Hliq & Hwarn & Hpass); try done; [apply Hplan|apply eight_tenths_fits|].
    rewrite Hv. split.
    + intros [_ Hlt]. destruct (Hliq Hlt) as (x & -> & _). eauto.
    + intros (v' & [= <-] & Ht). split; [done|].
      match type of Hliq with (?c < ?f)%Q → _ => destruct (Qlt_le_dec c f) as [?|Hge]; [done|] end.
      match type of Hpass with _ → (?f < ?c)%Q → _ => destruct (Qlt_le_dec f c) as [Hgt|Hle] end.
      * by rewrite (Hpass Hge Hgt) in Ht.
      * by destruct (Hwarn Hge Hle) as (x & -> & _).
  - split; [by intros [?%Qlt_not_le _]|]. unfold MaxDrawdownRule_evaluate. cbn.
    assert (dec_leb (plan_max_total_drawdown_pct (acc_plan (ctx_account ctx))) (dec_new 0 0) = true)
      as -> by (apply dec_leb_spec; by rewrite dec_new_0_0).
    by intros ?%not_condemns_pass.
Qed.

Lemma daily_liquidates fr :
  (daily_exceeded b → ∃ v, DailyDrawdownRule_evaluate None fr ctx = Ret (VLiquidate v))
  ∧ (condemns (DailyDrawdownRule_evaluate None fr ctx) → daily_exceeded b).
Proof.
  unfold DailyDrawdownRule_evaluate, RuleContext_require_broker_equity.
  rewrite Hstart, Hbroker. fold b. cbn [EquityInput_broker_equity negb].
  change (DailyDrawdownRule_effective_pct None ctx) with (plan_max_daily_drawdown_pct (acc_plan b)).
  change (DailyDrawdownRule_tolerance_cents None) with 1.
  pose proof (pf_daily _ Hplan) as Hfit. unfold daily_exceeded.
  set (pct := plan_max_daily_drawdown_pct (acc_plan b)) in *.
  destruct (dec_leb pct dec_zero) eqn:Epos; dec_bool.
  { split; [by intros [?%Qlt_not_le _]|by intros ?%not_condemns_pass]. }
  destruct (daily_basis b) as [[reference base]|] eqn:Eb.
  2:{ assert (DailyDrawdownRule_reference b = Ret None) as ->.
      { unfold DailyDrawdownRule_reference, daily_basis in *.
        by destruct (plan_daily_loss_type (acc_plan b)). }
      split; [by intros (_ & _ & ? & ? & ? & _)|by intros ?%not_condemns_pass]. }
  destruct (daily_reference_spec b reference base) as (Hr & d & -> & Ed & Fd); [done..|]. cbn [obind].
  destruct (dmul_fits _ _ _ _ _ _ Hfit Hr) as (lim & -> & El & Fl); [lia|]. cbn [obind].
  destruct (tolerance_spec 1) as (t & -> & Et & Ft); [done|]. cbn [obind].
  destruct (dadd_fits 21 10 _ _ _ _ _ _ Fl Ft) as (s & -> & Es & _); [simpl; lia|]. cbn [obind].
  rewrite El, Et in Es.
  unfold dec_gtb, dec_geb. destruct (dec_ltb s d) eqn:Egt; dec_bool; rewrite Es, Ed in Egt.
  - destruct (pct_message _ Hfit) as (r & ->). cbn [obind].
    destruct (plan_daily_loss_soft (acc_plan b)) eqn:Esoft.
    + split; [by intros (_ & ? & _)|]. intros Hc. exfalso. revert Hc. apply verdicts_spare. verdicts.
    + edestruct (with_breach_total 16 4 21 10) as (x & -> & _); [done..|lia|]. cbn [obind].
      split; [by eauto|]. intros _. split_and!; [done..|]. by exists reference, base.
  - split.
    + intros (_ & _ & ? & ? & [= <- <-] & Hlt). by apply Qlt_not_le in Hlt.
    + intros Hc. exfalso. revert Hc. apply verdicts_spare. verdicts.
Qed.

Lemma trail_liquidates fr :
  selected ctx (TrailingDrawdownRule None) = true →
  (trail_exceeded b equity → ∃ v, TrailingDrawdownRule_evaluate None fr ctx = Ret (VLiquidate v))
  ∧ (condemns (TrailingDrawdownRule_evaluate None fr ctx) → trail_exceeded b equity).
Proof.
  intros Hsel. apply andb_true_iff in Hsel as [Hen _]. cbn in Hen. fold b in Hen.
  apply andb_true_iff in Hen as [Hen Hpos%dec_gtb_zero].
  destruct (limit_fits _ _ Htrail (af_peak_equity _ Hamt)) as (m & Hm & Fm). fold b in Hm.
  destruct (dmul_fits _ _ _ _ _ _ Htrail (af_peak_equity _ Hamt)) as (m' & Hm' & Em & _); [lia|].
  fold b in Hm', Em. rewrite Hm in Hm'. injection Hm' as <-.
  destruct (trailing_drawdown_verdict None fr ctx equity bal m) as (v & Hv & Hliq & Hwarn & Hpass);
    try done.
  { cbn. fold b. by rewrite Hen, Hm. }
  rewrite Hv. fold b in Hliq, Hwarn, Hpass.
  assert (Hiff : (dval equity < dval (acc_peak_equity b) - dval m)%Q ↔ trail_exceeded b equity).
  { unfold trail_exceeded. rewrite Em. naive_solver. }
  split; [intros Hx; apply Hiff in Hx; destruct (Hliq Hx) as (x & ->); by eauto|].
  intros (v' & [= <-] & Ht). apply Hiff.
  match type of Hliq with (?c < ?f)%Q → _ => destruct (Qlt_le_dec c f) as [?|Hge]; [done|] end.
  match type of Hwarn with _ → (?c < ?f)%Q → _ => destruct (Qlt_le_dec c f) as [Hlt|Hle] end.
  - by destruct (Hwarn Hge Hlt) as (x & ->).
  - by rewrite (Hpass Hge Hle) in Ht.
Qed.

Lemma deadline_expired : deadline_passed ctx ↔ expired b (ctx_server_time ctx).
Proof. unfold deadline_passed, expired. setoid_rewrite ts_ltb_spec. done. Qed.

Lemma time_limit_fails :
  expired b (ctx_server_time ctx) →
  rule_is_enabled (TimeLimitRule None) ctx = Ret true
  ∧ ∀ fr, condemns (rule_evaluate (TimeLimitRule None) fr ctx).
Proof.
  intros (d & Hd & Hlt). split.
  - cbn. unfold TimeLimitRule_plan_deadline in Hd. fold b.
    destruct (acc_deadline b); [by rewrite orb_true_r|].
    by destruct (plan_time_limit_days (acc_plan b)).
  - intros fr. cbn. unfold TimeLimitRule_evaluate. cbn. fold b. rewrite Hd. cbn [obind].
    apply ts_ltb_spec in Hlt. unfold ts_gtb. rewrite Hlt. apply condemns_VFail.
Qed.

Hypothesis Hkind : ctx_kind ctx = OnTick.
Hypothesis Hpending : ctx_pending_order ctx = None.

Lemma tick_cause rule fr :
  rule ∈ default_rules → selected ctx rule = true → condemns (rule_evaluate rule fr ctx) →
  loss_exceeded b equity ∨ expired b (ctx_server_time ctx).
Proof.
  assert (Hharmless : ∀ m, harmless ctx m → condemns m → expired b (ctx_server_time ctx)).
  { intros m Hm (v & Hv & Ht). apply deadline_expired. by eapply Hm. }
  unfold default_rules, loss_exceeded. intros Hin Hsel.
  repeat (apply elem_of_cons in Hin as [->|Hin];
    [first [by apply andb_true_iff in Hsel as [_ Hsel]; rewrite Hkind in Hsel|cbn]|]).
  - intros ?%daily_liquidates. auto.
  - intros ?%total_liquidates. auto.
  - intros ?%trail_liquidates; auto.
  - intros ?%Hharmless; [auto|apply target_harmless].
  - intros ?%Hharmless; [auto|by apply overnight_harmless].
  - intros ?%Hharmless; [auto|by apply weekend_harmless].
  - intros ?%Hharmless; [auto|apply time_limit_harmless].
  - intros ?%Hharmless; [auto|apply cross_harmless].
  - intros ?%Hharmless; [auto|apply lowcap_harmless].
  - by apply not_elem_of_nil in Hin.
Qed.

(** Each loss has its rule, which is selected and liquidates. *)
Lemma loss_rule :
  loss_exceeded b equity →
  ∃ rule, rule ∈ tick_rules ∧ selected ctx rule = true
    ∧ ∀ fr, ∃ v, rule_evaluate rule fr ctx = Ret (VLiquidate v).
Proof.
  unfold tick_rules. intros [Hx|[Hx|Hx]].
  - exists (MaxDrawdownRule None). split_and!; [set_solver| |].
    + unfold selected. cbn. rewrite Hkind, andb_true_r. fold b. by apply dec_gtb_zero, Hx.
    + intros fr. by apply total_liquidates.
  - exists (DailyDrawdownRule None). split_and!; [set_solver| |].
    + unfold selected. cbn. rewrite Hkind, andb_true_r. fold b. by apply (dec_gtb_zero), Hx.
    + intros fr. by apply daily_liquidates.
  - assert (Hsel : selected ctx (TrailingDrawdownRule None) = true).
    { unfold selected. cbn. rewrite Hkind, andb_true_r. fold b. destruct Hx as (-> & Hpos & _).
      by apply dec_gtb_zero. }
    exists (TrailingDrawdownRule None). split_and!; [set_solver|done|].
    intros fr. by apply trail_liquidates.
Qed.

(** The decision on a tick, for any selection of the default rules that
    keeps the ones that matter. *)
Lemma tick_decided fresh rules d :
  (∀ rule, rule ∈ rules → rule ∈ default_rules) → (∀ rule, rule ∈ tick_rules → rule ∈ rules) →
  decided fresh ctx rules d →
  (Decision_is_terminating d = true
   ↔ loss_exceeded b equity ∨ expired b (ctx_server_time ctx))
  ∧ (loss_exceeded b equity → dec_kind d = DkLiquidate).
Proof.
  intros Hdef Htick [Hcause Hbound Hliq _].
  assert (Hloss : loss_exceeded b equity → dec_kind d = DkLiquidate).
  { intros (rule & Hin & Hsel & Hv)%loss_rule. eapply Hliq; [by apply Htick|done|done]. }
  split; [|done]. split.
  - intros (rule & n & Hin & Hsel & Hc)%Hcause. eapply tick_cause; [by apply Hdef|done|done].
  - intros [Hx|[Hen Hc]%time_limit_fails].
    + unfold Decision_is_terminating. by rewrite (Hloss Hx).
    + eapply (Hbound (TimeLimitRule None)); [apply Htick; unfold tick_rules; set_solver| |done].
      unfold selected. by rewrite Hen, Hkind.
Qed.

End Rules.

(** ** The pipeline *)

(** The account as the tick finds it, [n] days after its last event: a new
    day starts from the balance and the equity. *)
Definition at_day (n : nat) a : Account :=
  match n with
  | O => a
  | S _ => a <| acc_day_start_balance := acc_balance a |>
             <| acc_day_start_equity := acc_equity a |>
             <| acc_intraday_peak_equity := acc_equity a |>
  end.

(** The account the rules see: with the broker's figures and the peaks they
    raise. *)
Definition after_tick (n : nat) a (equity balance : Money) : Account :=
  AccountState_update_balance (AccountState_update_equity (at_day n a) equity) balance.

(** Two accounts the causes cannot tell apart. *)
Record same_figures a b : Prop := mkSameFigures {
  sf_plan : acc_plan b = acc_plan a;
  sf_initial : acc_initial_balance b = acc_initial_balance a;
  sf_balance : acc_balance b = acc_balance a;
  sf_equity : acc_equity b = acc_equity a;
  sf_peak_balance : acc_peak_balance b = acc_peak_balance a;
  sf_peak_equity : acc_peak_equity b = acc_peak_equity a;
  sf_day_balance : acc_day_start_balance b = acc_day_start_balance a;
  sf_day_equity : acc_day_start_equity b = acc_day_start_equity a;
  sf_intraday : acc_intraday_peak_equity b = acc_intraday_peak_equity a;
  sf_started : acc_started_at b = acc_started_at a;
  sf_deadline : acc_deadline b = acc_deadline a;
}.

Lemma same_figures_tick a b equity balance :
  same_figures a b →
  same_figures (AccountState_update_balance (AccountState_update_equity a equity) balance)
    (AccountState_update_balance (AccountState_update_equity b equity) balance).
Proof.
  intros [Ep Ei Eb Ee Epb Epe Edb Ede Eip Es Ed].
  unfold AccountState_update_balance, AccountState_update_equity, raise_peak_balance. cbn.
  rewrite Epe. destruct (dec_gtb equity (acc_peak_equity a)); cbn;
    rewrite Eip; destruct (dec_gtb equity (acc_intraday_peak_equity a)); cbn;
    rewrite Epb; destruct (dec_gtb balance (acc_peak_balance a)); by split; cbn.
Qed.

(** What a tick leaves alone. *)
Lemma tick_frame a equity balance :
  let s := AccountState_update_balance (AccountState_update_equity a equity) balance in
  acc_id s = acc_id a ∧ acc_status s = acc_status a ∧ acc_started_at s = acc_started_at a.
Proof.
  unfold AccountState_update_balance, AccountState_update_equity, raise_peak_balance.
  by repeat case_match.
Qed.

Lemma on_day_figures n a a1 : on_day n a a1 → same_figures (at_day n a) a1.
Proof.
  destruct n as [|n]; simpl; [by intros ->|].
  intros [[] ? ? ? _ _ _]. split; simpl; congruence.
Qed.

(** Equal figures, equal causes. *)
Lemma figures_causes a b equity now :
  same_figures a b →
  (loss_exceeded b equity ↔ loss_exceeded a equity) ∧ (expired b now ↔ expired a now).
Proof.
  intros [Ep Ei Eb Ee Epb Epe Edb Ede Eip Es Ed].
  unfold loss_exceeded, total_exceeded, daily_exceeded, trail_exceeded, expired, watched, max_floor,
    basis_reference, daily_basis, daily_current, TimeLimitRule_plan_deadline.
  by rewrite Ep, Ei, Eb, Ee, Epb, Epe, Edb, Ede, Eip, Es, Ed.
Qed.

(** C3: when a tick fails an account.  A fresh broker tick on a started
    account of ordinary size in an evaluation phase, on UTC days and with the
    default rules or a selection that keeps the four that matter, is processed
    to the end, and afterwards the account has failed exactly when it had to:
    its balance or equity (as the plan says) is more than a cent below the
    floor of the total loss, or more than a cent over a hard daily limit,
    measured from the start of the event's day, or its equity is below the
    trail, or its deadline has passed.  For a loss the engine also requests
    the liquidation of exactly the account's open positions. *)
Theorem tick_fails_iff h fuel pl env a c n tick equity balance
    (Hplan : utc_plan (acc_plan a) h) (Hphase : plan_phase (acc_plan a) ≠ FundedPhase)
    (Hcur : acc_current_trading_day_start a = Some c) (Hal : day_floor h (ts_nanos c) = ts_nanos c)
    (Hnear : ts_near (ts_nanos c)) (Hnear' : ts_near (ts_nanos (q_ts (tick_quote tick))))
    (Hdist : day_floor h (ts_nanos (q_ts (tick_quote tick))) = ts_nanos c + Z.of_nat n * ns_day)
    (Hfuel : (n ≤ fuel)%nat) (Hidx : is_u32 (acc_trading_day_index a)) (Hday : DayFits a)
    (Hfits : ordinary a) (Htrail : PctFits (plan_trailing_drawdown_pct (acc_plan a)))
    (Heq : MoneyFits equity) (Hbal : MoneyFits balance)
    (Hreg : ∀ rule, rule ∈ reg_rules (pl_registry pl) → rule ∈ default_rules)
    (Hrules : ∀ rule, rule ∈ tick_rules → rule ∈ reg_rules (pl_registry pl))
    (Hrecent : ∀ id k, ∃ evs, pl_recent pl id k = Ret evs)
    (Hnotify : ∀ v, pl_notify_violation pl v = Ret tt)
    (Hfresh : num_minutes (ts_since (env_now_stale env) (q_ts (tick_quote tick)))
              ≤ STALE_TICK_THRESHOLD_MINUTES)
    (Horder : ∀ last, acc_last_tick_ts a = Some last →
                ts_nanos last < ts_nanos (q_ts (tick_quote tick)))
    (Hstart : is_Some (acc_started_at a)) (Hok : positions_ok a)
    (Hstatus : acc_status a ≠ StFailed) :
  let b := after_tick n a equity balance in
  ∃ res, process fuel pl env a (PeTick tick equity balance) = Ret res
    ∧ (acc_status (pr_account res) = StFailed
       ↔ loss_exceeded b equity ∨ expired b (env_now_context env))
    ∧ (loss_exceeded b equity →
       ∃ i, EvLiquidationRequested i ∈ (de_kind <$> pr_events res) ∧ li_account_id i = acc_id a
         ∧ lp_position_id <$> li_positions i = pos_id <$> acc_open_positions a).
Proof.
  intros b. destruct (tick_answers h fuel pl env a c n tick equity balance)
    as (a1 & evs & res & Hroll & Hon & Hres & _); eauto.
  exists res. split; [done|].
  destruct (process_judged _ _ _ _ _ _ Hres) as (a1' & ap & [[evs' Hroll'] Happly Hdec Hfail Hliq]); [done|].
  rewrite Hroll in Hroll'. injection Hroll' as <- _.
  apply apply_event_inv in Happly as (trades & kind & evs2 & Hst & _ & _ & Hk & _).
  cbn in Hst. apply bind_Ret_inv in Hst as (_ & _ & Hst). injection Hst as Hs Ekind Hf _.
  set (a2 := a1 <| acc_today_trades := trades |>) in *.
  pose proof (on_day_core _ _ _ Hon) as Hcore. pose proof (on_day_fits _ _ _ Hon Hfits) as Hfits1.
  assert (Hfig : same_figures b (ae_state ap)).
  { rewrite <- Hs. apply same_figures_tick. by apply (on_day_figures n a a1) in Hon as []. }
  destruct (tick_state_fits a2 equity balance) as [(Hamt & Hpf & _) Hp2];
    [by destruct Hfits1 as ([] & ?)|done..|].
  destruct (tick_state a2 equity balance) as (_ & _ & Epos).
  destruct (tick_frame a2 equity balance) as (Eid & Est & Esa).
  rewrite Hs in Hamt, Hpf, Hp2, Epos, Eid, Est, Esa. cbn in Hp2, Epos, Eid, Est, Esa.
  rewrite (sc_plan _ _ Hcore) in Hp2. rewrite (sc_positions _ _ Hcore) in Epos.
  rewrite (sc_id _ _ Hcore) in Eid. rewrite (sc_status _ _ Hcore) in Est.
  rewrite (sc_started _ _ Hcore) in Esa.
  set (ctx := build_context env ap (PeTick tick equity balance)) in *.
  destruct (tick_decided ctx equity balance eq_refl) with
    (fresh := env_fresh env) (rules := reg_rules (pl_registry pl))
    (d := er_decision (pr_result res)) as [Hterm Hloss]; try done.
  { unfold RuleContext_require_started. apply bool_decide_eq_true. cbn. by rewrite Esa. }
  { cbn. by rewrite Hp2. }
  { cbn. congruence. }
  change (ctx_account ctx) with (ae_state ap) in Hterm, Hloss.
  change (ctx_server_time ctx) with (env_now_context env) in Hterm.
  destruct (figures_causes b (ae_state ap) equity (env_now_context env) Hfig) as [El Ex].
  rewrite El, Ex in Hterm. rewrite El in Hloss. split.
  - rewrite Hfail by congruence. done.
  - intros (i & Hin & Hid & Hpos)%Hloss%Hliq. exists i. rewrite <- Hf in Hpos. cbn in Hpos.
    split_and!; [done|congruence|]. rewrite Hpos, Epos.
    rewrite filter_all_kept by (apply Forall_forall, Hok).
    rewrite <- list_fmap_compose. apply list_fmap_ext. by intros.
Qed.

End TickCauses.

(** ** Witness *)

Import Samples PipelineSamples.

(** The day after the start, with the equity six hundred down. *)
Lemma tick_fails_iff_witness :
  ∃ res, process 1 pl (env_at (noon + ns_day)) account
           (PeTick (quote_at (noon + ns_day)) (money 9400) (money 10000)) = Ret res
    ∧ acc_status (pr_account res) = StFailed.
Proof.
  destruct (tick_fails_iff 0 1 pl (env_at (noon + ns_day)) account (20000 * ns_day) 1
              (quote_at (noon + ns_day)) (money 9400) (money 10000)) as (res & Hres & Hiff & _).
  - split; [reflexivity|]. split; [reflexivity|lia].
  - vm_compute. discriminate.
  - vm_compute. reflexivity.
  - vm_compute. reflexivity.
  - vm_compute. discriminate.
  - vm_compute. discriminate.
  - vm_compute. reflexivity.
  - lia.
  - vm_compute. split; [discriminate|reflexivity].
  - exact account_day_fits.
  - exact account_ordinary.
  - q_fits 0.
  - q_fits 94000000.
  - q_fits 100000000.
  - exact (fun rule => proj1 (registry_default rule)).
  - exact (fun rule Hin => proj2 (registry_default rule) (tick_rules_default rule Hin)).
  - intros id k. exists []. reflexivity.
  - intros v. reflexivity.
  - vm_compute. discriminate.
  - intros last E. vm_compute in E. discriminate E.
  - exists noon. vm_compute. reflexivity.
  - unfold positions_ok. rewrite account_positions. split; constructor.
  - vm_compute. discriminate.
  - exists res. split; [exact Hres|]. apply Hiff. left. right. left.
    split; [vm_compute; reflexivity|]. split; [vm_compute; reflexivity|].
    exists (money 10000), (money 10000). split; vm_compute; reflexivity.
Defined.
