(* ===== verification/OrderCauses.v ===== *)
(** * When an order fails an account

    The pre-trade rules, over the rationals and the integer time line: the
    size of the order, the number of positions and trades, opposing positions,
    a missing stop loss, the total size, the trading hours, the margin and the
    news.  With the default rules an order fails the account exactly for one
    of these. *)

From S2P Require Import Prelude.
From S2P Require Import Decimal.
From S2P Require Import Chrono.
From S2P Require Import Ids.
From S2P Require Import Domain.
From S2P Require Import Plan.
From S2P Require Import Account.
From S2P Require Import Violation.
From S2P Require Import Pack.
From S2P Require Import RuleApi.
#[local] Open Scope Z_scope.
From S2P Require Import DrawdownRules.
From S2P Require Import TargetRules.
From S2P Require Import TimeRules.
From S2P Require Import LimitRules.
From S2P Require Import PatternRules.
From S2P Require Import Registry.
From S2P Require Import Decision.
From S2P Require Import State.
From S2P Require Import Pipeline.
From S2P Require Import Samples.
From S2P Require Import PipelineSamples.
From S2P Require Import DrawdownFacts.
From S2P Require Import RuleFacts.
From S2P Require Import RegistryFacts.
From S2P Require Import Lifecycle.
From S2P Require Import RolloverFacts.
From S2P Require Import PipelineFacts.
From S2P Require Import RiskFacts.
From S2P Require Import LivenessFacts.
From S2P Require Import CauseFacts.

Section OrderCauses.
Context `{DL : DecimalLaws} `{CL : ChronoLaws} `{!JsonOps}.
Implicit Types (p : ChallengePlan) (ps : list Position) (o : Order).

Abbreviation MoneyFits := (Fits 15 4).
Abbreviation QtyFits := (Fits 12 4).
Abbreviation PriceFits := (Fits 10 5).

(** ** News *)

(** Day [d] after the epoch has the weekday of [e] (day 0 was a Thursday),
    and [t] is the instant of [e] on it. *)
Definition announced (e : NewsEvent) (t : Z) : Prop :=
  ∃ d, (d + 3) mod 7 = num_days_from_monday (ne_weekday e)
     ∧ t = d * ns_day + ne_hour e * ns_hour + ne_minute e * ns_minute.

(** Within [w] whole minutes of an announcement, before or after it. *)
Definition near_news (w : Z) (t : Z) : Prop :=
  ∃ e u, e ∈ builtin_events ∧ announced e u ∧ Z.abs (Z.quot (t - u) ns_minute) ≤ w.

Lemma weekday_index n : 0 ≤ n < 7 → num_days_from_monday (weekday_of_index n) = n.
Proof.
  intros Hn. assert (n = 0 ∨ n = 1 ∨ n = 2 ∨ n = 3 ∨ n = 4 ∨ n = 5 ∨ n = 6) as Hc by lia.
  by destruct Hc as [->|[->|[->|[->|[->|[->| ->]]]]]].
Qed.

Lemma builtin_hours e : e ∈ builtin_events → 11 ≤ ne_hour e ≤ 18 ∧ 0 ≤ ne_minute e < 60
  ∧ (ne_hour e = 18 → ne_minute e = 0) ∧ 0 ≤ num_days_from_monday (ne_weekday e) < 7.
Proof.
  unfold builtin_events. intros Hin.
  repeat (apply elem_of_cons in Hin as [->|Hin]; [simpl; lia|]). by apply not_elem_of_nil in Hin.
Qed.

(** The instant the rule compares with: the announcement of the week that
    starts with the day of [ts]. *)
Lemma news_instant ts e :
  ts_near (ts_nanos ts) → e ∈ builtin_events →
  ∃ u, news_event_instant ts e = Ret (Some u) ∧ announced e (ts_nanos u)
    ∧ ts_nanos u = (ts_nanos ts / ns_day
                    + (num_days_from_monday (ne_weekday e) - (ts_nanos ts / ns_day + 3) mod 7) mod 7)
                   * ns_day + ne_hour e * ns_hour + ne_minute e * ns_minute.
Proof.
  intros Hnear (Hh & Hm & _ & Hw)%builtin_hours. unfold news_event_instant, ts_plus_days.
  rewrite ts_weekday_spec, weekday_index by (apply Z.mod_pos_bound; lia).
  set (today := (ts_nanos ts / ns_day + 3) mod 7).
  set (diff := (num_days_from_monday (ne_weekday e) - today) mod 7).
  assert (Hd : 0 ≤ diff < 7) by (apply Z.mod_pos_bound; lia).
  destruct (dur_days_spec diff) as (d & -> & Ed); [lia|]. cbn [unwrap obind].
  destruct (ts_add_total ts d) as [t' Ht'].
  { rewrite Ed. unfold ts_near, ts_range, ns_day, ns_second in *. lia. }
  rewrite Ht'. cbn [unwrap obind]. apply ts_add_spec in Ht'. rewrite Ed in Ht'.
  destruct (and_hms_opt_spec (date_naive t') (ne_hour e) (ne_minute e) 0) as (dt & -> & _ & Eu); [lia..|].
  exists (and_utc dt). split; [done|]. rewrite date_naive_spec, Ht', Z.div_add in Eu by done.
  split; [|rewrite Eu; lia]. exists (ts_nanos ts / ns_day + diff). split; [|rewrite Eu; lia].
  subst diff today. rewrite <- Z.add_assoc, (Z.add_comm _ 3), Z.add_assoc, Z.add_mod_idemp_r by done.
  replace (ts_nanos ts / ns_day + 3 + (num_days_from_monday (ne_weekday e)
    - (ts_nanos ts / ns_day + 3) mod 7)) with
    (num_days_from_monday (ne_weekday e) + (ts_nanos ts / ns_day + 3)
     - (ts_nanos ts / ns_day + 3) mod 7) by lia.
  rewrite Zminus_mod_idemp_r, Z.add_simpl_r. by apply Z.mod_small.
Qed.

(** An announcement less than six hours away is on the day of [ts]. *)
Lemma announced_today e t u :
  e ∈ builtin_events → announced e u → Z.abs (Z.quot (t - u) ns_minute) ≤ 359 →
  u = (t / ns_day + (num_days_from_monday (ne_weekday e) - (t / ns_day + 3) mod 7) mod 7)
      * ns_day + ne_hour e * ns_hour + ne_minute e * ns_minute.
Proof.
  intros (Hh & Hm & Hl & _)%builtin_hours (d & Hd & Eu) Hq.
  assert (Hclose : Z.abs (t - u) < 360 * ns_minute).
  { pose proof (Z.quot_rem' (t - u) ns_minute) as E.
    pose proof (Z.rem_bound_abs (t - u) ns_minute ltac:(done)) as Hr.
    change (Z.abs ns_minute) with ns_minute in Hr.
    assert (0 < ns_minute) by done. nia. }
  assert (Ht : t / ns_day = d).
  { symmetry. apply (Z.div_unique t ns_day d (t - d * ns_day)); [left|lia].
    unfold ns_day, ns_hour, ns_minute, ns_second in *. lia. }
  rewrite Ht, Hd, Z.sub_diag, Z.mod_0_l, Z.add_0_r by done. done.
Qed.

Lemma find_news_near ts w events :
  ts_near (ts_nanos ts) → (∀ e, e ∈ events → e ∈ builtin_events) →
  ∃ r, find_news_event ts w events = Ret r ∧
    (is_Some r ↔ ∃ e u, e ∈ events ∧ news_event_instant ts e = Ret (Some u)
                   ∧ Z.abs (Z.quot (ts_nanos ts - ts_nanos u) ns_minute) ≤ w).
Proof.
  intros Hnear. induction events as [|e events IH]; intros Hsub; simpl.
  { exists None. split; [done|]. split; [by intros []|]. intros (e & u & Hin & _). set_solver. }
  destruct (news_instant ts e) as (u & Hu & _); [done|apply Hsub; left|]. rewrite Hu. cbn [obind].
  rewrite num_minutes_spec, ts_since_spec.
  destruct (Z.leb_spec (Z.abs (Z.quot (ts_nanos ts - ts_nanos u) ns_minute)) w) as [Hle|Hgt].
  { exists (Some e). split; [done|]. split; [|done]. intros _. exists e, u. by split_and!; [left|..]. }
  destruct IH as (r & -> & Hr); [intros; apply Hsub; by right|]. exists r. split; [done|].
  rewrite Hr. split; intros (e' & u' & Hin & Hi & Hw').
  - exists e', u'. split_and!; [by right|done..].
  - apply elem_of_cons in Hin as [->|Hin]; [rewrite Hu in Hi; simplify_eq; lia|]. by exists e', u'.
Qed.

Lemma news_window ts w :
  ts_near (ts_nanos ts) → w ≤ 359 →
  ∃ r, within_news_window ts w = Ret r ∧ (is_Some r ↔ near_news w (ts_nanos ts)).
Proof.
  intros Hnear Hw. destruct (find_news_near ts w builtin_events) as (r & Hr & Hiff); [done..|].
  exists r. split; [done|]. rewrite Hiff. split.
  - intros (e & u & Hin & Hu & Hle). destruct (news_instant ts e Hnear Hin) as (u' & Hu' & Ha & _).
    rewrite Hu in Hu'. injection Hu' as <-. by exists e, (ts_nanos u).
  - intros (e & u & Hin & Ha & Hle). destruct (news_instant ts e Hnear Hin) as (u' & Hu' & _ & E).
    exists e, u'. split_and!; [done..|]. by rewrite E, <- (announced_today e (ts_nanos ts) u) by (done || lia).
Qed.

(** ** The causes *)

Definition open_book ps : list Position := List.filter Position_is_open ps.

(** The margin a quantity binds at a price, as the plan's leverage says. *)
Definition margin_q p (q price : Decimal) : Q :=
  (dval q * dval price / inject_Z (plan_leverage p))%Q.

Definition margin_used p ps : Q :=
  qsum (fun x => margin_q p (pos_open_quantity x) (pos_avg_entry_price x)) (open_book ps).

(** What makes the order [o] a hard violation, for an account with equity
    [equity], the positions [ps] and [trades] trades today.  A lot is one
    unit: no context carries the specification of an instrument. *)
Inductive order_cause p ps (trades : list Trade) (equity : Money) o : Prop :=
| oc_size max :
    plan_max_position_lots p = Some max → (dval max < dval (ord_quantity o))%Q →
    order_cause p ps trades equity o
| oc_positions max :
    plan_max_open_positions p = Some max → OrderKind_is_close (ord_kind o) = false →
    max < Z.of_nat (length (open_book ps)) + 1 → order_cause p ps trades equity o
| oc_trades max :
    plan_max_daily_trades p = Some max → OrderKind_is_close (ord_kind o) = false →
    max < Z.of_nat (length trades) + 1 → order_cause p ps trades equity o
| oc_hedge x :
    plan_hedging_allowed p = false → OrderKind_is_open (ord_kind o) = true → x ∈ open_book ps →
    pos_symbol x = ord_symbol o → pos_side x ≠ PositionSide_from_order (ord_side o) →
    order_cause p ps trades equity o
| oc_stop :
    plan_require_stop_loss p = true → OrderKind_is_open (ord_kind o) = true →
    ord_stop_loss o = None → order_cause p ps trades equity o
| oc_lots max :
    plan_max_total_lots p = Some max →
    (dval max < qsum (fun x => dval (pos_open_quantity x)) (open_book ps) + dval (ord_quantity o))%Q →
    order_cause p ps trades equity o
| oc_hours s e :
    plan_trading_hours p = Some (s, e) →
    trading_hours_in_window s e (hour_of (ord_submitted_at o)) = false →
    order_cause p ps trades equity o
| oc_margin price :
    (0 < dval (ord_quantity o))%Q → MarginRule_price o = Some price →
    (dval equity - margin_used p ps < margin_q p (ord_quantity o) price)%Q →
    order_cause p ps trades equity o
| oc_news :
    plan_news_trading_allowed p = false → near_news 2 (ts_nanos (ord_submitted_at o)) →
    order_cause p ps trades equity o.

(** ** The rules *)

(** Exact margins: quantities and prices of ordinary size and a leverage that
    divides a thousand. *)
Lemma div_leverage n lev :
  Fits 22 9 n → 0 < lev → (lev | 10 ^ 3) →
  ∃ m, ddiv n (dec_new lev 0) = Ret m ∧ (dval m == dval n / inject_Z lev)%Q ∧ Fits 25 12 m.
Proof.
  intros (z & Hz & En) Hlev Hdiv. pose proof (Z.divide_pos_le lev (10 ^ 3) eq_refl Hdiv) as Hle.
  destruct Hdiv as (k & Hk).
  assert (El : (dval (dec_new lev 0) == inject_Z lev)%Q) by (apply dval_new_int; lia).
  assert (Hl0 : ¬ (inject_Z lev == 0)%Q) by (unfold Qeq; simpl; lia).
  assert (E : (scaled (z * k) 12 == dval n / dval (dec_new lev 0))%Q).
  { rewrite El, En. unfold scaled. change (ten_to 12) with (ten_to 9 * 10 ^ 3). rewrite Hk.
    rewrite !inject_Z_mult. field. split; [apply ten_to_nonzero|].
    split; [done|]. unfold Qeq. simpl. nia. }
  assert (Hb : Z.abs (z * k) ≤ ten_to 25).
  { change (ten_to 25) with (ten_to 22 * 10 ^ 3). rewrite Z.abs_mul. nia. }
  destruct (dec_div_exact n (dec_new lev 0)) as (m & Hm & Em).
  { by rewrite El. }
  { eapply representable_proper; [exact E|]. apply (scaled_representable _ 25); [done|lia..]. }
  exists m. unfold ddiv. rewrite Hm. split_and!; [done|by rewrite Em, El|].
  exists (z * k). split; [done|]. by rewrite Em, E.
Qed.

(** The free margin is exact. *)
Lemma free_exact n e u :
  MoneyFits e → Sized n 25 12 u → Z.of_nat n ≤ ten_to 3 →
  ∃ f, dsub e u = Ret f ∧ (dval f == dval e - dval u)%Q.
Proof.
  intros He (y & Hy & Eu) Hn. destruct (Fits_align 15 4 24 12 e He) as (x & Hx & Ee); [lia..|].
  destruct (dec_sub_exact e u) as (f & Hf & Ef).
  - eapply (representable_proper (scaled (x - y) 12)); [by rewrite Ee, Eu, scaled_sub|].
    exists (x - y), 12%nat. split_and!; [|lia|reflexivity].
    assert (ten_to 24 + ten_to 3 * ten_to 25 < 2 ^ 96) by done. pose proof (ten_to_pos 25). nia.
  - exists f. unfold dsub. by rewrite Hf.
Qed.

Section Rules.
Variables (ctx : RuleContext) (o : Order).
Let p := acc_plan (ctx_account ctx).
Let ps := ctx_open_positions ctx.
Let trades := ctx_today_trades ctx.
Let equity := acc_equity (ctx_account ctx).
Hypothesis Horder : ctx_pending_order ctx = Some o.
Hypothesis Hspecs : ctx_instruments ctx = InstrumentRegistry_new.
Hypothesis Hqty : QtyFits (ord_quantity o).

Lemma units_are_lots q : QtyFits q →
  ∃ l, InstrumentSpec_units_to_lots InstrumentSpec_default q = Ret l
    ∧ (dval l == dval q)%Q ∧ QtyFits l.
Proof.
  intros Hq. unfold InstrumentSpec_units_to_lots. cbn [InstrumentSpec_default ins_contract_size].
  destruct (div_one _ _ _ Hq) as (l & Hl & Fl); [lia|]. exists l. split_and!; [done| |done].
  unfold ddiv in Hl. apply unwrap_Ret_inv in Hl.
  assert (H1 : (dval (dec_new 1 0) == 1)%Q) by apply dval_one.
  destruct (dec_div_exact q (dec_new 1 0)) as (l' & Hl' & E).
  - rewrite H1. discriminate.
  - destruct Hq as (m & Hm & Em). eapply representable_proper, (scaled_representable m 12 4); [|done|lia..].
    rewrite H1, Em. field.
  - rewrite Hl in Hl'. injection Hl' as <-. rewrite E, H1. field.
Qed.

Lemma spec_default symbol : InstrumentRegistry_get (ctx_instruments ctx) symbol = InstrumentSpec_default.
Proof. by rewrite Hspecs. Qed.

Lemma size_fails fr :
  condemns (MaxPositionSizeRule_evaluate None fr ctx)
  ↔ ∃ max, plan_max_position_lots p = Some max ∧ (dval max < dval (ord_quantity o))%Q.
Proof.
  unfold MaxPositionSizeRule_evaluate, MaxPositionSizeRule_effective_max_lots. cbn [effective_value].
  fold p. rewrite Horder. destruct (plan_max_position_lots p) as [max|] eqn:Em.
  2:{ split; [by intros ?%not_condemns_pass|by intros (? & ? & _)]. }
  rewrite spec_default. destruct (units_are_lots _ Hqty) as (l & -> & El & _). cbn [obind].
  unfold dec_gtb. destruct (dec_ltb max l) eqn:E; dec_bool; rewrite El in E.
  - split; [by eauto|]. intros _. apply condemns_VFail.
  - split; [|intros (m & [= <-] & ?%Qlt_not_le); done].
    intros Hc. exfalso. revert Hc. apply verdicts_spare. verdicts.
Qed.

Lemma count_fails h fr n max msg :
  0 ≤ n < u32_max →
  condemns (Ret (count_cap_verdict h fr ctx n max msg))
  ↔ OrderKind_is_close (ord_kind o) = false ∧ max < n + 1.
Proof.
  intros Hn. unfold count_cap_verdict. rewrite Horder, u32_succ_small by done.
  destruct (OrderKind_is_close (ord_kind o)).
  { split; [by intros ?%not_condemns_pass|by intros [? _]]. }
  destruct (Z.ltb_spec max (n + 1)) as [Hlt|Hge].
  - split; [done|]. intros _. apply condemns_VFail.
  - split; [by intros ?%not_condemns_pass|]. intros [_ ?]. lia.
Qed.

Lemma as_u32_small n : 0 ≤ n < u32_max → as_u32 n = n.
Proof. intros. unfold as_u32. apply Z.mod_small. unfold u32_max, u32_modulus in *. lia. Qed.

Lemma positions_fails fr :
  Z.of_nat (length (open_book ps)) < u32_max →
  condemns (MaxOpenPositionsRule_evaluate None fr ctx)
  ↔ ∃ max, plan_max_open_positions p = Some max ∧ OrderKind_is_close (ord_kind o) = false
      ∧ max < Z.of_nat (length (open_book ps)) + 1.
Proof.
  intros Hn. unfold MaxOpenPositionsRule_evaluate, MaxOpenPositionsRule_effective_max. cbn. fold p ps.
  destruct (plan_max_open_positions p) as [max|].
  2:{ split; [by intros ?%not_condemns_pass|by intros (? & ? & _)]. }
  fold (open_book ps). rewrite as_u32_small by lia. rewrite count_fails by lia. naive_solver.
Qed.

Lemma trades_fails fr :
  Z.of_nat (length trades) < u32_max →
  condemns (MaxDailyTradesRule_evaluate None fr ctx)
  ↔ ∃ max, plan_max_daily_trades p = Some max ∧ OrderKind_is_close (ord_kind o) = false
      ∧ max < Z.of_nat (length trades) + 1.
Proof.
  intros Hn. unfold MaxDailyTradesRule_evaluate, MaxDailyTradesRule_effective_max. cbn. fold p trades.
  destruct (plan_max_daily_trades p) as [max|].
  2:{ split; [by intros ?%not_condemns_pass|by intros (? & ? & _)]. }
  rewrite as_u32_small by lia. rewrite count_fails by lia. naive_solver.
Qed.

Lemma hedge_fails fr :
  condemns (HedgingRule_evaluate None fr ctx)
  ↔ plan_hedging_allowed p = false ∧ OrderKind_is_open (ord_kind o) = true
    ∧ ∃ x, x ∈ open_book ps ∧ pos_symbol x = ord_symbol o
        ∧ pos_side x ≠ PositionSide_from_order (ord_side o).
Proof.
  unfold HedgingRule_evaluate. fold p ps. rewrite Horder.
  destruct (plan_hedging_allowed p); [split; [by intros ?%not_condemns_pass|by intros [? _]]|].
  destruct (OrderKind_is_open (ord_kind o)); cbn [negb];
    [|split; [by intros ?%not_condemns_pass|by intros (_ & ? & _)]].
  assert (Hiff : existsb (opposes o) ps = true ↔ ∃ x, x ∈ open_book ps ∧ pos_symbol x = ord_symbol o
    ∧ pos_side x ≠ PositionSide_from_order (ord_side o)).
  { assert (Hb : ∀ x, opposes o x = true ↔ Position_is_open x = true ∧ pos_symbol x = ord_symbol o
      ∧ pos_side x ≠ PositionSide_from_order (ord_side o)).
    { intros x. unfold opposes. rewrite !andb_true_iff, negb_true_iff, bool_decide_eq_true,
        bool_decide_eq_false. tauto. }
    rewrite existsb_exists. split; intros (x & Hin & Hx).
    - apply Hb in Hx as (Ho & ? & ?). exists x. split_and!; [|done..].
      by apply list_elem_of_In, filter_In.
    - apply list_elem_of_In, filter_In in Hin as [Hin Ho]. exists x. split; [done|].
      apply Hb. by destruct Hx. }
  destruct (existsb (opposes o) ps).
  - split; [|intros _; apply condemns_VFail]. intros _. split_and!; [done..|]. by apply Hiff.
  - split; [by intros ?%not_condemns_pass|]. intros (_ & _ & Hx%Hiff). done.
Qed.

Lemma stop_fails fr :
  condemns (StopLossRequiredRule_evaluate None fr ctx)
  ↔ plan_require_stop_loss p = true ∧ OrderKind_is_open (ord_kind o) = true ∧ ord_stop_loss o = None.
Proof.
  unfold StopLossRequiredRule_evaluate. fold p. rewrite Horder.
  destruct (plan_require_stop_loss p), (OrderKind_is_open (ord_kind o)), (ord_stop_loss o); simpl;
    (split; [first [intros ?%not_condemns_pass; naive_solver|naive_solver]
            |first [naive_solver|intros _; apply condemns_VFail]]).
Qed.

Hypothesis Hbook : book_fits ps.

Lemma book_elem x : x ∈ open_book ps → QtyFits (pos_open_quantity x) ∧ PriceFits (pos_avg_entry_price x).
Proof.
  intros Hin%list_elem_of_In%filter_In. destruct Hbook as [Hf _]. rewrite Forall_forall in Hf.
  apply Hf, list_elem_of_In. apply Hin.
Qed.

Lemma book_length : Z.of_nat (length (open_book ps)) ≤ ten_to 3.
Proof. destruct Hbook as [_ Hl]. etrans; [|exact Hl]. apply inj_le, List.filter_length_le. Qed.

Lemma lots_sum :
  ∃ s, foldM (fun acc x => let! l := lots_of ctx (pos_symbol x) (pos_open_quantity x) in dadd acc l)
         dec_zero (open_book ps) = Ret s
    ∧ (dval s == qsum (fun x => dval (pos_open_quantity x)) (open_book ps))%Q
    ∧ Sized (length (open_book ps)) 12 4 s.
Proof.
  destruct (foldM_sum (fun x => lots_of ctx (pos_symbol x) (pos_open_quantity x))
    (fun x => dval (pos_open_quantity x)) 3 12 4 (open_book ps) 0 dec_zero) as (s & Hs & Es & Fs).
  { intros x [Hq _]%book_elem. unfold lots_of. rewrite spec_default. by apply units_are_lots. }
  { apply book_length. } { lia. } { lia. } { by apply Sized_zero; lia. }
  exists s. split_and!; [done| |done]. by rewrite Es, dval_zero, Qplus_0_l.
Qed.

Lemma lots_fails fr :
  condemns (MaxTotalLotsRule_evaluate None fr ctx)
  ↔ ∃ max, plan_max_total_lots p = Some max
      ∧ (dval max < qsum (fun x => dval (pos_open_quantity x)) (open_book ps) + dval (ord_quantity o))%Q.
Proof.
  unfold MaxTotalLotsRule_evaluate, MaxTotalLotsRule_effective_max_lots, MaxTotalLotsRule_total.
  cbn [effective_value]. fold p ps. rewrite Horder.
  destruct (plan_max_total_lots p) as [max|].
  2:{ split; [by intros ?%not_condemns_pass|by intros (? & ? & _)]. }
  destruct lots_sum as (s & Hs & Es & Fs). fold (open_book ps). rewrite Hs. cbn [obind].
  unfold lots_of. rewrite spec_default.
  destruct (units_are_lots _ Hqty) as (l & -> & El & Fl). cbn [obind].
  destruct (dadd_sized 3 _ 12 4 s l Fs Fl) as (t & -> & Et & _); [apply book_length|lia|lia|]. cbn [obind].
  rewrite Es, El in Et.
  unfold dec_gtb. destruct (dec_ltb max t) eqn:E; dec_bool; rewrite Et in E.
  - split; [by eauto|]. intros _. apply condemns_VFail.
  - split; [by intros ?%not_condemns_pass|]. by intros (m & [= <-] & ?%Qlt_not_le).
Qed.

Lemma hours_fails fr :
  plan_timezone p = None →
  condemns (TradingHoursRule_evaluate fr ctx)
  ↔ ∃ s e, plan_trading_hours p = Some (s, e)
      ∧ trading_hours_in_window s e (hour_of (ord_submitted_at o)) = false.
Proof.
  intros Hutc. unfold TradingHoursRule_evaluate. fold p. rewrite Horder, Hutc, ts_hour_spec.
  fold (hour_of (ord_submitted_at o)). destruct (plan_trading_hours p) as [[s e]|].
  2:{ split; [by intros ?%not_condemns_pass|by intros (? & ? & ? & _)]. }
  destruct (trading_hours_in_window s e (hour_of (ord_submitted_at o))) eqn:E; cbn [negb].
  - split; [by intros ?%not_condemns_pass|]. intros (s' & e' & [= <- <-] & E'). congruence.
  - split; [by eauto|]. intros _. apply condemns_VFail.
Qed.

(** The two sides of the margin comparison are exact. *)
Lemma margin_exact symbol q price :
  0 < plan_leverage p → (plan_leverage p | 10 ^ 3) → QtyFits q → PriceFits price →
  ∃ m, margin_of ctx symbol q price = Ret m ∧ (dval m == margin_q p q price)%Q ∧ Fits 25 12 m.
Proof.
  intros Hlev Hdiv Hq Hp. unfold margin_of. rewrite spec_default.
  destruct (units_are_lots _ Hq) as (l & -> & El & Fl). cbn [obind].
  unfold InstrumentSpec_notional. cbn [InstrumentSpec_default ins_contract_size].
  destruct (dmul_fits _ _ 1 0 l (dec_new 1 0) Fl) as (u & -> & Eu & _);
    [apply Fits_new; [by vm_compute|lia..]|lia|]. cbn [obind].
  assert (Eu' : (dval u == dval q)%Q).
  { rewrite Eu, El. change (dec_new 1 0) with dec_one. rewrite dval_one. ring. }
  assert (Fu : QtyFits u) by (eapply Fits_proper; [|exact Hq]; by rewrite Eu').
  destruct (dmul_fits _ _ _ _ _ _ Fu Hp) as (n & -> & En & Fn); [lia|]. cbn [obind].
  destruct (div_leverage n (plan_leverage p) Fn Hlev Hdiv) as (m & Hm & Em & Fm).
  exists m. split_and!; [done| |done]. unfold margin_q. by rewrite Em, En, Eu'.
Qed.

Lemma margin_fails fr :
  0 < plan_leverage p → (plan_leverage p | 10 ^ 3) → MoneyFits equity →
  (∀ price, MarginRule_price o = Some price → PriceFits price) →
  condemns (MarginRule_evaluate fr ctx)
  ↔ (0 < dval (ord_quantity o))%Q ∧ ∃ price, MarginRule_price o = Some price
      ∧ (dval equity - margin_used p ps < margin_q p (ord_quantity o) price)%Q.
Proof.
  intros Hlev Hdiv Heq Hprice. unfold MarginRule_evaluate. rewrite Horder.
  destruct (dec_leb (ord_quantity o) dec_zero) eqn:Eq; dec_bool.
  { split; [by intros ?%not_condemns_pass|by intros [?%Qlt_not_le _]]. }
  destruct (MarginRule_price o) as [price|] eqn:Epr.
  2:{ split; [by intros ?%not_condemns_pass|by intros (_ & ? & ? & _)]. }
  destruct (margin_exact (ord_symbol o) (ord_quantity o) price) as (r & -> & Er & _); auto.
  cbn [obind]. unfold MarginRule_free_margin. fold ps equity.
  destruct (foldM_sum (fun x => margin_of ctx (pos_symbol x) (pos_open_quantity x) (pos_avg_entry_price x))
    (fun x => margin_q p (pos_open_quantity x) (pos_avg_entry_price x)) 3 25 12 (open_book ps) 0 dec_zero)
    as (u & Hu & Eu & Fu).
  { intros x [Hq Hp]%book_elem. by apply margin_exact. }
  { apply book_length. } { lia. } { lia. } { by apply Sized_zero; lia. }
  fold (open_book ps). rewrite Hu. cbn [obind].
  destruct (free_exact _ equity u Heq Fu book_length) as (f & -> & Ef). cbn [obind].
  rewrite Eu, dval_zero, Qplus_0_l in Ef. fold (margin_used p ps) in Ef.
  unfold dec_gtb. destruct (dec_ltb f r) eqn:E; dec_bool; rewrite Ef, Er in E.
  - split; [by eauto|]. intros _. apply condemns_VFail.
  - split; [by intros ?%not_condemns_pass|]. by intros (_ & pr & [= <-] & ?%Qlt_not_le).
Qed.

Lemma news_fails fr :
  ts_near (ts_nanos (ord_submitted_at o)) → ctx_rule_config ctx = RuleConfig_from_plan p →
  condemns (NewsTradingRule_evaluate None fr ctx)
  ↔ plan_news_trading_allowed p = false ∧ near_news 2 (ts_nanos (ord_submitted_at o)).
Proof.
  intros Hnear Hcfg. unfold NewsTradingRule_evaluate. fold p. rewrite Horder, Hcfg.
  destruct (plan_news_trading_allowed p); [split; [by intros ?%not_condemns_pass|by intros [? _]]|].
  cbn [RuleConfig_from_plan rc_news_trading ntc_window_minutes].
  destruct (news_window (ord_submitted_at o) 2) as (r & -> & Hr); [done|lia|]. cbn [obind].
  destruct r as [e|].
  - split; [|intros _; apply condemns_VFail]. intros _. split; [done|]. apply Hr. by eexists.
  - split; [by intros ?%not_condemns_pass|]. intros [_ Hn%Hr]. by destruct Hn.
Qed.

Hypothesis Hkind : ctx_kind ctx = OnOrderSubmit.
Hypothesis Hcfg : ctx_rule_config ctx = RuleConfig_from_plan p.
Hypothesis Hutc : plan_timezone p = None.
Hypothesis Hnear : ts_near (ts_nanos (ord_submitted_at o)).
Hypothesis Hlev : 0 < plan_leverage p.
Hypothesis Hdiv : (plan_leverage p | 10 ^ 3).
Hypothesis Heq : MoneyFits equity.
Hypothesis Hprice : ∀ price, MarginRule_price o = Some price → PriceFits price.
Hypothesis Htrades : Z.of_nat (length trades) < u32_max.

Lemma book_u32 : Z.of_nat (length (open_book ps)) < u32_max.
Proof. pose proof book_length. assert (ten_to 3 < u32_max) by done. lia. Qed.

(** Whoever condemns an order has one of the causes. *)
Lemma order_blame rule fr :
  rule ∈ default_rules → selected ctx rule = true → condemns (rule_evaluate rule fr ctx) →
  order_cause p ps trades equity o.
Proof.
  unfold default_rules. intros Hin Hsel.
  repeat (apply elem_of_cons in Hin as [->|Hin];
    [first [by apply andb_true_iff in Hsel as [_ Hsel]; rewrite Hkind in Hsel|cbn [rule_evaluate
       NewsTradingRule MaxPositionSizeRule MaxOpenPositionsRule MaxDailyTradesRule CooldownRule
       HedgingRule GridTradingRule StopLossRequiredRule TakeProfitRequiredRule MaxTotalLotsRule
       TradingHoursRule MarginRule]]|]).
  - intros [? ?]%news_fails; auto using oc_news.
  - intros (? & ? & ?)%size_fails. by eapply oc_size.
  - intros (? & ? & ? & ?)%positions_fails; [by eapply oc_positions|apply book_u32].
  - intros (? & ? & ? & ?)%trades_fails; [by eapply oc_trades|done].
  - intros Hc. exfalso. revert Hc. apply verdicts_spare. unfold CooldownRule_evaluate. verdicts.
  - intros (? & ? & x & ? & ? & ?)%hedge_fails. by eapply oc_hedge.
  - intros Hc. exfalso. revert Hc. apply verdicts_spare. unfold GridTradingRule_evaluate. verdicts.
  - intros (? & ? & ?)%stop_fails. by apply oc_stop.
  - intros Hc. exfalso. revert Hc. apply verdicts_spare. unfold TakeProfitRequiredRule_evaluate. verdicts.
  - intros (? & ? & ?)%lots_fails. by eapply oc_lots.
  - intros (? & ? & ? & ?)%hours_fails; [by eapply oc_hours|done].
  - intros (? & ? & ? & ?)%margin_fails; auto. by eapply oc_margin.
  - by apply not_elem_of_nil in Hin.
Qed.

(** Each cause has its rule, which is selected and condemns the order. *)
Lemma order_condemned :
  order_cause p ps trades equity o →
  ∃ rule, rule ∈ default_rules ∧ selected ctx rule = true
    ∧ ∀ fr, condemns (rule_evaluate rule fr ctx).
Proof.
  intros [max Hm Hlt|max Hm Hc Hlt|max Hm Hc Hlt|x Ha Ho Hin Hs Hd|Hr Ho Hn|max Hm Hlt|s e Hw Hout
         |price Hpos Hpr Hlt|Ha Hn].
  - exists (MaxPositionSizeRule None). split_and!; [by apply (in_default 10)| |].
    + unfold selected. cbn. rewrite Hkind. fold p. by rewrite Hm.
    + intros fr. apply size_fails. eauto.
  - exists (MaxOpenPositionsRule None). split_and!; [by apply (in_default 11)| |].
    + unfold selected. cbn. rewrite Hkind. fold p. by rewrite Hm.
    + intros fr. apply positions_fails; [apply book_u32|]. eauto.
  - exists (MaxDailyTradesRule None). split_and!; [by apply (in_default 12)| |].
    + unfold selected. cbn. rewrite Hkind. fold p. by rewrite Hm.
    + intros fr. apply trades_fails; eauto.
  - exists (HedgingRule None). split_and!; [by apply (in_default 15)| |].
    + unfold selected. cbn. rewrite Hkind. fold p. by rewrite Ha.
    + intros fr. apply hedge_fails. eauto 8.
  - exists (StopLossRequiredRule None). split_and!; [by apply (in_default 18)| |].
    + unfold selected. cbn. rewrite Hkind. fold p. by rewrite Hr.
    + intros fr. by apply stop_fails.
  - exists (MaxTotalLotsRule None). split_and!; [by apply (in_default 23)| |].
    + unfold selected. cbn. rewrite Hkind. fold p. by rewrite Hm.
    + intros fr. apply lots_fails. eauto.
  - exists TradingHoursRule. split_and!; [by apply (in_default 24)| |].
    + unfold selected. cbn. rewrite Hkind. unfold TradingHoursRule_is_enabled. fold p. by rewrite Hw.
    + intros fr. apply hours_fails; eauto.
  - exists MarginRule. split_and!; [by apply (in_default 25)| |].
    + unfold selected. cbn. by rewrite Hkind.
    + intros fr. apply margin_fails; eauto.
  - exists (NewsTradingRule None). split_and!; [by apply (in_default 7)| |].
    + unfold selected. cbn. rewrite Hkind. fold p. by rewrite Ha.
    + intros fr. by apply news_fails.
Qed.

Lemma order_decided fresh rules d :
  (∀ rule, rule ∈ rules ↔ rule ∈ default_rules) → decided fresh ctx rules d →
  (Decision_is_terminating d = true ↔ order_cause p ps trades equity o).
Proof.
  intros Hrules [Hcause Hbound _ _]. split.
  - intros (rule & n & Hin & Hsel & Hc)%Hcause. eapply order_blame; [by apply Hrules|done|done].
  - intros (rule & Hin & Hsel & Hc)%order_condemned. eapply Hbound; [by apply Hrules|done|done].
Qed.

End Rules.

(** ** The pipeline *)


End OrderCauses.

(** ** Witness *)

Import Samples PipelineSamples.

(** A limit order whose margin is twice the equity. *)
Definition large_order : Order :=
  (Order_market_open 1 7 "EURUSD" Buy (money 2000000) (Some (money (9 # 10))) None noon)
    <| ord_order_type := Limit (money 1) |>.

