(* ===== verification/PeriodicCauses.v ===== *)
(** * Fills, day ends and questions

    The other ways to the rules.  A fill fails no account: the rules that run
    on one have no equity from the broker and no trades of other accounts to
    look at.  The end of a day fails an account that is idle or has missed
    its days, and a question on demand also one that is out of time or over
    its total size. *)

From S2P Require Import Prelude.
From S2P Require Import Decimal.
From S2P Require Import Chrono.
From S2P Require Import Ids.
From S2P Require Import Domain.
From S2P Require Import Plan.
From S2P Require Import Account.
From S2P Require Import Violation.
From S2P Require Import Pack.
From S2P Require Import RuleApi.
#[local] Open Scope Z_scope.
From S2P Require Import DrawdownRules.
From S2P Require Import TargetRules.
From S2P Require Import TimeRules.
From S2P Require Import LimitRules.
From S2P Require Import PatternRules.
From S2P Require Import Registry.
From S2P Require Import Decision.
From S2P Require Import State.
From S2P Require Import Pipeline.
From S2P Require Import Samples.
From S2P Require Import PipelineSamples.
From S2P Require Import DrawdownFacts.
From S2P Require Import RegistryFacts.
From S2P Require Import EstimatedFacts.
From S2P Require Import Lifecycle.
From S2P Require Import RolloverFacts.
From S2P Require Import PipelineFacts.
From S2P Require Import RiskFacts.
From S2P Require Import LivenessFacts.
From S2P Require Import CauseFacts.
From S2P Require Import TickCauses.
From S2P Require Import OrderCauses.

Section PeriodicCauses.
Context `{DL : DecimalLaws} `{CL : ChronoLaws} `{!JsonOps}.
Implicit Types a b : Account.

(** ** Fills *)

(** The rules of a fill, without equity from the broker and without the
    trades of other accounts. *)
Lemma fill_spares ctx rule fr :
  ctx_kind ctx = OnTradeFill → RuleContext_equity_is_broker_reported ctx = false →
  ctx_cross_reference_trades ctx = [] →
  rule ∈ default_rules → selected ctx rule = true → ¬ condemns (rule_evaluate rule fr ctx).
Proof.
  intros Hkind Hest Hcross. unfold default_rules. intros Hin Hsel.
  repeat (apply elem_of_cons in Hin as [->|Hin];
    [first [by apply andb_true_iff in Hsel as [_ Hsel]; rewrite Hkind in Hsel
           |apply verdicts_spare; cbn [rule_evaluate CopyTradingRule HftScalpingRule
              PerTradeMaxLossRule]]|]).
  - unfold CopyTradingRule_evaluate. rewrite Hcross. cbn [filterO obind length]. verdicts.
    match goal with E : CopyTradingRule_effective_fail_threshold None = Ret ?x |- _ =>
      injection E as <- end. discriminate.
  - unfold HftScalpingRule_evaluate. verdicts.
  - unfold PerTradeMaxLossRule_evaluate. rewrite Hest. verdicts.
  - by apply not_elem_of_nil in Hin.
Qed.

(** C6: a fill fails no account.  Whatever a trade loses and whoever traded
    the same, a filled trade that the pipeline processes with the default
    rules leaves an account that had not failed unfailed: the maximum loss
    per trade and copied trades never terminate it. *)
Theorem fill_never_fails fuel pl env a trade res
    (Hreg : ∀ rule, rule ∈ reg_rules (pl_registry pl) → rule ∈ default_rules)
    (Hstatus : acc_status a ≠ StFailed)
    (Hrun : process fuel pl env a (PeTradeFilled trade) = Ret res) :
  acc_status (pr_account res) ≠ StFailed
  ∧ Decision_is_terminating (er_decision (pr_result res)) = false.
Proof.
  destruct (process_judged _ _ _ _ _ _ Hrun Hreg) as (a1 & ap & [[evs Hroll] Happly Hdec Hfail _]).
  apply apply_event_inv in Happly as (trades & kind & evs2 & Hst & _ & _ & Hk & _).
  assert (acc_status (ae_state ap) = acc_status a ∧ kind = OnTradeFill) as [Hs Ekind].
  { cbn in Hst. monad_inv. apply auto_rollover_core in Hroll. rewrite <- (sc_status _ _ Hroll).
    match goal with H : AccountState_apply_realized_pnl _ _ _ _ _ = Ret ?x |- _ =>
      apply apply_realized_pnl_life in H as Hl end. unfold life in Hl. injection Hl as Hl _ _.
    split; [|done]. rewrite <- Hst, <- Hl. unfold AccountState_mark_active_trading_day.  by destruct (acc_day_counted_today x). }
  assert (Hd : Decision_is_terminating (er_decision (pr_result res)) = false).
  { apply not_true_iff_false. intros Ht. destruct (de_cause _ _ _ _ Hdec Ht) as (rule & n & Hin & Hsel & Hc).
    revert Hc. apply fill_spares; [by cbn; rewrite Hk| | |by apply Hreg|done]; done. }
  split; [|done]. rewrite Hfail by congruence. by rewrite Hd.
Qed.

(** ** Days and activity *)

(** The whole days from [u] to [t]. *)
Definition days_between (u t : Timestamp) : Z := Z.quot (ts_nanos t - ts_nanos u) ns_day.

(** No trade for as many days as the plan allows, counted from the last trade
    or, without one, from the start. *)
Definition idle_too_long a (now : Timestamp) : Prop :=
  ∃ days since, plan_inactivity_days (acc_plan a) = Some days ∧ days ≠ 0
    ∧ match acc_last_trade_at a with Some t => Some t | None => acc_started_at a end = Some since
    ∧ days ≤ days_between since now.

(** After the deadline with fewer than [required] of the days. *)
Definition days_missing a (now : Timestamp) (actual required : Z) : Prop :=
  required ≠ 0 ∧ actual < required
  ∧ ∃ d, acc_deadline a = Some d ∧ ts_nanos d < ts_nanos now.

Definition period_cause a (now : Timestamp) : Prop :=
  idle_too_long a now
  ∨ (0 < plan_min_trading_days (acc_plan a)
     ∧ days_missing a now (MinTradingDaysRule_actual a) (plan_min_trading_days (acc_plan a)))
  ∨ (∃ required, plan_min_profitable_days (acc_plan a) = Some required
       ∧ days_missing a now (acc_profitable_days_count a) required).

(** Open positions above the total size. *)
Definition book_too_large a : Prop :=
  ∃ max, plan_max_total_lots (acc_plan a) = Some max
    ∧ (dval max < qsum (fun x => dval (pos_open_quantity x)) (open_book (acc_open_positions a)))%Q.

Section Rules.
Variable ctx : RuleContext.
Let a := ctx_account ctx.
Let now := ctx_server_time ctx.

Lemma inactivity_fails fr :
  condemns (InactivityRule_evaluate None fr ctx) ↔ idle_too_long a now.
Proof.
  unfold InactivityRule_evaluate, idle_too_long. cbn. fold a now.
  destruct (plan_inactivity_days (acc_plan a)) as [days|].
  2:{ split; [by intros ?%not_condemns_pass|by intros (? & ? & ? & _)]. }
  destruct (Z.eqb_spec days 0) as [->|Hd].
  { split; [by intros ?%not_condemns_pass|]. by intros (? & ? & [= <-] & ? & _). }
  rewrite <- ?num_days_spec, <- ?ts_since_spec. unfold days_between.
  assert (Hq : ∀ u, Z.quot (ts_nanos now - ts_nanos u) ns_day = num_days (ts_since now u))
    by (intros u; by rewrite num_days_spec, ts_since_spec).
  destruct (acc_last_trade_at a) as [t|]; [|destruct (acc_started_at a) as [t|]].
  - destruct (Z.leb_spec days (num_days (ts_since now t))) as [Hle|Hgt].
    + split; [|intros _; apply condemns_VFail]. intros _. exists days, t. by rewrite Hq.
    + split; [|intros (? & ? & [= <-] & _ & [= <-] & Hle); rewrite Hq in Hle; lia].
      intros Hc. exfalso. revert Hc. apply verdicts_spare. verdicts.
  - destruct (Z.leb_spec days (num_days (ts_since now t))) as [Hle|Hgt].
    + split; [|intros _; apply condemns_VFail]. intros _. exists days, t. by rewrite Hq.
    + split; [by intros ?%not_condemns_pass|]. intros (? & ? & [= <-] & _ & [= <-] & Hle). rewrite Hq in Hle. lia.
  - split; [by intros ?%not_condemns_pass|]. by intros (? & ? & _ & _ & ? & _).
Qed.

Lemma days_fails h fr actual required f w :
  condemns (Ret (day_count_verdict h fr ctx actual required f w)) ↔ days_missing a now actual required.
Proof.
  unfold day_count_verdict, days_missing. fold a now.
  destruct (Z.eqb_spec required 0) as [->|Hr].
  { split; [by intros ?%not_condemns_pass|by intros [? _]]. }
  destruct (Z.leb_spec required actual) as [Hle|Hlt].
  { split; [by intros ?%not_condemns_pass|]. intros (_ & ? & _). lia. }
  assert (actual <? required = true) as -> by by apply Z.ltb_lt.
  destruct (acc_deadline a) as [d|].
  - rewrite andb_true_r. unfold ts_gtb. destruct (ts_ltb d now) eqn:E; ts_bool.
    + split; [|intros _; apply condemns_VFail]. intros _. by eauto.
    + split; [by intros (? & [= <-] & ?)|]. intros (_ & _ & ? & [= <-] & ?). lia.
  - split; [by intros (? & [= <-] & ?)|]. by intros (_ & _ & ? & ? & _).
Qed.

Lemma trading_days_fails fr :
  condemns (MinTradingDaysRule_evaluate None fr ctx)
  ↔ days_missing a now (MinTradingDaysRule_actual a) (plan_min_trading_days (acc_plan a)).
Proof. unfold MinTradingDaysRule_evaluate. cbn. apply days_fails. Qed.

Lemma profitable_days_fails fr :
  condemns (MinProfitableDaysRule_evaluate None fr ctx)
  ↔ ∃ required, plan_min_profitable_days (acc_plan a) = Some required
      ∧ days_missing a now (acc_profitable_days_count a) required.
Proof.
  unfold MinProfitableDaysRule_evaluate. cbn. fold a.
  destruct (plan_min_profitable_days (acc_plan a)) as [r|].
  - rewrite days_fails. fold a. naive_solver.
  - split; [by intros ?%not_condemns_pass|by intros (? & ? & _)].
Qed.

Hypothesis Hspecs : ctx_instruments ctx = InstrumentRegistry_new.
Hypothesis Hops : ctx_open_positions ctx = acc_open_positions a.
Hypothesis Hpending : ctx_pending_order ctx = None.
Hypothesis Hbook : book_fits (acc_open_positions a).

Lemma book_fails fr : condemns (MaxTotalLotsRule_evaluate None fr ctx) ↔ book_too_large a.
Proof.
  unfold MaxTotalLotsRule_evaluate, MaxTotalLotsRule_effective_max_lots, MaxTotalLotsRule_total,
    book_too_large.
  cbn [effective_value]. fold a. rewrite Hpending, Hops.
  destruct (plan_max_total_lots (acc_plan a)) as [max|].
  2:{ split; [by intros ?%not_condemns_pass|by intros (? & ? & _)]. }
  rewrite <- Hops in Hbook.
  destruct (lots_sum ctx Hspecs Hbook) as (s & Hs & Es & _). rewrite Hops in Hs, Es.
  fold a in Hs, Es. fold (open_book (acc_open_positions a)). rewrite Hs. cbn [obind].
  unfold dec_gtb. destruct (dec_ltb max s) eqn:E; dec_bool; rewrite Es in E.
  - split; [by eauto|]. intros _. apply condemns_VFail.
  - split; [by intros ?%not_condemns_pass|]. by intros (m & [= <-] & ?%Qlt_not_le).
Qed.

Hypothesis Hest : ctx_equity_input ctx = EquityInput_default.
Hypothesis Htrade : ctx_latest_trade ctx = None.

(** The causes of the end of a day and of a question on demand. *)
Definition quiet_cause (kind : RuleContextKind) b (t : Timestamp) : Prop :=
  period_cause b t ∨ (kind = OnDemand ∧ (expired b t ∨ book_too_large b)).

Ltac spare Hc := exfalso; revert Hc; apply verdicts_spare.
Ltac spared := rewrite ?Hpending, ?Htrade; verdicts.

Lemma quiet_blame rule fr :
  ctx_kind ctx = OnEndOfDay ∨ ctx_kind ctx = OnDemand →
  rule ∈ default_rules → selected ctx rule = true → condemns (rule_evaluate rule fr ctx) →
  quiet_cause (ctx_kind ctx) a now.
Proof.
  assert (Hharmless : ∀ m, harmless ctx m → condemns m → expired a now).
  { intros m Hm (v & Hv & Ht). apply deadline_expired. by eapply Hm. }
  intros Hkind Hin Hsel Hc. apply andb_true_iff in Hsel as [Hen Hsel]. unfold quiet_cause.
  assert (Hx : expired a now → scope_applicable OnEndOfDay (rule_scope rule) = false →
    period_cause a now ∨ (ctx_kind ctx = OnDemand ∧ (expired a now ∨ book_too_large a))).
  { intros Hx Hs. right. destruct Hkind as [Hk|Hk]; [|by auto]. rewrite Hk in Hsel.
    congruence. }
  unfold default_rules in Hin.
  repeat (apply elem_of_cons in Hin as [->|Hin];
    [cbn [rule_evaluate DailyDrawdownRule MaxDrawdownRule TrailingDrawdownRule ProfitTargetRule
      MinTradingDaysRule MinProfitableDaysRule ConsistencyRule NewsTradingRule
      OvernightHoldingRule WeekendHoldingRule MaxPositionSizeRule MaxOpenPositionsRule
      MaxDailyTradesRule TimeLimitRule CooldownRule HedgingRule GridTradingRule
      CopyTradingRule StopLossRequiredRule TakeProfitRequiredRule HftScalpingRule
      PerTradeMaxLossRule InactivityRule MaxTotalLotsRule TradingHoursRule MarginRule
      CrossAccountHedgingRule LowcapExposureRule] in Hc|]);
    try (by apply not_elem_of_nil in Hin).
  - apply Hx; [|done]. eapply Hharmless; [by eapply daily_harmless|exact Hc].
  - apply Hx; [|done]. eapply Hharmless; [by eapply max_harmless|exact Hc].
  - apply Hx; [|done]. eapply Hharmless; [by eapply trailing_harmless|exact Hc].
  - apply Hx; [|done]. eapply Hharmless; [by eapply target_harmless|exact Hc].
  - left. right. left. apply trading_days_fails in Hc. cbn in Hen. fold a in Hen.
    split; [by apply Z.ltb_lt|done].
  - left. right. right. by apply profitable_days_fails in Hc.
  - spare Hc. unfold ConsistencyRule_evaluate. spared.
  - spare Hc. unfold NewsTradingRule_evaluate. spared.
  - spare Hc. unfold OvernightHoldingRule_evaluate. rewrite Hpending. simpl. verdicts.
  - spare Hc. unfold WeekendHoldingRule_evaluate. spared.
  - spare Hc. unfold MaxPositionSizeRule_evaluate. spared.
  - spare Hc. unfold MaxOpenPositionsRule_evaluate. spared. unfold count_cap_verdict. rewrite Hpending. verdicts.
  - spare Hc. unfold MaxDailyTradesRule_evaluate. spared. unfold count_cap_verdict. rewrite Hpending. verdicts.
  - apply Hx; [|done]. eapply Hharmless; [by eapply time_limit_harmless|exact Hc].
  - spare Hc. unfold CooldownRule_evaluate. spared.
  - spare Hc. unfold HedgingRule_evaluate. spared.
  - spare Hc. unfold GridTradingRule_evaluate. spared.
  - spare Hc. unfold CopyTradingRule_evaluate. spared.
  - spare Hc. unfold StopLossRequiredRule_evaluate. spared.
  - spare Hc. unfold TakeProfitRequiredRule_evaluate. spared.
  - spare Hc. unfold HftScalpingRule_evaluate. spared.
  - spare Hc. unfold PerTradeMaxLossRule_evaluate. spared.
  - left. left. by apply inactivity_fails in Hc.
  - right. apply book_fails in Hc. destruct Hkind as [Hk|Hk]; [by rewrite Hk in Hsel|by auto].
  - spare Hc. unfold TradingHoursRule_evaluate. spared.
  - spare Hc. unfold MarginRule_evaluate. spared.
  - spare Hc. unfold CrossAccountHedgingRule_evaluate. spared.
  - spare Hc. unfold LowcapExposureRule_evaluate. spared.
Qed.

Lemma quiet_condemned :
  ctx_kind ctx = OnEndOfDay ∨ ctx_kind ctx = OnDemand → quiet_cause (ctx_kind ctx) a now →
  ∃ rule, rule ∈ default_rules ∧ selected ctx rule = true
    ∧ ∀ fr, condemns (rule_evaluate rule fr ctx).
Proof.
  intros Hkind [[Hx|[[Hpos Hx]|Hx]]|[Hd [Hx|Hx]]].
  - exists (InactivityRule None). split_and!; [by apply (in_default 22)| |].
    + unfold selected. cbn. fold a. destruct Hx as (days & since & -> & _). by destruct Hkind as [-> | ->].
    + intros fr. by apply inactivity_fails.
  - exists (MinTradingDaysRule None). split_and!; [by apply (in_default 4)| |].
    + unfold selected. cbn. fold a. apply Z.ltb_lt in Hpos as ->. by destruct Hkind as [-> | ->].
    + intros fr. by apply trading_days_fails.
  - exists (MinProfitableDaysRule None). split_and!; [by apply (in_default 5)| |].
    + unfold selected. cbn. fold a. destruct Hx as (r & -> & _). by destruct Hkind as [-> | ->].
    + intros fr. by apply profitable_days_fails.
  - destruct (time_limit_fails ctx Hx) as [Hen Hc]. exists (TimeLimitRule None).
    split_and!; [by apply (in_default 13)| |done].
    unfold selected. rewrite Hd. by rewrite Hen.
  - exists (MaxTotalLotsRule None). split_and!; [by apply (in_default 23)| |].
    + unfold selected. cbn. fold a. rewrite Hd. by destruct Hx as (max & -> & _).
    + intros fr. by apply book_fails.
Qed.

Lemma quiet_decided fresh rules d :
  ctx_kind ctx = OnEndOfDay ∨ ctx_kind ctx = OnDemand →
  (∀ rule, rule ∈ rules ↔ rule ∈ default_rules) → decided fresh ctx rules d →
  (Decision_is_terminating d = true ↔ quiet_cause (ctx_kind ctx) a now).
Proof.
  intros Hkind Hrules [Hcause Hbound _ _]. split.
  - intros (rule & n & Hin & Hsel & Hc)%Hcause. eapply quiet_blame; [done|by apply Hrules|done|done].
  - intros (rule & Hin & Hsel & Hc)%quiet_condemned; [|done]. eapply Hbound; [by apply Hrules|done|done].
Qed.

End Rules.

(** ** The pipeline *)

(** The context kind of the two events that only ask. *)
Definition asked (ev : PipelineEvent) : option RuleContextKind :=
  match ev with PeEndOfDay => Some OnEndOfDay | PeOnDemand => Some OnDemand | _ => None end.

(** C7: when time fails an account.  The end of a day and a question on
    demand, on the current (UTC) day of an ordinary account in an evaluation
    phase, are processed to the end.  The end of a day fails the account exactly when it has been without a trade for
    as many days as the plan allows, or its deadline has passed with fewer
    active or profitable days than required; a question on demand also when
    the deadline has passed at all or the open positions exceed the total
    size.  No loss is looked at on either. *)
Theorem period_fails_iff h fuel pl env a c ev kind
    (Hev : asked ev = Some kind)
    (Hplan : utc_plan (acc_plan a) h) (Hphase : plan_phase (acc_plan a) ≠ FundedPhase)
    (Hcur : acc_current_trading_day_start a = Some c) (Hal : day_floor h (ts_nanos c) = ts_nanos c)
    (Hnear : ts_near (ts_nanos c)) (Hnear1 : ts_near (ts_nanos (env_now_process env)))
    (Hnear2 : ts_near (ts_nanos (env_now_apply env)))
    (Hsame : day_floor h (ts_nanos (env_now_process env)) = ts_nanos c)
    (Hidx : is_u32 (acc_trading_day_index a)) (Hday : DayFits a) (Hfits : ordinary a)
    (Hreg : ∀ rule, rule ∈ reg_rules (pl_registry pl) ↔ rule ∈ default_rules)
    (Hrecent : ∀ id k, ∃ evs, pl_recent pl id k = Ret evs)
    (Hnotify : ∀ v, pl_notify_violation pl v = Ret tt)
    (Hstatus : acc_status a ≠ StFailed) :
  ∃ res, process fuel pl env a ev = Ret res
    ∧ (acc_status (pr_account res) = StFailed ↔ quiet_cause kind a (env_now_context env)).
Proof.
  assert (Hk : ev = PeEndOfDay ∧ kind = OnEndOfDay ∨ ev = PeOnDemand ∧ kind = OnDemand)
    by (destruct ev; simplify_eq/=; auto).
  destruct (quiet_answers h fuel pl env a c 0 ev kind) as (a1 & evs & res & Hroll & Hon & Hres);
    try done; [by destruct ev|by destruct Hk as [[-> ->]|[-> ->]]| | | |lia|by intros ? ?%Hreg|].
  { by destruct Hk as [[-> _]|[-> _]]. } { by destruct Hk as [[-> _]|[-> _]]. }
  { destruct Hk as [[-> _]|[-> _]]; cbn; lia. }
  exists res. split; [done|].
  destruct (process_judged _ _ _ _ _ _ Hres) as (a1' & ap & [[evs' Hroll'] Happly Hdec Hfail _]);
    [by intros ? ?%Hreg|].
  rewrite Hroll in Hroll'. injection Hroll' as <- _. simpl in Hon. subst a1.
  apply apply_event_inv in Happly as (trades & kind' & evs2 & Hst & Hops & _ & Hkd & _).
  assert (Hs : ae_state ap = a <| acc_today_trades := trades |> ∧ ae_ctx_kind ap = kind).
  { destruct Hk as [[-> ->]|[-> ->]]; cbn in Hst; injection Hst as Hs Ek _ _; split; congruence. }
  destruct Hs as [Hs Ek].
  set (ctx := build_context env ap ev) in *.
  assert (Hctx : ctx_account ctx = ae_state ap ∧ ctx_kind ctx = kind
    ∧ ctx_server_time ctx = env_now_context env
    ∧ ctx_open_positions ctx = acc_open_positions a ∧ ctx_instruments ctx = InstrumentRegistry_new
    ∧ ctx_pending_order ctx = None ∧ ctx_latest_trade ctx = None
    ∧ ctx_equity_input ctx = EquityInput_default).
  { rewrite <- Hops. by destruct Hk as [[-> ->]|[-> ->]]. }
  destruct Hctx as (Ea & Ekd & Et & Eo & Ei & Ep & El & Ee). rewrite Hs in Ea.
  rewrite Hfail by (by rewrite Hs).
  rewrite (quiet_decided ctx Ei) with (fresh := env_fresh env) (rules := reg_rules (pl_registry pl));
    try done; try (by rewrite Ea); [by rewrite Ekd, Ea, Et| |].
  - rewrite Ea. apply Hfits.
  - rewrite Ekd. destruct Hk as [[_ ->]|[_ ->]]; auto.
Qed.

End PeriodicCauses.

(** ** Witnesses *)

Import Samples PipelineSamples.

(** The sale of the purchased position at a loss of nine thousand. *)
Definition heavy_loss : Trade :=
  (Trade_new 3 4 7 "EURUSD" Sell Exit (money 2) (money 2) (money 0) noon)
    <| tr_exit_info := Some (mkTradeExit 77 (money (-9000)) (money 2) (money 1) (money 2)) |>.

Lemma fill_never_fails_witness :
  ∃ res, process 1 pl (env_at noon) invested (PeTradeFilled heavy_loss) = Ret res
    ∧ acc_status (pr_account res) ≠ StFailed.
Proof.
  destruct (is_ret_inv (process 1 pl (env_at noon) invested (PeTradeFilled heavy_loss)))
    as [res Hres]; [vm_compute; reflexivity|].
  exists res. split; [exact Hres|].
  apply (fill_never_fails 1 pl (env_at noon) invested heavy_loss res); [|vm_compute; discriminate|exact Hres].
  exact (fun rule => proj1 (registry_default rule)).
Defined.

(** An account whose deadline passed an hour before noon. *)
Definition overdue : Account := account <| acc_deadline := Some (noon - ns_hour) |>.

Lemma period_fails_iff_witness :
  ∃ res, process 0 pl (env_at noon) overdue PeEndOfDay = Ret res
    ∧ acc_status (pr_account res) = StFailed.
Proof.
  destruct (period_fails_iff 0 0 pl (env_at noon) overdue (20000 * ns_day) PeEndOfDay OnEndOfDay)
    as (res & Hres & Hiff).
  - reflexivity.
  - split; [reflexivity|]. split; [reflexivity|lia].
  - vm_compute. discriminate.
  - vm_compute. reflexivity.
  - vm_compute. reflexivity.
  - vm_compute. discriminate.
  - vm_compute. discriminate.
  - vm_compute. discriminate.
  - vm_compute. reflexivity.
  - vm_compute. split; [discriminate|reflexivity].
  - destruct account_day_fits. by split.
  - destruct account_ordinary as ([] & ? & ?). split; [by split|done].
  - exact registry_default.
  - intros id k. exists []. reflexivity.
  - intros v. reflexivity.
  - vm_compute. discriminate.
  - exists res. split; [exact Hres|]. apply Hiff. left. right. left.
    split; [vm_compute; reflexivity|]. split; [vm_compute; discriminate|].
    split; [vm_compute; reflexivity|]. exists (noon - ns_hour). split; vm_compute; reflexivity.
Defined.
