(* ===== verification/StoreFacts.v ===== *)
(** * Theorems on the event store

    The store refines a single stream of events with a filter per account;
    replaying the log of a trading account rebuilds its balance, and two
    statuses that replay does not rebuild. *)

From S2P Require Import Prelude.
From S2P Require Import Decimal.
From S2P Require Import Chrono.
From S2P Require Import Ids.
From S2P Require Import Domain.
From S2P Require Import Plan.
From S2P Require Import Account.
From S2P Require Import Violation.
From S2P Require Import Pack.
From S2P Require Import RuleApi.
#[local] Open Scope Z_scope.
From S2P Require Import Registry.
From S2P Require Import Decision.
From S2P Require Import State.
From S2P Require Import Pipeline.
From S2P Require Import EventStore.
From S2P Require Import Samples.
From S2P Require Import PipelineSamples.
From S2P Require Import Lifecycle.
From S2P Require Import PipelineFacts.

(** ** The store as one stream *)

Section Stream.
Context `{DecimalOps} `{ChronoOps}.

(** The store after the events of [stream] were appended in order. *)
Definition store_of (stream : list DomainEvent) : InMemoryEventStore :=
  fold_left InMemoryEventStore_append stream InMemoryEventStore_new.

Definition of_account (id : AccountId) (e : DomainEvent) : bool :=
  bool_decide (de_account_id e = id).

Lemma all_append s e id :
  InMemoryEventStore_all (InMemoryEventStore_append s e) id
  = InMemoryEventStore_all s id ++ (if of_account id e then [e] else []).
Proof.
  unfold InMemoryEventStore_all, InMemoryEventStore_append, of_account. simpl.
  destruct (decide (de_account_id e = id)) as [<-|Hne].
  - by rewrite lookup_insert_eq, bool_decide_true by done.
  - rewrite lookup_insert_ne, bool_decide_false by done. by rewrite app_nil_r.
Qed.

Lemma all_store_of stream id :
  InMemoryEventStore_all (store_of stream) id = List.filter (of_account id) stream.
Proof.
  unfold store_of. induction stream as [|e l IH] using rev_ind; [reflexivity|].
  rewrite fold_left_app, List.filter_app. simpl. by rewrite all_append, IH.
Qed.

(** The store refines one stream with a filter.  After any events were
    appended, [all] returns the events of the account in the order of the
    appends, whatever the other accounts did, and [recent] the longest suffix
    of them of at most [n] events. *)
Theorem store_refines_stream stream id n :
  let mine := List.filter (of_account id) stream in
  InMemoryEventStore_all (store_of stream) id = mine
  ∧ (∃ older, mine = older ++ InMemoryEventStore_recent (store_of stream) id n
      ∧ length (InMemoryEventStore_recent (store_of stream) id n) = (n `min` length mine)%nat).
Proof.
  intros mine. split; [apply all_store_of|].
  unfold InMemoryEventStore_recent. rewrite all_store_of. fold mine.
  destruct (Nat.ltb_spec n (length mine)).
  - exists (take (length mine - n) mine). rewrite take_drop. split; [done|].
    rewrite length_drop. lia.
  - exists []. split; [done|lia].
Qed.

End Stream.

(** ** Replay *)

Section Replay.
Context `{DecimalOps} `{ChronoOps} `{!JsonOps}.
Implicit Types a : Account.

(** Events whose replay moves no money and does not restart the account. *)
Definition money_neutral (e : DomainEvent) : bool :=
  match de_kind e with
  | EvAccountStarted _ | EvTradeFilled _ | EvAccountSnapshotted _ | EvPayoutApproved _ _ => false
  | _ => true
  end.

Record same_money (a a' : Account) : Prop := mkSameMoney {
  sm_balance : acc_balance a' = acc_balance a;
  sm_total : acc_total_realized_pnl a' = acc_total_realized_pnl a;
}.

#[export] Instance same_money_pre : PreOrder same_money.
Proof. split; [by split|]. intros ??? [] []. split; congruence. Qed.

Lemma replay_neutral id a e :
  money_neutral e = true → ∃ a', replay_event id a e = Ret a' ∧ same_money a a'.
Proof.
  unfold money_neutral, replay_event, replay_position_opened. intros He.
  destruct (de_kind e); try discriminate; (eexists; split; [reflexivity|]);
    repeat case_match; done.
Qed.

Lemma replay_neutral_all id evs a :
  forallb money_neutral evs = true → ∃ a', foldM (replay_event id) a evs = Ret a' ∧ same_money a a'.
Proof.
  revert a. induction evs as [|e evs IH]; intros a He; simpl in *; [by exists a|].
  apply andb_true_iff in He as [He Hevs].
  destruct (replay_neutral id a e He) as (a1 & -> & M1). simpl.
  destruct (IH a1 Hevs) as (a2 & E2 & M2). exists a2. split; [done|by etrans].
Qed.

Lemma foldM_app {A S} (f : S → A → outcome S) l l' s :
  foldM f s (l ++ l') = let! s' := foldM f s l in foldM f s' l'.
Proof.
  revert s. induction l as [|x l IH]; intros s; simpl; [done|].
  destruct (f s x); simpl; auto.
Qed.

(** *** What one call of the pipeline emits *)

Lemma decision_money a d at_ actor a' evs :
  apply_decision a d at_ actor = Ret (a', evs) → same_money a a' ∧ forallb money_neutral evs = true.
Proof.
  unfold apply_decision. intros E.
  destruct (decision_target_step a d at_) as [a1 ev1] eqn:E1.
  apply bind_Ret_inv in E as ([a2 ev2] & E2 & E). apply bind_Ret_inv in E as ([a3 ev3] & E3 & E).
  injection E as <- <-. rewrite !forallb_app.
  assert (same_money a a1 ∧ forallb money_neutral ev1 = true) as [M1 ->].
  { unfold decision_target_step, AccountState_mark_target_reached in E1.
    repeat (case_match; simplify_eq/=); done. }
  assert (same_money a1 a2 ∧ forallb money_neutral ev2 = true) as [M2 ->].
  { unfold decision_promotion_step, AccountState_upgrade_phase in E2.
    case_if_in E2; [|monad_inv; done]. monad_inv.
    destruct (plan_phase (acc_plan a1)); simplify_eq/=; done. }
  assert (same_money a2 a3 ∧ forallb money_neutral ev3 = true) as [M3 ->].
  { unfold decision_terminate_step in E3.
    destruct (Decision_account_status_target d) as [s|]; [|simplify_eq/=; done].
    destruct (dec_kind d); monad_inv; destruct (bool_decide (s = StFailed) || _); done. }
  split; [|done]. by etrans; [|etrans].
Qed.

Lemma rollover_money fuel env ev a a' evs :
  auto_rollover fuel env ev a = Ret (a', evs) → same_money a a' ∧ forallb money_neutral evs = true.
Proof.
  intros E. split.
  { apply auto_rollover_core in E as []. by split. }
  unfold auto_rollover in E. destruct (is_day_rollover ev); [by simplify_eq/=|].
  monad_inv. case_match; monad_inv; done.
Qed.

(** The events of one call: those of the rollover, of the event itself, and
    a rest that moves no money. *)
Lemma process_events fuel pl env a ev res :
  process fuel pl env a ev = Ret res →
  ∃ a1 er ap rest,
    auto_rollover fuel env ev a = Ret (a1, er) ∧ apply_event pl env a1 ev = Ret ap
    ∧ pr_events res = er ++ ae_events ap ++ rest ∧ forallb money_neutral rest = true
    ∧ same_money (ae_state ap) (pr_account res).
Proof.
  unfold process. intros E.
  apply bind_Ret_inv in E as ([a1 er] & Hr & E). apply bind_Ret_inv in E as (ap & Ha & E).
  apply bind_Ret_inv in E as (result & _ & E). apply bind_Ret_inv in E as ([a2 ed] & Hd & E).
  apply bind_Ret_inv in E as (snap & _ & E). apply bind_Ret_inv in E as (u & _ & E).
  injection E as <-. cbn [pr_events pr_account].
  apply decision_money in Hd as [Hd Hev]. eexists a1, er, ap, _.
  split_and!; [done|done|reflexivity|..].
  - rewrite !forallb_app, Hev, andb_true_l. apply andb_true_iff. split.
    + unfold emit_decision_event. by destruct (dec_kind (er_decision result)).
    + apply forallb_forall. by intros e (v & <- & _)%in_map_iff.
  - destruct (ae_trade_fill ap) as [[? ?]|], ev; by destruct Hd.
Qed.

(** The events a log of trading is made of: all but a broker tick, which
    sets the balance and records only the equity, a second start, and an
    approved payout. *)
Definition trading_event (ev : PipelineEvent) : bool :=
  match ev with
  | PeTick _ _ _ | PeAccountStarted _ | PePayoutApprove => false
  | _ => true
  end.

Lemma event_money env ops a ev s kind fill evs :
  apply_event_state env ops a ev = Ret (s, kind, fill, evs) →
  trading_event ev = true → is_fill ev = false →
  same_money a s ∧ forallb money_neutral evs = true.
Proof.
  intros E Hev Hf. destruct ev; simpl in E; try done; monad_inv; try done.
  - match goal with H : AccountState_rollover_day _ _ _ _ = Ret _ |- _ =>
      apply rollover_core in H as [] end. done.
  - unfold AccountState_emergency_stop. by destruct (acc_status_before_breach a).
  - case_if_in E; [done|]. monad_inv. unfold AccountState_clear_breach in *.
    destruct (acc_status a); monad_inv; done.
  - unfold AccountState_mark_payout_pending in *.
    destruct (acc_status a); monad_inv; simpl; repeat case_match; done.
Qed.

(** A fill and its event move the same money. *)
Lemma fill_money id env ops a b trade s kind fill evs :
  apply_event_state env ops a (PeTradeFilled trade) = Ret (s, kind, fill, evs) →
  same_money a b → ∃ b', foldM (replay_event id) b evs = Ret b' ∧ same_money s b'.
Proof.
  intros E [Hb Ht]. simpl in E. apply bind_Ret_inv in E as (s1 & Hp & E).
  apply bind_Ret_inv in E as (position & _ & E). injection E as <- _ _ <-.
  unfold AccountState_apply_realized_pnl in Hp. monad_inv.
  unfold replay_event, Trade_net_pnl. simpl.
  rewrite Hb, Ht.
  unfold raise_peak_balance, AccountState_mark_active_trading_day in *.
  repeat match goal with
  | H : dsub _ _ = Ret _ |- _ => rewrite H; clear H; simpl
  | H : dadd (acc_balance a) _ = Ret _ |- _ => rewrite H; clear H; simpl
  end.
  match goal with H : dadd (acc_total_realized_pnl (if _ then _ else _)) _ = Ret ?t |- _ =>
    assert (Etot : dadd (acc_total_realized_pnl a) x0 = Ret t)
      by (rewrite <- H; by destruct (dec_gtb _ _))
  end.
  rewrite Etot. simpl. eexists. split; [reflexivity|].
  by repeat case_match.
Qed.

(** An account from its creation on, with the events its calls emitted. *)
Inductive trading (pl : Pipeline) (id : AccountId) : Account → list DomainEvent → Prop :=
| tr_start fuel env tenant plan at_ res :
    process fuel pl env (Account_new id tenant plan) (PeAccountStarted at_) = Ret res →
    trading pl id (pr_account res) (pr_events res)
| tr_step fuel env a log ev res :
    trading pl id a log → trading_event ev = true →
    process fuel pl env a ev = Ret res →
    trading pl id (pr_account res) (log ++ pr_events res).

(** The first account of a replay. *)
Definition replay_seed (tenant : TenantId) (id : AccountId) (log : list DomainEvent)
    : outcome Account :=
  match log with
  | e :: _ => match de_kind e with
              | EvAccountStarted plan => Ret (Account_new id tenant plan)
              | _ => Err (NotFound "no AccountStarted event for account {id}")
              end
  | [] => Err (NotFound "no AccountStarted event for account {id}")
  end.

Lemma Account_start_tenant id t t' plan trades at_ a :
  Account_start ((Account_new id t plan) <| acc_today_trades := trades |>) at_ = Ret a →
  ∃ b, Account_start (Account_new id t' plan) at_ = Ret b ∧ same_money a b.
Proof.
  unfold Account_start. simpl. intros E. monad_inv.
  match goal with H : ChallengePlan_trading_day_start _ _ = Ret _ |- _ => rewrite H end. simpl.
  destruct (plan_time_limit_days plan); monad_inv.
  2: { by eexists; split; [reflexivity|]. }
  repeat match goal with H : _ = Some _ |- _ => rewrite H; clear H; simpl end.
  by eexists; split; [reflexivity|].
Qed.

Lemma trading_replays pl id tenant a log :
  trading pl id a log →
  ∃ seed b, replay_seed tenant id log = Ret seed ∧ foldM (replay_event id) seed log = Ret b
    ∧ same_money a b.
Proof.
  induction 1 as [fuel env t plan at_ res Hrun|fuel env a log ev res _ IH Hev Hrun].
  - apply process_events in Hrun as (a1 & er & ap & rest & Hroll & Happly & -> & Hn & Hm).
    apply auto_rollover_no_day in Hroll as [= -> ->]; [|done].
    apply apply_event_inv in Happly as (trades & kind & evs & Hst & _ & _ & _ & ->).
    simpl in Hst. apply bind_Ret_inv in Hst as (s & Hs & Hst). injection Hst as Es _ _ <-.
    rewrite <- Es in Hm. apply (Account_start_tenant id t tenant plan trades at_) in Hs as (b & Hb & Mb).
    destruct (replay_neutral_all id rest b Hn) as (b' & E' & M').
    simpl. exists (Account_new id tenant plan), b'. split; [reflexivity|].
    unfold replay_event at 1. simpl. rewrite Hb. simpl. split; [exact E'|].
    destruct Hm, Mb, M'. split; congruence.
  - destruct IH as (seed & b & Hseed & Hb & Mb). exists seed.
    apply process_events in Hrun as (a1 & er & ap & rest & Hroll & Happly & -> & Hn & Hm).
    apply rollover_money in Hroll as [Ma1 Her].
    apply apply_event_inv in Happly as (trades & kind & evs & Hst & _ & _ & _ & ->).
    rewrite foldM_app, Hb. simpl. rewrite foldM_app.
    destruct (replay_neutral_all id er b Her) as (b1 & -> & M1). simpl.
    assert (∃ b2, foldM (replay_event id) b1 evs = Ret b2 ∧ same_money (ae_state ap) b2)
      as (b2 & E2 & M2).
    { assert (Mb1 : same_money (a1 <| acc_today_trades := trades |>) b1)
        by (destruct Ma1, Mb, M1; split; simpl; congruence).
      destruct (is_fill ev) eqn:Hf.
      - destruct ev; try done. by eapply fill_money.
      - apply event_money in Hst as [Ms He]; [|done..].
        destruct (replay_neutral_all id evs b1 He) as (b2 & E2 & M2). exists b2. split; [done|].
        destruct Ms, Mb1, M2. split; congruence. }
    rewrite foldM_app, E2. simpl.
    destruct (replay_neutral_all id rest b2 Hn) as (b3 & E3 & M3). exists b3.
    split; [by destruct log|]. split; [done|]. destruct Hm, M2, M3. split; congruence.
Qed.

(** C29: replaying a trading log recovers the money.  For an account that was
    started and then processed any events other than broker ticks, payout
    approvals and further starts, the log of its emitted events, mixed in any
    way with those of other accounts, replays without an error to an account
    with the same balance and the same realised result. *)
Theorem replay_recovers_balance pl id tenant a log stream
    (Hlog : trading pl id a log) (Hstream : List.filter (of_account id) stream = log) :
  ∃ b, InMemoryEventStore_replay (store_of stream) tenant id = Ret b
    ∧ acc_balance b = acc_balance a
    ∧ acc_total_realized_pnl b = acc_total_realized_pnl a.
Proof.
  destruct (trading_replays pl id tenant a log Hlog) as (seed & b & Hseed & Hb & Mb).
  exists b. unfold InMemoryEventStore_replay. rewrite all_store_of, Hstream.
  split; [|by destruct Mb]. unfold replay_seed in Hseed. rewrite Hseed. exact Hb.
Qed.

End Replay.

(** ** Witnesses *)

Import Samples PipelineSamples.

(** A purchase that costs a commission of three. *)
Definition costly_entry : Trade := entry <| tr_commission := money 3 |>.

Definition foreign_event : DomainEvent := DomainEvent_new 8 (EvTickEvaluated (money 5)) noon.

(** The log of a started account with one fill, next to another account's
    event. *)
Lemma replay_recovers_balance_witness :
  ∃ r1 r2 b,
    process 40 pl (env_at noon) (Account_new 7 9 plan) (PeAccountStarted noon) = Ret r1
    ∧ process 40 pl (env_at noon) (pr_account r1) (PeTradeFilled costly_entry) = Ret r2
    ∧ InMemoryEventStore_replay
        (store_of (foreign_event :: pr_events r1 ++ pr_events r2)) 9 7 = Ret b
    ∧ acc_balance b = acc_balance (pr_account r2).
Proof.
  assert (Hids :
    match process 40 pl (env_at noon) (Account_new 7 9 plan) (PeAccountStarted noon) with
    | Ret r1 =>
        match process 40 pl (env_at noon) (pr_account r1) (PeTradeFilled costly_entry) with
        | Ret r2 => forallb (of_account 7) (pr_events r1 ++ pr_events r2)
        | _ => false
        end
    | _ => false
    end = true) by (vm_compute; reflexivity).
  destruct (process 40 pl (env_at noon) (Account_new 7 9 plan) (PeAccountStarted noon))
    as [r1|?| |] eqn:H1; [|discriminate Hids..].
  destruct (process 40 pl (env_at noon) (pr_account r1) (PeTradeFilled costly_entry))
    as [r2|?| |] eqn:H2; [|discriminate Hids..].
  pose proof (tr_step pl 7 40 (env_at noon) _ _ (PeTradeFilled costly_entry) r2
    (tr_start pl 7 40 (env_at noon) 9 plan noon r1 H1) eq_refl H2) as Hlog.
  assert (Hf : List.filter (of_account 7) (foreign_event :: pr_events r1 ++ pr_events r2)
               = pr_events r1 ++ pr_events r2).
  { cbn [List.filter]. replace (of_account 7 foreign_event) with false by reflexivity.
    apply filter_all_kept. rewrite forallb_forall in Hids.
    intros e He%list_elem_of_In. by apply Hids. }
  destruct (replay_recovers_balance pl 7 9 (pr_account r2) _ _ Hlog Hf) as (b & Hb & Hbal & _).
  exists r1, r2, b. split; [reflexivity|]. split; [exact H2|]. split; [exact Hb|exact Hbal].
Defined.

(** ** Where replay and the engine disagree *)

(** The status of an account after one event, and of the replay of the log
    of both calls. *)
Definition status_and_replay (t : Timestamp) (ev : PipelineEvent)
    : outcome (AccountStatus * AccountStatus) :=
  let! r1 := process 40 pl (env_at noon) (Account_new 7 9 plan) (PeAccountStarted noon) in
  let! r2 := process 40 pl (env_at t) (pr_account r1) ev in
  let! b := InMemoryEventStore_replay (store_of (pr_events r1 ++ pr_events r2)) 9 7 in
  Ret (acc_status (pr_account r2), acc_status b).

(** Replay does not rebuild the status.  A healthy default account that
    was started and evaluated once on demand is active in the engine and
    replays as failed, because a drawdown rule that only flags a gap in its
    data records the same kind of violation as a breach; the account that
    misses its target by the deadline is failed by the engine and replays as
    passed; an emergency stop replays as failed. *)
Theorem replay_status_diverges :
  status_and_replay noon PeOnDemand = Ret (StActive, StFailed)
  ∧ status_and_replay (noon + 31 * ns_day) PeOnDemand = Ret (StFailed, StPassed)
  ∧ status_and_replay noon (PeEmergencyStop "r" "ops" noon) = Ret (StEmergencyStopped, StFailed).
Proof. split_and!; vm_compute; reflexivity. Qed.
