(* ===== verification/IdempotencyFacts.v ===== *)
(** * Theorems on idempotency keys

    The store is bounded and its two containers agree; a key replays its
    first response until it expires or is pushed out; tenants do not see each
    other's keys. *)

From S2P Require Import Prelude.
From S2P Require Import Ids.
From S2P Require Import Hashing.
From S2P Require Import Idempotency.
From S2P Require Import ApiSamples.
From Stdlib Require Import Ascii.
#[local] Open Scope Z_scope.

(** ** The containers *)

(** The order lists the keys of the map, once each. *)
Record inner_ok (i : Inner) : Prop := mkInnerOk {
  io_nodup : NoDup (in_order i);
  io_keys k : k ∈ in_order i ↔ is_Some (in_entries i !! k);
}.

Lemma retain_not_elem k x order : x ∈ retain_not k order ↔ x ∈ order ∧ x ≠ k.
Proof.
  unfold retain_not. rewrite !list_elem_of_In, filter_In, negb_true_iff, bool_decide_eq_false.
  done.
Qed.

Lemma retain_not_NoDup k order : NoDup order → NoDup (retain_not k order).
Proof. intros. unfold retain_not. by apply NoDup_ListNoDup, List.NoDup_filter, NoDup_ListNoDup. Qed.

Lemma remove_key_ok i k : inner_ok i → inner_ok (remove_key i k).
Proof.
  intros [Hnd Hk]. split; simpl; [by apply retain_not_NoDup|]. intros x.
  rewrite retain_not_elem, Hk, lookup_delete_is_Some. naive_solver.
Qed.

Lemma remove_keys_ok ks i : inner_ok i → inner_ok (fold_left remove_key ks i).
Proof. revert i. induction ks; simpl; eauto using remove_key_ok. Qed.

Lemma remove_keys_lookup ks i k :
  in_entries (fold_left remove_key ks i) !! k
  = if bool_decide (k ∈ ks) then None else in_entries i !! k.
Proof.
  revert i. induction ks as [|x ks IH]; intros i; simpl; [done|]. rewrite IH. simpl.
  destruct (decide (x = k)) as [->|Hne].
  - rewrite lookup_delete_eq, (bool_decide_true (k ∈ k :: ks)) by left. by case_bool_decide.
  - rewrite lookup_delete_ne by done. repeat case_bool_decide; set_solver.
Qed.

Lemma prune_ok now ttl i : inner_ok i → inner_ok (prune now ttl i).
Proof. apply remove_keys_ok. Qed.

Lemma prune_lookup now ttl i k :
  in_entries (prune now ttl i) !! k
  = match in_entries i !! k with
    | Some e => if is_expired now ttl e then None else Some e
    | None => None
    end.
Proof.
  unfold prune. rewrite remove_keys_lookup. set (ks := fst <$> _).
  assert (Hks : k ∈ ks ↔ ∃ e, in_entries i !! k = Some e ∧ is_expired now ttl e = true).
  { subst ks. rewrite list_elem_of_fmap. split.
    - intros ([k' e] & -> & He). rewrite list_elem_of_In, filter_In, <- list_elem_of_In in He.
      destruct He as [Hin Hx]. apply elem_of_map_to_list in Hin. by exists e.
    - intros (e & Hl & Hx). exists (k, e). split; [done|].
      rewrite list_elem_of_In, filter_In, <- list_elem_of_In. split; [|done].
      by apply elem_of_map_to_list. }
  destruct (in_entries i !! k) as [e|] eqn:E; [|by case_bool_decide].
  destruct (is_expired now ttl e) eqn:Ex.
  - rewrite bool_decide_true; [done|]. apply Hks. by exists e.
  - rewrite bool_decide_false; [done|]. rewrite Hks. intros (e' & ? & ?). congruence.
Qed.

(** Pruning leaves a sublist of the order. *)
Lemma retain_not_app k l l' : retain_not k (l ++ l') = retain_not k l ++ retain_not k l'.
Proof. unfold retain_not. apply List.filter_app. Qed.

Lemma evict_spec capacity entries order :
  inner_ok (mkInner entries order) →
  let r := evict capacity entries order in
  in_order r = drop (length order - capacity) order
  ∧ inner_ok r
  ∧ ∀ k, k ∈ in_order r → in_entries r !! k = entries !! k.
Proof.
  revert entries. induction order as [|x order IH]; intros entries Hok; [by destruct capacity|].
  simpl. destruct (Nat.ltb_spec capacity (S (length order))) as [Hlt|Hge].
  - destruct Hok as [Hnd Hk]. simpl in *. apply NoDup_cons in Hnd as [Hx Hnd].
    destruct (IH (delete x entries)) as (E & Hok & Hl).
    { split; simpl; [done|]. intros k. specialize (Hk k). rewrite elem_of_cons in Hk.
      rewrite lookup_delete_is_Some, <- Hk. split; [|naive_solver].
      intros Hin. split; [by intros ->|by right]. }
    replace (S (length order) - capacity)%nat with (S (length order - capacity)) by lia.
    split_and!; [done|done|]. intros k Hin. rewrite Hl by done.
    apply lookup_delete_ne. intros ->. rewrite E in Hin.
    apply Hx. rewrite <- (take_drop (length order - capacity) order). set_solver.
  - replace (S (length order) - capacity)%nat with 0%nat by lia. done.
Qed.

Lemma insert_entry_spec capacity i ckey e :
  inner_ok i →
  let r := insert_entry capacity i ckey e in
  let order := retain_not ckey (in_order i) ++ [ckey] in
  in_order r = drop (length order - capacity) order
  ∧ inner_ok r ∧ (length (in_order r) ≤ capacity)%nat
  ∧ ∀ k, k ∈ in_order r → in_entries r !! k = if bool_decide (k = ckey) then Some e else in_entries i !! k.
Proof.
  intros [Hnd Hk] r order. subst r. unfold insert_entry. fold order.
  destruct (evict_spec capacity (<[ckey := e]> (in_entries i)) order) as (E & Hok & Hl).
  { split; simpl.
    - subst order. apply NoDup_app. split_and!; [by apply retain_not_NoDup| |apply NoDup_singleton].
      intros x Hx. apply retain_not_elem in Hx. set_solver.
    - intros k. subst order. rewrite elem_of_app, retain_not_elem, Hk, list_elem_of_singleton.
      rewrite lookup_insert_is_Some. destruct (decide (k = ckey)); naive_solver. }
  split_and!; [done|done|rewrite E, length_drop; lia|].
  intros k Hin. rewrite Hl by done. case_bool_decide; subst;
    [apply lookup_insert_eq|by apply lookup_insert_ne].
Qed.

(** ** Operations *)

Section Operations.
Context `{Sha256Ops} `{UuidOps}.

Definition store_ok (s : IdempotencyStore) : Prop :=
  inner_ok (is_inner s) ∧ (length (in_order (is_inner s)) ≤ is_capacity s)%nat.

Inductive StoreOp : Type :=
| OpCheck (now : Z) (tenant : TenantId) (endpoint key body : string)
| OpRemember (now : Z) (tenant : TenantId) (endpoint key body response : string)
| OpCheckAndRemember (now_prune now_insert : Z) (tenant : TenantId)
    (endpoint key body response : string)
| OpLen (now : Z).

Definition run_op (s : IdempotencyStore) (op : StoreOp) : IdempotencyStore :=
  match op with
  | OpCheck now t e k b => snd (check now s t e k b)
  | OpRemember now t e k b r => snd (remember now s t e k b r)
  | OpCheckAndRemember np ni t e k b r => snd (check_and_remember np ni s t e k b r)
  | OpLen now => snd (store_len now s)
  end.

Lemma remove_keys_length ks i :
  (length (in_order (fold_left remove_key ks i)) ≤ length (in_order i))%nat.
Proof.
  revert i. induction ks as [|k ks IH]; intros i; simpl; [done|].
  etrans; [apply IH|]. apply filter_length_le.
Qed.

Lemma pruned_ok now s : store_ok s → store_ok (with_inner s (prune now (is_ttl s) (is_inner s))).
Proof.
  intros [Hok Hlen]. split; simpl; [by apply prune_ok|].
  etrans; [apply remove_keys_length|done].
Qed.

Lemma inserted_ok s i ckey e :
  inner_ok i → store_ok (with_inner s (insert_entry (is_capacity s) i ckey e)).
Proof.
  intros Hok. destruct (insert_entry_spec (is_capacity s) i ckey e Hok) as (_ & ? & ? & _).
  by split.
Qed.

Lemma run_op_ok s op : store_ok s → store_ok (run_op s op).
Proof.
  intros Hs. destruct op; simpl.
  - by apply pruned_ok.
  - apply inserted_ok. apply Hs.
  - unfold check_and_remember. destruct (in_entries _ !! _); simpl; [by apply pruned_ok|].
    apply inserted_ok. by apply prune_ok, Hs.
  - by apply pruned_ok.
Qed.

Lemma new_store_ok capacity ttl : store_ok (IdempotencyStore_new capacity ttl).
Proof.
  split; simpl; [|lia]. split; simpl; [constructor|]. intros k. rewrite lookup_empty.
  split; [set_solver|by intros [? ?]].
Qed.

(** C37: the store stays bounded and consistent.  After any operations, from
    an empty store of any capacity and time to live, the order lists exactly
    the keys of the map, each once, and both have at most [capacity]
    entries. *)
Theorem store_bounded capacity ttl ops :
  let i := is_inner (fold_left run_op ops (IdempotencyStore_new capacity ttl)) in
  inner_ok i ∧ (length (in_order i) ≤ capacity)%nat ∧ (size (in_entries i) ≤ capacity)%nat.
Proof.
  assert (Hcap : ∀ s, is_capacity (fold_left run_op ops s) = is_capacity s
                     ∧ (store_ok s → store_ok (fold_left run_op ops s))).
  { induction ops as [|op ops IH]; intros s; simpl; [done|].
    destruct (IH (run_op s op)) as [-> Hok]. split; [|eauto using run_op_ok].
    destruct op; simpl; try done. unfold check_and_remember. by destruct (in_entries _ !! _). }
  destruct (Hcap (IdempotencyStore_new capacity ttl)) as [Ec Hok].
  specialize (Hok (new_store_ok _ _)) as [Hok Hlen]. rewrite Ec in Hlen. simpl in Hlen.
  intros i. subst i. split_and!; [done|done|].
  set (i := is_inner _) in *.
  assert (E : size (in_entries i) = length (in_order i)); [|lia].
  rewrite <- size_dom, <- (size_list_to_set (C := gset string)) by apply Hok.
  f_equal. apply leibniz_equiv. intros k. rewrite elem_of_dom, elem_of_list_to_set.
  symmetry. apply (io_keys i Hok).
Qed.

(** The override is the trait's default, in one critical section. *)
Lemma override_is_default np ni s t e k b r :
  check_and_remember np ni s t e k b r = default_check_and_remember np ni s t e k b r.
Proof.
  unfold check_and_remember, default_check_and_remember, check, check_key, lookup_outcome.
  destruct (in_entries _ !! _) as [entry|]; simpl; [|done]. by case_bool_decide.
Qed.

(** ** At most once *)

(** [ckey] is stored with entry [en], with at most [n] younger keys. *)
Definition held (s : IdempotencyStore) (ckey : string) (en : Entry) (n : nat) : Prop :=
  inner_ok (is_inner s) ∧ in_entries (is_inner s) !! ckey = Some en
  ∧ ∃ older newer, in_order (is_inner s) = older ++ ckey :: newer ∧ (length newer ≤ n)%nat.

Lemma retain_not_split k ckey older newer :
  k ≠ ckey → retain_not k (older ++ ckey :: newer) = retain_not k older ++ ckey :: retain_not k newer.
Proof.
  intros Hne. rewrite retain_not_app. unfold retain_not at 2. simpl.
  by rewrite bool_decide_false by done.
Qed.

Lemma remove_keys_split ks i ckey older newer :
  ckey ∉ ks → in_order i = older ++ ckey :: newer →
  ∃ older' newer', in_order (fold_left remove_key ks i) = older' ++ ckey :: newer'
    ∧ (length newer' ≤ length newer)%nat.
Proof.
  revert i older newer. induction ks as [|k ks IH]; intros i older newer Hn E; simpl.
  { by exists older, newer. }
  destruct (IH (remove_key i k) (retain_not k older) (retain_not k newer)) as (o & n & E' & Hl).
  { set_solver. }
  { simpl. rewrite E. apply retain_not_split. set_solver. }
  exists o, n. split; [done|]. etrans; [done|apply filter_length_le].
Qed.

Lemma held_prune s ckey en n now :
  held s ckey en n → is_expired now (is_ttl s) en = false →
  held (with_inner s (prune now (is_ttl s) (is_inner s))) ckey en n.
Proof.
  intros (Hok & Hl & older & newer & E & Hn) Hx.
  assert (Hp : in_entries (prune now (is_ttl s) (is_inner s)) !! ckey = Some en)
    by by rewrite prune_lookup, Hl, Hx.
  split_and!; simpl; [by apply prune_ok|done|].
  unfold prune in *. rewrite remove_keys_lookup in Hp. case_bool_decide as Hin; [done|].
  destruct (remove_keys_split _ _ _ _ _ Hin E) as (o & n' & E' & Hl').
  exists o, n'. split; [done|lia].
Qed.

Lemma held_insert s ckey en n k e :
  held s ckey en n → k ≠ ckey → (S n < is_capacity s)%nat →
  held (with_inner s (insert_entry (is_capacity s) (is_inner s) k e)) ckey en (S n).
Proof.
  intros (Hok & Hl & older & newer & E & Hn) Hne Hcap.
  destruct (insert_entry_spec (is_capacity s) (is_inner s) k e Hok) as (Eo & Hok' & _ & Hget).
  rewrite E, retain_not_split in Eo by done. rewrite <- app_assoc in Eo. simpl in Eo.
  set (o := retain_not k older) in *. set (nw := retain_not k newer ++ [k]) in *.
  assert (Hnw : (length nw ≤ S n)%nat).
  { subst nw. rewrite length_app. simpl.
    pose proof (filter_length_le (fun o => negb (bool_decide (o = k))) newer).
    unfold retain_not. lia. }
  rewrite length_app in Eo. simpl in Eo. rewrite drop_app_le in Eo by lia.
  assert (Hin : ckey ∈ in_order (insert_entry (is_capacity s) (is_inner s) k e))
    by (rewrite Eo; set_solver).
  split_and!; simpl; [done| |by eexists _, nw].
  rewrite (Hget ckey Hin), bool_decide_false by done. done.
Qed.

(** A call of [check_and_remember], and a run of them. *)
Record Call := mkCall {
  call_prune : Z; call_insert : Z; call_tenant : TenantId;
  call_endpoint : string; call_key : string; call_body : string; call_response : string;
}.

Definition run_call (s : IdempotencyStore) (c : Call) : IdempotencyOutcome * IdempotencyStore :=
  check_and_remember (call_prune c) (call_insert c) s (call_tenant c) (call_endpoint c)
    (call_key c) (call_body c) (call_response c).

Definition call_ckey (c : Call) : string :=
  composite_key (Some (call_tenant c)) (call_endpoint c) (call_key c).

Fixpoint run_calls (s : IdempotencyStore) (cs : list Call) : list IdempotencyOutcome * IdempotencyStore :=
  match cs with
  | [] => ([], s)
  | c :: cs' =>
      let '(o, s1) := run_call s c in let '(os, s2) := run_calls s1 cs' in (o :: os, s2)
  end.

Definition fresh_count (os : list IdempotencyOutcome) : nat :=
  length (List.filter (fun o => match o with IoFresh => true | _ => false end) os).

Lemma held_mono s ckey en n m : held s ckey en n → (n ≤ m)%nat → held s ckey en m.
Proof. intros (? & ? & o & nw & ? & ?) ?. split_and!; [done..|]. exists o, nw. split; [done|lia]. Qed.

Lemma run_call_settings s c :
  is_capacity (snd (run_call s c)) = is_capacity s ∧ is_ttl (snd (run_call s c)) = is_ttl s.
Proof. unfold run_call, check_and_remember. by destruct (in_entries _ !! _). Qed.

Lemma held_call s ckey en n c :
  held s ckey en n → is_expired (call_prune c) (is_ttl s) en = false →
  (n + fresh_count [fst (run_call s c)] < is_capacity s)%nat →
  held (snd (run_call s c)) ckey en (n + fresh_count [fst (run_call s c)]).
Proof.
  intros Hh Hx. pose proof (held_prune _ _ _ _ _ Hh Hx) as Hp.
  unfold run_call, check_and_remember. fold (call_ckey c).
  destruct (in_entries (prune _ _ _) !! call_ckey c) as [entry|] eqn:El; simpl.
  - intros _. eapply held_mono; [exact Hp|lia].
  - rewrite Nat.add_1_r. intros Hcap.
    assert (call_ckey c ≠ ckey).
    { intros <-. destruct Hp as (_ & Hl & _). simpl in Hl. congruence. }
    by apply (held_insert _ _ _ _ (call_ckey c)
      (mkEntry (hash_body (call_body c)) (call_response c) (call_insert c)) Hp).
Qed.

Lemma fresh_count_cons o os : fresh_count (o :: os) = (fresh_count [o] + fresh_count os)%nat.
Proof. unfold fresh_count. simpl. by destruct o. Qed.

Lemma held_calls cs s ckey en n os s' :
  held s ckey en n → run_calls s cs = (os, s') →
  Forall (fun c => is_expired (call_prune c) (is_ttl s) en = false) cs →
  (n + fresh_count os < is_capacity s)%nat →
  held s' ckey en (n + fresh_count os) ∧ is_ttl s' = is_ttl s ∧ is_capacity s' = is_capacity s.
Proof.
  revert s n os. induction cs as [|c cs IH]; intros s n os Hh Hrun Hx Hcap; simpl in Hrun.
  { injection Hrun as <- <-. by rewrite Nat.add_0_r. }
  apply Forall_cons in Hx as [Hc Hcs].
  pose proof (run_call_settings s c) as [Hcap' Httl]. pose proof (held_call s ckey en n c Hh Hc) as Hstep.
  destruct (run_call s c) as [o s1]. simpl in *.
  destruct (run_calls s1 cs) as [os' s2] eqn:Er. injection Hrun as <- <-.
  rewrite fresh_count_cons in Hcap |- *.
  destruct (IH s1 (n + fresh_count [o])%nat os') as (H1 & H2 & H3).
  { apply Hstep. lia. } { done. } { by rewrite Httl. } { rewrite Hcap'. lia. }
  rewrite Nat.add_assoc. split_and!; [done|congruence..].
Qed.

Lemma key_held_once s c s1 cs os s2 c'
    (Hok : store_ok s) (Hfirst : run_call s c = (IoFresh, s1))
    (Hrun : run_calls s1 cs = (os, s2))
    (Hlive : Forall (fun d => call_prune d - call_insert c ≤ is_ttl s) (c' :: cs))
    (Httl : 0 ≤ is_ttl s) (Hcap : (fresh_count os < is_capacity s)%nat)
    (Hsame : call_ckey c' = call_ckey c) :
  fst (run_call s2 c') = if bool_decide (hash_body (call_body c) = hash_body (call_body c'))
                         then IoReplay (call_response c) else IoConflict.
Proof.
  set (en := mkEntry (hash_body (call_body c)) (call_response c) (call_insert c)).
  assert (Hh : held s1 (call_ckey c) en 0 ∧ is_capacity s1 = is_capacity s ∧ is_ttl s1 = is_ttl s).
  { pose proof (run_call_settings s c) as Hset. rewrite Hfirst in Hset. split; [|exact Hset].
    unfold run_call, check_and_remember in Hfirst. fold (call_ckey c) in Hfirst.
    set (i := prune _ _ _) in *. destruct (in_entries i !! call_ckey c) as [e|]; [by case_bool_decide|].
    injection Hfirst as <-.
    destruct (insert_entry_spec (is_capacity s) i (call_ckey c) en) as (Eo & Hok' & _ & Hget).
    { by apply prune_ok, Hok. }
    rewrite length_app in Eo. simpl in Eo. rewrite drop_app_le in Eo by lia.
    split_and!; simpl; [done| |by eexists _, []].
    rewrite Hget, bool_decide_true; [done..|]. rewrite Eo. set_solver. }
  destruct Hh as (Hh & Ec & Et).
  assert (Hexp : ∀ d, call_prune d - call_insert c ≤ is_ttl s →
                      is_expired (call_prune d) (is_ttl s) en = false).
  { intros d Hd. unfold is_expired, en. simpl. apply Z.ltb_ge. lia. }
  apply Forall_cons in Hlive as [Hc' Hcs].
  destruct (held_calls cs s1 (call_ckey c) en 0 os s2 Hh Hrun) as (Hh2 & Et2 & _).
  { rewrite Et. eapply Forall_impl; [exact Hcs|]. intros d Hd. by apply Hexp. }
  { rewrite Ec. lia. }
  apply (held_prune _ _ _ _ (call_prune c')) in Hh2 as (_ & Hl & _);
    [|rewrite Et2, Et; by apply Hexp].
  unfold run_call, check_and_remember. fold (call_ckey c'). rewrite Hsame. simpl in Hl.
  rewrite Hl. reflexivity.
Qed.

(** A key is executed at most once.  After a call that was fresh, and
    any further calls, of any tenants and keys, of which fewer than the
    capacity were fresh, the same call within the time to live replays the
    first response; with a body of another hash it is a conflict.  Neither
    is ever fresh. *)
Theorem key_executes_once s c s1 cs os s2 c'
    (Hok : store_ok s) (Hfirst : run_call s c = (IoFresh, s1))
    (Hrun : run_calls s1 cs = (os, s2))
    (Hlive : Forall (fun d => call_prune d - call_insert c ≤ is_ttl s) (c' :: cs))
    (Httl : 0 ≤ is_ttl s) (Hcap : (fresh_count os < is_capacity s)%nat)
    (Hsame : call_ckey c' = call_ckey c) :
  fst (run_call s2 c') = if bool_decide (hash_body (call_body c) = hash_body (call_body c'))
                         then IoReplay (call_response c) else IoConflict.
Proof. by eapply key_held_once. Qed.

End Operations.

(** ** Tenants *)

Lemma no_nul_cons c s : no_nul (String c s) → c ≠ zero ∧ no_nul s.
Proof. unfold no_nul. simpl. rewrite not_elem_of_cons. naive_solver. Qed.

(** A part without the separator can be read back. *)
Lemma nul_split a b x y :
  no_nul a → no_nul b → a +:+ nul +:+ x = b +:+ nul +:+ y → a = b ∧ x = y.
Proof.
  revert b. induction a as [|c a IH]; intros [|d b] Ha Hb E; cbn in E.
  - by injection E as E.
  - apply no_nul_cons in Hb as [Hd _]. by injection E as <- _.
  - apply no_nul_cons in Ha as [Hc _]. by injection E as -> _.
  - apply no_nul_cons in Ha as [_ Ha]. apply no_nul_cons in Hb as [_ Hb].
    injection E as -> E. by destruct (IH b Ha Hb E) as [-> ->].
Qed.

Section Tenants.
Context `{Sha256Ops} `{UL : UuidLaws}.

Definition uuid_ok (u : Uuid) : Prop := 0 ≤ u < 2 ^ 128.

Lemma composite_key_inj t e k t' e' k' :
  uuid_ok t → uuid_ok t' → no_nul e → no_nul e' →
  composite_key (Some t) e k = composite_key (Some t') e' k' → t = t' ∧ e = e' ∧ k = k'.
Proof.
  unfold composite_key. intros Ht Ht' He He' E.
  apply nul_split in E as [Et E]; [|apply uuid_display_no_nul..].
  apply nul_split in E as [-> ->]; [|done..].
  apply (f_equal uuid_parse) in Et. rewrite !uuid_parse_display in Et by done.
  by injection Et as ->.
Qed.

Lemma run_call_other s c k :
  store_ok s → call_ckey c ≠ k → in_entries (is_inner s) !! k = None →
  in_entries (is_inner (snd (run_call s c))) !! k = None.
Proof.
  intros [Hok _] Hne Hk. unfold run_call, check_and_remember. fold (call_ckey c).
  assert (Hp : in_entries (prune (call_prune c) (is_ttl s) (is_inner s)) !! k = None)
    by by rewrite prune_lookup, Hk.
  destruct (in_entries (prune _ _ _) !! call_ckey c); simpl; [done|].
  set (i := prune _ _ _) in *.
  destruct (insert_entry_spec (is_capacity s) i (call_ckey c)
    (mkEntry (hash_body (call_body c)) (call_response c) (call_insert c))) as (Eo & Hok' & _).
  { by apply prune_ok. }
  apply eq_None_not_Some. rewrite <- (io_keys _ Hok'), Eo. intros Hin.
  assert (Hin' : k ∈ retain_not (call_ckey c) (in_order i) ++ [call_ckey c]).
  { rewrite <- (take_drop (length (retain_not (call_ckey c) (in_order i) ++ [call_ckey c])
                           - is_capacity s)). set_solver. }
  apply elem_of_app in Hin' as [Hin'|Hin'%list_elem_of_singleton]; [|by subst].
  apply retain_not_elem in Hin' as [Hin' _].
  apply (io_keys i) in Hin' as [? ?]; [congruence|by apply prune_ok].
Qed.

(** C38: tenants are isolated.  A key that is fresh for a tenant stays fresh
    whatever calls other tenants make with it, on endpoints whose names hold
    no NUL character; no response of another tenant is ever replayed. *)
Theorem tenants_isolated s cs t e k b now now'
    (Hok : store_ok s) (Ht : uuid_ok t) (He : no_nul e)
    (Hcs : Forall (fun c => uuid_ok (call_tenant c) ∧ call_tenant c ≠ t ∧ no_nul (call_endpoint c)) cs)
    (Hfresh : in_entries (is_inner s) !! composite_key (Some t) e k = None) :
  fst (check now (snd (run_calls s cs)) t e k b) = IoFresh
  ∧ fst (check now' s t e k b) = IoFresh.
Proof.
  assert (Hnone : ∀ s', in_entries (is_inner s') !! composite_key (Some t) e k = None →
            ∀ now, fst (check now s' t e k b) = IoFresh).
  { intros s' Hs' n. unfold check, check_key, lookup_outcome. cbn [fst].
    by rewrite prune_lookup, Hs'. }
  split; [|by apply Hnone]. apply Hnone. clear Hnone. revert s Hok Hfresh.
  induction Hcs as [|c cs (Hc & Hne & Hce) _ IH]; intros s Hok Hfresh; cbn [run_calls]; [done|].
  pose proof (run_call_other s c (composite_key (Some t) e k) Hok) as Hother.
  pose proof (run_op_ok s (OpCheckAndRemember (call_prune c) (call_insert c) (call_tenant c)
    (call_endpoint c) (call_key c) (call_body c) (call_response c)) Hok) as Hok1.
  change (store_ok (snd (run_call s c))) in Hok1.
  destruct (run_call s c) as [o s1]. cbn [snd] in *.
  specialize (IH s1 Hok1). destruct (run_calls s1 cs) as [os s2]. cbn [snd] in *. apply IH.
  apply Hother; [|done]. intros E. unfold call_ckey in E.
  by apply composite_key_inj in E as (? & _); [|done..].
Qed.

End Tenants.

(** ** Witnesses *)

Import ApiSamples.

Definition sample_call (tenant : TenantId) (key body : string) : Call :=
  mkCall 0 0 tenant endpoint key body "ok".

Lemma key_executes_once_witness :
  ∃ s1 s2,
    run_call (IdempotencyStore_new 3 60) (sample_call 1 "k" "a") = (IoFresh, s1)
    ∧ run_calls s1 [sample_call 2 "k" "a"; sample_call 1 "j" "a"] = ([IoFresh; IoFresh], s2)
    ∧ fst (run_call s2 (sample_call 1 "k" "a")) = IoReplay "ok".
Proof.
  set (s0 := IdempotencyStore_new 3 60).
  assert (H0 : fst (run_call s0 (sample_call 1 "k" "a")) = IoFresh) by (vm_compute; reflexivity).
  destruct (run_call s0 (sample_call 1 "k" "a")) as [o1 s1] eqn:E1. simpl in H0. subst o1.
  assert (H2 : fst (run_calls (snd (run_call s0 (sample_call 1 "k" "a")))
                 [sample_call 2 "k" "a"; sample_call 1 "j" "a"]) = [IoFresh; IoFresh])
    by (vm_compute; reflexivity).
  rewrite E1 in H2. cbn [snd] in H2.
  destruct (run_calls s1 [sample_call 2 "k" "a"; sample_call 1 "j" "a"]) as [os s2] eqn:E2.
  simpl in H2. subst os. exists s1, s2. split; [reflexivity|]. split; [exact E2|].
  refine (key_executes_once s0 (sample_call 1 "k" "a") s1
    [sample_call 2 "k" "a"; sample_call 1 "j" "a"] [IoFresh; IoFresh] s2 (sample_call 1 "k" "a")
    _ E1 E2 _ _ _ eq_refl).
  - apply new_store_ok.
  - repeat constructor; simpl; lia.
  - simpl. lia.
  - simpl. unfold fresh_count. simpl. lia.
Defined.

Lemma tenants_isolated_witness :
  fst (check 0 (snd (run_calls (IdempotencyStore_new 3 60) [sample_call 2 "k" "a"])) 1 endpoint
         "k" "a") = IoFresh.
Proof.
  apply (tenants_isolated (IdempotencyStore_new 3 60) [sample_call 2 "k" "a"] 1 endpoint "k" "a" 0 0).
  - apply new_store_ok.
  - unfold uuid_ok. lia.
  - apply endpoint_no_nul.
  - constructor; [|constructor]. split; [unfold uuid_ok; simpl; lia|].
    split; [simpl; lia|apply endpoint_no_nul].
  - reflexivity.
Defined.
