(* ===== verification/PureFacts.v ===== *)
(** * Theorems on pure evaluation, its hash and the registry cache *)

From S2P Require Import Prelude.
From S2P Require Import Decimal.
From S2P Require Import Chrono.
From S2P Require Import Ids.
From S2P Require Import Domain.
From S2P Require Import Plan.
From S2P Require Import Account.
From S2P Require Import Violation.
From S2P Require Import Pack.
From S2P Require Import RuleApi.
#[local] Open Scope Z_scope.
From S2P Require Import Registry.
From S2P Require Import Decision.
From S2P Require Import State.
From S2P Require Import Pipeline.
From S2P Require Import Hashing.
From S2P Require Import Pure.
From S2P Require Import Samples.
From S2P Require Import PipelineSamples.
From S2P Require Import ApiSamples.
From S2P Require Import RegistryFacts.
From S2P Require Import TargetRules.
From S2P Require Import Lifecycle.
From S2P Require Import PipelineFacts.

#[local] Opaque RuleId_named Sip.hash_bytes.

Section PureFacts.
Context `{HO : HashOps} `{!JsonOps} `{!Sha256Ops}.

(** ** The pipeline wraps pure evaluation *)

(** The inputs with which the pure function sees a broker tick. *)
Definition tick_inputs (ap : AppliedEvent) (tick : Tick) : EvaluateInputs :=
  (EvaluateInputs_with_equity_source
     (EvaluateInputs_for_tick (ae_open_positions ap) (ae_today_trades ap) tick) SrcBrokerReported)
    <| ei_recent_events := ae_recent_events ap |>.

(** C12: a processed tick and the pure function agree.  When the pipeline
    processes a broker tick, the pure function, on the account after the
    tick, with the same positions, trades, recent events and time and with
    the equity declared as the broker's, returns exactly the reports and the
    decision of the pipeline, whatever pack it is given. *)
Theorem pure_agrees_with_pipeline fuel pl env a tick equity balance res pack now
    (Hrun : process fuel pl env a (PeTick tick equity balance) = Ret res) :
  ∃ a1 evs ap v,
    auto_rollover fuel env (PeTick tick equity balance) a = Ret (a1, evs)
    ∧ apply_event pl env a1 (PeTick tick equity balance) = Ret ap
    ∧ evaluate (env_fresh env) now (env_now_reports env) (ae_state ap) pack (pl_registry pl) OnTick
        (env_now_context env) (tick_inputs ap tick) = Ret v
    ∧ EvaluationResult_from v = pr_result res.
Proof.
  apply process_inv in Hrun as (a1 & ap & a2 & [[evs Hroll] Happly Heval _ _]).
  exists a1, evs, ap.
  assert (Hctx : build_context env ap (PeTick tick equity balance)
    = pure_context (ae_state ap) OnTick now (env_now_context env) (tick_inputs ap tick)).
  { apply apply_event_inv in Happly as (trades & kind & evs2 & Hst & _ & _ & Hk & _).
    simpl in Hst. apply bind_Ret_inv in Hst as ([] & _ & Hst). injection Hst as Hs Hkind _ _.
    destruct (tick_state (a1 <| acc_today_trades := trades |>) equity balance) as (Te & Tb & _).
    unfold build_context, pure_context. simpl. rewrite Hk, <- Hkind, <- Hs, Te, Tb. reflexivity. }
  rewrite Hctx in Heval. unfold Evaluator_evaluate in Heval. unfold evaluate.
  apply bind_Ret_inv in Heval as (reports & Hrep & Heval). rewrite Hrep.
  eexists. split_and!; [done|done|reflexivity|]. injection Heval as <-. reflexivity.
Qed.

(** ** What the input hash does not see *)

Lemma evaluate_hash fresh now now_reports a pack r kind t inputs v :
  evaluate fresh now now_reports a pack r kind t inputs = Ret v →
  pv_input_hash v
  = compute_input_hash a pack kind t (ei_open_positions inputs) (ei_today_trades inputs)
      (ei_pending_order inputs) (ei_latest_trade inputs) (ei_latest_tick inputs)
      (ei_cross_reference_trades inputs) (ei_equity_source inputs).
Proof.
  unfold evaluate. intros E. apply bind_Ret_inv in E as (reports & _ & E).
  by injection E as <-.
Qed.

(** The verdict on a tick with broker equity under the plan with daily loss
    type [dlt]. *)
Definition verdict_with (dlt : DailyLossType) (fresh : nat → Fresh) (t : Timestamp) (a : Account)
    (pack : RulePack) (r : RuleRegistry) (tick : Tick) : outcome PureVerdict :=
  evaluate fresh t t (a <| acc_plan := (acc_plan a) <| plan_daily_loss_type := dlt |> |>) pack r
    OnTick t
    (EvaluateInputs_with_equity_source (EvaluateInputs_for_tick [] [] tick) SrcBrokerReported).

Lemma daily_loss_type_unhashed dlt dlt' fresh t a pack r tick v v' :
  verdict_with dlt fresh t a pack r tick = Ret v →
  verdict_with dlt' fresh t a pack r tick = Ret v' → pv_input_hash v = pv_input_hash v'.
Proof.
  intros Hv%evaluate_hash Hv'%evaluate_hash. rewrite Hv, Hv'. reflexivity.
Qed.

(** ** The registry cache *)

(** Every cached registry is the one of a plan with its key, among [seen]. *)
Definition cache_ok (seen : list ChallengePlan) (cache : gmap Z RuleRegistry) : Prop :=
  ∀ k r, cache !! k = Some r →
    ∃ p, p ∈ seen ∧ plan_cache_key p = k ∧ RuleRegistry_with_default_rules_for_plan p = Ret r.

(** The registry of a plan holds the default rules it does not drop. *)
Lemma plan_registry p :
  ∃ r, RuleRegistry_with_default_rules_for_plan p = Ret r
    ∧ reg_rules r = List.filter (fun rule => negb (plan_drops p (rule_id rule))) default_rules.
Proof.
  set (skip := fun rule => plan_drops p (rule_id rule)).
  unfold RuleRegistry_with_default_rules_for_plan.
  rewrite (foldM_filter skip RuleRegistry_register).
  destruct (register_all (List.filter (fun a => negb (skip a)) default_rules) RuleRegistry_empty)
    as (rp & Hr & _ & Erp); [apply reg_wf_empty|apply filter_NoDup_fmap, default_ids_NoDup|].
  exists rp. split; [assumption|]. rewrite Erp. reflexivity.
Qed.

Lemma plan_registry_elem p r rule :
  RuleRegistry_with_default_rules_for_plan p = Ret r → rule ∈ default_rules →
  rule ∈ RuleRegistry_all r ↔ plan_drops p (rule_id rule) = false.
Proof.
  intros Hr Hin. destruct (plan_registry p) as (r' & Hr' & E).
  rewrite Hr in Hr'. injection Hr' as <-. unfold RuleRegistry_all. rewrite E.
  rewrite list_elem_of_In, filter_In, <- list_elem_of_In, negb_true_iff.
  split; [intros [_ Hd]; exact Hd|intros Hd; split; [exact Hin|exact Hd]].
Qed.

Lemma drops_min_profitable p :
  plan_min_profitable_days p = None → plan_drops p (RuleId_named "min_profitable_days") = true.
Proof.
  intros Hn. unfold plan_drops. do 7 (apply orb_true_iff; left). apply orb_true_iff. right.
  apply andb_true_iff. split; [by apply bool_decide_true|]. rewrite Hn. reflexivity.
Qed.

(** The keys do not decide.  Whatever the encodings, a plan that asks
    for a minimum of profitable days has the key of the plan without it, so a
    process that saw the one first uses its registry for the other: the
    limit is then not enforced. *)
Theorem cache_conflates_plans p days r cache
    (Hfirst : get_or_build ∅ p = Ret (r, cache)) :
  let q := p <| plan_min_profitable_days := Some days |> in
  plan_cache_key q = plan_cache_key p
  ∧ get_or_build cache q = Ret (r, cache)
  ∧ ∃ rq rule, RuleRegistry_with_default_rules_for_plan q = Ret rq
      ∧ rule ∈ RuleRegistry_all rq ∧ rule_id rule = RuleId_named "min_profitable_days"
      ∧ (plan_min_profitable_days p = None → rule ∉ RuleRegistry_all r).
Proof.
  intros q. assert (Hkey : plan_cache_key q = plan_cache_key p)
    by (unfold plan_cache_key; apply (f_equal Sip.hash_bytes); reflexivity).
  unfold get_or_build in Hfirst. rewrite lookup_empty in Hfirst.
  apply bind_Ret_inv in Hfirst as (r0 & Hr & E). injection E as <- <-.
  split; [exact Hkey|]. split.
  { unfold get_or_build. rewrite Hkey, lookup_insert_eq. reflexivity. }
  destruct (plan_registry q) as (rq & Hq & _).
  assert (Hin : MinProfitableDaysRule None ∈ default_rules).
  { unfold default_rules. do 5 right. left. }
  exists rq, (MinProfitableDaysRule None). split; [exact Hq|]. split; [|split; [reflexivity|]].
  - apply (plan_registry_elem q rq _ Hq Hin). apply not_true_iff_false. intros Hd.
    apply (plan_drops_key q "min_profitable_days") in Hd.
    2: { unfold default_keys. do 5 right. left. }
    destruct_or! Hd; destruct_and! Hd; discriminate.
  - intros Hnone. rewrite (plan_registry_elem p _ _ Hr Hin), not_false_iff_true.
    exact (drops_min_profitable p Hnone).
Qed.

End PureFacts.

(** ** Witnesses *)

Import Samples PipelineSamples ApiSamples.

(** Encodings for the samples: the digits of numerator and denominator in
    lowest terms with an end mark each, identifiers in sixteen bytes and times
    in eight. *)
Fixpoint pos_digits (p : positive) : list Z :=
  match p with xH => [2] | xO p' => 0 :: pos_digits p' | xI p' => 1 :: pos_digits p' end.

Definition int_digits (z : Z) : list Z :=
  match z with Z0 => [0] | Zpos p => 1 :: pos_digits p | Zneg p => 2 :: pos_digits p end.

#[export] Instance QHash : HashOps := {|
  hash_decimal q := int_digits (Qnum (Qred q)) ++ pos_digits (Qden (Qred q));
  hash_uuid := le_bytes 16;
  hash_timestamp := le_bytes 8;
|}.

Definition sample_pack : RulePack := RulePack_synthetic_from_plan "7" 9 plan noon.

Lemma pure_agrees_with_pipeline_witness :
  ∃ res ap v,
    process 40 pl (env_at noon) account (PeTick (quote_at noon) (money 9900) (money 10000)) = Ret res
    ∧ evaluate (env_fresh (env_at noon)) noon noon (ae_state ap) sample_pack registry OnTick
        noon (tick_inputs ap (quote_at noon)) = Ret v
    ∧ pv_decision v = er_decision (pr_result res).
Proof.
  destruct (is_ret_inv (process 40 pl (env_at noon) account
    (PeTick (quote_at noon) (money 9900) (money 10000)))) as [res Hres]; [vm_compute; reflexivity|].
  destruct (pure_agrees_with_pipeline 40 pl (env_at noon) account (quote_at noon) (money 9900)
    (money 10000) res sample_pack noon Hres) as (a1 & evs & ap & v & _ & _ & Hv & Hr).
  exists res, ap, v. split; [exact Hres|]. split; [exact Hv|]. rewrite <- Hr. reflexivity.
Defined.

Lemma cache_conflates_plans_witness :
  ∃ r cache, get_or_build ∅ plan = Ret (r, cache)
    ∧ get_or_build cache (plan <| plan_min_profitable_days := Some 3 |>) = Ret (r, cache).
Proof.
  destruct (plan_registry plan) as (r & Hr & _).
  assert (Hb : get_or_build ∅ plan = Ret (r, <[plan_cache_key plan := r]> ∅)).
  { unfold get_or_build. rewrite lookup_empty, Hr. reflexivity. }
  exists r, (<[plan_cache_key plan := r]> ∅). split; [exact Hb|].
  exact (proj1 (proj2 (cache_conflates_plans plan 3 r _ Hb))).
Defined.

(** ** Same hash, another verdict *)

(** The verdict on the sample account after a broker equity of 9,400. *)
Definition disputed (dlt : DailyLossType) : outcome PureVerdict :=
  verdict_with dlt (fun _ => fresh) noon (account <| acc_equity := money 9400 |>) sample_pack
    registry (quote_at noon).

(** The input hash does not determine the verdict.  Two evaluations of
    the same account, tick, pack and time that differ in the plan's daily
    loss type have the same input hash, one fails the account and the other
    does not: a recorded hash does not prove which verdict was due. *)
Theorem input_hash_not_decisive :
  ∃ v v', disputed DltPctPriorDay = Ret v ∧ disputed DltNone = Ret v'
    ∧ pv_input_hash v = pv_input_hash v'
    ∧ PureVerdict_is_terminating v = true ∧ PureVerdict_is_terminating v' = false.
Proof.
  assert (H1 : (let! v := disputed DltPctPriorDay in Ret (PureVerdict_is_terminating v)) = Ret true)
    by (vm_compute; reflexivity).
  assert (H2 : (let! v := disputed DltNone in Ret (PureVerdict_is_terminating v)) = Ret false)
    by (vm_compute; reflexivity).
  apply bind_Ret_inv in H1 as (v & Hv & H1). apply bind_Ret_inv in H2 as (v' & Hv' & H2).
  exists v, v'. split_and!; [exact Hv|exact Hv'| |by injection H1|by injection H2].
  unfold disputed in Hv, Hv'. exact (daily_loss_type_unhashed _ _ _ _ _ _ _ _ _ _ Hv Hv').
Qed.
