(* ===== verification/CacheFacts.v ===== *)
(** * The registry cache

    What the key of the cache remembers of a plan and what it forgets, and so
    which rules of a cached registry are those the plan asks for. *)

From S2P Require Import Prelude.
From S2P Require Import Decimal.
From S2P Require Import Chrono.
From S2P Require Import Ids.
From S2P Require Import Plan.
From S2P Require Import Pack.
From S2P Require Import RuleApi.
#[local] Open Scope Z_scope.
From S2P Require Import Registry.
From S2P Require Import Hashing.
From S2P Require Import Pure.
From S2P Require Import Samples.
From S2P Require Import ApiSamples.
From S2P Require Import RegistryFacts.
From S2P Require Import PureFacts.

#[local] Opaque RuleId_named Sip.hash_bytes RuleRegistry_with_default_rules_for_plan default_rules.

(** ** Prefix-free encodings *)

(** Two encodings that start the same bytes end at the same place, and the
    values are related. *)
Definition prefix_free {A} (R : A → A → Prop) (f : A → list Z) : Prop :=
  ∀ a b l l', f a ++ l = f b ++ l' → R a b ∧ l = l'.

(** What [std::hash::Hash] asks of an implementation: unequal values write
    sequences of which neither is a prefix of the other. *)
Class HashLaws `(HO : HashOps) : Prop := {
  hash_decimal_free : prefix_free (fun d d' => (dval d == dval d')%Q) hash_decimal;
}.

Definition any {A} (a b : A) : Prop := True.
Definition same_set {A} (o o' : option A) : Prop := is_Some o ↔ is_Some o'.
Definition equal_mod (m x y : Z) : Prop := x mod m = y mod m.

Lemma le_bytes_length n x : length (le_bytes n x) = n.
Proof. revert x. induction n; intros x; simpl; congruence. Qed.

Lemma le_bytes_inj n x y : le_bytes n x = le_bytes n y → equal_mod (2 ^ (8 * Z.of_nat n)) x y.
Proof.
  unfold equal_mod. revert x y. induction n as [|n IH]; intros x y E.
  { change (2 ^ (8 * Z.of_nat 0)) with 1. by rewrite !Z.mod_1_r. }
  injection E as E1 E2. apply IH in E2.
  change 255 with (Z.ones 8) in E1. rewrite !Z.land_ones, !Z.shiftr_div_pow2 in * by lia.
  replace (8 * Z.of_nat (S n)) with (8 + 8 * Z.of_nat n) by lia.
  rewrite Z.pow_add_r by lia. rewrite !Z.rem_mul_r by lia. congruence.
Qed.

Lemma le_bytes_free n : prefix_free (equal_mod (2 ^ (8 * Z.of_nat n))) (le_bytes n).
Proof.
  intros x y l l' E. apply app_inj_1 in E as [E ->]; [|by rewrite !le_bytes_length].
  split; [by apply le_bytes_inj|done].
Qed.

Lemma hash_bool_free : prefix_free eq hash_bool.
Proof. intros [] [] l l' E; unfold hash_bool in E; simpl in E; by simplify_eq. Qed.

Lemma hash_option_free {A} (R : A → A → Prop) f :
  prefix_free R f → prefix_free same_set (hash_option f).
Proof.
  intros Hf [a|] [b|] l l' E; unfold hash_option, hash_variant in E; rewrite <- ?app_assoc in E.
  - apply le_bytes_free in E as [_ E]. apply Hf in E as [_ ->]. by split.
  - by apply le_bytes_free in E as [E _].
  - by apply le_bytes_free in E as [E _].
  - by apply le_bytes_free in E as [_ ->].
Qed.

Lemma hash_pair_free : prefix_free any (fun '(a, b) => hash_u8 a ++ hash_u8 b).
Proof.
  intros [a b] [a' b'] l l' E. rewrite <- !app_assoc in E.
  apply le_bytes_free in E as [_ E]. by apply le_bytes_free in E as [_ ->].
Qed.

(** ** The key *)

Section Cache.
Context `{HL : HashLaws} `{!JsonOps}.
Implicit Types p q : ChallengePlan.

(** The bytes whose hash is the key. *)
Definition key_bytes p : list Z :=
  plan_bytes p ++ hash_bool (bool_decide (is_Some (plan_payout_config p)))
  ++ hash_bool (plan_refundable p) ++ hash_decimal (plan_refund_fee_amount p).

(** The settings of the opt-in rules that the key holds. *)
Record same_settings p q : Prop := mkSameSettings {
  sk_hft : plan_hft_ban_enabled p = plan_hft_ban_enabled q;
  sk_loss_pct : same_set (plan_per_trade_max_loss_pct p) (plan_per_trade_max_loss_pct q);
  sk_loss_money : same_set (plan_per_trade_max_loss_money p) (plan_per_trade_max_loss_money q);
  sk_inactivity : same_set (plan_inactivity_days p) (plan_inactivity_days q);
  sk_hedging : plan_hedging_allowed p = plan_hedging_allowed q;
  sk_grid : plan_grid_trading_allowed p = plan_grid_trading_allowed q;
  sk_copy : plan_copy_trading_allowed p = plan_copy_trading_allowed q;
  sk_news : plan_news_trading_allowed p = plan_news_trading_allowed q;
  sk_cooldown : equal_mod (2 ^ 64) (plan_cooldown_seconds p) (plan_cooldown_seconds q);
}.

(** Reads the next field off two equal encodings. *)
Ltac next_field E :=
  first [ apply hash_decimal_free in E as [_ E]
        | apply hash_bool_free in E as [? E]
        | apply (hash_option_free _ _ hash_decimal_free) in E as [? E]
        | apply (hash_option_free _ _ (le_bytes_free _)) in E as [? E]
        | apply (hash_option_free _ _ hash_pair_free) in E as [? E]
        | apply le_bytes_free in E as [? E] ].

Lemma key_bytes_settings p q : key_bytes p = key_bytes q → same_settings p q.
Proof.
  unfold key_bytes, plan_bytes. rewrite <- !app_assoc. intros E.
  unfold hash_u8, hash_u32, hash_u64, hash_variant in E. do 32 (next_field E). clear E. split; assumption.
Qed.

(** The rules whose settings the key leaves out. *)
Definition forgotten : list RuleId :=
  RuleId_named <$> ["min_profitable_days"; "cross_account_hedging"; "lowcap_exposure"]%string.

Definition remembered (rule : Rule) : bool := bool_decide (rule_id rule ∉ forgotten).

(** A number of seconds as the code has it. *)
Definition cooldown_u64 p : Prop := 0 ≤ plan_cooldown_seconds p < 2 ^ 64.

Lemma same_drops p q id :
  key_bytes p = key_bytes q → cooldown_u64 p → cooldown_u64 q → id ∉ forgotten →
  plan_drops p id = plan_drops q id.
Proof.
  intros [Hf Ha Hb Hi Hh Hg Hc Hn Hs]%key_bytes_settings Hp Hq Hid.
  unfold equal_mod in Hs. rewrite !Z.mod_small in Hs by done.
  unfold forgotten in Hid. cbn [fmap list_fmap] in Hid. rewrite !not_elem_of_cons in Hid.
  destruct Hid as (Hm & Hx & Hl & _). unfold plan_drops. cbv zeta.
  rewrite (bool_decide_false _ Hm), (bool_decide_false _ Hx), (bool_decide_false _ Hl).
  rewrite Hf, Hh, Hg, Hc, Hn, Hs.
  rewrite (bool_decide_ext _ _ Ha), (bool_decide_ext _ _ Hb), (bool_decide_ext _ _ Hi). reflexivity.
Qed.

(** ** The cache *)

(** The calls of a process, from a cache. *)
Fixpoint build_all (cache : gmap Z RuleRegistry) (plans : list ChallengePlan)
    : outcome (list RuleRegistry) :=
  match plans with
  | [] => Ret []
  | p :: ps =>
      let! (r, cache) := get_or_build cache p in
      let! rs := build_all cache ps in
      Ret (r :: rs)
  end.

(** No two of the plans collide: one key, one sequence of bytes. *)
Definition no_collision (plans : list ChallengePlan) : Prop :=
  ∀ p q, p ∈ plans → q ∈ plans → plan_cache_key p = plan_cache_key q → key_bytes p = key_bytes q.

(** The registry holds the remembered rules of the plan's own, in order. *)
Definition serves p (r : RuleRegistry) : Prop :=
  ∃ own, RuleRegistry_with_default_rules_for_plan p = Ret own
    ∧ List.filter remembered (RuleRegistry_all r) = List.filter remembered (RuleRegistry_all own).

Lemma same_bytes_serve p q r :
  key_bytes p = key_bytes q → cooldown_u64 p → cooldown_u64 q →
  RuleRegistry_with_default_rules_for_plan q = Ret r → serves p r.
Proof.
  intros Hk Hp Hq Hr. destruct (plan_registry p) as (own & Hown & Eown).
  destruct (plan_registry q) as (r' & Hr' & Er). rewrite Hr in Hr'. injection Hr' as <-.
  exists own. split; [done|]. unfold RuleRegistry_all. rewrite Eown, Er.
  clear Hown Eown Hr Er. induction default_rules as [|rule rules IH]; [done|]. cbn [List.filter].
  destruct (remembered rule) eqn:Em.
  - apply bool_decide_eq_true in Em as Hr. rewrite (same_drops p q (rule_id rule) Hk Hp Hq Hr).
    destruct (negb _); cbn [List.filter]; [rewrite Em, IH; reflexivity|exact IH].
  - destruct (negb (plan_drops p _)), (negb (plan_drops q _)); cbn [List.filter]; rewrite ?Em; exact IH.
Qed.

Lemma build_all_serves seen plans cache :
  no_collision seen → Forall cooldown_u64 seen → (∀ p, p ∈ plans → p ∈ seen) →
  cache_ok seen cache → ∃ rs, build_all cache plans = Ret rs ∧ Forall2 serves plans rs.
Proof.
  intros Hnc Hcool. revert cache. induction plans as [|p ps IH]; intros cache Hin Hok.
  { by exists []. }
  assert (Hp : p ∈ seen) by (apply Hin; left).
  assert (∃ r cache', get_or_build cache p = Ret (r, cache') ∧ serves p r ∧ cache_ok seen cache')
    as (r & cache' & Hb & Hs & Hok').
  { unfold get_or_build. destruct (cache !! plan_cache_key p) as [r|] eqn:El.
    - destruct (Hok _ _ El) as (q & Hq & Hk & Hr). exists r, cache. split_and!; [reflexivity| |assumption].
      rewrite Forall_forall in Hcool. apply (same_bytes_serve p q); auto.
    - destruct (plan_registry p) as (r & Hr & _). rewrite Hr. cbn [obind].
      eexists r, _. split_and!; [reflexivity|exists r; auto|]. intros k r' Hl.
      apply lookup_insert_Some in Hl as [[<- <-]|[_ Hl]]; [exists p; auto|exact (Hok _ _ Hl)]. }
  destruct (IH cache') as (rs & Hrs & Hall); [intros q Hq; apply Hin; by right|done|].
  exists (r :: rs). cbn [build_all]. rewrite Hb. cbn [obind]. rewrite Hrs. split; [done|by constructor].
Qed.

(** C39: what a cached registry enforces.  For any sequence of plans of which
    no two collide under the hash, every call of the cache returns a registry
    that holds exactly the rules of the registry the plan would get of its
    own, in the same order, the rules on minimum profitable days,
    cross-account hedging and low-cap exposure apart: the key holds the
    settings of all other opt-in rules, and of these three it holds none. *)
Theorem cache_serves_plan plans
    (Hnc : no_collision plans) (Hcool : Forall cooldown_u64 plans) :
  ∃ rs, build_all ∅ plans = Ret rs ∧ Forall2 serves plans rs.
Proof. apply (build_all_serves plans); [done..|]. intros k r. by rewrite lookup_empty. Qed.

End Cache.

(** ** Witness *)

Import Samples ApiSamples.

Lemma pos_digits_free : prefix_free eq pos_digits.
Proof.
  intros p. induction p as [p IH|p IH|]; intros [q|q|] l l' E; cbn in E; try discriminate E.
  - injection E as E. by apply IH in E as [-> ->].
  - injection E as E. by apply IH in E as [-> ->].
  - by injection E as ->.
Qed.

Lemma int_digits_free : prefix_free eq int_digits.
Proof.
  intros [|p|p] [|q|q] l l' E; cbn in E; try discriminate E; injection E as E;
    [by subst|by apply pos_digits_free in E as [-> ->]..].
Qed.

#[export] Instance QHash_laws : HashLaws QHash.
Proof.
  split. intros d d' l l' E. cbn [hash_decimal QHash] in E. rewrite <- !app_assoc in E.
  apply int_digits_free in E as [En E]. apply pos_digits_free in E as [Ed ->]. split; [|done].
  cbn [dval QDecimal]. rewrite <- (Qred_correct d), <- (Qred_correct d').
  destruct (Qred d), (Qred d'). cbn in En, Ed. by subst.
Qed.

(** A plan, the same with the ban on fast trading the other way, and with a
    minimum of profitable days, which has the key of the first. *)
Definition fast_plan : ChallengePlan :=
  plan <| plan_hft_ban_enabled := negb (plan_hft_ban_enabled plan) |>.
Definition days_plan : ChallengePlan := plan <| plan_min_profitable_days := Some 3 |>.

Lemma fast_plan_key : (plan_cache_key fast_plan =? plan_cache_key plan) = false.
Proof. vm_compute. reflexivity. Qed.

Lemma days_plan_bytes : key_bytes days_plan = key_bytes plan.
Proof. reflexivity. Qed.

Lemma days_plan_key : plan_cache_key days_plan = plan_cache_key plan.
Proof. apply (f_equal Sip.hash_bytes days_plan_bytes). Qed.

Lemma sample_plans_no_collision : no_collision [plan; fast_plan; days_plan].
Proof.
  pose proof (proj1 (Z.eqb_neq _ _) fast_plan_key) as Hf.
  intros p q Hp Hq Hk. rewrite !elem_of_cons in Hp, Hq.
  destruct Hp as [->|[->|[->|Hp%elem_of_nil]]]; [| | |contradiction];
    (destruct Hq as [->|[->|[->|Hq%elem_of_nil]]]; [| | |contradiction]);
    rewrite ?days_plan_key in Hk; rewrite ?days_plan_bytes;
    first [reflexivity | congruence].
Qed.

Lemma cache_serves_plan_witness :
  ∃ rs, build_all ∅ [plan; fast_plan; days_plan] = Ret rs
    ∧ Forall2 serves [plan; fast_plan; days_plan] rs.
Proof.
  apply (cache_serves_plan [plan; fast_plan; days_plan] sample_plans_no_collision).
  repeat first [apply Forall_nil | apply Forall_cons; split; [vm_compute; split; [discriminate|reflexivity]|]].
  exact I.
Defined.
