(* ===== verification/HandlerSamples.v ===== *)
(** * Concrete requests for the witnesses of the handlers *)

From S2P Require Import Prelude.
From S2P Require Import Decimal.
From S2P Require Import Chrono.
From S2P Require Import Ids.
From S2P Require Import Domain.
From S2P Require Import Plan.
From S2P Require Import Account.
From S2P Require Import Violation.
From S2P Require Import RuleApi.
#[local] Open Scope Z_scope.
From S2P Require Import Pipeline.
From S2P Require Import Hashing.
From S2P Require Import Pure.
From S2P Require Import Idempotency.
From S2P Require Import Api.
From S2P Require Import Samples.
From S2P Require Import PipelineSamples.
From S2P Require Import ApiSamples.
From S2P Require Import PureFacts.

Module HandlerSamples.
Import Samples PipelineSamples ApiSamples.

#[export] Instance MsTime : TimeText := {|
  to_rfc3339 _ := "time";
  from_timestamp_millis ms := Some (ms * 10 ^ 6);
|}.

(** Requests are texts of their account.  A response of the sample tenant is
    written as the identifier of its account, and read back as the one for
    that account, not evaluated. *)
Definition done_account : Account := account <| acc_status := StPassed |>.

Definition writable (a : Account) : bool :=
  bool_decide (acc_tenant_id a = 9) && (0 <=? acc_id a) && (acc_id a <? 2 ^ 128).

#[export] Instance PlainSerde : SerdeOps := {|
  request_to_string r := Some (ir_account_id r);
  response_to_string r :=
    if writable (is_account_state r) then Some (uuid_display (acc_id (is_account_state r))) else None;
  response_from_str s :=
    (fun id => not_evaluated (done_account <| acc_id := id |>)) <$> uuid_parse s;
|}.

(** The surroundings of a request at time [t]. *)
Definition api_env (t : Timestamp) : ApiEnv :=
  mkApiEnv t t t t t (fun _ => mkFresh 5 t) (fun _ => mkTradeIds 1 2 3) (fun _ => mkTradeIds 4 5 6)
    8 11 12 40 (env_at t) 0 0 1 None.

Definition server : ApiState := mkApiState ∅ (IdempotencyStore_new 10 1000) [].

Definition headers (name : string) : option string :=
  if bool_decide (name = "X-Tenant-Id"%string) then Some (uuid_display 9)
  else if bool_decide (name = "Idempotency-Key"%string) then Some "key"%string else None.

(** An estimated tick at time [t] for the account [a]. *)
Definition request (a : Account) (t : Timestamp) : InternalEvaluateRequest :=
  mkInternalEvaluateRequest (uuid_display 7) (Some a) None None (Some (quote_at t)) None None None None.

Definition stopped : Account :=
  account <| acc_status := StEmergencyStopped |> <| acc_status_before_breach := Some StActive |>.

Definition override_request : OverrideRequest :=
  mkOverrideRequest (uuid_display 7) (Some stopped) (uuid_display 21) (violation 21) "reviewed" "ops".

End HandlerSamples.
