(* ===== verification/HttpSamples.v ===== *)
(** * A concrete stack of layers for the witnesses of the server *)

From S2P Require Import Prelude.
From S2P Require Import Decimal.
From S2P Require Import Chrono.
From S2P Require Import Ids.
From S2P Require Import Pack.
#[local] Open Scope Z_scope.
From S2P Require Import Pipeline.
From S2P Require Import Hashing.
From S2P Require Import Metrics.
From S2P Require Import Api.
From S2P Require Import Http.
From S2P Require Import Samples.
From S2P Require Import PipelineSamples.
From S2P Require Import ApiSamples.
From S2P Require Import PureFacts.
From S2P Require Import HandlerSamples.

Module HttpSamples.
Import Samples PipelineSamples ApiSamples HandlerSamples.

Definition same_route (req : HttpRequest) (r : Route) : bool :=
  bool_decide ((rt_method r, rt_path r) = (hq_method req, hq_path req)).

Definition plain (status : Z) : HttpResponse := mkHttpResponse status no_headers "".

#[export] Instance PlainTower : TowerOps := {|
  dispatch routes req :=
    match List.find (same_route req) routes with
    | Some r => inl (rt_endpoint r)
    | None => inr (plain (if existsb (fun r => bool_decide (rt_path r = hq_path req)) routes
                          then METHOD_NOT_ALLOWED else NOT_FOUND))
    end;
  set_request_id h id inner req s :=
    match hq_headers req h with
    | Some _ => inner req s
    | None => inner (set_header h id req) s
    end;
  trace mk on_response on_failure inner req s :=
    let! (resp, s') := inner req s in
    let span := if 500 <=? hs_status resp then on_failure "server error"%string (mk req) else mk req in
    Ret (resp, mkSrvState (srv_api s') (srv_spans s' ++ [on_response resp 3 span]));
  timeout status nanos inner := inner;
  compression inner := inner;
  body_limit bytes inner req s :=
    match hq_body req with
    | BdText declared text =>
        if bytes <? body_length (hq_body req) then
          if declared then Ret (plain PAYLOAD_TOO_LARGE, s) else inner (cut_body req) s
        else inner req s
    | BdCut => inner req s
    end;
  propagate_request_id h inner req s :=
    let! (resp, s') := inner req s in
    Ret (match hq_headers req h, hs_headers resp h with
         | Some v, None => mkHttpResponse (hs_status resp) (with_header h v (hs_headers resp))
                             (hs_body resp)
         | _, _ => resp
         end, s');
|}.

Lemma find_route routes r req :
  r ∈ routes → NoDup ((fun x => (rt_method x, rt_path x)) <$> routes) →
  hq_method req = rt_method r → hq_path req = rt_path r → List.find (same_route req) routes = Some r.
Proof.
  intros Hr Hnd Hm Hp. induction routes as [|x routes IH]; [by apply elem_of_nil in Hr|].
  simpl in *. apply NoDup_cons in Hnd as [Hx Hnd]. unfold same_route at 1. rewrite Hm, Hp.
  apply elem_of_cons in Hr as [->|Hr]; [by rewrite bool_decide_true|].
  rewrite bool_decide_false; [by apply IH|]. intros E. apply Hx. rewrite E.
  change ((fun x => (rt_method x, rt_path x)) r ∈ (fun x => (rt_method x, rt_path x)) <$> routes).
  by apply list_elem_of_fmap_2.
Qed.

#[export] Instance PlainTower_laws : TowerLaws PlainTower.
Proof.
  split; simpl.
  - intros routes r req Hr Hnd Hm Hp. by rewrite (find_route _ r req).
  - intros routes req Hn. destruct (List.find (same_route req) routes) as [r|] eqn:E.
    + apply find_some in E as [Hr%list_elem_of_In Hs]. apply bool_decide_eq_true in Hs.
      injection Hs as _ Hs. by destruct (Hn r Hr).
    + eexists. split; [reflexivity|].
      assert (existsb (fun r => bool_decide (rt_path r = hq_path req)) routes = false) as ->; [|done].
      apply not_true_iff_false. intros (r & Hr%list_elem_of_In & Hs%bool_decide_eq_true)%existsb_exists.
      by destruct (Hn r Hr).
  - intros routes req resp. destruct (List.find _ _); intros [= <-]. done.
  - intros h id inner req s v ->. done.
  - intros h id inner req s ->. done.
  - intros mk on_response on_failure inner req s.
    exists (fun resp => on_response resp 3 (if 500 <=? hs_status resp
      then on_failure "server error"%string (mk req) else mk req)).
    split; [|done]. intros resp. destruct (500 <=? hs_status resp); constructor.
  - by left.
  - intros inner req s. exists id. split; [done|]. by destruct (inner req s) as [[]| | |].
  - intros routes req req' Hm Hp. unfold same_route. by rewrite Hm, Hp.
  - intros bytes inner req s [Hle| ->]; [|done]. apply Z.ltb_ge in Hle. rewrite Hle.
    by destruct (hq_body req).
  - intros bytes inner req s text Eb Hlt. apply Z.ltb_lt in Hlt. rewrite Hlt, Eb. by eexists _, _.
  - intros bytes inner req s text Eb Hlt. apply Z.ltb_lt in Hlt. by rewrite Hlt, Eb.
  - done.
Qed.

Definition refused {A} (req : HttpRequest) : A + HttpResponse := inr (plain BAD_REQUEST).

#[export] Instance PlainWire : WireOps := {|
  decode_evaluate req := match hq_body req with
                         | BdText _ _ => inl (request done_account noon)
                         | BdCut => inr (plain BAD_REQUEST)
                         end;
  decode_override := refused;
  decode_manual_run := refused;
  decode_emergency_stop := refused;
  decode_breach_report := refused;
  decode_evaluate_order := refused;
  decode_rule_pack := refused;
  encode_evaluate := is_decision_kind;
  encode_override _ := "";
  encode_manual_run _ := "";
  encode_emergency_stop _ := "";
  encode_breach_report _ := "";
  encode_evaluate_order _ := "";
  encode_rule_pack _ := "";
  render_metrics _ := "";
  openapi_json := "{}";
  SWAGGER_UI_HTML := "";
|}.

#[export] Instance PlainWire_laws : WireLaws PlainWire.
Proof.
  split; simpl; try (by intros ?? [= <-]); try (by eexists).
  - intros req resp. destruct (hq_body req); by intros [= <-].
  - intros req ->. by eexists.
Qed.

Definition server_env : SrvEnv := mkSrvEnv (api_env noon) 0 0 (fun _ => 33) "drawn".

Definition idle : SrvState := mkSrvState server [].

(** A request for the path, with a body of [n] characters of declared length. *)
Definition call (method path : string) (n : nat) : HttpRequest :=
  mkHttpRequest method path path no_headers
    (BdText true (String.string_of_list_ascii (repeat digit_one n))).

End HttpSamples.
