(* ===== verification/CliSamples.v ===== *)
(** * Concrete texts and requests for the witnesses of the command line *)

From Stdlib Require Import Qround.
From stdpp Require Import pretty.
From S2P Require Import Prelude.
From S2P Require Import Decimal.
From S2P Require Import Chrono.
From S2P Require Import Ids.
From S2P Require Import Domain.
From S2P Require Import Plan.
From S2P Require Import Account.
From S2P Require Import Violation.
From S2P Require Import RuleApi.
#[local] Open Scope Z_scope.
From S2P Require Import Decision.
From S2P Require Import Pipeline.
From S2P Require Import Hashing.
From S2P Require Import Pure.
From S2P Require Import Json.
From S2P Require Import Api.
From S2P Require Import Values.
From S2P Require Import Text.
From S2P Require Import Cli.
From S2P Require Import Samples.
From S2P Require Import PipelineSamples.
From S2P Require Import ApiSamples.
From S2P Require Import PureFacts.
From S2P Require Import HandlerSamples.

Module CliSamples.
Import Samples PipelineSamples ApiSamples HandlerSamples.

(** Decimals print as whole units; nothing is parsed. *)
#[export] Instance UnitText : DecimalText := {|
  dec_display d := pretty (Qfloor (dval d));
  dec_from_str _ := None;
  dec_display_prec _ d := pretty (Qfloor (dval d));
  f64 := unit;
  f64_display _ := ""%string;
|}.

#[export] Instance UnitJson : JsonText := {| json_to_string_pretty _ := Some "{}"%string |}.

(** The surroundings of a line at time [t], as those of a request. *)
Definition repl_env (t : Timestamp) : ReplEnv :=
  mkReplEnv t t t t (fun _ => mkFresh 5 t) (fun _ => mkTradeIds 1 2 3).

End CliSamples.
