(* ===== verification/ApiFacts.v ===== *)
(** * Theorems on the HTTP handlers

    An accepted request taken apart; what each handler checks of the account
    it is given; what an estimate may do. *)

From S2P Require Import Prelude.
From S2P Require Import Decimal.
From S2P Require Import Chrono.
From S2P Require Import Ids.
From S2P Require Import Domain.
From S2P Require Import Plan.
From S2P Require Import Account.
From S2P Require Import Violation.
From S2P Require Import Pack.
From S2P Require Import RuleApi.
#[local] Open Scope Z_scope.
From S2P Require Import DrawdownRules.
From S2P Require Import TimeRules.
From S2P Require Import Registry.
From S2P Require Import Decision.
From S2P Require Import State.
From S2P Require Import Pipeline.
From S2P Require Import Hashing.
From S2P Require Import Pure.
From S2P Require Import Idempotency.
From S2P Require Import Api.
From S2P Require Import Samples.
From S2P Require Import PipelineSamples.
From S2P Require Import ApiSamples.
From S2P Require Import DrawdownFacts.
From S2P Require Import RegistryFacts.
From S2P Require Import EstimatedFacts.
From S2P Require Import Lifecycle.
From S2P Require Import PipelineFacts.
From S2P Require Import PureFacts.
From S2P Require Import IdempotencyFacts.
From S2P Require Import HandlerSamples.
#[local] Open Scope api_scope.
#[local] Opaque RuleId_named Sip.hash_bytes.

(** ** The monad *)

Section Monad.
Context `{DecimalOps} `{ChronoOps} `{!JsonOps}.

Lemma api_bind_ok {A B} (m : api A) (f : A → api B) c r c' :
  api_bind m f c = Ret (inl r, c') → ∃ a c1, m c = Ret (inl a, c1) ∧ f a c1 = Ret (inl r, c').
Proof.
  unfold api_bind. intros E. apply bind_Ret_inv in E as ([[a|e] c1] & Hm & E); [eauto|done].
Qed.

Lemma api_bind_rejects {A B} (m : api A) (f : A → api B) c e c' :
  api_bind m f c = Ret (inr e, c') →
  m c = Ret (inr e, c') ∨ ∃ a c1, m c = Ret (inl a, c1) ∧ f a c1 = Ret (inr e, c').
Proof.
  unfold api_bind. intros E. apply bind_Ret_inv in E as ([[a|e'] c1] & Hm & E); [eauto|].
  left. by injection E as <- <-.
Qed.

Lemma api_ok_inv {A} (a r : A) c c' : api_ok a c = Ret (inl r, c') → r = a ∧ c' = c.
Proof. by intros [= <- <-]. Qed.

Lemma api_some_inv {A} st msg (o : option A) a c c' :
  api_some st msg o c = Ret (inl a, c') → o = Some a ∧ c' = c.
Proof. destruct o; by intros [= -> ->]. Qed.

Lemma api_when_inv b st msg u c c' :
  api_when b st msg c = Ret (inl u, c') → b = false ∧ c' = c.
Proof. destruct b; by intros [= _ ->]. Qed.

Lemma api_of_inv {A} st (m : outcome A) a c c' :
  api_of st m c = Ret (inl a, c') → m = Ret a ∧ c' = c.
Proof. unfold api_of. destruct m; by intros [= -> ->]. Qed.

Lemma api_run_inv {A} (m : outcome A) a c c' :
  api_run m c = Ret (inl a, c') → m = Ret a ∧ c' = c.
Proof. unfold api_run. intros E. apply bind_Ret_inv in E as (x & -> & [= -> ->]). done. Qed.

(** What the log entries and the latency scope leave alone. *)
Definition same_shared (c c' : ApiState) : Prop :=
  sv_cache c' = sv_cache c ∧ sv_idempotency c' = sv_idempotency c.

Lemma api_guard_inv b ep kind st msg u c c' :
  api_guard b ep kind st msg c = Ret (inl u, c') → b = false ∧ c' = c.
Proof. destruct b; by intros [= _ ->]. Qed.

Lemma api_log_inv e r c c' : api_log e c = Ret (r, c') → same_shared c c'.
Proof. by intros [= _ <-]. Qed.

Lemma api_timed_inv {A} ep t0 t1 (m : api A) r c c' :
  api_timed ep t0 t1 m c = Ret (r, c') → ∃ c1, m c = Ret (r, c1) ∧ same_shared c1 c'.
Proof.
  unfold api_timed. intros E. apply bind_Ret_inv in E as ([r' c1] & Hm & [= <- <-]). by exists c1.
Qed.

End Monad.

(** Takes an accepted request apart, one step of the handler at a time. *)
Ltac api_step :=
  match goal with
  | H : api_bind _ _ _ = Ret (inl _, _) |- _ =>
      apply api_bind_ok in H as (? & ? & ? & H)
  | H : api_ok _ _ = Ret (inl _, _) |- _ => apply api_ok_inv in H as [H ->]; simplify_eq/=
  | H : api_some _ _ _ _ = Ret (inl _, _) |- _ => apply api_some_inv in H as [? ->]
  | H : api_when _ _ _ _ = Ret (inl _, _) |- _ => apply api_when_inv in H as [? ->]
  | H : api_of _ _ _ = Ret (inl _, _) |- _ => apply api_of_inv in H as [? ->]
  | H : api_run _ _ = Ret (inl _, _) |- _ => apply api_run_inv in H as [? ->]
  | H : api_reject _ _ _ = Ret (inl _, _) |- _ => discriminate H
  | H : api_guard _ _ _ _ _ _ = Ret (inl _, _) |- _ => apply api_guard_inv in H as [? ->]
  | H : api_timed _ _ _ _ _ = Ret (inl _, _) |- _ => apply api_timed_inv in H as (? & H & ?)
  end.
Ltac api_inv := repeat api_step.

(** ** The account of a request *)

Section Identity.
Context `{DecimalOps} `{ChronoOps} `{!JsonOps}.
Implicit Types a : Account.

Definition same_identity (a a' : Account) : Prop :=
  acc_id a' = acc_id a ∧ acc_tenant_id a' = acc_tenant_id a.

#[export] Instance same_identity_pre : PreOrder same_identity.
Proof. split; [by intros a|]. intros ??? [] []. split; congruence. Qed.

Lemma same_core_identity a a' : same_core a a' → same_identity a a'.
Proof. by intros []. Qed.

Lemma decision_identity a d at_ actor a' evs :
  apply_decision a d at_ actor = Ret (a', evs) → same_identity a a'.
Proof.
  unfold apply_decision. intros E.
  destruct (decision_target_step a d at_) as [a1 ev1] eqn:E1.
  apply bind_Ret_inv in E as ([a2 ev2] & E2 & E). apply bind_Ret_inv in E as ([a3 ev3] & E3 & E).
  injection E as <- _.
  transitivity a1; [|transitivity a2].
  - unfold decision_target_step, AccountState_mark_target_reached in E1.
    repeat (case_match; simplify_eq/=); done.
  - unfold decision_promotion_step, AccountState_upgrade_phase in E2.
    case_if_in E2; [|monad_inv; done]. monad_inv.
    destruct (plan_phase (acc_plan a1)); simplify_eq/=; done.
  - unfold decision_terminate_step in E3.
    destruct (Decision_account_status_target d) as [s|]; [|simplify_eq/=; done].
    destruct (dec_kind d); monad_inv; destruct (bool_decide (s = StFailed) || _); done.
Qed.

Lemma event_identity env ops a ev s kind fill evs :
  apply_event_state env ops a ev = Ret (s, kind, fill, evs) → same_identity a s.
Proof.
  intros E. destruct ev; simpl in E; monad_inv; try done.
  - event_fields. monad_inv. case_match; monad_inv; done.
  - unfold AccountState_apply_realized_pnl, raise_peak_balance in *. monad_inv.
    unfold AccountState_mark_active_trading_day. by repeat case_match.
  - unfold AccountState_update_balance, AccountState_update_equity, raise_peak_balance.
    by repeat case_match.
  - event_fields. done.
  - unfold AccountState_emergency_stop. by destruct (acc_status_before_breach a).
  - case_if_in E; [done|]. monad_inv. event_fields. destruct (acc_status a); monad_inv; done.
  - event_fields. destruct (acc_status a); monad_inv; done.
  - event_fields. match goal with H : (if _ then Err _ else _) = Ret _ |- _ => case_if_in H end; [done|].
    monad_inv. by destruct (bool_decide (acc_status a = StPayoutPending)).
Qed.

Lemma process_identity fuel pl env a ev res :
  process fuel pl env a ev = Ret res → same_identity a (pr_account res).
Proof.
  intros (a1 & ap & a2 & [[evs Hroll] Happly _ [evs' Hdec] ->])%process_inv.
  apply auto_rollover_core, same_core_identity in Hroll.
  apply apply_event_inv in Happly as (trades & kind & evs2 & Hst & _).
  apply event_identity in Hst. apply decision_identity in Hdec.
  transitivity a1; [done|]. transitivity (ae_state ap); [exact Hst|].
  transitivity a2; [|by destruct ev].
  destruct (ae_trade_fill ap) as [[? ?]|]; exact Hdec.
Qed.

End Identity.

Section Handlers.
Context `{HO : HashOps} `{!JsonOps} `{!Sha256Ops} `{!UuidOps} `{!TimeText}.

(** The account of the request, named by its identifier and owned by the
    tenant, and the account of the response. *)
Definition own_account (tenant : TenantId) (id_text : string) (state : option Account)
    (answer : Account) : Prop :=
  ∃ acc, state = Some acc ∧ uuid_parse id_text = Some (acc_id acc) ∧ acc_tenant_id acc = tenant
    ∧ same_identity acc answer.

Lemma validated_inv acc id tenant u c c' :
  validate_account_state acc id tenant c = Ret (inl u, c') →
  acc_id acc = id ∧ acc_tenant_id acc = tenant ∧ c' = c.
Proof.
  unfold validate_account_state. intros E. api_inv.
  repeat match goal with H : negb (bool_decide _) = false |- _ =>
    apply negb_false_iff, bool_decide_eq_true in H end. done.
Qed.

Lemma own_intro tenant text state acc answer id c c1 u :
  state = Some acc → uuid_parse text = Some id →
  validate_account_state acc id tenant c = Ret (inl u, c1) → same_identity acc answer →
  own_account tenant text state answer.
Proof. intros ? ? (<- & ? & _)%validated_inv ?. by exists acc. Qed.

Lemma run_pipeline_inv env acc ev res c c' :
  run_pipeline env acc ev c = Ret (inl res, c') →
  ∃ registry, process (he_fuel env) (request_pipeline registry) (he_pipeline env) acc ev = Ret res.
Proof. unfold run_pipeline. intros E. api_inv. eauto. Qed.

Lemma run_audited_inv env ep audit acc ev res c c' :
  run_audited env ep audit acc ev c = Ret (inl res, c') →
  ∃ registry, process (he_fuel env) (request_pipeline registry) (he_pipeline env) acc ev = Ret res.
Proof.
  unfold run_audited. intros (registry & c1 & _ & E)%api_bind_ok. exists registry.
  destruct (process _ _ _ _ _); api_inv; done.
Qed.

Lemma tenant_inv headers t c c' :
  extract_tenant_id headers c = Ret (inl t, c') → headers "X-Tenant-Id" ≫= uuid_parse = Some t.
Proof.
  unfold extract_tenant_id. intros E. api_inv.
  match goal with H : headers _ = Some _ |- _ => rewrite H end. done.
Qed.

Lemma account_id_inv text id c c' :
  parse_account_id text c = Ret (inl id, c') → uuid_parse text = Some id ∧ c' = c.
Proof. unfold parse_account_id. intros E. api_inv. done. Qed.

(** The account a request evaluates keeps its identity, status and plan. *)
Lemma request_inputs_inv env id acc req bt c c' acc' ps ts t tick :
  request_inputs env id acc req bt c = Ret (inl (acc', ps, ts, t, tick), c') →
  same_identity acc acc' ∧ acc_status acc' = acc_status acc ∧ acc_plan acc' = acc_plan acc
  ∧ acc_active_trading_days acc' = acc_active_trading_days acc
  ∧ (bt = None → acc' = acc ∧ ∃ tk, tick = Some tk ∧ t = q_ts (tick_quote tk)).
Proof.
  unfold request_inputs. intros E. destruct bt as [bt|]; api_inv; simplify_eq/=.
  - by split_and!.
  - split_and!; try done. intros _. split; [done|]. by eexists.
Qed.

Lemma raise_peaks_kept src acc :
  same_identity acc (raise_peaks src acc) ∧ acc_status (raise_peaks src acc) = acc_status acc
  ∧ acc_plan (raise_peaks src acc) = acc_plan acc
  ∧ acc_active_trading_days (raise_peaks src acc) = acc_active_trading_days acc.
Proof. unfold raise_peaks. destruct src; repeat case_match; done. Qed.

(** A request that does not claim broker-reported equity. *)
Definition estimated_request (req : InternalEvaluateRequest) : Prop :=
  ir_bridge_tick req = None
  ∧ (ir_equity_source req = None ∨ ir_equity_source req = Some "estimated"%string).

Lemma request_source_inv req src bt c c' :
  request_source req c = Ret (inl (src, bt), c') →
  c' = c ∧ bt = ir_bridge_tick req ∧ (estimated_request req → src = SrcEstimated).
Proof.
  unfold request_source, estimated_request. intros E.
  destruct (ir_bridge_tick req); [api_inv; split_and!; naive_solver|].
  destruct (ir_equity_source req) as [s|]; [|api_inv; done].
  case_bool_decide; api_inv; [done|]. split_and!; naive_solver.
Qed.

(** An accepted evaluation, step by step. *)
Record evaluated_request env tenant req c resp acc id src bt reg acc' ps ts xs t tick v evs : Prop :=
  mkEvaluatedRequest {
  evr_id : uuid_parse (ir_account_id req) = Some id;
  evr_bridge : bt = ir_bridge_tick req;
  evr_src : estimated_request req → src = SrcEstimated;
  evr_state : ir_account_state req = Some acc;
  evr_own : acc_id acc = id ∧ acc_tenant_id acc = tenant;
  evr_mode : AccountStatus_evaluation_mode (acc_status acc) = EmEvaluate;
  evr_pack : ir_rule_pack req = None;
  evr_registry : ∃ cache', get_or_build (sv_cache c) (acc_plan acc) = Ret (reg, cache');
  evr_inputs : ∃ c0 c1, request_inputs env id acc req bt c0 = Ret (inl (acc', ps, ts, t, tick), c1);
  evr_fresh : num_seconds (ts_since (he_now_stale env) t) ≤ stale_threshold_secs;
  evr_verdict :
    evaluate (he_fresh env) (he_now_context env) (he_now_reports env) (raise_peaks src acc')
      (RulePack_synthetic_from_plan (uuid_display id) tenant (acc_plan acc) (he_now_pack env)) reg
      OnTick t
      (EvaluateInputs_default <| ei_open_positions := ps |> <| ei_today_trades := ts |>
         <| ei_latest_tick := tick |> <| ei_cross_reference_trades := xs |>
         <| ei_equity_source := src |>) = Ret v;
  evr_applied : apply_decision (raise_peaks src acc') (pv_decision v) t "evaluate_internal"
               = Ret (is_account_state resp, evs);
  evr_hints : compute_floor_hints (is_account_state resp) = Ret (is_hints resp);
  evr_kind : is_decision_kind resp = DecisionKind_debug (dec_kind (pv_decision v));
  evr_cross : ir_cross_reference_trades req = None → xs = [];
  evr_priority : is_winning_priority resp = dec_winning_priority (pv_decision v);
  evr_hash : is_input_hash resp = pv_input_hash v;
  evr_pack_id : is_pack_id resp = pv_pack_id v ∧ is_pack_version resp = pv_pack_version v;
  evr_details : is_violation_details resp = dec_all_violations (pv_decision v);
}.

Lemma evaluate_inv env tenant req c resp c' :
  evaluate_internal_impl env tenant req c = Ret (inl resp, c') →
  (∃ acc, own_account tenant (ir_account_id req) (ir_account_state req) acc
     ∧ ir_account_state req = Some acc ∧ AccountStatus_evaluation_mode (acc_status acc) = EmSkip
     ∧ resp = not_evaluated acc)
  ∨ ∃ acc id src bt reg acc' ps ts xs t tick v evs,
      evaluated_request env tenant req c resp acc id src bt reg acc' ps ts xs t tick v evs.
Proof.
  unfold evaluate_internal_impl. intros E.
  apply api_bind_ok in E as (id & c1 & Hid & E). apply account_id_inv in Hid as [Hid ->].
  apply api_bind_ok in E as ([src bt] & c2 & Hsrc & E).
  apply request_source_inv in Hsrc as (-> & Hbt & Hsrc).
  apply api_bind_ok in E as (acc & c3 & Hacc & E). apply api_some_inv in Hacc as [Hacc ->].
  apply api_bind_ok in E as (u & c4 & Hval & E).
  destruct (AccountStatus_evaluation_mode (acc_status acc)) eqn:Hmode.
  2: { apply api_ok_inv in E as [-> ->]. left. exists acc. split_and!; [|done..].
       by eapply own_intro. }
  right. apply validated_inv in Hval as (Hown & Hten & ->).
  apply api_bind_ok in E as (u1 & c5 & Hpack & E). apply api_when_inv in Hpack as [Hpack ->].
  apply api_bind_ok in E as (reg & c6 & Hreg & E).
  apply api_bind_ok in E as (xs & c7 & Hxs & E).
  apply api_bind_ok in E as ([[[[acc' ps] ts] t] tick] & c8 & Hin & E).
  apply api_bind_ok in E as (u2 & c9 & Hst & E). apply api_when_inv in Hst as [Hst ->].
  apply api_bind_ok in E as (v & c10 & Hv & E). apply api_of_inv in Hv as [Hv ->].
  apply api_bind_ok in E as ([new evs] & c11 & Hd & E). apply api_of_inv in Hd as [Hd ->].
  apply api_bind_ok in E as (hints & c12 & Hh & E). apply api_run_inv in Hh as [Hh ->].
  apply api_ok_inv in E as [-> ->].
  exists acc, id, src, bt, reg, acc', ps, ts, xs, t, tick, v, evs. split; try done.
  - apply bool_decide_eq_false in Hpack. by apply eq_None_not_Some.
  - unfold api_registry in Hreg. apply bind_Ret_inv in Hreg as ([r cache] & Hreg & Er).
    injection Er as <- _. eauto.
  - eauto.
  - apply Z.ltb_ge in Hst. done.
  - intros Hnone. unfold cross_trades_of, trades_of in Hxs. rewrite Hnone in Hxs. simpl in Hxs.
    apply api_bind_ok in Hxs as (l & c13 & Hl & Hxs). apply api_ok_inv in Hl as [-> ->].
    by apply api_ok_inv in Hxs as [-> _].
Qed.

(** The tenant of the headers and the checks of an accepted request. *)
Ltac request_checks :=
  repeat first
  [ match goal with
    | H : extract_tenant_id _ _ = Ret (inl _, _) |- _ => apply tenant_inv in H
    | H : parse_account_id _ _ = Ret (inl _, _) |- _ => apply account_id_inv in H as [H ->]
    | H : run_pipeline _ _ _ _ = Ret (inl _, _) |- _ =>
        apply run_pipeline_inv in H as [? H]; apply process_identity in H
    | H : run_audited _ _ _ _ _ _ = Ret (inl _, _) |- _ =>
        apply run_audited_inv in H as [? H]; apply process_identity in H
    end
  | api_step ].

Lemma override_own env headers req c resp c' :
  override_breach env headers req c = Ret (inl resp, c') →
  ∃ t, headers "X-Tenant-Id" ≫= uuid_parse = Some t
    ∧ own_account t (or_account_id req) (or_account_state req) (os_account_state resp).
Proof.
  unfold override_breach. intros E. request_checks.
  eexists. split; [eassumption|]. by eapply own_intro.
Qed.

Lemma manual_own env headers req c resp c' :
  manual_run env headers req c = Ret (inl resp, c') →
  ∃ t, headers "X-Tenant-Id" ≫= uuid_parse = Some t
    ∧ own_account t (mr_account_id req) (mr_account_state req) (ms_account_state resp).
Proof.
  unfold manual_run. intros E. request_checks.
  eexists. split; [eassumption|]. eapply own_intro; [eassumption..|].
  case_match; request_checks; done.
Qed.

Lemma stop_own env headers req c resp c' :
  emergency_stop env headers req c = Ret (inl resp, c') →
  ∃ t, headers "X-Tenant-Id" ≫= uuid_parse = Some t
    ∧ own_account t (er_account_id req) (er_account_state req) (est_account_state resp).
Proof.
  unfold emergency_stop. intros E. request_checks.
  eexists. split; [eassumption|]. eapply own_intro; [eassumption..|].
  case_match; [request_checks; done|]. case_match; request_checks; done.
Qed.

Lemma order_own env headers req c resp c' :
  evaluate_order env headers req c = Ret (inl resp, c') →
  ∃ t, headers "X-Tenant-Id" ≫= uuid_parse = Some t
    ∧ own_account t (eo_account_id req) (eo_account_state req) (eos_account_state resp).
Proof.
  unfold evaluate_order. intros E. request_checks.
  eexists. split; [eassumption|]. eapply own_intro; [eassumption..|].
  case_match; request_checks; done.
Qed.

Lemma evaluate_own env tenant req c resp c' :
  evaluate_internal_impl env tenant req c = Ret (inl resp, c') →
  own_account tenant (ir_account_id req) (ir_account_state req) (is_account_state resp).
Proof.
  intros [(acc & Hown & _ & _ & ->)|(acc & id & src & bt & reg & acc' & ps & ts & xs & t & tick & v & evs & [])]%evaluate_inv.
  { exact Hown. }
  destruct evr_inputs0 as (c0 & c1 & (Hid & _)%request_inputs_inv).
  apply decision_identity in evr_applied0. destruct evr_own0 as [<- <-].
  exists acc. split_and!; [done..|]. etrans; [exact Hid|].
  etrans; [apply raise_peaks_kept|exact evr_applied0].
Qed.

(** A report names the account of the request and tells the status it has
    after its evaluation; the violations it lists are the tenant's. *)
Lemma report_own env fallback headers req c resp c' :
  breach_report env fallback headers req c = Ret (inl resp, c') →
  ∃ t answer, headers "X-Tenant-Id" ≫= uuid_parse = Some t
    ∧ own_account t (br_account_id req) (br_account_state req) answer
    ∧ bs_account_id resp = br_account_id req
    ∧ bs_account_status resp = AccountStatus_debug (acc_status answer)
    ∧ Forall (fun v => vio_tenant_id v = t) (br_violations req).
Proof.
  unfold breach_report. intros E.
  apply api_timed_inv in E as (c0 & (t & c1 & Ht & E)%api_bind_ok & _). apply tenant_inv in Ht.
  apply api_bind_ok in E as (id & c2 & Hid & E). apply account_id_inv in Hid as [Hid ->].
  apply api_bind_ok in E as (acc & c3 & Hacc & E). apply api_some_inv in Hacc as [Hacc ->].
  apply api_bind_ok in E as (u & c4 & Hval & E).
  apply api_bind_ok in E as (u' & c5 & Hno & E). apply api_when_inv in Hno as [Hno ->].
  apply api_bind_ok in E as (res & c6 & Hrun & E).
  apply api_bind_ok in E as (u2 & c7 & _ & [-> _]%api_ok_inv).
  apply run_pipeline_inv in Hrun as [reg Hrun]. apply process_identity in Hrun.
  exists t, (pr_account res). split_and!; [done|by eapply own_intro|done|done|].
  apply Forall_forall. intros v Hv. apply dec_stable. intros Hne.
  apply not_true_iff_false in Hno. destruct Hno. apply existsb_exists. exists v.
  split; [by apply list_elem_of_In|]. by rewrite bool_decide_false.
Qed.

(** ** Estimates *)

Lemma decision_not_breach a d at_ actor a' evs :
  apply_decision a d at_ actor = Ret (a', evs) → Decision_is_terminating d = false →
  AccountStatus_is_breach_terminal (acc_status a) = false →
  AccountStatus_is_breach_terminal (acc_status a') = false.
Proof.
  unfold apply_decision. intros E Hd Ha.
  assert (Hn : Decision_account_status_target d = None).
  { unfold Decision_is_terminating, Decision_account_status_target in *. by destruct (dec_kind d). }
  destruct (decision_target_step a d at_) as [a1 ev1] eqn:E1.
  apply bind_Ret_inv in E as ([a2 ev2] & E2 & E). apply bind_Ret_inv in E as ([a3 ev3] & E3 & E).
  injection E as <- _.
  assert (B1 : AccountStatus_is_breach_terminal (acc_status a1) = false).
  { apply target_step_life in E1 as [El|(_ & b & t & _ & El)];
      apply (f_equal (fun l => fst (fst l))) in El; cbn in El; by rewrite El. }
  assert (B2 : AccountStatus_is_breach_terminal (acc_status a2) = false).
  { apply promotion_step_life in E2 as [El|(b & t & t' & _ & _ & El)];
      apply (f_equal (fun l => fst (fst l))) in El; cbn in El; by rewrite El. }
  apply terminate_step_life in E3 as [El|[Hc _]]; [|done].
  apply (f_equal (fun l => fst (fst l))) in El. cbn in El. by rewrite El.
Qed.

(** The cached registries hold default rules only; so does every registry
    the cache builds. *)
Definition cache_default (cache : gmap Z RuleRegistry) : Prop :=
  ∀ k r, cache !! k = Some r → ∀ rule, rule ∈ reg_rules r → rule ∈ default_rules.

Lemma get_or_build_default cache plan reg cache' :
  cache_default cache → get_or_build cache plan = Ret (reg, cache') →
  (∀ rule, rule ∈ reg_rules reg → rule ∈ default_rules) ∧ cache_default cache'.
Proof.
  unfold get_or_build. intros Hc E. destruct (cache !! plan_cache_key plan) as [r|] eqn:El.
  { injection E as <- <-. split; [exact (Hc _ _ El)|exact Hc]. }
  apply bind_Ret_inv in E as (r & Hr & E). injection E as <- <-.
  assert (Hin : ∀ rule, rule ∈ reg_rules r → rule ∈ default_rules).
  { destruct (plan_registry plan) as (r' & Hr' & Er). rewrite Hr in Hr'. injection Hr' as <-.
    intros rule. rewrite Er, list_elem_of_In, filter_In, <- list_elem_of_In.
    intros [Hi _]. exact Hi. }
  split; [exact Hin|]. intros k r' Hl. apply lookup_insert_Some in Hl as [[_ <-]|[_ Hl]];
    [exact Hin|exact (Hc _ _ Hl)].
Qed.

(** A pure evaluation of a tick with any default rules always gives a
    verdict; on an estimate it terminates only after the deadline. *)
Lemma pure_estimate_harmless fresh now now_reports a pack reg t inputs :
  (∀ rule, rule ∈ reg_rules reg → rule ∈ default_rules) →
  ei_pending_order inputs = None → ei_equity_source inputs = SrcEstimated →
  ∃ v, evaluate fresh now now_reports a pack reg OnTick t inputs = Ret v
    ∧ (Decision_is_terminating (pv_decision v) = true →
       ∃ d, TimeLimitRule_plan_deadline a = Ret (Some d) ∧ ts_ltb d t = true).
Proof.
  intros Hreg Hp Hs. set (ctx := pure_context a OnTick now t inputs).
  assert (Hctx : ctx_kind ctx = OnTick ∧ ctx_equity_input ctx = Estimated (acc_equity a) (acc_balance a)
    ∧ ctx_pending_order ctx = None ∧ ctx_account ctx = a ∧ ctx_server_time ctx = t).
  { unfold ctx, pure_context. rewrite Hp, Hs.
    destruct (ei_latest_trade inputs), (ei_latest_tick inputs); done. }
  destruct Hctx as (Hk & He & Hpo & Ha & Ht).
  destruct (estimated_rules_harmless fresh now_reports ctx _ _ (reg_rules reg) Hreg Hk He Hpo)
    as (reports & Hev & Hd).
  unfold evaluate. fold ctx. unfold RuleRegistry_evaluate. rewrite Hev.
  eexists. split; [reflexivity|]. cbn [pv_decision]. intros Hterm.
  destruct (Hd Hterm) as (d & Hdl & Hlt). exists d. by rewrite <- Ha, <- Ht.
Qed.

Lemma pure_estimate_verdict fresh now now_reports a pack reg t inputs v :
  evaluate fresh now now_reports a pack reg OnTick t inputs = Ret v →
  (∀ rule, rule ∈ reg_rules reg → rule ∈ default_rules) →
  ei_pending_order inputs = None → ei_equity_source inputs = SrcEstimated →
  Decision_is_terminating (pv_decision v) = true →
  ∃ d, TimeLimitRule_plan_deadline a = Ret (Some d) ∧ ts_ltb d t = true.
Proof.
  intros Hv Hreg Hp Hs.
  destruct (pure_estimate_harmless fresh now now_reports a pack reg t inputs Hreg Hp Hs)
    as (v' & Hv' & Hd).
  rewrite Hv in Hv'. by injection Hv' as <-.
Qed.


End Handlers.

(** ** Witnesses *)

Import Samples PipelineSamples ApiSamples HandlerSamples.

Definition evaluated_late : outcome ((InternalEvaluateResponse + HttpError) * ApiState) :=
  evaluate_internal_impl (api_env (noon + 31 * ns_day)) 9 (request account (noon + 31 * ns_day)) server.

(** Whether the account sent back is breached. *)
Definition answers_breach (m : outcome ((InternalEvaluateResponse + HttpError) * ApiState)) : bool :=
  match m with
  | Ret (inl resp, _) => AccountStatus_is_breach_terminal (acc_status (is_account_state resp))
  | _ => false
  end.

Lemma empty_cache_default : cache_default (sv_cache server).
Proof. intros k r. simpl. by rewrite lookup_empty. Qed.

