(* ===== verification/HandlerFacts.v ===== *)
(** * More theorems on the HTTP handlers

    Which status codes the evaluate endpoint answers with; the values of its
    floor hints; retries under an idempotency key; what an override needs. *)

From S2P Require Import Prelude.
From S2P Require Import Decimal.
From S2P Require Import Chrono.
From S2P Require Import Ids.
From S2P Require Import Domain.
From S2P Require Import Plan.
From S2P Require Import Account.
From S2P Require Import Violation.
From S2P Require Import Pack.
From S2P Require Import RuleApi.
#[local] Open Scope Z_scope.
From S2P Require Import DrawdownRules.
From S2P Require Import TimeRules.
From S2P Require Import Registry.
From S2P Require Import Decision.
From S2P Require Import State.
From S2P Require Import Pipeline.
From S2P Require Import Hashing.
From S2P Require Import Pure.
From S2P Require Import Idempotency.
From S2P Require Import Api.
From S2P Require Import Samples.
From S2P Require Import PipelineSamples.
From S2P Require Import ApiSamples.
From S2P Require Import RuleTotality.
From S2P Require Import DrawdownFacts.
From S2P Require Import RegistryFacts.
From S2P Require Import Lifecycle.
From S2P Require Import PipelineFacts.
From S2P Require Import PureFacts.
From S2P Require Import IdempotencyFacts.
From S2P Require Import HandlerSamples.
From S2P Require Import ApiFacts.
#[local] Open Scope api_scope.
#[local] Opaque RuleId_named Sip.hash_bytes.

(** ** Rejections *)

(** [refuses P m]: [m] rejects only with a status in [P]. *)
Section Refusals.
Context `{DecimalOps} `{ChronoOps} `{!JsonOps}.
Implicit Types P : Z → Prop.

Definition refuses {A} P (m : api A) : Prop :=
  ∀ c e c', m c = Ret (inr e, c') → P (fst e).

Lemma refuses_ok {A} P (a : A) : refuses P (api_ok a).
Proof. by intros c e c' [=]. Qed.

Lemma refuses_bind {A B} P (m : api A) (f : A → api B) :
  refuses P m → (∀ a, refuses P (f a)) → refuses P (api_bind m f).
Proof.
  intros Hm Hf c e c' [E|(a & c1 & _ & E)]%api_bind_rejects; [by eapply Hm|by eapply Hf].
Qed.

Lemma refuses_reject {A} P st msg : P st → refuses P (api_reject (A := A) st msg).
Proof. intros HP c e c' [= <- _]. exact HP. Qed.

Lemma refuses_some {A} P st msg (o : option A) : P st → refuses P (api_some st msg o).
Proof. destruct o; [intros _; apply refuses_ok|apply refuses_reject]. Qed.

Lemma refuses_when P b st msg : P st → refuses P (api_when b st msg).
Proof. destruct b; [apply refuses_reject|intros _; apply refuses_ok]. Qed.

Lemma refuses_of {A} P st (m : outcome A) : P st → refuses P (api_of st m).
Proof. intros HP c e c' E. unfold api_of in E. destruct m; [done|by injection E as <- _|done..]. Qed.

Lemma refuses_run {A} P (m : outcome A) : refuses P (api_run m).
Proof. intros c e c' (a & _ & [=])%bind_Ret_inv. Qed.

Lemma refuses_all {A} P (rs : list (A + string)) : P BAD_REQUEST → refuses P (api_all rs).
Proof. intros HP. unfold api_all. case_match; [by apply refuses_reject|apply refuses_ok]. Qed.

Lemma refuses_registry `{!HashOps} P plan : refuses P (api_registry plan).
Proof. intros c e c' ([r cache] & _ & [=])%bind_Ret_inv. Qed.

End Refusals.


Create HintDb api.
#[export] Hint Resolve refuses_ok refuses_bind refuses_reject refuses_some refuses_when refuses_of
  refuses_run refuses_all refuses_registry : api.

Section Answers.
Context `{HO : HashOps} `{!JsonOps} `{!Sha256Ops} `{!UuidOps} `{!TimeText}.

(** The statuses that blame the request. *)
Definition client_error (st : Z) : Prop := st ∈ [BAD_REQUEST; FORBIDDEN; UNPROCESSABLE_ENTITY].

Lemma bad_request_client : client_error BAD_REQUEST.
Proof. left. Qed.

Lemma forbidden_client : client_error FORBIDDEN.
Proof. right. left. Qed.

Lemma unprocessable_client : client_error UNPROCESSABLE_ENTITY.
Proof. right. right. left. Qed.

Hint Resolve bad_request_client forbidden_client unprocessable_client : api.

Lemma account_id_refuses text : refuses client_error (parse_account_id text).
Proof. unfold parse_account_id. auto with api. Qed.

Lemma validate_refuses acc id tenant : refuses client_error (validate_account_state acc id tenant).
Proof. unfold validate_account_state. auto with api. Qed.

Lemma source_refuses req : refuses client_error (request_source req).
Proof. unfold request_source. repeat case_match; auto with api. Qed.

Lemma cross_refuses env id req : refuses client_error (cross_trades_of env id req).
Proof. unfold cross_trades_of, trades_of. auto with api. Qed.

Lemma inputs_refuses env id acc req bt : refuses client_error (request_inputs env id acc req bt).
Proof. unfold request_inputs, trades_of. case_match; auto 12 with api. Qed.

Hint Resolve account_id_refuses validate_refuses source_refuses cross_refuses inputs_refuses : api.

(** One step of a rejecting handler: either this step blames the request, as
    [auto with api] shows, or it gave [x]. *)
Tactic Notation "reject_step" hyp(E) ident(x) ident(Hx) :=
  let c1 := fresh "c" in
  apply api_bind_rejects in E as [E|(x & c1 & Hx & E)];
  [left;
   match type of E with ?m ?s = Ret (inr ?e, _) =>
     exact ((ltac:(eauto with api) : refuses client_error m) _ _ _ E) end|].

(** Computations that may panic but never return an error. *)
Definition errless {A} (m : outcome A) : Prop := ∀ e, m ≠ Err e.

Lemma errless_bind {A B} (m : outcome A) (f : A → outcome B) :
  errless m → (∀ a, errless (f a)) → errless (obind m f).
Proof. intros Hm Hf e. destruct m; simpl; [apply Hf|by edestruct Hm|done..]. Qed.

Lemma errless_unwrap {A} (o : option A) : errless (unwrap o).
Proof. by destruct o. Qed.

Lemma liquidation_errless id tenant ps reason by_ actor at_ :
  errless (LiquidationInstruction_new id tenant ps reason by_ actor at_).
Proof.
  unfold LiquidationInstruction_new. apply errless_bind; [|done].
  generalize (LiquidationPosition_from_position <$> List.filter Position_is_open ps). intros l.
  generalize dec_zero. induction l as [|p l IH]; intros z; simpl; [done|].
  apply errless_bind; [|done].
  unfold liquidation_notional, InstrumentSpec_units_to_lots, InstrumentSpec_notional, dadd, dmul, ddiv.
  repeat first [apply errless_bind; [|intros ?] | apply errless_unwrap | case_match | done].
Qed.

Lemma terminate_errless a d at_ actor : errless (decision_terminate_step a d at_ actor).
Proof.
  unfold decision_terminate_step. destruct (Decision_account_status_target d); [|done].
  destruct (dec_kind d); try done; (apply errless_bind; [apply liquidation_errless|done]).
Qed.

(** Every trade of a conversion carries the account it was made for. *)
Lemma trade_account ids d id t : TradeDto_into_domain ids d id = inl t → tr_account_id t = id.
Proof.
  unfold TradeDto_into_domain. destruct (order_side_of (td_side d)), (trade_side_of (td_trade_side d));
    intros E; try done.
  injection E as <-. by case_match.
Qed.

(** The filter on the reference trades removes nothing: they are all made for
    one account drawn at random, not for the account they came from. *)
Lemma cross_filter_inert env id req c :
  he_cross_account_id env ≠ id →
  cross_trades_of env id req c
  = trades_of (he_cross_trade_ids env) (he_cross_account_id env) (ir_cross_reference_trades req) c.
Proof.
  intros Hne. unfold cross_trades_of, trades_of. set (rs := imap _ _).
  unfold api_bind, api_all. destruct (head _); [done|]. cbn [api_ok obind]. unfold api_ok. do 3 f_equal.
  assert (Hall : Forall (fun r => match r with inl t => tr_account_id t = he_cross_account_id env
                                   | inr _ => True end) rs).
  { subst rs. apply Forall_lookup. intros i r Hr. apply list_lookup_imap_Some in Hr as (d & _ & ->).
    destruct (TradeDto_into_domain _ _ _) eqn:E; [|done]. by apply trade_account in E. }
  induction Hall as [|[t|e] rs' Ht _ IH]; simpl; [done| |done].
  rewrite bool_decide_false by congruence. simpl. f_equal. exact IH.
Qed.

(** An applied decision errs only when a promotion has no next phase. *)
Lemma decision_errs a d at_ actor e :
  apply_decision a d at_ actor = Err e →
  plan_phase (acc_plan a) = FundedPhase
  ∧ (acc_status a = StActive ∨ acc_status a = StTargetHitPending)
  ∧ plan_min_trading_days (acc_plan a) ≤ acc_active_trading_days a.
Proof.
  unfold apply_decision. intros E.
  destruct (decision_target_step a d at_) as [a1 ev1] eqn:E1.
  assert (Hp : acc_plan a1 = acc_plan a ∧ acc_active_trading_days a1 = acc_active_trading_days a
    ∧ (acc_status a1 = acc_status a ∨ acc_status a = StActive)).
  { unfold decision_target_step, AccountState_mark_target_reached in E1.
    destruct (Decision_is_target_hit d); simplify_eq/=; [|by auto].
    destruct (acc_target_reached_at a); [by auto|]. case_bool_decide; simpl; auto. }
  destruct Hp as (Hplan & Hdays & Hst). unfold decision_promotion_step in E.
  destruct (promotion_due a1) eqn:Hdue; simpl in E.
  2: { exfalso. revert E. apply errless_bind; [apply terminate_errless|]. by intros []. }
  unfold promotion_due in Hdue. apply andb_true_iff in Hdue as [Hdue Hmin].
  apply andb_true_iff in Hdue as [_ Hs%bool_decide_eq_true]. apply Z.leb_le in Hmin.
  rewrite Hplan, Hdays in Hmin. rewrite Hs in Hst.
  split_and!; [|naive_solver|done]. rewrite <- Hplan.
  destruct (plan_phase (acc_plan a1)) eqn:Hph; [exfalso..|done];
    unfold AccountState_upgrade_phase in E; simpl in E; rewrite Hph in E; simpl in E;
    revert E; (apply errless_bind; [apply terminate_errless|by intros []]).
Qed.

(** A pure evaluation with default rules always gives a verdict. *)
Lemma evaluate_total fresh now now_reports a pack reg kind t inputs :
  (∀ rule, rule ∈ reg_rules reg → rule ∈ default_rules) →
  ∃ v, evaluate fresh now now_reports a pack reg kind t inputs = Ret v.
Proof.
  intros Hreg. unfold evaluate, RuleRegistry_evaluate.
  destruct (evaluate_rules_total fresh now_reports (pure_context a kind now t inputs) (reg_rules reg) 0)
    as (reports & -> & _); [| |by eexists].
  - intros rule Hr. by apply default_rules_enabled, Hreg.
  - intros rule fr Hr. by apply default_rules_settle, Hreg.
Qed.

(** The handlers do not use the crate's own mapping of errors: the promotion
    of a funded account is a server error here and would be the caller's
    there. *)
Lemma promotion_error_shapes a d at_ actor e :
  apply_decision a d at_ actor = Err e →
  erp_status (Error_into_response e) = BAD_REQUEST
  ∧ ∀ c, ∃ msg, api_of INTERNAL_SERVER_ERROR (apply_decision a d at_ actor) c
                = Ret (inr (INTERNAL_SERVER_ERROR, msg), c).
Proof.
  intros E. split; [|intros c; unfold api_of; rewrite E; by eexists].
  unfold apply_decision in E. destruct (decision_target_step a d at_) as [a1 ev1].
  destruct (decision_promotion_step a1 at_) as [[a2 ev2]|e'| |] eqn:E2; simpl in E; try done.
  - exfalso. revert E. apply errless_bind; [apply terminate_errless|]. by intros [].
  - injection E as <-. unfold decision_promotion_step in E2. case_if_in E2; [|done].
    unfold AccountState_upgrade_phase in E2. simpl in E2.
    destruct (plan_phase (acc_plan a1)); simpl in E2; simplify_eq/=; done.
Qed.

(** A funded account with its minimum days done, whose promotion has no next
    phase. *)
Definition funded_promotion (req : InternalEvaluateRequest) : Prop :=
  ∃ acc, ir_account_state req = Some acc ∧ plan_phase (acc_plan acc) = FundedPhase
    ∧ (acc_status acc = StActive ∨ acc_status acc = StTargetHitPending)
    ∧ plan_min_trading_days (acc_plan acc) ≤ acc_active_trading_days acc.

Lemma impl_rejections env tenant req c st msg c' :
  cache_default (sv_cache c) →
  evaluate_internal_impl env tenant req c = Ret (inr (st, msg), c') →
  client_error st ∨ st = INTERNAL_SERVER_ERROR ∧ funded_promotion req.
Proof.
  intros Hcache Hrej. unfold evaluate_internal_impl in Hrej.
  reject_step Hrej id Hid.
  apply account_id_inv in Hid as [_ ->].
  reject_step Hrej srcs Hsrc. destruct srcs as [src bt].
  apply request_source_inv in Hsrc as (-> & _).
  reject_step Hrej acc Hacc.
  apply api_some_inv in Hacc as [Hacc ->].
  reject_step Hrej u Hval.
  apply validated_inv in Hval as (_ & _ & ->).
  destruct (AccountStatus_evaluation_mode (acc_status acc)); [|done].
  reject_step Hrej u1 Hpack. apply api_when_inv in Hpack as [_ ->].
  reject_step Hrej reg Hreg.
  reject_step Hrej xs Hxs.
  reject_step Hrej inp Hin.
  destruct inp as [[[[acc' ps] ts] t] tick].
  apply request_inputs_inv in Hin as (_ & Hs & Hp & Hdays & _).
  reject_step Hrej u2 Hst. right.
  assert (Hdef : ∀ rule, rule ∈ reg_rules reg → rule ∈ default_rules).
  { unfold api_registry in Hreg. apply bind_Ret_inv in Hreg as ([r cache] & Hreg & Er).
    injection Er as <- _. exact (proj1 (get_or_build_default _ _ _ _ Hcache Hreg)). }
  apply api_bind_rejects in Hrej as [E|(v & ? & _ & E)].
  { exfalso. edestruct evaluate_total as [v Hv]; [exact Hdef|]. unfold api_of in E. rewrite Hv in E.
    discriminate E. }
  apply api_bind_rejects in E as [E|([new evs] & ? & _ & E)].
  - unfold api_of in E. destruct (apply_decision _ _ _ _) as [|e'| |] eqn:Ed; try discriminate E.
    injection E as <- _ _. split; [done|]. exists acc. split; [done|].
    apply decision_errs in Ed. destruct (raise_peaks_kept src acc') as (_ & Es & Ep & Ea).
    rewrite Es, Ep, Ea in Ed. by rewrite <- Hs, <- Hp, <- Hdays.
  - exfalso. revert E. apply (refuses_bind (fun _ => False)); [apply refuses_run|].
    intros h. apply refuses_ok.
Qed.

End Answers.

(** ** Floor hints *)

Section Hints.
Context `{DL : DecimalLaws} `{ChronoOps}.

Abbreviation PctFits := (Fits 6 6).

(** The cents of an amount, toward zero. *)
Lemma to_cents_spec k s m :
  Fits k s m → (k + 3 ≤ 28 ∧ s ≤ 28 ∧ k ≤ s + 16)%nat → to_cents m = Ret (q_trunc (100 * dval m)).
Proof.
  intros Hm Hk. destruct (dmul_fits _ _ _ _ _ _ Hm dec_new_100_fits) as (c & Hc & Ec & _); [lia|].
  unfold to_cents. rewrite Hc. cbn [obind].
  assert (E : (dval c == 100 * dval m)%Q) by (rewrite Ec, dval_new_int by lia; ring).
  rewrite <- E. rewrite dec_to_i64_trunc; [done|]. rewrite E.
  apply (Z.le_lt_trans _ (ten_to 18)); [|done]. apply q_trunc_bound.
  destruct Hm as (n & Hn & En). rewrite En, Qabs_Qmult. apply (scaled_cents_bound _ k); [done|lia].
Qed.

(** [hinted h q]: the hint is the amount [q] in cents, toward zero. *)
Definition hinted (h : option Z) (q : Q) : Prop := h = Some (q_trunc (100 * q)).

#[local] Instance hinted_proper h : Proper (Qeq ==> iff) (hinted h).
Proof. intros q q' E. unfold hinted. by rewrite E. Qed.

Lemma total_floor_spec a :
  AmountsFit a → PctFits (plan_max_total_drawdown_pct (acc_plan a)) →
  plan_drawdown_on_balance (acc_plan a) = false →
  ∃ f, total_floor a = Ret f ∧ Fits 22 10 f
    ∧ (dval f == max_floor a (plan_max_loss_reference (acc_plan a))
                   (dval (plan_max_total_drawdown_pct (acc_plan a))))%Q.
Proof.
  intros Ha Hp Hb. set (pct := plan_max_total_drawdown_pct (acc_plan a)) in *.
  destruct (floor_step pct _ _ Hp (af_initial _ Ha) (af_initial _ Ha)) as (b & _ & Hbuf & _).
  destruct (max_floor_spec a (plan_max_loss_reference (acc_plan a)) pct Ha Hp) as (f & Hf & Ef & Ff).
  exists f. split_and!; [|done..]. unfold total_floor. fold pct. rewrite Hbuf. simpl.
  destruct (plan_max_loss_reference (acc_plan a)); simpl in Hf; rewrite ?Hb, ?Hbuf in Hf; simpl in Hf;
    repeat (apply bind_Ret_inv in Hf as (? & ? & Hf));
    repeat match goal with E : _ = Ret _ |- _ => lazymatch E with Hf => fail | _ => rewrite E; clear E; simpl end end;
    simplify_eq/=; done.
Qed.

(** The daily floor as the hint computes it: from the reference of the
    limit, which is the initial balance for a limit of the initial balance,
    though the rule measures that day's loss from the start of the day. *)
Lemma daily_hint_spec a reference base :
  AmountsFit a → PctFits (plan_max_daily_drawdown_pct (acc_plan a)) →
  plan_drawdown_on_balance (acc_plan a) = false →
  (0 < dval (plan_max_daily_drawdown_pct (acc_plan a)))%Q →
  daily_basis a = Some (reference, base) →
  ∃ h, floor_daily_hint a = Ret h
    ∧ hinted h (dval reference - dval (plan_max_daily_drawdown_pct (acc_plan a)) * dval reference)%Q.
Proof.
  intros Ha Hp Hb Hpos Hbasis. set (pct := plan_max_daily_drawdown_pct (acc_plan a)) in *.
  destruct (daily_reference_spec a reference base Ha Hbasis) as (Hr & _).
  destruct (floor_step pct _ _ Hp Hr Hr) as (b & f & Hm & Hs & Ef & Ff).
  pose proof (to_cents_spec _ _ _ Ff ltac:(lia)) as Hc.
  eexists. split; [|rewrite <- Ef; reflexivity].
  unfold floor_daily_hint. fold pct. rewrite Hb. unfold daily_basis in Hbasis. rewrite Hb in Hbasis.
  assert (dec_gtb pct dec_zero = true) as -> by (apply dec_ltb_spec; by rewrite dval_zero).
  destruct (plan_daily_loss_type (acc_plan a)); simplify_eq/=; rewrite Hm; simpl; rewrite Hs; simpl;
    rewrite Hc; reflexivity.
Qed.

Lemma target_hint_spec a :
  AmountsFit a → PctFits (plan_profit_target_pct (acc_plan a)) →
  (0 < dval (plan_profit_target_pct (acc_plan a)))%Q →
  ∃ h, target_hint a = Ret h
    ∧ hinted h (dval (acc_initial_balance a)
                + dval (plan_profit_target_pct (acc_plan a)) * dval (acc_initial_balance a))%Q.
Proof.
  intros Ha Hp Hpos. set (pct := plan_profit_target_pct (acc_plan a)) in *.
  pose proof (af_initial _ Ha) as Hi.
  destruct (dmul_fits _ _ _ _ _ _ Hp Hi) as (b & Hm & Eb & Fb); [lia|].
  destruct (dadd_fits 21 10 _ _ _ _ _ _ Hi Fb) as (f & Hs & Ef & Ff); [simpl; lia|].
  pose proof (to_cents_spec _ _ _ Ff ltac:(lia)) as Hc.
  eexists. split; [|rewrite <- Eb, <- Ef; reflexivity].
  unfold target_hint. fold pct.
  assert (dec_gtb pct dec_zero = true) as -> by (apply dec_ltb_spec; by rewrite dval_zero).
  rewrite Hm. simpl. rewrite Hs. simpl. rewrite Hc. reflexivity.
Qed.

End Hints.

(** ** Retries *)

(** [keeps_store m]: [m] leaves the idempotency store alone. *)
Section Store.
Context `{DecimalOps} `{ChronoOps} `{!JsonOps}.

Definition keeps_store {A} (m : api A) : Prop :=
  ∀ c r c', m c = Ret (r, c') → sv_idempotency c' = sv_idempotency c.

Lemma keeps_ok {A} (a : A) : keeps_store (api_ok a).
Proof. by intros c r c' [= _ <-]. Qed.

Lemma keeps_reject {A} st msg : keeps_store (api_reject (A := A) st msg).
Proof. by intros c r c' [= _ <-]. Qed.

Lemma keeps_bind {A B} (m : api A) (f : A → api B) :
  keeps_store m → (∀ a, keeps_store (f a)) → keeps_store (api_bind m f).
Proof.
  intros Hm Hf c r c' ([[a|e] c1] & E & E')%bind_Ret_inv.
  - rewrite (Hf _ _ _ _ E'). by eapply Hm.
  - injection E' as _ <-. by eapply Hm.
Qed.

Lemma keeps_some {A} st msg (o : option A) : keeps_store (api_some st msg o).
Proof. destruct o; [apply keeps_ok|apply keeps_reject]. Qed.

Lemma keeps_when b st msg : keeps_store (api_when b st msg).
Proof. destruct b; [apply keeps_reject|apply keeps_ok]. Qed.

Lemma keeps_of {A} st (m : outcome A) : keeps_store (api_of st m).
Proof. intros c r c' E. unfold api_of in E. by destruct m; simplify_eq. Qed.

Lemma keeps_run {A} (m : outcome A) : keeps_store (api_run m).
Proof. by intros c r c' (a & _ & [= _ <-])%bind_Ret_inv. Qed.

Lemma keeps_all {A} (rs : list (A + string)) : keeps_store (api_all rs).
Proof. unfold api_all. case_match; [apply keeps_reject|apply keeps_ok]. Qed.

Lemma keeps_registry `{!HashOps} plan : keeps_store (api_registry plan).
Proof. by intros c r c' ([? ?] & _ & [= _ <-])%bind_Ret_inv. Qed.

End Store.

#[export] Hint Resolve keeps_ok keeps_reject keeps_bind keeps_some keeps_when keeps_of keeps_run
  keeps_all keeps_registry : api.

Section Retries.
Context `{HO : HashOps} `{!JsonOps} `{!Sha256Ops} `{!UuidOps} `{!TimeText} `{!SerdeOps}.

Lemma impl_keeps_store env tenant req : keeps_store (evaluate_internal_impl env tenant req).
Proof.
  unfold evaluate_internal_impl, parse_account_id, request_source, validate_account_state,
    cross_trades_of, request_inputs, trades_of.
  repeat first [apply keeps_bind; [|intros ?] | case_match | progress auto with api].
Qed.

Definition evaluate_endpoint : string := "POST /internal/v1/evaluate".

(** An accepted request that carries a key. *)
Lemma keyed_inv env np ni headers key req c r c' :
  headers "Idempotency-Key" = Some key →
  evaluate_internal env np ni headers req c = Ret (inl r, c') →
  ∃ tenant body resp text o,
    headers "X-Tenant-Id" ≫= uuid_parse = Some tenant ∧ request_to_string req = Some body
    ∧ response_to_string resp = Some text
    ∧ run_call (sv_idempotency c) (mkCall np ni tenant evaluate_endpoint key body text)
      = (o, sv_idempotency c')
    ∧ match o with
      | IoReplay cached => response_from_str cached = Some r
      | IoConflict => False
      | _ => r = resp
      end.
Proof.
  intros Hkey E. unfold evaluate_internal in E.
  apply api_timed_inv in E as (c0 & E & [_ Hc']). rewrite Hc'. clear Hc' c'.
  apply api_bind_ok in E as (tenant & c1 & Ht & E).
  assert (c1 = c) as -> by (unfold extract_tenant_id in Ht; by api_inv).
  apply tenant_inv in Ht.
  apply api_bind_ok in E as (r' & c1 & E & (u1 & c2 & [_ L1]%api_log_inv & E')%api_bind_ok).
  apply api_bind_ok in E' as (u2 & c3 & L2 & [-> ->]%api_ok_inv).
  assert (Hst : sv_idempotency c3 = sv_idempotency c1).
  { rewrite <- L1. cbv zeta in L2. destruct (negb _); [by apply api_log_inv in L2 as [_ ?]|by apply api_ok_inv in L2 as [_ ->]]. }
  rewrite Hst. clear Hst L1 L2 u1 u2 c2 c3. unfold evaluate_keyed in E. rewrite Hkey in E.
  rename c1 into c'.
  apply api_bind_ok in E as (body & c2 & Hb & E). apply api_some_inv in Hb as [Hb ->].
  apply api_bind_ok in E as (resp & c3 & Hr & E). apply impl_keeps_store in Hr.
  apply api_bind_ok in E as (text & c4 & Hs & E). apply api_some_inv in Hs as [Hs ->].
  apply api_bind_ok in E as (o & c5 & Ho & E). unfold api_idempotent in Ho. rewrite Hr in Ho.
  exists tenant, body, resp, text, o. split_and!; [done..| |].
  - unfold run_call. simpl. destruct (check_and_remember _ _ _ _ _ _ _ _) as [o' s'].
    injection Ho as -> <-. f_equal.
    destruct o; apply api_bind_ok in E as (? & ? & [_ Hl]%api_log_inv & E); api_inv; simplify_eq/=; congruence.
  - destruct o; by api_inv.
Qed.

(** *** Rejections *)

(** The key is held for another body. *)
Definition key_reused (np : Z) headers req (c : ApiState) : Prop :=
  ∃ tenant key body entry,
    headers "X-Tenant-Id" ≫= uuid_parse = Some tenant ∧ headers "Idempotency-Key" = Some key
    ∧ request_to_string req = Some body
    ∧ in_entries (prune np (is_ttl (sv_idempotency c)) (is_inner (sv_idempotency c)))
        !! composite_key (Some tenant) evaluate_endpoint key = Some entry
    ∧ en_body_hash entry ≠ hash_body body.

(** The response cannot be written, or the one held for the key not read. *)
Definition serde_fails (env : ApiEnv) (np : Z) headers req (c : ApiState) : Prop :=
  ∃ tenant key,
    headers "X-Tenant-Id" ≫= uuid_parse = Some tenant ∧ headers "Idempotency-Key" = Some key
    ∧ ((∃ resp c', evaluate_internal_impl env tenant req c = Ret (inl resp, c')
          ∧ response_to_string resp = None)
       ∨ ∃ entry,
          in_entries (prune np (is_ttl (sv_idempotency c)) (is_inner (sv_idempotency c)))
            !! composite_key (Some tenant) evaluate_endpoint key = Some entry
          ∧ response_from_str (en_response entry) = None).

Lemma api_some_rejects {A} st msg (o : option A) e c c' :
  api_some st msg o c = Ret (inr e, c') → o = None ∧ e = (st, msg).
Proof. destruct o; by intros [= <- _]. Qed.

(** The outcome of a call, read off the store. *)
Lemma idempotent_inv np ni tenant key body text c o c' :
  api_idempotent np ni tenant evaluate_endpoint key body text c = Ret (inl o, c') →
  let held := in_entries (prune np (is_ttl (sv_idempotency c)) (is_inner (sv_idempotency c)))
                !! composite_key (Some tenant) evaluate_endpoint key in
  match o with
  | IoReplay cached => ∃ entry, held = Some entry ∧ en_response entry = cached
  | IoConflict => ∃ entry, held = Some entry ∧ en_body_hash entry ≠ hash_body body
  | _ => True
  end.
Proof.
  unfold api_idempotent, check_and_remember. intros E. cbv zeta.
  destruct (in_entries _ !! _) as [entry|]; [|by injection E as <- _].
  injection E as <- _. case_bool_decide; eauto.
Qed.

Lemma keyed_rejections env np ni headers tenant req c st msg c' :
  cache_default (sv_cache c) → headers "X-Tenant-Id" ≫= uuid_parse = Some tenant →
  evaluate_keyed env np ni headers tenant req c = Ret (inr (st, msg), c') →
  client_error st ∨ st = CONFLICT ∧ key_reused np headers req c
  ∨ st = INTERNAL_SERVER_ERROR ∧ (funded_promotion req ∨ serde_fails env np headers req c).
Proof.
  intros Hcache Ht E. unfold evaluate_keyed in E.
  destruct (headers "Idempotency-Key") as [key|] eqn:Hkey.
  2:{ apply impl_rejections in E; [|done]. naive_solver. }
  apply api_bind_rejects in E as [[_ [= -> _]]%api_some_rejects|(body & c1 & [Hb ->]%api_some_inv & E)].
  { left. left. }
  apply api_bind_rejects in E as [E|(resp & c2 & Hr & E)].
  { apply impl_rejections in E; [|done]. naive_solver. }
  apply impl_keeps_store in Hr as Hst.
  apply api_bind_rejects in E as [[Hn [= -> _]]%api_some_rejects|(text & c3 & [Hs ->]%api_some_inv & E)].
  { right. right. split; [done|]. right. exists tenant, key. split_and!; [done..|]. left. eauto. }
  apply api_bind_rejects in E as [E|(o & c4 & Ho & E)].
  { unfold api_idempotent in E. by destruct (check_and_remember _ _ _ _ _ _ _ _). }
  apply (idempotent_inv np ni tenant key body text) in Ho. rewrite Hst in Ho.
  destruct o as [|cached| |]; (apply api_bind_rejects in E as [E|(u & c5 & _ & E)]; [done|]); try done.
  - destruct Ho as (entry & Hl & <-). apply api_some_rejects in E as [Hn [= -> _]].
    right. right. split; [done|]. right. exists tenant, key. split_and!; [done..|]. right. eauto.
  - apply api_bind_rejects in E as [E|(u' & c6 & _ & [= <- _ _])]; [done|].
    destruct Ho as (entry & Hl & Hne). right. left. split; [done|].
    exists tenant, key, body, entry. by split_and!.
Qed.

(** C20: who a rejection blames.  The evaluate handler, on a server whose
    cache holds default registries, rejects a request as malformed (400), as
    not the tenant's (403) or as stale (422); as a conflict (409) only when
    its idempotency key is held for a body with another hash; and with a
    server error (500) only for a funded account that is active or waiting
    with its minimum trading days done, for which a promotion has no next
    phase, or for a request with a key when the response cannot be serialised
    or the one held for the key cannot be read back. *)
Theorem rejections_blame_request env np ni headers req c st msg c'
    (Hcache : cache_default (sv_cache c))
    (Hrej : evaluate_internal env np ni headers req c = Ret (inr (st, msg), c')) :
  client_error st
  ∨ st = CONFLICT ∧ key_reused np headers req c
  ∨ st = INTERNAL_SERVER_ERROR ∧ (funded_promotion req ∨ serde_fails env np headers req c).
Proof.
  unfold evaluate_internal in Hrej. apply api_timed_inv in Hrej as (c0 & E & _).
  apply api_bind_rejects in E as [E|(tenant & c1 & Ht & E)].
  { left. unfold extract_tenant_id in E.
    apply api_bind_rejects in E as [[_ [= -> _]]%api_some_rejects|(x & c2 & _ & [_ [= -> _]]%api_some_rejects)];
      left. }
  assert (c1 = c) as -> by (unfold extract_tenant_id in Ht; by api_inv). apply tenant_inv in Ht.
  apply api_bind_rejects in E as [E|(r & c2 & _ & E)]; [by eapply keyed_rejections|].
  exfalso. apply api_bind_rejects in E as [E|(u & c3 & _ & E)]; [done|].
  apply api_bind_rejects in E as [E|(u' & c4 & _ & E)]; [|done].
  cbv zeta in E. by destruct (negb _).
Qed.

(** *** Replays *)

(** C17: a retry gets the first response.  After a request with a key that
    was not yet held is accepted, and any further traffic that brings fewer
    fresh keys than the store has room for, a request with the same key
    within the time to live is accepted only if its body has the same hash,
    and its response is then the first one, whatever the new evaluation
    said. *)
Theorem retry_gets_first_response env env' np ni np' ni' headers key req req' resp c c1 cs os c2 r c3
    (Hkey : headers "Idempotency-Key" = Some key) (Hok : store_ok (sv_idempotency c))
    (Hnew : ∀ tenant, in_entries (prune np (is_ttl (sv_idempotency c)) (is_inner (sv_idempotency c)))
                        !! composite_key (Some tenant) evaluate_endpoint key = None)
    (Hfirst : evaluate_internal env np ni headers req c = Ret (inl resp, c1))
    (Hrun : run_calls (sv_idempotency c1) cs = (os, sv_idempotency c2))
    (Hlive : Forall (fun d => call_prune d - ni ≤ is_ttl (sv_idempotency c)) cs)
    (Hlive' : np' - ni ≤ is_ttl (sv_idempotency c)) (Httl : 0 ≤ is_ttl (sv_idempotency c))
    (Hcap : (fresh_count os < is_capacity (sv_idempotency c))%nat)
    (Hserde : ∀ text, response_to_string resp = Some text → response_from_str text = Some resp)
    (Hagain : evaluate_internal env' np' ni' headers req' c2 = Ret (inl r, c3)) :
  r = resp ∧ hash_body <$> request_to_string req' = hash_body <$> request_to_string req.
Proof.
  destruct (keyed_inv _ _ _ _ _ _ _ _ _ Hkey Hfirst) as (t & b & resp1 & text & o & Ht & Hb & Hs & Hcall & Ho).
  destruct (keyed_inv _ _ _ _ _ _ _ _ _ Hkey Hagain) as (t' & b' & resp2 & text' & o' & Ht' & Hb' & _ & Hcall' & Ho').
  rewrite Ht in Ht'. injection Ht' as <-.
  assert (o = IoFresh) as ->.
  { unfold run_call, check_and_remember in Hcall.
    cbn [call_prune call_insert call_tenant call_endpoint call_key] in Hcall. rewrite Hnew in Hcall.
    by injection Hcall as <- _. }
  subst resp1. set (call := mkCall np ni t evaluate_endpoint key b text) in *.
  set (call' := mkCall np' ni' t evaluate_endpoint key b' text') in *.
  assert (Hheld : fst (run_call (sv_idempotency c2) call')
    = if bool_decide (hash_body b = hash_body b') then IoReplay text else IoConflict).
  { apply (key_held_once _ call _ cs os _ call' Hok Hcall Hrun); [|done..].
    by constructor. }
  rewrite Hcall' in Hheld. simpl in Hheld. rewrite Hb, Hb'. simpl.
  case_bool_decide as Hh; subst o'; [|done]. rewrite (Hserde _ Hs) in Ho'. injection Ho' as <-.
  split; [done|]. by rewrite Hh.
Qed.

End Retries.

(** ** Overrides *)

Section Overrides.
Context `{HO : HashOps} `{!JsonOps} `{!Sha256Ops} `{!UuidOps} `{!TimeText}.

(** The conditions that passed. *)
Ltac guards := repeat match goal with
  | H : negb (bool_decide _) = false |- _ => apply negb_false_iff, bool_decide_eq_true in H
  | H : negb _ = false |- _ => apply negb_false_iff in H
  end.


End Overrides.

(** ** Witnesses *)

Import Samples PipelineSamples ApiSamples HandlerSamples.

(** The status and message of a rejection. *)
Definition rejected {A} (m : outcome ((A + HttpError) * ApiState)) : option Z :=
  match m with Ret (inr e, _) => Some (fst e) | _ => None end.

Definition accepted {A} (m : outcome ((A + HttpError) * ApiState)) : bool :=
  match m with Ret (inl _, _) => true | _ => false end.

(** A request of the caller for another tenant's account. *)
Lemma rejections_blame_request_witness :
  let req := request (account <| acc_tenant_id := 10 |>) noon in
  ∃ msg c', evaluate_internal (api_env noon) 0 0 headers req server = Ret (inr (FORBIDDEN, msg), c')
    ∧ client_error FORBIDDEN.
Proof.
  intros req.
  assert (Hr : rejected (evaluate_internal (api_env noon) 0 0 headers req server) = Some FORBIDDEN)
    by (vm_compute; reflexivity).
  destruct (evaluate_internal (api_env noon) 0 0 headers req server)
    as [[[resp|[st msg]] c']|?| |] eqn:E; try discriminate Hr.
  apply (inj Some) in Hr. simpl in Hr. subst st. exists msg, c'. split; [reflexivity|].
  destruct (rejections_blame_request (api_env noon) 0 0 headers req server FORBIDDEN msg c'
    (empty_cache_default) E) as [Hc|[[Hc _]|[Hc _]]]; [exact Hc|discriminate Hc|discriminate Hc].
Defined.

Lemma parse_nine : uuid_parse (uuid_display 9) = Some 9.
Proof. by apply uuid_parse_display. Qed.

Lemma skips_done :
  evaluate_internal_impl (api_env noon) 9 (request done_account noon) server
  = Ret (inl (not_evaluated done_account), server).
Proof.
  unfold evaluate_internal_impl, parse_account_id, request_source, validate_account_state.
  cbn [request ir_account_id ir_bridge_tick ir_equity_source ir_account_state].
  rewrite (uuid_parse_display 7) by done.
  change (acc_id done_account) with 7. change (acc_tenant_id done_account) with 9. reflexivity.
Qed.

Lemma writes_done : response_to_string (not_evaluated done_account) = Some (uuid_display 7).
Proof. reflexivity. Qed.

Lemma reads_done : response_from_str (uuid_display 7) = Some (not_evaluated done_account).
Proof. cbn [response_from_str PlainSerde]. rewrite (uuid_parse_display 7) by done. reflexivity. Qed.

Lemma empty_store_fresh t key body text :
  fst (check_and_remember 0 0 (sv_idempotency server) t "POST /internal/v1/evaluate" key body text)
  = IoFresh.
Proof. unfold check_and_remember. cbv zeta. rewrite prune_lookup. reflexivity. Qed.

Lemma retry_gets_first_response_witness :
  ∃ resp c1, evaluate_internal (api_env noon) 0 0 headers (request done_account noon) server
             = Ret (inl resp, c1)
    ∧ ∀ r c3, evaluate_internal (api_env noon) 5 5 headers (request done_account noon) c1
              = Ret (inl r, c3) → r = resp.
Proof.
  assert (Hr : ∃ c1, evaluate_internal (api_env noon) 0 0 headers (request done_account noon) server
    = Ret (inl (not_evaluated done_account), c1)).
  { unfold evaluate_internal, evaluate_keyed, extract_tenant_id, api_timed, api_bind.
    change (headers "X-Tenant-Id") with (Some (uuid_display 9)).
    change (headers "Idempotency-Key") with (Some "key"%string). cbn [api_some api_ok obind].
    rewrite parse_nine. cbn [request_to_string PlainSerde api_some api_ok obind]. rewrite skips_done.
    cbn [obind]. rewrite writes_done. cbn [api_some api_ok obind]. unfold api_idempotent.
    pose proof (empty_store_fresh 9 "key" (ir_account_id (request done_account noon)) (uuid_display 7)) as Hf.
    destruct (check_and_remember _ _ _ _ _ _ _ _) as [o s]. cbn [fst] in Hf. subst o.
    eexists. reflexivity. }
  destruct Hr as [c1 Hr]. exists (not_evaluated done_account), c1. split; [exact Hr|].
  intros r c3 Ha.
  refine (proj1 (retry_gets_first_response (api_env noon) (api_env noon) 0 0 5 5 headers "key"
    (request done_account noon) (request done_account noon) (not_evaluated done_account)
    server c1 [] [] c1 r c3 _ _ _ Hr eq_refl _ _ _ _ _ Ha)).
  - reflexivity.
  - apply new_store_ok.
  - reflexivity.
  - constructor.
  - vm_compute. discriminate.
  - vm_compute. discriminate.
  - vm_compute. lia.
  - intros text Ht. rewrite writes_done in Ht. revert Ht. generalize reads_done.
    generalize (uuid_display 7). intros w Hw Ht. assert (text = w) as -> by congruence. exact Hw.
Defined.

