(* ===== verification/HintFacts.v ===== *)
(** The floor hints of a response against the rules they announce: each hint
    is, in cents toward zero, the amount at which a rule acts, where the two
    agree, and the difference where they do not. *)

From S2P Require Import Prelude.
From S2P Require Import Decimal.
From S2P Require Import Chrono.
From S2P Require Import Ids.
From S2P Require Import Domain.
From S2P Require Import Plan.
From S2P Require Import Account.
From S2P Require Import Violation.
From S2P Require Import Pack.
From S2P Require Import RuleApi.
From S2P Require Import DrawdownRules.
From S2P Require Import TargetRules.
From S2P Require Import Api.
From S2P Require Import Samples.
From S2P Require Import DrawdownFacts.
From S2P Require Import RuleFacts.
From S2P Require Import LivenessFacts.
From S2P Require Import CauseFacts.
From S2P Require Import TickCauses.
From S2P Require Import HandlerFacts.

Section HintFacts.
Context `{DL : DecimalLaws} `{CL : ChronoLaws} `{!JsonOps}.
Implicit Types a : Account.

(** A started account, looked at with the equity it holds. *)
Record judged_on_equity a (ctx : RuleContext) : Prop := mkJudgedOnEquity {
  je_account : ctx_account ctx = a;
  je_started : RuleContext_require_started ctx = true;
  je_broker : ∃ bal, ctx_equity_input ctx = BrokerReported (acc_equity a) bal;
}.

(** The amounts the plan announces: the floor of its basis, the day's base
    less the limit, and the balance with the target in it. *)
Definition plan_floor a : Q :=
  max_floor a (plan_max_loss_reference (acc_plan a)) (dval (plan_max_total_drawdown_pct (acc_plan a))).

Definition plan_daily_floor a (reference base : Money) : Q :=
  (dval base - dval (plan_max_daily_drawdown_pct (acc_plan a)) * dval reference)%Q.

Definition plan_goal a : Q :=
  (dval (acc_initial_balance a)
   + dval (plan_profit_target_pct (acc_plan a)) * dval (acc_initial_balance a))%Q.

(** A day's loss over the limit is equity under the day's floor. *)
Lemma daily_exceeded_floor a reference base :
  plan_drawdown_on_balance (acc_plan a) = false → plan_daily_loss_soft (acc_plan a) = false →
  (0 < dval (plan_max_daily_drawdown_pct (acc_plan a)))%Q → (0 < dval reference)%Q →
  daily_basis a = Some (reference, base) →
  (daily_exceeded a ↔ (dval (acc_equity a) < plan_daily_floor a reference base - (1 # 100))%Q).
Proof.
  intros Hon Hsoft Hpct Href Hb. unfold daily_exceeded, plan_daily_floor, daily_current. rewrite Hon.
  set (pct := dval (plan_max_daily_drawdown_pct (acc_plan a))) in *.
  assert (0 < pct * dval reference)%Q as Hl by by apply Qmult_lt_0_compat.
  set (lim := (pct * dval reference)%Q) in *. split.
  - intros (_ & _ & r & b & Hrb & Hlt). rewrite Hb in Hrb. injection Hrb as <- <-. fold lim in Hlt.
    destruct (Q.max_spec (dval base - dval (acc_equity a)) 0) as [[? E]|[? E]]; rewrite E in Hlt; lra.
  - intros Hlt. split_and!; [done|done|]. exists reference, base. split; [done|]. fold lim.
    rewrite Q.max_l; lra.
Qed.

(** The hints, as the handler computes them. *)
Lemma hints_values a reference base :
  AmountsFit a → PlanFits (acc_plan a) → plan_drawdown_on_balance (acc_plan a) = false →
  (0 < dval (plan_max_total_drawdown_pct (acc_plan a)))%Q →
  (0 < dval (plan_max_daily_drawdown_pct (acc_plan a)))%Q →
  (0 < dval (plan_profit_target_pct (acc_plan a)))%Q →
  daily_basis a = Some (reference, base) →
  let daily := plan_daily_floor a reference base in
  ∃ h, compute_floor_hints a = Ret (Some h) ∧ fh_floors_version h = acc_version a
    ∧ hinted (fh_floor_total_cents h) (plan_floor a)
    ∧ hinted (fh_target_equity_cents h) (plan_goal a)
    ∧ hinted (fh_floor_daily_cents h)
        (if bool_decide (plan_daily_loss_type (acc_plan a) = DltPctInitial)
         then daily + (dval (acc_initial_balance a) - dval base) else daily)%Q.
Proof.
  intros Ha [Hday Htot Htgt] Hon Htot0 Hday0 Htgt0 Hbasis daily.
  destruct (total_floor_spec a Ha Htot Hon) as (f & Hf & Ff & Ef).
  pose proof (to_cents_spec _ _ _ Ff ltac:(lia)) as Hc.
  destruct (daily_hint_spec a reference base Ha Hday Hon Hday0 Hbasis) as (hd & Hhd & Hd).
  destruct (target_hint_spec a Ha Htgt Htgt0) as (ht & Hht & Ht).
  unfold compute_floor_hints, floor_total_hint. rewrite Hhd, Hht, Hon, Hf. cbn [obind negb andb].
  assert (dec_gtb (plan_max_total_drawdown_pct (acc_plan a)) dec_zero = true) as ->
    by (apply dec_ltb_spec; by rewrite dval_zero).
  rewrite Hc. cbn [obind].
  exists (mkFloorHints hd (Some (q_trunc (100 * dval f))) ht (acc_version a)).
  split_and!; [by destruct hd, ht|done|unfold hinted; by rewrite <- Ef|done|].
  cbn [fh_floor_daily_cents]. unfold hinted in *. rewrite Hd. f_equal. apply q_trunc_proper.
  unfold daily, plan_daily_floor, daily_basis in *. rewrite Hon in Hbasis.
  destruct (plan_daily_loss_type (acc_plan a)); simplify_eq; case_bool_decide; try done; ring.
Qed.

(** C19: the hints are the rules' thresholds.  For a plan judged on equity
    with a daily loss type and positive daily, total and target percentages,
    on an account with positive initial balance and daily reference (and
    amounts of ordinary width), the response carries all three hints, in
    cents toward zero.  The total hint is the floor a cent below which the
    maximum-drawdown rule liquidates a started account on its equity.  The
    daily hint is the equity a cent below which a hard daily limit liquidates,
    when the limit is a percentage of the prior day or of the intraday high;
    for a percentage of the initial balance it takes the initial balance for
    the day's base, and is off by what the day started away from it.  The
    target hint, although it is named an equity, is the balance from which on
    the profit-target rule reports a target that was not reached before. *)
Theorem hints_match_rules a reference base
    (Ha : AmountsFit a) (Hplan : PlanFits (acc_plan a))
    (Hon : plan_drawdown_on_balance (acc_plan a) = false)
    (Htot : (0 < dval (plan_max_total_drawdown_pct (acc_plan a)))%Q)
    (Hday : (0 < dval (plan_max_daily_drawdown_pct (acc_plan a)))%Q)
    (Htgt : (0 < dval (plan_profit_target_pct (acc_plan a)))%Q)
    (Hinit : (0 < dval (acc_initial_balance a))%Q) (Href : (0 < dval reference)%Q)
    (Hbasis : daily_basis a = Some (reference, base)) :
  let daily := plan_daily_floor a reference base in
  (∃ h, compute_floor_hints a = Ret (Some h) ∧ fh_floors_version h = acc_version a
    ∧ hinted (fh_floor_total_cents h) (plan_floor a)
    ∧ hinted (fh_target_equity_cents h) (plan_goal a)
    ∧ hinted (fh_floor_daily_cents h)
        (if bool_decide (plan_daily_loss_type (acc_plan a) = DltPctInitial)
         then daily + (dval (acc_initial_balance a) - dval base) else daily))
  ∧ ∀ fr ctx, judged_on_equity a ctx →
      ((∃ x, MaxDrawdownRule_evaluate None fr ctx = Ret (VLiquidate x))
         ↔ (dval (acc_equity a) < plan_floor a - (1 # 100))%Q)
    ∧ (plan_daily_loss_soft (acc_plan a) = false →
       (∃ x, DailyDrawdownRule_evaluate None fr ctx = Ret (VLiquidate x))
         ↔ (dval (acc_equity a) < daily - (1 # 100))%Q)
    ∧ (acc_target_reached_at a = None →
       (∃ x, ProfitTargetRule_evaluate None fr ctx = Ret (VTargetHit x))
         ↔ (plan_goal a <= dval (acc_balance a))%Q).
Proof.
  intros daily. split; [by apply hints_values|]. intros fr ctx [<- Hs (bal & Hbk)].
  split_and!.
  - destruct (total_liquidates ctx _ _ Hbk Hs Ha (af_equity _ Ha) Hplan fr) as [Hto Hfrom].
    unfold total_exceeded, watched in *. rewrite Hon in *. split; [|intros; by apply Hto].
    intros (x & Hx). apply Hfrom. by exists (VLiquidate x).
  - intros Hsoft. unfold daily. rewrite <- daily_exceeded_floor by done.
    destruct (daily_liquidates ctx _ _ Hbk Hs Ha Hplan fr) as [Hto Hfrom].
    split; [|done]. intros (x & Hx). apply Hfrom. by exists (VLiquidate x).
  - intros Hnone. destruct (profit_target_verdict fr ctx) as (v & -> & Hv); try done; [apply Hplan|].
    rewrite Hnone in Hv. unfold plan_goal. destruct Hv as [Hhit Hmiss]. split.
    + intros (x & [= ->]). apply Qnot_lt_le. intros Hlt. specialize (Hmiss ltac:(lra)).
      destruct (acc_deadline (ctx_account ctx)); [case_match|]; naive_solver.
    + intros Hle. destruct Hhit as (x & ->); [lra|]. by exists x.
Qed.

End HintFacts.

(** ** Witness *)

Import Samples.

Lemma hints_match_rules_witness :
  (∃ h, compute_floor_hints account = Ret (Some h)
    ∧ fh_floor_total_cents h = Some 900000%Z ∧ fh_floor_daily_cents h = Some 950000%Z
    ∧ fh_target_equity_cents h = Some 1080000%Z)
  ∧ judged_on_equity account (tick_ctx account (acc_equity account)).
Proof.
  assert (Hj : judged_on_equity account (tick_ctx account (acc_equity account)))
    by (split; [reflexivity|reflexivity|eexists; reflexivity]).
  split; [|exact Hj].
  destruct (hints_match_rules account (money 10000) (money 10000)) as [(h & Hh & _ & Ht & Hg & Hd) Hr];
    [apply account_fits|split; [q_fits 50000%Z|q_fits 100000%Z|q_fits 80000%Z]|reflexivity..|].
  exists h. split; [exact Hh|]. split; [rewrite Ht|split; [rewrite Hd|rewrite Hg]];
    vm_compute; reflexivity.
Defined.
