(* ===== verification/OwnershipFacts.v ===== *)
(** * Whose account a response is about

    In every state a server reaches, the responses it holds for idempotency
    keys are about accounts of the tenant that used the key, so that no
    endpoint, replays included, answers for an account of another tenant. *)

From S2P Require Import Prelude.
From S2P Require Import Decimal.
From S2P Require Import Chrono.
From S2P Require Import Ids.
From S2P Require Import Domain.
From S2P Require Import Plan.
From S2P Require Import Account.
From S2P Require Import Violation.
From S2P Require Import Pack.
From S2P Require Import RuleApi.
#[local] Open Scope Z_scope.
From S2P Require Import Pipeline.
From S2P Require Import Hashing.
From S2P Require Import Pure.
From S2P Require Import Idempotency.
From S2P Require Import Api.
From S2P Require Import Samples.
From S2P Require Import PipelineSamples.
From S2P Require Import ApiSamples.
From S2P Require Import PureFacts.
From S2P Require Import IdempotencyFacts.
From S2P Require Import HandlerSamples.
From S2P Require Import ApiFacts.
From S2P Require Import HandlerFacts.
#[local] Open Scope api_scope.
#[local] Opaque RuleId_named Sip.hash_bytes.

(** Reading back a response that was written keeps the account's identifier
    and tenant, as a round trip through [serde_json] does. *)
Class SerdeLaws `(SO : SerdeOps) : Prop := {
  response_identity resp text r :
    response_to_string resp = Some text → response_from_str text = Some r →
    same_identity (is_account_state resp) (is_account_state r);
}.

(** ** The entries of the store *)

Lemma evict_kept capacity entries order k e :
  in_entries (evict capacity entries order) !! k = Some e → entries !! k = Some e.
Proof.
  revert entries. induction order as [|x order IH]; intros entries; cbn [evict]; [done|].
  destruct (_ <? _)%nat; [|done]. intros [_ E]%IH%lookup_delete_Some. exact E.
Qed.

Lemma prune_kept now ttl i k e :
  in_entries (prune now ttl i) !! k = Some e → in_entries i !! k = Some e.
Proof. rewrite prune_lookup. destruct (in_entries i !! k); [|done]. by case_match. Qed.

Section Ownership.
Context `{HO : HashOps} `{!JsonOps} `{!Sha256Ops} `{UL : UuidLaws} `{!TimeText}
  `{SO : !SerdeOps} `{SL : !SerdeLaws SO}.

(** An entry holds, under the tenant's key, the response to a request for an
    account of the tenant, and the hash of that request's body. *)
Definition owned_entry (ckey : string) (e : Entry) : Prop :=
  ∃ tenant key req body resp,
    uuid_ok tenant ∧ ckey = composite_key (Some tenant) evaluate_endpoint key
    ∧ request_to_string req = Some body ∧ en_body_hash e = hash_body body
    ∧ response_to_string resp = Some (en_response e)
    ∧ own_account tenant (ir_account_id req) (ir_account_state req) (is_account_state resp).

Definition store_owned (s : IdempotencyStore) : Prop :=
  map_Forall owned_entry (in_entries (is_inner s)).

Lemma remembered_owned np ni s tenant key req body resp text :
  store_owned s → uuid_ok tenant → request_to_string req = Some body →
  response_to_string resp = Some text →
  own_account tenant (ir_account_id req) (ir_account_state req) (is_account_state resp) →
  store_owned (snd (check_and_remember np ni s tenant evaluate_endpoint key body text)).
Proof.
  intros Hs Ht Hb Hr Hown. unfold check_and_remember. cbv zeta.
  destruct (in_entries (prune _ _ _) !! _) as [e0|]; intros k e Hk.
  - apply Hs. cbn [snd with_inner is_inner] in Hk. exact (prune_kept _ _ _ _ _ Hk).
  - cbn [snd with_inner is_inner] in Hk. unfold insert_entry in Hk. apply evict_kept in Hk.
    apply lookup_insert_Some in Hk as [[<- <-]|[_ Hk%prune_kept]]; [|by apply Hs].
    exists tenant, key, req, body, resp. by split_and!.
Qed.

Lemma endpoint_clean : no_nul evaluate_endpoint.
Proof. apply (bool_decide_unpack _). by vm_compute. Qed.

(** A replayed text is a response of the tenant. *)
Lemma replayed_owned np ni s tenant key body text cached s' :
  store_owned s → uuid_ok tenant →
  check_and_remember np ni s tenant evaluate_endpoint key body text = (IoReplay cached, s') →
  ∃ req body0 resp, request_to_string req = Some body0 ∧ hash_body body0 = hash_body body
    ∧ response_to_string resp = Some cached
    ∧ own_account tenant (ir_account_id req) (ir_account_state req) (is_account_state resp).
Proof.
  intros Hs Ht. unfold check_and_remember. cbv zeta.
  destruct (in_entries (prune _ _ _) !! _) as [e|] eqn:He; [|done].
  case_bool_decide as Hh; [|done]. intros [= <- _]. apply prune_kept, Hs in He.
  destruct He as (t & k & req & body0 & resp & Ht' & Hk & Hb & Hbh & Hr & Hown).
  apply composite_key_inj in Hk as (<- & _ & _); [|done|done|apply endpoint_clean..].
  exists req, body0, resp. split_and!; [done|congruence|done|done].
Qed.

(** ** The evaluate handler *)

(** [owning m]: [m] leaves an owned store owned. *)
Definition owning {A} (m : api A) : Prop :=
  ∀ c r c', m c = Ret (r, c') → store_owned (sv_idempotency c) → store_owned (sv_idempotency c').

Lemma keeps_owning {A} (m : api A) : keeps_store m → owning m.
Proof. intros Hm c r c' E. by rewrite (Hm _ _ _ E). Qed.

Lemma owning_bind {A B} (m : api A) (f : A → api B) :
  owning m → (∀ c a c1, m c = Ret (inl a, c1) → owning (f a)) → owning (api_bind m f).
Proof.
  intros Hm Hf c r c' ([[a|e] c1] & E & E')%bind_Ret_inv Hc.
  - eapply Hf; [exact E|exact E'|]. by eapply Hm.
  - injection E' as _ <-. by eapply Hm.
Qed.

Lemma keeps_log e : keeps_store (api_log e).
Proof. by intros c r c' [= _ <-]. Qed.

Lemma keeps_guard b ep kind st msg : keeps_store (api_guard b ep kind st msg).
Proof. destruct b; [apply keeps_bind; [apply keeps_log|intros; apply keeps_reject]|apply keeps_ok]. Qed.

Lemma keeps_timed {A} ep t0 t1 (m : api A) : keeps_store m → keeps_store (api_timed ep t0 t1 m).
Proof. intros Hm c r c' (c1 & E & [_ ->])%api_timed_inv. by eapply Hm. Qed.

Hint Resolve keeps_log keeps_guard keeps_timed keeps_owning : api.

Lemma keyed_owning env np ni headers tenant req :
  uuid_ok tenant → owning (evaluate_keyed env np ni headers tenant req).
Proof.
  intros Ht. unfold evaluate_keyed.
  destruct (headers "Idempotency-Key") as [key|]; [|apply keeps_owning, impl_keeps_store].
  apply owning_bind; [auto with api|]. intros c body c1 [Hb _]%api_some_inv.
  apply owning_bind; [apply keeps_owning, impl_keeps_store|].
  intros c2 resp c3 Hown%evaluate_own.
  apply owning_bind; [auto with api|]. intros c4 text c5 [Hr _]%api_some_inv.
  apply owning_bind.
  - intros c6 r c7 E Hc. unfold api_idempotent in E.
    pose proof (remembered_owned np ni _ tenant key req body resp text Hc Ht Hb Hr Hown) as Ho.
    unfold evaluate_endpoint in Ho. destruct (check_and_remember _ _ _ _ _ _ _ _) as [o s].
    injection E as _ <-. exact Ho.
  - intros c6 o c7 _. apply keeps_owning. unfold api_metric.
    destruct o; repeat first [apply keeps_bind; [|intros ?] | progress auto with api].
Qed.

Lemma evaluate_owning env np ni headers req : owning (evaluate_internal env np ni headers req).
Proof.
  intros c r c' (c1 & E & [_ ->])%api_timed_inv. revert c r c1 E.
  apply owning_bind; [apply keeps_owning; unfold extract_tenant_id; auto with api|].
  intros c t c1 Ht%tenant_inv. apply owning_bind.
  { apply keyed_owning. destruct (headers "X-Tenant-Id") as [x|]; [|done].
    exact (uuid_parse_range _ _ Ht). }
  intros c2 resp c3 _. apply keeps_owning. unfold api_metric, api_audit. cbv zeta.
  repeat first [apply keeps_bind; [|intros ?] | case_match | progress auto with api].
Qed.

(** The request a response answers: this one, or an earlier one with the
    same key whose body has the same hash. *)
Definition answered (req req0 : InternalEvaluateRequest) : Prop :=
  req0 = req ∨ ∃ body body0, request_to_string req = Some body
                 ∧ request_to_string req0 = Some body0 ∧ hash_body body0 = hash_body body.

Lemma keyed_own env np ni headers tenant req c resp c' :
  store_owned (sv_idempotency c) → uuid_ok tenant →
  evaluate_keyed env np ni headers tenant req c = Ret (inl resp, c') →
  (∃ answer, own_account tenant (ir_account_id req) (ir_account_state req) answer)
  ∧ ∃ req0, answered req req0
    ∧ own_account tenant (ir_account_id req0) (ir_account_state req0) (is_account_state resp).
Proof.
  intros Hs Ht E. unfold evaluate_keyed in E. destruct (headers "Idempotency-Key") as [key|].
  2:{ apply evaluate_own in E. split; [eauto|]. exists req. split; [by left|done]. }
  apply api_bind_ok in E as (body & c1 & [Hb ->]%api_some_inv & E).
  apply api_bind_ok in E as (first & c2 & Hr & E). apply impl_keeps_store in Hr as Hst.
  apply evaluate_own in Hr as Hown. split; [eauto|].
  apply api_bind_ok in E as (text & c3 & [Htx ->]%api_some_inv & E).
  apply api_bind_ok in E as (o & c4 & Ho & E).
  assert (resp = first ∨ ∃ cached, o = IoReplay cached ∧ response_from_str cached = Some resp)
    as [->|(cached & -> & Hread)] by (destruct o; api_inv; eauto).
  { exists req. split; [by left|done]. }
  unfold api_idempotent in Ho. rewrite Hst in Ho.
  destruct (check_and_remember _ _ _ _ _ _ _ _) as [o s] eqn:Hc. injection Ho as -> _.
  apply (replayed_owned np ni _ tenant key body text) in Hc as (req0 & body0 & resp0 & Hb0 & Hh & Hr0 & Hown0);
    [|done..].
  exists req0. split; [right; eauto|]. destruct Hown0 as (acc & Hacc & Hid & Hten & Hsame).
  exists acc. split_and!; [done..|]. etrans; [exact Hsame|]. by eapply response_identity.
Qed.

(** ** The server *)

(** The states of a server: it starts with no keys held; the evaluate handler
    is the only one that uses the store. *)
Inductive served : ApiState → Prop :=
| served_start c : in_entries (is_inner (sv_idempotency c)) = ∅ → served c
| served_evaluate env np ni headers req c r c' :
    served c → evaluate_internal env np ni headers req c = Ret (r, c') → served c'
| served_other c c' : served c → sv_idempotency c' = sv_idempotency c → served c'.

Lemma served_owned c : served c → store_owned (sv_idempotency c).
Proof.
  induction 1 as [c Hc|env np ni headers req c r c' _ IH E|c c' _ IH E].
  - unfold store_owned. rewrite Hc. apply map_Forall_empty.
  - by eapply evaluate_owning.
  - by rewrite E.
Qed.

Lemma run_keeps env acc ev : keeps_store (run_pipeline env acc ev).
Proof. unfold run_pipeline. auto with api. Qed.

Lemma audited_keeps env ep audit acc ev : keeps_store (run_audited env ep audit acc ev).
Proof.
  unfold run_audited, api_audit, api_metric. cbv zeta.
  apply keeps_bind; [auto with api|intros reg].
  destruct (process _ _ _ _ _); auto with api; by intros ? ? ?.
Qed.

(** The other handlers do not touch the store. *)
Lemma others_keep env fallback headers :
  (∀ req, keeps_store (override_breach env headers req))
  ∧ (∀ req, keeps_store (manual_run env headers req))
  ∧ (∀ req, keeps_store (emergency_stop env headers req))
  ∧ (∀ req, keeps_store (breach_report env fallback headers req))
  ∧ (∀ req, keeps_store (evaluate_order env headers req)).
Proof.
  split_and!; intros req; apply keeps_timed;
    unfold extract_tenant_id, parse_account_id, validate_account_state, api_audit; cbv zeta;
    repeat first [apply run_keeps | apply audited_keeps | apply keeps_log | apply keeps_bind; [|intros ?]
                 | case_match | progress auto with api].
Qed.


End Ownership.

(** ** Witness *)

Import Samples PipelineSamples ApiSamples HandlerSamples.

#[export] Instance PlainSerde_laws : SerdeLaws PlainSerde.
Proof.
  split. intros resp text r Hw Hr. cbn [response_to_string response_from_str PlainSerde] in *.
  destruct (writable (is_account_state resp)) eqn:Ew; [|discriminate Hw].
  unfold writable in Ew. apply andb_true_iff in Ew as [Ew Hhi]. apply andb_true_iff in Ew as [Ht Hlo].
  apply bool_decide_eq_true in Ht. apply Z.leb_le in Hlo. apply Z.ltb_lt in Hhi.
  pose proof (uuid_parse_display _ (conj Hlo Hhi)) as Hp. revert Hw Hp.
  generalize (uuid_display (acc_id (is_account_state resp))). intros w Hw Hp.
  assert (text = w) as -> by congruence. rewrite Hp in Hr. injection Hr as <-. split; [reflexivity|]. symmetry. exact Ht.
Qed.

(** The server after a first request with a key. *)
Definition after_first : ApiState :=
  match evaluate_internal (api_env noon) 0 0 headers (request done_account noon) server with
  | Ret (_, c) => c
  | _ => server
  end.

Lemma after_first_served : served after_first.
Proof.
  assert (Hs : served server) by (apply served_start; reflexivity).
  unfold after_first.
  destruct (evaluate_internal (api_env noon) 0 0 headers (request done_account noon) server)
    as [[r c]|e| |] eqn:E; [|exact Hs..]. exact (served_evaluate _ _ _ _ _ _ _ _ Hs E).
Qed.

Definition manual_request : ManualRunRequest := mkManualRunRequest (uuid_display 7) (Some account).
Definition stop_request : EmergencyStopRequest :=
  mkEmergencyStopRequest (uuid_display 7) (Some account) "feed" "ops".
Definition order_request : EvaluateOrderRequest :=
  mkEvaluateOrderRequest (uuid_display 7) (Some account) "EURUSD" "buy" (money 1) "market" None None None.
Definition report_request : BreachReportRequest :=
  mkBreachReportRequest (uuid_display 7) (Some account) [] [].

(** Takes an accepted call apart. *)
Tactic Notation "accept" constr(m) ident(resp) ident(c') ident(E) :=
  let H := fresh in
  assert (H : accepted m = true) by (vm_compute; reflexivity);
  destruct m as [[[resp|?] c']|?| |] eqn:E; try discriminate H; clear H.

