(* ===== verification/RequestCauses.v ===== *)
(** * When a bridge request fails an account

    The evaluate endpoint on a tick of the bridge: a well-formed request is
    answered, and the account in the answer has failed for exactly the causes
    of a broker tick, with whatever registries the cache already holds. *)

From S2P Require Import Prelude.
From S2P Require Import Decimal.
From S2P Require Import Chrono.
From S2P Require Import Ids.
From S2P Require Import Domain.
From S2P Require Import Plan.
From S2P Require Import Account.
From S2P Require Import Violation.
From S2P Require Import Pack.
From S2P Require Import RuleApi.
#[local] Open Scope Z_scope.
From S2P Require Import DrawdownRules.
From S2P Require Import TimeRules.
From S2P Require Import Registry.
From S2P Require Import Decision.
From S2P Require Import State.
From S2P Require Import Pipeline.
From S2P Require Import Hashing.
From S2P Require Import Pure.
From S2P Require Import Idempotency.
From S2P Require Import Api.
From S2P Require Import Samples.
From S2P Require Import PipelineSamples.
From S2P Require Import ApiSamples.
From S2P Require Import DrawdownFacts.
From S2P Require Import RegistryFacts.
From S2P Require Import PipelineFacts.
From S2P Require Import LivenessFacts.
From S2P Require Import CauseFacts.
From S2P Require Import TickCauses.
From S2P Require Import PureFacts.
From S2P Require Import HandlerSamples.
From S2P Require Import ApiFacts.
From S2P Require Import HandlerFacts.
#[local] Open Scope api_scope.
#[local] Opaque RuleId_named Sip.hash_bytes.

(** ** The registry of a request *)

Section Registries.
Context `{HO : HashOps} `{!JsonOps}.

(** No plan opts out of the rules a tick can fail on. *)
Lemma tick_rules_kept plan rule : rule ∈ tick_rules → plan_drops plan (rule_id rule) = false.
Proof.
  unfold tick_rules. intros Hin. apply not_true_iff_false. revert Hin.
  rewrite !elem_of_cons. intros [->|[->|[->|[->|Hin%elem_of_nil]]]]; [..|done]; cbn;
    (intros Hd; apply plan_drops_key in Hd;
      [|unfold default_keys; repeat (first [left | right])];
      destruct_or! Hd; destruct_and! Hd; discriminate).
Qed.

Lemma registry_keeps_tick_rules plan reg :
  RuleRegistry_with_default_rules_for_plan plan = Ret reg →
  (∀ rule, rule ∈ reg_rules reg → rule ∈ default_rules)
  ∧ (∀ rule, rule ∈ tick_rules → rule ∈ reg_rules reg).
Proof.
  intros Hr. split.
  - destruct (plan_registry plan) as (r & Hr' & E). rewrite Hr in Hr'. injection Hr' as <-.
    intros rule. rewrite E, list_elem_of_In, filter_In, <- list_elem_of_In. intros [Hi _]. exact Hi.
  - intros rule Hin.
    exact (proj2 (plan_registry_elem plan reg rule Hr (tick_rules_default rule Hin))
             (tick_rules_kept plan rule Hin)).
Qed.

(** Whatever plan a cached registry was built for. *)
Lemma cached_registry seen cache plan :
  cache_ok seen cache →
  ∃ reg cache', get_or_build cache plan = Ret (reg, cache')
    ∧ (∀ rule, rule ∈ reg_rules reg → rule ∈ default_rules)
    ∧ (∀ rule, rule ∈ tick_rules → rule ∈ reg_rules reg).
Proof.
  intros Hok. unfold get_or_build. destruct (cache !! plan_cache_key plan) as [r|] eqn:El.
  - destruct (Hok _ _ El) as (p & _ & _ & Hr). exists r, cache. split; [done|].
    by apply (registry_keeps_tick_rules p).
  - destruct (plan_registry plan) as (r & Hr & _). rewrite Hr. cbn [obind].
    eexists r, _. split; [done|]. by apply (registry_keeps_tick_rules plan).
Qed.

End Registries.

(** ** The figures of the bridge *)

Section Figures.
Context `{DL : DecimalLaws} `{CL : ChronoLaws}.

Abbreviation MoneyFits := (Fits 15 4).
Implicit Types a : Account.

(** Cents become an exact amount. *)
Lemma cents_exact cents :
  Z.abs cents ≤ ten_to 13 →
  ∃ m, cents_to_decimal cents = Ret m ∧ (dval m == cents # 100)%Q ∧ MoneyFits m.
Proof.
  intros Hc. unfold cents_to_decimal.
  assert (E : (dval (dec_new cents 0) / dval (dec_new 100 0) == scaled (cents * 100) 4)%Q).
  { rewrite !dval_new_int by (unfold ten_to in Hc; simpl in Hc; lia).
    unfold scaled, Qeq, ten_to. simpl. lia. }
  assert (E' : (scaled (cents * 100) 4 == cents # 100)%Q)
    by (unfold scaled, Qeq, ten_to; simpl; lia).
  destruct (dec_div_exact (dec_new cents 0) (dec_new 100 0)) as (m & Hm & Em).
  - rewrite dval_new_int by lia. done.
  - exists (cents * 100), 4%nat. split_and!; [|lia|done]. unfold ten_to in Hc. simpl in Hc. lia.
  - exists m. unfold ddiv. rewrite Hm. split_and!; [done|by rewrite Em, E|].
    exists (cents * 100). split; [unfold ten_to in *; simpl in *; lia|by rewrite Em].
Qed.

Lemma peaks_ordinary a : ordinary a → ordinary (raise_peaks SrcBrokerReported a).
Proof. intros ([] & Hp & Hb). unfold raise_peaks. by repeat case_match. Qed.

(** The hints of an ordinary account are computed without overflow. *)
Lemma daily_hint_total a : ordinary a → ∃ h, floor_daily_hint a = Ret h.
Proof.
  intros (Ha & [Hd _ _] & _). unfold floor_daily_hint. destruct (_ && _); [|by eexists].
  assert (Hr : ∃ k, MoneyFits k ∧ match plan_daily_loss_type (acc_plan a) with
    | DltNone => dec_zero
    | DltPctInitial => acc_initial_balance a
    | DltPctPriorDay =>
        if plan_drawdown_on_balance (acc_plan a) then acc_day_start_balance a
        else acc_day_start_equity a
    | DltTrailingIntradayHigh => acc_intraday_peak_equity a
    end = k).
  { destruct Ha, (plan_daily_loss_type (acc_plan a)), (plan_drawdown_on_balance (acc_plan a)); eauto.
    all: exists dec_zero; split; [|done]; exists 0; split; [done|]; by rewrite dval_zero. }
  destruct Hr as (r & Hr & ->).
  destruct (floor_step _ _ _ Hd Hr Hr) as (b & f & Hm & Hs & _ & Ff).
  pose proof (to_cents_spec _ _ _ Ff ltac:(lia)) as Hc. cbv zeta.
  rewrite Hm. cbn [obind]. rewrite Hs. cbn [obind]. rewrite Hc. by eexists.
Qed.

Lemma hints_total a : ordinary a → ∃ h, compute_floor_hints a = Ret h.
Proof.
  intros Hord. destruct (daily_hint_total a Hord) as (h1 & H1). destruct Hord as (Ha & [_ Ht Hg] & _).
  assert (∃ h, floor_total_hint a = Ret h) as (h2 & H2).
  { unfold floor_total_hint. destruct (plan_drawdown_on_balance (acc_plan a)) eqn:Eo; [by eexists|].
    cbn [negb andb]. case_match; [|by eexists].
    destruct (total_floor_spec a Ha Ht Eo) as (f & -> & Ff & _). cbn [obind].
    rewrite (to_cents_spec _ _ _ Ff) by lia. by eexists. }
  assert (∃ h, target_hint a = Ret h) as (h3 & H3).
  { destruct (dec_gtb (plan_profit_target_pct (acc_plan a)) dec_zero) eqn:Ep.
    - apply dec_gtb_zero in Ep. destruct (target_hint_spec a Ha Hg Ep) as (h & ? & _). eauto.
    - unfold target_hint. rewrite Ep. by eexists. }
  unfold compute_floor_hints. rewrite H1, H2, H3. cbn [obind]. destruct h1, h2, h3; by eexists.
Qed.

End Figures.

(** ** The endpoint *)

Section Requests.
Context `{HO : HashOps} `{!DecimalLaws _} `{!ChronoLaws _} `{!JsonOps} `{!Sha256Ops} `{!UuidOps}
  `{!TimeText}.
Implicit Types (a b acc : Account) (bt : BridgeTickV1).

(** A conversion that succeeds and leaves the server alone. *)
Definition converts {A} (m : api A) : Prop := ∃ x, ∀ c, m c = Ret (inl x, c).

(** A bridge tick at the broker's time [t] for the account [acc], which
    passes the checks of the endpoint. *)
Record bridge_request env (tenant : TenantId) (req : InternalEvaluateRequest) acc bt t : Prop :=
  mkBridgeRequest {
  br_id : uuid_parse (ir_account_id req) = Some (acc_id acc);
  br_tenant : acc_tenant_id acc = tenant;
  br_bridge : ir_bridge_tick req = Some bt;
  br_state : ir_account_state req = Some acc;
  br_mode : AccountStatus_evaluation_mode (acc_status acc) = EmEvaluate;
  br_pack : ir_rule_pack req = None;
  br_cross : converts (cross_trades_of env (acc_id acc) req);
  br_positions : converts (api_all ((fun p => BridgeTickPositionDto_into_domain p (acc_id acc))
                                      <$> bt_positions (bt_payload bt)));
  br_trades : converts (trades_of (he_trade_ids env) (acc_id acc) (ir_today_trades req));
  br_time : from_timestamp_millis (bt_broker_time (bt_payload bt)) = Some t;
  br_fresh : num_seconds (ts_since (he_now_stale env) t) ≤ stale_threshold_secs;
}.

(** The account the rules see: the broker's figures, with the two peaks they
    raise. *)
Definition reported acc (equity balance : Money) : Account :=
  raise_peaks SrcBrokerReported (acc <| acc_equity := equity |> <| acc_balance := balance |>).

Lemma reported_frame acc equity balance :
  acc_status (reported acc equity balance) = acc_status acc
  ∧ acc_plan (reported acc equity balance) = acc_plan acc
  ∧ acc_started_at (reported acc equity balance) = acc_started_at acc
  ∧ acc_equity (reported acc equity balance) = equity.
Proof. unfold reported, raise_peaks. by repeat case_match. Qed.

(** A pure evaluation of the broker's figures. *)
Lemma reported_verdict fresh now now_reports b pack reg t inputs :
  (∀ rule, rule ∈ reg_rules reg → rule ∈ default_rules) →
  (∀ rule, rule ∈ tick_rules → rule ∈ reg_rules reg) →
  ei_pending_order inputs = None → ei_equity_source inputs = SrcBrokerReported →
  ordinary b → Fits 6 6 (plan_trailing_drawdown_pct (acc_plan b)) → is_Some (acc_started_at b) →
  ∃ v, evaluate fresh now now_reports b pack reg OnTick t inputs = Ret v
    ∧ Decision_account_status_target (pv_decision v)
      = (if Decision_is_terminating (pv_decision v) then Some StFailed else None)
    ∧ (Decision_is_terminating (pv_decision v) = true
       ↔ loss_exceeded b (acc_equity b) ∨ expired b t)
    ∧ (loss_exceeded b (acc_equity b) → dec_kind (pv_decision v) = DkLiquidate).
Proof.
  intros Hdef Htick Hp Hs (Ha & Hpf & _) Htr Hst. set (ctx := pure_context b OnTick now t inputs).
  assert (Hctx : ctx_kind ctx = OnTick
    ∧ ctx_equity_input ctx = BrokerReported (acc_equity b) (acc_balance b)
    ∧ ctx_pending_order ctx = None ∧ ctx_account ctx = b ∧ ctx_server_time ctx = t).
  { unfold ctx, pure_context. rewrite Hp, Hs.
    destruct (ei_latest_trade inputs), (ei_latest_tick inputs); done. }
  destruct Hctx as (Hk & He & Hpo & Eb & Et).
  destruct (evaluation_decided fresh now_reports ctx (reg_rules reg) Hdef) as (reports & Hev & Hdec).
  unfold evaluate. fold ctx. unfold RuleRegistry_evaluate. rewrite Hev. eexists. split; [done|].
  cbn [pv_decision]. split; [apply Hdec|].
  edestruct (tick_decided ctx (acc_equity b) (acc_balance b) He) as [Hterm Hloss];
    [..|exact Hdef|exact Htick|exact Hdec|]; rewrite ?Eb; try done; [| |by rewrite Eb, Et in *].
  - unfold RuleContext_require_started. apply bool_decide_eq_true. by rewrite Eb.
  - apply Ha.
Qed.

(** One step of a handler. *)
Lemma api_bind_step {A B} (m : api A) (f : A → api B) x c c1 :
  m c = Ret (inl x, c1) → api_bind m f c = f x c1.
Proof. unfold api_bind. by intros ->. Qed.

Ltac api_goes := erewrite api_bind_step; [|first [done|reflexivity]]; cbv beta iota.

(** A well-formed request reaches the evaluation with the broker's figures. *)
Lemma bridge_request_reaches env tenant req acc bt t c equity balance reg cache' :
  bridge_request env tenant req acc bt t →
  cents_to_decimal (bt_equity_cents (bt_payload bt)) = Ret equity →
  cents_to_decimal (bt_balance_cents (bt_payload bt)) = Ret balance →
  get_or_build (sv_cache c) (acc_plan acc) = Ret (reg, cache') →
  ∃ ps ts xs c', evaluate_internal_impl env tenant req c
    = evaluate_response env (reported acc equity balance)
        (RulePack_synthetic_from_plan (uuid_display (acc_id acc)) tenant (acc_plan acc)
           (he_now_pack env)) reg ps ts t None xs SrcBrokerReported c'.
Proof.
  intros [Hid Hten Hbt Hacc Hmode Hpack (xs & Hxs) (ps & Hps) (ts & Hts) Ht Hfresh] He Hb Hreg.
  exists ps, ts, xs, (mkApiState cache' (sv_idempotency c) (sv_log c)).
  unfold evaluate_internal_impl, parse_account_id, request_source. rewrite Hid, Hbt, Hacc.
  cbn [api_some].
  api_goes.
  api_goes.
  api_goes.
  unfold validate_account_state.
  rewrite !bool_decide_true by done. cbn [negb api_when]. api_goes. rewrite Hmode, Hpack.
  rewrite bool_decide_false by (by intros [? ?]). api_goes.
  erewrite api_bind_step; [|unfold api_registry; rewrite Hreg; reflexivity].
  erewrite api_bind_step; [|apply Hxs].
  assert (Hin : ∀ s, request_inputs env (acc_id acc) acc req (Some bt) s
    = Ret (inl (acc <| acc_equity := equity |> <| acc_balance := balance |>, ps, ts, t, None), s)).
  { intros s. unfold request_inputs, api_run. cbv zeta. rewrite He, Hb, Ht. cbn [obind].
    do 2 api_goes. erewrite api_bind_step; [|apply Hps]. erewrite api_bind_step; [|apply Hts].
    by api_goes. }
  erewrite api_bind_step; [|apply Hin]. cbv beta iota.
  apply Z.ltb_ge in Hfresh. rewrite Hfresh. api_goes. reflexivity.
Qed.

(** The answer to the broker's figures. *)
Lemma reported_answer env b pack reg ps ts t xs c :
  (∀ rule, rule ∈ reg_rules reg → rule ∈ default_rules) →
  (∀ rule, rule ∈ tick_rules → rule ∈ reg_rules reg) →
  ordinary b → Fits 6 6 (plan_trailing_drawdown_pct (acc_plan b)) → is_Some (acc_started_at b) →
  plan_phase (acc_plan b) ≠ FundedPhase → acc_status b ≠ StFailed →
  ∃ resp, evaluate_response env b pack reg ps ts t None xs SrcBrokerReported c = Ret (inl resp, c)
    ∧ is_evaluated resp = true
    ∧ (acc_status (is_account_state resp) = StFailed
       ↔ loss_exceeded b (acc_equity b) ∨ expired b t)
    ∧ (loss_exceeded b (acc_equity b) → is_decision_kind resp = DecisionKind_debug DkLiquidate).
Proof.
  intros Hdef Htick Hord Htr Hst Hph Hs. unfold evaluate_response. cbv zeta.
  match goal with |- context [evaluate _ _ _ b pack reg OnTick t ?inputs] =>
    destruct (reported_verdict (he_fresh env) (he_now_context env) (he_now_reports env) b pack reg t
      inputs Hdef Htick eq_refl eq_refl Hord Htr Hst) as (v & Hv & Hstat & Hterm & Hloss) end.
  destruct (decision_total b (pv_decision v) t "evaluate_internal") as (a' & evs & Hd & Hord');
    [done..|].
  destruct (hints_total a' Hord') as (h & Hh). rewrite Hv. eexists. split.
  { erewrite api_bind_step; [|reflexivity]. rewrite Hd. api_goes. unfold api_run. rewrite Hh.
    api_goes. reflexivity. }
  split_and!; [done| |].
  - rewrite <- Hterm. exact (decision_fails _ _ _ _ _ _ Hd Hstat Hs).
  - intros Hx. cbn. by rewrite (Hloss Hx).
Qed.

(** C4: when a bridge request fails an account.  A well-formed request with a
    tick of the bridge, for a started account of ordinary size in an
    evaluation phase, is answered with an evaluation, and the account in the
    answer has failed exactly when the broker's equity or balance is past a
    loss limit of the plan or the broker's time is past the deadline; a loss
    is answered as a liquidation.  The registry may come from the cache, where
    it may have been built for another plan: no plan opts out of the rules
    that matter. *)
Theorem bridge_request_fails_iff env tenant req acc bt t seen c
    (Hcache : cache_ok seen (sv_cache c)) (Hreq : bridge_request env tenant req acc bt t)
    (Hequity : Z.abs (bt_equity_cents (bt_payload bt)) ≤ ten_to 13)
    (Hbalance : Z.abs (bt_balance_cents (bt_payload bt)) ≤ ten_to 13)
    (Hfits : ordinary acc) (Htrail : Fits 6 6 (plan_trailing_drawdown_pct (acc_plan acc)))
    (Hstart : is_Some (acc_started_at acc)) (Hphase : plan_phase (acc_plan acc) ≠ FundedPhase) :
  ∃ equity balance resp c',
    cents_to_decimal (bt_equity_cents (bt_payload bt)) = Ret equity
    ∧ (dval equity == bt_equity_cents (bt_payload bt) # 100)%Q
    ∧ cents_to_decimal (bt_balance_cents (bt_payload bt)) = Ret balance
    ∧ (dval balance == bt_balance_cents (bt_payload bt) # 100)%Q
    ∧ evaluate_internal_impl env tenant req c = Ret (inl resp, c') ∧ is_evaluated resp = true
    ∧ let b := reported acc equity balance in
      (acc_status (is_account_state resp) = StFailed ↔ loss_exceeded b equity ∨ expired b t)
      ∧ (loss_exceeded b equity → is_decision_kind resp = DecisionKind_debug DkLiquidate).
Proof.
  destruct (cents_exact _ Hequity) as (equity & He & Ee & Fe).
  destruct (cents_exact _ Hbalance) as (balance & Hb & Eb & Fb).
  destruct (cached_registry seen (sv_cache c) (acc_plan acc) Hcache)
    as (reg & cache' & Hreg & Hdef & Htick).
  destruct (reported_frame acc equity balance) as (Es & Ep & Est & Eeq).
  destruct (bridge_request_reaches _ _ _ _ _ _ _ _ _ _ _ Hreq He Hb Hreg)
    as (ps & ts & xs & c1 & Hrun).
  set (b := reported acc equity balance) in *.
  assert (Hord : ordinary b) by (apply peaks_ordinary; by destruct Hfits as ([] & ? & ?)).
  match type of Hrun with _ = evaluate_response _ _ ?pack _ _ _ _ _ _ _ _ =>
    destruct (reported_answer env b pack reg ps ts t xs c1 Hdef Htick Hord)
      as (resp & Hresp & Hev & Hiff) end; [by rewrite ?Ep, ?Est..| |].
  { rewrite Es. intros Ef. destruct Hreq as [_ _ _ _ Hmode]. by rewrite Ef in Hmode. }
  rewrite Eeq in Hiff. exists equity, balance, resp, c1. 
  split_and!; [done|done|done|done|by rewrite Hrun|done|exact Hiff].
Qed.

End Requests.

(** ** Witness *)

Import Samples PipelineSamples ApiSamples HandlerSamples.

(** A tick of the bridge with the equity six hundred down. *)
Definition bridge_tick : BridgeTickV1 :=
  mkBridgeTickV1 "tick" 1 "" 0
    (mkBridgeTickPayload 940000 1000000 0 0 100 [] 0 None (noon / 10 ^ 6) None None None None None).

Definition bridge_sample : InternalEvaluateRequest :=
  mkInternalEvaluateRequest (uuid_display 7) (Some account) None (Some bridge_tick) None None None
    None None.

Lemma bridge_request_fails_iff_witness :
  ∃ resp c', evaluate_internal_impl (api_env noon) 9 bridge_sample server = Ret (inl resp, c')
    ∧ acc_status (is_account_state resp) = StFailed.
Proof.
  destruct (bridge_request_fails_iff (api_env noon) 9 bridge_sample account bridge_tick noon [] server)
    as (equity & balance & resp & c' & He & _ & Hb & _ & Hrun & _ & Hiff & _).
  - intros k r Hl. exfalso. change (sv_cache server) with (∅ : gmap Z RuleRegistry) in Hl.
    rewrite lookup_empty in Hl. discriminate Hl.
  - constructor.
    + vm_compute. reflexivity.
    + vm_compute. reflexivity.
    + reflexivity.
    + reflexivity.
    + vm_compute. reflexivity.
    + reflexivity.
    + exists []. intros c. unfold cross_trades_of, trades_of. cbn. reflexivity.
    + exists []. intros c. cbn. reflexivity.
    + exists []. intros c. unfold trades_of. cbn. reflexivity.
    + vm_compute. reflexivity.
    + vm_compute. discriminate.
  - vm_compute. discriminate.
  - vm_compute. discriminate.
  - exact account_ordinary.
  - q_fits 0.
  - exists noon. vm_compute. reflexivity.
  - vm_compute. discriminate.
  - exists resp, c'. split; [exact Hrun|]. apply Hiff. left. right. left.
    vm_compute in He, Hb. injection He as <-. injection Hb as <-.
    split; [vm_compute; reflexivity|]. split; [vm_compute; reflexivity|].
    exists (money 10000), (money 10000). split; vm_compute; reflexivity.
Defined.
