(* ===== verification/HttpFacts.v ===== *)
(** * Theorems on the routes and layers

    Which handler a request reaches; every answer is counted once, whichever
    layer gave it; request ids are echoed but never generated; an oversized
    body reaches no handler; what the evaluate endpoint records. *)

From S2P Require Import Prelude.
From S2P Require Import Decimal.
From S2P Require Import Chrono.
From S2P Require Import Ids.
From S2P Require Import Domain.
From S2P Require Import Account.
From S2P Require Import Pack.
#[local] Open Scope Z_scope.
From S2P Require Import Pipeline.
From S2P Require Import Hashing.
From S2P Require Import Idempotency.
From S2P Require Import Metrics.
From S2P Require Import Json.
From S2P Require Import AuditLog.
From S2P Require Import Api.
From S2P Require Import Http.
From S2P Require Import Samples.
From S2P Require Import PipelineSamples.
From S2P Require Import ApiSamples.
From S2P Require Import PureFacts.
From S2P Require Import HandlerSamples.
From S2P Require Import ApiFacts.
From S2P Require Import HandlerFacts.
From S2P Require Import HttpSamples.
#[local] Open Scope api_scope.

(** ** What a handler records

    [logs P m]: a run of [m] only adds entries satisfying [P] to the log. *)

Section Logs.
Context `{DecimalOps} `{ChronoOps} `{!JsonOps}.
Implicit Types P : Telemetry → Prop.

Definition log_adds P (c c' : ApiState) : Prop :=
  ∃ l, sv_log c' = sv_log c ++ l ∧ Forall P l.

#[export] Instance log_adds_pre P : PreOrder (log_adds P).
Proof.
  split.
  - intros c. exists []. by rewrite app_nil_r.
  - intros c c' c'' (l & El & Hl) (l' & El' & Hl'). exists (l ++ l').
    rewrite El', El, <- app_assoc. split; [done|]. by apply Forall_app.
Qed.

Definition logs {A} P (m : api A) : Prop := ∀ c r c', m c = Ret (r, c') → log_adds P c c'.

Lemma logs_same {A} P (m : api A) :
  (∀ c r c', m c = Ret (r, c') → sv_log c' = sv_log c) → logs P m.
Proof. intros Hm c r c' E. exists []. rewrite app_nil_r. by rewrite (Hm _ _ _ E). Qed.

Lemma logs_ok {A} P (a : A) : logs P (api_ok a).
Proof. apply logs_same. by intros c r c' [= _ <-]. Qed.

Lemma logs_reject {A} P st msg : logs P (api_reject (A := A) st msg).
Proof. apply logs_same. by intros c r c' [= _ <-]. Qed.

Lemma logs_bind {A B} P (m : api A) (f : A → api B) :
  logs P m → (∀ a, logs P (f a)) → logs P (api_bind m f).
Proof.
  intros Hm Hf c r c' ([[a|e] c1] & E & E')%bind_Ret_inv.
  - etrans; [by eapply Hm|by eapply Hf].
  - injection E' as _ <-. by eapply Hm.
Qed.

Lemma logs_some {A} P st msg (o : option A) : logs P (api_some st msg o).
Proof. destruct o; [apply logs_ok|apply logs_reject]. Qed.

Lemma logs_when P b st msg : logs P (api_when b st msg).
Proof. destruct b; [apply logs_reject|apply logs_ok]. Qed.

Lemma logs_of {A} P st (m : outcome A) : logs P (api_of st m).
Proof. apply logs_same. intros c r c' E. unfold api_of in E. by destruct m; simplify_eq. Qed.

Lemma logs_run {A} P (m : outcome A) : logs P (api_run m).
Proof. apply logs_same. by intros c r c' (a & _ & [= _ <-])%bind_Ret_inv. Qed.

Lemma logs_all {A} P (rs : list (A + string)) : logs P (api_all rs).
Proof. unfold api_all. case_match; [apply logs_reject|apply logs_ok]. Qed.

Lemma logs_registry `{!HashOps} P plan : logs P (api_registry plan).
Proof. apply logs_same. by intros c r c' ([? ?] & _ & [= _ <-])%bind_Ret_inv. Qed.

Lemma logs_log P e : P e → logs P (api_log e).
Proof. intros He c r c' [= _ <-]. exists [e]. by split; [|constructor]. Qed.

Lemma logs_guard P b ep kind st msg :
  P (TmMetric (record_error ep kind)) → logs P (api_guard b ep kind st msg).
Proof.
  intros HP. destruct b; [|apply logs_ok].
  apply logs_bind; [by apply logs_log|intros; apply logs_reject].
Qed.

Lemma logs_timed {A} P ep t0 t1 (m : api A) :
  P (TmMetric (LatencyScope_drop (LatencyScope_start ep t0) t1)) → logs P m →
  logs P (api_timed ep t0 t1 m).
Proof.
  intros HP Hm c r c' ([r' c1] & E & [= _ <-])%bind_Ret_inv.
  destruct (Hm _ _ _ E) as (l & El & Hl). exists (l ++ [TmMetric (LatencyScope_drop (LatencyScope_start ep t0) t1)]).
  simpl. rewrite El, <- app_assoc. split; [done|]. apply Forall_app. by split; [|constructor].
Qed.

Lemma logs_map {A B} P (f : A → api B) l : (∀ a, logs P (f a)) → logs P (api_map f l).
Proof.
  intros Hf. induction l; simpl; [apply logs_ok|].
  apply logs_bind; [done|]. intros b. apply logs_bind; [done|]. intros bs. apply logs_ok.
Qed.

Lemma logs_crash {A} P (o : outcome ((A + HttpError) * ApiState)) :
  (∀ r c', o ≠ Ret (r, c')) → logs P (fun _ => o).
Proof. intros Ho c r c' E. by destruct (Ho r c'). Qed.

End Logs.

#[export] Hint Resolve logs_ok logs_reject logs_bind logs_some logs_when logs_of logs_run logs_all
  logs_registry logs_log logs_guard logs_timed logs_map : api.

(** No entry of a handler counts an HTTP response: that is the layer's. *)
Definition http_counter : string := "propfirm_http_requests_total".

Definition not_http (e : Telemetry) : Prop :=
  match e with
  | TmMetric (CounterIncrement name _ _) => name ≠ http_counter
  | _ => True
  end.

Section Handlers.
Context `{HO : HashOps} `{!JsonOps} `{!Sha256Ops} `{!UuidOps} `{!TimeText} `{!SerdeOps}.

(** One step of a handler: a bind, a branch, or an operation of the monad. *)
Ltac log_steps :=
  repeat first
  [ solve [auto 2 with api]
  | apply logs_timed; [done|]
  | apply logs_bind; [|intros ?]
  | apply logs_log; done
  | apply logs_guard; done
  | case_match ].

Lemma evaluate_impl_logs P env tenant req : logs P (evaluate_internal_impl env tenant req).
Proof.
  unfold evaluate_internal_impl, parse_account_id, request_source, validate_account_state,
    cross_trades_of, request_inputs, trades_of.
  log_steps.
Qed.

Lemma idempotent_logs P np ni t ep key body resp : logs P (api_idempotent np ni t ep key body resp).
Proof.
  apply logs_same. intros c r c' E. unfold api_idempotent in E.
  destruct (check_and_remember _ _ _ _ _ _ _ _). by injection E as _ <-.
Qed.

Hint Resolve evaluate_impl_logs idempotent_logs : api.

Lemma audited_logs env ep audit acc ev : logs not_http (run_audited env ep audit acc ev).
Proof.
  unfold run_audited, api_audit. apply logs_bind; [auto with api|]. intros reg.
  destruct (process _ _ _ _ _); log_steps; by apply logs_crash.
Qed.

Lemma pipeline_logs P env acc ev : logs P (run_pipeline env acc ev).
Proof. unfold run_pipeline. auto with api. Qed.

Hint Resolve audited_logs pipeline_logs : api.

Lemma evaluate_logs env np ni headers req : logs not_http (evaluate_internal env np ni headers req).
Proof. unfold evaluate_internal, evaluate_keyed, extract_tenant_id, api_metric, api_audit. log_steps. Qed.

Lemma override_logs env headers req : logs not_http (override_breach env headers req).
Proof.
  unfold override_breach, extract_tenant_id, parse_account_id, validate_account_state. log_steps.
Qed.

Lemma manual_logs env headers req : logs not_http (manual_run env headers req).
Proof.
  unfold manual_run, extract_tenant_id, parse_account_id, validate_account_state. log_steps.
Qed.

Lemma stop_logs env headers req : logs not_http (emergency_stop env headers req).
Proof.
  unfold emergency_stop, extract_tenant_id, parse_account_id, validate_account_state. log_steps.
Qed.

Lemma report_logs env fallback headers req : logs not_http (breach_report env fallback headers req).
Proof.
  unfold breach_report, extract_tenant_id, parse_account_id, validate_account_state, api_audit.
  log_steps.
Qed.

Lemma order_logs env headers req : logs not_http (evaluate_order env headers req).
Proof.
  unfold evaluate_order, extract_tenant_id, parse_account_id, validate_account_state, api_audit.
  log_steps.
Qed.

Lemma pack_logs env req : logs not_http (validate_rule_pack env req).
Proof.
  unfold validate_rule_pack. apply logs_bind; [apply logs_map; intros r|intros ?];
    unfold RuleEntryDto_into_domain; log_steps.
Qed.

End Handlers.

#[export] Hint Resolve evaluate_logs override_logs manual_logs stop_logs report_logs order_logs
  pack_logs : api.

(** ** The layers *)

Section Stack.
Context `{HO : HashOps} `{!JsonOps} `{!Sha256Ops} `{!UuidOps} `{!TimeText} `{!SerdeOps}.
Context `{T : !TowerOps} `{!TowerLaws T} `{W : !WireOps} `{!WireLaws W}.
Implicit Types (req : HttpRequest) (s : SrvState) (svc : Service).

(** What the layers inside the metrics layer may do: add entries other than
    HTTP counts, answer with the request id [rid], and trace spans that name
    the request by its own header. *)
Record served (rid : option string) req s (resp : HttpResponse) (s' : SrvState) : Prop := mkServed {
  sd_log : log_adds not_http (srv_api s) (srv_api s');
  sd_name : hs_headers resp REQUEST_ID_HEADER = rid;
  sd_spans : ∃ l, srv_spans s' = srv_spans s ++ l
    ∧ Forall (fun sp => sp_request_id sp = default "-"%string (hq_headers req REQUEST_ID_HEADER)) l;
}.

Definition serves (rid : HttpRequest → option string) svc : Prop :=
  ∀ req s resp s', svc req s = Ret (resp, s') → served (rid req) req s resp s'.

Definition no_id : HttpRequest → option string := fun _ => None.

Lemma served_idle rid req s resp : hs_headers resp REQUEST_ID_HEADER = rid → served rid req s resp s.
Proof. intros Hr. split; [done|done|]. exists []. by rewrite app_nil_r. Qed.

(** A service that traces nothing. *)
Definition untraced svc : Prop := ∀ req s resp s',
  svc req s = Ret (resp, s') →
  log_adds not_http (srv_api s) (srv_api s') ∧ unnamed resp ∧ srv_spans s' = srv_spans s.

Lemma answer_untraced {A} (encode : A → string) m : logs not_http m → untraced (answer encode m).
Proof.
  intros Hm req s resp s' ([r c] & E & [= <- <-])%bind_Ret_inv.
  split_and!; [by eapply Hm|by destruct r as [?|[??]]|done].
Qed.

Lemma extracted_untraced {R A} decode (encode : A → string) (handler : R → api A) :
  (∀ req resp, decode req = inr resp → unnamed resp) → (∀ r, logs not_http (handler r)) →
  untraced (extracted decode encode handler).
Proof.
  intros Hd Hh req s resp s' E. unfold extracted in E.
  destruct (decode req) as [r|rej] eqn:Er; [by eapply answer_untraced|].
  injection E as <- <-. split_and!; [done|by eapply Hd|done].
Qed.

Lemma endpoint_untraced env e : untraced (serve_endpoint env e).
Proof.
  intros req s resp s' E. destruct e; simpl in E;
    try (injection E as <- <-; by split_and!);
    first [ eapply answer_untraced; [|exact E]; apply logs_ok
          | eapply extracted_untraced; [| |exact E]; [|auto with api] ].
  - apply evaluate_unnamed.
  - apply override_unnamed.
  - apply manual_run_unnamed.
  - apply emergency_stop_unnamed.
  - apply breach_report_unnamed.
  - apply evaluate_order_unnamed.
  - apply rule_pack_unnamed.
Qed.

Lemma routed_untraced openapi env : untraced (routed openapi env).
Proof.
  intros req s resp s' E. unfold routed in E.
  destruct (dispatch _ req) as [e|rej] eqn:Ed; [by eapply endpoint_untraced|].
  injection E as <- <-. split_and!; [done|by eapply dispatch_unnamed|done].
Qed.

Lemma set_id_untraced h id svc : untraced svc → untraced (set_request_id h id svc).
Proof.
  intros Hs req s resp s'. destruct (hq_headers req h) as [v|] eqn:Eh.
  - rewrite (set_request_id_present _ _ _ _ _ _ Eh). apply Hs.
  - rewrite (set_request_id_absent _ _ _ _ _ Eh). apply Hs.
Qed.

Lemma traced_names req resp sp :
  traced make_span span_on_response span_on_failure req resp sp →
  sp_request_id sp = default "-"%string (hq_headers req REQUEST_ID_HEADER).
Proof. by intros []. Qed.

Lemma trace_serves svc :
  untraced svc → serves no_id (trace make_span span_on_response span_on_failure svc).
Proof.
  intros Hs req s resp s' E.
  destruct (trace_observes make_span span_on_response span_on_failure svc req s) as (span & Hsp & Et).
  rewrite Et in E. apply bind_Ret_inv in E as ([r s1] & E & [= <- <-]).
  destruct (Hs _ _ _ _ E) as (Hl & Hn & Hspans). split; [done|done|].
  exists [span r]. simpl. rewrite Hspans. split; [done|]. constructor; [|constructor].
  by eapply traced_names.
Qed.

Lemma timeout_serves status nanos svc : serves no_id svc → serves no_id (timeout status nanos svc).
Proof.
  intros Hs req s resp s' E.
  destruct (timeout_answers status nanos svc req s) as [Et|(r & s1 & Et & _ & Hn & Hst)];
    rewrite Et in E; [by apply Hs|].
  injection E as <- <-. destruct Hst as [->|[r' Hr]]; [by apply served_idle|].
  destruct (Hs _ _ _ _ Hr) as [Hl _ Hsp]. by split.
Qed.

Lemma compression_serves rid svc : serves rid svc → serves rid (compression svc).
Proof.
  intros Hs req s resp s' E. destruct (compression_keeps svc req s) as (f & Hf & Ec).
  rewrite Ec in E. apply bind_Ret_inv in E as ([r s1] & E & [= <- <-]).
  destruct (Hs _ _ _ _ E) as [Hl Hn Hsp]. split; [done| |done]. by rewrite (proj2 (Hf r)).
Qed.

(** What the body limit does with a body. *)
Lemma body_limit_cases bytes svc req s :
  body_limit bytes svc req s = svc req s
  ∨ body_limit bytes svc req s = svc (cut_body req) s
  ∨ ∃ resp, body_limit bytes svc req s = Ret (resp, s) ∧ unnamed resp.
Proof.
  destruct (Z.le_gt_cases (body_length (hq_body req)) bytes) as [Hle|Hgt].
  { left. apply body_limit_passes. by left. }
  destruct (hq_body req) as [[] text|] eqn:Eb.
  - right. right. destruct (body_limit_refuses bytes svc req s text) as (r & s1 & E & _ & Hn & ->);
      [done|rewrite Eb; lia|]. eauto.
  - right. left. eapply body_limit_cuts; [done|rewrite Eb; lia].
  - left. apply body_limit_passes. by right.
Qed.

Lemma body_limit_serves bytes svc : serves no_id svc → serves no_id (body_limit bytes svc).
Proof.
  intros Hs req s resp s' E.
  destruct (body_limit_cases bytes svc req s) as [Eb|[Eb|(r & Eb & Hn)]]; rewrite Eb in E.
  - by apply Hs.
  - destruct (Hs _ _ _ _ E) as [Hl Hn Hsp]. by split.
  - injection E as <- <-. by apply served_idle.
Qed.

Lemma propagate_serves svc :
  serves no_id svc →
  serves (fun req => hq_headers req REQUEST_ID_HEADER) (propagate_request_id REQUEST_ID_HEADER svc).
Proof.
  intros Hs req s resp s' E. rewrite propagate_copies in E.
  apply bind_Ret_inv in E as ([r s1] & E & [= <- <-]). destruct (Hs _ _ _ _ E) as [Hl Hn Hsp].
  split; [done| |done]. unfold no_id in Hn. rewrite Hn.
  destruct (hq_headers req REQUEST_ID_HEADER); [|done]. simpl. unfold with_header.
  by rewrite bool_decide_true.
Qed.

(** Everything inside the metrics layer. *)
Definition inside (openapi : bool) (limit timeout_nanos : Z) env : Service :=
  propagate_request_id REQUEST_ID_HEADER
    (body_limit limit
       (compression
          (timeout REQUEST_TIMEOUT timeout_nanos
             (trace make_span span_on_response span_on_failure
                (set_request_id REQUEST_ID_HEADER (sve_request_id env) (routed openapi env)))))).

Lemma router_inside openapi limit nanos env req s :
  router_with_limits openapi limit nanos env req s
  = http_request_metrics (inside openapi limit nanos env) req s.
Proof. reflexivity. Qed.

Lemma inside_serves openapi limit nanos env :
  serves (fun req => hq_headers req REQUEST_ID_HEADER) (inside openapi limit nanos env).
Proof.
  apply propagate_serves, body_limit_serves, compression_serves, timeout_serves, trace_serves,
    set_id_untraced, routed_untraced.
Qed.

(** ** The theorems *)

Definition metrics_of (log : list Telemetry) : list MetricOp :=
  omap (fun e => match e with TmMetric op => Some op | TmAudit _ => None end) log.

Lemma not_http_uncounted P l :
  Forall not_http l → counter_where P http_counter (metrics_of l) = 0.
Proof.
  induction 1 as [|[[name ls k|name ls k]|a] l He _ IH]; [reflexivity| |exact IH..].
  change (_ = 0) with ((if bool_decide (name = http_counter) && P ls
    then k + counter_where P http_counter (metrics_of l)
    else counter_where P http_counter (metrics_of l)) = 0).
  rewrite bool_decide_false by exact He. exact IH.
Qed.

(** The metrics layer adds one count to what happened inside. *)
Lemma counted_once P openapi limit nanos env req s resp s' :
  router_with_limits openapi limit nanos env req s = Ret (resp, s') →
  counter_where P http_counter (metrics_of (sv_log (srv_api s')))
  = counter_where P http_counter (metrics_of (sv_log (srv_api s)))
    + if P [("method"%string, hq_method req); ("status"%string, pretty.pretty (hs_status resp))]
      then 1 else 0.
Proof.
  rewrite router_inside. intros ([r s1] & E & [= <- <-])%bind_Ret_inv.
  destruct (inside_serves _ _ _ _ _ _ _ _ E) as [(l & El & Hl) _ _]. cbn [srv_api sv_log].
  unfold metrics_of. rewrite El, !omap_app, !counter_where_app. fold (metrics_of l).
  rewrite (not_http_uncounted P l Hl). cbn. rewrite bool_decide_true by done. cbn.
  destruct (P _); lia.
Qed.

(** A body that cannot be read is rejected by the extractor, or not looked
    at. *)
Lemma routed_cut openapi env req s :
  (∃ r, routed openapi env req s = Ret r) → ∃ r, routed openapi env (cut_body req) s = Ret r.
Proof.
  unfold routed. rewrite (dispatch_head _ (cut_body req) req) by done.
  destruct (dispatch _ req) as [e|rej]; [|done]. intros Hr.
  assert (Hx : ∀ R A decode (encode : A → string) (handler : R → api A),
    (∃ resp, decode (cut_body req) = inr resp) →
    ∃ r, extracted decode encode handler (cut_body req) s = Ret r).
  { intros R A decode encode handler (resp & Hd). unfold extracted. rewrite Hd. by eexists. }
  destruct e; simpl in *; try exact Hr; apply Hx;
    eauto using evaluate_cut, override_cut, manual_run_cut, emergency_stop_cut, breach_report_cut,
      evaluate_order_cut, rule_pack_cut.
Qed.

(** The layers between the body limit and the routes. *)
Definition behind_limit (openapi : bool) (timeout_nanos : Z) env : Service :=
  compression (timeout REQUEST_TIMEOUT timeout_nanos
    (trace make_span span_on_response span_on_failure
       (set_request_id REQUEST_ID_HEADER (sve_request_id env) (routed openapi env)))).

Lemma behind_limit_answers openapi nanos env req s :
  (∀ h, ∃ r, routed openapi env (mkHttpRequest (hq_method req) (hq_uri req) (hq_path req) h
                                   (hq_body req)) s = Ret r) →
  ∃ r, behind_limit openapi nanos env req s = Ret r.
Proof.
  intros Hr. unfold behind_limit. set (svc := trace _ _ _ _).
  destruct (compression_keeps (timeout REQUEST_TIMEOUT nanos svc) req s) as (f & _ & ->).
  assert (Ht : ∃ r, svc req s = Ret r).
  { subst svc. set (inner := set_request_id _ _ _).
    destruct (trace_observes make_span span_on_response span_on_failure inner req s) as (sp & _ & ->).
    assert (Hi : ∃ r, inner req s = Ret r).
    { subst inner. destruct (hq_headers req REQUEST_ID_HEADER) as [v|] eqn:Eh.
      - rewrite (set_request_id_present _ _ _ _ _ _ Eh). destruct req. apply Hr.
      - rewrite (set_request_id_absent _ _ _ _ _ Eh). apply Hr. }
    destruct Hi as [[r s1] ->]. by eexists. }
  destruct (timeout_answers REQUEST_TIMEOUT nanos svc req s) as [->|(r & s1 & -> & _)]; [|by eexists].
  destruct Ht as [[r s1] ->]. by eexists.
Qed.

(** Layers over a handler that answers, answer. *)
Lemma inside_answers openapi limit nanos env req s :
  (∀ h, ∃ r, routed openapi env (mkHttpRequest (hq_method req) (hq_uri req) (hq_path req) h
                                   (hq_body req)) s = Ret r) →
  ∃ r, inside openapi limit nanos env req s = Ret r.
Proof.
  intros Hr. unfold inside. fold (behind_limit openapi nanos env). rewrite propagate_copies.
  enough (Ha : ∃ r, body_limit limit (behind_limit openapi nanos env) req s = Ret r).
  { destruct Ha as [[r s1] ->]. by eexists. }
  destruct (body_limit_cases limit (behind_limit openapi nanos env) req s) as [->|[->|(r & -> & _)]];
    [..|by eexists]; apply behind_limit_answers; [done|].
  intros h. apply (routed_cut _ _ (mkHttpRequest _ _ _ h (hq_body req))), Hr.
Qed.

(** C22: every answer is counted once.  A response of the server, whether
    a handler, the router, the timeout or the body limit gave it, raises the
    total of HTTP requests by exactly one, under the labels of its method and
    status; and the server answers whenever the routed handler does. *)
Theorem every_answer_counted openapi limit nanos env req s :
  (∀ resp s', router_with_limits openapi limit nanos env req s = Ret (resp, s') →
     let labels := [("method"%string, hq_method req);
                    ("status"%string, pretty.pretty (hs_status resp))] in
     let log := metrics_of (sv_log (srv_api s)) in
     let log' := metrics_of (sv_log (srv_api s')) in
     counter_sum http_counter log' = counter_sum http_counter log + 1
     ∧ counter_total http_counter labels log' = counter_total http_counter labels log + 1)
  ∧ ((∀ h, ∃ r, routed openapi env (mkHttpRequest (hq_method req) (hq_uri req) (hq_path req) h
                                      (hq_body req)) s = Ret r) →
     ∃ r, router_with_limits openapi limit nanos env req s = Ret r).
Proof.
  split.
  - intros resp s' E labels log log'. subst log log'. unfold counter_sum, counter_total.
    rewrite !(counted_once _ _ _ _ _ _ _ _ _ E). fold labels. by rewrite bool_decide_true.
  - intros [[r s1] Hi]%(inside_answers openapi limit nanos env req s). rewrite router_inside. unfold http_request_metrics.
    rewrite Hi. by eexists.
Qed.

(** Request ids are echoed, never made.  The response carries the
    request id of the request and no other: without one in the request there
    is none in the response, and the span of the request is named by a dash;
    the id the server draws for the handler is seen nowhere else. *)
Theorem request_id_only_echoed openapi limit nanos env req s resp s'
    (Hrun : router_with_limits openapi limit nanos env req s = Ret (resp, s')) :
  hs_headers resp REQUEST_ID_HEADER = hq_headers req REQUEST_ID_HEADER
  ∧ ∃ spans, srv_spans s' = srv_spans s ++ spans
      ∧ Forall (fun sp => sp_request_id sp
                          = default "-"%string (hq_headers req REQUEST_ID_HEADER)) spans.
Proof.
  rewrite router_inside in Hrun. apply bind_Ret_inv in Hrun as ([r s1] & E & [= <- <-]).
  destruct (inside_serves _ _ _ _ _ _ _ _ E) as [_ Hn Hs]. by split.
Qed.

(** A body whose declared length is over the limit reaches no handler: it is
    refused, and what the requests share is untouched. *)
Theorem oversized_body_refused openapi limit nanos env req s text
    (Hdeclared : hq_body req = BdText true text) (Hbig : limit < body_length (hq_body req)) :
  ∃ resp s', router_with_limits openapi limit nanos env req s = Ret (resp, s')
    ∧ hs_status resp = PAYLOAD_TOO_LARGE ∧ same_shared (srv_api s) (srv_api s').
Proof.
  rewrite router_inside. unfold http_request_metrics, inside. rewrite propagate_copies.
  fold (behind_limit openapi nanos env).
  destruct (body_limit_refuses limit (behind_limit openapi nanos env) req s text Hdeclared Hbig)
    as (r & s1 & -> & Hst & Hn & ->).
  cbn [obind]. eexists _, _. split; [reflexivity|].
  split; [|done]. destruct (hq_headers req REQUEST_ID_HEADER); [|done].
  by destruct (hs_headers r REQUEST_ID_HEADER).
Qed.

(** ** Routing *)

Lemma routes_distinct openapi :
  NoDup ((fun x => (rt_method x, rt_path x)) <$> router_routes openapi).
Proof. destruct openapi; vm_compute; repeat constructor; set_solver. Qed.

(** Every route of the table reaches its handler, and the path of the
    audit log, whose handler and query exist, reaches none. *)
Theorem routes_reach_handlers openapi env req s :
  (∀ r, r ∈ router_routes openapi → hq_method req = rt_method r → hq_path req = rt_path r →
     routed openapi env req s = serve_endpoint env (rt_endpoint r) req s)
  ∧ (hq_path req = "/internal/v1/audit-log"%string →
     ∃ resp, routed openapi env req s = Ret (resp, s) ∧ hs_status resp = NOT_FOUND).
Proof.
  unfold routed. split.
  - intros r Hr Hm Hp. by rewrite (dispatch_routed _ r req Hr (routes_distinct openapi) Hm Hp).
  - intros Hp. destruct (dispatch_unknown (router_routes openapi) req) as (resp & -> & Hst); [|by exists resp].
    rewrite Hp. apply Forall_forall. destruct openapi; vm_compute; repeat constructor; discriminate.
Qed.

End Stack.

(** ** What the evaluate endpoint records *)

Section Recorded.
Context `{HO : HashOps} `{!JsonOps} `{!Sha256Ops} `{!UuidOps} `{!TimeText} `{!SerdeOps}.

(** The evaluation itself never answers with a conflict. *)
Lemma impl_no_conflict env tenant req :
  refuses (fun st => st ≠ CONFLICT) (evaluate_internal_impl env tenant req).
Proof.
  unfold evaluate_internal_impl, parse_account_id, request_source, validate_account_state,
    cross_trades_of, request_inputs, trades_of.
  repeat first [ apply refuses_bind; [|intros ?] | apply refuses_ok | apply refuses_run
    | apply refuses_registry | apply refuses_some; done | apply refuses_when; done
    | apply refuses_of; done | apply refuses_all; done | case_match ].
Qed.

Definition conflict_rejection {A} (r : A + HttpError) : bool :=
  match r with inr (st, _) => bool_decide (st = CONFLICT) | inl _ => false end.

(** The entries of the idempotency step. *)
Inductive keyed_log : bool → list Telemetry → Prop :=
| keyed_none : keyed_log false []
| keyed_outcome o : keyed_log false [TmMetric (record_idempotency_outcome o)]
| keyed_conflict :
    keyed_log true [TmMetric (record_idempotency_outcome "conflict");
                    TmMetric (record_error "/internal/v1/evaluate" "idempotency_conflict")].

Lemma impl_result env tenant req c r c' :
  evaluate_internal_impl env tenant req c = Ret (r, c') →
  sv_log c' = sv_log c ∧ conflict_rejection r = false.
Proof.
  intros E. destruct (evaluate_impl_logs (fun _ => False) env tenant req c r c' E) as (l & El & Hl).
  split; [destruct l; [by rewrite app_nil_r in El|by inversion Hl]|].
  destruct r as [?|[st msg]]; [done|]. simpl. apply bool_decide_eq_false.
  exact (impl_no_conflict _ _ _ _ _ _ E).
Qed.

(** Without a key nothing is recorded; an accepted request with a key records
    one outcome. *)
Definition outcome_once {A} (headers : HeaderMap) (r : A + HttpError) (l : list Telemetry) : Prop :=
  match headers "Idempotency-Key", r with
  | None, _ => l = []
  | Some _, inl _ => ∃ o, l = [TmMetric (record_idempotency_outcome o)]
  | Some _, inr _ => True
  end.

Lemma keyed_recorded env np ni headers tenant req c r c' :
  evaluate_keyed env np ni headers tenant req c = Ret (r, c') →
  ∃ l, sv_log c' = sv_log c ++ l ∧ keyed_log (conflict_rejection r) l
    ∧ outcome_once headers r l.
Proof.
  unfold evaluate_keyed. intros E.
  assert (Hnone : ∀ r c', sv_log c' = sv_log c → conflict_rejection r = false →
    (headers "Idempotency-Key" = None ∨ ∃ e, r = inr e) →
    ∃ l, sv_log c' = sv_log c ++ l ∧ keyed_log (conflict_rejection (A := InternalEvaluateResponse) r) l
      ∧ outcome_once headers r l).
  { intros r0 c0 El -> Hr. exists []. rewrite app_nil_r. split_and!; [done|constructor|].
    unfold outcome_once. destruct Hr as [-> |[e ->]]; [done|]. by destruct (headers _). }
  unfold outcome_once in *.
  destruct (headers "Idempotency-Key") as [key|]; [|by apply impl_result in E as []; apply Hnone; auto].
  unfold api_bind in E. destruct (request_to_string req) as [body|]; simpl in E;
    [|injection E as <- <-; apply Hnone; eauto].
  destruct (evaluate_internal_impl env tenant req c) as [[r1 c1]|?| |] eqn:Ei; try done.
  apply impl_result in Ei as [El Hr]. destruct r1 as [resp|e]; simpl in E;
    [|injection E as <- <-; apply Hnone; eauto].
  destruct (response_to_string resp) as [text|]; simpl in E;
    [|injection E as <- <-; apply Hnone; eauto].
  unfold api_idempotent in E. destruct (check_and_remember _ _ _ _ _ _ _ _) as [o store]. simpl in E.
  destruct o; simpl in E; try (destruct (response_from_str _); simpl in E);
    injection E as <- <-; simpl; rewrite <- ?app_assoc, El;
    (eexists; split_and!; [reflexivity|constructor|eauto]).
Qed.

Lemma tenant_recorded headers c r c' :
  extract_tenant_id headers c = Ret (r, c') → c' = c ∧ conflict_rejection r = false.
Proof.
  unfold extract_tenant_id, api_bind. intros E.
  destruct (headers "X-Tenant-Id") as [text|]; simpl in E; [|by injection E as <- <-].
  destruct (uuid_parse text); by injection E as <- <-.
Qed.

(** The whole log of a request. *)
Lemma evaluate_recorded env np ni headers req c r c' :
  evaluate_internal env np ni headers req c = Ret (r, c') →
  ∃ l, keyed_log (conflict_rejection r) l ∧ outcome_once headers r l
    ∧ sv_log c' = sv_log c ++ l
        ++ (match r with
            | inl resp =>
                TmMetric (record_decision (is_decision_kind resp))
                :: (if negb (bool_decide (to_ascii_lowercase (is_decision_kind resp) = "pass"%string))
                    then [TmAudit "evaluate"] else [])
            | inr _ => []
            end)
        ++ [TmMetric (LatencyScope_drop (LatencyScope_start "/internal/v1/evaluate" (he_start env))
                        (he_stop env))].
Proof.
  unfold evaluate_internal. intros ([r0 c1] & E & [= <- <-])%bind_Ret_inv. cbn [sv_log].
  apply bind_Ret_inv in E as ([[t|e] c0] & Et & E); apply tenant_recorded in Et as [-> Hc].
  2: { injection E as <- <-. exists []. destruct e as [st msg]. simpl in Hc |- *. rewrite Hc.
       unfold outcome_once. by destruct (headers "Idempotency-Key"); split_and!; try constructor. }
  apply bind_Ret_inv in E as ([[resp|e] c2] & Ek & E); apply keyed_recorded in Ek as (l & El & Hl & Hn).
  2: { injection E as <- <-. exists l. destruct e as [st msg]. rewrite El, <- !app_assoc.
       by split_and!. }
  unfold api_metric, api_log in E. simpl in E. exists l.
  destruct (bool_decide _) eqn:Eb in E; simpl in E; injection E as <- <-; simpl;
    rewrite El, Eb, <- !app_assoc; by split_and!.
Qed.

(** Reads counters off a list of known entries. *)
Ltac count_entries :=
  cbn; repeat (first [rewrite bool_decide_true by done | rewrite bool_decide_false by done]; cbn).

(** The cases of the idempotency step and of the result. *)
Ltac by_entries Hl r :=
  let E := fresh "E" in
  inversion Hl as [E|? E|E]; destruct r; try discriminate E; try rewrite <- E;
  try destruct (negb _).

(** C23: what an evaluation leaves in the metrics.  An accepted request
    adds one decision, under the kind of its response; a rejected one adds
    none.  Without a key no idempotency outcome is recorded; an accepted
    request with a key records exactly one, a rejected one at most one.  The
    error counter moves only for a reused key with another body: the other
    rejections, malformed or forbidden or failed, are not in it. *)
Theorem evaluation_recorded env np ni headers req c r c'
    (Hrun : evaluate_internal env np ni headers req c = Ret (r, c')) :
  let grown name := counter_sum name (metrics_of (sv_log c'))
                    - counter_sum name (metrics_of (sv_log c)) in
  grown "propfirm_evaluate_decisions_total"%string = (match r with inl _ => 1 | inr _ => 0 end)
  ∧ (∀ resp, r = inl resp →
       let labels := [("kind"%string, is_decision_kind resp)] in
       counter_total "propfirm_evaluate_decisions_total" labels (metrics_of (sv_log c'))
       = counter_total "propfirm_evaluate_decisions_total" labels (metrics_of (sv_log c)) + 1)
  ∧ grown "propfirm_errors_total"%string = (if conflict_rejection r then 1 else 0)
  ∧ (headers "Idempotency-Key" = None → grown "propfirm_idempotency_outcomes_total"%string = 0)
  ∧ (∀ key resp, headers "Idempotency-Key" = Some key → r = inl resp →
       grown "propfirm_idempotency_outcomes_total"%string = 1)
  ∧ 0 ≤ grown "propfirm_idempotency_outcomes_total"%string ≤ 1.
Proof.
  intros grown. subst grown. cbv beta.
  apply evaluate_recorded in Hrun as (l & Hl & Hn & ->). unfold outcome_once in Hn.
  unfold counter_sum, counter_total, metrics_of. rewrite !omap_app, !counter_where_app.
  split_and!.
  - by_entries Hl r; count_entries; lia.
  - intros resp ->. rewrite ?omap_app, !counter_where_app.
    inversion Hl; destruct (negb _); count_entries; lia.
  - by_entries Hl r; count_entries; lia.
  - intros Hk. rewrite Hk in Hn. subst l. destruct r; [destruct (negb _)|]; count_entries; lia.
  - intros key resp Hk ->. rewrite Hk in Hn. destruct Hn as (o & ->).
    destruct (negb _); count_entries; lia.
  - by_entries Hl r; count_entries; lia.
  - by_entries Hl r; count_entries; lia.
Qed.

End Recorded.

(** ** Witnesses *)

Import Samples PipelineSamples ApiSamples HandlerSamples HttpSamples.

(** A request for a path that does not exist is counted as a 404. *)
Lemma every_answer_counted_witness :
  ∃ resp s', router_with_limits false 100 5 server_env (call "GET" "/nowhere" 0) idle = Ret (resp, s')
    ∧ hs_status resp = NOT_FOUND
    ∧ counter_total http_counter [("method", "GET"); ("status", "404")]%string
        (metrics_of (sv_log (srv_api s'))) = 1.
Proof.
  destruct (every_answer_counted false 100 5 server_env (call "GET" "/nowhere" 0) idle) as [Hc Ha].
  destruct Ha as [[resp s'] Hr]; [intros h; eexists; reflexivity|].
  exists resp, s'. split; [exact Hr|].
  assert (Hst : hs_status resp = NOT_FOUND).
  { assert (Hv : match router_with_limits false 100 5 server_env (call "GET" "/nowhere" 0) idle with
                 | Ret (r, _) => hs_status r | _ => 0 end = NOT_FOUND) by (vm_compute; reflexivity).
    rewrite Hr in Hv. exact Hv. }
  split; [exact Hst|]. destruct (Hc resp s' Hr) as [_ Ht]. rewrite Hst in Ht. exact Ht.
Defined.

(** The liveness probe without an id in the request. *)
Lemma request_id_only_echoed_witness :
  ∃ resp s', router_with_limits false 100 5 server_env (call "GET" "/health" 0) idle = Ret (resp, s')
    ∧ hs_status resp = 200 ∧ hs_headers resp REQUEST_ID_HEADER = None
    ∧ sp_request_id <$> srv_spans s' = ["-"%string].
Proof.
  assert (Hv : match router_with_limits false 100 5 server_env (call "GET" "/health" 0) idle with
               | Ret (r, s1) => bool_decide (hs_status r = 200)
                                && bool_decide (sp_request_id <$> srv_spans s1 = ["-"%string])
               | _ => false end = true) by (vm_compute; reflexivity).
  destruct (router_with_limits false 100 5 server_env (call "GET" "/health" 0) idle)
    as [[resp s']|?| |] eqn:E; try discriminate Hv.
  exists resp, s'. split; [reflexivity|].
  destruct (request_id_only_echoed false 100 5 server_env (call "GET" "/health" 0) idle resp s' E)
    as [Hid _].
  apply andb_true_iff in Hv as [H1 H2]. apply bool_decide_eq_true in H1, H2.
  split; [exact H1|]. split; [exact Hid|exact H2].
Defined.

Lemma routes_reach_handlers_witness :
  routed false server_env (call "POST" "/internal/v1/evaluate" 0) idle
  = serve_endpoint server_env EpEvaluate (call "POST" "/internal/v1/evaluate" 0) idle.
Proof.
  apply (proj1 (routes_reach_handlers false server_env (call "POST" "/internal/v1/evaluate" 0) idle)
    (post_ "/internal/v1/evaluate" EpEvaluate)); [|reflexivity|reflexivity].
  simpl. do 2 right. left.
Defined.

(** A tenant's account that is not evaluated: one decision, no error. *)
Lemma evaluation_recorded_witness :
  ∃ r c', evaluate_internal (api_env noon) 0 0 headers (request done_account noon) server = Ret (r, c')
    ∧ counter_sum "propfirm_errors_total" (metrics_of (sv_log c')) = 0.
Proof.
  assert (Hr : ∃ r c', evaluate_internal (api_env noon) 0 0 headers (request done_account noon) server
    = Ret (r, c') ∧ conflict_rejection r = false).
  { assert (Hv : match evaluate_internal (api_env noon) 0 0 headers (request done_account noon) server with
                 | Ret (r, _) => conflict_rejection r | _ => true end = false) by (vm_compute; reflexivity).
    destruct (evaluate_internal (api_env noon) 0 0 headers (request done_account noon) server)
      as [[r c']|?| |]; try discriminate Hv. by exists r, c'. }
  destruct Hr as (r & c' & Hr & Hc). exists r, c'. split; [exact Hr|].
  destruct (evaluation_recorded (api_env noon) 0 0 headers (request done_account noon) server r c' Hr)
    as (_ & _ & He & _). rewrite Hc in He.
  change (counter_sum "propfirm_errors_total" (metrics_of (sv_log c')) - 0 = 0) in He. lia.
Defined.
