(* ===== verification/SettingsFacts.v ===== *)
(** * Theorems on the settings

    Which layer a setting comes from, and what a value in the place of a
    section does. *)

From S2P Require Import Prelude.
#[local] Open Scope Z_scope.
From Stdlib Require Import Floats.SpecFloat Ascii.
From S2P Require Import Settings.

Section Layers.
Context `{F : FigmentOps} `{!FigmentLaws F}.

Definition is_dict (v : Value) : bool := match v with VlDict _ => true | _ => false end.
Definition is_array (v : Value) : bool := match v with VlArray _ => true | _ => false end.

(** The value at a path of names. *)
Fixpoint value_at (d : list (string * Value)) (path : list string) : option Value :=
  match path with
  | [] => Some (VlDict d)
  | [name] => entry d name
  | name :: path' =>
      match entry d name with Some (VlDict d') => value_at d' path' | _ => None end
  end.

(** The sections of the settings, and the settings in them. *)
Definition sections : list (list string) :=
  [["server"]; ["server"; "tls"]; ["observability"]; ["observability"; "otlp"]]%string.

Definition setting_paths : list (list string) :=
  [["server"; "bind_addr"]; ["server"; "max_body_bytes"]; ["server"; "request_timeout_secs"];
   ["server"; "shutdown_timeout_secs"];
   ["server"; "tls"; "enabled"]; ["server"; "tls"; "cert_path"]; ["server"; "tls"; "key_path"];
   ["server"; "tls"; "client_ca_path"];
   ["observability"; "log_filter"]; ["observability"; "log_format"];
   ["observability"; "metrics_enabled"]; ["observability"; "metrics_path"];
   ["observability"; "panic_hook"]; ["observability"; "flame_output_path"];
   ["observability"; "otlp"; "endpoint"]; ["observability"; "otlp"; "protocol"];
   ["observability"; "otlp"; "service_name"]; ["observability"; "otlp"; "stdout"];
   ["observability"; "otlp"; "sample_ratio"]]%string.

(** Along the path there are only tables, and no table at its end. *)
Fixpoint plain (d : list (string * Value)) (path : list string) : bool :=
  match path with
  | [] => false
  | [name] => match entry d name with Some (VlDict _) => false | _ => true end
  | name :: path' =>
      match entry d name with
      | None => true
      | Some (VlDict d') => plain d' path'
      | Some _ => false
      end
  end.

(** A layer in which sections are tables and settings are not. *)
Definition tidy (d : list (string * Value)) : bool := forallb (plain d) setting_paths.

(** One setting read from where it is found, or else its default. *)
Definition setting {A} (look : string → option Value) (name : string) (dflt : A)
    (read : Value → option A) : option A :=
  match look name with Some v => read v | None => Some dflt end.

Definition tls_from (look : string → option Value) : option TlsSettings :=
  enabled ← setting look "enabled" false read_bool;
  cert ← setting look "cert_path" "/etc/propfirm/tls/cert.pem"%string read_str;
  key ← setting look "key_path" "/etc/propfirm/tls/key.pem"%string read_str;
  ca ← setting look "client_ca_path" None read_opt_str;
  Some (mkTlsSettings enabled cert key ca).

Definition server_from (look : string → option Value) (tls : option TlsSettings)
    : option ServerSettings :=
  addr ← setting look "bind_addr" "0.0.0.0:8080"%string read_str;
  body ← setting look "max_body_bytes" 2097152 read_u64;
  request ← setting look "request_timeout_secs" 30 read_u64;
  shutdown ← setting look "shutdown_timeout_secs" 30 read_u64;
  tls ← tls;
  Some (mkServerSettings addr body request shutdown tls).

Definition otlp_from (look : string → option Value) : option OtlpSettings :=
  endpoint ← setting look "endpoint" ""%string read_str;
  protocol ← setting look "protocol" "grpc"%string read_str;
  service ← setting look "service_name" "propfirm-engine"%string read_str;
  stdout ← setting look "stdout" false read_bool;
  ratio ← setting look "sample_ratio" f64_one read_f64;
  Some (mkOtlpSettings endpoint protocol service stdout ratio).

Definition observability_from (look : string → option Value) (otlp : option OtlpSettings)
    : option ObservabilitySettings :=
  filter ← setting look "log_filter" "info,propfirm=debug"%string read_str;
  format ← setting look "log_format" "json"%string read_str;
  metrics ← setting look "metrics_enabled" true read_bool;
  path ← setting look "metrics_path" "/metrics"%string read_str;
  hook ← setting look "panic_hook" true read_bool;
  otlp ← otlp;
  flame ← setting look "flame_output_path" ""%string read_str;
  Some (mkObservabilitySettings filter format metrics path hook otlp flame).

(** The settings, one by one, from the value found for each path. *)
Definition settings_from (look : list string → option Value) : option Settings :=
  server ← server_from (fun n => look ["server"; n])
             (tls_from (fun n => look ["server"; "tls"; n]))%string;
  obs ← observability_from (fun n => look ["observability"; n])
          (otlp_from (fun n => look ["observability"; "otlp"; n]))%string;
  Some (mkSettings server obs).

(** The one file that is read. *)
Definition config_file : option (list (string * Value)) :=
  match env_config_path with
  | Some path => toml_file path
  | None => if bundled_exists then toml_file bundled_path else Some []
  end.

(** The first layer that has the setting. *)
Definition first_layer (env file : list (string * Value)) (path : list string) : option Value :=
  match value_at env path with
  | Some v => Some v
  | None => match value_at file path with
            | Some v => Some v
            | None => value_at DEFAULT_CONFIG_TOML path
            end
  end.

(** ** Merging *)

Lemma value_at_cons d name name' p :
  value_at d (name :: name' :: p)
  = match entry d name with Some (VlDict d') => value_at d' (name' :: p) | _ => None end.
Proof. done. Qed.

Lemma plain_cons d name name' p :
  plain d (name :: name' :: p)
  = match entry d name with
    | None => true
    | Some (VlDict d') => plain d' (name' :: p)
    | Some _ => false
    end.
Proof. done. Qed.

(** On plain paths the later layer comes first. *)
Lemma merge_at a b p :
  plain a p = true → plain b p = true →
  plain (fig_merge a b) p = true
  ∧ value_at (fig_merge a b) p
    = match value_at b p with Some v => Some v | None => value_at a p end.
Proof.
  revert a b. induction p as [|name [|name' p] IH]; intros a b Ha Hb; [done| |].
  - simpl in *. rewrite fig_merge_entry. by repeat case_match.
  - rewrite plain_cons in Ha, Hb. rewrite plain_cons, !value_at_cons, fig_merge_entry.
    destruct (entry a name) as [[]|], (entry b name) as [[]|]; try done.
    + by apply IH.
    + split; [done|]. by case_match.
Qed.

(** A value that is no table replaces whatever was there. *)
Lemma merge_at_later a b p v :
  value_at b p = Some v → is_dict v = false → value_at (fig_merge a b) p = Some v.
Proof.
  revert a b. induction p as [|name [|name' p] IH]; intros a b Hb Hv.
  - by injection Hb as <-.
  - simpl in *. rewrite fig_merge_entry, Hb. by repeat case_match.
  - rewrite value_at_cons in Hb |- *. rewrite fig_merge_entry.
    destruct (entry b name) as [[]|]; try done. destruct (entry a name) as [[]|]; try done.
    by apply IH.
Qed.

Lemma tidy_plain d p : tidy d = true → p ∈ setting_paths → plain d p = true.
Proof. unfold tidy. rewrite forallb_forall. intros Hd Hp. by apply Hd, list_elem_of_In. Qed.

Lemma tidy_merge a b : tidy a = true → tidy b = true → tidy (fig_merge a b) = true.
Proof.
  unfold tidy. rewrite !forallb_forall. intros Ha Hb p Hp. by apply merge_at; auto.
Qed.

(** ** Extraction *)

Lemma tls_of_section d :
  plain d ["tls"; "enabled"]%string = true →
  field d "tls" TlsSettings_default (read_struct TlsSettings_extract)
  = tls_from (fun n => value_at d ["tls"; n]%string).
Proof.
  rewrite plain_cons. unfold field, tls_from, setting. intros Hp. rewrite !value_at_cons.
  by destruct (entry d "tls") as [[]|].
Qed.

Lemma otlp_of_section d :
  plain d ["otlp"; "endpoint"]%string = true →
  field d "otlp" OtlpSettings_default (read_struct OtlpSettings_extract)
  = otlp_from (fun n => value_at d ["otlp"; n]%string).
Proof.
  rewrite plain_cons. unfold field, otlp_from, setting. intros Hp. rewrite !value_at_cons.
  by destruct (entry d "otlp") as [[]|].
Qed.

Lemma server_of_section d :
  plain d ["server"; "tls"; "enabled"]%string = true →
  field d "server" ServerSettings_default (read_struct ServerSettings_extract)
  = server_from (fun n => value_at d ["server"; n]%string)
      (tls_from (fun n => value_at d ["server"; "tls"; n]%string)).
Proof.
  rewrite plain_cons. unfold field at 1, server_from, setting. intros Hp.
  destruct (entry d "server") as [[| | | | | | |sd]|] eqn:E; try discriminate Hp.
  - cbn [read_struct]. unfold ServerSettings_extract. cbv zeta. rewrite !value_at_cons, E.
    change (ss_tls ServerSettings_default) with TlsSettings_default. rewrite (tls_of_section sd Hp). unfold tls_from, setting. rewrite !value_at_cons, E. reflexivity.
  - unfold tls_from, setting. by rewrite !value_at_cons, E.
Qed.

Lemma observability_of_section d :
  plain d ["observability"; "otlp"; "endpoint"]%string = true →
  field d "observability" ObservabilitySettings_default (read_struct ObservabilitySettings_extract)
  = observability_from (fun n => value_at d ["observability"; n]%string)
      (otlp_from (fun n => value_at d ["observability"; "otlp"; n]%string)).
Proof.
  rewrite plain_cons. unfold field at 1, observability_from, setting. intros Hp.
  destruct (entry d "observability") as [[| | | | | | |sd]|] eqn:E; try discriminate Hp.
  - cbn [read_struct]. unfold ObservabilitySettings_extract. cbv zeta. rewrite !value_at_cons, E.
    change (obs_otlp ObservabilitySettings_default) with OtlpSettings_default.
    rewrite (otlp_of_section sd Hp). unfold otlp_from, setting. rewrite !value_at_cons, E. reflexivity.
  - unfold otlp_from, setting. by rewrite !value_at_cons, E.
Qed.

Lemma extract_tidy d : tidy d = true → Settings_extract d = settings_from (value_at d).
Proof.
  unfold tidy. rewrite forallb_forall. intros Hd. unfold Settings_extract, settings_from.
  cbv zeta. cbn [set_server set_observability Settings_default].
  rewrite server_of_section, observability_of_section; [done|apply Hd; simpl; tauto..].
Qed.

(** Only the paths of the settings are looked at. *)
Lemma settings_from_ext look look' :
  (∀ p, p ∈ setting_paths → look p = look' p) → settings_from look = settings_from look'.
Proof.
  intros Hl. unfold settings_from, server_from, tls_from, observability_from, otlp_from, setting.
  rewrite !Hl; [done|apply list_elem_of_In; simpl; tauto..].
Qed.

Lemma field_found {A} d n v (dflt : A) read : entry d n = Some v → field d n dflt read = read v.
Proof. unfold field. by intros ->. Qed.

Ltac fields_step :=
  match goal with
  | |- context [field ?a ?b ?c ?r ≫= _] => destruct (field a b c r); cbn [mbind option_bind]
  end.

(** A value in the place of a section is an error. *)
Lemma stray_section d p v :
  p ∈ sections → value_at d p = Some v → is_dict v = false → is_array v = false →
  Settings_extract d = None.
Proof.
  intros Hp Hv Hd Ha. assert (Hr : ∀ A read, @read_struct _ A read v = None) by (by destruct v).
  unfold Settings_extract. cbv zeta. unfold sections in Hp.
  apply list_elem_of_In in Hp as [<-|[<-|[<-|[<-|[]]]]]; rewrite ?value_at_cons in Hv; cbn [value_at] in Hv.
  - by rewrite (field_found _ _ _ _ _ Hv), Hr.
  - destruct (entry d "server") as [[| | | | | | |sd]|] eqn:E; try discriminate Hv.
    rewrite (field_found _ _ _ _ _ E). cbn [read_struct]. unfold ServerSettings_extract. cbv zeta.
    rewrite (field_found _ _ _ _ _ Hv), Hr. cbn [mbind option_bind]. by repeat fields_step.
  - rewrite (field_found _ _ _ _ _ Hv), Hr. cbn [mbind option_bind]. by fields_step.
  - destruct (entry d "observability") as [[| | | | | | |sd]|] eqn:E; try discriminate Hv.
    rewrite (field_found _ _ _ _ _ E). cbn [read_struct]. unfold ObservabilitySettings_extract. cbv zeta.
    rewrite (field_found _ _ _ _ _ Hv), Hr. cbn [mbind option_bind]. by repeat fields_step.
Qed.

(** ** Loading *)

Lemma default_tidy : tidy DEFAULT_CONFIG_TOML = true.
Proof. reflexivity. Qed.

Lemma file_layers_merged : file_layers = fig_merge DEFAULT_CONFIG_TOML <$> config_file
  ∨ config_file = Some [] ∧ file_layers = Some DEFAULT_CONFIG_TOML.
Proof. unfold file_layers, config_file. destruct env_config_path; [by left|]. destruct bundled_exists; auto. Qed.

(** C25: where a setting comes from.  When in the file and in the prefixed
    variables sections are tables and settings are not, the settings are read
    one by one, each from the variables if they have it, else from the
    configuration file, else from the built-in text, else its default; the
    file is the one named by PROPFIRM_CONFIG when that is set, and the bundled
    file is then not read at all.  A variable in the place of a section, such
    as PROPFIRM_SERVER=x, replaces the section, and loading fails.  With
    neither file nor variables the settings are the defaults of the records. *)
Theorem settings_layers file env
    (Hfile : config_file = Some file) (Henv : env_prefixed = Some env) :
  (tidy file = true → tidy env = true → Settings_load = settings_from (first_layer env file))
  ∧ (∀ p v, p ∈ sections → value_at env p = Some v → is_dict v = false → is_array v = false →
       Settings_load = None)
  ∧ (file = [] → env = [] → Settings_load = Some Settings_default).
Proof.
  assert (Hload : ∃ fig, file_layers = Some fig ∧ Settings_load = Settings_extract (fig_merge fig env)
    ∧ (fig = fig_merge DEFAULT_CONFIG_TOML file ∨ file = [] ∧ fig = DEFAULT_CONFIG_TOML)).
  { unfold Settings_load. rewrite Henv.
    destruct file_layers_merged as [Ef|[E0 Ef]]; rewrite Ef, ?Hfile; eexists; [by auto|].
    rewrite Hfile in E0. injection E0 as ->. auto. }
  destruct Hload as (fig & _ & -> & Hfig).
  assert (Hlayers : tidy file = true → tidy env = true →
    Settings_extract (fig_merge fig env) = settings_from (first_layer env file)).
  { intros Tf Te.
    assert (Hp : tidy fig = true ∧ ∀ p, p ∈ setting_paths → value_at fig p
      = match value_at file p with Some v => Some v | None => value_at DEFAULT_CONFIG_TOML p end).
    { destruct Hfig as [->|[-> ->]].
      - split; [by apply tidy_merge|]. intros p Hp. apply merge_at; by apply tidy_plain.
      - split; [done|]. intros p Hp.
        repeat (apply elem_of_cons in Hp as [->|Hp]; [done|]). by apply not_elem_of_nil in Hp. }
    destruct Hp as [Tfig Hfile']. rewrite extract_tidy by by apply tidy_merge.
    apply settings_from_ext. intros p Hp. unfold first_layer. rewrite <- Hfile' by done.
    apply merge_at; by apply tidy_plain. }
  split_and!; [done| |].
  - intros p v Hp Hv Hd Ha. eapply stray_section; eauto. by apply merge_at_later.
  - intros -> ->. by rewrite Hlayers.
Qed.

End Layers.

(** ** Witness *)

Module SettingsSamples.

(** The entries of the later dictionary, merged with those of the earlier,
    before the rest of the earlier. *)
Fixpoint coalesce (x y : Value) : Value :=
  match x, y with
  | VlDict a, VlDict b =>
      VlDict (map (fun e => (fst e, match entry a (fst e) with
                                    | Some v => coalesce v (snd e)
                                    | None => snd e
                                    end)) b
              ++ List.filter (fun e => match entry b (fst e) with Some _ => false | None => true end) a)
  | _, _ => y
  end.

Definition merged (a b : list (string * Value)) : list (string * Value) :=
  match coalesce (VlDict a) (VlDict b) with VlDict c => c | _ => [] end.

Lemma entry_app l l' name :
  entry (l ++ l') name = match entry l name with Some v => Some v | None => entry l' name end.
Proof.
  unfold entry. induction l as [|e l IH]; simpl; [done|]. by case_bool_decide.
Qed.

Lemma entry_map (f : string → Value → Value) l name :
  entry (map (fun e => (fst e, f (fst e) (snd e))) l) name = f name <$> entry l name.
Proof.
  unfold entry. induction l as [|e l IH]; simpl; [done|]. case_bool_decide; [by subst|done].
Qed.

Lemma entry_filter (keep : string → bool) l name :
  entry (List.filter (fun e => keep (fst e)) l) name = if keep name then entry l name else None.
Proof.
  unfold entry. induction l as [|e l IH]; simpl; [by case_match|].
  destruct (keep (fst e)) eqn:Ek; simpl; case_bool_decide as He; try done; subst; rewrite ?Ek in *; done.
Qed.

#[export] Instance PlainFigment : FigmentOps := {|
  env_config_path := Some "/etc/engine.toml"%string;
  bundled_exists := true;
  toml_file path :=
    if bool_decide (path = "/etc/engine.toml"%string)
    then Some [("server", VlDict [("bind_addr", VlStr "127.0.0.1:1"); ("max_body_bytes", VlInt 7)])]%string
    else None;
  env_prefixed := Some [("server", VlDict [("max_body_bytes", VlInt 5)])]%string;
  fig_merge := merged;
  struct_of_array _ _ := None;
|}.

#[export] Instance PlainFigment_laws : FigmentLaws PlainFigment.
Proof.
  split. intros d d' name. cbn [fig_merge PlainFigment]. unfold merged at 1. cbn [coalesce].
  rewrite entry_app.
  rewrite (entry_map (fun n v => match entry d n with Some x => coalesce x v | None => v end)).
  rewrite (entry_filter (fun n => match entry d' n with Some _ => false | None => true end)).
  destruct (entry d' name) as [v|]; simpl.
  - destruct (entry d name) as [[]|]; by destruct v.
  - by destruct (entry d name) as [[]|].
Qed.

End SettingsSamples.
Import SettingsSamples.

(** One setting from each layer. *)
Lemma settings_layers_witness :
  ∃ s, Settings_load = Some s ∧ ss_bind_addr (set_server s) = "127.0.0.1:1"%string
    ∧ ss_max_body_bytes (set_server s) = 5 ∧ ss_request_timeout_secs (set_server s) = 30.
Proof.
  destruct (settings_layers
    [("server", VlDict [("bind_addr", VlStr "127.0.0.1:1"); ("max_body_bytes", VlInt 7)])]%string
    [("server", VlDict [("max_body_bytes", VlInt 5)])]%string) as (Hload & _ & _).
  - reflexivity.
  - reflexivity.
  - rewrite Hload by reflexivity. eexists. split; [reflexivity|]. split_and!; reflexivity.
Defined.
