(* ===== verification/ServerFacts.v ===== *)
(** * Theorems on the server process

    Client certificates; settings the process reads but does not follow;
    listeners that fail. *)

From S2P Require Import Prelude.
From S2P Require Import Decimal.
From S2P Require Import Chrono.
From S2P Require Import Pack.
#[local] Open Scope Z_scope.
From S2P Require Import Pipeline.
From S2P Require Import Settings.
From S2P Require Import Server.
From S2P Require Import Samples.

(** ** TLS *)

Section Tls.
Context `{TlsOps}.

Lemma anyhow_ok {A B} (m : anyhow A) (f : A → anyhow B) b :
  anyhow_bind m f = inl b → ∃ a, m = inl a ∧ f a = inl b.
Proof. destruct m; [eauto|done]. Qed.

(** The configuration TLS is served with: with a client authority it is built
    on a verifier of that authority's certificates. *)
Definition tls_as_set (tls : TlsSettings) (c : RustlsConfig) : Prop :=
  ∃ cert key, fs_read (tls_cert_path tls) = Some cert ∧ fs_read (tls_key_path tls) = Some key
    ∧ match tls_client_ca_path tls with
      | None => rc_client_verifier c = None ∧ config_from_pem cert key = Some (rc_config c)
      | Some path =>
          ∃ pem cas roots v certs k, fs_read path = Some pem ∧ pem_certs pem = Some cas
            ∧ add_roots [] cas = Some roots ∧ client_verifier roots = Some v
            ∧ pem_certs cert = Some certs ∧ pem_private_key key = Some (Some k)
            ∧ server_config v certs k = Some (rc_config c) ∧ rc_client_verifier c = Some v
      end.

Lemma load_tls_inv tls config :
  load_tls_config tls = inl config →
  match config with
  | None => tls_enabled tls = false
  | Some c => tls_enabled tls = true ∧ tls_as_set tls c
  end.
Proof.
  intros Hload. unfold load_tls_config in Hload. unfold tls_as_set.
  destruct (tls_enabled tls); cbn [negb] in Hload; [|by injection Hload as <-].
  apply anyhow_ok in Hload as (cert & Hc & Hload). apply anyhow_ok in Hload as (key & Hk & Hload).
  destruct (tls_client_ca_path tls); repeat (apply anyhow_ok in Hload as (? & ? & Hload));
    injection Hload as <-; unfold context in *;
    repeat match goal with H : match ?o with _ => _ end = inl _ |- _ =>
      let E := fresh "E" in destruct o eqn:E; [|discriminate H]; injection H as -> end;
    eauto 20.
Qed.

End Tls.

(** ** The process *)

Section Process.
Context `{DecimalOps} `{ChronoOps} `{!JsonOps} `{!TlsOps} `{!OtelOps}.

(** C24: the server serves as its TLS settings say.  When the server binary
    gets as far as serving, it serves on the configured address; in the clear
    exactly when TLS is turned off; and with TLS it uses the configured
    certificate and key and, when a client authority is configured, a verifier
    of client certificates built from that authority's file, otherwise none.
    A file or certificate that cannot be read or used keeps it from
    starting. *)
Theorem client_certificates_enforced otel flame parse_addr settings setup launch hook
    (Hmain : server_main otel flame parse_addr settings = (inl (setup, launch), hook)) :
  let tls := ss_tls (set_server settings) in
  let addr := ss_bind_addr (set_server settings) in
  match la_serving launch with
  | ServePlain at_ _ => at_ = addr ∧ tls_enabled tls = false
  | ServeTls at_ c => at_ = addr ∧ tls_enabled tls = true ∧ tls_as_set tls c
  end.
Proof.
  intros tls addr. unfold server_main in Hmain. destruct (init_tracing _ _ _) as [?|?]; [|done].
  unfold run_server in Hmain. injection Hmain as Hl _.
  apply anyhow_ok in Hl as (l & Hl & E). injection E as _ <-.
  apply anyhow_ok in Hl as (config & Hc & Hl).
  apply load_tls_inv in Hc. fold tls in Hc. fold addr in Hl.
  destruct config as [c|]; [|by injection Hl as <-].
  destruct (parse_addr addr); [|done]. by injection Hl as <-.
Qed.

(** The hook is installed whatever the settings say: a panic is traced once
    with the hook turned off and twice with it turned on. *)
Theorem panic_traced_anyway otel flame parse_addr settings setup launch hook
    (Hmain : server_main otel flame parse_addr settings = (inl (setup, launch), hook)) :
  hook = if obs_panic_hook (set_observability settings)
         then [PlTraced; PlTraced; PlStderr] else [PlTraced; PlStderr].
Proof.
  unfold server_main in Hmain. destruct (init_tracing _ _ _) as [?|?]; [|done].
  destruct (run_server _ _ _) as [l h] eqn:E. unfold run_server in E. injection E as <- <-.
  injection Hmain as _ <-. by destruct (obs_panic_hook _).
Qed.

(** Nothing of the observability settings reaches the server: neither the
    path of the metrics nor whether they are enabled. *)
Theorem observability_ignored parse_addr hook settings settings' :
  set_server settings = set_server settings' →
  run_server parse_addr hook settings = run_server parse_addr hook settings'.
Proof. destruct settings, settings'. simpl. by intros ->. Qed.

(** With stdout the spans go nowhere else, and the sample ratio is not read. *)
Theorem stdout_replaces_endpoint flame s setup endpoint protocol ratio
    (Hinit : init_tracing true flame s = inl setup) (Hout : otlp_stdout (obs_otlp s) = true) :
  ts_layers setup = TlOtlp ExStdout (otlp_service_name (obs_otlp s))
  ∧ init_tracing true flame
      (mkObservabilitySettings (obs_log_filter s) (obs_log_format s) (obs_metrics_enabled s)
         (obs_metrics_path s) (obs_panic_hook s)
         (mkOtlpSettings endpoint protocol (otlp_service_name (obs_otlp s)) true ratio)
         (obs_flame_output_path s)) = inl setup.
Proof.
  unfold init_tracing in *. simpl in *. rewrite Hout in *. rewrite !orb_true_r in *. simpl in *.
  by injection Hinit as <-.
Qed.

End Process.

(** A listener that cannot be installed stops the server at once. *)
Theorem failed_listener_stops unix ctrl_c sigterm drain
    (Hfail : ctrl_c = ListenFailed ∨ unix = true ∧ sigterm = ListenFailed)
    (Hlater : ∀ t, ctrl_c = Listening (Some t) ∨ sigterm = Listening (Some t) → 0 ≤ t) :
  axum_graceful_shutdown unix ctrl_c sigterm drain = Some 0.
Proof.
  unfold axum_graceful_shutdown, await_signal.
  destruct Hfail as [->|[-> ->]]; simpl.
  - destruct unix; [|done]. destruct sigterm as [[t|]|]; simpl; [|done..].
    f_equal. pose proof (Hlater t (or_intror eq_refl)). lia.
  - destruct ctrl_c as [[t|]|]; simpl; [|done..]. f_equal.
    pose proof (Hlater t (or_introl eq_refl)). lia.
Qed.

(** ** Witnesses *)

Module ServerSamples.

(** Files hold their own names; a private key is any text. *)
#[export] Instance PlainTls : TlsOps := {|
  fs_read path := Some path;
  pem_certs pem := Some [pem];
  pem_private_key pem := Some (Some pem);
  root_store_add store ca := Some (ca :: store);
  client_verifier roots := head roots;
  server_config v certs key := Some v;
  config_from_pem cert key := Some cert;
|}.

Definition mutual : TlsSettings := mkTlsSettings true "cert" "key" (Some "ca"%string).

#[export] Instance PlainOtel : OtelOps := {|
  filter_valid _ := true;
  build_exporter _ := true;
  flame_file _ := true;
|}.

End ServerSamples.
Import Samples ServerSamples.

Definition mutual_settings : Settings :=
  mkSettings (mkServerSettings "0.0.0.0:8443" 100 30 30 mutual) ObservabilitySettings_default.

Definition mutual_launch : Launch :=
  mkLaunch ServerState_with_memory 100 (Settings_request_timeout mutual_settings)
    (ServeTls "0.0.0.0:8443" (mkRustlsConfig "ca" (Some "ca"%string))).

Definition plain_tracing : TracingSetup := mkTracingSetup "info,propfirm=debug" false TlPlain.

Lemma client_certificates_enforced_witness :
  server_main false false (fun _ => true) mutual_settings
  = (inl (plain_tracing, mutual_launch), [PlTraced; PlTraced; PlStderr])
  ∧ tls_as_set mutual (mkRustlsConfig "ca" (Some "ca"%string)).
Proof.
  assert (E : server_main false false (fun _ => true) mutual_settings
    = (inl (plain_tracing, mutual_launch), [PlTraced; PlTraced; PlStderr])) by reflexivity.
  split; [exact E|].
  exact (proj2 (proj2 (client_certificates_enforced false false (fun _ => true) mutual_settings
    plain_tracing mutual_launch [PlTraced; PlTraced; PlStderr] E))).
Defined.
