(* ===== verification/CliFacts.v ===== *)
(** * Theorems on the command line

    What the arguments select, what the loop prints, and how a verdict of the
    REPL relates to the one of the evaluate endpoint. *)

From stdpp Require Import pretty.
From S2P Require Import Prelude.
From S2P Require Import Decimal.
From S2P Require Import Chrono.
From S2P Require Import Ids.
From S2P Require Import Domain.
From S2P Require Import Plan.
From S2P Require Import Account.
From S2P Require Import Violation.
From S2P Require Import Pack.
From S2P Require Import RuleApi.
#[local] Open Scope Z_scope.
From S2P Require Import Registry.
From S2P Require Import Decision.
From S2P Require Import State.
From S2P Require Import Pipeline.
From S2P Require Import Hashing.
From S2P Require Import Pure.
From S2P Require Import Json.
From S2P Require Import Api.
From S2P Require Import Values.
From S2P Require Import Text.
From S2P Require Import Cli.
From S2P Require Import Samples.
From S2P Require Import PipelineSamples.
From S2P Require Import ApiSamples.
From S2P Require Import PureFacts.
From S2P Require Import HandlerSamples.
From S2P Require Import CliSamples.
From S2P Require Import ApiFacts.
#[local] Open Scope cli_scope.
#[local] Opaque RuleId_named Sip.hash_bytes.

(** ** Arguments *)

(** A name that the parser does not take for an option or for a mark. *)
Definition plain_name (path : string) : Prop :=
  path ∉ ["-"; "stdin-marker"; "-f"; "--json"; "-j"]%string.

Lemma plain_marks path :
  plain_name path →
  bool_decide (path = "-f"%string) = false
  ∧ str_in path ["stdin-marker"; "-"] = false ∧ str_in path ["--json"; "-j"] = false.
Proof.
  unfold plain_name, str_in. intros Hp. split_and!; apply bool_decide_false; set_solver.
Qed.

Lemma source_second a path rest :
  plain_name path → repl_source (a :: path :: rest) = RsFile path.
Proof.
  intros (H1 & H2 & H3)%plain_marks. unfold repl_source, repl_path. simpl.
  by rewrite H1, H3, H2.
Qed.

Lemma source_after_f a path rest :
  plain_name path → repl_source (a :: "-f"%string :: path :: rest) = RsFile path.
Proof.
  intros (_ & H2 & _)%plain_marks. unfold repl_source.
  change (repl_path _) with (Some path). cbv iota. by rewrite H2.
Qed.

(** Where the requests come from.  Every documented way to name
    a file is understood, with the JSON flag before or after it, and without
    a file the requests come from the standard input; a file named without
    [-f] directly after [repl] is ignored. *)
Theorem repl_arguments path (Hplain : plain_name path) :
  repl_source [] = RsStdin
  ∧ repl_source ["--json"]%string = RsStdin
  ∧ repl_source ["-f"; path]%string = RsFile path
  ∧ (∀ flag, flag ∈ ["--json"; "-j"]%string →
       repl_source [flag; "-f"; path]%string = RsFile path
       ∧ repl_source ["-f"; path; flag]%string = RsFile path
       ∧ repl_json_mode [flag; "-f"; path]%string = true
       ∧ repl_json_mode ["-f"; path; flag]%string = true)
  ∧ repl_json_mode ["-f"; path]%string = false
  ∧ repl_source [path] = RsStdin.
Proof.
  destruct (plain_marks path Hplain) as (_ & _ & Hj).
  split_and!; try done; [by apply source_second| |].
  - intros flag Hf. split_and!; [by apply source_after_f|by apply source_second|..];
      unfold repl_json_mode; apply existsb_exists; exists flag;
      (split; [simpl; tauto|by apply bool_decide_true]).
  - unfold repl_json_mode. simpl. by rewrite Hj.
Qed.

(** ** The loop *)

(** The lines read before the first blank one, trimmed. *)
Fixpoint until_blank (lines : list string) : list string :=
  match lines with
  | [] => []
  | l :: rest => if bool_decide (trim l = ""%string) then [] else trim l :: until_blank rest
  end.

(** The requests among them, with the numbers of their lines. *)
Definition requests (n : nat) (lines : list string) : list (nat * string) :=
  List.filter (fun p => negb (is_comment (snd p))) (zip (seq n (length lines)) lines).

Definition printed_for (process : nat → string → cli string) (json_mode : bool)
    (p : nat * string) : outcome Printed :=
  let! r := process (fst p) (snd p) in
  Ret (match r with
       | inl output => OnStdout output
       | inr e => OnStderr (error_line json_mode (fst p) e)
       end).

(** One answer per request, in order.  If reading never fails
    and no evaluation panics, the loop prints exactly one text per line that
    is neither a comment nor after the first blank line, each under its own
    line number: the verdict on the output, or the error on the error
    stream, which does not stop the loop. *)
Theorem repl_one_answer_per_request process json_mode n lines
    (Htotal : ∀ i l, ∃ r, process i l = Ret r) :
  ∃ answers,
    repl_loop process json_mode n (Some <$> lines) = Ret (inl answers)
    ∧ Forall2 (fun p a => printed_for process json_mode p = Ret a)
        (requests n (until_blank lines)) answers.
Proof.
  revert n. induction lines as [|l lines IH]; intros n; simpl.
  { exists []. by split. }
  case_bool_decide as Hb; [exists []; by split|].
  destruct (IH (S n)) as (answers & E & HF). unfold requests. simpl.
  destruct (is_comment (trim l)) eqn:Hc; simpl; [by exists answers|].
  destruct (Htotal n (trim l)) as [r Hr]. rewrite Hr. simpl. change (list_fmap _ _ Some lines) with (Some <$> lines). rewrite E. simpl.
  eexists. split; [done|]. constructor; [|done]. unfold printed_for. simpl. by rewrite Hr.
Qed.

(** ** Against the evaluate endpoint *)

Section Repl.
Context `{HO : HashOps} `{!JsonOps} `{!Sha256Ops} `{!UuidOps} `{!UuidLaws _} `{!TimeText}
  `{!DecimalText} `{!JsonText} `{!CliText}.
Implicit Types req : InternalEvaluateRequest.

(** The account an applied decision leaves does not depend on the actor. *)
Lemma decision_actor a d at_ x y a' evs :
  apply_decision a d at_ x = Ret (a', evs) → ∃ evs', apply_decision a d at_ y = Ret (a', evs').
Proof.
  unfold apply_decision. destruct (decision_target_step a d at_) as [a1 ev1].
  intros E. apply bind_Ret_inv in E as ([a2 ev2] & -> & E). simpl.
  apply bind_Ret_inv in E as ([a3 ev3] & E3 & E). simplify_eq/=.
  unfold decision_terminate_step in *.
  destruct (Decision_account_status_target d) as [s|]; [|by simplify_eq/=; eauto].
  assert (HL : ∀ id tenant ps reason by_ i,
    LiquidationInstruction_new id tenant ps reason by_ x at_ = Ret i →
    ∃ i', LiquidationInstruction_new id tenant ps reason by_ y at_ = Ret i').
  { unfold LiquidationInstruction_new. intros * Ei.
    apply bind_Ret_inv in Ei as (est & -> & _). by eexists. }
  destruct (dec_kind d); simplify_eq/=; try (by eauto);
    apply bind_Ret_inv in E3 as (i & Ei & E3); apply HL in Ei as [i' ->]; simplify_eq/=; eauto.
Qed.

(** The clock and identifiers of a REPL line and of a request agree. *)
Record same_draws (env : ApiEnv) (renv : ReplEnv) : Prop := {
  sd_pack : re_now_pack renv = he_now_pack env;
  sd_context : re_now_context renv = he_now_context env;
  sd_reports : re_now_reports renv = he_now_reports env;
  sd_fresh : re_fresh renv = he_fresh env;
  sd_trades : re_trade_ids renv = he_trade_ids env;
}.

Lemma cli_all_api_all {A} (rs : list (A + string)) c l c' :
  api_all rs c = Ret (inl l, c') → cli_all rs = cli_ok l.
Proof.
  unfold api_all. revert l. induction rs as [|[a|e] rs IH]; intros l; simpl; [by intros [= <- _]| |done].
  destruct (head _) as [e|] eqn:Hh; [done|]. intros [= <- <-].
  by rewrite (IH _ eq_refl).
Qed.

Lemma cli_bind_ok {A B} (a : A) (f : A → cli B) : cli_bind (cli_ok a) f = f a.
Proof. done. Qed.

Lemma cli_some_ok {A} msg (a : A) : cli_some msg (Some a) = cli_ok a.
Proof. done. Qed.

Lemma cli_of_Ret {A} (a : A) : cli_of (Ret a) = cli_ok a.
Proof. done. Qed.

(** What the estimated shape of a request is turned into. *)
Lemma estimated_inputs env id acc req c c' acc' ps ts t tick :
  request_inputs env id acc req None c = Ret (inl (acc', ps, ts, t, tick), c') →
  acc' = acc ∧ (∃ tk, ir_tick req = Some tk ∧ tick = Some tk ∧ t = q_ts (tick_quote tk))
  ∧ cli_all ((fun p => PositionDto_into_domain p id) <$> default [] (ir_open_positions req)) = cli_ok ps
  ∧ cli_all (imap (fun i d => TradeDto_into_domain (he_trade_ids env i) d id)
               (default [] (ir_today_trades req))) = cli_ok ts.
Proof.
  unfold request_inputs, trades_of. intros E.
  apply api_bind_ok in E as (tk & c1 & Htk & E). apply api_some_inv in Htk as [Htk ->].
  apply api_bind_ok in E as (ps' & c2 & Hps & E). apply cli_all_api_all in Hps.
  apply api_bind_ok in E as (ts' & c3 & Hts & E). apply cli_all_api_all in Hts.
  apply api_ok_inv in E as [E _]. simplify_eq. split_and!; eauto.
Qed.


(** A request that carries a bridge tick. *)
Definition with_bridge (req : InternalEvaluateRequest) (bt : BridgeTickV1) : InternalEvaluateRequest :=
  mkInternalEvaluateRequest (ir_account_id req) (ir_account_state req) (ir_rule_pack req) (Some bt)
    (ir_tick req) (ir_equity_source req) (ir_open_positions req) (ir_today_trades req)
    (ir_cross_reference_trades req).

(** Of a bridge tick the REPL reads the time only.  Two lines that differ in
    the tick's equity, balance or positions get the same verdict as long as
    the broker's time is the same, whereas the endpoint evaluates the account
    with the equity and the balance of the tick. *)
Theorem repl_ignores_bridge_equity :
  (∀ env req bt bt', bt_broker_time (bt_payload bt) = bt_broker_time (bt_payload bt') →
     repl_verdict env (with_bridge req bt) = repl_verdict env (with_bridge req bt'))
  ∧ (∀ env id acc req bt c acc' ps ts t tick c',
       request_inputs env id acc (with_bridge req bt) (Some bt) c
       = Ret (inl (acc', ps, ts, t, tick), c') →
       cents_to_decimal (bt_equity_cents (bt_payload bt)) = Ret (acc_equity acc')
       ∧ cents_to_decimal (bt_balance_cents (bt_payload bt)) = Ret (acc_balance acc')).
Proof.
  split.
  - intros env req bt bt' E. unfold repl_verdict, repl_server_time.
    cbn [with_bridge ir_bridge_tick]. by rewrite E.
  - intros * E. unfold request_inputs in E. api_inv. simplify_eq/=. done.
Qed.

End Repl.

(** ** Witnesses *)

Import Samples PipelineSamples ApiSamples HandlerSamples CliSamples.

Lemma repl_arguments_witness :
  repl_source ["-f"; "requests.jsonl"]%string = RsFile "requests.jsonl"
  ∧ repl_source ["requests.jsonl"]%string = RsStdin.
Proof.
  assert (Hp : plain_name "requests.jsonl") by (apply (bool_decide_unpack _); vm_compute; exact I).
  destruct (repl_arguments "requests.jsonl" Hp) as (_ & _ & Hf & _ & _ & Hs).
  split; [exact Hf|exact Hs].
Defined.

Lemma repl_one_answer_per_request_witness :
  ∃ answers,
    repl_loop (fun _ l => cli_ok l) false 1 (Some <$> ["{}"; "# note"; "[]"; ""; "{}"]%string)
    = Ret (inl answers)
    ∧ Forall2 (fun p a => printed_for (fun _ l => cli_ok l) false p = Ret a)
        [(1%nat, "{}"%string); (3%nat, "[]"%string)] answers.
Proof.
  exact (repl_one_answer_per_request (fun _ l => cli_ok l) false 1
           ["{}"; "# note"; "[]"; ""; "{}"]%string (fun i l => ex_intro _ (inl l) eq_refl)).
Defined.

Definition evaluated_noon : outcome ((InternalEvaluateResponse + HttpError) * ApiState) :=
  evaluate_internal_impl (api_env noon) 9 (request account noon) server.

Definition answered (m : outcome ((InternalEvaluateResponse + HttpError) * ApiState)) : bool :=
  match m with Ret (inl resp, _) => is_evaluated resp | _ => false end.

Lemma noon_draws : same_draws (api_env noon) (repl_env noon).
Proof. by split. Qed.

