(* ===== verification/EngineFacts.v ===== *)
(** * Theorems on the evaluator, the notifier and the hash of a pack *)

From S2P Require Import Prelude.
From S2P Require Import Decimal.
From S2P Require Import Chrono.
From S2P Require Import Ids.
From S2P Require Import Domain.
From S2P Require Import Plan.
From S2P Require Import Account.
From S2P Require Import Violation.
From S2P Require Import Pack.
From S2P Require Import RuleApi.
#[local] Open Scope Z_scope.
From S2P Require Import Registry.
From S2P Require Import Decision.
From S2P Require Import Pipeline.
From S2P Require Import Hashing.
From S2P Require Import Pure.
From S2P Require Import Json.
From S2P Require Import Api.
From S2P Require Import Values.
From S2P Require Import Text.
From S2P Require Import Evaluator.
From S2P Require Import Notify.
From S2P Require Import Samples.
From S2P Require Import PipelineSamples.
From S2P Require Import ApiSamples.
From S2P Require Import PureFacts.
From S2P Require Import HandlerSamples.
From S2P Require Import CliSamples.
From S2P Require Import TimeRules.
From S2P Require Import EstimatedFacts.
From S2P Require Import ApiFacts.
#[local] Opaque RuleId_named Sip.hash_bytes.

(** ** The evaluator against the pure function *)

Section Engine.
Context `{HO : HashOps} `{!JsonOps} `{!Sha256Ops}.
Implicit Types (e : Evaluator) (a : Account).

(** The inputs of a pure evaluation that carry the same history. *)
Definition tick_inputs (ps : list Position) (ts : list Trade) (evs : list DomainEvent) (tick : Tick)
    (src : EquitySource) : EvaluateInputs :=
  EvaluateInputs_with_equity_source
    ((EvaluateInputs_for_tick ps ts tick) <| ei_recent_events := evs |>) src.

Definition verdict_result (m : outcome PureVerdict) : outcome EvaluationResult :=
  let! v := m in Ret (EvaluationResult_from v).

Lemma tick_is_pure fresh now_reports now e a tick ps ts evs pack :
  Evaluator_evaluate_tick fresh now_reports e now a tick ps ts evs
  = verdict_result (evaluate fresh now now_reports a pack (el_registry e) OnTick now
                      (tick_inputs ps ts evs tick SrcBrokerReported)).
Proof.
  unfold Evaluator_evaluate_tick, Evaluator_evaluate_ctx, Evaluator_evaluate, verdict_result, evaluate.
  change (pure_context a OnTick now now _)
    with (RuleContext_with_broker_equity
            (with_history (RuleContext_for_tick a tick now) ps ts evs)
            (acc_equity a) (acc_balance a)).
  by destruct (RuleRegistry_evaluate _ _ _ _).
Qed.

Lemma tick_estimated_is_pure fresh now_reports now e a tick ps ts evs pack :
  Evaluator_evaluate_tick_estimated fresh now_reports e now a tick ps ts evs
  = verdict_result (evaluate fresh now now_reports a pack (el_registry e) OnTick now
                      (tick_inputs ps ts evs tick SrcEstimated)).
Proof.
  unfold Evaluator_evaluate_tick_estimated, Evaluator_evaluate_ctx, Evaluator_evaluate,
    verdict_result, evaluate.
  change (pure_context a OnTick now now _)
    with (RuleContext_with_estimated_equity
            (with_history (RuleContext_for_tick a tick now) ps ts evs)
            (acc_equity a) (acc_balance a)).
  by destruct (RuleRegistry_evaluate _ _ _ _).
Qed.

(** The evaluator's tick methods are the pure function.  From the
    same registry and history, [evaluate_tick] gives the reports and the
    decision of the pure evaluation with broker-reported equity at the time
    the evaluator reads the clock, and [evaluate_tick_estimated] those with
    estimated equity; errors and panics agree too. *)
Theorem evaluator_agrees_with_pure fresh now_reports now e a tick ps ts evs pack :
  Evaluator_evaluate_tick fresh now_reports e now a tick ps ts evs
  = verdict_result (evaluate fresh now now_reports a pack (el_registry e) OnTick now
                      (tick_inputs ps ts evs tick SrcBrokerReported))
  ∧ Evaluator_evaluate_tick_estimated fresh now_reports e now a tick ps ts evs
    = verdict_result (evaluate fresh now now_reports a pack (el_registry e) OnTick now
                        (tick_inputs ps ts evs tick SrcEstimated)).
Proof. split; [apply tick_is_pure|apply tick_estimated_is_pure]. Qed.

(** An evaluator built from a plan never fails an account for a loss on an
    estimate: past the deadline is the only way to terminate. *)
Lemma evaluator_estimate_harmless fresh_id plan e fresh now_reports now a tick ps ts evs r :
  Evaluator_new fresh_id plan = Ret e →
  Evaluator_evaluate_tick_estimated fresh now_reports e now a tick ps ts evs = Ret r →
  EvaluationResult_failed r = true →
  ∃ d, TimeLimitRule_plan_deadline a = Ret (Some d) ∧ ts_ltb d now = true.
Proof.
  intros He Hr Hf. unfold Evaluator_new in He. apply bind_Ret_inv in He as (reg & Hreg & [= <-]).
  rewrite (tick_estimated_is_pure _ _ _ _ _ _ _ _ _
             (RulePack_synthetic_from_plan "plan" 0 (acc_plan a) now)) in Hr. unfold verdict_result in Hr. apply bind_Ret_inv in Hr as (v & Hv & [= <-]).
  eapply pure_estimate_verdict; [exact Hv| |done..].
  destruct (plan_registry plan) as (r' & Hr' & Er). rewrite Hreg in Hr'. injection Hr' as <-.
  intros rule. simpl. rewrite Er, list_elem_of_In, filter_In, <- list_elem_of_In. tauto.
Qed.

(** ** Notifications *)

Context `{!UuidOps} `{!TimeText} `{!DecimalText}.

Lemma log_all n vs :
  foldM notify_violation n vs = Ret (mkLogNotifier (ln_buf n ++ (violation_line <$> vs))).
Proof.
  revert n. induction vs as [|v vs IH]; intros n; simpl; [by destruct n; rewrite app_nil_r|].
  rewrite IH. simpl. by rewrite <- app_assoc.
Qed.

(** Every violation is notified, once and in order.  A pipeline
    with the log notifier gives the result of the same pipeline without it,
    and appends to the buffer one line per violation of the result, in the
    order of the reports; draining returns those lines and empties it. *)
Theorem violations_notified fuel pl env n a ev res
    (Hrun : process fuel (mkPipeline (pl_registry pl) (fun _ => Ret tt) (pl_recent pl)) env a ev
            = Ret res) :
  ∃ n', process_notified fuel pl env n a ev = Ret (res, n')
    ∧ LogNotifier_snapshot n'
      = LogNotifier_snapshot n ++ (violation_line <$> EvaluationResult_violations (pr_result res))
    ∧ fst (LogNotifier_drain n') = LogNotifier_snapshot n'
    ∧ LogNotifier_snapshot (snd (LogNotifier_drain n')) = [].
Proof.
  unfold process_notified. rewrite Hrun. simpl. rewrite log_all. by eexists.
Qed.

(** ** What the hash of a pack covers *)

Context `{!JsonText}.

(** The pack with another failure policy and severity in every entry. *)
Definition with_policy (policy severity : option string) (p : RulePack) : RulePack :=
  mkRulePack (rp_id p) (rp_version p) (rp_tenant_id p) (rp_lifecycle p) (rp_effective_from p)
    (rp_superseded_by p) (rp_description p)
    ((fun en => en <| re_failure_policy := policy |> <| re_severity := severity |>) <$> rp_rules p)
    (rp_initial_balance p) (rp_leverage p) (rp_profit_target_pct p).

Lemma policy_unhashed policy severity p :
  RulePack_content_hash (with_policy policy severity p) = RulePack_content_hash p
  ∧ RulePack_to_json (with_policy policy severity p) = RulePack_to_json p.
Proof.
  assert (Hh : RulePack_content_hash (with_policy policy severity p) = RulePack_content_hash p).
  { unfold RulePack_content_hash. cbn [with_policy rp_rules].
    replace (((fun en : RuleEntry => _) <$> rp_rules p) ≫= RuleEntry_bytes)
      with (rp_rules p ≫= RuleEntry_bytes); [done|].
    induction (rp_rules p) as [|en rules IH]; [done|].
    rewrite fmap_cons, !bind_cons. by rewrite IH. }
  split; [done|]. unfold RulePack_to_json, rule_pack_json. rewrite Hh.
  cbn [with_policy rp_rules]. rewrite <- list_fmap_compose. done.
Qed.

End Engine.

(** ** Witnesses *)

Import Samples PipelineSamples ApiSamples HandlerSamples CliSamples.

Definition noon_crash : outcome PipelineResult :=
  process 10 (mkPipeline (pl_registry pl) (fun _ => Ret tt) (pl_recent pl)) (env_at noon)
    account (PeTick (quote_at noon) (money 1) (money 1)).

Lemma violations_notified_witness :
  ∃ res n', process_notified 10 pl (env_at noon) LogNotifier_new account
              (PeTick (quote_at noon) (money 1) (money 1)) = Ret (res, n')
    ∧ length (LogNotifier_snapshot n') = length (EvaluationResult_violations (pr_result res)).
Proof.
  assert (Hb : is_ret noon_crash = true) by (vm_compute; reflexivity).
  destruct noon_crash as [res|?| |] eqn:E; try discriminate Hb. unfold noon_crash in E.
  destruct (violations_notified 10 pl (env_at noon) LogNotifier_new account
    (PeTick (quote_at noon) (money 1) (money 1)) res E) as (n' & Hn & Hs & _).
  exists res, n'. split; [exact Hn|]. rewrite Hs. simpl. apply length_map.
Defined.

(** A pack whose one rule overflows: a limit of 10^27 times the balance. *)
Definition overflowing_pack (policy : option string) : RulePack :=
  with_policy policy None
    (mkRulePack "pack" 1 9 PlActive noon None "overflow"
       [RuleEntry_new "max" "max_drawdown" (dec_new (10 ^ 27) 0)] (money 10000) 100 (money 0)).

Definition pack_verdict (policy : option string) : outcome PureVerdict :=
  let! registry := RuleRegistry_build_from_pack (overflowing_pack policy) in
  evaluate (fun _ => fresh) noon noon account (overflowing_pack policy) registry OnTick noon
    (tick_inputs [] [] [] (quote_at noon) SrcBrokerReported).

(** One input hash, a warning and a failure. *)
Definition kinds_and_hashes (m m' : outcome PureVerdict) : bool :=
  match m, m' with
  | Ret v, Ret v' =>
      bool_decide (pv_input_hash v = pv_input_hash v')
      && (bool_decide (dec_kind (pv_decision v) = DkWarn)
          && bool_decide (dec_kind (pv_decision v') = DkFail))
  | _, _ => false
  end.

(** The hash and the JSON of a pack do not cover the failure
    policy.  Changing the failure policy or the severity of its entries
    leaves the content hash and the exported JSON of a pack as they are; yet
    the policy decides what a failing rule means: two packs with the same
    content hash and the same input hash warn in one case and fail the
    account in the other. *)
Theorem pack_hash_misses_policy :
  (∀ policy severity p,
     RulePack_content_hash (with_policy policy severity p) = RulePack_content_hash p
     ∧ RulePack_to_json (with_policy policy severity p) = RulePack_to_json p)
  ∧ ∃ v v', pack_verdict None = Ret v ∧ pack_verdict (Some "fail"%string) = Ret v'
      ∧ pv_input_hash v = pv_input_hash v'
      ∧ dec_kind (pv_decision v) = DkWarn ∧ dec_kind (pv_decision v') = DkFail.
Proof.
  split; [exact policy_unhashed|].
  assert (Hk : kinds_and_hashes (pack_verdict None) (pack_verdict (Some "fail"%string)) = true)
    by (vm_compute; reflexivity).
  generalize dependent (pack_verdict (Some "fail"%string)).
  generalize (pack_verdict None). intros m m' Hk.
  destruct m as [v|?| |], m' as [v'|?| |]; try discriminate Hk.
  exists v, v'. simpl in Hk. apply andb_prop in Hk as [Hh Hk].
  apply andb_prop in Hk as [Hw Hf]. apply bool_decide_eq_true in Hh, Hw, Hf. done.
Qed.
